(* ===== verification/_CoqProject ===== *)
-Q . S2P
Prelude.v
Text.v
Names.v
ApiGuard.v
EntityPool.v
Registry.v
LuaValue.v
Args.v
Invoker.v
EventBus.v
Dispatch.v
EntityPools.v
Scheduler.v
Stream.v
Config.v
Sandbox.v
Setup.v
Http.v
Hash.v
World.v
Runtime.v
ServerCalls.v
EntityType.v
PlayerMembers.v
VehicleMembers.v
ObjectMembers.v
BindMembers.v
ServerMembers.v
Enums.v
Plugin.v
Callbacks.v
Init.v
Bindings.v
ScriptRel.v
MemberRel.v
Members.v
Creates.v
Documented.v
Conforms.v
ArgDocs.v
ArgConforms.v
Interp.v
Safety.v
EventDocs.v
Demos.v
