(* ===== verification/Prelude.v ===== *)
(** VCMP-Lua: a plugin for the VC:MP game server that runs Lua scripts.
    This development models the plugin's own C++ code (src/src/) as executable
    definitions and proves what makes it correct. This file holds the library
    the others share: results of C++ calls, state-passing programs, relations
    that programs respect, integers of a width, strings as bytes.

    * How the program works

    The server loads the plugin and calls [VcmpPluginInit], which installs one
    function per server event (plugin/callbacks.cpp). A [Runtime]
    (runtime/runtime.cpp) owns one Lua state and what lives with it: the entity
    pools, the event bus, the timers, the HTTP client and the per-frame steps.
    A callback updates the pools, raises an event for the scripts' handlers and
    runs what had to wait until Lua is idle. Scripts call back into C++ through
    bindings: methods and properties of entities, Server, Event, Timer, http,
    Logger, Hash, Stream. A binding may call the server, which may call the
    plugin again before it returns; so every component can be re-entered.

    * The files

    Values and calls: Text (the C++ string functions used by the parsers),
    LuaValue (Lua values, numbers, raw table reads; runtime/errors.cpp), Args
    (checked arguments and their errors; bindings/args.cpp), ApiGuard (reads of
    the server's function table; plugin/api_guard.hpp), Invoker (the one way to
    call Lua; core/invoker.hpp).

    Components, each a state record with its operations: EntityPool and
    EntityPools (core/entity_pool.cpp), Registry (what a pool promises, as a map
    from ids to lifetimes without slots or machine integers), EventBus and Dispatch
    (core/event_bus.cpp), Scheduler (core/scheduler.cpp), Http
    (modules/http.cpp), Stream (bindings/stream.cpp), Config and Sandbox
    (runtime/config.cpp: the table of settings, and the run of the file that
    returns it), Setup (runtime/preload.cpp and the set-up of a Lua state), Hash
    (modules/hash.cpp), Names (bindings/names.cpp), Enums (bindings/enums.cpp,
    removed_globals.cpp). A component that calls Lua
    is written against classes: [LuaHost] says how Lua is called, [HasBus],
    [HasTimers], [HasHttp] and [HasPools] where the component's state is kept in
    a larger one; so it sees its own state change during the call.

    The plugin: World (the state of everything, and the interface [Env] to what
    is outside: Lua code, files, the server's queries, libcurl), Runtime
    (runtime/runtime.cpp, core/frame_pump.cpp), Plugin (starting, reloading,
    shutting down; plugin/callbacks.cpp), Callbacks (every callback of the
    server), Init (plugin/callbacks.cpp, runtime/libraries.cpp, runtime/log.cpp),
    Bindings (bindings/event.cpp, timer.cpp, logger.cpp).

    The bindings that call the server: ServerCalls (the function table, [Check],
    [ReadText], [RefOf], [Created]; bindings/args.hpp, entity_type.hpp),
    EntityType (argument types as readers of the Lua stack, members of a class;
    bindings/args.hpp, entities.cpp), PlayerMembers, VehicleMembers,
    ObjectMembers, BindMembers, ServerMembers (bindings/player.cpp, vehicle.cpp,
    object.cpp, pickup.cpp, checkpoint.cpp, bind.cpp, server.cpp), Members (the
    seven classes together), Creates (the documented forms of the arguments of
    [create] and the call of the server each stands for), Documented and Conforms
    (the members, uses and types that docs/api/ promises, and the proof that the
    code keeps them), ArgDocs and ArgConforms (the same for the types of the
    arguments), EventDocs (the same for the server's events). A member is a value of
    type [member]; a class is the list of its members with their Lua names, in the order of the code. A server
    function is a parameter: a function of its arguments and the whole state to an
    answer and a new state, so it may do what its callbacks do.

    Everything together: ScriptRel (the relation every binding and every callback
    during a call into Lua keeps), MemberRel (the same for the members of the
    classes, by type classes that follow the combinators of EntityType), Interp
    (scripts as trees of binding calls and callbacks, and the environment that
    runs them), Safety (sessions of callbacks), Demos (concrete plugins, on which
    the theorems are applied).

    * The main theorems

    - The plugin as a whole: [every_session_is_safe], [pools_follow_the_server],
      [player_valid_during_disconnect], [nested_callback_keeps_the_runtime],
      [deferred_shutdown_runs], [Shutdown_releases_before_close],
      [Init_installs_all_or_nothing].
    - Entities: [pool_invariant], [released_handle_stays_invalid],
      [pool_refines_registry] (the pool answers as the abstract registry does,
      whatever the sequence of operations), [Enumerate_adopts_exactly],
      [DeleteCreated_deletes_exactly].
    - Events: [Dispatch_refines] states that a dispatch with handlers that
      change the bus meanwhile is a loop over the handlers that were bound when
      it started; [callbacks_raise_the_documented_events] (which event each
      callback of the server raises, with which arguments, and which events the
      server is answered by); [bind_unbind_live].
    - Timers and requests: [Tick_runs_each_due_timer_once],
      [Pump_calls_back_each_finished_request], [ReadRequest_is_safe],
      [requests_are_verified].
    - The bindings of the server: [bindings_conform_to_the_documentation] (every
      documented member is there, is used as documented and gives values of the
      documented types, and no member is undocumented),
      [arguments_conform_to_the_documentation] (arguments that do not fit the
      documented types are refused with the error that names the first, before
      anything changes; others are not), [bindings_are_defined]
      (no member runs into undefined behaviour, whatever a script passes; the
      exception is stated), [dead_handles_raise], [removed_binds_are_released],
      [create_sends_the_documented_call], [create_gives_a_live_handle],
      [destroy_ends_the_handle],
      [rotation_table_ends_with_enough_slots], [rotation_round_trip],
      [wasted_settings_keep_the_rest].
    - Settings and set-up: [config_file_is_bounded] (the settings file ends within
      its budget of instructions unless it catches the error, and the plugin gets
      a configuration or a ConfigError), [ReadConfig_is_by_lookup],
      [builtin_modules_are_preloaded].
    - Data: [stream_round_trip],
      [write_respects_the_limit], [reads_stay_inside], [Int_argument_exact],
      [command_words_spec], [SkinId_has_a_name], [names_round_trip].
    - More lemmas of the same kind stand in the files without being listed here
      (the limit of pending requests, header lines, the compaction of the bus,
      which form of arguments is told from which, one object per live entity,
      the checks of Timer.create, hex, log levels, the log file, reload, scrypt's parameters, the C libraries,
      thisTimer, the taxi light, the constant tables).

    * Conventions and bounds

    A C++ call is an [outcome]: it returns, throws, or is undefined ([UB]). A
    call that changes the state is a [prog]. [UB] stands for a vector index, an
    iterator, a reference or a Lua stack slot that is not valid; the theorems
    show where it cannot happen. Machine integers are Z with their casts written
    out ([wrap], [swrap]); doubles and floats are [spec_float] of 53 and 24 bits.
    A Lua object is its identity; a table that a binding reads carries its
    entries in order. The order in which a compiler evaluates the arguments of a
    call is a parameter ([last_argument_first]) where more than one may raise.

    Loops over a list or a snapshot are structural. Fuel is used for: the words
    of a command and the border of a table (the length of the text and the number
    of entries are enough, and proved to be); the steps of a frame (as many as
    there are when it starts; only the constructor of [Runtime] adds one); the
    nesting of Lua calls ([interp]), which Lua itself bounds at LUAI_MAXCCALLS,
    and past which it raises an error as Lua does; the free Lua stack slots of a
    rotation table, which are a resource of the program and not of the model:
    running out is undefined behaviour, and the theorem says when it happens.

    * Not modelled

    Lua, sol2, libcurl, OpenSSL, spdlog and the server are outside: what the code
    relies on is a class with its laws ([LuaRespects], [ServerRespects],
    [GoodEnv], [LuaLib], [LuaVM], [LuaLibs], [Crypto]), and Interp, Demos and the
    files of the classes give instances. plugin/entry.cpp, which only forwards,
    and member registration with sol2 other than its effect are not modelled; nor
    is the build's list of embedded files (an argument of Setup). Collecting
    garbage is not modelled: references are dropped explicitly, and a finalizer
    runs only when a Lua state is closed ([env_close]).

    * Plan

    Next: the members whose argument forms are told apart other than [create]
    (moveTo, rotateTo, setSpeed, rotation tables) against docs/api/, in the way
    Creates does [create]; the texts of argument errors against the ones docs/api/
    quotes. *)
From stdpp Require Export base tactics list gmap strings pretty sorting.
From Stdlib Require Export ZArith Lia.

(** * C++ exceptions and the result of a C++ call *)

(** The exceptions the code throws, by the class that matters to a handler:
    each carries the text of [what()]. [LuaPanic] is thrown by the panic
    handler; [UnknownException] is a throw of something that is not a
    [std::exception]. *)
Inductive exn :=
  | RuntimeError (what : string)
  | InvalidArgument (what : string)
  | OutOfRange (what : string)
  | LengthError (what : string)
  | LogicError (what : string)
  | ConfigError (what : string)
  | LuaPanic (what : string)
  | UnknownException.

#[export] Instance exn_eq_dec : EqDecision exn.
Proof. solve_decision. Defined.

(** What a C++ call does: it returns, it throws, or it runs into undefined
    behaviour (an index or a reference that is not valid). *)
Inductive outcome (A : Type) :=
  | Ret (a : A)
  | Throw (e : exn)
  | UB.
Arguments Ret {A} a.
Arguments Throw {A} e.
Arguments UB {A}.

#[export] Instance outcome_eq_dec `{EqDecision A} : EqDecision (outcome A).
Proof. solve_decision. Defined.

#[export] Instance outcome_ret : MRet outcome := fun _ a => Ret a.
#[export] Instance outcome_bind : MBind outcome :=
  fun _ _ f o => match o with Ret a => f a | Throw e => Throw e | UB => UB end.

Definition throw_if (cond : bool) (e : exn) : outcome unit :=
  if cond then Throw e else Ret tt.

Definition is_UB {A} (o : outcome A) : bool :=
  match o with UB => true | _ => false end.

(** Computations on a state [W] that may throw. The state reached so far is
    kept on a throw: C++ does not roll back. *)
Definition prog (W A : Type) : Type := W -> outcome A * W.

Definition pret {W A} (a : A) : prog W A := fun w => (Ret a, w).
Definition pthrow {W A} (e : exn) : prog W A := fun w => (Throw e, w).
Definition plift {W A} (o : outcome A) : prog W A := fun w => (o, w).
Definition pget {W} : prog W W := fun w => (Ret w, w).
Definition pmodify {W} (f : W -> W) : prog W unit := fun w => (Ret tt, f w).
Definition pgets {W A} (f : W -> A) : prog W A := fun w => (Ret (f w), w).
Definition pbind {W A B} (m : prog W A) (k : A -> prog W B) : prog W B :=
  fun w =>
    match m w with
    | (Ret a, w') => k a w'
    | (Throw e, w') => (Throw e, w')
    | (UB, w') => (UB, w')
    end.

Declare Scope prog_scope.
Delimit Scope prog_scope with prog.
Notation "x <-- m ;; k" := (pbind m (fun x => k))
  (at level 100, m at next level, right associativity) : prog_scope.
Notation "m ;;; k" := (pbind m (fun _ => k))
  (at level 100, right associativity) : prog_scope.

Lemma pbind_ret {W A B} (m : prog W A) (k : A -> prog W B) w a w' :
  m w = (Ret a, w') -> pbind m k w = k a w'.
Proof. unfold pbind. by intros ->. Qed.

Lemma pbind_assoc {W A B C} (m : prog W A) (k : A -> prog W B) (l : B -> prog W C) w :
  pbind (pbind m k) l w = pbind m (fun a => pbind (k a) l) w.
Proof. unfold pbind. by destruct (m w) as [[] ?]. Qed.

(** A program that only ever moves the state along a preorder. Nothing is
    asked of a run into undefined behaviour. *)
Definition respects {W A} (R : W -> W -> Prop) (m : prog W A) : Prop :=
  forall w, is_UB (fst (m w)) = false -> R w (snd (m w)).

Section respects.
Context {W : Type} (R : W -> W -> Prop) `{!PreOrder R}.

Lemma respects_pret {A} (a : A) : respects R (pret a).
Proof. intros w _. reflexivity. Qed.

Lemma respects_plift {A} (o : outcome A) : respects R (plift o).
Proof. intros w _. reflexivity. Qed.

Lemma respects_pgets {A} (f : W -> A) : respects R (pgets f).
Proof. intros w _. reflexivity. Qed.

Lemma respects_pbind {A B} (m : prog W A) (k : A -> prog W B) :
  respects R m -> (forall a, respects R (k a)) -> respects R (pbind m k).
Proof.
  intros Hm Hk w. unfold pbind. specialize (Hm w).
  destruct (m w) as [[a|e|] w']; simpl in *; [|auto|done].
  intros Hub. etransitivity; [by apply Hm|by apply Hk].
Qed.
End respects.

(** * Machine integers *)

Open Scope Z_scope.

(** The value of [z] stored in an unsigned integer of [w] bits. *)
Definition wrap (w z : Z) : Z := z mod 2 ^ w.
(** The value of [z] stored in a signed (two's complement) integer of [w] bits. *)
Definition swrap (w z : Z) : Z := (z + 2 ^ (w - 1)) mod 2 ^ w - 2 ^ (w - 1).

Definition INT16_MIN : Z := -32768.
Definition INT16_MAX : Z := 32767.
Definition INT32_MIN : Z := -2147483648.
Definition INT32_MAX : Z := 2147483647.
Definition UINT32_MAX : Z := 4294967295.
Definition INT64_MIN : Z := -9223372036854775808.
Definition INT64_MAX : Z := 9223372036854775807.

Definition is_byte (z : Z) : Prop := 0 <= z < 256.
#[export] Instance is_byte_dec z : Decision (is_byte z).
Proof. unfold is_byte. apply _. Defined.

Lemma wrap_range w z : 0 <= w -> 0 <= wrap w z < 2 ^ w.
Proof. intros. apply Z.mod_pos_bound. by apply Z.pow_pos_nonneg. Qed.

Lemma wrap_small w z : 0 <= z < 2 ^ w -> wrap w z = z.
Proof. intros. by apply Z.mod_small. Qed.

Lemma wrap_idemp w z : wrap w (wrap w z) = wrap w z.
Proof. apply Zmod_mod. Qed.

Lemma swrap_range w z : 0 < w -> - 2 ^ (w - 1) <= swrap w z < 2 ^ (w - 1).
Proof.
  intros Hw. unfold swrap.
  assert (2 ^ w = 2 * 2 ^ (w - 1)) as E.
  { rewrite <- Z.pow_succ_r by lia. f_equal. lia. }
  assert (0 < 2 ^ w) by (apply Z.pow_pos_nonneg; lia).
  pose proof (Z.mod_pos_bound (z + 2 ^ (w - 1)) (2 ^ w)). lia.
Qed.

Lemma swrap_small w z : 0 < w -> - 2 ^ (w - 1) <= z < 2 ^ (w - 1) -> swrap w z = z.
Proof.
  intros Hw Hz. unfold swrap.
  assert (2 ^ w = 2 * 2 ^ (w - 1)) as E.
  { rewrite <- Z.pow_succ_r by lia. f_equal. lia. }
  rewrite Z.mod_small; lia.
Qed.

Lemma swrap_wrap w z : swrap w (wrap w z) = swrap w z.
Proof. unfold swrap, wrap. by rewrite Zplus_mod_idemp_l. Qed.

Lemma wrap_byte z : is_byte (wrap 8 z).
Proof. apply (wrap_range 8). lia. Qed.

(** * Generic list lemmas *)

Section lists.
Context {A : Type}.
Implicit Types (l : list A).

Lemma lookup_app_prefix l k i x : l !! i = Some x -> (l ++ k) !! i = Some x.
Proof. intros. by apply lookup_app_l_Some. Qed.

Lemma existsb_false_iff (f : A -> bool) l :
  existsb f l = false <-> forall x, x ∈ l -> f x = false.
Proof.
  split.
  - intros H x Hx. apply not_true_iff_false. intros Hf.
    apply not_true_iff_false in H. apply H. apply existsb_exists.
    exists x. split; [by apply list_elem_of_In|done].
  - intros H. apply not_true_iff_false. intros Hex.
    apply existsb_exists in Hex as (x & Hx & Hf).
    apply list_elem_of_In in Hx. rewrite (H x Hx) in Hf. done.
Qed.

Lemma forallb_iff (f : A -> bool) l :
  forallb f l = true <-> forall x, x ∈ l -> f x = true.
Proof. rewrite forallb_forall. by setoid_rewrite list_elem_of_In. Qed.
End lists.

(** The integers [lo, lo+1, ..., hi-1], as a C++ [for (id = lo; id < hi; ++id)]. *)
Definition zrange (lo hi : Z) : list Z :=
  (fun n : nat => lo + Z.of_nat n) <$> seq 0 (Z.to_nat (hi - lo)).

Lemma elem_of_zrange lo hi z : z ∈ zrange lo hi <-> lo <= z < hi.
Proof.
  unfold zrange. rewrite list_elem_of_fmap. setoid_rewrite elem_of_seq. split.
  - intros (n & -> & Hn). lia.
  - intros H. exists (Z.to_nat (z - lo)). lia.
Qed.

Lemma zrange_NoDup lo hi : NoDup (zrange lo hi).
Proof.
  unfold zrange. apply NoDup_fmap_2; [|apply NoDup_seq]. intros x y. lia.
Qed.

(** * Strings as byte sequences (std::string) *)

Definition byte_of_ascii (c : Ascii.ascii) : Z := Z.of_N (Ascii.N_of_ascii c).
Definition ascii_of_byte (z : Z) : Ascii.ascii := Ascii.ascii_of_N (Z.to_N z).

Fixpoint string_to_list (s : string) : list Ascii.ascii :=
  match s with String.EmptyString => [] | String.String c s => c :: string_to_list s end.
Fixpoint string_of_list (l : list Ascii.ascii) : string :=
  match l with [] => String.EmptyString | c :: l => String.String c (string_of_list l) end.

Lemma string_of_to_list s : string_of_list (string_to_list s) = s.
Proof. induction s; simpl; congruence. Qed.

Lemma string_to_of_list l : string_to_list (string_of_list l) = l.
Proof. induction l; simpl; congruence. Qed.

Lemma length_string_to_list s : length (string_to_list s) = String.length s.
Proof. induction s; simpl; congruence. Qed.

(** The text of a C string ([const char*]) ends at the first NUL. *)
Fixpoint c_str (s : string) : string :=
  match s with
  | String.EmptyString => String.EmptyString
  | String.String c s => if bool_decide (c = Ascii.zero) then String.EmptyString
                         else String.String c (c_str s)
  end.

Lemma byte_of_ascii_byte c : is_byte (byte_of_ascii c).
Proof.
  unfold is_byte, byte_of_ascii. pose proof (Ascii.N_ascii_bounded c). lia.
Qed.

Lemma ascii_of_byte_of_ascii c : ascii_of_byte (byte_of_ascii c) = c.
Proof.
  unfold ascii_of_byte, byte_of_ascii. rewrite N2Z.id. apply Ascii.ascii_N_embedding.
Qed.

Lemma byte_of_ascii_of_byte z : is_byte z -> byte_of_ascii (ascii_of_byte z) = z.
Proof.
  unfold is_byte, ascii_of_byte, byte_of_ascii. intros.
  rewrite Ascii.N_ascii_embedding; lia.
Qed.

(** * Hints and automation *)

Create HintDb vcmp.
#[export] Hint Resolve wrap_byte byte_of_ascii_byte : vcmp.
#[export] Hint Resolve respects_pret respects_plift respects_pgets respects_pbind : vcmp.

(** Splits every conjunction and [match] in sight, then uses the equations. *)
Ltac crush :=
  repeat (simpl in *; destruct_and?; case_match; simplify_eq/=); try done.
