(* ===== verification/Text.v ===== *)
(** The string operations of the C++ standard library the parsers of headers,
    commands and digests use, on byte strings. *)
From stdpp Require Import base tactics list strings.
From Stdlib Require Import ZArith Lia.
From S2P Require Import Prelude.
Open Scope Z_scope.

Abbreviation chars := (list Ascii.ascii) (only parsing).

Definition char (n : nat) : Ascii.ascii := Ascii.ascii_of_nat n.
Definition char_in (lo hi : Z) (c : Ascii.ascii) : bool :=
  (lo <=? byte_of_ascii c) && (byte_of_ascii c <=? hi).

(** [std::tolower], [std::toupper], [std::isalnum] in the C locale. *)
Definition is_upper (c : Ascii.ascii) : bool := char_in 65 90 c.
Definition is_lower (c : Ascii.ascii) : bool := char_in 97 122 c.
Definition is_digit (c : Ascii.ascii) : bool := char_in 48 57 c.
Definition isalnum (c : Ascii.ascii) : bool := is_upper c || is_lower c || is_digit c.
Definition tolower (c : Ascii.ascii) : Ascii.ascii :=
  if is_upper c then ascii_of_byte (byte_of_ascii c + 32) else c.
Definition toupper (c : Ascii.ascii) : Ascii.ascii :=
  if is_lower c then ascii_of_byte (byte_of_ascii c - 32) else c.

Definition map_string (f : Ascii.ascii -> Ascii.ascii) (s : string) : string :=
  string_of_list (f <$> string_to_list s).
Definition lowercase : string -> string := map_string tolower.
Definition uppercase : string -> string := map_string toupper.

Definition all_chars (p : Ascii.ascii -> bool) (s : string) : bool := forallb p (string_to_list s).
Definition any_char (p : Ascii.ascii -> bool) (s : string) : bool := existsb p (string_to_list s).

(** [while (!v.empty() && p(v.front())) v.remove_prefix(1)], and the same at the back. *)
Fixpoint drop_while (p : Ascii.ascii -> bool) (l : chars) : chars :=
  match l with [] => [] | c :: r => if p c then drop_while p r else l end.
Definition drop_while_end (p : Ascii.ascii -> bool) (l : chars) : chars :=
  reverse (drop_while p (reverse l)).

(** [find(c, pos)] from the start: the characters before the first that [p]
    holds of, and the rest, which begins with it. *)
Fixpoint split_at (p : Ascii.ascii -> bool) (l : chars) : chars * chars :=
  match l with
  | [] => ([], [])
  | c :: r => if p c then ([], l) else let '(a, b) := split_at p r in (c :: a, b)
  end.

Definition is_char (c : Ascii.ascii) (d : Ascii.ascii) : bool := bool_decide (d = c).

(** [starts_with]. *)
Fixpoint starts_with (p l : chars) : bool :=
  match p, l with
  | [], _ => true
  | c :: p, d :: l => bool_decide (c = d) && starts_with p l
  | _, [] => false
  end.

(** [find(needle)]: what is before the first occurrence, if there is one. *)
Fixpoint before_first (needle l : chars) : option chars :=
  if starts_with needle l then Some []
  else match l with [] => None | c :: r => (c ::.) <$> before_first needle r end.

(** ** Lemmas *)

Lemma split_at_app p l : fst (split_at p l) ++ snd (split_at p l) = l.
Proof.
  induction l as [|c l IH]; simpl; [done|]. destruct (p c); [done|].
  destruct (split_at p l); simpl in *. by rewrite IH.
Qed.

Lemma split_at_before p l c : c ∈ fst (split_at p l) -> p c = false.
Proof.
  induction l as [|d l IH]; simpl; [by intros ?%not_elem_of_nil|].
  destruct (p d) eqn:E; simpl; [by intros ?%not_elem_of_nil|].
  destruct (split_at p l); simpl in *. intros [->|Hin]%elem_of_cons; auto.
Qed.

Lemma split_at_stop p l c r : snd (split_at p l) = c :: r -> p c = true.
Proof.
  induction l as [|d l IH]; simpl; [done|]. destruct (p d) eqn:E; simpl; [by intros [= <- _]|].
  destruct (split_at p l); simpl in *. auto.
Qed.

Lemma split_at_none p l c r :
  (forall d, d ∈ l -> p d = false) -> p c = true -> split_at p (l ++ c :: r) = (l, c :: r).
Proof.
  intros Hl Hc. induction l as [|d l IH]; simpl; [by rewrite Hc|].
  rewrite (Hl d) by constructor. rewrite IH; [done|]. intros. apply Hl. by constructor.
Qed.

Lemma drop_while_suffix p l : exists a, l = a ++ drop_while p l /\ forall c, c ∈ a -> p c = true.
Proof.
  induction l as [|c l [a [Ha Hp]]]; simpl.
  - exists []. split; [done|]. by intros c ?%not_elem_of_nil.
  - destruct (p c) eqn:E.
    + exists (c :: a). split; [simpl; by f_equal|]. intros d [->|Hd]%elem_of_cons; auto.
    + exists []. split; [done|]. by intros d ?%not_elem_of_nil.
Qed.

Lemma drop_while_head p l c r : drop_while p l = c :: r -> p c = false.
Proof. induction l as [|d l IH]; simpl; [done|]. destruct (p d) eqn:E; [done|]. by intros [= <- _]. Qed.

Lemma drop_while_id p l : (forall c r, l = c :: r -> p c = false) -> drop_while p l = l.
Proof. destruct l as [|c r]; simpl; [done|]. intros H. by rewrite (H c r eq_refl). Qed.

Lemma drop_while_subset p l c : c ∈ drop_while p l -> c ∈ l.
Proof.
  intros H. destruct (drop_while_suffix p l) as (a & E & _). rewrite E. apply elem_of_app. by right.
Qed.

Lemma drop_while_end_subset p l c : c ∈ drop_while_end p l -> c ∈ l.
Proof.
  unfold drop_while_end. rewrite elem_of_reverse. intros H%drop_while_subset.
  by rewrite elem_of_reverse in H.
Qed.

Lemma drop_while_end_id p l : (forall a c, l = a ++ [c] -> p c = false) -> drop_while_end p l = l.
Proof.
  intros H. unfold drop_while_end. rewrite drop_while_id; [apply reverse_involutive|].
  intros c r E. apply (H (reverse r)).
  rewrite <- (reverse_involutive l), E. by rewrite reverse_cons.
Qed.

Lemma starts_with_app p l : starts_with p l = true <-> exists r, l = p ++ r.
Proof.
  revert l. induction p as [|c p IH]; intros l; simpl.
  - split; [by exists l|done].
  - destruct l as [|d l]; [split; [done|by intros [r ?]]|].
    rewrite andb_true_iff, IH, bool_decide_eq_true. split.
    + intros [-> [r ->]]. by exists r.
    + intros [r [= -> ->]]. eauto.
Qed.

Lemma string_app_list s t : string_to_list (s +:+ t) = string_to_list s ++ string_to_list t.
Proof. induction s as [|c s IH]; simpl; [done|]. by f_equal. Qed.

Lemma all_chars_spec p s : all_chars p s = true <-> forall c, c ∈ string_to_list s -> p c = true.
Proof. apply forallb_iff. Qed.

Lemma any_char_false p s : any_char p s = false <-> forall c, c ∈ string_to_list s -> p c = false.
Proof. apply existsb_false_iff. Qed.
