(* ===== verification/Names.v ===== *)
(** The names of skins and weapons, and the heuristics that find the id a name
    refers to (src/bindings/names.cpp). Each case of the outer [switch] of
    [SkinId] is a definition, with the tests in the order of the code; [d] is
    the last character of [str], the name in lower case without the characters
    that are neither letters nor digits. *)
From stdpp Require Import base tactics list strings.
From Stdlib Require Import ZArith Lia Strings.Ascii.
From S2P Require Import Prelude.
From S2P Require Import Text.
Open Scope Z_scope.

(** ** The tables *)

(** [SkinIdValue], the constants of 2.x. *)
Definition SKIN_ID_UNKNOWN : Z := -1.
Definition SKIN_ID_TOMMY_VERCETTI : Z := 0.
Definition SKIN_ID_COP : Z := 1.
Definition SKIN_ID_SWAT : Z := 2.
Definition SKIN_ID_FBI : Z := 3.
Definition SKIN_ID_ARMY : Z := 4.
Definition SKIN_ID_PARAMEDIC : Z := 5.
Definition SKIN_ID_FIREMAN : Z := 6.
Definition SKIN_ID_GOLF_GUY_A : Z := 7.
Definition SKIN_ID_BUM_LADY_A : Z := 9.
Definition SKIN_ID_BUM_LADY_B : Z := 10.
Definition SKIN_ID_PUNK_A : Z := 11.
Definition SKIN_ID_LAWYER : Z := 12.
Definition SKIN_ID_SPANISH_LADY_A : Z := 13.
Definition SKIN_ID_SPANISH_LADY_B : Z := 14.
Definition SKIN_ID_COOL_GUY_A : Z := 15.
Definition SKIN_ID_ARABIC_GUY : Z := 16.
Definition SKIN_ID_BEACH_LADY_A : Z := 17.
Definition SKIN_ID_BEACH_LADY_B : Z := 18.
Definition SKIN_ID_BEACH_GUY_A : Z := 19.
Definition SKIN_ID_BEACH_GUY_B : Z := 20.
Definition SKIN_ID_OFFICE_LADY_A : Z := 21.
Definition SKIN_ID_WAITRESS_A : Z := 22.
Definition SKIN_ID_FOOD_LADY : Z := 23.
Definition SKIN_ID_PROSTITUTE_A : Z := 24.
Definition SKIN_ID_BUM_LADY_C : Z := 25.
Definition SKIN_ID_BUM_GUY_A : Z := 26.
Definition SKIN_ID_GARBAGEMAN_A : Z := 27.
Definition SKIN_ID_TAXI_DRIVER_A : Z := 28.
Definition SKIN_ID_HATIAN_A : Z := 29.
Definition SKIN_ID_CRIMINAL_A : Z := 30.
Definition SKIN_ID_HOOD_LADY : Z := 31.
Definition SKIN_ID_GRANNY_A : Z := 32.
Definition SKIN_ID_BUSINESS_MAN_A : Z := 33.
Definition SKIN_ID_CHURCH_GUY : Z := 34.
Definition SKIN_ID_CLUB_LADY : Z := 35.
Definition SKIN_ID_CHURCH_LADY : Z := 36.
Definition SKIN_ID_PIMP : Z := 37.
Definition SKIN_ID_BEACH_LADY_C : Z := 38.
Definition SKIN_ID_BEACH_GUY_C : Z := 39.
Definition SKIN_ID_BEACH_LADY_D : Z := 40.
Definition SKIN_ID_BEACH_GUY_D : Z := 41.
Definition SKIN_ID_BUSINESS_MAN_B : Z := 42.
Definition SKIN_ID_PROSTITUTE_B : Z := 43.
Definition SKIN_ID_BUM_LADY_D : Z := 44.
Definition SKIN_ID_BUM_GUY_B : Z := 45.
Definition SKIN_ID_HATIAN_B : Z := 46.
Definition SKIN_ID_CONSTRUCTION_WORKER_A : Z := 47.
Definition SKIN_ID_PUNK_B : Z := 48.
Definition SKIN_ID_PROSTITUTE_C : Z := 49.
Definition SKIN_ID_GRANNY_B : Z := 50.
Definition SKIN_ID_PUNK_C : Z := 51.
Definition SKIN_ID_BUSINESS_MAN_C : Z := 52.
Definition SKIN_ID_SPANISH_LADY_C : Z := 53.
Definition SKIN_ID_SPANISH_LADY_D : Z := 54.
Definition SKIN_ID_COOL_GUY_B : Z := 55.
Definition SKIN_ID_BUSINESS_MAN_D : Z := 56.
Definition SKIN_ID_BEACH_LADY_E : Z := 57.
Definition SKIN_ID_BEACH_GUY_E : Z := 58.
Definition SKIN_ID_BEACH_LADY_F : Z := 59.
Definition SKIN_ID_BEACH_GUY_F : Z := 60.
Definition SKIN_ID_CONSTRUCTION_WORKER_B : Z := 61.
Definition SKIN_ID_GOLF_GUY_B : Z := 62.
Definition SKIN_ID_GOLF_LADY : Z := 63.
Definition SKIN_ID_GOLF_GUY_C : Z := 64.
Definition SKIN_ID_BEACH_LADY_G : Z := 65.
Definition SKIN_ID_BEACH_GUY_G : Z := 66.
Definition SKIN_ID_OFFICE_LADY_B : Z := 67.
Definition SKIN_ID_BUSINESS_MAN_E : Z := 68.
Definition SKIN_ID_BUSINESS_MAN_F : Z := 69.
Definition SKIN_ID_PROSTITUTE_D : Z := 70.
Definition SKIN_ID_BUM_LADY_E : Z := 71.
Definition SKIN_ID_BUM_GUY_C : Z := 72.
Definition SKIN_ID_SPANISH_GUY : Z := 73.
Definition SKIN_ID_TAXI_DRIVER_B : Z := 74.
Definition SKIN_ID_GYM_LADY : Z := 75.
Definition SKIN_ID_GYM_GUY : Z := 76.
Definition SKIN_ID_SKATE_LADY : Z := 77.
Definition SKIN_ID_SKATE_GUY : Z := 78.
Definition SKIN_ID_SHOPPER_A : Z := 79.
Definition SKIN_ID_SHOPPER_B : Z := 80.
Definition SKIN_ID_TOURIST_A : Z := 81.
Definition SKIN_ID_TOURIST_B : Z := 82.
Definition SKIN_ID_CUBAN_A : Z := 83.
Definition SKIN_ID_CUBAN_B : Z := 84.
Definition SKIN_ID_HATIAN_C : Z := 85.
Definition SKIN_ID_HATIAN_D : Z := 86.
Definition SKIN_ID_SHARK_A : Z := 87.
Definition SKIN_ID_SHARK_B : Z := 88.
Definition SKIN_ID_DIAZ_GUY_A : Z := 89.
Definition SKIN_ID_DIAZ_GUY_B : Z := 90.
Definition SKIN_ID_DBP_SECURITY_A : Z := 91.
Definition SKIN_ID_DBP_SECURITY_B : Z := 92.
Definition SKIN_ID_BIKER_A : Z := 93.
Definition SKIN_ID_BIKER_B : Z := 94.
Definition SKIN_ID_VERCETTI_GUY_A : Z := 95.
Definition SKIN_ID_VERCETTI_GUY_B : Z := 96.
Definition SKIN_ID_UNDERCOVER_COP_A : Z := 97.
Definition SKIN_ID_UNDERCOVER_COP_B : Z := 98.
Definition SKIN_ID_UNDERCOVER_COP_C : Z := 99.
Definition SKIN_ID_UNDERCOVER_COP_D : Z := 100.
Definition SKIN_ID_UNDERCOVER_COP_E : Z := 101.
Definition SKIN_ID_UNDERCOVER_COP_F : Z := 102.
Definition SKIN_ID_RICH_GUY : Z := 103.
Definition SKIN_ID_COOL_GUY_C : Z := 104.
Definition SKIN_ID_PROSTITUTE_E : Z := 105.
Definition SKIN_ID_PROSTITUTE_F : Z := 106.
Definition SKIN_ID_LOVE_FIST_A : Z := 107.
Definition SKIN_ID_KEN_ROSENBURG : Z := 108.
Definition SKIN_ID_CANDY_SUXX : Z := 109.
Definition SKIN_ID_HILARY : Z := 110.
Definition SKIN_ID_LOVE_FIST_B : Z := 111.
Definition SKIN_ID_PHIL : Z := 112.
Definition SKIN_ID_ROCKSTAR_GUY : Z := 113.
Definition SKIN_ID_SONNY : Z := 114.
Definition SKIN_ID_LANCE_A : Z := 115.
Definition SKIN_ID_MERCADES_A : Z := 116.
Definition SKIN_ID_LOVE_FIST_C : Z := 117.
Definition SKIN_ID_ALEX_SRUB : Z := 118.
Definition SKIN_ID_LANCE_COP : Z := 119.
Definition SKIN_ID_LANCE_B : Z := 120.
Definition SKIN_ID_CORTEZ : Z := 121.
Definition SKIN_ID_LOVE_FIST_D : Z := 122.
Definition SKIN_ID_COLUMBIAN_GUY_A : Z := 123.
Definition SKIN_ID_HILARY_ROBBER : Z := 124.
Definition SKIN_ID_MERCADES_B : Z := 125.
Definition SKIN_ID_CAM : Z := 126.
Definition SKIN_ID_CAM_ROBBER : Z := 127.
Definition SKIN_ID_PHIL_ONE_ARM : Z := 128.
Definition SKIN_ID_PHIL_ROBBER : Z := 129.
Definition SKIN_ID_COOL_GUY_D : Z := 130.
Definition SKIN_ID_PIZZAMAN : Z := 131.
Definition SKIN_ID_TAXI_DRIVER_C : Z := 132.
Definition SKIN_ID_TAXI_DRIVER_D : Z := 133.
Definition SKIN_ID_SAILOR_A : Z := 134.
Definition SKIN_ID_SAILOR_B : Z := 135.
Definition SKIN_ID_SAILOR_C : Z := 136.
Definition SKIN_ID_CHEF : Z := 137.
Definition SKIN_ID_CRIMINAL_B : Z := 138.
Definition SKIN_ID_FRENCH_GUY : Z := 139.
Definition SKIN_ID_GARBAGEMAN_B : Z := 140.
Definition SKIN_ID_HATIAN_E : Z := 141.
Definition SKIN_ID_WAITRESS_B : Z := 142.
Definition SKIN_ID_SONNY_GUY_A : Z := 143.
Definition SKIN_ID_SONNY_GUY_B : Z := 144.
Definition SKIN_ID_SONNY_GUY_C : Z := 145.
Definition SKIN_ID_COLUMBIAN_GUY_B : Z := 146.
Definition SKIN_ID_THUG_A : Z := 147.
Definition SKIN_ID_BEACH_GUY_H : Z := 148.
Definition SKIN_ID_GARBAGEMAN_C : Z := 149.
Definition SKIN_ID_GARBAGEMAN_D : Z := 150.
Definition SKIN_ID_GARBAGEMAN_E : Z := 151.
Definition SKIN_ID_TRANNY : Z := 152.
Definition SKIN_ID_THUG_B : Z := 153.
Definition SKIN_ID_SPANDEX_GUY_A : Z := 154.
Definition SKIN_ID_SPANDEX_GUY_B : Z := 155.
Definition SKIN_ID_STRIPPER_A : Z := 156.
Definition SKIN_ID_STRIPPER_B : Z := 157.
Definition SKIN_ID_STRIPPER_C : Z := 158.
Definition SKIN_ID_STORE_CLERK : Z := 159.

(** The first rows of [kSkinNames]. *)
Definition kSkinNames1 : list (Z * string) :=
  [(0, "Tommy Vercetti"); (1, "Cop"); (2, "SWAT"); (3, "FBI"); (4, "Army"); (5, "Paramedic");
   (6, "Firefighter"); (7, "Golf Guy #1"); (9, "Bum Lady #1"); (10, "Bum Lady #2");
   (11, "Punk #1"); (12, "Lawyer"); (13, "Spanish Lady #1"); (14, "Spanish Lady #2");
   (15, "Cool Guy #1"); (16, "Arabic Guy"); (17, "Beach Lady #1"); (18, "Beach Lady #2");
   (19, "Beach Guy #1"); (20, "Beach Guy #2"); (21, "Office Lady #1"); (22, "Waitress #1");
   (23, "Food Lady"); (24, "Prostitute #1"); (25, "Bum Lady #3"); (26, "Bum Guy #1");
   (27, "Garbageman #1"); (28, "Taxi Driver #1"); (29, "Haitian #1"); (30, "Criminal #1");
   (31, "Hood Lady"); (32, "Granny #1"); (33, "Businessman #1"); (34, "Church Guy");
   (35, "Club Lady"); (36, "Church Lady"); (37, "Pimp"); (38, "Beach Lady #3");
   (39, "Beach Guy #3"); (40, "Beach Lady #4"); (41, "Beach Guy #4"); (42, "Businessman #2");
   (43, "Prostitute #2"); (44, "Bum Lady #4"); (45, "Bum Guy #2"); (46, "Haitian #2");
   (47, "Construction Worker #1"); (48, "Punk #2"); (49, "Prostitute #3"); (50, "Granny #2");
   (51, "Punk #3"); (52, "Businessman #3"); (53, "Spanish Lady #3"); (54, "Spanish Lady #4");
   (55, "Cool Guy #2"); (56, "Businessman #4"); (57, "Beach Lady #5"); (58, "Beach Guy #5");
   (59, "Beach Lady #6"); (60, "Beach Guy #6"); (61, "Construction Worker #2");
   (62, "Golf Guy #2"); (63, "Golf Lady"); (64, "Golf Guy #3"); (65, "Beach Lady #7");
   (66, "Beach Guy #7"); (67, "Office Lady #2"); (68, "Businessman #5"); (69, "Businessman #6");
   (70, "Prostitute #2"); (71, "Bum Lady #4"); (72, "Bum Guy #3"); (73, "Spanish Guy");
   (74, "Taxi Driver #2"); (75, "Gym Lady")].

(** The other rows. *)
Definition kSkinNames2 : list (Z * string) :=
  [(76, "Gym Guy"); (77, "Skate Lady"); (78, "Skate Guy"); (79, "Shopper #1");
   (80, "Shopper #2"); (81, "Tourist #1"); (82, "Tourist #2"); (83, "Cuban #1");
   (84, "Cuban #2"); (85, "Haitian #3"); (86, "Haitian #4"); (87, "Shark #1"); (88, "Shark #2");
   (89, "Diaz Guy #1"); (90, "Diaz Guy #2"); (91, "DBP Security #1"); (92, "DBP Security #2");
   (93, "Biker #1"); (94, "Biker #2"); (95, "Vercetti Guy #1"); (96, "Vercetti Guy #2");
   (97, "Undercover Cop #1"); (98, "Undercover Cop #2"); (99, "Undercover Cop #3");
   (100, "Undercover Cop #4"); (101, "Undercover Cop #5"); (102, "Undercover Cop #6");
   (103, "Rich Guy"); (104, "Cool Guy #3"); (105, "Prostitute #3"); (106, "Prostitute #4");
   (107, "Love Fist #1"); (108, "Ken Rosenburg"); (109, "Candy Suxx"); (110, "Hilary");
   (111, "Love Fist #2"); (112, "Phil"); (113, "Rockstar Guy"); (114, "Sonny"); (115, "Lance");
   (116, "Mercedes"); (117, "Love Fist #3"); (118, "Alex Shrub"); (119, "Lance (Cop)");
   (120, "Lance"); (121, "Cortez"); (122, "Love Fist #4"); (123, "Columbian Guy #1");
   (124, "Hilary (Robber)"); (125, "Mercedes"); (126, "Cam"); (127, "Cam (Robber)");
   (128, "Phil (One Arm)"); (129, "Phil (Robber)"); (130, "Cool Guy #4"); (131, "Pizza Man");
   (132, "Taxi Driver #1"); (133, "Taxi Driver #2"); (134, "Sailor #1"); (135, "Sailor #2");
   (136, "Sailor #3"); (137, "Chef"); (138, "Criminal #2"); (139, "French Guy");
   (140, "Garbageman #2"); (141, "Haitian #5"); (142, "Waitress #2"); (143, "Sonny Guy #1");
   (144, "Sonny Guy #2"); (145, "Sonny Guy #3"); (146, "Columbian Guy #2"); (147, "Haitian #6");
   (148, "Beach Guy #8"); (149, "Garbageman #3"); (150, "Garbageman #4"); (151, "Garbageman #5");
   (152, "Tranny"); (153, "Thug #5"); (154, "SpandEx Guy #1"); (155, "SpandEx Guy #2");
   (156, "Stripper #1"); (157, "Stripper #2"); (158, "Stripper #3"); (159, "Store Clerk");
   (161, "Tommy with Suit"); (162, "Worker Tommy"); (163, "Golfer Tommy"); (164, "Cuban Tommy");
   (165, "VCPD Tommy"); (166, "Bank Robber Tommy"); (167, "Street Tommy"); (168, "Mafia Tommy");
   (169, "Jogger Tommy #1"); (170, "Jogger Tommy #2"); (171, "Guy With Suit #1");
   (172, "Guy With Suit #3"); (173, "Prostitute #5"); (174, "Rico"); (175, "Prostitute #3");
   (176, "Club Lady"); (177, "Prostitute #2"); (178, "Skull T-Shirt Guy");
   (179, "Easter Egg Tommy"); (180, "Diaz Gangster #1"); (181, "Diaz Gangster #2");
   (182, "Hood Lady"); (183, "Punk #1"); (184, "Tray Lady"); (185, "Kent Paul");
   (186, "Taxi Driver #1"); (187, "Deformed Ken Rosenberg"); (188, "Deformed Woman");
   (189, "Deformed Man"); (190, "Deformed Cortez"); (191, "Deformed Lance Vance");
   (192, "Thief #1"); (193, "Thief #2"); (194, "Thief #3")].

(** [kSkinNames]. *)
Definition kSkinNames : list (Z * string) := kSkinNames1 ++ kSkinNames2.

(** [kWeaponNames]: weapons and death reasons. *)
Definition kWeaponNames : list (Z * string) :=
  [(0, "Unarmed"); (1, "Brass Knuckles"); (2, "Screwdriver"); (3, "Golf Club");
   (4, "Nightstick"); (5, "Knife"); (6, "Baseball Bat"); (7, "Hammer"); (8, "Meat Cleaver");
   (9, "Machete"); (10, "Katana"); (11, "Chainsaw"); (12, "Grenade");
   (13, "Remote Detonation Grenade"); (14, "Tear Gas"); (15, "Molotov Cocktails");
   (16, "Rocket"); (17, "Colt .45"); (18, "Python"); (19, "Pump-Action Shotgun");
   (20, "SPAS-12 Shotgun"); (21, "Stubby Shotgun"); (22, "TEC-9"); (23, "Uzi");
   (24, "Silenced Ingram"); (25, "MP5"); (26, "M4"); (27, "Ruger"); (28, "Sniper Rifle");
   (29, "Laserscope Sniper Rifle"); (30, "Rocket Launcher"); (31, "Flamethrower"); (32, "M60");
   (33, "Minigun"); (34, "Explosion"); (35, "Helicannon"); (36, "Camera"); (39, "Vehicle");
   (41, "Explosion"); (42, "Driveby"); (43, "Drowned"); (44, "Fall"); (51, "Explosion");
   (70, "Suicide")].

(** The first row of a table with the id. *)
Fixpoint name_of (table : list (Z * string)) (id : Z) : option string :=
  match table with
  | [] => None
  | (k, text) :: table => if k =? id then Some text else name_of table id
  end.

(** [SkinName(id)] ([None]: null) and [WeaponName(id)]. *)
Definition SkinName (id : Z) : option string := name_of kSkinNames id.
Definition WeaponName (id : Z) : string := default "Unknown" (name_of kWeaponNames id).

(** ** Characters *)

(** [c == x], and a character used as a condition. *)
Definition eqc (x c : Ascii.ascii) : bool := Ascii.eqb c x.
Definition nz (c : Ascii.ascii) : bool := negb (Ascii.eqb c Ascii.zero).
(** [str[n]]; the code reads it only where [n < len]. *)
Definition str_at (str : list Ascii.ascii) (n : nat) : Ascii.ascii := nth n str Ascii.zero.
(** [name.size() > n ? Lower(name[n]) : 0]. *)
Definition Lower : Ascii.ascii -> Ascii.ascii := tolower.
Definition significant (name : list Ascii.ascii) (n : nat) : Ascii.ascii :=
  if (n <? length name)%nat then Lower (nth n name Ascii.zero) else Ascii.zero.

(** ** Skins *)

Open Scope char_scope.

(** case 'a'. *)
Definition skin_a (b c d : Ascii.ascii) (str : list Ascii.ascii) : Z :=
  if eqc "l" b || eqc "s" b then SKIN_ID_ALEX_SRUB
  else if eqc "g" b then SKIN_ID_ARABIC_GUY
  else if eqc "r" b then
    (if nz c && eqc "a" c then SKIN_ID_ARABIC_GUY
    else if nz c && eqc "m" c then SKIN_ID_ARMY
    else SKIN_ID_UNKNOWN)
  else SKIN_ID_UNKNOWN.

(** case 'b'. *)
Definition skin_b (b c d : Ascii.ascii) (str : list Ascii.ascii) : Z :=
  if nz b && eqc "e" b && (nz c && eqc "g" c || (6 <=? length str)%nat && eqc "g" (str_at str 5)) then
    (if eqc "1" d || eqc "a" d then SKIN_ID_BEACH_GUY_A
    else if eqc "2" d || eqc "b" d then SKIN_ID_BEACH_GUY_B
    else if eqc "3" d || eqc "c" d then SKIN_ID_BEACH_GUY_C
    else if eqc "4" d || eqc "d" d then SKIN_ID_BEACH_GUY_D
    else if eqc "5" d || eqc "e" d then SKIN_ID_BEACH_GUY_E
    else if eqc "6" d || eqc "f" d then SKIN_ID_BEACH_GUY_F
    else if eqc "7" d || eqc "g" d then SKIN_ID_BEACH_GUY_G
    else if eqc "8" d || eqc "h" d then SKIN_ID_BEACH_GUY_H
    else SKIN_ID_UNKNOWN)
  else if nz b && eqc "e" b && (nz c && eqc "l" c || (6 <=? length str)%nat && eqc "l" (str_at str 5)) then
    (if eqc "1" d || eqc "a" d then SKIN_ID_BEACH_LADY_A
    else if eqc "2" d || eqc "b" d then SKIN_ID_BEACH_LADY_B
    else if eqc "3" d || eqc "c" d then SKIN_ID_BEACH_LADY_C
    else if eqc "4" d || eqc "d" d then SKIN_ID_BEACH_LADY_D
    else if eqc "5" d || eqc "e" d then SKIN_ID_BEACH_LADY_E
    else if eqc "6" d || eqc "f" d then SKIN_ID_BEACH_LADY_F
    else if eqc "7" d || eqc "g" d then SKIN_ID_BEACH_LADY_G
    else SKIN_ID_UNKNOWN)
  else if nz b && eqc "i" b && (eqc "1" d || eqc "a" d) then SKIN_ID_BIKER_A
  else if nz b && eqc "i" b && (eqc "2" d || eqc "b" d) then SKIN_ID_BIKER_B
  else if nz b && eqc "u" b && (nz c && (eqc "m" c || eqc "g" c || eqc "l" c)) then
    (if eqc "g" c || (4 <=? length str)%nat && eqc "g" (str_at str 3) then
      (if eqc "1" d || eqc "a" d then SKIN_ID_BUM_GUY_A
      else if eqc "2" d || eqc "b" d then SKIN_ID_BUM_GUY_B
      else if eqc "3" d || eqc "c" d then SKIN_ID_BUM_GUY_C
      else SKIN_ID_UNKNOWN)
    else if eqc "l" c || (4 <=? length str)%nat && eqc "l" (str_at str 3) then
      (if eqc "1" d || eqc "a" d then SKIN_ID_BUM_LADY_A
      else if eqc "2" d || eqc "b" d then SKIN_ID_BUM_LADY_B
      else if eqc "2" d || eqc "c" d then SKIN_ID_BUM_LADY_C
      else if eqc "3" d || eqc "d" d then SKIN_ID_BUM_LADY_D
      else if eqc "4" d || eqc "e" d then SKIN_ID_BUM_LADY_E
      else SKIN_ID_UNKNOWN)
    else SKIN_ID_UNKNOWN)
  else if nz b && eqc "u" b && (nz c && eqc "s" c || (10 <=? length str)%nat && eqc "m" (str_at str 9)) then
    (if eqc "1" d || eqc "a" d then SKIN_ID_BUSINESS_MAN_A
    else if eqc "2" d || eqc "b" d then SKIN_ID_BUSINESS_MAN_B
    else if eqc "3" d || eqc "c" d then SKIN_ID_BUSINESS_MAN_C
    else if eqc "4" d || eqc "d" d then SKIN_ID_BUSINESS_MAN_D
    else if eqc "5" d || eqc "e" d then SKIN_ID_BUSINESS_MAN_E
    else if eqc "6" d || eqc "f" d then SKIN_ID_BUSINESS_MAN_F
    else SKIN_ID_UNKNOWN)
  else SKIN_ID_UNKNOWN.

(** case 'c'. *)
Definition skin_c (b c d : Ascii.ascii) (str : list Ascii.ascii) : Z :=
  if nz b && eqc "a" b then
    (if nz c && (eqc "m" c || eqc "r" c) && eqc "r" d then SKIN_ID_CAM_ROBBER
    else if nz c && eqc "m" c then SKIN_ID_CAM
    else if nz c && (eqc "n" c || eqc "s" c || eqc "x" d) then SKIN_ID_CANDY_SUXX
    else SKIN_ID_UNKNOWN)
  else if nz b && eqc "h" b then
    (if nz c && (eqc "e" c || eqc "f" d) then SKIN_ID_CHEF
    else if nz c && (eqc "u" c && (7 <=? length str)%nat && eqc "g" (str_at str 6) || eqc "g" c) then
      SKIN_ID_CHURCH_GUY
    else if nz c && (eqc "u" c && (7 <=? length str)%nat && eqc "l" (str_at str 6) || eqc "l" c) then
      SKIN_ID_CHURCH_LADY
    else SKIN_ID_UNKNOWN)
  else if nz b && eqc "l" b then SKIN_ID_CLUB_LADY
  else if nz b && eqc "o" b then
    (if nz c && (eqc "l" c && (10 <=? length str)%nat && eqc "g" (str_at str 9) || eqc "g" c) then
      (if eqc "1" d || eqc "a" d then SKIN_ID_COLUMBIAN_GUY_A
      else if eqc "2" d || eqc "b" d then SKIN_ID_COLUMBIAN_GUY_B
      else SKIN_ID_UNKNOWN)
    else if nz c && (eqc "n" c || (13 <=? length str)%nat && eqc "g" (str_at str 12)) then
      (if eqc "1" d || eqc "a" d then SKIN_ID_CONSTRUCTION_WORKER_A
      else if eqc "2" d || eqc "b" d then SKIN_ID_CONSTRUCTION_WORKER_B
      else SKIN_ID_UNKNOWN)
    else if nz c && eqc "o" c then
      (if eqc "1" d || eqc "a" d then SKIN_ID_COOL_GUY_A
      else if eqc "2" d || eqc "b" d then SKIN_ID_COOL_GUY_B
      else if eqc "3" d || eqc "c" d then SKIN_ID_COOL_GUY_C
      else if eqc "4" d || eqc "d" d then SKIN_ID_COOL_GUY_D
      else SKIN_ID_UNKNOWN)
    else if nz c && eqc "p" c then SKIN_ID_COP
    else if nz c && (eqc "r" c || eqc "z" c || eqc "z" d) then SKIN_ID_CORTEZ
    else SKIN_ID_UNKNOWN)
  else if nz b && eqc "r" b && (eqc "1" d || eqc "a" d) then SKIN_ID_CRIMINAL_A
  else if nz b && eqc "r" b && (eqc "2" d || eqc "b" d) then SKIN_ID_CRIMINAL_B
  else if nz b && eqc "u" b && (eqc "1" d || eqc "a" d) then SKIN_ID_CUBAN_A
  else if nz b && eqc "u" b && (eqc "2" d || eqc "b" d) then SKIN_ID_CUBAN_B
  else SKIN_ID_UNKNOWN.

(** case 'd'. *)
Definition skin_d (b c d : Ascii.ascii) (str : list Ascii.ascii) : Z :=
  if eqc "b" b || eqc "s" b then
    (if eqc "1" d || eqc "a" d then SKIN_ID_DBP_SECURITY_A
    else if eqc "2" d || eqc "b" d then SKIN_ID_DBP_SECURITY_B
    else SKIN_ID_UNKNOWN)
  else if eqc "i" b || eqc "z" b || eqc "g" b then
    (if eqc "1" d || eqc "a" d then SKIN_ID_DIAZ_GUY_A
    else if eqc "2" d || eqc "b" d then SKIN_ID_DIAZ_GUY_B
    else SKIN_ID_UNKNOWN)
  else SKIN_ID_UNKNOWN.

(** case 'f'. *)
Definition skin_f (b c d : Ascii.ascii) (str : list Ascii.ascii) : Z :=
  if eqc "b" b then SKIN_ID_FBI
  else if eqc "i" b || eqc "m" b then SKIN_ID_FIREMAN
  else if eqc "o" b || eqc "l" b then SKIN_ID_FOOD_LADY
  else if eqc "r" b || eqc "g" b then SKIN_ID_FRENCH_GUY
  else SKIN_ID_UNKNOWN.

(** case 'g'. *)
Definition skin_g (b c d : Ascii.ascii) (str : list Ascii.ascii) : Z :=
  if nz b && (eqc "a" b || eqc "m" b) then
    (if eqc "1" d || eqc "a" d then SKIN_ID_GARBAGEMAN_A
    else if eqc "2" d || eqc "b" d then SKIN_ID_GARBAGEMAN_B
    else if eqc "3" d || eqc "c" d then SKIN_ID_GARBAGEMAN_C
    else if eqc "4" d || eqc "d" d then SKIN_ID_GARBAGEMAN_D
    else if eqc "5" d || eqc "e" d then SKIN_ID_GARBAGEMAN_E
    else SKIN_ID_UNKNOWN)
  else if nz b && eqc "o" b && (nz c && eqc "g" c || (5 <=? length str)%nat && eqc "g" (str_at str 4)) then
    (if eqc "1" d || eqc "a" d then SKIN_ID_GOLF_GUY_A
    else if eqc "2" d || eqc "b" d then SKIN_ID_GOLF_GUY_B
    else if eqc "3" d || eqc "c" d then SKIN_ID_GOLF_GUY_C
    else SKIN_ID_UNKNOWN)
  else if nz b && eqc "o" b && (nz c && eqc "l" c || (5 <=? length str)%nat && eqc "l" (str_at str 4)) then
    SKIN_ID_GOLF_LADY
  else if nz b && eqc "r" b then
    (if eqc "1" d || eqc "a" d then SKIN_ID_GRANNY_A
    else if eqc "2" d || eqc "b" d then SKIN_ID_GRANNY_B
    else SKIN_ID_UNKNOWN)
  else if nz b && (eqc "g" b || eqc "y" b && (4 <=? length str)%nat && eqc "g" (str_at str 3)) then
    SKIN_ID_GYM_GUY
  else if nz b && (eqc "l" b || eqc "y" b && (4 <=? length str)%nat && eqc "l" (str_at str 3)) then
    SKIN_ID_GYM_LADY
  else SKIN_ID_UNKNOWN.

(** case 'h'. *)
Definition skin_h (b c d : Ascii.ascii) (str : list Ascii.ascii) : Z :=
  let id :=
    if nz b && eqc "a" b then
      (if eqc "1" d || eqc "a" d then SKIN_ID_HATIAN_A
      else if eqc "2" d || eqc "b" d then SKIN_ID_HATIAN_B
      else if eqc "3" d || eqc "c" d then SKIN_ID_HATIAN_C
      else if eqc "4" d || eqc "d" d then SKIN_ID_HATIAN_D
      else if eqc "5" d || eqc "e" d then SKIN_ID_HATIAN_E
      else SKIN_ID_UNKNOWN)
    else if nz b && (eqc "i" b || eqc "r" b) && eqc "r" d then SKIN_ID_HILARY_ROBBER
    else if nz b && eqc "i" b then SKIN_ID_HILARY
    else SKIN_ID_UNKNOWN in
  if nz b && (eqc "o" b || eqc "l" b) then SKIN_ID_HOOD_LADY
  else id.

(** case 'k'. *)
Definition skin_k (b c d : Ascii.ascii) (str : list Ascii.ascii) : Z :=
  SKIN_ID_KEN_ROSENBURG.

(** case 'l'. *)
Definition skin_l (b c d : Ascii.ascii) (str : list Ascii.ascii) : Z :=
  if nz b && eqc "a" b && (nz c && eqc "n" c) && ((6 <=? length str)%nat && eqc "c" (str_at str 5) || eqc "p" d) then
    SKIN_ID_LANCE_COP
  else if nz b && (eqc "c" b || eqc "a" b && (nz c && eqc "n" c)) then SKIN_ID_LANCE_COP
  else if nz b && eqc "a" b && nz c && eqc "n" c then
    (if eqc "1" d || eqc "a" d then SKIN_ID_LANCE_A
    else if eqc "2" d || eqc "b" d then SKIN_ID_LANCE_B
    else SKIN_ID_UNKNOWN)
  else if nz b && (eqc "w" b || eqc "a" b && nz c && eqc "w" c) then SKIN_ID_LAWYER
  else if nz b && (eqc "o" b || eqc "f" b) then
    (if eqc "1" d || eqc "a" d then SKIN_ID_LOVE_FIST_A
    else if eqc "2" d || eqc "b" d then SKIN_ID_LOVE_FIST_B
    else if eqc "3" d || eqc "c" d then SKIN_ID_LOVE_FIST_C
    else if eqc "d" d then SKIN_ID_LOVE_FIST_D
    else SKIN_ID_UNKNOWN)
  else SKIN_ID_UNKNOWN.

(** case 'm'. *)
Definition skin_m (b c d : Ascii.ascii) (str : list Ascii.ascii) : Z :=
  if eqc "b" d then SKIN_ID_MERCADES_B
  else SKIN_ID_MERCADES_A.

(** case 'o'. *)
Definition skin_o (b c d : Ascii.ascii) (str : list Ascii.ascii) : Z :=
  if eqc "1" d || eqc "a" d then SKIN_ID_OFFICE_LADY_A
  else if eqc "2" d || eqc "b" d then SKIN_ID_OFFICE_LADY_B
  else SKIN_ID_UNKNOWN.

(** case 'p'. *)
Definition skin_p (b c d : Ascii.ascii) (str : list Ascii.ascii) : Z :=
  if nz b && eqc "a" b then SKIN_ID_PARAMEDIC
  else if nz b && eqc "h" b then
    (if eqc "o" b || nz c && eqc "o" c || (5 <=? length str)%nat && eqc "o" (str_at str 4) || eqc "m" d then
      SKIN_ID_PHIL_ONE_ARM
    else if nz c && (eqc "r" c || eqc "r" d || (5 <=? length str)%nat && eqc "r" (str_at str 4)) then
      SKIN_ID_PHIL_ROBBER
    else if nz c && eqc "i" c then SKIN_ID_PHIL
    else SKIN_ID_UNKNOWN)
  else if nz b && eqc "i" b && (nz c && eqc "m" c || eqc "p" d) then SKIN_ID_PIMP
  else if nz b && eqc "i" b && (nz c && eqc "z" c || eqc "n" d) then SKIN_ID_PIZZAMAN
  else if nz b && eqc "r" b then
    (if eqc "1" d || eqc "a" d then SKIN_ID_PROSTITUTE_A
    else if eqc "2" d || eqc "b" d then SKIN_ID_PROSTITUTE_B
    else if eqc "c" d then SKIN_ID_PROSTITUTE_C
    else if eqc "d" d then SKIN_ID_PROSTITUTE_D
    else if eqc "3" d || eqc "e" d then SKIN_ID_PROSTITUTE_E
    else if eqc "4" d || eqc "f" d then SKIN_ID_PROSTITUTE_F
    else SKIN_ID_UNKNOWN)
  else if nz b && eqc "u" b then
    (if eqc "1" d || eqc "a" d then SKIN_ID_PUNK_A
    else if eqc "2" d || eqc "b" d then SKIN_ID_PUNK_B
    else if eqc "3" d || eqc "c" d then SKIN_ID_PUNK_C
    else SKIN_ID_UNKNOWN)
  else SKIN_ID_UNKNOWN.

(** case 'r'. *)
Definition skin_r (b c d : Ascii.ascii) (str : list Ascii.ascii) : Z :=
  if nz b && eqc "i" b then SKIN_ID_RICH_GUY
  else if nz b && eqc "o" b then SKIN_ID_ROCKSTAR_GUY
  else SKIN_ID_UNKNOWN.

(** case 's'. *)
Definition skin_s (b c d : Ascii.ascii) (str : list Ascii.ascii) : Z :=
  if nz b && eqc "a" b then
    (if eqc "1" d || eqc "a" d then SKIN_ID_SAILOR_A
    else if eqc "2" d || eqc "b" d then SKIN_ID_SAILOR_B
    else if eqc "3" d || eqc "c" d then SKIN_ID_SAILOR_C
    else SKIN_ID_UNKNOWN)
  else if nz b && eqc "h" b && (nz c && eqc "a" c) then
    (if eqc "1" d || eqc "a" d then SKIN_ID_SHARK_A
    else if eqc "2" d || eqc "b" d then SKIN_ID_SHARK_B
    else SKIN_ID_UNKNOWN)
  else if nz b && eqc "h" b && (nz c && eqc "o" c) then
    (if eqc "1" d || eqc "a" d then SKIN_ID_SHOPPER_A
    else if eqc "2" d || eqc "b" d then SKIN_ID_SHOPPER_B
    else SKIN_ID_UNKNOWN)
  else if nz b && eqc "k" b && (nz c && eqc "g" c || (6 <=? length str)%nat && eqc "g" (str_at str 5)) then
    SKIN_ID_SKATE_GUY
  else if nz b && eqc "k" b && (nz c && eqc "l" c || (6 <=? length str)%nat && eqc "l" (str_at str 5)) then
    SKIN_ID_SKATE_LADY
  else if nz b && eqc "o" b then
    (if eqc "1" d || eqc "a" d then SKIN_ID_SONNY_GUY_A
    else if eqc "2" d || eqc "b" d then SKIN_ID_SONNY_GUY_B
    else if eqc "3" d || eqc "c" d then SKIN_ID_SONNY_GUY_C
    else SKIN_ID_UNKNOWN)
  else if nz b && eqc "g" b then
    (if eqc "1" d || eqc "a" d then SKIN_ID_SONNY_GUY_A
    else if eqc "2" d || eqc "b" d then SKIN_ID_SONNY_GUY_B
    else if eqc "3" d || eqc "c" d then SKIN_ID_SONNY_GUY_C
    else SKIN_ID_UNKNOWN)
  else if nz b && eqc "p" b && (nz c && eqc "x" c || (7 <=? length str)%nat && eqc "x" (str_at str 6)) then
    (if eqc "1" d || eqc "a" d then SKIN_ID_SPANDEX_GUY_A
    else if eqc "2" d || eqc "b" d then SKIN_ID_SPANDEX_GUY_B
    else SKIN_ID_UNKNOWN)
  else if nz b && eqc "p" b && (nz c && eqc "g" c || (8 <=? length str)%nat && eqc "g" (str_at str 7)) then
    SKIN_ID_SPANISH_GUY
  else if nz b && eqc "p" b && (nz c && eqc "l" c || (8 <=? length str)%nat && eqc "l" (str_at str 7)) then
    (if eqc "1" d || eqc "a" d then SKIN_ID_SPANISH_LADY_A
    else if eqc "2" d || eqc "b" d then SKIN_ID_SPANISH_LADY_B
    else if eqc "3" d || eqc "c" d then SKIN_ID_SPANISH_LADY_C
    else if eqc "4" d || eqc "d" d then SKIN_ID_SPANISH_LADY_D
    else SKIN_ID_UNKNOWN)
  else if nz b && eqc "t" b && (nz c && eqc "o" c) then SKIN_ID_STORE_CLERK
  else if nz b && eqc "t" b && (nz c && eqc "r" c) then
    (if eqc "1" d || eqc "a" d then SKIN_ID_STRIPPER_A
    else if eqc "2" d || eqc "b" d then SKIN_ID_STRIPPER_B
    else if eqc "3" d || eqc "c" d then SKIN_ID_STRIPPER_C
    else SKIN_ID_UNKNOWN)
  else if nz b && eqc "w" b then SKIN_ID_SWAT
  else SKIN_ID_UNKNOWN.

(** case 't'. *)
Definition skin_t (b c d : Ascii.ascii) (str : list Ascii.ascii) : Z :=
  if eqc "a" b then
    (if eqc "1" d || eqc "a" d then SKIN_ID_TAXI_DRIVER_A
    else if eqc "2" d || eqc "b" d then SKIN_ID_TAXI_DRIVER_B
    else if eqc "c" d then SKIN_ID_TAXI_DRIVER_C
    else if eqc "d" d then SKIN_ID_TAXI_DRIVER_D
    else SKIN_ID_UNKNOWN)
  else if eqc "h" b then
    (if eqc "1" d || eqc "a" d then SKIN_ID_THUG_A
    else if eqc "5" d || eqc "b" d then SKIN_ID_THUG_B
    else SKIN_ID_UNKNOWN)
  else if eqc "v" b then SKIN_ID_TOMMY_VERCETTI
  else if eqc "o" b then
    (if nz c && eqc "m" c then SKIN_ID_TOMMY_VERCETTI
    else if nz c && eqc "u" c && (eqc "1" d || eqc "a" d) then SKIN_ID_TOURIST_A
    else if nz c && eqc "u" c && (eqc "2" d || eqc "b" d) then SKIN_ID_TOURIST_B
    else SKIN_ID_UNKNOWN)
  else if eqc "r" b then SKIN_ID_TRANNY
  else SKIN_ID_UNKNOWN.

(** case 'u'. *)
Definition skin_u (b c d : Ascii.ascii) (str : list Ascii.ascii) : Z :=
  if eqc "1" d || eqc "a" d then SKIN_ID_UNDERCOVER_COP_A
  else if eqc "2" d || eqc "b" d then SKIN_ID_UNDERCOVER_COP_B
  else if eqc "3" d || eqc "c" d then SKIN_ID_UNDERCOVER_COP_C
  else if eqc "4" d || eqc "d" d then SKIN_ID_UNDERCOVER_COP_D
  else if eqc "5" d || eqc "e" d then SKIN_ID_UNDERCOVER_COP_E
  else if eqc "6" d || eqc "f" d then SKIN_ID_UNDERCOVER_COP_F
  else SKIN_ID_UNKNOWN.

(** case 'v'. *)
Definition skin_v (b c d : Ascii.ascii) (str : list Ascii.ascii) : Z :=
  if eqc "1" d || eqc "a" d then SKIN_ID_VERCETTI_GUY_A
  else if eqc "2" d || eqc "b" d then SKIN_ID_VERCETTI_GUY_B
  else SKIN_ID_UNKNOWN.

(** case 'w'. *)
Definition skin_w (b c d : Ascii.ascii) (str : list Ascii.ascii) : Z :=
  if eqc "1" d || eqc "a" d then SKIN_ID_WAITRESS_A
  else if eqc "2" d || eqc "b" d then SKIN_ID_WAITRESS_B
  else SKIN_ID_UNKNOWN.

(** The cases of the outer [switch], by the first character of the name. *)
Definition skin_cases : list (Ascii.ascii * (Ascii.ascii -> Ascii.ascii -> Ascii.ascii ->
    list Ascii.ascii -> Z)) :=
  [("a", skin_a); ("b", skin_b); ("c", skin_c); ("d", skin_d); ("f", skin_f); ("g", skin_g);
   ("h", skin_h); ("k", skin_k); ("l", skin_l); ("m", skin_m); ("o", skin_o); ("p", skin_p);
   ("r", skin_r); ("s", skin_s); ("t", skin_t); ("u", skin_u); ("v", skin_v); ("w", skin_w)].

Fixpoint select {A} (cases : list (Ascii.ascii * A)) (a : Ascii.ascii) : option A :=
  match cases with
  | [] => None
  | (x, f) :: cases => if eqc x a then Some f else select cases a
  end.

(** [SkinId(name)]. *)
Definition SkinId (name : list Ascii.ascii) : Z :=
  let str := Lower <$> List.filter isalnum name in
  match str with
  | [] => SKIN_ID_UNKNOWN
  | _ =>
      let a := significant name 0 in
      let b := significant name 1 in
      let c := significant name 2 in
      let d := str_at str (length str - 1) in
      match select skin_cases a with
      | Some f => f b c d str
      | None => SKIN_ID_UNKNOWN
      end
  end.

(** ** Weapons *)

(** case 'f'. *)
Definition weapon_f (b c : Ascii.ascii) : Z :=
  if nz b && eqc "i" b then 0
  else 31.

(** case 'b'. *)
Definition weapon_b (b c : Ascii.ascii) : Z :=
  if nz b && eqc "r" b then 1
  else 6.

(** case 's'. *)
Definition weapon_s (b c : Ascii.ascii) : Z :=
  if eqc "c" b then 2
  else if eqc "h" b then 19
  else if eqc "p" b then 20
  else if eqc "t" b || eqc "a" b then 21
  else if eqc "i" b then 24
  else if eqc "n" b then 28
  else 2.

(** case 'g'. *)
Definition weapon_g (b c : Ascii.ascii) : Z :=
  if nz b && eqc "o" b then 3
  else 12.

(** case 'n'. *)
Definition weapon_n (b c : Ascii.ascii) : Z :=
  4.

(** case 'k'. *)
Definition weapon_k (b c : Ascii.ascii) : Z :=
  if nz b && eqc "n" b then
    (if eqc "i" c then 5
    else if eqc "u" c then 1
    else 255)
  else 10.

(** case 'h'. *)
Definition weapon_h (b c : Ascii.ascii) : Z :=
  7.

(** case 'm'. *)
Definition weapon_m (b c : Ascii.ascii) : Z :=
  if eqc "e" b then 8
  else if eqc "a" b then 9
  else if eqc "o" b then 15
  else if eqc "p" b then 25
  else if eqc "4" b then 26
  else if eqc "6" b then 32
  else if eqc "i" b then 33
  else 26.

(** case 'c'. *)
Definition weapon_c (b c : Ascii.ascii) : Z :=
  if eqc "l" b then 8
  else if eqc "h" b then 11
  else 17.

(** case 'r'. *)
Definition weapon_r (b c : Ascii.ascii) : Z :=
  if eqc "e" b then 13
  else if eqc "o" b || eqc "p" b then 30
  else if eqc "u" b then 27
  else 27.

(** case 't'. *)
Definition weapon_t (b c : Ascii.ascii) : Z :=
  if nz b then
    (if nz c && eqc "a" c then 14
    else 22)
  else 22.

(** case 'p'. *)
Definition weapon_p (b c : Ascii.ascii) : Z :=
  18.

(** case 'u'. *)
Definition weapon_u (b c : Ascii.ascii) : Z :=
  23.

(** case 'i'. *)
Definition weapon_i (b c : Ascii.ascii) : Z :=
  24.

(** case 'l'. *)
Definition weapon_l (b c : Ascii.ascii) : Z :=
  29.

Definition weapon_cases : list (Ascii.ascii * (Ascii.ascii -> Ascii.ascii -> Z)) :=
  [("f", weapon_f); ("b", weapon_b); ("s", weapon_s); ("g", weapon_g); ("n", weapon_n);
   ("k", weapon_k); ("h", weapon_h); ("m", weapon_m); ("c", weapon_c); ("r", weapon_r);
   ("t", weapon_t); ("p", weapon_p); ("u", weapon_u); ("i", weapon_i); ("l", weapon_l)].

(** [WeaponId(name)]. *)
Definition WeaponId (name : list Ascii.ascii) : Z :=
  match name with
  | [] => 0
  | _ =>
      match select weapon_cases (significant name 0) with
      | Some f => f (significant name 1) (significant name 2)
      | None => 255
      end
  end.
Close Scope char_scope.

(** ** Lemmas *)

(** The ids [SkinId] can give: -1, and the ids of the constants it names. *)
Definition skin_result (id : Z) : bool :=
  (id =? SKIN_ID_UNKNOWN) || bool_decide (is_Some (SkinName id)).
(** The constants no name leads to. *)
Definition unreachable_skins : list Z := [SKIN_ID_SONNY; SKIN_ID_LANCE_A; SKIN_ID_LANCE_B].
Definition skin_ok (id : Z) : bool :=
  skin_result id && negb (bool_decide (id ∈ unreachable_skins)).

(** Walks down a tree of tests to its leaves. *)
Ltac leaves :=
  repeat match goal with |- context [if ?c then _ else _] => destruct c eqn:? end;
  try (vm_compute; reflexivity).

Lemma select_elem {A} (cases : list (Ascii.ascii * A)) a f :
  select cases a = Some f -> exists x, (x, f) ∈ cases.
Proof.
  induction cases as [|[x g] cases IH]; simpl; [done|]. destruct (eqc x a).
  - intros [= ->]. exists x. left.
  - intros [y Hy]%IH. exists y. by right.
Qed.

(** In [skin_l] the tests before those for #1 and #2 have taken every name
    that would pass them. *)
Lemma skin_l_ok b c d str : skin_ok (skin_l b c d str) = true.
Proof.
  unfold skin_l. destruct (nz b), (nz c), (eqc "a" b), (eqc "n" c), (eqc "c" b); simpl; leaves.
Qed.

Lemma skin_cases_ok :
  Forall (fun '(_, f) => forall b c d str, skin_ok (f b c d str) = true) skin_cases.
Proof.
  unfold skin_cases. repeat constructor; intros b c d str; try apply skin_l_ok;
    match goal with |- skin_ok (?f _ _ _ _) = _ => unfold f end; cbv zeta; leaves.
Qed.

Lemma SkinId_ok n : skin_ok (SkinId n) = true.
Proof.
  unfold SkinId. destruct (Lower <$> _) as [|x str]; [by vm_compute|]. cbv zeta.
  destruct (select skin_cases _) as [f|] eqn:E; [|by vm_compute].
  apply select_elem in E as [y Hy]. pose proof skin_cases_ok as H. rewrite Forall_forall in H.
  exact (H _ Hy _ _ _ _).
Qed.

Lemma weapon_cases_ok :
  Forall (fun '(_, f) => forall b c, bool_decide (0 <= f b c <= 33 \/ f b c = 255) = true) weapon_cases.
Proof.
  unfold weapon_cases. repeat constructor; intros b c;
    match goal with |- context [?f b c] => unfold f end; leaves.
Qed.

(** ** Case *)

Lemma tolower_idemp c : tolower (tolower c) = tolower c.
Proof. by destruct c as [[] [] [] [] [] [] [] []]. Qed.
Lemma isalnum_tolower c : isalnum (tolower c) = isalnum c.
Proof. by destruct c as [[] [] [] [] [] [] [] []]. Qed.

Lemma str_tolower n :
  Lower <$> List.filter isalnum (tolower <$> n) = Lower <$> List.filter isalnum n.
Proof.
  induction n as [|c n IH]; [done|]. rewrite fmap_cons. cbn [List.filter].
  rewrite isalnum_tolower. destruct (isalnum c); [|done].
  rewrite !fmap_cons, IH. f_equal. apply tolower_idemp.
Qed.

Lemma significant_tolower n i : significant (tolower <$> n) i = significant n i.
Proof.
  unfold significant. rewrite length_fmap. destruct (i <? length n)%nat eqn:E; [|done].
  apply Nat.ltb_lt in E. rewrite !nth_lookup, list_lookup_fmap.
  destruct (n !! i) eqn:Hn; [apply tolower_idemp|]. apply lookup_ge_None in Hn. lia.
Qed.

Lemma SkinId_tolower n : SkinId (tolower <$> n) = SkinId n.
Proof. unfold SkinId. by rewrite str_tolower, !significant_tolower. Qed.
Lemma WeaponId_tolower n : WeaponId (tolower <$> n) = WeaponId n.
Proof. unfold WeaponId. destruct n; [done|]. by rewrite !significant_tolower. Qed.

(** ** Properties *)

(** C34: [Server.getSkinID] gives -1 or an id that [Server.getSkinName] has a
    name for, whatever text a script passes, the empty one included; the
    constants for Sonny and for the two Lances are never given: "Sonny" has no
    case of its own, and every name that starts with "lan" is taken by the
    test for "Lance (Cop)". *)
Theorem SkinId_has_a_name n :
  (SkinId n = SKIN_ID_UNKNOWN \/ exists text, SkinName (SkinId n) = Some text) /\
  SkinId n ∉ unreachable_skins.
Proof.
  pose proof (SkinId_ok n) as H. unfold skin_ok, skin_result in H.
  apply andb_true_iff in H as [H Hu]. apply negb_true_iff, bool_decide_eq_false in Hu.
  split; [|done]. apply orb_true_iff in H as [H|H]; [left; lia|right].
  apply bool_decide_eq_true in H. destruct H as [text Ht]. by exists text.
Qed.

(** [Weapon.getID] gives an id of a weapon, 0 to 33, or 255 for an unknown
    name, and 0 for the empty name; every weapon id it gives has a name other
    than "Unknown". *)
Theorem WeaponId_in_range n :
  (0 <= WeaponId n <= 33 /\ is_Some (name_of kWeaponNames (WeaponId n))) \/ WeaponId n = 255.
Proof.
  assert (forall id, 0 <= id <= 33 -> is_Some (name_of kWeaponNames id)) as Hname.
  { intros id Hid. assert (id ∈ zrange 0 34) as Hin by (apply elem_of_zrange; lia).
    revert Hin. assert (Forall (fun id => is_Some (name_of kWeaponNames id)) (zrange 0 34)) as HF.
    { eapply bool_decide_unpack. by vm_compute. }
    rewrite Forall_forall in HF. apply HF. }
  assert (0 <= WeaponId n <= 33 \/ WeaponId n = 255) as [H|H]; [|left; auto|by right].
  unfold WeaponId. destruct n as [|x n]; [lia|].
  destruct (select weapon_cases _) as [f|] eqn:E; [|by right].
  apply select_elem in E as [y Hy]. pose proof weapon_cases_ok as H. rewrite Forall_forall in H.
  exact (bool_decide_eq_true_1 _ (H _ Hy _ _)).
Qed.

(** Names are found whatever their case: two names that differ only in the
    case of their letters give the same skin and the same weapon. *)
Theorem names_ignore_case n n' :
  tolower <$> n = tolower <$> n' -> SkinId n = SkinId n' /\ WeaponId n = WeaponId n'.
Proof.
  intros E. split.
  - by rewrite <- (SkinId_tolower n), E, SkinId_tolower.
  - by rewrite <- (WeaponId_tolower n), E, WeaponId_tolower.
Qed.

Lemma names_ignore_case_witness :
  SkinId (string_to_list "COP") = SkinId (string_to_list "cop") /\
  WeaponId (string_to_list "COP") = WeaponId (string_to_list "cop").
Proof. apply (names_ignore_case (string_to_list "COP") (string_to_list "cop")). reflexivity. Defined.

(** The skins of the constants whose name leads to another name, or to none. *)
Definition renamed_skins : list Z :=
  fst <$> filter (fun '(id, text) => id <= SKIN_ID_STORE_CLERK /\
            SkinName (SkinId (string_to_list text)) <> Some text) kSkinNames.
(** The weapons whose name leads to another id. *)
Definition renamed_weapons : list Z :=
  fst <$> filter (fun '(id, text) => id <= 33 /\ WeaponId (string_to_list text) <> id) kWeaponNames.

(** C40: The name of a skin leads back to a skin of that name, for every skin
    that has a constant except Bum Lady #3 (taken for #4), Sonny, the two
    Lances (taken for Lance (Cop)), Love Fist #4 and Haitian #6; the name of a
    weapon leads back to its id, except for Unarmed (taken for the Uzi), Rocket
    (the Rocket Launcher) and the Pump-Action Shotgun (the Python). *)
Theorem names_round_trip :
  renamed_skins =
    [SKIN_ID_BUM_LADY_C; SKIN_ID_SONNY; SKIN_ID_LANCE_A; SKIN_ID_LANCE_B; SKIN_ID_LOVE_FIST_D;
     SKIN_ID_THUG_A] /\
  renamed_weapons = [0; 16; 19].
Proof. split; vm_compute; reflexivity. Qed.
