(* ===== verification/ApiGuard.v ===== *)
(** The server's function tables (src/plugin/api_guard.hpp): a field of
    [PluginFuncs], [PluginCallbacks] or [PluginInfo] is read or written only
    when it lies inside the size the server reports; the error codes of the
    server functions and their texts (src/bindings/args.cpp). *)
From stdpp Require Import base tactics list strings.
From Stdlib Require Import ZArith Lia.
From S2P Require Import Prelude.
Open Scope Z_scope.

(** A field of one of the server's structs: its name, [offsetof] and [sizeof]. *)
Record Field := mkField { field_name : string; field_offset : Z; field_size : Z }.

(** [FieldFits(struct_size, offset, size)]; the subtraction is on [size_t],
    so it wraps unless the first conjunct holds. *)
Definition FieldFits (struct_size offset size : Z) : bool :=
  (offset <=? struct_size) && (size <=? wrap 64 (struct_size - offset)).

(** [VCMP_LUA_HAS_FIELD(ptr, Type, field)]. *)
Definition VCMP_LUA_HAS_FIELD (structSize : Z) (f : Field) : bool :=
  FieldFits structSize (field_offset f) (field_size f).

(** A table of function pointers the server passed: its reported size and the
    pointer stored at each offset ([None]: a null pointer). Only the first
    [structSize] bytes exist. *)
Record Funcs (F : Type) := mkFuncs { structSize : Z; pointer_at : Z -> option F }.
Arguments mkFuncs {F}.
Arguments structSize {F}.
Arguments pointer_at {F}.

Definition read_field {F} (t : Funcs F) (f : Field) : outcome (option F) :=
  if decide (0 <= field_offset f /\ field_offset f + field_size f <= structSize t)
  then Ret (pointer_at t (field_offset f)) else UB.

(** [ServerApi]: the table, or null for a default-constructed one. *)
Record ServerApi (F : Type) := mkApi { funcs : option (Funcs F) }.
Arguments mkApi {F}.
Arguments funcs {F}.

(** [VCMP_LUA_FIND(api, field)]. *)
Definition VCMP_LUA_FIND {F} (api : ServerApi F) (f : Field) : outcome (option F) :=
  match funcs api with
  | Some t => if VCMP_LUA_HAS_FIELD (structSize t) f then read_field t f else Ret None
  | None => Ret None
  end.

(** The text of [NotSupported(function)]. *)
Definition NotSupported (function : string) : exn :=
  RuntimeError (function +:+ " is not supported by this server version").

(** [ServerApi::Require(fn, name)]. *)
Definition Require_fn {F} (fn : option F) (name : string) : outcome F :=
  match fn with None => Throw (NotSupported name) | Some fn => Ret fn end.

(** [VCMP_LUA_API(api, field)]. *)
Definition VCMP_LUA_API {F} (api : ServerApi F) (f : Field) : outcome F :=
  fn ← VCMP_LUA_FIND api f; Require_fn fn (field_name f).

(** A [uint32_t] struct size and a field whose end does not wrap [size_t]. *)
Definition size_ok (n : Z) : Prop := 0 <= n <= UINT32_MAX.
Definition field_ok (f : Field) : Prop :=
  0 <= field_offset f < 2 ^ 64 /\ 0 <= field_size f < 2 ^ 64.

Lemma FieldFits_spec n offset size :
  size_ok n -> 0 <= offset ->
  FieldFits n offset size = true <-> offset + size <= n /\ offset <= n.
Proof.
  intros [Hn0 Hn] Ho. unfold FieldFits, UINT32_MAX in *.
  rewrite andb_true_iff, !Z.leb_le.
  destruct (decide (offset <= n)) as [Hle|Hgt]; [|lia].
  rewrite wrap_small by lia. lia.
Qed.

(** The codes of [vcmpError] (third_party/vcmp/vcmp.h). *)
Definition vcmpErrorNone : Z := 0.
Definition vcmpErrorNoSuchEntity : Z := 1.
Definition vcmpErrorBufferTooSmall : Z := 2.
Definition vcmpErrorTooLargeInput : Z := 3.
Definition vcmpErrorArgumentOutOfBounds : Z := 4.
Definition vcmpErrorNullArgument : Z := 5.
Definition vcmpErrorPoolExhausted : Z := 6.
Definition vcmpErrorInvalidName : Z := 7.
Definition vcmpErrorRequestDenied : Z := 8.

(** [ErrorName(error)]. *)
Definition ErrorName (error : Z) : string :=
  if error =? vcmpErrorNone then "no error"
  else if error =? vcmpErrorNoSuchEntity then "no such entity"
  else if error =? vcmpErrorBufferTooSmall then "buffer too small"
  else if error =? vcmpErrorTooLargeInput then "input too large"
  else if error =? vcmpErrorArgumentOutOfBounds then "argument out of bounds"
  else if error =? vcmpErrorNullArgument then "null argument"
  else if error =? vcmpErrorPoolExhausted then "pool exhausted"
  else if error =? vcmpErrorInvalidName then "invalid name"
  else if error =? vcmpErrorRequestDenied then "request denied"
  else "unknown error".

(** [Check(L, error)]; [fn] is the name [CurrentFunction(L)] gives. *)
Definition Check_error (fn : string) (error : Z) : outcome bool :=
  if error =? vcmpErrorNone then Ret true
  else if error =? vcmpErrorRequestDenied then Ret false
  else Throw (RuntimeError ("'" +:+ fn +:+ "' failed: " +:+ ErrorName error)).

(** [CheckLast(L, api)]; [last_error] is [GetLastError], when the server has it. *)
Definition CheckLast (fn : string) (last_error : option Z) : outcome bool :=
  match last_error with None => Ret true | Some e => Check_error fn e end.

(** ** Properties *)

(** Looking up a server function never reads past the struct the server
    passed, whatever size it reports and whatever field is asked for; the
    result is the pointer exactly when the whole field lies inside, null
    otherwise. *)
Theorem find_reads_inside {F} (api : ServerApi F) (f : Field) :
  field_ok f -> (forall t, funcs api = Some t -> size_ok (structSize t)) ->
  VCMP_LUA_FIND api f =
    Ret (t ← funcs api;
         if decide (field_offset f + field_size f <= structSize t)
         then pointer_at t (field_offset f) else None).
Proof.
  intros [[Ho ?] [Hs ?]] Hok. unfold VCMP_LUA_FIND.
  destruct (funcs api) as [t|] eqn:E; simpl; [|done].
  specialize (Hok _ eq_refl).
  unfold VCMP_LUA_HAS_FIELD, read_field.
  destruct (FieldFits _ _ _) eqn:Hf.
  - apply FieldFits_spec in Hf; [|done..]. by rewrite !decide_True by lia.
  - rewrite decide_False; [done|]. intros Hle.
    apply not_true_iff_false in Hf. apply Hf, FieldFits_spec; [done..|lia].
Qed.

Lemma find_reads_inside_witness :
  VCMP_LUA_FIND (mkApi (Some (mkFuncs 16 (fun o => if o =? 8 then Some 5 else None))))
    (mkField "GetTime" 8 8) = Ret (Some 5).
Proof.
  rewrite find_reads_inside; [reflexivity| |].
  - split; simpl; lia.
  - intros t [= <-]. split; simpl; unfold UINT32_MAX; lia.
Defined.

(** A missing function raises the error that names it. *)
Lemma api_missing {F} (api : ServerApi F) f :
  VCMP_LUA_FIND api f = Ret None ->
  VCMP_LUA_API api f = Throw (NotSupported (field_name f)).
Proof. unfold VCMP_LUA_API. by intros ->. Qed.
