(* ===== verification/EntityPool.v ===== *)
(** One kind's entity slots (src/core/entity_pool.hpp, entity_pool.cpp): the
    state of [EntityPool], every operation of it, its well-formedness
    invariant, and what a handle that scripts hold can rely on. *)
From stdpp Require Import base tactics list strings pretty.
From Stdlib Require Import ZArith Lia.
From S2P Require Import Prelude.
Open Scope Z_scope.

(** ** Entity kinds and their traits *)

Inductive EntityKind := Player | Vehicle | Object | Pickup | Checkpoint | Blip | Bind.

#[export] Instance EntityKind_eq_dec : EqDecision EntityKind.
Proof. solve_decision. Defined.

Definition kEntityKindCount : nat := 7.

(** [static_cast<std::size_t>(kind)]. *)
Definition kind_index (k : EntityKind) : nat :=
  match k with
  | Player => 0 | Vehicle => 1 | Object => 2 | Pickup => 3
  | Checkpoint => 4 | Blip => 5 | Bind => 6
  end%nat.

Record EntityTraits := mkTraits
  { name : string; type_name : string; first_id : Z; capacity : Z }.

Definition kTraits : list EntityTraits :=
  [ mkTraits "player" "Player" 0 100;
    mkTraits "vehicle" "Vehicle" 1 1001;
    mkTraits "object" "Object" 0 3000;
    mkTraits "pickup" "Pickup" 0 2000;
    mkTraits "checkpoint" "Checkpoint" 0 2000;
    mkTraits "blip" "Blip" 0 100;
    mkTraits "bind" "Bind" 0 256 ].

Definition Traits (k : EntityKind) : EntityTraits :=
  nth (kind_index k) kTraits (mkTraits "" "" 0 0).

(** ** State *)

(** [EntityHandle<K>]: the userdata scripts hold. [h_obj] is its identity as
    a Lua object (what [==] and table keys compare). *)
Record EntityHandle := mkHandle
  { h_obj : Z; h_kind : EntityKind; h_id : Z; h_generation : Z }.

#[export] Instance EntityHandle_eq_dec : EqDecision EntityHandle.
Proof. solve_decision. Defined.

(** [EntityRef<K>]: what C++ passes to Lua for an entity. *)
Record EntityRef := mkRef { ref_id : Z; ref_generation : Z }.

#[export] Instance EntityRef_eq_dec : EqDecision EntityRef.
Proof. solve_decision. Defined.

Definition no_ref : EntityRef := mkRef (-1) 0.

(** [EntityPool::SlotData]. An empty [sol::main_object] is [None]; the data
    table is held by its identity. *)
Record SlotData := mkSlot
  { alive : bool; created_by_us : bool; generation : Z;
    handle : option EntityHandle; data : option Z; tag : string }.

Definition slot0 : SlotData := mkSlot false false 0 None None "".

Record EntityPool := mkPool
  { kind : EntityKind; slots : list SlotData; closed : bool }.

(** The constructor. *)
Definition new_pool (k : EntityKind) : EntityPool :=
  mkPool k (replicate (Z.to_nat (capacity (Traits k) - first_id (Traits k))) slot0) false.

Definition pool_traits (p : EntityPool) : EntityTraits := Traits (kind p).

(** ** Operations *)

Definition InRange (p : EntityPool) (id : Z) : bool :=
  (first_id (pool_traits p) <=? id) && (id <? capacity (pool_traits p)).

(** [id - first_id], the index into [slots_]. *)
Definition slot_index (p : EntityPool) (id : Z) : nat :=
  Z.to_nat (id - first_id (pool_traits p)).

(** [Slot(id)]. Callers check [InRange] first; [Slot_InRange] shows the
    index is then inside [slots_], so the default is never used. *)
Definition Slot (p : EntityPool) (id : Z) : SlotData :=
  default slot0 (slots p !! slot_index p id).

Definition set_slot (p : EntityPool) (id : Z) (s : SlotData) : EntityPool :=
  mkPool (kind p) (<[slot_index p id := s]> (slots p)) (closed p).

Definition Alive (p : EntityPool) (id : Z) : bool := InRange p id && alive (Slot p id).

Definition Valid (p : EntityPool) (id gen : Z) : bool :=
  Alive p id && (generation (Slot p id) =? gen).

(** The warning [Adopt] logs for an id outside the pool. *)
Definition outside_warning (p : EntityPool) (id : Z) : string :=
  let t := pool_traits p in
  "the server reported " +:+ name t +:+ " id " +:+ pretty id +:+ ", outside the pool [" +:+
  pretty (first_id t) +:+ ", " +:+ pretty (capacity t) +:+ "); it is ignored".

(** [Adopt(id)]: the new pool and the warnings logged. *)
Definition Adopt (p : EntityPool) (id : Z) : EntityPool * list string :=
  if negb (InRange p id) then (p, [outside_warning p id])
  else
    let slot := Slot p id in
    if alive slot then (p, [])
    else (set_slot p id
            (mkSlot true false (wrap 32 (generation slot + 1))
               (handle slot) (data slot) (tag slot)), []).

Definition Release (p : EntityPool) (id : Z) : EntityPool :=
  if negb (Alive p id) then p
  else set_slot p id (mkSlot false false (generation (Slot p id)) None None "").

Definition Ref (p : EntityPool) (id : Z) : EntityRef :=
  if negb (Alive p id) then no_ref else mkRef id (generation (Slot p id)).

Definition Seen (p : EntityPool) (id : Z) : EntityRef * (EntityPool * list string) :=
  let '(p', warnings) := Adopt p id in (Ref p' id, (p', warnings)).

Definition MarkCreatedByUs (p : EntityPool) (id : Z) : EntityPool :=
  if Alive p id then
    let s := Slot p id in
    set_slot p id (mkSlot (alive s) true (generation s) (handle s) (data s) (tag s))
  else p.

Definition pool_ids (p : EntityPool) : list Z :=
  zrange (first_id (pool_traits p)) (capacity (pool_traits p)).

Definition CreatedByUs (p : EntityPool) : list Z :=
  List.filter (fun id => alive (Slot p id) && created_by_us (Slot p id)) (pool_ids p).

Definition AliveIds (p : EntityPool) : list Z :=
  List.filter (fun id => alive (Slot p id)) (pool_ids p).

Definition Require (p : EntityPool) (id gen : Z) : outcome unit :=
  if closed p then Throw (RuntimeError "runtime shutting down")
  else if negb (Valid p id gen)
  then Throw (RuntimeError (name (pool_traits p) +:+ " no longer exists"))
  else Ret tt.

Definition set_handle (s : SlotData) (h : option EntityHandle) : SlotData :=
  mkSlot (alive s) (created_by_us s) (generation s) h (data s) (tag s).
Definition set_data (s : SlotData) (d : option Z) : SlotData :=
  mkSlot (alive s) (created_by_us s) (generation s) (handle s) d (tag s).
Definition set_tag (s : SlotData) (t : string) : SlotData :=
  mkSlot (alive s) (created_by_us s) (generation s) (handle s) (data s) t.

(** [Push(L, id, generation)]: the handle pushed ([None]: nil). [obj] is the
    identity the Lua allocator gives a new userdata; it is used only when the
    slot has no handle yet. *)
Definition Push (p : EntityPool) (obj id gen : Z) : option EntityHandle * EntityPool :=
  if closed p || negb (Valid p id gen) then (None, p)
  else
    let slot := Slot p id in
    match handle slot with
    | None =>
        let h := mkHandle obj (kind p) id gen in
        (Some h, set_slot p id (set_handle slot (Some h)))
    | Some h => (Some h, p)
    end.

(** [Data(L, id, generation)]: the table returned; [obj] is the identity of
    a new table, used only when the slot has none. *)
Definition Data (p : EntityPool) (obj id gen : Z) : outcome (Z * EntityPool) :=
  _ ← Require p id gen;
  let slot := Slot p id in
  match data slot with
  | None => Ret (obj, set_slot p id (set_data slot (Some obj)))
  | Some d => Ret (d, p)
  end.

Definition SetData (p : EntityPool) (id gen d : Z) : outcome EntityPool :=
  _ ← Require p id gen; Ret (set_slot p id (set_data (Slot p id) (Some d))).

Definition Tag (p : EntityPool) (id gen : Z) : outcome string :=
  _ ← Require p id gen; Ret (tag (Slot p id)).

Definition SetTag (p : EntityPool) (id gen : Z) (t : string) : outcome EntityPool :=
  _ ← Require p id gen; Ret (set_slot p id (set_tag (Slot p id) t)).

Definition Close (p : EntityPool) : EntityPool := mkPool (kind p) (slots p) true.

Definition ReleaseRefs (p : EntityPool) : EntityPool :=
  mkPool (kind p) ((fun s => set_data (set_handle s None) None) <$> slots p) (closed p).

(** ** The invariant *)

(** A dead slot holds nothing; a live slot's cached handle names the slot's
    entity and its current lifetime. *)
Record slot_wf (k : EntityKind) (id : Z) (s : SlotData) : Prop := mkSlotWf
  { swf_dead : alive s = false ->
      created_by_us s = false /\ handle s = None /\ data s = None /\ tag s = "";
    swf_handle h : handle s = Some h ->
      h_kind h = k /\ h_id h = id /\ h_generation h = generation s;
    swf_generation : 0 <= generation s < 2 ^ 32 }.

Record pool_wf (p : EntityPool) : Prop := mkPoolWf
  { pwf_length : Z.of_nat (length (slots p)) =
      capacity (pool_traits p) - first_id (pool_traits p);
    pwf_slots i s : slots p !! i = Some s ->
      slot_wf (kind p) (first_id (pool_traits p) + Z.of_nat i) s }.

(** Every operation, as data: a step of the pool. *)
Inductive pool_op :=
  | OAdopt (id : Z) | ORelease (id : Z) | OMark (id : Z)
  | OPush (obj id gen : Z) | OData (obj id gen : Z) | OSetData (id gen d : Z)
  | OSetTag (id gen : Z) (t : string) | OClose | OReleaseRefs.

Definition ret_or {A B} (d : B) (f : A -> B) (o : outcome A) : B :=
  match o with Ret a => f a | _ => d end.

Definition run_op (p : EntityPool) (op : pool_op) : EntityPool :=
  match op with
  | OAdopt id => fst (Adopt p id)
  | ORelease id => Release p id
  | OMark id => MarkCreatedByUs p id
  | OPush obj id gen => snd (Push p obj id gen)
  | OData obj id gen => ret_or p snd (Data p obj id gen)
  | OSetData id gen d => ret_or p (fun p' => p') (SetData p id gen d)
  | OSetTag id gen t => ret_or p (fun p' => p') (SetTag p id gen t)
  | OClose => Close p
  | OReleaseRefs => ReleaseRefs p
  end.

Definition run_ops (p : EntityPool) (ops : list pool_op) : EntityPool :=
  fold_left run_op ops p.

(** Does this operation start a lifetime at [id]? *)
Definition starts (p : EntityPool) (id : Z) (op : pool_op) : bool :=
  match op with OAdopt id' => (id' =? id) && InRange p id && negb (Alive p id) | _ => false end.

(** How many lifetimes start at [id] while [ops] run. *)
Fixpoint lifetimes (p : EntityPool) (id : Z) (ops : list pool_op) : Z :=
  match ops with
  | [] => 0
  | op :: ops => (if starts p id op then 1 else 0) + lifetimes (run_op p op) id ops
  end.

(** ** Lemmas *)

Lemma InRange_true p id :
  InRange p id = true <-> first_id (pool_traits p) <= id < capacity (pool_traits p).
Proof. unfold InRange. rewrite andb_true_iff, Z.leb_le, Z.ltb_lt. lia. Qed.

Lemma Slot_InRange p id :
  pool_wf p -> InRange p id = true -> slots p !! slot_index p id = Some (Slot p id).
Proof.
  intros [Hl _] Hr%InRange_true. unfold Slot, slot_index.
  destruct (lookup_lt_is_Some_2 (slots p) (Z.to_nat (id - first_id (pool_traits p))))
    as [s Hs]; [lia|]. by rewrite Hs.
Qed.

Lemma slot_index_inj p id id' :
  InRange p id = true -> InRange p id' = true ->
  slot_index p id = slot_index p id' -> id = id'.
Proof. rewrite !InRange_true. unfold slot_index. lia. Qed.

Lemma Slot_wf p id : pool_wf p -> InRange p id = true -> slot_wf (kind p) id (Slot p id).
Proof.
  intros Hwf Hr. pose proof (Slot_InRange _ _ Hwf Hr) as Hs.
  apply (pwf_slots _ Hwf) in Hs. apply InRange_true in Hr. unfold slot_index in Hs.
  replace (first_id _ + _) with id in Hs by lia. done.
Qed.

Lemma InRange_set_slot p id s id' : InRange (set_slot p id s) id' = InRange p id'.
Proof. done. Qed.

Lemma Slot_set_slot_eq p id s :
  pool_wf p -> InRange p id = true -> Slot (set_slot p id s) id = s.
Proof.
  intros Hwf Hr. unfold Slot, set_slot, slot_index, pool_traits; simpl.
  rewrite list_lookup_insert_eq; [done|].
  eapply lookup_lt_Some, (Slot_InRange _ _ Hwf Hr).
Qed.

Lemma Slot_set_slot_ne p id s id' :
  InRange p id = true -> InRange p id' = true -> id <> id' ->
  Slot (set_slot p id s) id' = Slot p id'.
Proof.
  intros Hr Hr' Hne. unfold Slot. f_equal. simpl.
  apply list_lookup_insert_ne. intros Heq. by apply slot_index_inj in Heq.
Qed.

Lemma set_slot_wf p id s :
  pool_wf p -> InRange p id = true -> slot_wf (kind p) id s -> pool_wf (set_slot p id s).
Proof.
  intros Hwf Hr Hs. split.
  - simpl. rewrite length_insert. apply Hwf.
  - intros i s' Hi. simpl in *.
    apply list_lookup_insert_Some in Hi as [(<- & -> & _)|[_ Hi]]; [|by apply Hwf in Hi].
    apply InRange_true in Hr. unfold slot_index.
    replace (first_id _ + _) with id; [done|]. unfold pool_traits in *. simpl. lia.
Qed.

Lemma Alive_InRange p id : Alive p id = true -> InRange p id = true.
Proof. unfold Alive. by intros [? ?]%andb_true_iff. Qed.

Lemma Alive_slot p id : Alive p id = true -> alive (Slot p id) = true.
Proof. unfold Alive. by intros [? ?]%andb_true_iff. Qed.

Lemma Valid_Alive p id g : Valid p id g = true -> Alive p id = true.
Proof. unfold Valid. by intros [? ?]%andb_true_iff. Qed.

Lemma Valid_generation p id g : Valid p id g = true -> generation (Slot p id) = g.
Proof. unfold Valid. by intros [_ ?%Z.eqb_eq]%andb_true_iff. Qed.

Lemma Require_Ret p id g :
  Require p id g = Ret tt <-> closed p = false /\ Valid p id g = true.
Proof. unfold Require. destruct (closed p), (Valid p id g); simpl; intuition congruence. Qed.

#[export] Hint Resolve Alive_InRange Alive_slot Valid_Alive : vcmp.

(** The common prefix of the operations that raise for a dead handle. *)
Lemma Require_bind {A} p id g (k : outcome A) :
  (_ ← Require p id g; k) =
  if closed p then Throw (RuntimeError "runtime shutting down")
  else if Valid p id g then k
  else Throw (RuntimeError (name (pool_traits p) +:+ " no longer exists")).
Proof. unfold Require. by destruct (closed p), (Valid p id g). Qed.

(** Does this operation drop the Lua references of every slot? *)
Definition drops (op : pool_op) : bool := match op with OReleaseRefs => true | _ => false end.

(** What one operation can do to one slot. The index says whether it starts a
    lifetime there. *)
Inductive slot_effect (drops : bool) (k : EntityKind) (id : Z) : bool -> SlotData -> SlotData -> Prop :=
  | eff_same s : slot_effect drops k id false s s
  | eff_start s : alive s = false ->
      slot_effect drops k id true s
        (mkSlot true false (wrap 32 (generation s + 1)) (handle s) (data s) (tag s))
  | eff_release s : alive s = true ->
      slot_effect drops k id false s (mkSlot false false (generation s) None None "")
  | eff_update s s' : alive s = true -> alive s' = true -> generation s' = generation s ->
      (handle s' = handle s \/
       exists obj, handle s = None /\ handle s' = Some (mkHandle obj k id (generation s))) ->
      slot_effect drops k id false s s'
  | eff_drop s : drops = true -> slot_effect drops k id false s (set_data (set_handle s None) None).

#[export] Hint Constructors slot_effect : vcmp.

Lemma set_slot_effect p id id' s b d :
  pool_wf p -> InRange p id = true -> InRange p id' = true ->
  (id' = id -> slot_effect d (kind p) id b (Slot p id) s) ->
  (id' <> id -> b = false) ->
  slot_effect d (kind p) id b (Slot p id) (Slot (set_slot p id' s) id).
Proof.
  intros Hwf Hr Hr' Heq Hne. destruct (decide (id' = id)) as [->|Hn].
  - rewrite Slot_set_slot_eq; auto.
  - rewrite Slot_set_slot_ne, (Hne Hn) by done. constructor.
Qed.

Lemma Slot_ReleaseRefs p id :
  Slot (ReleaseRefs p) id = set_data (set_handle (Slot p id) None) None.
Proof.
  unfold Slot, ReleaseRefs, slot_index, pool_traits; simpl. rewrite list_lookup_fmap.
  by destruct (slots p !! _).
Qed.

Lemma starts_ne p id id' : id' <> id -> starts p id (OAdopt id') = false.
Proof. intros Hne%Z.eqb_neq. simpl. by rewrite Hne. Qed.

(** Every operation has such an effect on every slot in range. *)
Lemma run_op_effect p op id :
  pool_wf p -> InRange p id = true ->
  slot_effect (drops op) (kind p) id (starts p id op) (Slot p id) (Slot (run_op p op) id).
Proof.
  intros Hwf Hr.
  assert (forall id' s, Alive p id' = true -> alive s = true ->
    generation s = generation (Slot p id') ->
    (handle s = handle (Slot p id') \/ exists obj, handle (Slot p id') = None /\
       handle s = Some (mkHandle obj (kind p) id' (generation (Slot p id')))) ->
    slot_effect (drops op) (kind p) id false (Slot p id) (Slot (set_slot p id' s) id)) as Hup.
  { intros id' s Ha Hs Hg Hh. apply set_slot_effect; eauto with vcmp.
    intros ->. apply eff_update; eauto with vcmp. }
  destruct op as [id'|id'|id'|obj id' g|obj id' g|id' g d|id' g t| |].
  - destruct (decide (id' = id)) as [->|Hne].
    + simpl. unfold Adopt, Alive. rewrite Z.eqb_refl, Hr. simpl.
      destruct (alive (Slot p id)) eqn:Ha; simpl; [apply eff_same|].
      rewrite Slot_set_slot_eq by done. by constructor.
    + rewrite starts_ne by done. simpl. unfold Adopt.
      destruct (InRange p id') eqn:Hr'; simpl; [|apply eff_same].
      destruct (alive (Slot p id')); simpl; [apply eff_same|]. by apply set_slot_effect.
  - simpl. unfold Release. destruct (Alive p id') eqn:Ha; simpl; [|apply eff_same].
    apply set_slot_effect; eauto with vcmp. intros ->. eauto with vcmp.
  - simpl. unfold MarkCreatedByUs. destruct (Alive p id') eqn:Ha; simpl; [|apply eff_same].
    apply Hup; simpl; eauto with vcmp.
  - simpl. unfold Push. destruct (closed p), (Valid p id' g) eqn:Hv; simpl; try apply eff_same.
    destruct (handle (Slot p id')) eqn:Hh; simpl; [apply eff_same|].
    pose proof (Valid_generation _ _ _ Hv) as <-. apply Hup; simpl; eauto with vcmp.
  - simpl. unfold Data. rewrite Require_bind.
    destruct (closed p), (Valid p id' g) eqn:Hv; simpl; try apply eff_same.
    destruct (data (Slot p id')); simpl; [apply eff_same|]. apply Hup; simpl; eauto with vcmp.
  - simpl. unfold SetData. rewrite Require_bind.
    destruct (closed p), (Valid p id' g) eqn:Hv; simpl; try apply eff_same.
    apply Hup; simpl; eauto with vcmp.
  - simpl. unfold SetTag. rewrite Require_bind.
    destruct (closed p), (Valid p id' g) eqn:Hv; simpl; try apply eff_same.
    apply Hup; simpl; eauto with vcmp.
  - constructor.
  - simpl. rewrite Slot_ReleaseRefs. by apply eff_drop.
Qed.

Lemma run_op_shape p op :
  kind (run_op p op) = kind p /\ length (slots (run_op p op)) = length (slots p).
Proof.
  destruct op; simpl; unfold Adopt, Release, MarkCreatedByUs, Push, Data, SetData, SetTag;
    rewrite ?Require_bind; repeat case_match; simpl; rewrite ?length_insert, ?length_fmap; done.
Qed.

Lemma InRange_run_op p op id : InRange (run_op p op) id = InRange p id.
Proof. unfold InRange, pool_traits. by rewrite (proj1 (run_op_shape p op)). Qed.

Lemma slot_effect_wf drops k id b s s' : slot_effect drops k id b s s' -> slot_wf k id s -> slot_wf k id s'.
Proof.
  intros He [Hd Hh Hg]. destruct He as [| ? Ha | | ? ? Ha Ha' Hgen Hhandle |]; split; simpl; try done.
  - intros h Hs. destruct (Hd Ha) as (_ & Hn & _). congruence.
  - apply (wrap_range 32). lia.
  - congruence.
  - intros h Hs. rewrite Hgen. destruct Hhandle as [Heq|(obj & Hn & Heq)].
    + apply Hh. congruence.
    + rewrite Hs in Heq. by simplify_eq/=.
  - lia.
  - intros Ha. by destruct (Hd Ha) as (? & ? & ? & ?).
Qed.

Lemma pool_wf_alt p :
  pool_wf p <->
  Z.of_nat (length (slots p)) = capacity (pool_traits p) - first_id (pool_traits p) /\
  forall id, InRange p id = true -> slot_wf (kind p) id (Slot p id).
Proof.
  split.
  - intros Hwf. split; [apply Hwf|]. intros. by apply Slot_wf.
  - intros [Hl Hs]. split; [done|]. intros i s Hi.
    set (id := first_id (pool_traits p) + Z.of_nat i).
    assert (i < length (slots p))%nat by by eapply lookup_lt_Some.
    assert (Slot p id = s) as <-.
    { unfold Slot, slot_index, id.
      replace (Z.to_nat _) with i by lia. by rewrite Hi. }
    apply Hs, InRange_true. lia.
Qed.

Lemma run_op_wf p op : pool_wf p -> pool_wf (run_op p op).
Proof.
  intros Hwf. apply pool_wf_alt. unfold pool_traits.
  destruct (run_op_shape p op) as [Hk Hl]. rewrite Hk, Hl. split; [apply Hwf|].
  intros id Hr. rewrite InRange_run_op in Hr.
  eapply slot_effect_wf; [by apply run_op_effect|by apply Slot_wf].
Qed.

Lemma run_ops_wf ops p : pool_wf p -> pool_wf (run_ops p ops).
Proof. revert p. induction ops as [|op ops IH]; intros p Hp; [done|]. by apply IH, run_op_wf. Qed.

Lemma InRange_run_ops ops p id : InRange (run_ops p ops) id = InRange p id.
Proof.
  revert p. induction ops as [|op ops IH]; intros p; [done|].
  simpl. rewrite IH. apply InRange_run_op.
Qed.

Lemma new_pool_wf k : pool_wf (new_pool k).
Proof.
  apply pool_wf_alt. split.
  - simpl. rewrite length_replicate. unfold pool_traits; simpl. by destruct k.
  - intros id _. unfold Slot; simpl. destruct (replicate _ _ !! _) as [s|] eqn:E.
    + apply lookup_replicate_1 in E as [-> _]. simpl. split; simpl; [done|done|lia].
    + simpl. split; simpl; [done|done|lia].
Qed.

#[export] Hint Resolve run_op_wf run_ops_wf new_pool_wf : vcmp.

(** The generation counts lifetimes, modulo 2^32. *)
Lemma generation_run_ops ops p id :
  pool_wf p -> InRange p id = true ->
  generation (Slot (run_ops p ops) id) = wrap 32 (generation (Slot p id) + lifetimes p id ops).
Proof.
  revert p. induction ops as [|op ops IH]; intros p Hwf Hr; simpl.
  - rewrite Z.add_0_r, wrap_small; [done|]. apply (swf_generation _ _ _ (Slot_wf _ _ Hwf Hr)).
  - rewrite IH; [|by apply run_op_wf|by rewrite InRange_run_op].
    pose proof (run_op_effect p op id Hwf Hr) as He. unfold wrap in *.
    revert He. generalize (starts p id op) (Slot p id) (Slot (run_op p op) id).
    intros b s s' He.
    destruct He as [| | |? ? ? ? Hgen|]; simpl;
      unfold wrap; rewrite ?Zplus_mod_idemp_l, ?Hgen; f_equal; lia.
Qed.

Lemma lifetimes_nonneg ops p id : 0 <= lifetimes p id ops.
Proof.
  revert p. induction ops as [|op ops IH]; intros p; simpl; [lia|].
  specialize (IH (run_op p op)). destruct (starts _ _ _); lia.
Qed.

(** Without a new lifetime a dead slot stays dead. *)
Lemma dead_run_ops ops p id :
  pool_wf p -> Alive p id = false -> lifetimes p id ops = 0 ->
  Alive (run_ops p ops) id = false.
Proof.
  unfold Alive at 2. intros Hwf Hd Hl. rewrite InRange_run_ops.
  destruct (InRange p id) eqn:Hr; [|done]. simpl.
  unfold Alive in Hd. rewrite Hr in Hd. simpl in Hd.
  revert p Hwf Hd Hl Hr. induction ops as [|op ops IH]; intros p Hwf Hd Hl Hr; [done|].
  simpl in *. pose proof (lifetimes_nonneg ops (run_op p op) id).
  destruct (starts p id op) eqn:Hst; [lia|].
  apply IH; [by apply run_op_wf| |lia|by rewrite InRange_run_op].
  pose proof (run_op_effect p op id Hwf Hr) as He. rewrite Hst in He.
  inversion He; simpl; congruence.
Qed.

(** Between lifetimes, a cached handle is never replaced, only dropped. *)
Lemma handle_run_ops ops p id h :
  pool_wf p -> InRange p id = true -> lifetimes p id ops = 0 ->
  Forall (fun op => op <> OReleaseRefs) ops ->
  handle (Slot p id) = Some h -> Alive (run_ops p ops) id = true ->
  handle (Slot (run_ops p ops) id) = Some h.
Proof.
  revert p. induction ops as [|op ops IH]; intros p Hwf Hr Hl Hops Hh Ha; [done|].
  simpl in *. apply Forall_cons in Hops as [Hop Hops].
  pose proof (lifetimes_nonneg ops (run_op p op) id).
  destruct (starts p id op) eqn:Hst; [lia|].
  pose proof (run_op_effect p op id Hwf Hr) as He. rewrite Hst in He.
  apply IH; [by apply run_op_wf|by rewrite InRange_run_op|lia|done| |done].
  destruct (Alive (run_op p op) id) eqn:Ha1.
  2: { rewrite dead_run_ops in Ha; [done|by apply run_op_wf|done|lia]. }
  apply Alive_slot in Ha1.
  revert He Hh Ha1. generalize (Slot p id) (Slot (run_op p op) id). intros s s' He Hh Ha1.
  destruct He as [| | |? ? ? ? ? Hhandle|? Hdrop]; simpl in *; try congruence.
  - destruct Hhandle as [|(? & ? & ?)]; congruence.
  - by destruct op.
Qed.

(** ** Properties *)

(** C10: a handle to an entity that is gone never becomes valid again,
    whatever the pool does afterwards and although the server reuses the id
    at once, as long as fewer than 2^32 lifetimes have started at that id
    since. *)
Theorem released_handle_stays_invalid p id g ops :
  pool_wf p -> Valid p id g = true -> lifetimes (Release p id) id ops < 2 ^ 32 ->
  Valid (run_ops (Release p id) ops) id g = false.
Proof.
  intros Hwf Hv Hl. pose proof (Valid_generation _ _ _ Hv) as Hg.
  pose proof (Valid_Alive _ _ _ Hv) as Ha. pose proof (Alive_InRange _ _ Ha) as Hr.
  pose proof (run_op_wf p (ORelease id) Hwf) as Hwf'. simpl in Hwf'.
  assert (Slot (Release p id) id = mkSlot false false g None None "") as Hs.
  { unfold Release. rewrite Ha. simpl. rewrite Slot_set_slot_eq by done. by rewrite Hg. }
  assert (InRange (Release p id) id = true) as Hr'
    by (rewrite <- Hr; apply (InRange_run_op p (ORelease id))).
  pose proof (lifetimes_nonneg ops (Release p id) id).
  unfold Valid. destruct (decide (lifetimes (Release p id) id ops = 0)) as [Hz|Hz].
  - rewrite dead_run_ops; [done|done| |done]. unfold Alive. by rewrite Hr', Hs.
  - apply andb_false_iff. right. apply Z.eqb_neq.
    rewrite generation_run_ops, Hs by done. simpl. unfold wrap.
    pose proof (swf_generation _ _ _ (Slot_wf _ _ Hwf Hr)) as Hb. rewrite Hg in Hb.
    intros Hm. destruct (decide (g + lifetimes (Release p id) id ops < 2 ^ 32)).
    + rewrite Z.mod_small in Hm; lia.
    + rewrite <- (Z.mod_add _ (-1)) in Hm by lia. rewrite Z.mod_small in Hm; lia.
Qed.

Definition demo_pool : EntityPool := fst (Adopt (new_pool Blip) 7).

Lemma released_handle_stays_invalid_witness :
  Valid demo_pool 7 1 = true /\
  Valid (run_ops (Release demo_pool 7) [OAdopt 7; OPush 50 7 2]) 7 2 = true /\
  Valid (run_ops (Release demo_pool 7) [OAdopt 7; OPush 50 7 2]) 7 1 = false.
Proof.
  split; [reflexivity|split; [vm_compute; reflexivity|]].
  apply released_handle_stays_invalid.
  - apply (run_op_wf _ (OAdopt 7)), new_pool_wf.
  - reflexivity.
  - vm_compute. reflexivity.
Defined.

(** A lifetime has one handle. Once a handle of a live entity has been
    pushed, every later push of the same lifetime gives the very same Lua
    object, whatever happened in between, so [==] and table keys work. *)
Theorem push_gives_the_same_object p id g obj h p1 ops obj' :
  pool_wf p -> Push p obj id g = (Some h, p1) ->
  lifetimes p1 id ops = 0 -> Forall (fun op => op <> OReleaseRefs) ops ->
  closed (run_ops p1 ops) = false -> Valid (run_ops p1 ops) id g = true ->
  h_kind h = kind p /\ h_id h = id /\ h_generation h = g /\
  Push (run_ops p1 ops) obj' id g = (Some h, run_ops p1 ops).
Proof.
  intros Hwf Hp Hl Hops Hc Hv. unfold Push in Hp.
  destruct (closed p) eqn:Hcl, (Valid p id g) eqn:Hv0; try done. simpl in Hp.
  pose proof (Alive_InRange _ _ (Valid_Alive _ _ _ Hv0)) as Hr.
  pose proof (Valid_generation _ _ _ Hv0) as Hg.
  assert (pool_wf p1 /\ InRange p1 id = true /\ handle (Slot p1 id) = Some h) as (Hwf1 & Hr1 & Hh1).
  { pose proof (run_op_wf p (OPush obj id g) Hwf) as Hwf1.
    pose proof (InRange_run_op p (OPush obj id g) id) as Hr1. simpl in Hwf1, Hr1.
    unfold Push in Hwf1, Hr1. rewrite Hcl, Hv0 in Hwf1, Hr1. simpl in Hwf1, Hr1.
    destruct (handle (Slot p id)) eqn:Hh; simplify_eq/=; [done|].
    split_and!; [done|done|]. by rewrite Slot_set_slot_eq. }
  assert (h_kind h = kind p /\ h_id h = id /\ h_generation h = g) as Hcontent.
  { destruct (handle (Slot p id)) eqn:Hh; simplify_eq/=; [|done].
    destruct (swf_handle _ _ _ (Slot_wf _ _ Hwf Hr) _ Hh) as (? & ? & ?). done. }
  destruct Hcontent as (? & ? & ?). split_and!; try done.
  unfold Push. rewrite Hc, Hv. simpl.
  by rewrite (handle_run_ops ops p1 id h Hwf1 Hr1 Hl Hops Hh1 (Valid_Alive _ _ _ Hv)).
Qed.

Definition demo_handle : EntityHandle := mkHandle 40 Blip 7 1.
Definition demo_pushed : EntityPool := snd (Push demo_pool 40 7 1).

Lemma push_gives_the_same_object_witness :
  Push (run_ops demo_pushed [OMark 7; OAdopt 7; OSetTag 7 1 "t"]) 41 7 1 =
    (Some demo_handle, run_ops demo_pushed [OMark 7; OAdopt 7; OSetTag 7 1 "t"]).
Proof.
  apply (push_gives_the_same_object demo_pool 7 1 40 demo_handle demo_pushed).
  - apply (run_op_wf _ (OAdopt 7)), new_pool_wf.
  - vm_compute. reflexivity.
  - vm_compute. reflexivity.
  - repeat constructor; discriminate.
  - vm_compute. reflexivity.
  - vm_compute. reflexivity.
Defined.

(** C38: every operation keeps the pool well formed (a dead slot holds no
    handle, data, tag or mark; a live slot's handle names its own lifetime),
    starting from the constructor. *)
Theorem pool_invariant k ops : pool_wf (run_ops (new_pool k) ops).
Proof. auto with vcmp. Qed.

(** The enumeration of live entities lists exactly the ids that are in
    range and alive, each once, in increasing order. *)
Theorem AliveIds_spec p :
  (forall id, id ∈ AliveIds p <-> Alive p id = true) /\ NoDup (AliveIds p) /\
  StronglySorted Z.lt (AliveIds p).
Proof.
  unfold AliveIds. split_and!.
  - intros id. rewrite list_elem_of_In, filter_In, <- list_elem_of_In.
    unfold pool_ids. rewrite elem_of_zrange. unfold Alive.
    rewrite andb_true_iff, InRange_true. done.
  - apply NoDup_ListNoDup, List.NoDup_filter, NoDup_ListNoDup, zrange_NoDup.
  - assert (forall n m, StronglySorted Z.lt ((fun k : nat => first_id (pool_traits p) + Z.of_nat k)
        <$> seq n m)) as Hs.
    { intros n m. revert n. induction m as [|m IH]; intros n; simpl; constructor; [apply IH|].
      apply Forall_fmap, Forall_forall. intros x Hx%elem_of_seq. simpl. lia. }
    unfold pool_ids, zrange. revert Hs. generalize (capacity (pool_traits p)) 0%nat.
    intros c n Hs. specialize (Hs n (Z.to_nat (c - first_id (pool_traits p)))). revert Hs.
    generalize ((fun k : nat => first_id (pool_traits p) + Z.of_nat k)
      <$> seq n (Z.to_nat (c - first_id (pool_traits p)))). intros l Hl.
    induction Hl as [|x l Hl IH Hx]; simpl; [constructor|].
    case_match; [constructor; [done|]|done]. rewrite Forall_forall in *.
    intros y Hy%list_elem_of_In. apply filter_In in Hy as [Hy _].
    by apply Hx, list_elem_of_In.
Qed.

(** Adopting and releasing are idempotent, and a release undoes an adopt
    up to the generation, so the server may report a change again while the
    binding that caused it still runs. *)
Theorem adopt_release_idempotent p id :
  pool_wf p ->
  Adopt (fst (Adopt p id)) id = (fst (Adopt p id), snd (Adopt p id)) /\
  Release (Release p id) id = Release p id /\
  (InRange p id = true ->
     Alive (fst (Adopt p id)) id = true /\ Alive (Release p id) id = false /\
     Ref (Release (fst (Adopt p id)) id) id = no_ref).
Proof.
  intros Hwf.
  assert (forall q, pool_wf q -> Alive (Release q id) id = false) as Hrel.
  { intros q Hq. unfold Release. destruct (Alive q id) eqn:Ha; simpl; [|done].
    unfold Alive. rewrite Slot_set_slot_eq; eauto with vcmp. simpl. by rewrite andb_false_r. }
  split_and!.
  - unfold Adopt at 2 3 4. destruct (InRange p id) eqn:Hr; simpl.
    2: { unfold Adopt. by rewrite Hr. }
    destruct (alive (Slot p id)) eqn:Ha; simpl.
    + unfold Adopt. by rewrite Hr, Ha.
    + unfold Adopt. rewrite InRange_set_slot, Hr. simpl. by rewrite Slot_set_slot_eq.
  - unfold Release at 1. by rewrite (Hrel p Hwf).
  - intros Hr. split_and!; [|by apply Hrel|].
    + unfold Adopt. rewrite Hr. simpl. destruct (alive (Slot p id)) eqn:Ha; simpl.
      * unfold Alive. by rewrite Hr, Ha.
      * unfold Alive. rewrite InRange_set_slot, Hr. simpl. by rewrite Slot_set_slot_eq.
    + pose proof (run_op_wf _ (OAdopt id) Hwf) as Hwf'. simpl in Hwf'.
      unfold Ref. by rewrite (Hrel _ Hwf').
Qed.

Lemma adopt_release_idempotent_witness :
  Alive (fst (Adopt demo_pool 9)) 9 = true.
Proof.
  destruct (adopt_release_idempotent demo_pool 9) as (_ & _ & H).
  - apply (run_op_wf _ (OAdopt 7)), new_pool_wf.
  - apply H. reflexivity.
Defined.
