(* ===== verification/Registry.v ===== *)
(** What a pool promises (src/core/entity_pool.hpp), as an abstract registry: a
    map from the ids that exist to what the plugin knows of the entity, where
    every lifetime of an id has a number of its own, counted without bound. The
    pool of EntityPool.v, with its slots and its 32-bit generations, implements
    it: whatever operations are done in whatever order, it answers the same. *)
From stdpp Require Import base tactics list gmap strings.
From Stdlib Require Import ZArith Lia.
From S2P Require Import Prelude.
From S2P Require Import EntityPool.
Open Scope Z_scope.

(** ** The registry *)

(** An entity that exists: whether the plugin created it, the Lua objects of its
    handle and its data table, its tag. *)
Record entity := mkEntity
  { e_ours : bool; e_handle : option Z; e_data : option Z; e_tag : string }.
Definition new_entity : entity := mkEntity false None None "".

(** The entities that exist, how many lifetimes each id has had, and whether the
    pool is closed. *)
Record registry := mkRegistry
  { live : gmap Z entity; counts : gmap Z Z; shut : bool }.
Definition new_registry : registry := mkRegistry ∅ ∅ false.

Definition count (a : registry) (id : Z) : Z := default 0 (counts a !! id).
Definition set_live (f : gmap Z entity -> gmap Z entity) (a : registry) : registry :=
  mkRegistry (f (live a)) (counts a) (shut a).

(** Lifetime [n] of [id] is the current one. *)
Definition current (a : registry) (id n : Z) : bool :=
  bool_decide (is_Some (live a !! id)) && (count a id =? n).

(** The operations, on an id or on a lifetime of an id. *)
Inductive reg_op :=
  | RAdopt (id : Z) | RRelease (id : Z) | RMark (id : Z) | RRef (id : Z)
  | RPush (obj id n : Z) | RData (obj id n : Z) | RSetData (id n d : Z)
  | RTag (id n : Z) | RSetTag (id n : Z) (t : string)
  | RAlive | RCreated | RClose | RReleaseRefs.

(** What an operation answers: nothing, a lifetime of an id, a handle (the Lua
    object, the id, the lifetime), a table, a text, ids. *)
Inductive reply :=
  | ANothing | ARef (r : option (Z * Z)) | AHandle (h : option (Z * Z * Z))
  | ATable (r : outcome Z) | AText (r : outcome string) | ADone (r : outcome unit) | AIds (ids : list Z).

Section spec.
Context (k : EntityKind).

Definition ids : list Z := zrange (first_id (Traits k)) (capacity (Traits k)).
Definition in_range (id : Z) : bool := (first_id (Traits k) <=? id) && (id <? capacity (Traits k)).

(** An operation on a lifetime: refused when the pool is closed or the lifetime
    is over. *)
Definition guarded {A} (a : registry) (id n : Z) (ok : outcome A) : outcome A :=
  if shut a then Throw (RuntimeError "runtime shutting down")
  else if current a id n then ok
  else Throw (RuntimeError (name (Traits k) +:+ " no longer exists")).
Definition allowed (a : registry) (id n : Z) : bool := negb (shut a) && current a id n.
Definition entity_at (a : registry) (id : Z) : entity := default new_entity (live a !! id).

Definition reg_step (op : reg_op) (a : registry) : reply * registry :=
  let e id := entity_at a id in
  let put id x := set_live <[id := x]> a in
  match op with
  | RAdopt id =>
      (ANothing,
       if in_range id && negb (bool_decide (is_Some (live a !! id)))
       then mkRegistry (<[id := new_entity]> (live a)) (<[id := count a id + 1]> (counts a)) (shut a)
       else a)
  | RRelease id => (ANothing, set_live (delete id) a)
  | RMark id =>
      (ANothing,
       if bool_decide (is_Some (live a !! id))
       then put id (mkEntity true (e_handle (e id)) (e_data (e id)) (e_tag (e id))) else a)
  | RRef id => (ARef (if bool_decide (is_Some (live a !! id)) then Some (id, count a id) else None), a)
  | RPush obj id n =>
      if negb (allowed a id n) then (AHandle None, a)
      else
        match e_handle (e id) with
        | Some o => (AHandle (Some (o, id, n)), a)
        | None => (AHandle (Some (obj, id, n)),
                   put id (mkEntity (e_ours (e id)) (Some obj) (e_data (e id)) (e_tag (e id))))
        end
  | RData obj id n =>
      let d := default obj (e_data (e id)) in
      (ATable (guarded a id n (Ret d)),
       if allowed a id n
       then put id (mkEntity (e_ours (e id)) (e_handle (e id)) (Some d) (e_tag (e id))) else a)
  | RSetData id n d =>
      (ADone (guarded a id n (Ret tt)),
       if allowed a id n
       then put id (mkEntity (e_ours (e id)) (e_handle (e id)) (Some d) (e_tag (e id))) else a)
  | RTag id n => (AText (guarded a id n (Ret (e_tag (e id)))), a)
  | RSetTag id n t =>
      (ADone (guarded a id n (Ret tt)),
       if allowed a id n
       then put id (mkEntity (e_ours (e id)) (e_handle (e id)) (e_data (e id)) t) else a)
  | RAlive => (AIds (List.filter (fun id => bool_decide (is_Some (live a !! id))) ids), a)
  | RCreated =>
      (AIds (List.filter (fun id => bool_decide (is_Some (live a !! id)) && e_ours (e id)) ids), a)
  | RClose => (ANothing, mkRegistry (live a) (counts a) true)
  | RReleaseRefs =>
      (ANothing, set_live (fmap (fun x => mkEntity (e_ours x) None None (e_tag x))) a)
  end.

(** ** The pool *)

(** The same operations on the pool, whose handles and references carry the
    lifetime's number modulo 2^32. *)
Definition generation_of (n : Z) : Z := wrap 32 n.
Definition pool_step (op : reg_op) (p : EntityPool) : reply * EntityPool :=
  match op with
  | RAdopt id => (ANothing, fst (Adopt p id))
  | RRelease id => (ANothing, Release p id)
  | RMark id => (ANothing, MarkCreatedByUs p id)
  | RRef id =>
      let r := Ref p id in
      (ARef (if ref_id r <? 0 then None else Some (ref_id r, ref_generation r)), p)
  | RPush obj id n =>
      let '(h, p) := Push p obj id (generation_of n) in
      (AHandle ((fun h => (h_obj h, h_id h, h_generation h)) <$> h), p)
  | RData obj id n =>
      let r := Data p obj id (generation_of n) in
      (ATable ('(d, _) ← r; Ret d), ret_or p snd r)
  | RSetData id n d =>
      let r := SetData p id (generation_of n) d in
      (ADone (_ ← r; Ret tt), ret_or p (fun p' => p') r)
  | RTag id n => (AText (Tag p id (generation_of n)), p)
  | RSetTag id n t =>
      let r := SetTag p id (generation_of n) t in
      (ADone (_ ← r; Ret tt), ret_or p (fun p' => p') r)
  | RAlive => (AIds (AliveIds p), p)
  | RCreated => (AIds (CreatedByUs p), p)
  | RClose => (ANothing, Close p)
  | RReleaseRefs => (ANothing, ReleaseRefs p)
  end.

(** An reply as scripts see it: with generations for lifetimes. *)
Definition seen (x : reply) : reply :=
  match x with
  | ARef (Some (id, n)) => ARef (Some (id, generation_of n))
  | AHandle (Some (o, id, n)) => AHandle (Some (o, id, generation_of n))
  | x => x
  end.

(** ** The relation *)

Definition entity_of (s : SlotData) : option entity :=
  if alive s then Some (mkEntity (created_by_us s) (h_obj <$> handle s) (data s) (tag s)) else None.

Record implements (p : EntityPool) (a : registry) : Prop := mkImplements
  { im_wf : pool_wf p;
    im_kind : kind p = k;
    im_shut : closed p = shut a;
    im_slot id : in_range id = true ->
      generation (Slot p id) = generation_of (count a id) /\ 0 <= count a id /\
      entity_of (Slot p id) = live a !! id;
    im_out id : in_range id = false -> live a !! id = None }.

(** A lifetime that is not more than 2^32 - 1 before the current one. *)
Definition recent (a : registry) (id n : Z) : Prop :=
  0 <= n <= count a id /\ count a id - n < 2 ^ 32.

Lemma in_range_pool p a id : implements p a -> InRange p id = in_range id.
Proof. intros H. unfold InRange, pool_traits. by rewrite (im_kind _ _ H). Qed.

Lemma Alive_live p a id : implements p a -> Alive p id = bool_decide (is_Some (live a !! id)).
Proof.
  intros H. unfold Alive. rewrite (in_range_pool p a) by done. destruct (in_range id) eqn:Hr; simpl.
  - destruct (im_slot _ _ H id Hr) as (_ & _ & <-). unfold entity_of. by destruct (alive _).
  - by rewrite (im_out _ _ H).
Qed.

Lemma Valid_current p a id n :
  implements p a -> recent a id n -> Valid p id (generation_of n) = current a id n.
Proof.
  intros H [Hn Hd]. unfold Valid, current. rewrite (Alive_live p a) by done.
  case_bool_decide as Hl; [|done]. simpl.
  assert (in_range id = true) as Hr.
  { destruct (in_range id) eqn:E; [done|]. rewrite (im_out _ _ H id E) in Hl. by destruct Hl. }
  destruct (im_slot _ _ H id Hr) as (-> & _ & _). unfold generation_of, wrap.
  destruct (Z.eqb_spec (count a id) n) as [->|Hne]; [apply Z.eqb_refl|]. apply Z.eqb_neq. intros E.
  apply Hne. assert ((count a id - n) mod 2 ^ 32 = 0) as Hm by (rewrite Zminus_mod, E, Z.sub_diag; done).
  rewrite Z.mod_small in Hm; lia.
Qed.

Lemma live_slot p a id :
  implements p a -> Alive p id = true ->
  in_range id = true /\ alive (Slot p id) = true /\
  live a !! id = Some (entity_at a id) /\
  entity_at a id = mkEntity (created_by_us (Slot p id)) (h_obj <$> handle (Slot p id))
                     (data (Slot p id)) (tag (Slot p id)).
Proof.
  intros H Ha. pose proof (Alive_slot _ _ Ha) as Hs. pose proof (Alive_InRange _ _ Ha) as Hr.
  rewrite (in_range_pool p a) in Hr by done. destruct (im_slot _ _ H id Hr) as (_ & _ & He).
  unfold entity_of in He. rewrite Hs in He. unfold entity_at. rewrite <- He. done.
Qed.

(** Replacing one slot. *)
Lemma implements_update p a id s a' :
  implements p a -> in_range id = true -> pool_wf (set_slot p id s) -> shut a' = shut a ->
  (forall j, j <> id -> live a' !! j = live a !! j /\ count a' j = count a j) ->
  generation s = generation_of (count a' id) -> 0 <= count a' id -> entity_of s = live a' !! id ->
  implements (set_slot p id s) a'.
Proof.
  intros H Hr Hwf Hs Hj Hg Hc He. pose proof (im_wf _ _ H) as Hp.
  assert (InRange p id = true) as Hri by by rewrite (in_range_pool p a).
  split; [done|apply H|by rewrite Hs; apply H| |].
  - intros j Hrj. destruct (decide (id = j)) as [<-|Hne].
    + by rewrite Slot_set_slot_eq.
    + rewrite Slot_set_slot_ne by (done || by rewrite (in_range_pool p a)).
      destruct (Hj j (not_eq_sym Hne)) as [-> ->]. by apply H.
  - intros j Hrj. destruct (decide (j = id)) as [->|Hne]; [congruence|].
    destruct (Hj j Hne) as [-> _]. by apply H.
Qed.
Lemma implements_put p a id s x :
  implements p a -> Alive p id = true -> pool_wf (set_slot p id s) ->
  entity_of s = Some x -> generation s = generation (Slot p id) ->
  implements (set_slot p id s) (set_live <[id := x]> a).
Proof.
  intros H Ha Hwf He Hg. destruct (live_slot p a id H Ha) as (Hr & _ & _ & _).
  destruct (im_slot _ _ H id Hr) as (Hgen & Hc & _).
  apply (implements_update p a); try done.
  - intros j Hj. split; [|done]. by apply lookup_insert_ne.
  - by rewrite Hg, Hgen.
  - rewrite He. symmetry. apply lookup_insert_eq.
Qed.

(** ** The steps *)

(** Operations on a lifetime: what the pool checks is what the registry does. *)
Lemma Require_guarded {A} p a id n (m : outcome A) :
  implements p a -> recent a id n ->
  (_ ← Require p id (generation_of n); m) = guarded a id n m.
Proof.
  intros H Hn. rewrite Require_bind. unfold guarded, pool_traits.
  by rewrite (Valid_current p a), (im_shut _ _ H), (im_kind _ _ H).
Qed.

Lemma allowed_alive p a id n :
  implements p a -> recent a id n -> allowed a id n = true ->
  Alive p id = true /\ generation (Slot p id) = generation_of n.
Proof.
  intros H Hn Ha. unfold allowed in Ha. apply andb_true_iff in Ha as [_ Ha].
  rewrite <- (Valid_current p a) in Ha by done. split; [by eapply Valid_Alive|by apply Valid_generation].
Qed.

Definition op_recent (op : reg_op) (a : registry) : Prop :=
  match op with
  | RPush _ id n | RData _ id n | RSetData id n _ | RTag id n | RSetTag id n _ => recent a id n
  | _ => True
  end.

Definition simulates (op : reg_op) : Prop := forall p a,
  implements p a -> op_recent op a ->
  fst (pool_step op p) = seen (fst (reg_step op a)) /\
  implements (snd (pool_step op p)) (snd (reg_step op a)).

Lemma sim_adopt id : simulates (RAdopt id).
Proof.
  intros p a H _. split; [done|]. cbn [pool_step reg_step snd].
  pose proof (run_op_wf p (OAdopt id) (im_wf _ _ H)) as Hwf. cbn [run_op] in Hwf.
  pose proof (Alive_live p a id H) as Hl. unfold Alive in Hl. unfold Adopt in *.
  rewrite (in_range_pool p a) in * by done. destruct (in_range id) eqn:Hr; simpl in *; [|done].
  destruct (alive (Slot p id)) eqn:Ha; rewrite <- Hl; simpl in *; [done|].
  destruct (im_slot _ _ H id Hr) as (Hg & Hc & _).
  destruct (swf_dead _ _ _ (Slot_wf p id (im_wf _ _ H) ltac:(by rewrite (in_range_pool p a))) Ha)
    as (_ & Eh & Ed & Et).
  apply (implements_update p a); try done.
  - intros j Hj. unfold count. cbn [live counts]. by rewrite !lookup_insert_ne.
  - unfold count. cbn [counts generation]. rewrite lookup_insert_eq, Hg. cbn [default from_option].
    unfold generation_of, wrap. apply Zplus_mod_idemp_l.
  - unfold count at 1. cbn [counts]. rewrite lookup_insert_eq. cbn. lia.
  - cbn [live]. rewrite lookup_insert_eq. unfold entity_of. cbn [alive created_by_us handle data tag].
    by rewrite Eh, Ed, Et.
Qed.

Lemma sim_release id : simulates (RRelease id).
Proof.
  intros p a H _. split; [done|]. cbn [pool_step reg_step snd].
  pose proof (run_op_wf p (ORelease id) (im_wf _ _ H)) as Hwf. cbn [run_op] in Hwf.
  unfold Release in *. pose proof (Alive_live p a id H) as Hl. destruct (Alive p id) eqn:Ha; simpl in *.
  - destruct (live_slot p a id H Ha) as (Hr & _ & _ & _). destruct (im_slot _ _ H id Hr) as (Hg & Hc & _).
    apply (implements_update p a); try done.
    + intros j Hj. split; [|done]. by apply lookup_delete_ne.
    + symmetry. apply lookup_delete_eq.
  - symmetry in Hl. apply bool_decide_eq_false in Hl. apply eq_None_not_Some in Hl.
    unfold set_live. rewrite delete_id by done. by destruct a.
Qed.

Lemma sim_mark id : simulates (RMark id).
Proof.
  intros p a H _. split; [done|]. cbn [pool_step reg_step snd].
  pose proof (run_op_wf p (OMark id) (im_wf _ _ H)) as Hwf. cbn [run_op] in Hwf.
  unfold MarkCreatedByUs in *. rewrite <- (Alive_live p a) by done. destruct (Alive p id) eqn:Ha; [|done].
  destruct (live_slot p a id H Ha) as (_ & Hs & _ & ->).
  apply implements_put; try done. unfold entity_of. cbn [alive]. by rewrite Hs.
Qed.

Lemma sim_ref id : simulates (RRef id).
Proof.
  intros p a H _. split; [|done]. cbn [pool_step reg_step fst]. rewrite <- (Alive_live p a) by done.
  unfold Ref. destruct (Alive p id) eqn:Ha; simpl; [|done].
  destruct (live_slot p a id H Ha) as (Hr & _ & _ & _). destruct (im_slot _ _ H id Hr) as (-> & _ & _).
  rewrite (proj2 (Z.ltb_ge id 0)); [done|]. unfold in_range in Hr. apply andb_true_iff in Hr as [Hr _].
  apply Z.leb_le in Hr. assert (0 <= first_id (Traits k)) by (by destruct k). lia.
Qed.
(** The cases of an operation on a lifetime: refused, or done. *)
Lemma allowed_cases p a id n :
  implements p a -> recent a id n ->
  (closed p || negb (Valid p id (generation_of n))) = negb (allowed a id n).
Proof.
  intros H Hn. unfold allowed. rewrite (im_shut _ _ H), (Valid_current p a) by done.
  by destruct (shut a), (current a id n).
Qed.

Lemma sim_push obj id n : simulates (RPush obj id n).
Proof.
  intros p a H Hn. cbn [op_recent] in Hn. cbn [pool_step reg_step].
  pose proof (run_op_wf p (OPush obj id (generation_of n)) (im_wf _ _ H)) as Hwf. cbn [run_op] in Hwf.
  unfold Push in *. rewrite (allowed_cases p a) in * by done.
  destruct (allowed a id n) eqn:Ha; cbn [negb fst snd] in *; [|by split].
  destruct (allowed_alive p a id n H Hn Ha) as [Hal Hg].
  destruct (live_slot p a id H Hal) as (Hr & Hs & _ & ->). cbn [e_handle e_ours e_data e_tag].
  destruct (handle (Slot p id)) as [h|] eqn:Eh; cbn [fst snd fmap option_fmap option_map] in *.
  - split; [|done].
    destruct (swf_handle _ _ _ (Slot_wf p id (im_wf _ _ H) (Alive_InRange _ _ Hal)) h Eh) as (_ & -> & ->).
    by rewrite Hg.
  - split; [done|]. apply implements_put; try done. unfold entity_of. cbn [alive set_handle]. by rewrite Hs.
Qed.

(** Operations that raise for a lifetime that is over. *)
Lemma sim_guarded {A} id n p a (y : A) (f : A -> EntityPool) (s : SlotData) x :
  implements p a -> recent a id n -> f y = set_slot p id s ->
  pool_wf (ret_or p f (guarded a id n (Ret y))) ->
  (Alive p id = true -> entity_of s = Some x /\ generation s = generation (Slot p id)) ->
  implements (ret_or p f (guarded a id n (Ret y))) (if allowed a id n then set_live <[id := x]> a else a).
Proof.
  intros H Hn Hf Hwf Hs. unfold guarded, allowed in *.
  destruct (shut a) eqn:Esh, (current a id n) eqn:Ec; simpl in *; try done. rewrite Hf in *.
  assert (allowed a id n = true) as Ha by (unfold allowed; by rewrite Esh, Ec).
  destruct (allowed_alive p a id n H Hn Ha) as [Hal _]. destruct (Hs Hal). by apply implements_put.
Qed.

(** A slot whose entity is there, with one field replaced. *)
Lemma entity_of_field p a id (s : SlotData) x :
  implements p a -> Alive p id = true -> alive s = alive (Slot p id) ->
  mkEntity (created_by_us s) (h_obj <$> handle s) (data s) (tag s) = x ->
  generation s = generation (Slot p id) ->
  entity_of s = Some x /\ generation s = generation (Slot p id).
Proof.
  intros H Ha Hs <- Hg. destruct (live_slot p a id H Ha) as (_ & Hal & _). split; [|done].
  unfold entity_of. by rewrite Hs, Hal.
Qed.

Lemma guarded_map {A B} a id n (f : A -> outcome B) x :
  (guarded a id n (Ret x) ≫= f) = guarded a id n (f x).
Proof. unfold guarded. by destruct (shut a), (current a id n). Qed.

Lemma sim_data obj id n : simulates (RData obj id n).
Proof.
  intros p a H Hn. cbn [op_recent] in Hn. cbn [pool_step reg_step fst snd seen].
  pose proof (run_op_wf p (OData obj id (generation_of n)) (im_wf _ _ H)) as Hwf. cbn [run_op] in Hwf.
  unfold Data in *.
  set (d := default obj (data (Slot p id))).
  assert (match data (Slot p id) with
    | Some d => Ret (d, p) | None => Ret (obj, set_slot p id (EntityPool.set_data (Slot p id) (Some obj))) end =
    Ret (d, match data (Slot p id) with
            | Some _ => p | None => set_slot p id (EntityPool.set_data (Slot p id) (Some obj)) end)) as E
    by (unfold d; by destruct (data (Slot p id))).
  rewrite E in *. rewrite (Require_guarded p a) in * by done.
  assert (allowed a id n = true -> default obj (e_data (entity_at a id)) = d) as Hd.
  { intros Ha. destruct (allowed_alive p a id n H Hn Ha) as [Hal _].
    destruct (live_slot p a id H Hal) as (_ & _ & _ & ->). done. }
  split.
  - f_equal. rewrite guarded_map. unfold guarded, allowed in *.
    destruct (shut a), (current a id n); try done. f_equal. symmetry. by apply Hd.
  - destruct (allowed a id n) eqn:Ha; [|unfold guarded, allowed in *; by destruct (shut a), (current a id n)].
    rewrite Hd by done. destruct (allowed_alive p a id n H Hn Ha) as [Hal _].
    destruct (live_slot p a id H Hal) as (Hr & Hs & Hl & He). rewrite He. cbn [e_ours e_handle e_tag].
    unfold guarded in Hwf |- *. unfold allowed in Ha. apply andb_true_iff in Ha as [Hsh Hc].
    apply negb_true_iff in Hsh. rewrite Hsh, Hc in *. cbn [ret_or snd] in *. unfold d in *.
    destruct (data (Slot p id)) as [d'|] eqn:Ed; cbn [default from_option] in *.
    + unfold set_live. rewrite insert_id; [by destruct a|]. by rewrite Hl, He.
    + apply implements_put; try done. unfold entity_of. cbn [alive EntityPool.set_data]. by rewrite Hs.
Qed.

Lemma sim_set_data id n d : simulates (RSetData id n d).
Proof.
  intros p a H Hn. cbn [op_recent] in Hn. cbn [pool_step reg_step fst snd seen].
  pose proof (run_op_wf p (OSetData id (generation_of n) d) (im_wf _ _ H)) as Hwf. cbn [run_op] in Hwf.
  unfold SetData in *. rewrite (Require_guarded p a) in * by done. split.
  - f_equal. by rewrite guarded_map.
  - eapply sim_guarded; [done..|reflexivity|done|]. intros Ha.
    destruct (live_slot p a id H Ha) as (_ & _ & _ & ->). by eapply entity_of_field.
Qed.

Lemma sim_set_tag id n t : simulates (RSetTag id n t).
Proof.
  intros p a H Hn. cbn [op_recent] in Hn. cbn [pool_step reg_step fst snd seen].
  pose proof (run_op_wf p (OSetTag id (generation_of n) t) (im_wf _ _ H)) as Hwf. cbn [run_op] in Hwf.
  unfold SetTag in *. rewrite (Require_guarded p a) in * by done. split.
  - f_equal. by rewrite guarded_map.
  - eapply sim_guarded; [done..|reflexivity|done|]. intros Ha.
    destruct (live_slot p a id H Ha) as (_ & _ & _ & ->). by eapply entity_of_field.
Qed.

Lemma sim_tag id n : simulates (RTag id n).
Proof.
  intros p a H Hn. cbn [op_recent] in Hn. cbn [pool_step reg_step fst snd seen]. split; [|done].
  unfold Tag. rewrite (Require_guarded p a) by done. f_equal.
  destruct (allowed a id n) eqn:Ha; [|unfold guarded, allowed in *; by destruct (shut a), (current a id n)].
  destruct (allowed_alive p a id n H Hn Ha) as [Hal _]. by destruct (live_slot p a id H Hal) as (_ & _ & _ & ->).
Qed.

(** Enumerations. *)
Lemma alive_live p a id :
  implements p a -> in_range id = true -> alive (Slot p id) = bool_decide (is_Some (live a !! id)).
Proof.
  intros H Hr. destruct (im_slot _ _ H id Hr) as (_ & _ & <-). unfold entity_of. by destruct (alive _).
Qed.
Lemma ids_in_range id : In id ids -> in_range id = true.
Proof.
  unfold ids. rewrite <- list_elem_of_In, elem_of_zrange. unfold in_range. intros [? ?].
  apply andb_true_iff. rewrite Z.leb_le, Z.ltb_lt. lia.
Qed.
Lemma filter_same {A} (f g : A -> bool) l : (forall x, In x l -> f x = g x) -> List.filter f l = List.filter g l.
Proof. intros H. by apply List.filter_ext_in. Qed.

Lemma sim_alive : simulates RAlive.
Proof.
  intros p a H _. split; [|done]. cbn [pool_step reg_step fst seen]. f_equal.
  unfold AliveIds, pool_ids, pool_traits. rewrite (im_kind _ _ H). apply filter_same.
  intros id Hid. by apply alive_live, ids_in_range.
Qed.
Lemma sim_created : simulates RCreated.
Proof.
  intros p a H _. split; [|done]. cbn [pool_step reg_step fst seen]. f_equal.
  unfold CreatedByUs, pool_ids, pool_traits. rewrite (im_kind _ _ H). apply filter_same.
  intros id Hid. pose proof (ids_in_range id Hid) as Hr. rewrite (alive_live p a) by done.
  case_bool_decide as Hl; [|done]. simpl.
  assert (Alive p id = true) as Ha by (rewrite (Alive_live p a) by done; by apply bool_decide_eq_true_2).
  by destruct (live_slot p a id H Ha) as (_ & _ & _ & ->).
Qed.

Lemma sim_close : simulates RClose.
Proof.
  intros p a H _. split; [done|]. cbn [pool_step reg_step snd]. destruct H as [Hwf Hk Hs Hsl Ho].
  split; [exact (run_op_wf p OClose Hwf)|done|done|done|done].
Qed.
Lemma sim_release_refs : simulates RReleaseRefs.
Proof.
  intros p a H _. split; [done|]. cbn [pool_step reg_step snd].
  pose proof (run_op_wf p OReleaseRefs (im_wf _ _ H)) as Hwf. cbn [run_op] in Hwf.
  split; [done|apply H|apply H| |].
  - intros id Hr. destruct (im_slot _ _ H id Hr) as (Hg & Hc & He). rewrite Slot_ReleaseRefs.
    split_and!; [done|done|]. cbn [live set_live]. rewrite lookup_fmap, <- He.
    unfold entity_of. cbn [alive EntityPool.set_data set_handle]. by destruct (alive _).
  - intros id Hr. cbn [live set_live]. by rewrite lookup_fmap, (im_out _ _ H id Hr).
Qed.

Lemma pool_simulates op : simulates op.
Proof.
  destruct op; [apply sim_adopt|apply sim_release|apply sim_mark|apply sim_ref|apply sim_push|apply sim_data
    |apply sim_set_data|apply sim_tag|apply sim_set_tag|apply sim_alive|apply sim_created|apply sim_close
    |apply sim_release_refs].
Qed.

(** ** Whole runs *)

Fixpoint run_pool (ops : list reg_op) (p : EntityPool) : list reply * EntityPool :=
  match ops with
  | [] => ([], p)
  | op :: ops => let '(x, p) := pool_step op p in let '(xs, p) := run_pool ops p in (x :: xs, p)
  end.
Fixpoint run_registry (ops : list reg_op) (a : registry) : list reply * registry :=
  match ops with
  | [] => ([], a)
  | op :: ops => let '(x, a) := reg_step op a in let '(xs, a) := run_registry ops a in (x :: xs, a)
  end.

(** Each operation on a lifetime is on a recent one, when it is done. *)
Fixpoint all_recent (ops : list reg_op) (a : registry) : Prop :=
  match ops with [] => True | op :: ops => op_recent op a /\ all_recent ops (snd (reg_step op a)) end.

Lemma new_pool_implements : implements (new_pool k) new_registry.
Proof.
  split; [apply new_pool_wf|done|done| |done]. intros id Hr.
  assert (Slot (new_pool k) id = slot0) as ->; [|done]. unfold Slot. cbn [new_pool slots].
  destruct (replicate _ _ !! _) as [s|] eqn:E; [|done]. by apply lookup_replicate_1 in E as [-> _].
Qed.

Lemma run_pool_simulates ops p a :
  implements p a -> all_recent ops a ->
  fst (run_pool ops p) = seen <$> fst (run_registry ops a) /\
  implements (snd (run_pool ops p)) (snd (run_registry ops a)).
Proof.
  revert p a. induction ops as [|op ops IH]; intros p a H Hr; cbn [run_pool run_registry]; [by split|].
  destruct Hr as [Hop Hr]. destruct (pool_simulates op p a H Hop) as [Hx Hi].
  destruct (pool_step op p) as [x p1], (reg_step op a) as [y a1]. cbn [fst snd] in *. subst x.
  specialize (IH p1 a1 Hi Hr). destruct (run_pool ops p1) as [xs p2], (run_registry ops a1) as [ys a2].
  cbn [fst snd fmap list_fmap] in *. by destruct IH as [-> Hi2].
Qed.

(** C9: A pool is a registry of lifetimes: whatever operations the server, the
    plugin and the scripts do, in whatever order, the pool gives the replies of
    the abstract registry, in which each lifetime of an id has a number of its own
    and what belongs to an entity ends with its lifetime. Slots, reuse of ids,
    cached handles and 32-bit generations do not show, as long as no handle is
    used that is 2^32 lifetimes of its id old. *)
Theorem pool_refines_registry ops :
  all_recent ops new_registry ->
  fst (run_pool ops (new_pool k)) = seen <$> fst (run_registry ops new_registry) /\
  implements (snd (run_pool ops (new_pool k))) (snd (run_registry ops new_registry)).
Proof. intros Hr. by apply run_pool_simulates; [apply new_pool_implements|]. Qed.
End spec.

(** The id 7 is reused: the tag of its first lifetime is gone, the handle of the
    first lifetime raises, the one of the second does not. *)
Definition reuse : list reg_op :=
  [RAdopt 7; RPush 90 7 1; RSetTag 7 1 "a"; RRelease 7; RAdopt 7; RTag 7 1; RTag 7 2; RPush 91 7 2; RRef 7].

Lemma pool_refines_registry_witness :
  fst (run_pool reuse (new_pool Blip)) =
    [ANothing; AHandle (Some (90, 7, 1)); ADone (Ret tt); ANothing; ANothing;
     AText (Throw (RuntimeError "blip no longer exists")); AText (Ret ""); AHandle (Some (91, 7, 2));
     ARef (Some (7, 2))].
Proof.
  destruct (pool_refines_registry Blip reuse) as [-> _]; [|vm_compute; reflexivity].
  cbn [all_recent reuse op_recent]. unfold recent. split_and!; try exact I; vm_compute; by try discriminate.
Defined.
