(* ===== verification/LuaValue.v ===== *)
(** Lua values as C++ sees them through the Lua API, the numbers of Lua 5.4
    (64-bit integers and IEEE doubles), raw table reads, and the error texts
    of src/runtime/errors.cpp. *)
From stdpp Require Import base tactics list strings pretty.
From Stdlib Require Import ZArith Lia Floats.SpecFloat.
From S2P Require Import Prelude.
From S2P Require Import EntityPool.
Open Scope Z_scope.

(** A value on the Lua stack. Objects carry an identity; a table also carries
    the raw entries it has when it is read. *)
Inductive lua_value :=
  | LNil
  | LBool (b : bool)
  | LInt (z : Z)
  | LFloat (f : spec_float)
  | LString (s : string)
  | LTable (obj : Z) (entries : list (lua_value * lua_value))
  | LFunction (obj : Z)
  | LHandle (h : EntityHandle)
  | LUserdata (obj : Z)
  | LLightUserdata (p : Z)
  | LThread (obj : Z).

Inductive lua_type :=
  TNone | TNil | TBoolean | TLightUserdata | TNumber | TString | TTable
  | TFunction | TUserdata | TThread.

#[export] Instance lua_type_eq_dec : EqDecision lua_type.
Proof. solve_decision. Defined.

Definition type_of (v : lua_value) : lua_type :=
  match v with
  | LNil => TNil | LBool _ => TBoolean | LInt _ | LFloat _ => TNumber
  | LString _ => TString | LTable _ _ => TTable | LFunction _ => TFunction
  | LHandle _ | LUserdata _ => TUserdata | LLightUserdata _ => TLightUserdata
  | LThread _ => TThread
  end.

(** [lua_typename]. *)
Definition typename (t : lua_type) : string :=
  match t with
  | TNone => "no value" | TNil => "nil" | TBoolean => "boolean"
  | TLightUserdata | TUserdata => "userdata" | TNumber => "number"
  | TString => "string" | TTable => "table" | TFunction => "function"
  | TThread => "thread"
  end.

(** ** Doubles *)

Definition f64_prec : Z := 53.
Definition f64_emax : Z := 1024.
Definition f32_prec : Z := 24.
Definition f32_emax : Z := 128.

(** [std::isfinite]. *)
Definition isfinite (f : spec_float) : bool :=
  match f with S754_zero _ | S754_finite _ _ _ => true | _ => false end.

(** The integer a double is equal to, if there is one: the value of
    [std::floor(number)] when [std::floor(number) == number]. *)
Definition float_to_Z (f : spec_float) : option Z :=
  match f with
  | S754_zero _ => Some 0
  | S754_finite s m e =>
      let v := if s then Z.neg m else Z.pos m in
      if 0 <=? e then Some (v * 2 ^ e)
      else if v mod 2 ^ (- e) =? 0 then Some (v / 2 ^ (- e)) else None
  | _ => None
  end.

(** The conversion to [int64] both [CheckInteger] and Lua's own
    [lua_tointegerx] make: exact, and only in [-2^63, 2^63). *)
Definition float_to_int64 (f : spec_float) : option Z :=
  match float_to_Z f with
  | Some z => if (INT64_MIN <=? z) && (z <=? INT64_MAX) then Some z else None
  | None => None
  end.

(** [static_cast<float>(double)]: round to nearest, ties to even. *)
Definition to_float32 (f : spec_float) : spec_float :=
  match f with
  | S754_finite s m e =>
      binary_normalize f32_prec f32_emax (if s then Z.neg m else Z.pos m) e s
  | _ => f
  end.

(** [lua_tonumber] of a number: an integer is converted to a double. *)
Definition int_to_float64 (z : Z) : spec_float := binary_normalize f64_prec f64_emax z 0 false.

Definition to_number (v : lua_value) : option spec_float :=
  match v with
  | LInt z => Some (int_to_float64 z)
  | LFloat f => Some f
  | _ => None
  end.

(** ** Raw table access *)

(** Whether a stored key is the integer [i]; Lua stores a float key with an
    integer value as that integer. *)
Definition key_is_int (i : Z) (k : lua_value) : bool :=
  match k with LInt z => z =? i | _ => false end.
Definition key_is_string (s : string) (k : lua_value) : bool :=
  match k with LString s' => String.eqb s' s | _ => false end.

Fixpoint raw_find (is_key : lua_value -> bool) (entries : list (lua_value * lua_value))
    : lua_value :=
  match entries with
  | [] => LNil
  | (k, v) :: rest => if is_key k then v else raw_find is_key rest
  end.

(** [lua_rawgeti(L, t, i)] and [lua_rawget] with a string key. *)
Definition rawgeti (entries : list (lua_value * lua_value)) (i : Z) : lua_value :=
  raw_find (key_is_int i) entries.
Definition rawgets (entries : list (lua_value * lua_value)) (s : string) : lua_value :=
  raw_find (key_is_string s) entries.

(** What the code uses of the Lua and fmt libraries beyond that: the text of a
    float, the traceback, a [__tostring] metamethod, the raw length (a border
    of the table, as the Lua manual defines it) and [lua_checkstack]. *)
Class LuaLib := {
  lua_number_text : spec_float -> string;
  fmt_double : spec_float -> string;
  luaL_traceback : string -> string;
  callmeta_tostring : lua_value -> option string;
  rawlen : list (lua_value * lua_value) -> Z;
  rawlen_border entries :
    0 <= rawlen entries /\
    (rawlen entries = 0 \/ rawgeti entries (rawlen entries) <> LNil) /\
    rawgeti entries (rawlen entries + 1) = LNil
}.

(** A border found by counting up; it shows that the interface can be met. *)
Fixpoint first_border (fuel : nat) (entries : list (lua_value * lua_value)) (n : Z) : Z :=
  match fuel with
  | O => n
  | S fuel =>
      match rawgeti entries (n + 1) with LNil => n | _ => first_border fuel entries (n + 1) end
  end.

Lemma rawgeti_key entries i :
  rawgeti entries i <> LNil -> LInt i ∈ entries.*1.
Proof.
  unfold rawgeti. induction entries as [|[k v] rest IH]; simpl; [done|].
  destruct (key_is_int i k) eqn:E.
  - intros _. destruct k; try done. simpl in E. apply Z.eqb_eq in E as ->. left.
  - intros H. right. by apply IH.
Qed.

Lemma first_border_spec fuel entries n :
  (n = 0 \/ rawgeti entries n <> LNil) -> 0 <= n ->
  (forall i, n < i <= n + Z.of_nat fuel -> rawgeti entries i <> LNil) \/
  (n <= first_border fuel entries n /\
   (first_border fuel entries n = 0 \/ rawgeti entries (first_border fuel entries n) <> LNil) /\
   rawgeti entries (first_border fuel entries n + 1) = LNil).
Proof.
  revert n. induction fuel as [|fuel IH]; intros n Hn Hpos; simpl.
  { left. intros. lia. }
  destruct (rawgeti entries (n + 1)) eqn:E; try (destruct (IH (n + 1)) as [H|H];
    [right; rewrite E; discriminate|lia| |right; intuition lia];
    left; intros i Hi; destruct (decide (i = n + 1)) as [->|];
      [rewrite E; discriminate|apply H; lia]).
  right. split_and!; [lia|done|done].
Qed.

Lemma all_keys_bound (l : list lua_value) (k : nat) :
  (forall i, 0 < i <= Z.of_nat k -> LInt i ∈ l) -> (k <= length l)%nat.
Proof.
  intros H.
  assert (NoDup ((fun i : nat => LInt (Z.of_nat i)) <$> seq 1 k)) as Hnd.
  { apply NoDup_fmap_2; [|apply NoDup_seq]. intros x y [=]. lia. }
  assert (((fun i : nat => LInt (Z.of_nat i)) <$> seq 1 k) ⊆ l) as Hsub.
  { intros x (i & -> & Hi%elem_of_seq)%list_elem_of_fmap. apply H. lia. }
  pose proof (NoDup_incl_length (l := (fun i : nat => LInt (Z.of_nat i)) <$> seq 1 k) (l' := l)) as Hl.
  rewrite length_fmap, length_seq in Hl. apply Hl.
  - by apply NoDup_ListNoDup.
  - intros x Hx%list_elem_of_In. by apply list_elem_of_In, Hsub.
Qed.

(** A plain instance: texts that name their argument, and the first border. *)
Program Definition plain_lib : LuaLib := {|
  lua_number_text f := "float";
  fmt_double f := "double";
  luaL_traceback s := s;
  callmeta_tostring v := None;
  rawlen entries := first_border (S (length entries)) entries 0
|}.
Next Obligation.
  intros entries.
  destruct (first_border_spec (S (length entries)) entries 0) as [H|(? & ? & ?)]; auto; [lia|].
  assert (S (length entries) <= length (entries.*1))%nat as Hbad.
  { apply all_keys_bound. intros i Hi. apply rawgeti_key, H. lia. }
  rewrite length_fmap in Hbad. lia.
Qed.

(** ** Error texts (src/runtime/errors.cpp) *)

Section errors.
Context {lib : LuaLib}.

(** [ErrorText(L, idx)]; [None] is an index past the stack top. *)
Definition ErrorText (v : option lua_value) : string :=
  match v with
  | Some (LString s) => s
  | Some (LInt z) => pretty z
  | Some (LFloat f) => fmt_double f
  | Some (LBool b) => if b then "true" else "false"
  | Some LNil | None => "nil"
  | Some v => "(error object is a " +:+ typename (type_of v) +:+ " value)"
  end.

(** [lua_tostring]: only strings and numbers convert. *)
Definition tostring (v : lua_value) : option string :=
  match v with
  | LString s => Some s
  | LInt z => Some (pretty z)
  | LFloat f => Some (lua_number_text f)
  | _ => None
  end.

(** [Traceback], the message handler of every protected call: the value
    [lua_pcall] leaves for the error value [v]. *)
Definition Traceback (v : lua_value) : lua_value :=
  match tostring v with
  | Some message => LString (luaL_traceback message)
  | None =>
      match callmeta_tostring v with
      | Some text => LString text
      | None =>
          LString (luaL_traceback
            ("(error object is a " +:+ typename (type_of v) +:+ " value)"))
      end
  end.

(** The text [ProtectedCall] returns when the call raised [v]. *)
Definition ProtectedCall_error (v : lua_value) : string := ErrorText (Some (Traceback v)).

(** [Panic]: the exception it throws for the error value on top of the stack;
    the runtime is marked dead before (see [MarkDead]). *)
Definition Panic_exn (v : option lua_value) : exn :=
  LuaPanic ("Lua error outside a protected call: " +:+ ErrorText v).

(** A protected call always reports a text, and for an error that is text it
    is the traceback of that text. *)
Lemma ProtectedCall_error_string s : ProtectedCall_error (LString s) = luaL_traceback s.
Proof. done. Qed.
End errors.
