(* ===== verification/Args.v ===== *)
(** Checked binding arguments and the errors bindings raise
    (src/bindings/args.hpp, args.cpp, convert.cpp and
    [RequireFunction] of bindings.cpp). *)
From stdpp Require Import base tactics list strings pretty.
From Stdlib Require Import ZArith Lia Floats.SpecFloat.
From S2P Require Import Prelude.
From S2P Require Import ApiGuard.
From S2P Require Import EntityPool.
From S2P Require Import LuaValue.
Open Scope Z_scope.

(** ** The running function *)

(** [lua_Debug] as filled by [lua_getinfo(L, "n", &ar)]. *)
Record lua_Debug := mkDebug { ar_name : option string; ar_namewhat : string }.

(** The Lua thread a binding runs on: the activation record of level 0, when
    there is one, and the stack from index 1. *)
Record lua_State := mkState { frame : option lua_Debug; stack : list lua_value }.

(** The value at a positive index; [None] is [LUA_TNONE]. *)
Definition at_index (L : lua_State) (i : Z) : option lua_value :=
  if i <=? 0 then None else stack L !! Z.to_nat (i - 1).

Definition ltype (L : lua_State) (i : Z) : lua_type :=
  match at_index L i with Some v => type_of v | None => TNone end.

Definition isnoneornil (L : lua_State) (i : Z) : bool :=
  match at_index L i with None | Some LNil => true | _ => false end.

Definition lua_gettop (L : lua_State) : Z := Z.of_nat (length (stack L)).

Section args.
Context {lib : LuaLib}.

(** [PropertyKey(L, ar)]: a C string. *)
Definition PropertyKey (L : lua_State) (ar : lua_Debug) : option string :=
  if String.eqb (ar_namewhat ar) "metamethod" then
    match ar_name ar with
    | Some n =>
        if String.eqb n "index" || String.eqb n "newindex" then
          match at_index L 2 with Some (LString key) => Some (c_str key) | _ => None end
        else None
    | None => None
    end
  else None.

(** [CurrentFunction(L)]. *)
Definition CurrentFunction (L : lua_State) : string :=
  match frame L with
  | None => "?"
  | Some ar =>
      match PropertyKey L ar with
      | Some key => key
      | None => match ar_name ar with Some n => n | None => "?" end
      end
  end.

(** [ArgError(L, index, message)]: the exception thrown. *)
Definition ArgError (L : lua_State) (index : Z) (message : string) : exn :=
  match frame L with
  | None =>
      InvalidArgument ("bad argument #" +:+ pretty index +:+ " (" +:+ message +:+ ")")
  | Some ar =>
      match PropertyKey L ar with
      | Some key =>
          InvalidArgument ("bad value for '" +:+ key +:+ "' (" +:+ message +:+ ")")
      | None =>
          let n := match ar_name ar with Some n => n | None => "?" end in
          let is_method := String.eqb (ar_namewhat ar) "method" in
          let index := if is_method then index - 1 else index in
          if is_method && (index =? 0) then
            InvalidArgument ("calling '" +:+ n +:+ "' on bad self (" +:+ message +:+ ")")
          else
            InvalidArgument ("bad argument #" +:+ pretty index +:+ " to '" +:+ n +:+
                             "' (" +:+ message +:+ ")")
      end
  end.

(** [TypeName(L, index)]. *)
Definition TypeName (L : lua_State) (i : Z) : string :=
  match at_index L i with
  | None => "no value"
  | Some (LHandle h) => type_name (Traits (h_kind h))
  | Some v => typename (type_of v)
  end.

(** [TypeError(L, index, expected)]. *)
Definition TypeError (L : lua_State) (i : Z) (expected : string) : exn :=
  ArgError L i (expected +:+ " expected, got " +:+ TypeName L i).

(** ** Numbers, booleans and strings *)

Definition out_of_range (value min max : Z) : string :=
  "value " +:+ pretty value +:+ " out of range [" +:+ pretty min +:+ ", " +:+ pretty max +:+ "]".

Definition check_range (L : lua_State) (i value min max : Z) : outcome Z :=
  if (value <? min) || (max <? value)
  then Throw (ArgError L i (out_of_range value min max)) else Ret value.

(** [CheckInteger(L, index, min, max)]. *)
Definition CheckInteger (L : lua_State) (i min max : Z) : outcome Z :=
  match at_index L i with
  | Some (LInt value) => check_range L i value min max
  | Some (LFloat number) =>
      match float_to_int64 number with
      | None => Throw (ArgError L i "number has no integer representation")
      | Some value => check_range L i value min max
      end
  | _ => Throw (TypeError L i "integer")
  end.

(** [CheckNumber(L, index)]. *)
Definition CheckNumber (L : lua_State) (i : Z) : outcome spec_float :=
  match at_index L i with
  | Some (LInt z) => Ret (int_to_float64 z)
  | Some (LFloat f) => Ret f
  | _ => Throw (TypeError L i "number")
  end.

(** [CheckBoolean(L, index)]. *)
Definition CheckBoolean (L : lua_State) (i : Z) : outcome bool :=
  match at_index L i with
  | Some (LBool b) => Ret b
  | _ => Throw (TypeError L i "boolean")
  end.

(** [CheckString(L, index)]. *)
Definition CheckString (L : lua_State) (i : Z) : outcome string :=
  match at_index L i with
  | Some (LString s) => Ret s
  | Some (LInt z) => Ret (pretty z)
  | Some (LFloat f) => Ret (lua_number_text f)
  | _ => Throw (TypeError L i "string")
  end.

(** [CheckColour(L, index)]. *)
Definition CheckColour (L : lua_State) (i : Z) : outcome Z :=
  value ← CheckInteger L i INT32_MIN UINT32_MAX; Ret (wrap 32 value).

(** The integer types a binding declares ([Int<T>]). *)
Inductive IntType := Int32 | UInt32 | Int16 | UInt16 | UInt8.

Definition int_min (T : IntType) : Z :=
  match T with Int32 => INT32_MIN | Int16 => INT16_MIN | UInt32 | UInt16 | UInt8 => 0 end.
Definition int_max (T : IntType) : Z :=
  match T with
  | Int32 => INT32_MAX | Int16 => INT16_MAX | UInt32 => UINT32_MAX
  | UInt16 => 65535 | UInt8 => 255
  end.

(** [static_cast<T>]. *)
Definition cast (T : IntType) (z : Z) : Z :=
  match T with
  | Int32 => swrap 32 z | Int16 => swrap 16 z
  | UInt32 => wrap 32 z | UInt16 => wrap 16 z | UInt8 => wrap 8 z
  end.

(** [sol_lua_get(sol::types<Int<T>>, ...)]. *)
Definition get_Int (T : IntType) (L : lua_State) (i : Z) : outcome Z :=
  z ← CheckInteger L i (int_min T) (int_max T); Ret (cast T z).

(** [Float]. *)
Definition get_Float (L : lua_State) (i : Z) : outcome spec_float :=
  f ← CheckNumber L i; Ret (to_float32 f).

(** [Opt<T>]: nil or a missing argument gives an empty value. *)
Definition get_Opt {A} (get : lua_State -> Z -> outcome A) (L : lua_State) (i : Z)
    : outcome (option A) :=
  if isnoneornil L i then Ret None else v ← get L i; Ret (Some v).

(** ** Tables *)

(** The raw entries of the table at [index]. *)
Definition entries_at (L : lua_State) (i : Z) : list (lua_value * lua_value) :=
  match at_index L i with Some (LTable _ es) => es | _ => [] end.

(** [TableNumber(L, index, i)]. *)
Definition TableNumber (L : lua_State) (index i : Z) : outcome spec_float :=
  let v := rawgeti (entries_at L index) i in
  match to_number v with
  | Some f => Ret (to_float32 f)
  | None =>
      Throw (ArgError L index
        ("element " +:+ pretty i +:+ " must be a number, got " +:+ typename (type_of v)))
  end.

(** [TableInteger(L, index, i, min, max, fallback)]. *)
Definition TableInteger (L : lua_State) (index i min max : Z) (fallback : option Z)
    : outcome Z :=
  let v := rawgeti (entries_at L index) i in
  let in_range value :=
    if (value <? min) || (max <? value)
    then Throw (ArgError L index ("element " +:+ pretty i +:+ ": " +:+ out_of_range value min max))
    else Ret value in
  let not_integer :=
    Throw (ArgError L index
      ("element " +:+ pretty i +:+ " must be an integer, got " +:+ typename (type_of v))) in
  match v, fallback with
  | LNil, Some d => Ret d
  | LInt value, _ => in_range value
  | LFloat f, _ =>
      match float_to_int64 f with
      | Some value => in_range value
      | None =>
          Throw (ArgError L index ("element " +:+ pretty i +:+ " has no integer representation"))
      end
  | _, _ => not_integer
  end.

(** [RawField(L, index, key)]: the value pushed. *)
Definition RawField (L : lua_State) (index : Z) (key : string) : lua_value :=
  rawgets (entries_at L index) key.

(** [TableLength(L, index)]: the raw length as an [int]. *)
Definition TableLength (L : lua_State) (index : Z) : Z := swrap 32 (rawlen (entries_at L index)).

(** ** Vectors *)

Record Vec3 := mkVec3 { vx : spec_float; vy : spec_float; vz : spec_float }.

(** [sol_lua_get(sol::types<Vec3>, ...)]: the vector and the number of stack
    slots used (1 for a table, 3 for numbers). *)
Definition get_Vec3 (L : lua_State) (index : Z) : outcome (Vec3 * Z) :=
  match ltype L index with
  | TTable =>
      x ← TableNumber L index 1; y ← TableNumber L index 2; z ← TableNumber L index 3;
      Ret (mkVec3 x y z, 1)
  | TNumber =>
      x ← CheckNumber L index; y ← CheckNumber L (index + 1); z ← CheckNumber L (index + 2);
      Ret (mkVec3 (to_float32 x) (to_float32 y) (to_float32 z), 3)
  | _ => Throw (TypeError L index "table or number")
  end.

(** [sol_lua_push(sol::types<Vec3>, ...)]: the table pushed. A [float] widens
    to a double without rounding. *)
Definition push_Vec3 (obj : Z) (v : Vec3) : lua_value :=
  LTable obj [(LInt 1, LFloat (vx v)); (LInt 2, LFloat (vy v)); (LInt 3, LFloat (vz v))].

(** ** ArgReader *)

Record ArgReader := mkReader { ar_L : lua_State; ar_first : Z }.

Definition ar_index (r : ArgReader) (i : Z) : Z := ar_first r + i - 1.
Definition ar_type (r : ArgReader) (i : Z) : lua_type := ltype (ar_L r) (ar_index r i).
Definition ar_missing (r : ArgReader) (i : Z) : bool := isnoneornil (ar_L r) (ar_index r i).
Definition ar_count (r : ArgReader) : Z := lua_gettop (ar_L r) - ar_first r + 1.
Definition ar_Int (T : IntType) (r : ArgReader) (i : Z) : outcome Z :=
  get_Int T (ar_L r) (ar_index r i).
Definition ar_IntOr (T : IntType) (r : ArgReader) (i fallback : Z) : outcome Z :=
  if ar_missing r i then Ret fallback else ar_Int T r i.
Definition ar_Number (r : ArgReader) (i : Z) : outcome spec_float :=
  get_Float (ar_L r) (ar_index r i).
Definition ar_Bool (r : ArgReader) (i : Z) : outcome bool :=
  CheckBoolean (ar_L r) (ar_index r i).
Definition ar_BoolOr (r : ArgReader) (i : Z) (fallback : bool) : outcome bool :=
  if ar_missing r i then Ret fallback else ar_Bool r i.
Definition ar_ColourAt (r : ArgReader) (i : Z) : outcome Z := CheckColour (ar_L r) (ar_index r i).
(** [Vector(i)]: the vector and the next argument. *)
Definition ar_Vector (r : ArgReader) (i : Z) : outcome (Vec3 * Z) :=
  '(v, used) ← get_Vec3 (ar_L r) (ar_index r i); Ret (v, i + used).

(** ** Handles, integers and functions *)

(** [ToHandle<K>(L, index)]. *)
Definition ToHandle (k : EntityKind) (L : lua_State) (i : Z) : option EntityHandle :=
  match at_index L i with
  | Some (LHandle h) => if decide (h_kind h = k) then Some h else None
  | _ => None
  end.

(** [ToInteger(value, what)] of convert.cpp. *)
Definition ToInteger (v : lua_value) (what : string) : outcome Z :=
  match v with
  | LInt z => Ret z
  | LFloat f =>
      match float_to_int64 f with
      | Some z => Ret z
      | None =>
          Throw (InvalidArgument (what +:+ " must be an integer (got " +:+ fmt_double f +:+ ")"))
      end
  | _ =>
      Throw (InvalidArgument
        (what +:+ " must be an integer (got " +:+ typename (type_of v) +:+ ")"))
  end.

(** [RequireFunction(value, where, argument)]: the function's identity. *)
Definition RequireFunction (v : lua_value) (where_ : string) (argument : Z) : outcome Z :=
  match v with
  | LFunction obj => Ret obj
  | _ =>
      Throw (InvalidArgument (where_ +:+ ": argument " +:+ pretty argument +:+
        " must be a function (got " +:+ typename (type_of v) +:+ ")"))
  end.

(** ** Properties *)

(** The integer a Lua number stands for, if it stands for one. *)
Definition integer_of (v : lua_value) : option Z :=
  match v with LInt z => Some z | LFloat f => float_to_int64 f | _ => None end.

Lemma check_range_Ret L i v min max z :
  check_range L i v min max = Ret z <-> v = z /\ min <= z <= max.
Proof.
  unfold check_range. destruct (_ || _) eqn:E.
  - apply orb_true_iff in E as [?%Z.ltb_lt|?%Z.ltb_lt]; split; [done|lia|done|lia].
  - apply orb_false_iff in E as [?%Z.ltb_ge ?%Z.ltb_ge]. split; [intros [= ->]; lia|].
    by intros [-> _].
Qed.

Lemma CheckInteger_Ret L i min max z :
  CheckInteger L i min max = Ret z <->
  (exists v, at_index L i = Some v /\ integer_of v = Some z) /\ min <= z <= max.
Proof.
  unfold CheckInteger. destruct (at_index L i) as [v|]; [|split; [done|naive_solver]].
  destruct v as [| |n|f| | | | | | |]; simpl; try (split; [done|intros [(? & [= <-] & [=]) _]]).
  - rewrite check_range_Ret. naive_solver.
  - destruct (float_to_int64 f) as [n|] eqn:E; [|split; [done|]].
    + rewrite check_range_Ret. split; [intros [-> ?]; eauto|].
      intros [(? & [= <-] & Hz) ?]. simpl in Hz. split; [congruence|done].
    + intros [(? & [= <-] & Hz) ?]. simpl in Hz. congruence.
Qed.

Lemma CheckInteger_total L i min max :
  (exists z, CheckInteger L i min max = Ret z) \/
  (exists what, CheckInteger L i min max = Throw (InvalidArgument what)).
Proof.
  assert (forall j m, exists what, ArgError L j m = InvalidArgument what) as Harg.
  { intros j m. unfold ArgError. repeat case_match; eauto. }
  assert (forall v, (exists z, check_range L i v min max = Ret z) \/
    exists what, check_range L i v min max = Throw (InvalidArgument what)) as Hrange.
  { intros v. unfold check_range. destruct (_ || _); [|by eauto]. right.
    destruct (Harg i (out_of_range v min max)) as [? ->]. eauto. }
  unfold CheckInteger, TypeError. repeat case_match; try apply Hrange;
    right; match goal with |- context [ArgError L ?j ?m] => destruct (Harg j m) as [? ->] end; eauto.
Qed.

Lemma cast_id T z : int_min T <= z <= int_max T -> cast T z = z.
Proof.
  destruct T; unfold int_min, int_max, INT32_MIN, INT32_MAX, INT16_MIN, INT16_MAX, UINT32_MAX;
    intros; simpl; first [apply swrap_small; [lia|simpl; lia]|apply wrap_small; simpl; lia].
Qed.

(** C39: a declared integer argument reaches the server as exactly the
    number the script wrote: it is accepted when it is an integer, or a float
    with an integral value, in the type's range, and then the C++ cast never
    truncates; anything else raises an argument error. *)
Theorem Int_argument_exact T L i :
  (forall z, get_Int T L i = Ret z <->
     (exists v, at_index L i = Some v /\ integer_of v = Some z) /\ int_min T <= z <= int_max T) /\
  ((exists z, get_Int T L i = Ret z) \/
   (exists what, get_Int T L i = Throw (InvalidArgument what))).
Proof.
  unfold get_Int. split.
  - intros z. rewrite <- CheckInteger_Ret.
    destruct (CheckInteger L i (int_min T) (int_max T)) as [n| |] eqn:E; simpl; [|done..].
    apply CheckInteger_Ret in E as [_ Hn]. rewrite cast_id by done. done.
  - destruct (CheckInteger_total L i (int_min T) (int_max T)) as [[z ->]|[w ->]]; simpl; eauto.
Qed.

(** A colour is accepted exactly in [-2^31, 2^32), and a negative value
    means the same 32 bits as the unsigned value 2^32 above it. *)
Theorem Colour_argument L i z :
  at_index L i = Some (LInt z) ->
  CheckColour L i =
    if decide (INT32_MIN <= z <= UINT32_MAX)
    then Ret (if decide (z < 0) then z + 2 ^ 32 else z)
    else Throw (ArgError L i (out_of_range z INT32_MIN UINT32_MAX)).
Proof.
  intros Hz. unfold CheckColour, CheckInteger. rewrite Hz. unfold check_range.
  case_decide as Hr.
  - replace (_ || _) with false by (unfold INT32_MIN, UINT32_MAX in *;
      symmetry; apply orb_false_iff; split; apply Z.ltb_ge; lia).
    simpl. f_equal. unfold wrap, INT32_MIN, UINT32_MAX in *. case_decide.
    + rewrite <- (Z.mod_add _ 1) by lia. rewrite Z.mod_small; lia.
    + apply Z.mod_small. lia.
  - replace (_ || _) with true; [done|]. symmetry. apply orb_true_iff.
    rewrite !Z.ltb_lt. lia.
Qed.
End args.

Definition demo_state (v : lua_value) : lua_State :=
  mkState (Some (mkDebug (Some "setColour") "method")) [LNil; v].

Lemma Colour_argument_witness :
  CheckColour (demo_state (LInt (-16776961))) 2 = Ret 4278190335.
Proof. rewrite (Colour_argument _ _ (-16776961)); reflexivity. Defined.
