(* ===== verification/Invoker.v ===== *)
(** The one way C++ calls a Lua function (src/core/invoker.hpp), and the
    interface [LuaHost] behind which the scripts are kept: the components that
    call Lua are written and proved against it, for any Lua code. *)
From stdpp Require Import base tactics list strings.
From Stdlib Require Import ZArith Lia.
From S2P Require Import Prelude.
From S2P Require Import EntityPool.
From S2P Require Import LuaValue.
Open Scope Z_scope.

(** spdlog levels, least severe first. *)
Inductive level := Ltrace | Ldebug | Linfo | Lwarn | Lerr | Lcritical | Loff.

#[export] Instance level_eq_dec : EqDecision level.
Proof. solve_decision. Defined.

(** [Invoker]: the number of active calls into Lua, and whether a Lua panic
    made the state unusable. *)
Record Invoker := mkInvoker { depth : Z; dead : bool }.

Definition new_invoker : Invoker := mkInvoker 0 false.

(** [MarkDead()]. *)
Definition Invoker_MarkDead (i : Invoker) : Invoker := mkInvoker (depth i) true.

(** [Invoker::Scope]'s constructor and destructor. *)
Definition scope_enter (i : Invoker) : Invoker := mkInvoker (depth i + 1) (dead i).
Definition scope_leave (i : Invoker) : Invoker := mkInvoker (depth i - 1) (dead i).

(** The state [W] of the whole plugin, as the code that calls Lua needs it:
    the invoker it owns, the log, [lua_checkstack], and [pcall fn args]: what
    calling the function [fn] in protected mode does to the state, and the
    error value if it raised one. *)
Class LuaHost (W : Type) := {
  get_invoker : W -> Invoker;
  set_invoker : Invoker -> W -> W;
  log_line : level -> string -> W -> W;
  checkstack : Z -> W -> bool;
  pcall : Z -> list lua_value -> W -> option lua_value * W;
  get_set_invoker i w : get_invoker (set_invoker i w) = i;
  set_set_invoker i j w : set_invoker i (set_invoker j w) = set_invoker i w;
  get_invoker_log l s w : get_invoker (log_line l s w) = get_invoker w
}.

(** A preorder on [W] that all Lua code respects. *)
Class LuaRespects {W} `{LuaHost W} (R : W -> W -> Prop) :=
  lua_respects fn args w : R w (snd (pcall fn args w)).

Section call.
Context {W : Type} `{LuaHost W} {lib : LuaLib}.
Implicit Types (w : W).

Definition enter w : W := set_invoker (scope_enter (get_invoker w)) w.
Definition leave w : W := set_invoker (scope_leave (get_invoker w)) w.

(** [Invoker::Call(L, fn, what, push)]: [push] pushes the arguments. *)
Definition Call (fn : Z) (what : string) (push : prog W (list lua_value)) : prog W bool :=
  fun w =>
    if dead (get_invoker w) then (Ret false, w)
    else
      let w := enter w in
      let '(r, w) :=
        if negb (checkstack 2 w) then (Throw (RuntimeError "Lua stack overflow"), w)
        else
          match push w with
          | (Ret args, w) =>
              match pcall fn args w with
              | (None, w) => (Ret true, w)
              | (Some error, w) =>
                  (Ret false, log_line Lerr (what +:+ ": " +:+ ProtectedCall_error error) w)
              end
          | (Throw e, w) => (Throw e, w)
          | (UB, w) => (UB, w)
          end in
      (r, leave w).

(** What a relation must tolerate to survive a call: logging, and the change
    of the call depth on the way in and out. *)
Class CallStable (R : W -> W -> Prop) := {
  stable_preorder :: PreOrder R;
  stable_log l s w : R w (log_line l s w);
  stable_bracket w w' : R (enter w) w' -> R w (leave w')
}.

Lemma Call_respects R `{!CallStable R, !LuaRespects R} fn what push :
  respects R push -> respects R (Call fn what push).
Proof.
  intros Hpush w. unfold Call. destruct (dead _); [reflexivity|].
  destruct (checkstack 2 (enter w)); simpl.
  2: { intros _. apply stable_bracket. reflexivity. }
  specialize (Hpush (enter w)). destruct (push (enter w)) as [[args|e|] w1]; simpl in *;
    [|intros; by apply stable_bracket, Hpush|done].
  specialize (Hpush eq_refl).
  pose proof (lua_respects fn args w1) as Hcall.
  destruct (pcall fn args w1) as [[err|] w2]; simpl in *; intros _; apply stable_bracket.
  - do 2 (etransitivity; [eassumption|]). apply stable_log.
  - by etransitivity.
Qed.

Lemma Call_UB fn what push w :
  (forall w', is_UB (fst (push w')) = false) -> is_UB (fst (Call fn what push w)) = false.
Proof.
  intros Hpush. unfold Call. destruct (dead _); [done|].
  destruct (checkstack 2 (enter w)); simpl; [|done].
  specialize (Hpush (enter w)). destruct (push (enter w)) as [[args|e|] w1]; simpl in *; try done.
  by destruct (pcall fn args w1) as [[err|] w2].
Qed.

(** The call depth is what it was, and a dead state stays dead. *)
Definition inv_step (i i' : Invoker) : Prop :=
  depth i' = depth i /\ (dead i = true -> dead i' = true).
Definition inv_rel w w' : Prop := inv_step (get_invoker w) (get_invoker w').

#[export] Instance inv_rel_preorder : PreOrder inv_rel.
Proof.
  split; unfold inv_rel, inv_step.
  - intros w. done.
  - intros w1 w2 w3 [? ?] [? ?]. split; [congruence|auto].
Qed.

#[export] Instance inv_rel_stable : CallStable inv_rel.
Proof.
  split; [apply _|..]; unfold inv_rel, inv_step, enter, leave, scope_enter, scope_leave.
  - intros. by rewrite get_invoker_log.
  - intros w w'. rewrite !get_set_invoker. simpl. intros [? ?]. split; [lia|done].
Qed.

(** A call into Lua leaves the call depth as it found it on every path,
    whether the function returns, raises, or pushing its arguments throws, so
    a deferred shutdown runs exactly when the outermost call has returned. *)
Theorem Call_balances_depth `{!LuaRespects inv_rel} fn what push w :
  respects inv_rel push -> is_UB (fst (Call fn what push w)) = false ->
  depth (get_invoker (snd (Call fn what push w))) = depth (get_invoker w).
Proof. intros Hpush Hub. by apply (Call_respects inv_rel fn what push Hpush w). Qed.

(** After a panic no Lua code runs and nothing changes. *)
Lemma Call_dead fn what push w :
  dead (get_invoker w) = true -> Call fn what push w = (Ret false, w).
Proof. intros Hd. unfold Call. by rewrite Hd. Qed.

(** While the function runs, the depth is positive. *)
Lemma enter_depth w : depth (get_invoker (enter w)) = depth (get_invoker w) + 1.
Proof. unfold enter. by rewrite get_set_invoker. Qed.
End call.
#[export] Hint Resolve Call_respects : vcmp.
