(* ===== verification/EventBus.v ===== *)
(** Events and their handlers (src/core/event_bus.hpp, event_bus.cpp):
    registration, dispatch with cancellation, and what handlers may do to the
    bus while a dispatch runs. *)
From stdpp Require Import base tactics list gmap strings.
From Stdlib Require Import ZArith Lia.
From S2P Require Import Prelude.
From S2P Require Import EntityPool.
From S2P Require Import LuaValue.
From S2P Require Import Invoker.
Open Scope Z_scope.

(** ** The built-in events *)

Inductive Event :=
  | ServerInit | ServerShutdown | ServerFrame | PluginCommand | ClientData
  | PlayerModuleList | PlayerConnection | PlayerConnect | PlayerDisconnect
  | PlayerRequestClass | PlayerRequestSpawn | PlayerSpawn | PlayerWasted | PlayerKill
  | PlayerUpdate | PlayerRequestEnterVehicle | PlayerEnterVehicle | PlayerExitVehicle
  | PlayerNameChange | PlayerStateChange | PlayerActionChange | PlayerFireChange
  | PlayerCrouchChange | PlayerGameKeysChange | PlayerBeginTyping | PlayerFinishTyping
  | PlayerAwayChange | PlayerMessage | PlayerCommand | PlayerPM | PlayerKeyDown
  | PlayerKeyUp | PlayerSpectate | PlayerCrashReport | VehicleUpdate | VehicleExplode
  | VehicleRespawn | ObjectShot | ObjectTouch | PickupPickAttempt | PickupPicked
  | PickupRespawn | CheckpointEnter | CheckpointExit | EntityPoolChange
  | ServerPerformanceReport | EntityStreamingChange.

#[export] Instance Event_eq_dec : EqDecision Event.
Proof. solve_decision. Defined.

Definition all_events : list Event :=
  [ ServerInit; ServerShutdown; ServerFrame; PluginCommand; ClientData;
    PlayerModuleList; PlayerConnection; PlayerConnect; PlayerDisconnect;
    PlayerRequestClass; PlayerRequestSpawn; PlayerSpawn; PlayerWasted; PlayerKill;
    PlayerUpdate; PlayerRequestEnterVehicle; PlayerEnterVehicle; PlayerExitVehicle;
    PlayerNameChange; PlayerStateChange; PlayerActionChange; PlayerFireChange;
    PlayerCrouchChange; PlayerGameKeysChange; PlayerBeginTyping; PlayerFinishTyping;
    PlayerAwayChange; PlayerMessage; PlayerCommand; PlayerPM; PlayerKeyDown;
    PlayerKeyUp; PlayerSpectate; PlayerCrashReport; VehicleUpdate; VehicleExplode;
    VehicleRespawn; ObjectShot; ObjectTouch; PickupPickAttempt; PickupPicked;
    PickupRespawn; CheckpointEnter; CheckpointExit; EntityPoolChange;
    ServerPerformanceReport; EntityStreamingChange ].

(** [EventBus::Index(event)], the enum value. *)
Definition Index (e : Event) : nat :=
  match e with
  | ServerInit => 0 | ServerShutdown => 1 | ServerFrame => 2 | PluginCommand => 3
  | ClientData => 4 | PlayerModuleList => 5 | PlayerConnection => 6 | PlayerConnect => 7
  | PlayerDisconnect => 8 | PlayerRequestClass => 9 | PlayerRequestSpawn => 10
  | PlayerSpawn => 11 | PlayerWasted => 12 | PlayerKill => 13 | PlayerUpdate => 14
  | PlayerRequestEnterVehicle => 15 | PlayerEnterVehicle => 16 | PlayerExitVehicle => 17
  | PlayerNameChange => 18 | PlayerStateChange => 19 | PlayerActionChange => 20
  | PlayerFireChange => 21 | PlayerCrouchChange => 22 | PlayerGameKeysChange => 23
  | PlayerBeginTyping => 24 | PlayerFinishTyping => 25 | PlayerAwayChange => 26
  | PlayerMessage => 27 | PlayerCommand => 28 | PlayerPM => 29 | PlayerKeyDown => 30
  | PlayerKeyUp => 31 | PlayerSpectate => 32 | PlayerCrashReport => 33
  | VehicleUpdate => 34 | VehicleExplode => 35 | VehicleRespawn => 36 | ObjectShot => 37
  | ObjectTouch => 38 | PickupPickAttempt => 39 | PickupPicked => 40 | PickupRespawn => 41
  | CheckpointEnter => 42 | CheckpointExit => 43 | EntityPoolChange => 44
  | ServerPerformanceReport => 45 | EntityStreamingChange => 46
  end%nat.

Definition kNames : list string :=
  [ "onServerInit"; "onServerShutdown"; "onServerFrame"; "onPluginCommand"; "onClientData";
    "onPlayerModuleList"; "onPlayerConnection"; "onPlayerConnect"; "onPlayerDisconnect";
    "onPlayerRequestClass"; "onPlayerRequestSpawn"; "onPlayerSpawn"; "onPlayerWasted";
    "onPlayerKill"; "onPlayerUpdate"; "onPlayerRequestEnterVehicle"; "onPlayerEnterVehicle";
    "onPlayerExitVehicle"; "onPlayerNameChange"; "onPlayerStateChange";
    "onPlayerActionChange"; "onPlayerFireChange"; "onPlayerCrouchChange";
    "onPlayerGameKeysChange"; "onPlayerBeginTyping"; "onPlayerFinishTyping";
    "onPlayerAwayChange"; "onPlayerMessage"; "onPlayerCommand"; "onPlayerPM";
    "onPlayerKeyDown"; "onPlayerKeyUp"; "onPlayerSpectate"; "onPlayerCrashReport";
    "onVehicleUpdate"; "onVehicleExplode"; "onVehicleRespawn"; "onObjectShot";
    "onObjectTouch"; "onPickupPickAttempt"; "onPickupPicked"; "onPickupRespawn";
    "onCheckpointEnter"; "onCheckpointExit"; "onEntityPoolChange";
    "onServerPerformanceReport"; "onEntityStreamingChange" ].

Definition Name (e : Event) : string := nth (Index e) kNames "".

(** ** State *)

(** A handler: the Lua function, by identity, and whether it is still bound. *)
Record Handler := mkHandler { fn : Z; h_alive : bool }.

#[export] Instance Handler_eq_dec : EqDecision Handler.
Proof. solve_decision. Defined.

Record EventBus := mkBus
  { lists : list (list Handler); names : list string; index_by_name : gmap string nat;
    cancelled : list bool; needs_compaction : bool }.

Definition set_lists (b : EventBus) (ls : list (list Handler)) : EventBus :=
  mkBus ls (names b) (index_by_name b) (cancelled b) (needs_compaction b).
Definition set_cancelled (b : EventBus) (cs : list bool) : EventBus :=
  mkBus (lists b) (names b) (index_by_name b) cs (needs_compaction b).
Definition set_needs_compaction (b : EventBus) (n : bool) : EventBus :=
  mkBus (lists b) (names b) (index_by_name b) (cancelled b) n.

(** ** Operations on the bus alone *)

Definition Find (b : EventBus) (name : string) : option nat := index_by_name b !! name.

(** [Create(name)]. *)
Definition Create (b : EventBus) (name : string) : bool * EventBus :=
  match index_by_name b !! name with
  | Some _ => (false, b)
  | None =>
      (true, mkBus (lists b ++ [[]]) (names b ++ [name])
               (<[name := length (lists b)]> (index_by_name b))
               (cancelled b) (needs_compaction b))
  end.

(** The constructor. *)
Definition new_bus : EventBus :=
  fold_left (fun b name => snd (Create b name)) kNames (mkBus [] [] ∅ [] false).

Definition Compact (b : EventBus) : EventBus :=
  mkBus (List.filter h_alive <$> lists b) (names b) (index_by_name b) (cancelled b) false.

Definition HasHandlers (b : EventBus) (event : nat) : bool :=
  match lists b !! event with Some l => negb (bool_decide (l = [])) | None => false end.

Definition Bus_Clear (b : EventBus) : EventBus :=
  mkBus ((fun _ => []) <$> lists b) (names b) (index_by_name b) (cancelled b) false.

Definition Cancel (b : EventBus) : outcome EventBus :=
  match cancelled b with
  | [] => Throw (LogicError "Event.cancel() called outside an event handler")
  | _ :: _ =>
      Ret (set_cancelled b (<[Nat.pred (length (cancelled b)) := true]> (cancelled b)))
  end.

(** What [lists_.at(event)] throws for an index past the end. *)
Definition at_error : exn := OutOfRange "deque::at".

(** Is [f] bound in this list? The position of the live handler. [Same] needs
    two free Lua stack slots; [room] says whether they are there. *)
Fixpoint find_bound (room : bool) (f : Z) (l : list Handler) (i : nat) : outcome (option nat) :=
  match l with
  | [] => Ret None
  | h :: rest =>
      if h_alive h then
        if room then
          if fn h =? f then Ret (Some i) else find_bound room f rest (S i)
        else Throw (RuntimeError "Lua stack overflow")
      else find_bound room f rest (S i)
  end.

(** [Bind(L, event, fn)]. *)
Definition BindHandler (room : bool) (b : EventBus) (event : nat) (f : Z) : outcome (bool * EventBus) :=
  match lists b !! event with
  | None => Throw at_error
  | Some l =>
      found ← find_bound room f l 0;
      match found with
      | Some _ => Ret (false, b)
      | None => Ret (true, set_lists b (<[event := l ++ [mkHandler f true]]> (lists b)))
      end
  end.

(** [Unbind(L, event, fn)]. *)
Definition Unbind (room : bool) (b : EventBus) (event : nat) (f : Z) : outcome (bool * EventBus) :=
  match lists b !! event with
  | None => Throw at_error
  | Some l =>
      found ← find_bound room f l 0;
      match found with
      | None => Ret (false, b)
      | Some i =>
          let b := set_needs_compaction
            (set_lists b (<[event := <[i := mkHandler f false]> l]> (lists b))) true in
          Ret (true, match cancelled b with [] => Compact b | _ => b end)
      end
  end.

(** [std::vector<bool>::resize]. *)
Definition resize (n : nat) (l : list bool) : list bool :=
  take n l ++ replicate (n - length l) false.

(** [DispatchFrame]'s constructor and destructor. *)
Definition frame_push (b : EventBus) : EventBus := set_cancelled b (cancelled b ++ [false]).
Definition frame_drop (index : nat) (b : EventBus) : EventBus :=
  set_cancelled b (resize index (cancelled b)).

(** [DispatchFrame::Finish()]. *)
Definition Finish (index : nat) (b : EventBus) : outcome (bool * EventBus) :=
  match cancelled b !! index with
  | None => UB
  | Some was_cancelled =>
      let b := frame_drop index b in
      Ret (was_cancelled,
           match cancelled b with
           | [] => if needs_compaction b then Compact b else b
           | _ => b
           end)
  end.

(** ** Invariant *)

Record bus_wf (b : EventBus) : Prop := mkBusWf
  { bwf_lengths : length (names b) = length (lists b);
    bwf_index n i : index_by_name b !! n = Some i <-> names b !! i = Some n;
    bwf_dead l h : l ∈ lists b -> h ∈ l -> h_alive h = false -> needs_compaction b = true;
    bwf_nodup l : l ∈ lists b -> NoDup (fn <$> List.filter h_alive l) }.

(** How the bus may change while a dispatch is active: handlers keep their
    place and their function, a dead one stays dead, lists and names only
    grow, the flags of the outer dispatches are untouched and a cancellation
    of the innermost one is not taken back. *)
Definition list_ext (l l' : list Handler) : Prop :=
  forall i h, l !! i = Some h ->
  exists h', l' !! i = Some h' /\ fn h' = fn h /\ (h_alive h' = true -> h_alive h = true).

Record bus_ext (b b' : EventBus) : Prop := mkBusExt
  { ext_lists e l : lists b !! e = Some l ->
      exists l', lists b' !! e = Some l' /\ list_ext l l';
    ext_names : names b `prefix_of` names b';
    ext_frames : length (cancelled b') = length (cancelled b);
    ext_outer i c : cancelled b !! i = Some c -> (S i < length (cancelled b))%nat ->
      cancelled b' !! i = Some c;
    ext_inner i : cancelled b !! i = Some true -> cancelled b' !! i = Some true }.

(** What any code that runs inside a call into Lua may do to the bus. *)
Record bus_step (b b' : EventBus) : Prop := mkBusStep
  { step_wf : bus_wf b -> bus_wf b';
    step_frames : length (cancelled b') = length (cancelled b);
    step_ext : cancelled b <> [] -> bus_ext b b' }.

(** The functions bound to an event, in bind order. *)
Definition live (b : EventBus) (event : nat) : list Z :=
  match lists b !! event with Some l => fn <$> List.filter h_alive l | None => [] end.

(** ** Lemmas on the operations *)

#[export] Instance list_ext_preorder : PreOrder list_ext.
Proof.
  split.
  - intros l i h Hi. eauto.
  - intros l1 l2 l3 H12 H23 i h Hi. apply H12 in Hi as (h2 & Hi & Hf & Ha).
    apply H23 in Hi as (h3 & Hi & Hf' & Ha'). exists h3. split_and!; [done|congruence|auto].
Qed.

#[export] Instance bus_ext_preorder : PreOrder bus_ext.
Proof.
  split.
  - intros b. split; eauto. intros e l Hl. exists l. split; [done|reflexivity].
  - intros b1 b2 b3 H12 H23. split.
    + intros e l Hl. apply H12 in Hl as (l2 & Hl & Hx). apply H23 in Hl as (l3 & Hl & Hx').
      exists l3. split; [done|]. by etransitivity.
    + etransitivity; [apply H12|apply H23].
    + etransitivity; [apply H23|apply H12].
    + intros i c Hi Hlt. eapply ext_outer; [done|by eapply ext_outer|].
      by rewrite (ext_frames _ _ H12).
    + intros i Hi. by eapply ext_inner, ext_inner.
Qed.

#[export] Instance bus_step_preorder : PreOrder bus_step.
Proof.
  split.
  - intros b. split; [done..|reflexivity].
  - intros b1 b2 b3 [Hw1 Hf1 He1] [Hw2 Hf2 He2]. split; [auto|congruence|].
    intros Hne. etransitivity; [by apply He1|]. apply He2.
    intros Hnil. rewrite Hnil in Hf1. simpl in Hf1. symmetry in Hf1.
    by apply length_zero_iff_nil in Hf1.
Qed.

Lemma list_ext_app l k : list_ext l (l ++ k).
Proof. intros i h Hi. exists h. split_and!; [by apply lookup_app_l_Some|done|done]. Qed.

Lemma list_ext_kill l i h :
  l !! i = Some h -> list_ext l (<[i := mkHandler (fn h) false]> l).
Proof.
  intros Hi j h' Hj. destruct (decide (i = j)) as [->|Hne].
  - exists (mkHandler (fn h) false). simplify_eq.
    rewrite list_lookup_insert_eq; [done|by eapply lookup_lt_Some].
  - exists h'. by rewrite list_lookup_insert_ne.
Qed.

(** A change of the lists alone, list by list. *)
Lemma bus_ext_lists b ls n :
  (forall e l, lists b !! e = Some l -> exists l', ls !! e = Some l' /\ list_ext l l') ->
  bus_ext b (set_needs_compaction (set_lists b ls) n).
Proof. intros H. by split. Qed.

Lemma bus_ext_insert b event l l' n :
  lists b !! event = Some l -> list_ext l l' ->
  bus_ext b (set_needs_compaction (set_lists b (<[event := l']> (lists b))) n).
Proof.
  intros Hl Hx. apply bus_ext_lists. intros e k Hk.
  destruct (decide (event = e)) as [->|Hne].
  - exists l'. simplify_eq. rewrite list_lookup_insert_eq; [done|by eapply lookup_lt_Some].
  - exists k. rewrite list_lookup_insert_ne by done. split; [done|reflexivity].
Qed.

(** [find_bound] finds the live handler with that function, if there is one. *)
Lemma find_bound_spec f l i r :
  find_bound true f l i = Ret r ->
  match r with
  | Some j => exists h, (i <= j)%nat /\ l !! (j - i)%nat = Some h /\ h_alive h = true /\ fn h = f
  | None => forall h, h ∈ l -> h_alive h = true -> fn h <> f
  end.
Proof.
  revert i. induction l as [|h l IH]; intros i; simpl.
  { intros [= <-] h Hh. by apply not_elem_of_nil in Hh. }
  assert (find_bound true f l (S i) = Ret r -> (h_alive h = true -> fn h <> f) ->
    match r with
    | Some j => exists h', (i <= j)%nat /\ (h :: l) !! (j - i)%nat = Some h' /\
        h_alive h' = true /\ fn h' = f
    | None => forall h', h' ∈ h :: l -> h_alive h' = true -> fn h' <> f
    end) as Hrec.
  { intros Hr%IH Hn. destruct r as [j|].
    - destruct Hr as (h' & Hj & Hl & Ha & Hf). exists h'. split_and!; [lia| |done|done].
      destruct (j - i)%nat as [|k] eqn:E; [lia|]. simpl.
      by replace (j - S i)%nat with k in Hl by lia.
    - intros h' [->|Hh]%elem_of_cons; auto. }
  destruct (h_alive h) eqn:Ha; [|intros Hr; by apply Hrec].
  destruct (fn h =? f) eqn:Hf.
  - intros [= <-]. exists h. apply Z.eqb_eq in Hf. rewrite Nat.sub_diag. split_and!; [lia|done..].
  - intros Hr. apply Hrec; [done|]. intros _. by apply Z.eqb_neq.
Qed.

Lemma find_bound_total room f l i :
  room = true -> exists r, find_bound room f l i = Ret r.
Proof.
  intros ->. revert i. induction l as [|h l IH]; intros i; simpl; [eauto|].
  destruct (h_alive h); [|apply IH]. destruct (fn h =? f); [eauto|apply IH].
Qed.

Lemma find_bound_room room f l i r : find_bound room f l i = Ret r ->
  find_bound true f l i = Ret r.
Proof.
  revert i. induction l as [|h l IH]; intros i; simpl; [done|].
  destruct (h_alive h), room; try done; try apply IH.
Qed.

Lemma filter_alive_app l h :
  List.filter h_alive (l ++ [h]) = List.filter h_alive l ++ (if h_alive h then [h] else []).
Proof. rewrite List.filter_app. simpl. by destruct (h_alive h). Qed.

Lemma filter_alive_kill l i h :
  l !! i = Some h ->
  sublist (List.filter h_alive (<[i := mkHandler (fn h) false]> l)) (List.filter h_alive l).
Proof.
  revert i. induction l as [|h' l IH]; intros [|i]; simpl; intros Hi; simplify_eq.
  - simpl. destruct (h_alive h); [by apply sublist_cons|done].
  - specialize (IH _ Hi). destruct (h_alive h'); [by apply sublist_skip|done].
Qed.

Lemma bus_wf_insert b event l l' n :
  bus_wf b -> lists b !! event = Some l ->
  NoDup (fn <$> List.filter h_alive l') ->
  (forall h, h ∈ l' -> h_alive h = false -> n = true) ->
  (needs_compaction b = true -> n = true) ->
  bus_wf (set_needs_compaction (set_lists b (<[event := l']> (lists b))) n).
Proof.
  intros [Hlen Hidx Hdead Hnd] Hl Hnd' Hdead' Hn. split; simpl.
  - by rewrite length_insert.
  - done.
  - intros k h Hk Hh Ha.
    apply list_elem_of_lookup in Hk as [j Hk].
    apply list_lookup_insert_Some in Hk as [(-> & -> & _)|[_ Hk]]; [by eauto|].
    apply Hn. eapply Hdead; [|done..]. by eapply list_elem_of_lookup_2.
  - intros k Hk. apply list_elem_of_lookup in Hk as [j Hk].
    apply list_lookup_insert_Some in Hk as [(-> & -> & _)|[_ Hk]]; [done|].
    apply Hnd. by eapply list_elem_of_lookup_2.
Qed.

Lemma bus_wf_cancelled b cs : bus_wf b -> bus_wf (set_cancelled b cs).
Proof. intros [? ? ? ?]. by split. Qed.

Lemma Compact_wf b : bus_wf b -> bus_wf (Compact b).
Proof.
  intros [Hlen Hidx Hdead Hnd]. split; simpl.
  - by rewrite length_fmap.
  - done.
  - intros l h (k & -> & Hk)%list_elem_of_fmap Hh Ha.
    apply list_elem_of_In, filter_In in Hh as [_ Hh]. congruence.
  - intros l (k & -> & Hk)%list_elem_of_fmap.
    replace (List.filter h_alive (List.filter h_alive k)) with (List.filter h_alive k); [auto|].
    clear. induction k as [|h k IH]; simpl; [done|].
    destruct (h_alive h) eqn:E; simpl; rewrite ?E; congruence.
Qed.

Lemma Compact_alive b l h : l ∈ lists (Compact b) -> h ∈ l -> h_alive h = true.
Proof.
  intros (k & -> & Hk)%list_elem_of_fmap Hh.
  by apply list_elem_of_In, filter_In in Hh as [_ Hh].
Qed.

Lemma Create_step b name : bus_step b (snd (Create b name)).
Proof.
  unfold Create. destruct (index_by_name b !! name) as [j|] eqn:E; simpl; [reflexivity|].
  split; simpl; [|done|].
  - intros [Hlen Hidx Hdead Hnd]. split; simpl.
    + rewrite !length_app. simpl. lia.
    + intros n i. destruct (decide (name = n)) as [->|Hne].
      * rewrite lookup_insert_eq. split.
        -- intros [= <-]. by rewrite <- Hlen, lookup_app_r, Nat.sub_diag.
        -- intros Hi. apply lookup_app_Some in Hi as [Hi|[Hi Hx]].
           ++ apply Hidx in Hi. congruence.
           ++ apply list_lookup_singleton_Some in Hx as [Hx _]. f_equal. lia.
      * rewrite lookup_insert_ne by done. rewrite Hidx. split.
        -- intros Hi. by apply lookup_app_l_Some.
        -- intros Hi. apply lookup_app_Some in Hi as [Hi|[_ Hx]]; [done|].
           apply list_lookup_singleton_Some in Hx as [_ Hx]. congruence.
    + intros l h [Hl|Hl]%elem_of_app; [by apply Hdead|].
      apply list_elem_of_singleton in Hl as ->. by intros ?%not_elem_of_nil.
    + intros l [Hl|Hl]%elem_of_app; [by apply Hnd|].
      apply list_elem_of_singleton in Hl as ->. simpl. constructor.
  - intros _. split; simpl; eauto.
    + intros e l Hl. exists l. split; [by apply lookup_app_l_Some|reflexivity].
    + by exists [name].
Qed.

Lemma bus_ext_step b b' :
  (bus_wf b -> bus_wf b') -> bus_ext b b' -> bus_step b b'.
Proof. intros Hw He. split; [done|apply He|done]. Qed.

Lemma BindHandler_step room b event f r b' :
  BindHandler room b event f = Ret (r, b') -> bus_step b b'.
Proof.
  unfold BindHandler. destruct (lists b !! event) as [l|] eqn:Hl; [|done].
  destruct (find_bound room f l 0) as [found| |] eqn:Hf; simpl; try done.
  destruct found as [i|]; intros [= <- <-]; [reflexivity|].
  apply find_bound_room, find_bound_spec in Hf.
  replace (set_lists b _) with (set_needs_compaction
    (set_lists b (<[event := l ++ [mkHandler f true]]> (lists b))) (needs_compaction b))
    by (by destruct b).
  apply bus_ext_step.
  - intros Hwf. eapply bus_wf_insert; eauto.
    + rewrite filter_alive_app, fmap_app. simpl. apply NoDup_app. split_and!.
      * apply (bwf_nodup _ Hwf). by eapply list_elem_of_lookup_2.
      * intros x (h & -> & Hh)%list_elem_of_fmap Hx%list_elem_of_singleton.
        apply list_elem_of_In, filter_In in Hh as [Hh Ha].
        by apply (Hf h (proj2 (list_elem_of_In _ _) Hh) Ha).
      * apply NoDup_singleton.
    + intros h [Hh|Hh]%elem_of_app Ha.
      * eapply bwf_dead; [done| |done|done]. by eapply list_elem_of_lookup_2.
      * apply list_elem_of_singleton in Hh as ->. done.
  - eapply bus_ext_insert; [done|]. apply list_ext_app.
Qed.

Lemma Unbind_step room b event f r b' :
  Unbind room b event f = Ret (r, b') -> bus_step b b'.
Proof.
  unfold Unbind. destruct (lists b !! event) as [l|] eqn:Hl; [|done].
  destruct (find_bound room f l 0) as [found| |] eqn:Hf; simpl; try done.
  destruct found as [i|]; intros [= <- <-]; [|reflexivity].
  apply find_bound_room, find_bound_spec in Hf as (h & _ & Hi & Ha & <-).
  rewrite Nat.sub_0_r in Hi.
  set (b1 := set_needs_compaction (set_lists b (<[event := <[i := mkHandler (fn h) false]> l]> (lists b))) true).
  assert (bus_wf b -> bus_wf b1) as Hwf1.
  { intros Hwf. eapply bus_wf_insert; eauto.
    pose proof (bwf_nodup _ Hwf l (list_elem_of_lookup_2 _ _ _ Hl)) as Hnd.
    eapply sublist_NoDup; [exact Hnd|]. apply fmap_sublist, (filter_alive_kill _ _ _ Hi). }
  assert (bus_ext b b1) as Hx1.
  { eapply bus_ext_insert; [done|]. by apply list_ext_kill. }
  change (cancelled b1) with (cancelled b).
  destruct (cancelled b) as [|c cs] eqn:Hc.
  - split; [intros Hwf; by apply Compact_wf, Hwf1|by simpl; rewrite Hc|congruence].
  - by apply bus_ext_step.
Qed.

Lemma Cancel_step b b' : Cancel b = Ret b' -> bus_step b b'.
Proof.
  unfold Cancel. destruct (cancelled b) as [|c cs] eqn:Hc; [done|]. intros [= <-].
  apply bus_ext_step; [apply bus_wf_cancelled|].
  split; simpl; rewrite ?Hc.
  - intros e l Hl. exists l. split; [done|reflexivity].
  - done.
  - by rewrite length_insert.
  - intros i x Hi Hlt. rewrite list_lookup_insert_ne; [done|]. simpl in *. lia.
  - intros i Hi. destruct (decide (i = length cs)) as [->|Hne]; simpl.
    + apply list_lookup_insert_eq. simpl. lia.
    + by rewrite list_lookup_insert_ne.
Qed.

Lemma resize_app l k : resize (length l) (l ++ k) = l.
Proof.
  unfold resize. rewrite take_app_length, length_app.
  replace (length l - _)%nat with 0%nat by lia. by rewrite app_nil_r.
Qed.

(** ** Finishing a frame *)

(** What remains of the bus after the frame on top of [b] has been dropped,
    when the code that ran in between respected [bus_step]. *)
Lemma frame_drop_step b b' :
  bus_step (frame_push b) b' -> bus_step b (frame_drop (length (cancelled b)) b').
Proof.
  intros [Hw Hf Hx]. simpl in *.
  assert (cancelled b ++ [false] <> []) as Hne by (by destruct (cancelled b)).
  specialize (Hx Hne). rewrite length_app in Hf. simpl in Hf.
  assert (resize (length (cancelled b)) (cancelled b') = cancelled b) as Hr.
  { assert (take (length (cancelled b)) (cancelled b') = cancelled b) as Ht.
    { apply list_eq. intros i. destruct (decide (i < length (cancelled b))%nat) as [Hlt|Hge].
      - rewrite lookup_take_lt by done. destruct (lookup_lt_is_Some_2 _ _ Hlt) as [c Hc].
        rewrite Hc. apply (ext_outer _ _ Hx); simpl.
        + by apply lookup_app_l_Some.
        + rewrite length_app. simpl. lia.
      - rewrite lookup_take_ge by lia. symmetry. apply lookup_ge_None. lia. }
    unfold resize. rewrite Ht. replace (_ - _)%nat with 0%nat by lia. apply app_nil_r. }
  apply bus_ext_step.
  - intros Hwf. by apply bus_wf_cancelled, Hw, bus_wf_cancelled.
  - split; simpl; rewrite ?Hr; try done.
    + apply (ext_lists _ _ Hx).
    + apply (ext_names _ _ Hx).
Qed.

Lemma frame_flag b b' :
  bus_step (frame_push b) b' -> exists c, cancelled b' !! length (cancelled b) = Some c.
Proof.
  intros [_ Hf _]. simpl in Hf. rewrite length_app in Hf. simpl in Hf.
  apply lookup_lt_is_Some_2. lia.
Qed.

Lemma Finish_step b b' :
  bus_step (frame_push b) b' ->
  exists c b'', Finish (length (cancelled b)) b' = Ret (c, b'') /\ bus_step b b''.
Proof.
  intros Hs. destruct (frame_flag _ _ Hs) as [c Hc]. unfold Finish. rewrite Hc.
  exists c. eexists. split; [reflexivity|].
  pose proof (frame_drop_step _ _ Hs) as Hd. set (b1 := frame_drop _ b') in *.
  destruct (cancelled b1) as [|x xs] eqn:Hc1; [|done].
  destruct (needs_compaction b1); [|done].
  destruct Hd as [Hw Hf Hx]. split.
  - intros Hwf. by apply Compact_wf, Hw.
  - done.
  - intros Hne. rewrite Hc1 in Hf. destruct (cancelled b); done.
Qed.

Lemma new_bus_wf : bus_wf new_bus.
Proof.
  unfold new_bus. assert (bus_wf (mkBus [] [] ∅ [] false)) as H0.
  { split; simpl; [done| |by intros ? ? ?%not_elem_of_nil|by intros ? ?%not_elem_of_nil].
    intros n i. by rewrite lookup_empty. }
  revert H0. generalize (mkBus [] [] ∅ [] false). induction kNames as [|n ns IH]; simpl; [done|].
  intros b Hb. by apply IH, Create_step.
Qed.

(** ** Properties *)

Lemma live_insert b event l l' n :
  lists b !! event = Some l ->
  live (set_needs_compaction (set_lists b (<[event := l']> (lists b))) n) event =
  fn <$> List.filter h_alive l'.
Proof.
  intros Hl. unfold live. simpl.
  by rewrite list_lookup_insert_eq by (by eapply lookup_lt_Some).
Qed.

Lemma live_insert_ne b event e l' n :
  e <> event ->
  live (set_needs_compaction (set_lists b (<[event := l']> (lists b))) n) e = live b e.
Proof. intros Hne. unfold live. simpl. by rewrite list_lookup_insert_ne. Qed.

Lemma filter_alive_idemp l : List.filter h_alive (List.filter h_alive l) = List.filter h_alive l.
Proof.
  induction l as [|h l IH]; simpl; [done|].
  destruct (h_alive h) eqn:E; simpl; rewrite ?E; congruence.
Qed.

Lemma live_Compact b e : live (Compact b) e = live b e.
Proof.
  unfold live. simpl. rewrite list_lookup_fmap.
  destruct (lists b !! e); simpl; [|done]. by rewrite filter_alive_idemp.
Qed.

(** Killing the live handler of [f] removes [f] from the bound functions. *)
Lemma filter_alive_kill_fn l i h :
  NoDup (fn <$> List.filter h_alive l) -> l !! i = Some h -> h_alive h = true ->
  fn <$> List.filter h_alive (<[i := mkHandler (fn h) false]> l) =
  List.filter (fun g => negb (g =? fn h)) (fn <$> List.filter h_alive l).
Proof.
  revert i. induction l as [|h' l IH]; intros [|i] Hnd Hi Ha; simpl in *; simplify_eq.
  - rewrite Ha in *. simpl in *. rewrite Z.eqb_refl. simpl.
    apply NoDup_cons in Hnd as [Hnin _]. symmetry. apply List.forallb_filter_id.
    apply forallb_forall. intros g Hg. apply negb_true_iff, Z.eqb_neq.
    intros ->. by apply Hnin, list_elem_of_In.
  - destruct (h_alive h') eqn:Ha'; simpl in *; [|by apply IH].
    apply NoDup_cons in Hnd as [Hnin Hnd]. specialize (IH i Hnd Hi Ha).
    destruct (fn h' =? fn h) eqn:E; simpl; [|f_equal; exact IH]. apply Z.eqb_eq in E. exfalso. apply Hnin.
    rewrite E. apply list_elem_of_fmap. exists h. split; [done|].
    apply list_elem_of_In, filter_In. split; [|done].
    apply list_elem_of_In. by eapply list_elem_of_lookup_2.
Qed.

Lemma bound_live l (f : Z) :
  f ∈ fn <$> List.filter h_alive l <-> exists h, h ∈ l /\ h_alive h = true /\ fn h = f.
Proof.
  rewrite list_elem_of_fmap. split.
  - intros (h & -> & Hh). apply list_elem_of_In, filter_In in Hh as [Hh Ha].
    exists h. split_and!; [by apply list_elem_of_In|done..].
  - intros (h & Hh & Ha & <-). exists h. split; [done|].
    apply list_elem_of_In, filter_In. split; [by apply list_elem_of_In|done].
Qed.

(** C32: [Event.bind] appends a function that is not bound yet to its event's
    bound functions and refuses one that is; [Event.unbind] removes exactly the
    function it is given and reports a function that was not bound. Neither
    touches another event, inside a dispatch (where the handler is only marked)
    as outside one (where the list is compacted). *)
Theorem bind_unbind_live b event f l :
  bus_wf b -> lists b !! event = Some l ->
  (exists b', BindHandler true b event f = Ret (bool_decide (f ∉ live b event), b') /\
     live b' event = (if bool_decide (f ∈ live b event) then live b event
                      else live b event ++ [f]) /\
     forall e, e <> event -> live b' e = live b e) /\
  (exists b', Unbind true b event f = Ret (bool_decide (f ∈ live b event), b') /\
     live b' event = List.filter (fun g => negb (g =? f)) (live b event) /\
     forall e, e <> event -> live b' e = live b e).
Proof.
  intros Hwf Hl.
  assert (live b event = fn <$> List.filter h_alive l) as Hlive by (unfold live; by rewrite Hl).
  destruct (find_bound_total true f l 0 eq_refl) as [found Hf].
  pose proof (find_bound_spec _ _ _ _ Hf) as Hspec.
  unfold BindHandler, Unbind. rewrite Hl, Hf. simpl. destruct found as [i|].
  - destruct Hspec as (h & _ & Hi & Ha & <-). rewrite Nat.sub_0_r in Hi.
    assert (fn h ∈ live b event) as Hin.
    { rewrite Hlive. apply bound_live. exists h. split; [|done]. by eapply list_elem_of_lookup_2. }
    rewrite !(bool_decide_eq_true_2 (fn h ∈ live b event)) by done.
    rewrite (bool_decide_eq_false_2 (fn h ∉ _)) by (intros Hn; by apply Hn).
    split; [by exists b|]. eexists. split; [reflexivity|].
    pose proof (bwf_nodup _ Hwf l (list_elem_of_lookup_2 _ _ _ Hl)) as Hnd.
    pose proof (filter_alive_kill_fn _ _ _ Hnd Hi Ha) as Hkill. rewrite <- Hlive in Hkill.
    destruct (cancelled _); rewrite ?live_Compact; (split; [by erewrite live_insert|]);
      intros e Hne; rewrite ?live_Compact; by apply live_insert_ne.
  - assert (f ∉ live b event) as Hnin.
    { rewrite Hlive, bound_live. intros (h & Hh & Ha & Hfn). by apply (Hspec h). }
    rewrite !(bool_decide_eq_false_2 (f ∈ live b event)) by done.
    rewrite (bool_decide_eq_true_2 (f ∉ _)) by done. split; eexists; (split; [reflexivity|]).
    + replace (set_lists b _) with (set_needs_compaction
        (set_lists b (<[event := l ++ [mkHandler f true]]> (lists b))) (needs_compaction b))
        by (by destruct b).
      split; [|intros; by apply live_insert_ne]. erewrite live_insert by done.
      rewrite filter_alive_app, fmap_app, <- Hlive. done.
    + split; [|done]. symmetry. apply List.forallb_filter_id, forallb_forall.
      intros g Hg. apply negb_true_iff, Z.eqb_neq. intros ->. by apply Hnin, list_elem_of_In.
Qed.

Lemma bind_unbind_live_witness :
  lists new_bus !! 11%nat = Some [] /\
  exists b', BindHandler true new_bus 11 7 = Ret (true, b') /\ live b' 11 = [7].
Proof.
  split; [by vm_compute|].
  destruct (bind_unbind_live new_bus 11 7 [] new_bus_wf) as [(b' & Hb & Hl & _) _];
    [by vm_compute|].
  exists b'. split; [exact Hb|exact Hl].
Defined.

Definition create_all (ns : list string) (b : EventBus) : EventBus :=
  fold_left (fun b name => snd (Create b name)) ns b.

Lemma Create_keeps_index b name n i :
  index_by_name b !! n = Some i -> index_by_name (snd (Create b name)) !! n = Some i.
Proof.
  intros Hn. unfold Create. destruct (index_by_name b !! name) as [j|] eqn:E; simpl; [done|].
  rewrite lookup_insert_ne; [done|]. congruence.
Qed.

(** A script can look every built-in event up under its name, at the
    index the callbacks dispatch it on, whatever custom events have been
    created, and [Event.create] never takes a built-in name over. *)
Theorem built_in_events_keep_their_index ns e :
  Find (create_all ns new_bus) (Name e) = Some (Index e) /\
  Create (create_all ns new_bus) (Name e) = (false, create_all ns new_bus).
Proof.
  assert (Find (create_all ns new_bus) (Name e) = Some (Index e)) as Hfind.
  { unfold Find. assert (index_by_name new_bus !! Name e = Some (Index e)) as H0
      by (by destruct e; vm_compute).
    revert H0. generalize new_bus. induction ns as [|n ns IH]; simpl; [done|].
    intros b Hb. by apply IH, Create_keeps_index. }
  split; [done|]. unfold Find in Hfind. unfold Create. by rewrite Hfind.
Qed.
