(* ===== verification/Dispatch.v ===== *)
(** [EventBus::Dispatch] and [EventBus::Emit] (src/core/event_bus.hpp): the
    loop over an event's handlers while the handlers themselves bind, unbind,
    cancel, create events and dispatch again. *)
From stdpp Require Import base tactics list gmap strings.
From Stdlib Require Import ZArith Lia.
From S2P Require Import Prelude.
From S2P Require Import EntityPool.
From S2P Require Import LuaValue.
From S2P Require Import Invoker.
From S2P Require Import EventBus.
Open Scope Z_scope.

(** A state that owns an event bus beside the invoker. *)
Class HasBus (W : Type) `{LuaHost W} := {
  get_bus : W -> EventBus;
  set_bus : EventBus -> W -> W;
  get_set_bus b w : get_bus (set_bus b w) = b;
  get_bus_invoker i w : get_bus (set_invoker i w) = get_bus w;
  get_bus_log l s w : get_bus (log_line l s w) = get_bus w;
  get_invoker_bus b w : get_invoker (set_bus b w) = get_invoker w
}.

Section dispatch.
Context {W : Type} `{HasBus W} {lib : LuaLib}.
Implicit Types (w : W).

Definition upd_bus (f : EventBus -> EventBus) (w : W) : W := set_bus (f (get_bus w)) w.

(** The handler calls: [n] handlers from index [i] on. [index] is the
    position of this dispatch's cancel flag. *)
Fixpoint dispatch_loop (event index : nat) (push : prog W (list lua_value)) (n i : nat)
    : prog W unit :=
  match n with
  | O => pret tt
  | S n => fun w =>
      match lists (get_bus w) !! event ≫= (.!! i), names (get_bus w) !! event with
      | Some handler, Some what =>
          if negb (h_alive handler) then dispatch_loop event index push n (S i) w
          else
            match Call (fn handler) what push w with
            | (Ret _, w) =>
                match cancelled (get_bus w) !! index with
                | None => (UB, w)
                | Some true => (Ret tt, w)
                | Some false => dispatch_loop event index push n (S i) w
                end
            | (Throw e, w) => (Throw e, w)
            | (UB, w) => (UB, w)
            end
      | _, _ => (UB, w)
      end
  end.

(** The end of a dispatch: [Finish] when the loop is done, the frame's
    destructor when a call threw; the call scope ends in both cases. *)
Definition dispatch_end (index : nat) (r : outcome unit * W) : outcome bool * W :=
  match r with
  | (Ret _, w) =>
      match Finish index (get_bus w) with
      | Ret (c, b) => (Ret c, leave (set_bus b w))
      | Throw e => (Throw e, leave (upd_bus (frame_drop index) w))
      | UB => (UB, w)
      end
  | (Throw e, w) => (Throw e, leave (upd_bus (frame_drop index) w))
  | (UB, w) => (UB, w)
  end.

(** [Dispatch(L, event, push)]. *)
Definition Dispatch (event : nat) (push : prog W (list lua_value)) : prog W bool := fun w =>
  if negb (HasHandlers (get_bus w) event) then (Ret false, w)
  else
    let w := enter w in
    let index := length (cancelled (get_bus w)) in
    let w := upd_bus frame_push w in
    match lists (get_bus w) !! event with
    | None => (UB, w)
    | Some l => dispatch_end index (dispatch_loop event index push (length l) 0 w)
    end.

(** [Emit(L, event, args...)]. *)
Definition EmitOn (event : Event) (push : prog W (list lua_value)) : prog W bool :=
  Dispatch (Index event) push.

(** ** The specification of a dispatch *)

(** Is the handler at this place bound right now? *)
Definition alive_at (b : EventBus) (event i : nat) : bool :=
  match lists b !! event ≫= (.!! i) with Some h => h_alive h | None => false end.

(** Going through the functions bound when the dispatch started, in order: one
    that has been unbound meanwhile is skipped, and a cancellation ends it. *)
Fixpoint spec_loop (event index : nat) (what : string) (push : prog W (list lua_value))
    (fns : list Z) (i : nat) : prog W unit :=
  match fns with
  | [] => pret tt
  | f :: fns => fun w =>
      if alive_at (get_bus w) event i then
        match Call f what push w with
        | (Ret _, w) =>
            if default false (cancelled (get_bus w) !! index) then (Ret tt, w)
            else spec_loop event index what push fns (S i) w
        | r => (match fst r with Throw e => Throw e | _ => UB end, snd r)
        end
      else spec_loop event index what push fns (S i) w
  end.

Definition Dispatch_spec (event : nat) (push : prog W (list lua_value)) : prog W bool := fun w =>
  let fns := fn <$> default [] (lists (get_bus w) !! event) in
  match fns with
  | [] => (Ret false, w)
  | _ =>
      let what := default "" (names (get_bus w) !! event) in
      let index := length (cancelled (get_bus w)) in
      dispatch_end index (spec_loop event index what push fns 0 (upd_bus frame_push (enter w)))
  end.

(** ** Lemmas *)

Definition bus_rel w w' : Prop := bus_step (get_bus w) (get_bus w').

#[export] Instance bus_rel_preorder : PreOrder bus_rel.
Proof.
  split; unfold bus_rel; [intros w; reflexivity|].
  intros w1 w2 w3 ? ?. by etransitivity.
Qed.

Lemma get_bus_enter w : get_bus (enter w) = get_bus w.
Proof. unfold enter. apply get_bus_invoker. Qed.
Lemma get_bus_leave w : get_bus (leave w) = get_bus w.
Proof. unfold leave. apply get_bus_invoker. Qed.
Lemma get_bus_upd f w : get_bus (upd_bus f w) = f (get_bus w).
Proof. unfold upd_bus. apply get_set_bus. Qed.
Lemma get_invoker_upd f w : get_invoker (upd_bus f w) = get_invoker w.
Proof. unfold upd_bus. apply get_invoker_bus. Qed.

#[export] Instance bus_rel_stable : CallStable bus_rel.
Proof.
  split; [apply _|..]; unfold bus_rel.
  - intros. rewrite get_bus_log. reflexivity.
  - intros w w'. by rewrite get_bus_leave, get_bus_enter.
Qed.

Lemma dispatch_loop_respects R `{!CallStable R, !LuaRespects R} event index push n i :
  respects R push -> respects R (dispatch_loop event index push n i).
Proof.
  intros Hpush. revert i. induction n as [|n IH]; intros i w; simpl; [reflexivity|].
  destruct (lists _ !! _ ≫= _) as [h|]; [|done].
  destruct (names _ !! _) as [what|]; [|done].
  destruct (negb _); [apply IH|].
  pose proof (Call_respects R (fn h) what push Hpush w) as Hc.
  destruct (Call _ _ _ w) as [[r|e|] w1]; simpl in *; try done.
  specialize (Hc eq_refl).
  destruct (cancelled _ !! _) as [[]|]; simpl; try done.
  intros Hub. etransitivity; [exact Hc|by apply IH].
Qed.

(** A relation that does not look at the bus. *)
Class BusBlind (R : W -> W -> Prop) := blind_bus b w : R w (set_bus b w).

Lemma Dispatch_respects_blind R `{!CallStable R, !LuaRespects R, !BusBlind R} event push :
  respects R push -> respects R (Dispatch event push).
Proof.
  intros Hpush w. unfold Dispatch. destruct (negb _); [reflexivity|].
  set (w1 := upd_bus frame_push (enter w)).
  assert (R (enter w) w1) as H1 by apply blind_bus.
  destruct (lists _ !! _) as [l|]; simpl; [|done].
  pose proof (dispatch_loop_respects R event (length (cancelled (get_bus (enter w)))) push
    (length l) 0 Hpush w1) as Hl.
  destruct (dispatch_loop _ _ _ _ _ w1) as [[r|e|] w2]; simpl in *; [|intros _|done].
  - specialize (Hl eq_refl). destruct (Finish _ _) as [[c b]|e|]; simpl; try done; intros _;
      apply stable_bracket; (etransitivity; [exact H1|]); (etransitivity; [exact Hl|]);
      apply blind_bus.
  - apply stable_bracket. etransitivity; [exact H1|].
    etransitivity; [by apply Hl|]. apply blind_bus.
Qed.

Section bus.
Context `{!LuaRespects bus_rel}.

(** The state between the frame's construction and its end. *)
Lemma dispatch_loop_bus event push n i w :
  respects bus_rel push ->
  is_UB (fst (dispatch_loop event (length (cancelled (get_bus w))) push n i
    (upd_bus frame_push (enter w)))) = false ->
  bus_step (frame_push (get_bus w))
    (get_bus (snd (dispatch_loop event (length (cancelled (get_bus w))) push n i
      (upd_bus frame_push (enter w))))).
Proof.
  intros Hpush Hub.
  pose proof (dispatch_loop_respects bus_rel event _ push n i Hpush _ Hub) as Hl.
  unfold bus_rel in Hl. by rewrite get_bus_upd, get_bus_enter in Hl.
Qed.

Lemma dispatch_end_bus w r :
  (is_UB (fst r) = false -> bus_step (frame_push (get_bus w)) (get_bus (snd r))) ->
  is_UB (fst r) = false ->
  is_UB (fst (dispatch_end (length (cancelled (get_bus w))) r)) = false /\
  bus_rel w (snd (dispatch_end (length (cancelled (get_bus w))) r)).
Proof.
  destruct r as [[u|e|] w2]; simpl; intros Hs Hub; try done; specialize (Hs eq_refl).
  - destruct (Finish_step _ _ Hs) as (c & b & HF & Hb). rewrite HF. simpl.
    unfold bus_rel. by rewrite get_bus_leave, get_set_bus.
  - split; [done|]. unfold bus_rel. rewrite get_bus_leave, get_bus_upd.
    by apply frame_drop_step.
Qed.

Lemma Dispatch_respects_bus event push :
  respects bus_rel push -> respects bus_rel (Dispatch event push).
Proof.
  intros Hpush w. unfold Dispatch. destruct (negb _); [reflexivity|].
  rewrite !get_bus_upd, !get_bus_enter. simpl.
  destruct (lists _ !! _) as [l|]; [|done]. intros Hub.
  destruct (dispatch_loop event (length (cancelled (get_bus w))) push (length l) 0
    (upd_bus frame_push (enter w))) as [r w2] eqn:E.
  apply dispatch_end_bus; simpl.
  - intros Hr. pose proof (dispatch_loop_bus event push (length l) 0 w Hpush) as Hd.
    rewrite E in Hd. by apply Hd.
  - by destruct r.
Qed.

(** During a dispatch every handler of the list it started with keeps its
    place and its function. *)
Lemma handler_stays b b' event l i h :
  bus_step b b' -> cancelled b <> [] -> lists b !! event = Some l -> l !! i = Some h ->
  exists h', lists b' !! event ≫= (.!! i) = Some h' /\ fn h' = fn h.
Proof.
  intros Hs Hne Hl Hi. destruct (ext_lists _ _ (step_ext _ _ Hs Hne) _ _ Hl) as (l' & Hl' & Hx).
  destruct (Hx _ _ Hi) as (h' & Hh' & Hf & _). exists h'. rewrite Hl'. done.
Qed.

Lemma cancelled_stays b b' index :
  bus_step b b' -> (index < length (cancelled b))%nat ->
  exists c, cancelled b' !! index = Some c.
Proof. intros Hs Hlt. apply lookup_lt_is_Some_2. by rewrite (step_frames _ _ Hs). Qed.

(** The loop does what the specification says, and runs into no undefined
    behaviour: [fns] are the functions from place [i] on of the list the
    dispatch started with. *)
Lemma dispatch_loop_refines event index what push b0 l w fns i :
  respects bus_rel push ->
  (forall w', bus_step b0 (get_bus w') -> is_UB (fst (push w')) = false) ->
  cancelled b0 <> [] -> (index < length (cancelled b0))%nat ->
  lists b0 !! event = Some l -> fns = fn <$> drop i l -> names b0 !! event = Some what ->
  bus_step b0 (get_bus w) ->
  dispatch_loop event index push (length fns) i w = spec_loop event index what push fns i w /\
  is_UB (fst (dispatch_loop event index push (length fns) i w)) = false.
Proof.
  intros Hpush HnoUB Hne Hidx Hl Hfns Hn Hs. revert i w Hfns Hs.
  induction fns as [|f fns IH]; intros i w Hfns Hs; [done|]. simpl.
  assert (exists h, l !! i = Some h /\ fn h = f /\ fns = fn <$> drop (S i) l) as (h & Hi & <- & Hrest).
  { destruct (l !! i) as [h|] eqn:Hi.
    - exists h. rewrite (drop_S l h i Hi) in Hfns. simpl in Hfns. by simplify_eq.
    - apply lookup_ge_None in Hi. rewrite drop_ge in Hfns by done. done. }
  destruct (handler_stays _ _ _ _ _ _ Hs Hne Hl Hi) as (h' & Hh' & Hf).
  assert (names (get_bus w) !! event = Some what) as Hn'.
  { destruct (ext_names _ _ (step_ext _ _ Hs Hne)) as [k ->]. by apply lookup_app_l_Some. }
  unfold alive_at. rewrite Hh', Hn'. simpl.
  destruct (h_alive h'); simpl; [|by apply IH]. rewrite Hf.
  pose proof (Call_respects bus_rel (fn h) what push Hpush w) as Hc.
  assert (is_UB (fst (Call (fn h) what push w)) = false) as Hcub.
  { unfold Call. destruct (dead _); [done|]. destruct (checkstack 2 (enter w)); simpl; [|done].
    specialize (HnoUB (enter w)). rewrite get_bus_enter in HnoUB. specialize (HnoUB Hs).
    destruct (push (enter w)) as [[args|e|] w1]; simpl in *; try done.
    by destruct (pcall _ _ _) as [[]]. }
  specialize (Hc Hcub).
  destruct (Call _ _ _ w) as [[r|e|] w1]; simpl in *; try done.
  assert (bus_step b0 (get_bus w1)) as Hs1 by (by etransitivity).
  destruct (cancelled_stays _ _ _ Hs1 Hidx) as [c ->]. simpl.
  destruct c; [done|]. by apply IH.
Qed.
(** The dispatch is its specification, and runs into no undefined behaviour. *)
Lemma Dispatch_is_spec event push w :
  bus_wf (get_bus w) -> respects bus_rel push ->
  (forall w', is_UB (fst (push w')) = false) ->
  Dispatch event push w = Dispatch_spec event push w /\
  is_UB (fst (Dispatch event push w)) = false.
Proof.
  intros Hwf Hpush HnoUB.
  unfold Dispatch, Dispatch_spec, HasHandlers. rewrite !get_bus_upd, !get_bus_enter. simpl.
  destruct (lists (get_bus w) !! event) as [l|] eqn:Hl; [|done]. simpl.
  case_bool_decide as Hnil; simpl; [by rewrite Hnil|].
  destruct (fn <$> l) as [|f fns] eqn:Hfns; [by destruct l|]. rewrite <- Hfns.
  assert (exists what, names (get_bus w) !! event = Some what) as [what Hn].
  { apply lookup_lt_is_Some_2. rewrite (bwf_lengths _ Hwf). by eapply lookup_lt_Some. }
  rewrite Hn. simpl.
  destruct (dispatch_loop_refines event (length (cancelled (get_bus w))) what push
    (frame_push (get_bus w)) l (upd_bus frame_push (enter w)) (fn <$> l) 0) as [Hloop HloopUB];
    try done.
  - simpl. by destruct (cancelled (get_bus w)).
  - simpl. rewrite length_app. simpl. lia.
  - rewrite get_bus_upd, get_bus_enter. reflexivity.
  - rewrite length_fmap in Hloop, HloopUB. rewrite <- Hloop. split; [done|].
    apply dispatch_end_bus; [|done]. intros _. by apply dispatch_loop_bus.
Qed.
End bus.

(** ** Properties *)

(** C2: a dispatch calls the functions that were bound to the event when it
    started, in bind order, skipping those unbound meanwhile and stopping after
    a cancellation, whatever the handlers do to the bus (bind, unbind, create
    events, dispatch again); it never reads past a handler list or the cancel
    flags, and it leaves the enclosing dispatches' flags alone. *)
Theorem Dispatch_refines `{!LuaRespects bus_rel} event push w :
  bus_wf (get_bus w) -> respects bus_rel push ->
  (forall w', is_UB (fst (push w')) = false) ->
  Dispatch event push w = Dispatch_spec event push w /\
  is_UB (fst (Dispatch event push w)) = false /\
  bus_step (get_bus w) (get_bus (snd (Dispatch event push w))).
Proof.
  intros Hwf Hpush HnoUB. destruct (Dispatch_is_spec event push w Hwf Hpush HnoUB) as [Heq Hub].
  split_and!; [done..|]. by apply (Dispatch_respects_bus event push Hpush w).
Qed.

(** Once the outermost dispatch has returned, the bus holds no dead
    handler: everything unbound meanwhile has been removed. *)
Theorem outermost_dispatch_compacts `{!LuaRespects bus_rel} event push w c :
  bus_wf (get_bus w) -> respects bus_rel push -> cancelled (get_bus w) = [] ->
  fst (Dispatch event push w) = Ret c -> HasHandlers (get_bus w) event = true ->
  forall l h, l ∈ lists (get_bus (snd (Dispatch event push w))) -> h ∈ l -> h_alive h = true.
Proof.
  intros Hwf Hpush Hnil Hret Hhas.
  pose proof (Dispatch_respects_bus event push Hpush w) as Hstep.
  unfold Dispatch in *. rewrite Hhas in *. simpl in *.
  rewrite !get_bus_upd, !get_bus_enter in *. simpl in *. rewrite Hnil in *. simpl in *.
  destruct (lists (get_bus w) !! event) as [l0|]; [|done].
  destruct (dispatch_loop _ _ _ _ _ _) as [[r|e|] w2] eqn:E; simpl in *; try done.
  unfold Finish in *. destruct (cancelled (get_bus w2) !! 0%nat) as [f|]; simpl in *; [|done].
  specialize (Hstep eq_refl). unfold bus_rel in Hstep.
  rewrite get_bus_leave, get_set_bus in *.
  destruct (needs_compaction (get_bus w2)) eqn:Hc; intros l h Hl Hh.
  - by eapply Compact_alive.
  - destruct (h_alive h) eqn:Ha; [done|]. simpl in Hl.
    pose proof (bwf_dead _ (step_wf _ _ Hstep Hwf) l h Hl Hh Ha) as Hd. simpl in Hd. congruence.
Qed.
End dispatch.
#[export] Hint Resolve Dispatch_respects_bus Dispatch_respects_blind : vcmp.
