(* ===== verification/EntityPools.v ===== *)
(** All the pools together (src/core/entity_pool.hpp, entity_pool.cpp):
    [EntityPools], adopting what the server already has, and deleting what the
    scripts created when they are reloaded. *)
From stdpp Require Import base tactics list strings pretty.
From Stdlib Require Import ZArith Lia.
From S2P Require Import Prelude.
From S2P Require Import EntityPool.
Open Scope Z_scope.

(** ** State *)

Definition all_kinds : list EntityKind :=
  [Player; Vehicle; Object; Pickup; Checkpoint; Blip; Bind].

(** [pools_], one per kind, in the order of the enum. *)
Abbreviation EntityPools := (list EntityPool).

Definition new_pools : EntityPools := new_pool <$> all_kinds.

(** [Get(kind)]. [pools_wf] keeps one pool per kind, so the default is never used. *)
Definition Get (ps : EntityPools) (k : EntityKind) : EntityPool :=
  default (new_pool k) (ps !! kind_index k).

Definition put_pool (k : EntityKind) (p : EntityPool) (ps : EntityPools) : EntityPools :=
  <[kind_index k := p]> ps.

Record pools_wf (ps : EntityPools) : Prop := mkPoolsWf
  { pswf_length : length ps = kEntityKindCount;
    pswf_kind k : kind (Get ps k) = k;
    pswf_pool k : pool_wf (Get ps k) }.

(** ** The server's pools *)

Definition vcmpEntityPoolVehicle : Z := 1.
Definition vcmpEntityPoolObject : Z := 2.
Definition vcmpEntityPoolPickup : Z := 3.
Definition vcmpEntityPoolRadio : Z := 4.
Definition vcmpEntityPoolBlip : Z := 7.
Definition vcmpEntityPoolCheckPoint : Z := 8.

(** [FromServerPool(pool)]: the kind of the pool it returns. *)
Definition FromServerPool (pool : Z) : option EntityKind :=
  if pool =? vcmpEntityPoolVehicle then Some Vehicle
  else if pool =? vcmpEntityPoolObject then Some Object
  else if pool =? vcmpEntityPoolPickup then Some Pickup
  else if pool =? vcmpEntityPoolCheckPoint then Some Checkpoint
  else if pool =? vcmpEntityPoolBlip then Some Blip
  else None.

Definition kServerPools : list (EntityKind * Z) :=
  [ (Vehicle, vcmpEntityPoolVehicle); (Object, vcmpEntityPoolObject);
    (Pickup, vcmpEntityPoolPickup); (Checkpoint, vcmpEntityPoolCheckPoint);
    (Blip, vcmpEntityPoolBlip) ].

(** The server's answers while it is enumerated; [None]: this server version
    lacks the function. [GetKeyBindData] gives its error code and the three keys. *)
Record ServerQueries := mkQueries
  { IsPlayerConnected : option (Z -> Z);
    GetKeyBindData : option (Z -> Z * (Z * Z * Z));
    CheckEntityExists : option (Z -> Z -> Z) }.

(** [KeyBindExists(api, id)]. *)
Definition KeyBindExists (q : ServerQueries) (id : Z) : bool :=
  match GetKeyBindData q with
  | None => false
  | Some bind_data =>
      let '(error, (k0, k1, k2)) := bind_data id in
      (error =? 0) && (negb (k0 =? 0) || negb (k1 =? 0) || negb (k2 =? 0))
  end.

(** ** Operations *)

(** [for (id = lo; id < hi; ++id) if (exists(id)) pool.Adopt(id)]: the pool
    and the warnings logged. *)
Definition adopt_step (exists_ : Z -> bool) (s : EntityPool * list string) (id : Z)
    : EntityPool * list string :=
  let '(p, warnings) := s in
  if exists_ id then let '(p, ws) := Adopt p id in (p, warnings ++ ws) else (p, warnings).

Definition adopt_existing (exists_ : Z -> bool) (ids : list Z) (p : EntityPool)
    : EntityPool * list string :=
  fold_left (adopt_step exists_) ids (p, []).

Definition adopt_in (k : EntityKind) (exists_ : Z -> bool) (lo : Z) (s : EntityPools * list string)
    : EntityPools * list string :=
  let '(p, ws) := adopt_existing exists_ (zrange lo (capacity (Traits k))) (Get (fst s) k) in
  (put_pool k p (fst s), snd s ++ ws).

(** [Enumerate(api)]. *)
Definition Enumerate (q : ServerQueries) (ps : EntityPools) : EntityPools * list string :=
  let s := (ps, []) in
  let s := match IsPlayerConnected q with
           | Some is_connected => adopt_in Player (fun id => negb (is_connected id =? 0)) 0 s
           | None => s
           end in
  let s := match GetKeyBindData q with
           | Some _ => adopt_in Bind (KeyBindExists q) 0 s
           | None => s
           end in
  match CheckEntityExists q with
  | None => s
  | Some exists_ =>
      fold_left (fun s '(k, server_pool) =>
        adopt_in k (fun id => negb (exists_ server_pool id =? 0)) (first_id (Traits k)) s)
        kServerPools s
  end.

(** [Close()] and [ReleaseRefs()]. *)
Definition Pools_Close (ps : EntityPools) : EntityPools := Close <$> ps.
Definition Pools_ReleaseRefs (ps : EntityPools) : EntityPools := ReleaseRefs <$> ps.

(** A state [W] that owns the pools. *)
Class HasPools (W : Type) := {
  get_pools : W -> EntityPools;
  set_pools : EntityPools -> W -> W;
  get_set_pools ps w : get_pools (set_pools ps w) = ps
}.

(** The server's delete functions: DeleteVehicle, DeleteObject, DeletePickup,
    DeleteCheckPoint, DestroyCoordBlip and RemoveKeyBind, by kind ([None]:
    missing). Each may call the plugin back before it returns, so it changes
    the whole state. *)
Class ServerDelete (W : Type) := { delete_fn : EntityKind -> option (Z -> W -> W) }.

Section delete.
Context {W : Type} `{HasPools W, ServerDelete W}.

Definition pool_of (k : EntityKind) (w : W) : EntityPool := Get (get_pools w) k.
Definition upd_pool (k : EntityKind) (f : EntityPool -> EntityPool) (w : W) : W :=
  set_pools (put_pool k (f (pool_of k w)) (get_pools w)) w.

(** [delete_one(kind, id)]. *)
Definition delete_one (k : EntityKind) (id : Z) (w : W) : W :=
  match k with
  | Player => w
  | _ => match delete_fn k with Some fn => fn id w | None => w end
  end.

(** Deletes one kind's entities: [CreatedByUs()] is read once, before. *)
Definition delete_kind (k : EntityKind) (w : W) : W :=
  fold_left (fun w id => upd_pool k (fun p => Release p id) (delete_one k id w))
    (CreatedByUs (pool_of k w)) w.

(** [DeleteCreated(api)]: the server's pools in turn, then the key binds. *)
Definition DeleteCreated (w : W) : W :=
  delete_kind Bind (fold_left (fun w '(k, _) => delete_kind k w) kServerPools w).
End delete.
#[global] Arguments DeleteCreated : simpl never.
#[global] Arguments Enumerate : simpl never.
#[global] Arguments new_pools : simpl never.

(** ** Lemmas *)

Lemma kind_index_inj k k' : kind_index k = kind_index k' -> k = k'.
Proof. by destruct k, k'. Qed.

Lemma kind_index_lt k : (kind_index k < kEntityKindCount)%nat.
Proof. destruct k; unfold kEntityKindCount; simpl; lia. Qed.

Lemma Get_put_eq ps k p : length ps = kEntityKindCount -> Get (put_pool k p ps) k = p.
Proof.
  intros Hl. unfold Get, put_pool. rewrite list_lookup_insert_eq; [done|].
  rewrite Hl. apply kind_index_lt.
Qed.

Lemma Get_put_ne ps k k' p : k <> k' -> Get (put_pool k p ps) k' = Get ps k'.
Proof.
  intros Hne. unfold Get, put_pool. rewrite list_lookup_insert_ne; [done|].
  by intros ?%kind_index_inj.
Qed.

Lemma put_pool_wf ps k p : pools_wf ps -> pool_wf p -> kind p = k -> pools_wf (put_pool k p ps).
Proof.
  intros Hwf Hp Hk. pose proof (pswf_length _ Hwf) as Hl. split.
  - unfold put_pool. by rewrite length_insert.
  - intros k'. destruct (decide (k = k')) as [->|Hne].
    + by rewrite Get_put_eq.
    + rewrite Get_put_ne by done. apply Hwf.
  - intros k'. destruct (decide (k = k')) as [->|Hne].
    + by rewrite Get_put_eq.
    + rewrite Get_put_ne by done. apply Hwf.
Qed.

Lemma new_pools_wf : pools_wf new_pools.
Proof. split; [done|by intros []|]. intros k. destruct k; apply (new_pool_wf _). Qed.

#[export] Hint Resolve put_pool_wf new_pools_wf : vcmp.

Lemma kind_Adopt p id : kind (fst (Adopt p id)) = kind p.
Proof. apply (run_op_shape p (OAdopt id)). Qed.
Lemma kind_Release p id : kind (Release p id) = kind p.
Proof. apply (run_op_shape p (ORelease id)). Qed.
Lemma Adopt_wf p id : pool_wf p -> pool_wf (fst (Adopt p id)).
Proof. apply (run_op_wf p (OAdopt id)). Qed.
Lemma Release_wf p id : pool_wf p -> pool_wf (Release p id).
Proof. apply (run_op_wf p (ORelease id)). Qed.
#[export] Hint Resolve Adopt_wf Release_wf : vcmp.

Lemma InRange_Adopt p id id' : InRange (fst (Adopt p id)) id' = InRange p id'.
Proof. apply (InRange_run_op p (OAdopt id)). Qed.

Lemma Slot_Adopt_ne p id id' :
  InRange p id' = true -> id <> id' -> Slot (fst (Adopt p id)) id' = Slot p id'.
Proof.
  intros Hr Hne. unfold Adopt. destruct (InRange p id) eqn:Hr'; simpl; [|done].
  destruct (alive (Slot p id)); simpl; [done|]. by apply Slot_set_slot_ne.
Qed.

Lemma Alive_Adopt p id id' :
  pool_wf p -> InRange p id = true ->
  Alive (fst (Adopt p id)) id' = (if id =? id' then true else Alive p id').
Proof.
  intros Hwf Hr. unfold Alive. rewrite InRange_Adopt. destruct (id =? id') eqn:E.
  - apply Z.eqb_eq in E as <-. unfold Adopt. rewrite Hr. simpl.
    destruct (alive (Slot p id)) eqn:Ha; simpl; [done|]. by rewrite Slot_set_slot_eq.
  - apply Z.eqb_neq in E. destruct (InRange p id') eqn:Hr'; simpl; [|done].
    by rewrite Slot_Adopt_ne.
Qed.

(** Adopting every existing id of a list of ids in range. *)
Lemma adopt_existing_spec exists_ ids p ws :
  pool_wf p -> (forall id, id ∈ ids -> InRange p id = true) ->
  let r := fold_left (adopt_step exists_) ids (p, ws) in
  pool_wf (fst r) /\ kind (fst r) = kind p /\ snd r = ws /\
  forall id, Alive (fst r) id = Alive p id || (bool_decide (id ∈ ids) && exists_ id).
Proof.
  revert p ws. induction ids as [|i ids IH]; intros p ws Hwf Hr; simpl.
  { split_and!; try done. intros id. by rewrite orb_false_r. }
  assert (InRange p i = true) as Hi by (apply Hr; constructor).
  assert (forall id, id ∈ ids -> InRange p id = true) as Hr' by (intros; apply Hr; by constructor).
  destruct (exists_ i) eqn:He.
  - pose proof (Adopt_wf p i Hwf) as Hwf'. pose proof (kind_Adopt p i) as Hk.
    pose proof (Alive_Adopt p i) as Ha. pose proof (InRange_Adopt p i) as HR.
    assert (snd (Adopt p i) = []) as Hw.
    { unfold Adopt. rewrite Hi. simpl. by destruct (alive _). }
    destruct (Adopt p i) as [p' w']; simpl in *. subst w'. rewrite app_nil_r.
    destruct (IH p' ws Hwf') as (? & Hk' & ? & Hal).
    { intros. rewrite HR. auto. }
    split_and!; [done|congruence|done|]. intros id. rewrite Hal, Ha by done.
    destruct (i =? id) eqn:E.
    + apply Z.eqb_eq in E as <-. rewrite (bool_decide_eq_true_2 (i ∈ i :: ids)) by constructor.
      rewrite He. simpl. by rewrite orb_true_r.
    + apply Z.eqb_neq in E. f_equal. f_equal. apply bool_decide_ext.
      rewrite elem_of_cons. intuition congruence.
  - destruct (IH p ws Hwf Hr') as (? & ? & ? & Hal). split_and!; [done..|].
    intros id. rewrite Hal. f_equal. destruct (decide (id = i)) as [->|Hne].
    + rewrite He. by rewrite !andb_false_r.
    + f_equal. apply bool_decide_ext. rewrite elem_of_cons. intuition congruence.
Qed.

Lemma zrange_InRange p lo id :
  first_id (pool_traits p) <= lo -> id ∈ zrange lo (capacity (pool_traits p)) ->
  InRange p id = true.
Proof. rewrite elem_of_zrange, InRange_true. lia. Qed.

(** Is [id] an id of this kind? *)
Definition kind_range (k : EntityKind) (id : Z) : bool :=
  (first_id (Traits k) <=? id) && (id <? capacity (Traits k)).

Lemma InRange_Get ps k id : pools_wf ps -> InRange (Get ps k) id = kind_range k id.
Proof. intros Hwf. unfold InRange, pool_traits. by rewrite (pswf_kind _ Hwf). Qed.

(** What [adopt_in] does to every pool. *)
Lemma adopt_in_spec k exists_ s :
  pools_wf (fst s) ->
  pools_wf (fst (adopt_in k exists_ (first_id (Traits k)) s)) /\
  snd (adopt_in k exists_ (first_id (Traits k)) s) = snd s /\
  forall k' id, Alive (Get (fst (adopt_in k exists_ (first_id (Traits k)) s)) k') id =
    Alive (Get (fst s) k') id || (bool_decide (k' = k) && kind_range k id && exists_ id).
Proof.
  intros Hwf. pose proof (pswf_kind _ Hwf k) as Hk. unfold adopt_in.
  destruct (adopt_existing_spec exists_ (zrange (first_id (Traits k)) (capacity (Traits k)))
    (Get (fst s) k) [] (pswf_pool _ Hwf k)) as (Hwf' & Hk' & Hws & Hal).
  { intros id Hid. apply (zrange_InRange _ (first_id (Traits k))); unfold pool_traits;
      rewrite Hk; [lia|done]. }
  fold (adopt_existing exists_ (zrange (first_id (Traits k)) (capacity (Traits k)))
    (Get (fst s) k)) in *.
  destruct (adopt_existing _ _ _) as [p ws]; simpl in *. subst ws.
  split_and!; [apply put_pool_wf; [done..|congruence]|by rewrite app_nil_r|].
  intros k' id. case_bool_decide as Hkk; simpl.
  - subst k'. rewrite Get_put_eq by apply Hwf. rewrite Hal. do 2 f_equal.
    destruct (kind_range k id) eqn:E; unfold kind_range in E.
    + apply bool_decide_eq_true_2, elem_of_zrange. lia.
    + apply bool_decide_eq_false_2. rewrite elem_of_zrange. lia.
  - by rewrite Get_put_ne, orb_false_r.
Qed.

(** Does the server report this id of this kind? *)
Definition reported (q : ServerQueries) (k : EntityKind) (id : Z) : bool :=
  match k with
  | Player => match IsPlayerConnected q with Some f => negb (f id =? 0) | None => false end
  | Bind => KeyBindExists q id
  | _ =>
      match CheckEntityExists q, list_find (fun e => e.1 = k) kServerPools with
      | Some f, Some (_, (_, pool)) => negb (f pool id =? 0)
      | _, _ => false
      end
  end.

(** Enumerating adopts what is reported. *)
Lemma Enumerate_spec q ps :
  pools_wf ps ->
  pools_wf (fst (Enumerate q ps)) /\ snd (Enumerate q ps) = [] /\
  forall k id, Alive (Get (fst (Enumerate q ps)) k) id =
    Alive (Get ps k) id || (kind_range k id && reported q k id).
Proof.
  intros Hwf.
  set (P := fun (dom : EntityKind -> bool) (s : EntityPools * list string) =>
    pools_wf (fst s) /\ snd s = [] /\ forall k id, Alive (Get (fst s) k) id =
      Alive (Get ps k) id || (dom k && kind_range k id && reported q k id)).
  assert (forall dom s k f, P dom s -> (forall id, f id = reported q k id) ->
    P (fun k' => dom k' || bool_decide (k' = k)) (adopt_in k f (first_id (Traits k)) s)) as Hstep.
  { intros dom s k f (Hs & Hw & Ha) Hf. destruct (adopt_in_spec k f s Hs) as (Hs' & Hw' & Ha').
    unfold P. split_and!; [done|by rewrite Hw'|]. intros k' id. rewrite Ha', Ha, Hf.
    case_bool_decide; subst; destruct (Alive _ _), (dom _), (kind_range _ _), (reported _ _ _); done. }
  assert (forall dom s k, P dom s -> (forall id, reported q k id = false) ->
    P (fun k' => dom k' || bool_decide (k' = k)) s) as Hskip.
  { intros dom s k (Hs & Hw & Ha) Hf. split_and!; [done..|]. intros k' id. rewrite Ha.
    case_bool_decide; subst; [rewrite Hf|];
      destruct (Alive _ _), (dom _), (kind_range _ _); simpl; try done; by destruct (reported _ _ _). }
  assert (P (fun _ => false) (ps, [])) as H0.
  { split_and!; [done..|]. intros k id. by rewrite orb_false_r. }
  unfold Enumerate. cbv zeta.
  set (s1 := match IsPlayerConnected q with Some _ => _ | None => _ end).
  assert (P (fun k => false || bool_decide (k = Player)) s1) as H1.
  { unfold s1. destruct (IsPlayerConnected q) eqn:E.
    - apply (Hstep _ _ Player); [done|]. intros id. unfold reported. by rewrite E.
    - apply Hskip; [done|]. intros id. unfold reported. by rewrite E. }
  clearbody s1. set (s2 := match GetKeyBindData q with Some _ => _ | None => _ end).
  assert (P (fun k => false || bool_decide (k = Player) || bool_decide (k = Bind)) s2) as H2.
  { unfold s2. destruct (GetKeyBindData q) eqn:E.
    - by apply (Hstep _ _ Bind).
    - apply Hskip; [done|]. intros id. unfold reported, KeyBindExists. by rewrite E. }
  clearbody s2. cut (P (fun _ => true) (match CheckEntityExists q with None => s2 | Some f =>
    fold_left (fun s '(k, server_pool) =>
        adopt_in k (fun id => negb (f server_pool id =? 0)) (first_id (Traits k)) s)
        kServerPools s2 end)).
  { intros (Hs & Hw & Ha). split_and!; [done..|]. intros k id. by rewrite Ha. }
  destruct (CheckEntityExists q) as [f|] eqn:E.
  - simpl.
    apply (Hstep _ _ Vehicle) with (f := fun id => negb (f vcmpEntityPoolVehicle id =? 0)) in H2;
      [|intros; simpl; by rewrite E].
    apply (Hstep _ _ Object) with (f := fun id => negb (f vcmpEntityPoolObject id =? 0)) in H2;
      [|intros; simpl; by rewrite E].
    apply (Hstep _ _ Pickup) with (f := fun id => negb (f vcmpEntityPoolPickup id =? 0)) in H2;
      [|intros; simpl; by rewrite E].
    apply (Hstep _ _ Checkpoint) with (f := fun id => negb (f vcmpEntityPoolCheckPoint id =? 0)) in H2;
      [|intros; simpl; by rewrite E].
    apply (Hstep _ _ Blip) with (f := fun id => negb (f vcmpEntityPoolBlip id =? 0)) in H2;
      [|intros; simpl; by rewrite E].
    destruct H2 as (Hs & Hw & Ha). split_and!; [done..|]. intros k id. rewrite Ha. by destruct k.
  - destruct H2 as (Hs & Hw & Ha). split_and!; [done..|]. intros k id. rewrite Ha.
    unfold reported. destruct k; simpl; rewrite ?E, ?andb_false_r; done.
Qed.

(** ** Properties *)

(** C26: enumerating the server adopts exactly what the server reports: the
    connected players, the key binds with a key, and the entities of the five
    server pools, each kind within its own ids; a kind whose query this server
    lacks is left as it is. What is alive already stays alive (so repeating it
    changes nothing), the pools stay well formed and no warning is logged. *)
Theorem Enumerate_adopts_exactly q ps :
  pools_wf ps ->
  pools_wf (fst (Enumerate q ps)) /\ snd (Enumerate q ps) = [] /\
  forall k id, Alive (Get (fst (Enumerate q ps)) k) id =
    Alive (Get ps k) id || (kind_range k id && reported q k id).
Proof. apply Enumerate_spec. Qed.

Definition demo_queries : ServerQueries :=
  mkQueries (Some (fun id => if id =? 3 then 1 else 0)) None
            (Some (fun pool id => if (pool =? 7) && (id =? 250) then 1 else 0)).

Lemma Enumerate_adopts_exactly_witness :
  Alive (Get (fst (Enumerate demo_queries new_pools)) Player) 3 = true /\
  Alive (Get (fst (Enumerate demo_queries new_pools)) Blip) 250 = false.
Proof.
  destruct (Enumerate_adopts_exactly demo_queries new_pools new_pools_wf) as (_ & _ & H).
  rewrite !H. vm_compute. done.
Defined.

(** *** Deleting what the scripts created *)

Section delete_spec.
Context {W : Type} `{HasPools W, ServerDelete W}.

(** What the server's delete functions and the releases keep, [DeleteCreated] keeps. *)
Lemma DeleteCreated_keeps (P : W -> Prop) w :
  (forall k f id w, delete_fn k = Some f -> P w -> P (f id w)) ->
  (forall k id w, P w -> P (upd_pool k (fun p => Release p id) w)) ->
  P w -> P (DeleteCreated w).
Proof.
  intros Hdel Hrel.
  assert (forall k ids w, P w -> P
    (fold_left (fun w id => upd_pool k (fun p => Release p id) (delete_one k id w)) ids w)) as Hfold.
  { intros k ids. induction ids as [|id ids IH]; intros w0 Hw0; simpl; [done|]. apply IH, Hrel.
    unfold delete_one. destruct k; try done; (destruct (delete_fn _) eqn:Ef; [by eapply Hdel|done]). }
  intros Hw. unfold DeleteCreated, kServerPools. cbn [fold_left]. by repeat apply Hfold.
Qed.

(** What the server has been asked to delete so far, and what is assumed of
    its delete functions: one call is one request, and whatever the plugin
    does when the server reports the deletion meanwhile ends at most that one
    lifetime in the pools. *)
Class DeletesOne (requests : W -> list (EntityKind * Z)) := {
  requests_set_pools ps w : requests (set_pools ps w) = requests w;
  requests_delete k f id w :
    delete_fn k = Some f -> requests (f id w) = requests w ++ [(k, id)];
  pools_delete k f id w : delete_fn k = Some f ->
    get_pools (f id w) = get_pools w \/
    get_pools (f id w) = put_pool k (Release (Get (get_pools w) k) id) (get_pools w)
}.

Context (requests : W -> list (EntityKind * Z)) `{!DeletesOne requests}.

Lemma Release_idemp p id : pool_wf p -> Release (Release p id) id = Release p id.
Proof.
  intros Hwf. unfold Release at 1. destruct (Alive (Release p id) id) eqn:Ha; [|done].
  exfalso. unfold Release in Ha. destruct (Alive p id) eqn:Hp; simpl in Ha; [|congruence].
  unfold Alive in Ha. rewrite Slot_set_slot_eq in Ha; eauto with vcmp.
  simpl in Ha. by rewrite andb_false_r in Ha.
Qed.

Lemma Alive_Release p id id' :
  pool_wf p -> Alive (Release p id) id' = Alive p id' && negb (id =? id').
Proof.
  intros Hwf. unfold Release. destruct (Alive p id) eqn:Ha; simpl.
  - destruct (id =? id') eqn:E; simpl.
    + apply Z.eqb_eq in E as <-. unfold Alive. rewrite Slot_set_slot_eq; eauto with vcmp.
      simpl. by rewrite !andb_false_r.
    + apply Z.eqb_neq in E. rewrite andb_true_r. unfold Alive. rewrite InRange_set_slot.
      destruct (InRange p id') eqn:Hr; [|done]. by rewrite Slot_set_slot_ne; eauto with vcmp.
  - destruct (id =? id') eqn:E; simpl; [|by rewrite andb_true_r].
    apply Z.eqb_eq in E as <-. by rewrite Ha.
Qed.

Lemma releases_spec ids p :
  pool_wf p ->
  pool_wf (fold_left Release ids p) /\ kind (fold_left Release ids p) = kind p /\
  forall id, Alive (fold_left Release ids p) id = Alive p id && negb (bool_decide (id ∈ ids)).
Proof.
  revert p. induction ids as [|i ids IH]; intros p Hwf; simpl.
  { split_and!; [done..|]. intros id. by rewrite andb_true_r. }
  destruct (IH (Release p i) (Release_wf _ i Hwf)) as (? & Hk & Ha).
  split_and!; [done|by rewrite Hk, kind_Release|]. intros id.
  rewrite Ha, Alive_Release, <- andb_assoc, <- negb_orb by done. do 2 f_equal.
  destruct (i =? id) eqn:E; simpl.
  - apply Z.eqb_eq in E as ->. symmetry. apply bool_decide_eq_true_2. constructor.
  - apply Z.eqb_neq in E. apply bool_decide_ext. rewrite elem_of_cons. intuition congruence.
Qed.

Lemma put_put ps k p p' : put_pool k p (put_pool k p' ps) = put_pool k p ps.
Proof. unfold put_pool. apply list_insert_insert_eq. Qed.

(** One deletion: one request, and the lifetime ends whether or not the
    server has reported it already. *)
Lemma delete_step k f id w :
  pools_wf (get_pools w) -> k <> Player -> delete_fn k = Some f ->
  let w' := upd_pool k (fun p => Release p id) (delete_one k id w) in
  get_pools w' = put_pool k (Release (pool_of k w) id) (get_pools w) /\
  requests w' = requests w ++ [(k, id)].
Proof.
  intros Hwf Hk Hf w'. assert (delete_one k id w = f id w) as Ed.
  { unfold delete_one. rewrite Hf. by destruct k. }
  unfold w', upd_pool. rewrite Ed, get_set_pools, requests_set_pools.
  split; [|by apply requests_delete]. unfold pool_of.
  destruct (pools_delete k f id w Hf) as [->| ->]; [done|].
  rewrite Get_put_eq by apply Hwf. rewrite put_put, Release_idemp by apply Hwf. done.
Qed.

Lemma delete_kind_spec k f w :
  pools_wf (get_pools w) -> k <> Player -> delete_fn k = Some f ->
  pools_wf (get_pools (delete_kind k w)) /\
  requests (delete_kind k w) = requests w ++ ((k,.) <$> CreatedByUs (pool_of k w)) /\
  forall k', pool_of k' (delete_kind k w) =
    if decide (k' = k) then fold_left Release (CreatedByUs (pool_of k w)) (pool_of k w)
    else pool_of k' w.
Proof.
  intros Hwf Hk Hf. unfold delete_kind. generalize (CreatedByUs (pool_of k w)). intros ids.
  revert w Hwf. induction ids as [|i ids IH]; intros w Hwf; simpl.
  { split_and!; [done|by rewrite app_nil_r|]. intros k'. by case_decide as Hd; subst. }
  destruct (delete_step k f i w Hwf Hk Hf) as [Hps Hreq]. revert Hps Hreq.
  generalize (upd_pool k (fun p => Release p i) (delete_one k i w)). intros w1 Hps Hreq.
  assert (pools_wf (get_pools w1)) as Hwf1.
  { rewrite Hps. apply put_pool_wf; [done|apply Release_wf, Hwf|].
    rewrite kind_Release. apply Hwf. }
  destruct (IH w1 Hwf1) as (? & Hr & Hp). split_and!; [done| |].
  - by rewrite Hr, Hreq, <- app_assoc.
  - intros k'. rewrite Hp. unfold pool_of. rewrite Hps. case_decide.
    + subst. rewrite Get_put_eq by apply Hwf. done.
    + by rewrite Get_put_ne.
Qed.

Lemma CreatedByUs_spec p id :
  id ∈ CreatedByUs p <-> Alive p id = true /\ created_by_us (Slot p id) = true.
Proof.
  unfold CreatedByUs. rewrite list_elem_of_In, filter_In, <- list_elem_of_In.
  unfold pool_ids. rewrite elem_of_zrange, andb_true_iff. unfold Alive.
  rewrite andb_true_iff, InRange_true. tauto.
Qed.

Definition deletable_kinds : list EntityKind :=
  [Vehicle; Object; Pickup; Checkpoint; Blip; Bind].

Lemma deletable_spec k : k ∈ deletable_kinds <-> k <> Player.
Proof. rewrite list_elem_of_In. destruct k; simpl; intuition congruence. Qed.

Lemma delete_kinds_spec ks w :
  pools_wf (get_pools w) -> NoDup ks -> Player ∉ ks ->
  (forall k, k ∈ ks -> is_Some (delete_fn k)) ->
  let w' := fold_left (fun w k => delete_kind k w) ks w in
  pools_wf (get_pools w') /\
  requests w' = requests w ++ concat ((fun k => (k,.) <$> CreatedByUs (pool_of k w)) <$> ks) /\
  forall k, pool_of k w' = if decide (k ∈ ks)
    then fold_left Release (CreatedByUs (pool_of k w)) (pool_of k w) else pool_of k w.
Proof.
  revert w. induction ks as [|k ks IH]; intros w Hwf Hnd Hp Hf w'; unfold w'; simpl.
  { split_and!; [done|by rewrite app_nil_r|done]. }
  apply NoDup_cons in Hnd as [Hnin Hnd]. apply not_elem_of_cons in Hp as [Hk Hp].
  destruct (Hf k (list_elem_of_here _ _)) as [f Hfk].
  destruct (delete_kind_spec k f w Hwf (not_eq_sym Hk) Hfk) as (Hwf1 & Hr1 & Hp1).
  destruct (IH (delete_kind k w) Hwf1 Hnd Hp) as (Hwf2 & Hr2 & Hp2).
  { intros k' Hk'. apply Hf. by constructor. }
  split_and!; [done| |].
  - rewrite Hr2, Hr1, <- app_assoc. do 3 f_equal. apply list_fmap_ext. intros i k' Hi.
    rewrite Hp1, decide_False; [done|]. intros ->. by eapply Hnin, list_elem_of_lookup_2.
  - intros k'. rewrite Hp2, Hp1. destruct (decide (k' = k)) as [->|Hne].
    + rewrite (decide_False (P := k ∈ ks)) by done. by rewrite decide_True by constructor.
    + apply decide_ext. rewrite elem_of_cons. intuition congruence.
Qed.

(** C25: on a reload the plugin asks the server to delete exactly the vehicles,
    objects, pickups, checkpoints, blips and key binds its scripts created,
    each once, and their lifetimes end; what other plugins created stays
    alive. The order is the pools' order, then the key binds. *)
Theorem DeleteCreated_deletes_exactly w :
  pools_wf (get_pools w) -> (forall k, k ∈ deletable_kinds -> is_Some (delete_fn k)) ->
  pools_wf (get_pools (DeleteCreated w)) /\
  requests (DeleteCreated w) = requests w ++
    concat ((fun k => (k,.) <$> CreatedByUs (pool_of k w)) <$> deletable_kinds) /\
  forall k id, Alive (pool_of k (DeleteCreated w)) id =
    Alive (pool_of k w) id && negb (bool_decide (k <> Player) && created_by_us (Slot (pool_of k w) id)).
Proof.
  intros Hwf Hf.
  destruct (delete_kinds_spec deletable_kinds w Hwf) as (Hwf' & Hr & Hp);
    [by apply (bool_decide_unpack _); vm_compute|by rewrite deletable_spec; intros []|done|].
  change (fold_left (fun w k => delete_kind k w) deletable_kinds w) with (DeleteCreated w) in *.
  split_and!; [done..|]. intros k id. rewrite Hp.
  destruct (decide (k ∈ deletable_kinds)) as [Hin|Hnin].
  - destruct (releases_spec (CreatedByUs (pool_of k w)) (pool_of k w)) as (_ & _ & ->); [apply Hwf|].
    rewrite (bool_decide_eq_true_2 (k <> Player)) by (by apply deletable_spec). simpl.
    destruct (Alive (pool_of k w) id) eqn:Ha; simpl; [|done]. f_equal.
    apply eq_true_iff_eq. rewrite bool_decide_eq_true, CreatedByUs_spec. intuition.
  - assert (k = Player) as -> by (apply dec_stable; by rewrite <- deletable_spec).
    rewrite bool_decide_eq_false_2 by (intros Hn; by apply Hn). by rewrite andb_true_r.
Qed.
End delete_spec.

(** A server that records the requests and reports no deletion back. *)
#[local] Instance demo_pools : HasPools (EntityPools * list (EntityKind * Z)).
Proof. refine {| get_pools := fst; set_pools := fun ps w => (ps, snd w) |}. done. Defined.
#[local] Instance demo_delete : ServerDelete (EntityPools * list (EntityKind * Z)) :=
  {| delete_fn := fun k => Some (fun id w => (fst w, snd w ++ [(k, id)])) |}.
#[local] Instance demo_deletes : DeletesOne (W := EntityPools * list (EntityKind * Z)) snd.
Proof. split; [done|by intros k f id w [= <-]|intros k f id w [= <-]; by left]. Defined.

Definition demo_created : EntityPools :=
  put_pool Object (MarkCreatedByUs (fst (Adopt (fst (Adopt (new_pool Object) 4)) 6)) 4) new_pools.

Lemma demo_created_wf : pools_wf demo_created.
Proof.
  apply put_pool_wf; [apply new_pools_wf| |done].
  apply (run_op_wf _ (OMark 4)). do 2 apply Adopt_wf. apply new_pool_wf.
Qed.

Lemma DeleteCreated_deletes_exactly_witness :
  snd (DeleteCreated (demo_created, [])) = [(Object, 4)] /\
  Alive (pool_of Object (DeleteCreated (demo_created, []))) 4 = false /\
  Alive (pool_of Object (DeleteCreated (demo_created, []))) 6 = true.
Proof.
  destruct (DeleteCreated_deletes_exactly (W := EntityPools * list (EntityKind * Z)) snd
    (demo_created, [])) as (_ & Hr & Ha);
    [cbv [get_pools demo_pools fst]; exact demo_created_wf|intros k _; simpl; eauto|].
  split; [refine (eq_trans Hr _)|split; refine (eq_trans (Ha _ _) _)]; vm_compute; reflexivity.
Defined.
