(* ===== verification/Scheduler.v ===== *)
(** Timers (src/core/scheduler.hpp, scheduler.cpp): creation and its errors,
    destruction also from inside a callback, and [Tick], which runs every due
    timer once, in due order, with [thisTimer] set. *)
From stdpp Require Import base tactics list gmap strings sorting.
From Stdlib Require Import ZArith Lia.
From S2P Require Import Prelude.
From S2P Require Import LuaValue.
From S2P Require Import Invoker.
Open Scope Z_scope.

(** ** State *)

Definition kForever : Z := -1.
Definition kMaxInterval : Z := 2 ^ 40.

(** [Scheduler::Timer]; the callback is held by its identity, an empty handle
    is [None]. *)
Record Timer := mkTimer
  { callback : Z; args : list lua_value; t_handle : option lua_value;
    interval : Z; remaining : Z; due : Z; running : bool; destroyed : bool }.

(** [timers_], [next_id_] (64 bits, counted up once per timer: it does not
    wrap in practice and is kept unbounded) and the scratch vector [due_]. *)
Record Scheduler := mkSched { timers : gmap Z Timer; next_id : Z; due_ : list Z }.

Definition new_scheduler : Scheduler := mkSched ∅ 1 [].

Definition set_timer (s : Scheduler) (id : Z) (t : Timer) : Scheduler :=
  mkSched (<[id := t]> (timers s)) (next_id s) (due_ s).
Definition set_due_ (s : Scheduler) (l : list Z) : Scheduler := mkSched (timers s) (next_id s) l.
Definition erase (s : Scheduler) (id : Z) : Scheduler :=
  mkSched (delete id (timers s)) (next_id s) (due_ s).

Definition set_running (t : Timer) (b : bool) : Timer :=
  mkTimer (callback t) (args t) (t_handle t) (interval t) (remaining t) (due t) b (destroyed t).
Definition set_destroyed (t : Timer) (b : bool) : Timer :=
  mkTimer (callback t) (args t) (t_handle t) (interval t) (remaining t) (due t) (running t) b.
Definition set_t_handle (t : Timer) (h : option lua_value) : Timer :=
  mkTimer (callback t) (args t) h (interval t) (remaining t) (due t) (running t) (destroyed t).

(** ** Operations *)

(** [Create(callback, interval_ms, repeats, args)]; [now] is what the clock reads. *)
Definition CreateTimer (s : Scheduler) (now cb interval_ms repeats : Z) (extra : list lua_value)
    : outcome (Z * Scheduler) :=
  if (interval_ms <? 0) || (kMaxInterval <? interval_ms)
  then Throw (OutOfRange "timer interval must be between 0 and 2^40 milliseconds")
  else if negb (repeats =? kForever) && (repeats <=? 0)
  then Throw (OutOfRange "timer repeat count must be -1 (forever) or positive")
  else
    let id := next_id s in
    Ret (id, mkSched
      (<[id := mkTimer cb extra None interval_ms repeats (now + interval_ms) false false]> (timers s))
      (next_id s + 1) (due_ s)).

Definition SetHandle (s : Scheduler) (id : Z) (h : lua_value) : Scheduler :=
  match timers s !! id with
  | Some t => set_timer s id (set_t_handle t (Some h))
  | None => s
  end.

Definition Destroy (s : Scheduler) (id : Z) : bool * Scheduler :=
  match timers s !! id with
  | None => (false, s)
  | Some t =>
      if destroyed t then (false, s)
      else if running t then (true, set_timer s id (set_destroyed t true))
      else (true, erase s id)
  end.

Definition Exists (s : Scheduler) (id : Z) : bool :=
  match timers s !! id with Some t => negb (destroyed t) | None => false end.

Definition Count (s : Scheduler) : nat :=
  length (List.filter (fun e => negb (destroyed e.2)) (map_to_list (timers s))).

Definition Sched_Clear (s : Scheduler) : Scheduler := mkSched ∅ (next_id s) [].

(** The timers that are due: [timers_.at(id).due] for the comparison. *)
Definition due_at (s : Scheduler) (id : Z) : Z :=
  match timers s !! id with Some t => due t | None => 0 end.

(** The order of the sort: earliest first, then by id. *)
Definition due_before (s : Scheduler) (a b : Z) : Prop :=
  due_at s a < due_at s b \/ (due_at s a = due_at s b /\ a <= b).
#[export] Instance due_before_dec s : RelDecision (due_before s).
Proof. intros a b. unfold due_before. apply _. Defined.

Definition is_due (now : Z) (t : Timer) : bool := negb (destroyed t) && (due t <=? now).

(** What [Tick] collects and sorts. *)
Definition due_list (s : Scheduler) (now : Z) : list Z :=
  merge_sort (due_before s)
    ((List.filter (fun e => is_due now e.2) (map_to_list (timers s))).*1).

(** The head of [Run]: one repetition used, the next due time. *)
Definition advance (now : Z) (t : Timer) : Timer :=
  let remaining' := if 0 <? remaining t then remaining t - 1 else remaining t in
  let due' := due t + interval t in
  let due' := if due' <=? now then now + interval t else due' in
  mkTimer (callback t) (args t) (t_handle t) (interval t) remaining' due' (running t) (destroyed t).

(** A state that owns the timers: the clock, and the raw field [thisTimer] of
    the table of globals. *)
Class HasTimers (W : Type) `{LuaHost W} := {
  get_sched : W -> Scheduler;
  set_sched : Scheduler -> W -> W;
  clock : W -> Z;
  this_timer : W -> lua_value;
  set_this_timer : lua_value -> W -> W;
  get_set_sched s w : get_sched (set_sched s w) = s;
  get_sched_invoker i w : get_sched (set_invoker i w) = get_sched w;
  get_sched_log l s w : get_sched (log_line l s w) = get_sched w;
  get_sched_this v w : get_sched (set_this_timer v w) = get_sched w;
  this_set_this v w : this_timer (set_this_timer v w) = v;
  this_set_sched s w : this_timer (set_sched s w) = this_timer w;
  this_invoker i w : this_timer (set_invoker i w) = this_timer w;
  get_invoker_sched s w : get_invoker (set_sched s w) = get_invoker w;
  get_invoker_this v w : get_invoker (set_this_timer v w) = get_invoker w
}.

Section tick.
Context {W : Type} `{HasTimers W} {lib : LuaLib}.
Implicit Types (w : W).

Definition upd_sched (f : Scheduler -> Scheduler) (w : W) : W := set_sched (f (get_sched w)) w.
Definition timer_at (w : W) (id : Z) : option Timer := timers (get_sched w) !! id.

(** [push_args] of [Run]. *)
Definition push_args (id : Z) : prog W (list lua_value) := fun w =>
  match timer_at w id with
  | None => (UB, w)
  | Some timer =>
      if negb (checkstack (swrap 32 (Z.of_nat (length (args timer)))) w)
      then (Throw (RuntimeError "Lua stack overflow"), w)
      else (Ret (args timer), w)
  end.

(** [RunningScope]'s destructor. *)
Definition leave_running (id : Z) (previous : lua_value) (w : W) : option W :=
  match timer_at w id with
  | None => None
  | Some timer =>
      let w := upd_sched (fun s => set_timer s id (set_running timer false)) w in
      Some (if dead (get_invoker w) then w else set_this_timer previous w)
  end.

(** [Run(L, id, timer, now)]: the timer is used through a reference into
    [timers_], so it must stay in the map until the end. *)
Definition Run (id now : Z) : prog W unit := fun w =>
  match timer_at w id with
  | None => (UB, w)
  | Some timer =>
      let w := upd_sched (fun s => set_timer s id (advance now timer)) w in
      if negb (checkstack 4 w) then (Throw (RuntimeError "Lua stack overflow"), w)
      else
        let previous := this_timer w in
        let w := set_this_timer (default LNil (t_handle timer)) w in
        let w := upd_sched (fun s => set_timer s id (set_running (advance now timer) true)) w in
        match Call (callback timer) "Timer callback" (push_args id) w with
        | (UB, w) => (UB, w)
        | (r, w) =>
            match leave_running id previous w with
            | None => (UB, w)
            | Some w =>
                match r with
                | Throw e => (Throw e, w)
                | _ =>
                    match timer_at w id with
                    | None => (UB, w)
                    | Some timer =>
                        (Ret tt, if destroyed timer || (remaining timer =? 0)
                                 then upd_sched (fun s => erase s id) w else w)
                    end
                end
            end
        end
  end.

(** The loop of [Tick] over the due timers. *)
Fixpoint tick_loop (now : Z) (ids : list Z) : prog W unit :=
  match ids with
  | [] => pret tt
  | id :: ids => fun w =>
      match timer_at w id with
      | None => tick_loop now ids w
      | Some timer =>
          if destroyed timer then tick_loop now ids w
          else match Run id now w with
               | (Ret _, w) => tick_loop now ids w
               | r => r
               end
      end
  end.

(** [Tick(L)]. *)
Definition Tick : prog W unit := fun w =>
  if decide (timers (get_sched w) = ∅) then (Ret tt, w)
  else
    let w := enter w in
    let now := clock w in
    let ids := due_list (get_sched w) now in
    let w := upd_sched (fun s => set_due_ s []) w in
    match tick_loop now ids w with
    | (Ret _, w) => (Ret tt, leave (upd_sched (fun s => set_due_ s ids) w))
    | (Throw e, w) => (Throw e, leave w)
    | (UB, w) => (UB, w)
    end.
End tick.

(** ** Invariant and the steps of the timers *)

Record timer_wf (t : Timer) : Prop := mkTimerWf
  { twf_interval : 0 <= interval t <= kMaxInterval;
    twf_remaining : remaining t = kForever \/ 0 <= remaining t;
    twf_destroyed : destroyed t = true -> running t = true }.

Record sched_wf (s : Scheduler) : Prop := mkSchedWf
  { swf_ids id t : timers s !! id = Some t -> 0 < id < next_id s;
    swf_timer id t : timers s !! id = Some t -> timer_wf t;
    swf_next : 0 < next_id s }.

(** Equal up to the handle. *)
Definition same_timer (t t' : Timer) : Prop :=
  set_t_handle t None = set_t_handle t' None.

(** A timer that runs can only be marked destroyed. *)
Definition marked_timer (t t' : Timer) : Prop :=
  same_timer (set_destroyed t false) (set_destroyed t' false) /\
  (destroyed t = true -> destroyed t' = true).

(** From [s] to [s'] the timers [ran] ran once each at time [now] (to the end
    when [full]), and otherwise timers were only created, given their handle,
    and destroyed. *)
Record evolve (full : bool) (now : Z) (ran : list Z) (s s' : Scheduler) : Prop := mkEvolve
  { ev_wf : sched_wf s';
    ev_next : next_id s <= next_id s';
    ev_gone id : id < next_id s -> timers s !! id = None -> timers s' !! id = None;
    ev_idle id t : timers s !! id = Some t -> running t = false ->
      timers s' !! id = None \/
      exists t', timers s' !! id = Some t' /\
        same_timer (if decide (id ∈ ran) then advance now t else t) t' /\
        (full = true -> id ∈ ran -> remaining t' <> 0);
    ev_running id t : timers s !! id = Some t -> running t = true -> id ∉ ran ->
      exists t', timers s' !! id = Some t' /\ marked_timer t t';
    ev_new id t : next_id s <= id -> timers s' !! id = Some t -> running t = false }.

(** What any code that runs inside a call into Lua may do to the timers. *)
Definition sched_step (s s' : Scheduler) : Prop := sched_wf s -> evolve true 0 [] s s'.

(** ** Lemmas *)

#[export] Instance same_timer_equiv : Equivalence same_timer.
Proof. split; unfold same_timer; [intros ?; done|intros ???; done|intros ?????; congruence]. Qed.

Lemma same_fields t t' : same_timer t t' ->
  callback t' = callback t /\ args t' = args t /\ interval t' = interval t /\
  remaining t' = remaining t /\ due t' = due t /\ running t' = running t /\
  destroyed t' = destroyed t.
Proof. unfold same_timer, set_t_handle. intros [=]. intuition congruence. Qed.

Lemma same_advance now t t' : same_timer t t' -> same_timer (advance now t) (advance now t').
Proof.
  intros (Hc&Ha&Hi&Hr&Hd&Hn&Hx)%same_fields. unfold same_timer, set_t_handle, advance. simpl.
  by rewrite Hc, Ha, Hi, Hr, Hd, Hn, Hx.
Qed.

Lemma same_timer_wf t t' : same_timer t t' -> timer_wf t -> timer_wf t'.
Proof.
  intros (?&?&Hi&Hr&?&Hn&Hd)%same_fields [???].
  split; [by rewrite Hi|by rewrite Hr|by rewrite Hn, Hd].
Qed.

Lemma advance_wf now t : timer_wf t -> timer_wf (advance now t).
Proof.
  intros [Hi Hr Hd]. split; simpl; [done| |done].
  unfold kForever in *. destruct (0 <? remaining t) eqn:E; lia.
Qed.

#[export] Instance marked_preorder : PreOrder marked_timer.
Proof.
  split; unfold marked_timer; [intros t; done|].
  intros t1 t2 t3 [? ?] [? ?]. split; [by etransitivity|auto].
Qed.

Lemma marked_fields t t' : marked_timer t t' ->
  callback t' = callback t /\ args t' = args t /\ interval t' = interval t /\
  remaining t' = remaining t /\ due t' = due t /\ running t' = running t /\
  (destroyed t = true -> destroyed t' = true).
Proof. intros [Hs Hd]. apply same_fields in Hs. simpl in Hs. intuition. Qed.

Lemma timer_ids s id t : sched_wf s -> timers s !! id = Some t -> 0 < id < next_id s.
Proof. intros Hwf. apply Hwf. Qed.

Lemma timer_fresh s id : sched_wf s -> next_id s <= id -> timers s !! id = None.
Proof.
  intros Hwf Hid. destruct (timers s !! id) eqn:E; [|done].
  apply (timer_ids _ _ _ Hwf) in E. lia.
Qed.

Lemma evolve_refl full now s : sched_wf s -> evolve full now [] s s.
Proof.
  intros Hwf. split; try done.
  - intros id t Ht _. right. exists t. split_and!; [done|done|]. by intros _ ?%not_elem_of_nil.
  - intros id t Ht _ _. exists t. split; [done|reflexivity].
  - intros id t Hid Ht. by rewrite timer_fresh in Ht.
Qed.

(** Two stretches after each other, when no timer runs in both. *)
Lemma evolve_trans full now r1 r2 s1 s2 s3 :
  sched_wf s1 -> (forall id, id ∈ r1 -> id ∉ r2) -> (forall id, id ∈ r2 -> id < next_id s1) ->
  evolve full now r1 s1 s2 -> evolve full now r2 s2 s3 -> evolve full now (r1 ++ r2) s1 s3.
Proof.
  intros Hwf Hdis Hold H12 H23. pose proof (ev_next _ _ _ _ _ H12) as Hn12.
  pose proof (ev_next _ _ _ _ _ H23) as Hn23.
  split; [apply H23|lia|..].
  - intros id Hid Hn. apply (ev_gone _ _ _ _ _ H23); [lia|]. by apply H12.
  - intros id t Ht Hr. pose proof (timer_ids _ _ _ Hwf Ht) as Hid.
    destruct (ev_idle _ _ _ _ _ H12 id t Ht Hr) as [Hn|(t2 & Ht2 & Hs2 & Hz2)].
    { left. apply (ev_gone _ _ _ _ _ H23); [lia|done]. }
    assert (running t2 = false) as Hr2.
    { apply same_fields in Hs2 as (_&_&_&_&_&->&_). by case_decide. }
    destruct (ev_idle _ _ _ _ _ H23 id t2 Ht2 Hr2) as [Hn|(t3 & Ht3 & Hs3 & Hz3)]; [by left|].
    right. exists t3. split_and!; [done| |].
    + destruct (decide (id ∈ r1)) as [Hin|Hnin].
      * rewrite decide_True by (apply elem_of_app; by left).
        rewrite decide_False in Hs3 by auto. by etransitivity.
      * destruct (decide (id ∈ r2)) as [Hin2|Hnin2].
        -- rewrite decide_True by (apply elem_of_app; by right).
           etransitivity; [|exact Hs3]. by apply same_advance.
        -- rewrite decide_False by (rewrite elem_of_app; tauto). by etransitivity.
    + intros Hf [Hin|Hin]%elem_of_app; [|by apply Hz3].
      rewrite decide_False in Hs3 by auto. apply same_fields in Hs3 as (_&_&_&->&_). by apply Hz2.
  - intros id t Ht Hr Hnin. rewrite elem_of_app in Hnin.
    destruct (ev_running _ _ _ _ _ H12 id t Ht Hr) as (t2 & Ht2 & Hm2); [tauto|].
    destruct (ev_running _ _ _ _ _ H23 id t2 Ht2) as (t3 & Ht3 & Hm3); [|tauto|].
    { apply marked_fields in Hm2 as (_&_&_&_&_&->&_). done. }
    exists t3. split; [done|]. by etransitivity.
  - intros id t3 Hid Ht3. destruct (decide (next_id s2 <= id)) as [|Hlt].
    { by eapply (ev_new _ _ _ _ _ H23). }
    destruct (timers s2 !! id) as [t2|] eqn:Ht2.
    2: { apply (ev_gone _ _ _ _ _ H23) in Ht2; [congruence|lia]. }
    pose proof (ev_new _ _ _ _ _ H12 id t2 Hid Ht2) as Hr2.
    destruct (ev_idle _ _ _ _ _ H23 id t2 Ht2 Hr2) as [?|(t3' & Ht3' & Hs3 & _)]; [congruence|].
    simplify_eq. apply same_fields in Hs3 as (_&_&_&_&_&->&_). by case_decide.
Qed.

Lemma evolve_nil full now full' now' s s' :
  evolve full now [] s s' -> evolve full' now' [] s s'.
Proof.
  intros [? ? ? Hi ? ?]. split; try done.
  intros id t Ht Hr. destruct (Hi id t Ht Hr) as [|(t' & Ht' & Hs & _)]; [by left|right].
  exists t'. rewrite decide_False in * by apply not_elem_of_nil.
  split_and!; [done..|]. by intros _ ?%not_elem_of_nil.
Qed.

#[export] Instance sched_step_preorder : PreOrder sched_step.
Proof.
  split; unfold sched_step.
  - intros s Hwf. by apply evolve_refl.
  - intros s1 s2 s3 H12 H23 Hwf. specialize (H12 Hwf). specialize (H23 (ev_wf _ _ _ _ _ H12)).
    apply (evolve_trans _ _ [] [] s1 s2 s3); try done; by intros ? ?%not_elem_of_nil.
Qed.

(** A change of one idle timer: away, or to [t'] (not to a running one). *)
Lemma evolve_one s s' id t o :
  sched_wf s -> timers s !! id = Some t -> running t = false ->
  timers s' = partial_alter (fun _ => o) id (timers s) -> next_id s' = next_id s ->
  (o = None \/ exists t', o = Some t' /\ same_timer t t') ->
  evolve true 0 [] s s'.
Proof.
  intros Hwf Ht Hr Hts Hnx Ho. pose proof (timer_ids _ _ _ Hwf Ht) as Hid.
  assert (forall i, timers s' !! i = if decide (i = id) then o else timers s !! i) as Hl.
  { intros i. rewrite Hts. case_decide; subst; [by rewrite lookup_partial_alter_eq|].
    by rewrite lookup_partial_alter_ne. }
  split; [split| | | | |].
  - intros i ti. rewrite Hl, Hnx. case_decide; subst; [intros _; done|apply Hwf].
  - intros i ti. rewrite Hl. case_decide; subst; [|apply Hwf].
    destruct Ho as [->|(t' & -> & Hs)]; [done|]. intros [= <-].
    eapply same_timer_wf; [done|]. by eapply Hwf.
  - rewrite Hnx. apply Hwf.
  - lia.
  - intros i _ Hn. rewrite Hl. case_decide; subst; congruence.
  - intros i ti Hti Hri. rewrite Hl. case_decide as Hd; subst.
    + simplify_eq. destruct Ho as [->|(t' & -> & Hs)]; [by left|]. right. exists t'.
      rewrite decide_False by apply not_elem_of_nil. split_and!; [done..|].
      by intros _ ?%not_elem_of_nil.
    + right. exists ti. rewrite decide_False by apply not_elem_of_nil.
      split_and!; [done..|]. by intros _ ?%not_elem_of_nil.
  - intros i ti Hti Hri _. rewrite Hl. case_decide; subst; [congruence|].
    exists ti. split; [done|reflexivity].
  - intros i ti Hi. rewrite Hl. case_decide; subst; [lia|]. intros Hti.
    by rewrite timer_fresh in Hti.
Qed.

(** A change of one running timer: marked, or given a handle. *)
Lemma evolve_one_running s s' id t t' :
  sched_wf s -> timers s !! id = Some t -> running t = true ->
  timers s' = <[id := t']> (timers s) -> next_id s' = next_id s -> marked_timer t t' ->
  evolve true 0 [] s s'.
Proof.
  intros Hwf Ht Hr Hts Hnx Hm. pose proof (timer_ids _ _ _ Hwf Ht) as Hid.
  assert (forall i, timers s' !! i = if decide (i = id) then Some t' else timers s !! i) as Hl.
  { intros i. rewrite Hts. case_decide; subst; [by rewrite lookup_insert_eq|].
    by rewrite lookup_insert_ne. }
  pose proof (marked_fields _ _ Hm) as (Hc&Ha&Hi&Hrem&Hd&Hrun&Hdes).
  split; [split| | | | |].
  - intros i ti. rewrite Hl, Hnx. case_decide; subst; [intros _; done|apply Hwf].
  - intros i ti. rewrite Hl. case_decide; subst; [|apply Hwf]. intros [= <-].
    destruct (swf_timer _ Hwf _ _ Ht). split; [by rewrite Hi|by rewrite Hrem|by rewrite Hrun].
  - rewrite Hnx. apply Hwf.
  - lia.
  - intros i _ Hn. rewrite Hl. case_decide; subst; congruence.
  - intros i ti Hti Hri. rewrite Hl. case_decide; subst; [congruence|]. right. exists ti.
    rewrite decide_False by apply not_elem_of_nil. split_and!; [done..|].
    by intros _ ?%not_elem_of_nil.
  - intros i ti Hti Hri _. rewrite Hl. case_decide; subst; [|by exists ti].
    exists t'. split; [done|]. by simplify_eq.
  - intros i ti Hin. rewrite Hl. case_decide; subst; [lia|]. intros Hti.
    by rewrite timer_fresh in Hti.
Qed.

Lemma SetHandle_step s id h : sched_step s (SetHandle s id h).
Proof.
  intros Hwf. unfold SetHandle. destruct (timers s !! id) as [t|] eqn:Ht; [|by apply evolve_refl].
  destruct (running t) eqn:Hr.
  - eapply evolve_one_running; try done.
  - eapply (evolve_one _ _ id t (Some (set_t_handle t (Some h)))); try done. right. by eexists.
Qed.

Lemma Destroy_step s id : sched_step s (snd (Destroy s id)).
Proof.
  intros Hwf. unfold Destroy. destruct (timers s !! id) as [t|] eqn:Ht; [|by apply evolve_refl].
  destruct (destroyed t) eqn:Hd; [by apply evolve_refl|]. destruct (running t) eqn:Hr; simpl.
  - eapply evolve_one_running; try done.
  - eapply (evolve_one _ _ id t None); try done. by left.
Qed.

Lemma CreateTimer_step s now cb i r xs id s' :
  CreateTimer s now cb i r xs = Ret (id, s') -> sched_step s s'.
Proof.
  unfold CreateTimer. destruct (_ || _) eqn:E1; [done|]. destruct (_ && _) eqn:E2; [done|].
  intros [= <- <-] Hwf. set (t := mkTimer _ _ _ _ _ _ _ _).
  assert (timers s !! next_id s = None) as Hf by (by apply timer_fresh).
  assert (forall j, timers (mkSched (<[next_id s := t]> (timers s)) (next_id s + 1) (due_ s)) !! j =
    if decide (j = next_id s) then Some t else timers s !! j) as Hl.
  { intros j. simpl. case_decide; subst; [by rewrite lookup_insert_eq|].
    by rewrite lookup_insert_ne. }
  pose proof (swf_next _ Hwf). split; [split| | | | |].
  - intros j tj. rewrite Hl. case_decide; subst; [intros _; simpl; lia|].
    intros Hj%(timer_ids _ _ _ Hwf). simpl. lia.
  - intros j tj. rewrite Hl. case_decide; subst; [|apply Hwf]. intros [= <-].
    unfold kForever in *. split; simpl; [lia|unfold kForever; lia|done].
  - simpl. lia.
  - simpl. lia.
  - intros j Hj Hn. rewrite Hl, decide_False; [done|lia].
  - intros j tj Hj Hr. right. exists tj. rewrite Hl, (decide_False (P := j = _)) by congruence.
    rewrite decide_False by apply not_elem_of_nil. split_and!; [done..|].
    by intros _ ?%not_elem_of_nil.
  - intros j tj Hj _ _. exists tj. rewrite Hl, decide_False by congruence. done.
  - intros j tj Hj. rewrite Hl. case_decide; [by intros [= <-]|]. intros Htj.
    apply (timer_ids _ _ _ Hwf) in Htj. lia.
Qed.

(** ** The due timers *)

Lemma elem_due_unsorted s now id :
  id ∈ (List.filter (fun e => is_due now e.2) (map_to_list (timers s))).*1 <->
  exists t, timers s !! id = Some t /\ destroyed t = false /\ due t <= now.
Proof.
  rewrite list_elem_of_fmap. split.
  - intros ([i t] & -> & Hin). apply list_elem_of_In, filter_In in Hin as [Hin Hd].
    apply list_elem_of_In, elem_of_map_to_list in Hin. exists t.
    apply andb_true_iff in Hd as [Hn%negb_true_iff Hd%Z.leb_le]. done.
  - intros (t & Ht & Hn & Hd). exists (id, t). split; [done|].
    apply list_elem_of_In, filter_In. split.
    + by apply list_elem_of_In, elem_of_map_to_list.
    + apply andb_true_iff. split; [by apply negb_true_iff|by apply Z.leb_le].
Qed.

#[export] Instance due_before_transitive s : Transitive (due_before s).
Proof. intros a b c. unfold due_before. lia. Qed.
#[export] Instance due_before_total s : Total (due_before s).
Proof. intros a b. unfold due_before. lia. Qed.

Lemma elem_due_list s now id :
  id ∈ due_list s now <-> exists t, timers s !! id = Some t /\ destroyed t = false /\ due t <= now.
Proof. unfold due_list. by rewrite merge_sort_Permutation, elem_due_unsorted. Qed.

Lemma due_list_NoDup s now : NoDup (due_list s now).
Proof.
  unfold due_list. rewrite merge_sort_Permutation.
  eapply sublist_NoDup; [apply (NoDup_fst_map_to_list (timers s))|].
  apply fmap_sublist. clear. induction (map_to_list (timers s)) as [|e l IH]; simpl; [done|].
  case_match; [by apply sublist_skip|by apply sublist_cons].
Qed.

(** A tick collects exactly the timers that are due and not destroyed,
    each once, ordered by due time and then by creation. *)
Theorem due_list_spec s now :
  (forall id, id ∈ due_list s now <->
    exists t, timers s !! id = Some t /\ destroyed t = false /\ due t <= now) /\
  NoDup (due_list s now) /\ StronglySorted (due_before s) (due_list s now).
Proof.
  split_and!; [intros id; apply elem_due_list|apply due_list_NoDup|].
  apply StronglySorted_merge_sort; apply _.
Qed.

(** ** Running one timer *)

Lemma alter_insert (m : gmap Z Timer) i x y :
  partial_alter (fun _ => Some x) i (<[i := y]> m) = <[i := x]> m.
Proof.
  apply map_eq. intros j. destruct (decide (j = i)) as [->|Hne].
  - by rewrite lookup_partial_alter_eq, lookup_insert_eq.
  - by rewrite lookup_partial_alter_ne, !lookup_insert_ne.
Qed.

(** The whole of [Run]: the timer is marked running and advanced in [s1], Lua
    code leads to [s2], and the timer ends as [o] says. *)
Lemma evolve_bracket full now s s1 s2 s3 id t o :
  sched_wf s -> timers s !! id = Some t -> running t = false ->
  timers s1 = <[id := set_running (advance now t) true]> (timers s) -> next_id s1 = next_id s ->
  evolve true 0 [] s1 s2 ->
  timers s3 = partial_alter (fun _ => o) id (timers s2) -> next_id s3 = next_id s2 ->
  (o = None \/ exists t', o = Some t' /\ same_timer (advance now t) t' /\ destroyed t' = false /\
     (full = true -> remaining t' <> 0)) ->
  evolve full now [id] s s3.
Proof.
  intros Hwf Ht Hr H1 Hn1 H12 H3 Hn3 Ho. pose proof (timer_ids _ _ _ Hwf Ht) as Hid.
  pose proof (ev_next _ _ _ _ _ H12) as Hn12.
  assert (forall i, i <> id -> timers s1 !! i = timers s !! i) as Hl1.
  { intros i Hi. by rewrite H1, lookup_insert_ne. }
  assert (forall i, timers s3 !! i = if decide (i = id) then o else timers s2 !! i) as Hl3.
  { intros i. rewrite H3. case_decide; subst; [by rewrite lookup_partial_alter_eq|].
    by rewrite lookup_partial_alter_ne. }
  split; [split| | | | |].
  - intros i ti. rewrite Hl3, Hn3. case_decide; subst; [intros _; lia|].
    apply (ev_wf _ _ _ _ _ H12).
  - intros i ti. rewrite Hl3. case_decide; subst; [|apply (ev_wf _ _ _ _ _ H12)].
    destruct Ho as [->|(t' & -> & Hs & Hd & _)]; [done|]. intros [= <-].
    pose proof (advance_wf now t (swf_timer _ Hwf _ _ Ht)) as Hadv.
    by eapply same_timer_wf.
  - rewrite Hn3. apply (ev_wf _ _ _ _ _ H12).
  - lia.
  - intros i Hi Hn. rewrite Hl3. case_decide; subst; [congruence|].
    apply (ev_gone _ _ _ _ _ H12); [lia|]. by rewrite Hl1.
  - intros i ti Hti Hri. rewrite Hl3. case_decide as Hd; subst.
    + simplify_eq. destruct Ho as [->|(t' & -> & Hs & _ & Hz)]; [by left|]. right. exists t'.
      rewrite decide_True by (by apply list_elem_of_singleton). auto.
    + destruct (ev_idle _ _ _ _ _ H12 i ti) as [?|(t' & Ht' & Hs & _)]; [by rewrite Hl1|done|by left|].
      right. exists t'. rewrite decide_False in Hs by apply not_elem_of_nil.
      rewrite decide_False by (by rewrite list_elem_of_singleton). split_and!; [done..|].
      by intros _ ?%list_elem_of_singleton.
  - intros i ti Hti Hri Hnin. rewrite list_elem_of_singleton in Hnin.
    rewrite Hl3, decide_False by done.
    apply (ev_running _ _ _ _ _ H12); [by rewrite Hl1|done|apply not_elem_of_nil].
  - intros i ti Hi. rewrite Hl3. case_decide; subst; [lia|].
    apply (ev_new _ _ _ _ _ H12). lia.
Qed.

Section run.
Context {W : Type} `{HasTimers W} {lib : LuaLib}.
Implicit Types (w : W).

Definition sched_rel w w' : Prop := sched_step (get_sched w) (get_sched w').

#[export] Instance sched_rel_preorder : PreOrder sched_rel.
Proof.
  split; unfold sched_rel; [intros w; reflexivity|].
  intros w1 w2 w3 ? ?. by etransitivity.
Qed.

Lemma get_sched_enter w : get_sched (enter w) = get_sched w.
Proof. unfold enter. apply get_sched_invoker. Qed.
Lemma get_sched_leave w : get_sched (leave w) = get_sched w.
Proof. unfold leave. apply get_sched_invoker. Qed.
Lemma get_sched_upd f w : get_sched (upd_sched f w) = f (get_sched w).
Proof. unfold upd_sched. apply get_set_sched. Qed.
Lemma this_upd f w : this_timer (upd_sched f w) = this_timer w.
Proof. unfold upd_sched. apply this_set_sched. Qed.
Lemma invoker_upd_sched f w : get_invoker (upd_sched f w) = get_invoker w.
Proof. unfold upd_sched. apply get_invoker_sched. Qed.

#[export] Instance sched_rel_stable : CallStable sched_rel.
Proof.
  split; [apply _|..]; unfold sched_rel.
  - intros. rewrite get_sched_log. reflexivity.
  - intros w w'. by rewrite get_sched_leave, get_sched_enter.
Qed.

Lemma push_args_state id w : snd (push_args id w) = w.
Proof. unfold push_args. by repeat case_match. Qed.

Lemma push_args_respects id R `{!Reflexive R} : respects R (push_args id).
Proof. intros w _. by rewrite push_args_state. Qed.

(** Calling the timer's function runs into no undefined behaviour, and it
    throws only before any Lua code has run. *)
Lemma Call_push_args fn what id w t :
  timer_at w id = Some t ->
  is_UB (fst (Call fn what (push_args id) w)) = false /\
  forall e, fst (Call fn what (push_args id) w) = Throw e ->
    get_sched (snd (Call fn what (push_args id) w)) = get_sched w.
Proof.
  unfold timer_at. intros Ht. unfold Call. destruct (dead _); [done|].
  destruct (checkstack 2 (enter w)); simpl.
  2: { split; [done|]. intros _ _. by rewrite get_sched_leave, get_sched_enter. }
  unfold push_args, timer_at. rewrite get_sched_enter, Ht.
  destruct (checkstack _ (enter w)); simpl.
  - by destruct (pcall _ _ _) as [[]].
  - split; [done|]. intros _ _. by rewrite get_sched_leave, get_sched_enter.
Qed.

(** A relation that looks neither at the timers nor at [thisTimer]. *)
Class SchedBlind (R : W -> W -> Prop) := {
  blind_sched s w : R w (set_sched s w);
  blind_this v w : R w (set_this_timer v w)
}.

Lemma leave_running_respects R `{!PreOrder R, !SchedBlind R} id previous w w' :
  leave_running id previous w = Some w' -> R w w'.
Proof.
  unfold leave_running. destruct (timer_at w id) as [t|]; [|done]. intros [= <-].
  destruct (dead _); [apply blind_sched|]. etransitivity; [apply blind_sched|apply blind_this].
Qed.

Lemma Run_respects_blind R `{!CallStable R, !LuaRespects R, !SchedBlind R} id now :
  respects R (Run id now).
Proof.
  intros w. unfold Run. destruct (timer_at w id) as [t|]; [|done].
  set (w1 := upd_sched _ w). assert (R w w1) as H1 by apply blind_sched.
  destruct (negb _); [intros _; exact H1|].
  set (w2 := upd_sched _ (set_this_timer _ w1)).
  assert (R w w2) as H2.
  { etransitivity; [exact H1|]. etransitivity; [apply blind_this|apply blind_sched]. }
  pose proof (Call_respects R (callback t) "Timer callback" (push_args id)
    (push_args_respects id R) w2) as H3.
  destruct (Call _ _ _ w2) as [[b|e|] w3]; cbn [fst snd] in *; [| |done];
    specialize (H3 eq_refl);
    (destruct (leave_running id (this_timer w1) w3) as [w4|] eqn:E4; [|done]);
    apply (leave_running_respects R) in E4.
  - destruct (timer_at w4 id); [|done]. intros _. cbn [snd].
    etransitivity; [exact H2|]. etransitivity; [exact H3|]. etransitivity; [exact E4|].
    destruct (_ || _); [apply blind_sched|reflexivity].
  - intros _. cbn [snd]. etransitivity; [exact H2|]. by etransitivity.
Qed.

Lemma tick_loop_respects_blind R `{!CallStable R, !LuaRespects R, !SchedBlind R} now ids :
  respects R (tick_loop now ids).
Proof.
  induction ids as [|id ids IH]; [apply respects_pret; apply _|]. intros w. cbn [tick_loop].
  destruct (timer_at w id) as [t|]; [|apply IH]. destruct (destroyed t); [apply IH|].
  pose proof (Run_respects_blind R id now w) as Hr.
  destruct (Run id now w) as [[[]|e|] w1]; cbn [fst snd] in *; [|done..].
  intros Hub. etransitivity; [by apply Hr|by apply IH].
Qed.

Lemma Tick_respects_blind R `{!CallStable R, !LuaRespects R, !SchedBlind R} : respects R Tick.
Proof.
  intros w. unfold Tick. case_decide; [reflexivity|].
  set (w1 := upd_sched _ (enter w)).
  pose proof (tick_loop_respects_blind R (clock (enter w)) (due_list (get_sched (enter w)) (clock (enter w))) w1) as Hl.
  destruct (tick_loop _ _ w1) as [[[]|e|] w2]; cbn [fst snd] in *; intros Hub; try done;
    apply stable_bracket; (etransitivity; [apply blind_sched|]);
    [etransitivity; [by apply Hl|apply blind_sched]|by apply Hl].
Qed.

Context `{!LuaRespects sched_rel}.

Lemma Run_spec id now w t :
  sched_wf (get_sched w) -> timer_at w id = Some t -> running t = false -> destroyed t = false ->
  is_UB (fst (Run id now w)) = false /\
  evolve (bool_decide (fst (Run id now w) = Ret tt)) now [id] (get_sched w)
    (get_sched (snd (Run id now w))) /\
  (dead (get_invoker (snd (Run id now w))) = false ->
     this_timer (snd (Run id now w)) = this_timer w).
Proof.
  intros Hwf Ht Hr Hd. unfold Run. rewrite Ht. unfold timer_at in Ht.
  set (adv := advance now t).
  assert (forall full o, (o = None \/ exists t', o = Some t' /\ same_timer adv t' /\
      destroyed t' = false /\ (full = true -> remaining t' <> 0)) ->
    forall s1 s2 s3, timers s1 = <[id := set_running adv true]> (timers (get_sched w)) ->
      next_id s1 = next_id (get_sched w) -> evolve true 0 [] s1 s2 ->
      timers s3 = partial_alter (fun _ => o) id (timers s2) -> next_id s3 = next_id s2 ->
      evolve full now [id] (get_sched w) s3) as Hbr.
  { intros. by eapply evolve_bracket. }
  set (s1 := set_timer (get_sched w) id (set_running adv true)).
  assert (sched_wf s1) as Hwf1.
  { split; [| |apply Hwf].
    - intros i ti. simpl. intros [[<- _]|[_ Hi]]%lookup_insert_Some; by eapply timer_ids.
    - intros i ti. simpl. intros [[_ <-]|[_ Hi]]%lookup_insert_Some; [|by eapply swf_timer].
      destruct (advance_wf now t (swf_timer _ Hwf _ _ Ht)). by split. }
  set (w1 := upd_sched (fun s => set_timer s id adv) w).
  assert (timers (get_sched w1) = <[id := adv]> (timers (get_sched w)) /\
    next_id (get_sched w1) = next_id (get_sched w)) as [Hts1 Hnx1]
    by (unfold w1; by rewrite get_sched_upd).
  destruct (checkstack 4 w1); simpl.
  2: { split_and!; [done| |by unfold w1; rewrite this_upd].
    apply (Hbr false (Some adv)) with (s1 := s1) (s2 := s1); try done.
    - right. by exists adv.
    - by apply evolve_refl.
    - rewrite Hts1. symmetry. apply alter_insert. }
  set (w2 := upd_sched _ (set_this_timer _ w1)).
  assert (get_sched w2 = s1) as Hs1.
  { unfold w2. rewrite get_sched_upd, get_sched_this. unfold s1, set_timer, w1.
    rewrite get_sched_upd. simpl. by rewrite insert_insert_eq. }
  assert (timer_at w2 id = Some (set_running adv true)) as Ht2.
  { unfold timer_at. rewrite Hs1. simpl. apply lookup_insert_eq. }
  destruct (Call_push_args (callback t) "Timer callback" id w2 _ Ht2) as [HUB HThrow].
  pose proof (Call_respects sched_rel (callback t) "Timer callback" (push_args id)
    (push_args_respects id _) w2 HUB) as Hstep.
  destruct (Call _ _ _ w2) as [r w3]; simpl in *. unfold sched_rel in Hstep.
  rewrite Hs1 in Hstep, HThrow. specialize (Hstep Hwf1).
  destruct (ev_running _ _ _ _ _ Hstep id (set_running adv true)) as (t3 & Ht3 & Hm);
    [simpl; apply lookup_insert_eq|done|apply not_elem_of_nil|].
  set (w4 := if dead (get_invoker (upd_sched (fun s => set_timer s id (set_running t3 false)) w3))
    then upd_sched (fun s => set_timer s id (set_running t3 false)) w3
    else set_this_timer (this_timer w1) (upd_sched (fun s => set_timer s id (set_running t3 false)) w3)).
  assert (leave_running id (this_timer w1) w3 = Some w4) as Hlv.
  { unfold leave_running, timer_at. by rewrite Ht3. }
  assert (get_sched w4 = set_timer (get_sched w3) id (set_running t3 false)) as Hs4.
  { unfold w4. destruct (dead _); rewrite ?get_sched_this; apply get_sched_upd. }
  assert (dead (get_invoker w4) = false -> this_timer w4 = this_timer w) as Hthis.
  { unfold w4. destruct (dead _) eqn:Hdd; [congruence|]. intros _.
    rewrite this_set_this. unfold w1. apply this_upd. }
  assert (timer_at w4 id = Some (set_running t3 false)) as Ht4.
  { unfold timer_at. rewrite Hs4. simpl. apply lookup_insert_eq. }
  destruct (marked_fields _ _ Hm) as (Hc&Ha&Hi&Hrem&Hdue&Hrun&_). simpl in *.
  assert (destroyed t3 = false -> same_timer adv (set_running t3 false)) as Hsame.
  { intros Hd3. unfold same_timer, set_t_handle, set_running; simpl.
    rewrite Hc, Ha, Hi, Hrem, Hdue, Hd3. unfold adv, advance; simpl. by rewrite Hr, Hd. }
  destruct r as [b|e|]; [|..|done]; rewrite Hlv.
  - rewrite Ht4. simpl. split; [done|].
    destruct (destroyed t3 || (remaining t3 =? 0)) eqn:Herase.
    + rewrite get_sched_upd, invoker_upd_sched, this_upd, Hs4. split; [|done].
      apply (Hbr true None) with (s1 := s1) (s2 := get_sched w3); try done; [by left|].
      simpl. unfold delete, map_delete. apply map_eq. intros i.
      destruct (decide (i = id)) as [->|Hne]; [by rewrite !lookup_partial_alter_eq|].
      by rewrite !lookup_partial_alter_ne, lookup_insert_ne.
    + rewrite Hs4. split; [|done]. apply orb_false_iff in Herase as [Hd3 Hz%Z.eqb_neq].
      apply (Hbr true (Some (set_running t3 false))) with (s1 := s1) (s2 := get_sched w3); try done.
      right. exists (set_running t3 false). split_and!; auto.
  - simpl. specialize (HThrow e eq_refl). rewrite HThrow in Ht3. simpl in Ht3.
    rewrite lookup_insert_eq in Ht3. assert (t3 = set_running adv true) as E by congruence.
    split_and!; [done| |done]. rewrite Hs4, HThrow.
    apply (Hbr false (Some adv)) with (s1 := s1) (s2 := s1); try done.
    + right. by exists adv.
    + by apply evolve_refl.
    + simpl. rewrite alter_insert, insert_insert_eq. f_equal.
      rewrite E. unfold adv, advance, set_running; simpl. by rewrite Hr.
Qed.

(** After a panic [Run] still writes [thisTimer] into the globals of the dead
    state: only the destructor of [RunningScope] looks at [dead()]. *)
Lemma Run_writes_to_a_dead_state id now w t :
  timer_at w id = Some t -> dead (get_invoker w) = true ->
  (forall w', checkstack 4 w' = true) ->
  this_timer (snd (Run id now w)) = default LNil (t_handle t).
Proof using Type.
  intros Ht Hdead Hroom. unfold Run. rewrite Ht, Hroom. simpl.
  set (w2 := upd_sched _ (set_this_timer _ _)).
  assert (dead (get_invoker w2) = true) as Hd2
    by (unfold w2; by rewrite invoker_upd_sched, get_invoker_this, invoker_upd_sched).
  rewrite Call_dead by done. unfold leave_running, timer_at.
  assert (timers (get_sched w2) !! id = Some (set_running (advance now t) true)) as ->.
  { unfold w2. rewrite get_sched_upd. simpl. apply lookup_insert_eq. }
  rewrite invoker_upd_sched, Hd2, get_sched_upd. simpl. rewrite lookup_insert_eq.
  assert (this_timer w2 = default LNil (t_handle t)) as E
    by (unfold w2; by rewrite this_upd, this_set_this).
  destruct (_ || _); simpl; by rewrite !this_upd.
Qed.

(** ** The whole tick *)

(** No callback is running: the state between two ticks. *)
Definition idle (s : Scheduler) : Prop :=
  forall id t, timers s !! id = Some t -> running t = false.

Lemma evolve_idle full now ran s s' :
  sched_wf s -> idle s -> evolve full now ran s s' -> idle s'.
Proof.
  intros Hwf Hs Hev id t' Ht'. destruct (decide (next_id s <= id)).
  { by eapply (ev_new _ _ _ _ _ Hev). }
  destruct (timers s !! id) as [t|] eqn:Ht.
  2: { apply (ev_gone _ _ _ _ _ Hev) in Ht; [congruence|lia]. }
  destruct (ev_idle _ _ _ _ _ Hev id t Ht (Hs _ _ Ht)) as [?|(t2 & Ht2 & Hs2 & _)]; [congruence|].
  simplify_eq. apply same_fields in Hs2 as (_&_&_&_&_&->&_). specialize (Hs _ _ Ht). by case_decide.
Qed.

(** A timer that is skipped because it is gone counts as run. *)
Lemma evolve_gone full now id s :
  sched_wf s -> timers s !! id = None -> evolve full now [id] s s.
Proof.
  intros Hwf Hn. split; try done.
  - intros i t Ht Hr. right. exists t.
    assert (i ∉ [id]) by (rewrite list_elem_of_singleton; congruence).
    rewrite decide_False by done. by split_and!.
  - intros i t Ht _ _. exists t. split; [done|reflexivity].
  - intros i t Hi Ht. by rewrite timer_fresh in Ht.
Qed.

Lemma tick_loop_spec now ids w :
  sched_wf (get_sched w) -> idle (get_sched w) -> NoDup ids ->
  (forall id, id ∈ ids -> id < next_id (get_sched w)) ->
  is_UB (fst (tick_loop now ids w)) = false /\
  (fst (tick_loop now ids w) = Ret tt ->
     evolve true now ids (get_sched w) (get_sched (snd (tick_loop now ids w)))) /\
  exists ran, ran `prefix_of` ids /\
    evolve false now ran (get_sched w) (get_sched (snd (tick_loop now ids w))).
Proof.
  revert w. induction ids as [|id ids IH]; intros w Hwf Hidle Hnd Hold; simpl.
  { split_and!; [done|intros _; by apply evolve_refl|]. exists []. by split; [|apply evolve_refl]. }
  apply NoDup_cons in Hnd as [Hnin Hnd].
  assert (forall w1, (forall full, full = false \/ fst (Run id now w) = Ret tt \/ timer_at w id = None ->
      evolve full now [id] (get_sched w) (get_sched w1)) ->
      fst (Run id now w) = Ret tt \/ timer_at w id = None ->
    is_UB (fst (tick_loop now ids w1)) = false /\
    (fst (tick_loop now ids w1) = Ret tt ->
      evolve true now (id :: ids) (get_sched w) (get_sched (snd (tick_loop now ids w1)))) /\
    exists ran, ran `prefix_of` id :: ids /\
      evolve false now ran (get_sched w) (get_sched (snd (tick_loop now ids w1)))) as Hrest.
  { intros w1 Hev Hor. pose proof (Hev true (or_intror Hor)) as H1.
    pose proof (ev_next _ _ _ _ _ H1) as Hn1.
    destruct (IH w1) as (Hub & Hret & ran & Hpre & Hran); [by eapply ev_wf|by eapply evolve_idle|done| |].
    { intros i Hi. specialize (Hold i). rewrite elem_of_cons in Hold.
      specialize (Hold (or_intror Hi)). lia. }
    split_and!; [done| |].
    - intros Hr. apply (evolve_trans _ _ [id] ids _ (get_sched w1)); auto.
      + by intros i ->%list_elem_of_singleton.
      + intros i Hi. apply Hold. by constructor.
    - exists (id :: ran). split; [by apply prefix_cons|].
      apply (evolve_trans _ _ [id] ran _ (get_sched w1)); auto.
      + intros i ->%list_elem_of_singleton Hi. apply Hnin. by eapply elem_of_prefix.
      + intros i Hi. apply Hold. constructor. by eapply elem_of_prefix. }
  destruct (timer_at w id) as [t|] eqn:Ht.
  2: { apply Hrest; [|by right]. intros full _. by apply evolve_gone. }
  assert (running t = false) as Hr by (by eapply Hidle).
  assert (destroyed t = false) as Hd.
  { destruct (destroyed t) eqn:E; [|done].
    apply (twf_destroyed _ (swf_timer _ Hwf _ _ Ht)) in E. congruence. }
  rewrite Hd.
  destruct (Run_spec id now w t Hwf Ht Hr Hd) as (Hub & Hev & _).
  destruct (Run id now w) as [[[]|e|] w1]; simpl in *; [|split_and!; [done..|]|done].
  - apply Hrest; [|by left]. intros [] _; [done|]. destruct Hev as [? ? ? Hi ? ?]. split; try done.
    intros i ti Hti Hri. destruct (Hi i ti Hti Hri) as [?|(t' & ? & ? & _)]; [by left|right].
    exists t'. by split_and!.
  - exists [id]. split; [by exists ids|done].
Qed.

Lemma evolve_due_ full now ran s s' l l' :
  evolve full now ran (set_due_ s l) s' -> evolve full now ran s (set_due_ s' l').
Proof. intros [[? ? ?] ? ? ? ? ?]. by split; [split|..]. Qed.

Lemma sched_wf_due_ s l : sched_wf s -> sched_wf (set_due_ s l).
Proof. intros [? ? ?]. by split. Qed.

Lemma Tick_evolve w :
  sched_wf (get_sched w) -> idle (get_sched w) ->
  let now := clock (enter w) in let s := get_sched w in
  is_UB (fst (Tick w)) = false /\
  (fst (Tick w) = Ret tt -> evolve true now (due_list s now) s (get_sched (snd (Tick w)))) /\
  exists ran, ran `prefix_of` due_list s now /\ evolve false now ran s (get_sched (snd (Tick w))).
Proof.
  intros Hwf Hidle now s. unfold Tick. case_decide as Hemp.
  - assert (due_list s now = []) as ->.
    { unfold due_list, s. by rewrite Hemp, map_to_list_empty. }
    simpl. split_and!; [done|intros _; by apply evolve_refl|].
    exists []. split; [done|by apply evolve_refl].
  - rewrite get_sched_enter. fold now s.
    set (w1 := upd_sched (fun s => set_due_ s []) (enter w)).
    assert (get_sched w1 = set_due_ s []) as Hs1.
    { unfold w1. by rewrite get_sched_upd, get_sched_enter. }
    destruct (tick_loop_spec now (due_list s now) w1) as (Hub & Hret & ran & Hpre & Hran);
      rewrite ?Hs1; [by apply sched_wf_due_|done|apply due_list_NoDup| |].
    { intros id (t & Ht & _)%elem_due_list. exact (proj2 (timer_ids _ _ _ Hwf Ht)). }
    rewrite Hs1 in *. revert Hub Hret Hran.
    destruct (tick_loop now (due_list s now) w1) as [[[]|e|] w2]; simpl; intros Hub Hret Hran; [|..|done].
    + rewrite get_sched_leave, get_sched_upd. split_and!; [done| |].
      * intros _. by eapply evolve_due_, Hret.
      * exists ran. split; [done|]. by eapply evolve_due_.
    + rewrite get_sched_leave. split_and!; [done..|]. exists ran. split; [done|].
      eapply (evolve_due_ _ _ _ _ _ _ (due_ (get_sched w2))) in Hran.
      by destruct (get_sched w2).
Qed.

(** ** Properties *)


(** While its callback runs a timer is [thisTimer]; when [Run] ends,
    normally or by an exception, [thisTimer] is what it was, whatever the
    callback assigned to it, unless a panic made the state unusable. *)
Theorem Run_restores_thisTimer id now w t :
  sched_wf (get_sched w) -> timer_at w id = Some t -> running t = false -> destroyed t = false ->
  dead (get_invoker (snd (Run id now w))) = false ->
  this_timer (snd (Run id now w)) = this_timer w.
Proof. intros Hwf Ht Hr Hd. by apply (Run_spec id now w t). Qed.
End run.

(** A timer keeps its rate: on time, the next due time is one interval
    after the last one, without drift; late, it is one interval from now, so
    missed periods are not made up in a burst. It stays within 64 bits for any
    clock below 2^62, and one repetition is used up. *)
Theorem advance_keeps_the_rate now t :
  timer_wf t -> due t <= now ->
  now <= due (advance now t) <= now + interval t /\
  (now < due t + interval t -> due (advance now t) = due t + interval t) /\
  (due t + interval t <= now -> due (advance now t) = now + interval t) /\
  (0 <= now < 2 ^ 62 -> 0 <= due (advance now t) <= INT64_MAX) /\
  (0 < remaining t -> remaining (advance now t) = remaining t - 1) /\
  (remaining t = kForever -> remaining (advance now t) = kForever).
Proof.
  intros [[Hi Hmax] _ _] Hdue. unfold kMaxInterval, kForever, INT64_MAX in *. simpl.
  destruct (due t + interval t <=? now) eqn:E, (0 <? remaining t) eqn:Er; split_and!; intros; lia.
Qed.

Definition demo_timer : Timer := mkTimer 5 [] None 100 3 1000 false false.

Lemma advance_keeps_the_rate_witness :
  due (advance 1030 demo_timer) = 1100 /\ due (advance 1900 demo_timer) = 2000.
Proof.
  assert (timer_wf demo_timer) as Hwf.
  { split; simpl; unfold kMaxInterval; [lia|right; lia|done]. }
  split.
  - apply (advance_keeps_the_rate 1030 demo_timer Hwf); simpl; lia.
  - apply (advance_keeps_the_rate 1900 demo_timer Hwf); simpl; lia.
Defined.

(** [Timer.create] accepts exactly the intervals 0 to 2^40 ms with the
    repeat count -1 or at least 1, and raises std::out_of_range for any other;
    the new timer has an id never used before, exists, is due one interval from
    now and leaves every other timer as it is. *)
Theorem CreateTimer_spec s now cb i r xs :
  sched_wf s ->
  if decide (0 <= i <= kMaxInterval /\ (r = kForever \/ 0 < r)) then
    exists s', CreateTimer s now cb i r xs = Ret (next_id s, s') /\ sched_wf s' /\
      timers s !! next_id s = None /\ Exists s' (next_id s) = true /\
      timers s' !! next_id s = Some (mkTimer cb xs None i r (now + i) false false) /\
      (forall id, id <> next_id s -> timers s' !! id = timers s !! id)
  else exists what, CreateTimer s now cb i r xs = Throw (OutOfRange what).
Proof.
  intros Hwf. destruct (decide _) as [[Hi Hr]|Hn].
  - assert (exists s', CreateTimer s now cb i r xs = Ret (next_id s, s') /\
      timers s' = <[next_id s := mkTimer cb xs None i r (now + i) false false]> (timers s))
      as (s' & Heq & Hts).
    { unfold CreateTimer, kForever in *.
      destruct (_ || _) eqn:E1; [lia|]. destruct (_ && _) eqn:E2; [lia|]. by eexists. }
    exists s'. split_and!; [done| |by apply timer_fresh| | |].
    + by apply (ev_wf _ _ _ _ _ (CreateTimer_step _ _ _ _ _ _ _ _ Heq Hwf)).
    + unfold Exists. by rewrite Hts, lookup_insert_eq.
    + by rewrite Hts, lookup_insert_eq.
    + intros id Hne. by rewrite Hts, lookup_insert_ne.
  - unfold CreateTimer, kForever in *. destruct (_ || _) eqn:E1; [by eexists|].
    destruct (_ && _) eqn:E2; [by eexists|]. exfalso. apply Hn. lia.
Qed.

Lemma new_scheduler_wf : sched_wf new_scheduler.
Proof. by split. Qed.

Lemma CreateTimer_spec_witness :
  exists s', CreateTimer new_scheduler 50 7 0 (-1) [] = Ret (1, s') /\ Exists s' 1 = true.
Proof.
  pose proof (CreateTimer_spec new_scheduler 50 7 0 (-1) [] new_scheduler_wf) as H.
  rewrite decide_True in H by (unfold kMaxInterval, kForever; lia).
  destruct H as (s' & Heq & _ & _ & Hex & _). exists s'. by split.
Defined.

(** Destroying a timer is final: it answers whether the timer existed,
    afterwards it does not exist, destroying it again answers false, and no
    later Lua code brings it back; a destroyed timer is never due. *)
Theorem Destroy_is_final s id s2 now :
  sched_wf s -> id < next_id s -> sched_step (snd (Destroy s id)) s2 ->
  fst (Destroy s id) = Exists s id /\ Exists (snd (Destroy s id)) id = false /\
  Destroy (snd (Destroy s id)) id = (false, snd (Destroy s id)) /\
  Exists s2 id = false /\ id ∉ due_list s2 now.
Proof.
  intros Hwf Hid Hstep.
  assert (fst (Destroy s id) = Exists s id /\ Exists (snd (Destroy s id)) id = false) as [Hr Hn].
  { unfold Destroy, Exists. destruct (timers s !! id) as [t|] eqn:Ht; [|by simpl; rewrite Ht].
    destruct (destroyed t) eqn:Hd; simpl; [by rewrite Ht, Hd|].
    destruct (running t); simpl; [by rewrite lookup_insert_eq|by rewrite lookup_delete_eq]. }
  assert (forall s', Exists s' id = false -> Destroy s' id = (false, s')) as Hagain.
  { intros s'. unfold Exists, Destroy. destruct (timers s' !! id) as [t|]; [|done].
    by destruct (destroyed t). }
  assert (Exists s2 id = false) as Hn2.
  { pose proof (ev_wf _ _ _ _ _ (Destroy_step s id Hwf)) as Hwf1. specialize (Hstep Hwf1).
    pose proof (ev_next _ _ _ _ _ (Destroy_step s id Hwf)) as Hnx.
    unfold Exists in *. destruct (timers (snd (Destroy s id)) !! id) as [t|] eqn:Ht.
    - apply negb_false_iff in Hn. pose proof (twf_destroyed _ (swf_timer _ Hwf1 _ _ Ht) Hn) as Hrun.
      destruct (ev_running _ _ _ _ _ Hstep id t Ht Hrun) as (t2 & -> & Hm); [apply not_elem_of_nil|].
      apply marked_fields in Hm as (_&_&_&_&_&_&Hd). by rewrite Hd.
    - by rewrite (ev_gone _ _ _ _ _ Hstep id) by (lia || done). }
  split_and!; auto.
  intros (t & Ht & Hd & _)%elem_due_list. unfold Exists in Hn2. rewrite Ht in Hn2.
  by apply negb_false_iff in Hn2; congruence.
Qed.

Definition demo_sched : Scheduler := mkSched {[ 1 := demo_timer ]} 2 [].

Lemma demo_sched_wf : sched_wf demo_sched.
Proof.
  split; simpl; [| |lia].
  - intros id t [<- _]%lookup_singleton_Some. lia.
  - intros id t [_ <-]%lookup_singleton_Some.
    split; simpl; unfold kMaxInterval; [lia|right; lia|done].
Qed.

Lemma Destroy_is_final_witness :
  fst (Destroy demo_sched 1) = true /\ Exists (snd (Destroy demo_sched 1)) 1 = false.
Proof.
  destruct (Destroy_is_final demo_sched 1 (snd (Destroy demo_sched 1)) 5000) as (Hr & _ & _ & Hn & _).
  - apply demo_sched_wf.
  - simpl. lia.
  - reflexivity.
  - split; [exact Hr|exact Hn].
Defined.
