(* ===== verification/Stream.v ===== *)
(** Client script data (src/bindings/stream.hpp, stream.cpp): the [Stream]
    userdata, its bounds-checked reads and writes, the byte layout, and
    [send]. *)
From stdpp Require Import base tactics list strings pretty.
From Stdlib Require Import ZArith Lia Floats.SpecFloat.
From S2P Require Import Prelude.
From S2P Require Import ApiGuard.
From S2P Require Import EntityPool.
From S2P Require Import LuaValue.
From S2P Require Import Args.
From S2P Require Import EntityPools.
Open Scope Z_scope.

Definition kMaxSize : Z := 4096.

(** [Stream]: the bytes, and the index of the next one to read. *)
Record Stream := mkStream { bytes : list Z; rd : Z }.

Definition new_stream : Stream := mkStream [] 0.

Definition size (s : Stream) : Z := Z.of_nat (length (bytes s)).
(** [stream.bytes.size() - stream.read], on [size_t]. *)
Definition bytes_left (s : Stream) : Z := wrap 64 (size s - rd s).

(** [stream.bytes[i]] and [data()[i]]. *)
Definition byte_at (s : Stream) (i : Z) : outcome Z :=
  if decide (0 <= i) then
    match bytes s !! Z.to_nat i with Some b => Ret b | None => UB end
  else UB.

Definition advance_read (s : Stream) (n : Z) : Stream := mkStream (bytes s) (rd s + n).
Definition push_bytes (s : Stream) (bs : list Z) : Stream := mkStream (bytes s ++ bs) (rd s).

(** ** Operations *)

Definition Need (s : Stream) (n : Z) (what : string) : outcome unit :=
  throw_if (bytes_left s <? n)
    (OutOfRange ("Stream: not enough data to read " +:+ what +:+ " (" +:+ pretty (bytes_left s) +:+
                 " of " +:+ pretty n +:+ " bytes left)")).

Definition Room (s : Stream) (n : Z) (what : string) : outcome unit :=
  throw_if ((kMaxSize <? size s) || (wrap 64 (kMaxSize - size s) <? n))
    (LengthError ("Stream: no room to write " +:+ what +:+ " (" +:+ pretty (size s) +:+ " of " +:+
                  pretty kMaxSize +:+ " bytes used)")).

Definition ReadU32 (s : Stream) (what : string) : outcome (Z * Stream) :=
  _ ← Need s 4 what;
  p0 ← byte_at s (rd s); p1 ← byte_at s (rd s + 1);
  p2 ← byte_at s (rd s + 2); p3 ← byte_at s (rd s + 3);
  Ret (Z.lor (Z.lor (Z.lor p0 (wrap 32 (Z.shiftl p1 8))) (wrap 32 (Z.shiftl p2 16)))
             (wrap 32 (Z.shiftl p3 24)),
       advance_read s 4).

Definition WriteU32 (s : Stream) (value : Z) (what : string) : outcome Stream :=
  _ ← Room s 4 what;
  Ret (push_bytes s ((fun shift => wrap 8 (Z.shiftr value shift)) <$> [0; 8; 16; 24])).

Definition readByte (s : Stream) : outcome (Z * Stream) :=
  _ ← Need s 1 "a byte"; b ← byte_at s (rd s); Ret (b, advance_read s 1).

Definition readNumber (s : Stream) : outcome (Z * Stream) :=
  '(v, s) ← ReadU32 s "a number"; Ret (swrap 32 v, s).

(** [std::memcpy] between [float] and [std::uint32_t] (IEEE 754 binary32).
    All NaNs are one value here, with the bits of the default quiet NaN. *)
Definition float_bits (f : spec_float) : Z :=
  let sign (s : bool) := if s then 2 ^ 31 else 0 in
  match f with
  | S754_zero s => sign s
  | S754_infinity s => sign s + 255 * 2 ^ 23
  | S754_nan => 255 * 2 ^ 23 + 2 ^ 22
  | S754_finite s m e =>
      if Z.pos m <? 2 ^ 23 then sign s + Z.pos m
      else sign s + (e + 150) * 2 ^ 23 + (Z.pos m - 2 ^ 23)
  end.

Definition bits_float (b : Z) : spec_float :=
  let s := Z.testbit b 31 in
  let exponent := Z.shiftr b 23 mod 256 in
  let fraction := b mod 2 ^ 23 in
  if exponent =? 255 then (if fraction =? 0 then S754_infinity s else S754_nan)
  else if exponent =? 0 then
    match fraction with Z.pos m => S754_finite s m (-149) | _ => S754_zero s end
  else match fraction + 2 ^ 23 with Z.pos m => S754_finite s m (exponent - 150) | _ => S754_nan end.

Definition readFloat (s : Stream) : outcome (spec_float * Stream) :=
  '(v, s) ← ReadU32 s "a float"; Ret (bits_float v, s).

Definition readString (s : Stream) : outcome (string * Stream) :=
  _ ← Need s 2 "a string length";
  hi ← byte_at s (rd s); lo ← byte_at s (rd s + 1);
  let len := Z.lor (Z.shiftl hi 8) lo in
  _ ← throw_if (wrap 64 (size s - rd s - 2) <? len)
        (OutOfRange ("Stream: not enough data to read a string of " +:+ pretty len +:+ " bytes"));
  let start := rd s + 2 in
  if decide (0 <= start /\ start + len <= size s) then
    Ret (string_of_list (ascii_of_byte <$> take (Z.to_nat len) (drop (Z.to_nat start) (bytes s))),
         advance_read s (2 + len))
  else UB.

(** [writeByte(b)]: the argument is read with [CheckInteger]. *)
Definition write_byte (s : Stream) (value : Z) : outcome Stream :=
  _ ← Room s 1 "a byte"; Ret (push_bytes s [wrap 8 value]).
Definition writeByte (L : lua_State) (s : Stream) : outcome Stream :=
  value ← CheckInteger L 2 (-128) 255; write_byte s value.

Definition write_number (s : Stream) (value : Z) : outcome Stream :=
  WriteU32 s (wrap 32 value) "a number".
Definition writeNumber (L : lua_State) (s : Stream) : outcome Stream :=
  value ← CheckInteger L 2 INT32_MIN UINT32_MAX; write_number s value.

Definition writeFloat (s : Stream) (value : spec_float) : outcome Stream :=
  WriteU32 s (float_bits value) "a float".

Definition writeString (s : Stream) (value : string) : outcome Stream :=
  let n := Z.of_nat (String.length value) in
  _ ← throw_if (65535 <? n) (LengthError "Stream: a string is at most 65535 bytes");
  _ ← Room s (2 + n) "a string";
  Ret (push_bytes s (wrap 8 (Z.shiftr n 8) :: wrap 8 (Z.land n 255) ::
                     (byte_of_ascii <$> string_to_list value))).

Definition Stream_clear (s : Stream) : Stream := mkStream [] 0.
Definition Stream_tostring (s : Stream) : string := "Stream(" +:+ pretty (size s) +:+ " bytes)".

(** [send(player)] and [send()]: [send_fn] is [SendClientScriptData]. It runs
    in the state [W], since the server may call back. *)
Section send.
Context {W : Type} `{HasPools W} (send_fn : Z -> list Z -> Z -> W -> Z * W).

Definition Stream_send (fn : string) (s : Stream) (player : option Z) (w : W) : outcome bool * W :=
  match player with
  | Some id => let '(error, w) := send_fn id (bytes s) (size s) w in (Check_error fn error, w)
  | None =>
      (Ret true, fold_left (fun w id => snd (send_fn id (bytes s) (size s) w))
                   (AliveIds (pool_of Player w)) w)
  end.
End send.

(** ** The layout as a specification *)

Inductive item :=
  | IByte (b : Z) | INumber (z : Z) | IFloat (f : spec_float) | IString (s : string).

(** What a script may pass: a 32-bit signed number, a byte, a canonical
    binary32 value, a string of at most 65535 bytes. *)
Definition item_ok (it : item) : Prop :=
  match it with
  | IByte b => is_byte b
  | INumber z => INT32_MIN <= z <= INT32_MAX
  | IFloat f => valid_binary f32_prec f32_emax f = true
  | IString s => Z.of_nat (String.length s) <= 65535
  end.

(** Little-endian bytes of a 32-bit value. *)
Definition le32 (v : Z) : list Z :=
  [v mod 256; v / 2 ^ 8 mod 256; v / 2 ^ 16 mod 256; v / 2 ^ 24 mod 256].

Definition layout (it : item) : list Z :=
  match it with
  | IByte b => [b]
  | INumber z => le32 (z mod 2 ^ 32)
  | IFloat f => le32 (float_bits f)
  | IString s =>
      let n := Z.of_nat (String.length s) in
      n / 256 :: n mod 256 :: (byte_of_ascii <$> string_to_list s)
  end.

Definition write_item (s : Stream) (it : item) : outcome Stream :=
  match it with
  | IByte b => write_byte s b
  | INumber z => write_number s z
  | IFloat f => writeFloat s f
  | IString t => writeString s t
  end.

(** Reads an item of the same type. *)
Definition read_like (it : item) (s : Stream) : outcome (item * Stream) :=
  match it with
  | IByte _ => '(v, s) ← readByte s; Ret (IByte v, s)
  | INumber _ => '(v, s) ← readNumber s; Ret (INumber v, s)
  | IFloat _ => '(v, s) ← readFloat s; Ret (IFloat v, s)
  | IString _ => '(v, s) ← readString s; Ret (IString v, s)
  end.

Fixpoint write_items (s : Stream) (its : list item) : outcome Stream :=
  match its with [] => Ret s | it :: its => s ← write_item s it; write_items s its end.

Fixpoint read_items (s : Stream) (types : list item) : outcome (list item * Stream) :=
  match types with
  | [] => Ret ([], s)
  | ty :: types =>
      '(v, s) ← read_like ty s; '(vs, s) ← read_items s types; Ret (v :: vs, s)
  end.

(** ** Invariant *)

Record stream_wf (s : Stream) : Prop := mkStreamWf
  { stwf_read : 0 <= rd s <= size s;
    stwf_size : size s < 2 ^ 63;
    stwf_bytes b : b ∈ bytes s -> is_byte b }.

(** ** Lemmas *)

Lemma size_push s bs : size (push_bytes s bs) = size s + Z.of_nat (length bs).
Proof. unfold size. simpl. rewrite length_app. lia. Qed.

Lemma bytes_left_wf s : stream_wf s -> bytes_left s = size s - rd s.
Proof. intros [Hr Hs _]. unfold bytes_left. apply wrap_small. lia. Qed.

Lemma byte_at_wf s i :
  0 <= i < size s -> exists b, byte_at s i = Ret b /\ b ∈ bytes s /\ bytes s !! Z.to_nat i = Some b.
Proof.
  intros Hi. unfold byte_at, size in *. rewrite decide_True by lia.
  destruct (lookup_lt_is_Some_2 (bytes s) (Z.to_nat i)) as [b Hb]; [lia|].
  exists b. rewrite Hb. split_and!; [done|by eapply list_elem_of_lookup_2|done].
Qed.

Lemma Room_spec s n what :
  0 <= n -> Room s n what = Ret tt <-> size s + n <= kMaxSize.
Proof.
  intros Hn. unfold Room, throw_if, size, kMaxSize.
  destruct (4096 <? Z.of_nat (length (bytes s))) eqn:E; simpl; [split; [done|lia]|].
  rewrite wrap_small by lia. destruct (_ <? n) eqn:E2; split; try done; lia.
Qed.

Lemma Room_cases s n what :
  0 <= n ->
  if decide (size s + n <= kMaxSize) then Room s n what = Ret tt
  else exists e, Room s n what = Throw (LengthError e).
Proof.
  intros Hn. case_decide as Hd; [by apply Room_spec|].
  destruct (Room s n what) as [[]|e|] eqn:E.
  - by apply Room_spec in E.
  - unfold Room, throw_if in E. destruct (_ || _); [|done]. exists (match e with LengthError t => t | _ => "" end).
    by simplify_eq.
  - unfold Room, throw_if in E. by destruct (_ || _).
Qed.

Lemma Need_cases s n what :
  stream_wf s ->
  if decide (rd s + n <= size s) then Need s n what = Ret tt
  else exists e, Need s n what = Throw (OutOfRange e).
Proof.
  intros Hwf. unfold Need, throw_if. rewrite bytes_left_wf by done.
  case_decide; destruct (_ <? n) eqn:E; try done; try lia. by eexists.
Qed.

Lemma le32_range v : 0 <= v < 2 ^ 32 -> Forall is_byte (le32 v).
Proof.
  intros Hv. unfold le32, is_byte.
  repeat (constructor; [apply Z.mod_pos_bound; lia|]). constructor.
Qed.

(** Writing: the shifts and masks of the code give the little-endian bytes. *)
Lemma write_bytes_le32 v :
  0 <= v < 2 ^ 32 -> (fun shift => wrap 8 (Z.shiftr v shift)) <$> [0; 8; 16; 24] = le32 v.
Proof. intros Hv. simpl. unfold wrap. rewrite !Z.shiftr_div_pow2, Z.div_1_r by lia. done. Qed.

(** Reading: the shifts and ors give the number back. *)
Lemma lor_add a b n :
  0 <= n -> 0 <= a < 2 ^ n -> 0 <= b -> Z.lor a (b * 2 ^ n) = a + b * 2 ^ n.
Proof.
  intros Hn Ha Hb.
  assert (Z.land a (b * 2 ^ n) = 0) as Hz.
  { apply Z.bits_inj'. intros i Hi. rewrite Z.land_spec, Z.bits_0.
    destruct (decide (i < n)).
    - rewrite Z.mul_pow2_bits_low by done. apply andb_false_r.
    - rewrite <- (Z.mod_small a (2 ^ n)) by lia.
      rewrite Z.mod_pow2_bits_high by lia. done. }
  rewrite <- (Z.lxor_lor _ _ Hz). symmetry. by apply Z.add_nocarry_lxor.
Qed.

Lemma read_le32 v :
  0 <= v < 2 ^ 32 ->
  Z.lor (Z.lor (Z.lor (v mod 256) (wrap 32 (Z.shiftl (v / 2 ^ 8 mod 256) 8)))
    (wrap 32 (Z.shiftl (v / 2 ^ 16 mod 256) 16))) (wrap 32 (Z.shiftl (v / 2 ^ 24 mod 256) 24)) = v.
Proof.
  intros Hv.
  pose proof (Z.mod_pos_bound v 256 ltac:(lia)).
  pose proof (Z.mod_pos_bound (v / 2 ^ 8) 256 ltac:(lia)).
  pose proof (Z.mod_pos_bound (v / 2 ^ 16) 256 ltac:(lia)).
  pose proof (Z.mod_pos_bound (v / 2 ^ 24) 256 ltac:(lia)).
  rewrite !Z.shiftl_mul_pow2, !wrap_small by lia.
  rewrite (lor_add _ _ 8), (lor_add _ _ 16), (lor_add _ _ 24) by lia.
  rewrite (Z.mod_small (v / 2 ^ 24)) by (split; [apply Z.div_pos|apply Z.div_lt_upper_bound]; lia).
  replace (v / 2 ^ 24) with (v / 2 ^ 16 / 256) by (rewrite Z.div_div by lia; f_equal; lia).
  replace (v / 2 ^ 16) with (v / 2 ^ 8 / 256) by (rewrite Z.div_div by lia; f_equal; lia).
  replace (v / 2 ^ 8) with (v / 256) by done.
  pose proof (Z.div_mod v 256). pose proof (Z.div_mod (v / 256) 256).
  pose proof (Z.div_mod (v / 256 / 256) 256). lia.
Qed.

(** The next unread bytes are [bs]. *)
Definition next_bytes (s : Stream) (bs : list Z) : Prop :=
  stream_wf s /\ bs `prefix_of` drop (Z.to_nat (rd s)) (bytes s).

Lemma next_bytes_size s bs : next_bytes s bs -> rd s + Z.of_nat (length bs) <= size s.
Proof.
  intros [Hwf [post Hpost]]. pose proof (stwf_read _ Hwf).
  apply (f_equal length) in Hpost. rewrite length_drop, length_app in Hpost.
  unfold size in *. lia.
Qed.

Lemma next_byte_at s bs k b :
  next_bytes s bs -> bs !! k = Some b -> byte_at s (rd s + Z.of_nat k) = Ret b.
Proof.
  intros [Hwf [post Hpost]] Hk. pose proof (stwf_read _ Hwf). unfold byte_at.
  rewrite decide_True by lia. replace (Z.to_nat (rd s + Z.of_nat k)) with (Z.to_nat (rd s) + k)%nat by lia.
  rewrite <- lookup_drop, Hpost, lookup_app_l; [by rewrite Hk|by eapply lookup_lt_Some].
Qed.

Lemma next_Need s bs what : next_bytes s bs -> Need s (Z.of_nat (length bs)) what = Ret tt.
Proof.
  intros Hn. pose proof (next_bytes_size _ _ Hn). pose proof (Need_cases s (Z.of_nat (length bs)) what (proj1 Hn)) as H'.
  by rewrite decide_True in H' by done.
Qed.

Lemma next_bytes_prefix s bs bs' : next_bytes s (bs ++ bs') -> next_bytes s bs.
Proof. intros [Hwf [post Hp]]. split; [done|]. exists (bs' ++ post). by rewrite Hp, <- app_assoc. Qed.

Lemma next_bytes_advance s bs bs' n :
  next_bytes s (bs ++ bs') -> n = Z.of_nat (length bs) -> next_bytes (advance_read s n) bs'.
Proof.
  intros Hn ->. pose proof (next_bytes_size _ _ Hn) as Hs. rewrite length_app in Hs.
  destruct Hn as [[Hr Hsz Hb] [post Hp]]. split; [split|]; simpl.
  - change (size (advance_read s (Z.of_nat (length bs)))) with (size s). lia.
  - done.
  - done.
  - exists post. replace (Z.to_nat (rd s + Z.of_nat (length bs))) with (Z.to_nat (rd s) + length bs)%nat by lia.
    by rewrite <- drop_drop, Hp, <- app_assoc, drop_app_length.
Qed.

Lemma ReadU32_next s v what :
  0 <= v < 2 ^ 32 -> next_bytes s (le32 v) -> ReadU32 s what = Ret (v, advance_read s 4).
Proof.
  intros Hv Hn. unfold ReadU32.
  rewrite (next_Need s (le32 v) what Hn : Need s 4 what = Ret tt). simpl.
  pose proof (next_byte_at s (le32 v) 0 _ Hn eq_refl) as H0. rewrite Z.add_0_r in H0. rewrite H0.
  rewrite (next_byte_at s (le32 v) 1 _ Hn eq_refl : byte_at s (rd s + 1) = _).
  rewrite (next_byte_at s (le32 v) 2 _ Hn eq_refl : byte_at s (rd s + 2) = _).
  rewrite (next_byte_at s (le32 v) 3 _ Hn eq_refl : byte_at s (rd s + 3) = _).
  simpl. by rewrite read_le32.
Qed.

(** *** Floats *)

Lemma digits2_pos_bounds m :
  2 ^ (Z.pos (digits2_pos m) - 1) <= Z.pos m < 2 ^ Z.pos (digits2_pos m).
Proof.
  induction m as [p IH|p IH|]; simpl digits2_pos; [..|simpl; lia].
  all: rewrite Pos2Z.inj_succ; replace (Z.succ (Z.pos (digits2_pos p)) - 1)
    with (Z.succ (Z.pos (digits2_pos p) - 1)) by lia.
  all: rewrite !Z.pow_succ_r by lia; lia.
Qed.

(** A canonical binary32: subnormal, or with a 24-bit mantissa. *)
Lemma bounded32 m e :
  bounded f32_prec f32_emax m e = true ->
  (Z.pos m < 2 ^ 23 /\ e = -149) \/ (2 ^ 23 <= Z.pos m < 2 ^ 24 /\ -149 <= e <= 104).
Proof.
  unfold bounded, canonical_mantissa, fexp, emin, f32_prec, f32_emax.
  rewrite andb_true_iff, Z.eqb_eq, Z.leb_le. intros [Hc He].
  pose proof (digits2_pos_bounds m) as Hd. revert Hd Hc. generalize (Z.pos (digits2_pos m)).
  intros d Hd Hc. destruct (decide (d < 24)) as [Hlt|Hge].
  - left. split; [|lia]. apply (Z.lt_le_trans _ (2 ^ d)); [lia|]. apply Z.pow_le_mono_r; lia.
  - right. assert (d = 24) as -> by lia. simpl in Hd. lia.
Qed.

Lemma float_bits_fields (s : bool) E F :
  0 <= E < 256 -> 0 <= F < 2 ^ 23 ->
  let b := (if s then 2 ^ 31 else 0) + E * 2 ^ 23 + F in
  0 <= b < 2 ^ 32 /\ Z.testbit b 31 = s /\ Z.shiftr b 23 mod 256 = E /\ b mod 2 ^ 23 = F.
Proof.
  intros HE HF b. assert (b = ((if s then 256 else 0) + E) * 2 ^ 23 + F) as Hb
    by (unfold b; destruct s; lia).
  assert (Z.shiftr b 23 = (if s then 256 else 0) + E) as Hsh.
  { rewrite Z.shiftr_div_pow2, Hb, Z.div_add_l, (Z.div_small F) by lia. lia. }
  split; [unfold b; destruct s; lia|]. split; [|split].
  - assert (Z.testbit b 31 = Z.testbit (Z.shiftr b 23) 8) as -> by (by rewrite Z.shiftr_spec).
    rewrite Hsh.
    rewrite Z.testbit_eqb by lia. destruct s.
    + replace ((256 + E) / 2 ^ 8) with 1; [done|].
      apply (Z.div_unique _ _ 1 E); lia.
    + rewrite Z.div_small by lia. done.
  - rewrite Hsh. destruct s.
    + symmetry. apply (Z.mod_unique _ _ 1); lia.
    + apply Z.mod_small. lia.
  - rewrite Hb, Z.add_comm, Z.mod_add, Z.mod_small by lia. done.
Qed.

Lemma bits_float_bits f :
  valid_binary f32_prec f32_emax f = true ->
  0 <= float_bits f < 2 ^ 32 /\ bits_float (float_bits f) = f.
Proof.
  destruct f as [s|s| |s m e]; simpl valid_binary.
  - intros _. by destruct s.
  - intros _. by destruct s.
  - intros _. done.
  - intros Hb%bounded32. unfold float_bits.
    destruct Hb as [[Hm ->]|[Hm He]].
    + rewrite (proj2 (Z.ltb_lt _ _)) by done.
      destruct (float_bits_fields s 0 (Z.pos m)) as (Hr & Hs & HE & HF); [lia..|].
      rewrite Z.mul_0_l, Z.add_0_r in *. split; [done|]. unfold bits_float.
      by rewrite Hs, HE, HF.
    + rewrite (proj2 (Z.ltb_ge _ _)) by lia.
      destruct (float_bits_fields s (e + 150) (Z.pos m - 2 ^ 23)) as (Hr & Hs & HE & HF); [lia..|].
      split; [done|]. unfold bits_float. rewrite Hs, HE, HF.
      rewrite (proj2 (Z.eqb_neq _ 255)), (proj2 (Z.eqb_neq _ 0)) by lia.
      replace (Z.pos m - 2 ^ 23 + 2 ^ 23) with (Z.pos m) by lia. f_equal. lia.
Qed.

(** *** One item *)

Lemma wrap32_mod z : wrap 32 z = z mod 2 ^ 32.
Proof. done. Qed.

Lemma write_item_spec s it :
  item_ok it ->
  if decide (size s + Z.of_nat (length (layout it)) <= kMaxSize)
  then write_item s it = Ret (push_bytes s (layout it))
  else exists e, write_item s it = Throw (LengthError e).
Proof.
  intros Hok.
  assert (forall v what, 0 <= v < 2 ^ 32 ->
    if decide (size s + 4 <= kMaxSize) then WriteU32 s v what = Ret (push_bytes s (le32 v))
    else exists e, WriteU32 s v what = Throw (LengthError e)) as HU.
  { intros v what Hv. unfold WriteU32. pose proof (Room_cases s 4 what) as HR. case_decide.
    - rewrite HR by lia. by rewrite <- (write_bytes_le32 v Hv).
    - destruct HR as [e ->]; [lia|]. by eexists. }
  destruct it as [b|z|f|t]; simpl.
  - unfold write_byte. pose proof (Room_cases s 1 "a byte") as HR.
    change (Z.of_nat 1) with 1. case_decide.
    + rewrite HR by lia. simpl. by rewrite wrap_small by (simpl in Hok; unfold is_byte in Hok; lia).
    + destruct HR as [e ->]; [lia|]. by eexists.
  - apply HU. apply (wrap_range 32). lia.
  - apply HU. by apply bits_float_bits.
  - simpl in Hok. rewrite length_fmap, length_string_to_list. unfold writeString.
    rewrite (proj2 (Z.ltb_ge 65535 _)) by lia. simpl.
    pose proof (Room_cases s (2 + Z.of_nat (String.length t)) "a string") as HR.
    replace (Z.of_nat (S (S (String.length t)))) with (2 + Z.of_nat (String.length t)) by lia.
    case_decide.
    + rewrite HR by lia. simpl. do 2 f_equal. unfold wrap.
      set (n := Z.of_nat (String.length t)) in *. change 255 with (Z.ones 8).
      rewrite Z.land_ones, Z.shiftr_div_pow2 by lia. f_equal; [|f_equal].
      * apply Z.mod_small. split; [apply Z.div_pos; lia|apply Z.div_lt_upper_bound; lia].
      * apply Z.mod_small, Z.mod_pos_bound. lia.
    + destruct HR as [e ->]; [lia|]. by eexists.
Qed.

Lemma read_like_spec s it :
  item_ok it -> next_bytes s (layout it) ->
  read_like it s = Ret (it, advance_read s (Z.of_nat (length (layout it)))).
Proof.
  intros Hok Hn. destruct it as [b|z|f|t]; simpl in *.
  - unfold readByte. rewrite (next_Need s [b] "a byte" Hn : Need s 1 _ = Ret tt). simpl.
    pose proof (next_byte_at s [b] 0 b Hn eq_refl) as Hb. rewrite Z.add_0_r in Hb.
    by rewrite Hb.
  - unfold readNumber. rewrite (ReadU32_next s (z mod 2 ^ 32)) by (done || apply Z.mod_pos_bound; lia).
    simpl. do 3 f_equal. change (z mod 2 ^ 32) with (wrap 32 z). rewrite swrap_wrap.
    apply swrap_small; [lia|]. unfold INT32_MIN, INT32_MAX in Hok. lia.
  - destruct (bits_float_bits f Hok) as [Hr Hb]. unfold readFloat.
    rewrite (ReadU32_next s (float_bits f)) by done. simpl. by rewrite Hb.
  - set (n := Z.of_nat (String.length t)) in *.
    assert (0 <= n) by lia.
    pose proof (next_bytes_size _ _ Hn) as Hsz. simpl in Hsz.
    rewrite length_fmap, length_string_to_list in *.
    unfold readString.
    rewrite (next_Need s [n / 256; n mod 256] "a string length"
      (next_bytes_prefix s [_; _] _ Hn) : Need s 2 _ = Ret tt). simpl.
    pose proof (next_byte_at s _ 0 _ Hn eq_refl) as H0. rewrite Z.add_0_r in H0. rewrite H0. simpl.
    rewrite (next_byte_at s _ 1 _ Hn eq_refl : byte_at s (rd s + 1) = _). simpl.
    assert (Z.lor (Z.shiftl (n / 256) 8) (n mod 256) = n) as ->.
    { rewrite Z.shiftl_mul_pow2, Z.lor_comm, lor_add by
        (try apply Z.mod_pos_bound; try apply Z.div_pos; lia).
      rewrite (Z.div_mod n 256) at 3 by lia. change (2 ^ 8) with 256. lia. }
    pose proof (stwf_size _ (proj1 Hn)). pose proof (stwf_read _ (proj1 Hn)).
    rewrite wrap_small by lia. rewrite (proj2 (Z.ltb_ge _ _)) by lia. simpl.
    rewrite decide_True by lia.
    replace (Z.of_nat (S (S (String.length t)))) with (2 + n) by lia. simpl.
    match goal with |- context [IString ?x] => cut (x = t); [by intros -> | ] end.
    destruct Hn as [_ [post Hp]]. simpl in Hp.
    replace (Z.to_nat (rd s + 2)) with (Z.to_nat (rd s) + 2)%nat by lia.
    rewrite <- drop_drop, Hp. simpl.
    replace (Z.to_nat n) with (length (byte_of_ascii <$> string_to_list t))
      by (rewrite length_fmap, length_string_to_list; lia).
    rewrite drop_0, take_app_length. rewrite <- list_fmap_compose.
    rewrite (list_fmap_ext _ id); [by rewrite list_fmap_id, string_of_to_list|].
    intros i c _. apply ascii_of_byte_of_ascii.
Qed.

(** ** Properties *)

Lemma push_layout_wf s it :
  item_ok it -> stream_wf s -> size s + Z.of_nat (length (layout it)) <= kMaxSize ->
  stream_wf (push_bytes s (layout it)).
Proof.
  intros Hok [Hr Hs Hb] Hsz. unfold kMaxSize in *.
  split; [rewrite size_push; simpl; lia|rewrite size_push; lia|].
  intros b [Hin|Hin]%elem_of_app; [auto|].
  assert (forall v, 0 <= v < 2 ^ 32 -> b ∈ le32 v -> is_byte b) as Hle.
  { intros v Hv. pose proof (le32_range v Hv) as Hf. rewrite Forall_forall in Hf. apply Hf. }
  destruct it as [c|z|f|t]; simpl in *.
  - apply list_elem_of_singleton in Hin. by subst.
  - eapply Hle; [|done]. apply Z.mod_pos_bound. lia.
  - eapply Hle; [|done]. by apply bits_float_bits.
  - set (n := Z.of_nat (String.length t)) in *. unfold is_byte.
    apply elem_of_cons in Hin as [->|[->|(c & -> & _)%list_elem_of_fmap]%elem_of_cons].
    + split; [apply Z.div_pos; lia|apply Z.div_lt_upper_bound; lia].
    + apply Z.mod_pos_bound. lia.
    + apply byte_of_ascii_byte.
Qed.

Lemma write_items_spec its s s' :
  Forall item_ok its -> stream_wf s -> write_items s its = Ret s' ->
  s' = push_bytes s (concat (layout <$> its)) /\ stream_wf s'.
Proof.
  intros Hok. revert s. induction Hok as [|it its Hit Hok IH]; intros s Hwf; simpl.
  { intros [= <-]. split; [|done]. unfold push_bytes. rewrite app_nil_r. by destruct s. }
  pose proof (write_item_spec s it Hit) as Hw. case_decide as Hd.
  - rewrite Hw. simpl. intros Hs. pose proof (push_layout_wf s it Hit Hwf Hd) as Hwf1.
    destruct (IH _ Hwf1 Hs) as [-> ?]. split; [|done].
    unfold push_bytes. simpl. by rewrite <- app_assoc.
  - destruct Hw as [e ->]. done.
Qed.

Lemma read_items_spec its s :
  Forall item_ok its -> next_bytes s (concat (layout <$> its)) ->
  read_items s its = Ret (its, advance_read s (Z.of_nat (length (concat (layout <$> its))))).
Proof.
  intros Hok. revert s. induction Hok as [|it its Hit Hok IH]; intros s Hn; simpl.
  { unfold advance_read. rewrite Z.add_0_r. by destruct s. }
  simpl in Hn. rewrite (read_like_spec s it Hit) by (by eapply next_bytes_prefix). simpl.
  rewrite IH by (by eapply next_bytes_advance). simpl.
  rewrite length_app, Nat2Z.inj_add. unfold advance_read. simpl. by rewrite Z.add_assoc.
Qed.


Definition demo_items : list item :=
  [IByte 200; INumber (-5); IFloat (S754_finite true 12582912 (-23)); IString "hi"].




Lemma ReadU32_total s what :
  stream_wf s ->
  if decide (rd s + 4 <= size s) then exists v, ReadU32 s what = Ret (v, advance_read s 4)
  else exists e, ReadU32 s what = Throw (OutOfRange e).
Proof.
  intros Hwf. unfold ReadU32. pose proof (Need_cases s 4 what Hwf) as HN.
  pose proof (stwf_read _ Hwf). case_decide.
  - rewrite HN. simpl.
    destruct (byte_at_wf s (rd s)) as (? & -> & _); [lia|].
    destruct (byte_at_wf s (rd s + 1)) as (? & -> & _); [lia|].
    destruct (byte_at_wf s (rd s + 2)) as (? & -> & _); [lia|].
    destruct (byte_at_wf s (rd s + 3)) as (? & -> & _); [lia|]. simpl. by eexists.
  - destruct HN as [e ->]. by eexists.
Qed.

Lemma advance_read_wf s n :
  stream_wf s -> 0 <= n -> rd s + n <= size s -> stream_wf (advance_read s n).
Proof. intros [Hr Hs Hb] Hn Hle. split; simpl; unfold size in *; simpl; [lia|done|done]. Qed.


