(* ===== verification/Config.v ===== *)
(** The settings file (src/runtime/config.hpp, config.cpp): the validation of
    the table it returns, its defaults and its error texts. Running the file in
    its sandbox is in Sandbox.v; what it gives back is an argument here. *)
From stdpp Require Import base tactics list strings pretty.
From Stdlib Require Import ZArith Lia.
From S2P Require Import Prelude.
From S2P Require Import LuaValue.
From S2P Require Import Invoker.
Open Scope Z_scope.

Record LogConfig := mkLog { log_level : level; log_file : string; log_daily : bool }.
Record HttpConfig := mkHttpConfig { cafile : string }.
Record Config := mkConfig
  { scripts : list string; package_path : string; log_cfg : LogConfig; http_cfg : HttpConfig }.

Definition default_config : Config :=
  mkConfig [] "lua/?.lua;lua/?/init.lua" (mkLog Linfo "" false) (mkHttpConfig "").

Definition set_scripts (c : Config) (v : list string) : Config :=
  mkConfig v (package_path c) (log_cfg c) (http_cfg c).
Definition set_package_path (c : Config) (v : string) : Config :=
  mkConfig (scripts c) v (log_cfg c) (http_cfg c).
Definition set_level (c : Config) (v : level) : Config :=
  mkConfig (scripts c) (package_path c)
    (mkLog v (log_file (log_cfg c)) (log_daily (log_cfg c))) (http_cfg c).
Definition set_log_file (c : Config) (v : string) : Config :=
  mkConfig (scripts c) (package_path c)
    (mkLog (log_level (log_cfg c)) v (log_daily (log_cfg c))) (http_cfg c).
Definition set_daily (c : Config) (v : bool) : Config :=
  mkConfig (scripts c) (package_path c)
    (mkLog (log_level (log_cfg c)) (log_file (log_cfg c)) v) (http_cfg c).
Definition set_cafile (c : Config) (v : string) : Config :=
  mkConfig (scripts c) (package_path c) (log_cfg c) (mkHttpConfig v).

(** A text in double quotes. *)
Definition quote : string := String.String (Ascii.ascii_of_nat 34) String.EmptyString.
Definition quoted (s : string) : string := quote +:+ s +:+ quote.

Section reader.
Context {lib : LuaLib} (file : string).

(** The warnings logged so far are the state. *)
Abbreviation reader := (prog (list string)).

Definition warn (text : string) : reader unit := pmodify (fun ws => ws ++ [text]).

(** [Reader::Fail]. *)
Definition Fail_config (field expected : string) (v : lua_value) : exn :=
  ConfigError (file +:+ ": " +:+ field +:+ " must be " +:+ expected +:+
               " (got " +:+ typename (type_of v) +:+ ")").

(** [Reader::String], [Reader::Boolean]. *)
Definition read_string (v : lua_value) (field : string) : outcome string :=
  match v with LString s => Ret s | _ => Throw (Fail_config field "a string" v) end.
Definition read_boolean (v : lua_value) (field : string) : outcome bool :=
  match v with LBool b => Ret b | _ => Throw (Fail_config field "a boolean" v) end.

(** The loop of [Reader::StringList]: [n] elements from [i] on. *)
Fixpoint read_items_from (entries : list (lua_value * lua_value)) (field : string) (i : Z) (n : nat)
    : outcome (list string) :=
  match n with
  | O => Ret []
  | S n =>
      s ← read_string (rawgeti entries i) (field +:+ "[" +:+ pretty i +:+ "]");
      rest ← read_items_from entries field (i + 1) n;
      Ret (s :: rest)
  end.

Definition read_string_list (v : lua_value) (field : string) : outcome (list string) :=
  match v with
  | LTable _ entries => read_items_from entries field 1 (Z.to_nat (rawlen entries))
  | _ => Throw (Fail_config field "a list of strings" v)
  end.

(** [Reader::Fields]: [visit] gets the state it builds up, the key and the value. *)
Fixpoint visit_fields {C} (field : string) (visit : C -> string -> lua_value -> reader C)
    (entries : list (lua_value * lua_value)) (c : C) : reader C :=
  match entries with
  | [] => pret c
  | (k, v) :: entries =>
      match k with
      | LString key => pbind (visit c (c_str key) v) (visit_fields field visit entries)
      | _ =>
          pbind (warn (file +:+ ": " +:+ field +:+ " has a key that is not a string; it is ignored"))
                (fun _ => visit_fields field visit entries c)
      end
  end.

Definition Fields {C} (v : lua_value) (field : string) (visit : C -> string -> lua_value -> reader C)
    (c : C) : reader C :=
  match v with
  | LTable _ entries => visit_fields field visit entries c
  | _ => pthrow (Fail_config field "a table" v)
  end.

(** [Reader::Unknown]. *)
Definition Unknown (field : string) : reader unit :=
  warn (file +:+ ": unknown setting '" +:+ field +:+ "' is ignored").

Definition kLevels : list (string * level) :=
  [("trace", Ltrace); ("debug", Ldebug); ("info", Linfo); ("warn", Lwarn); ("error", Lerr);
   ("critical", Lcritical); ("off", Loff)].

(** [ParseLevel]. *)
Fixpoint find_level (name : string) (levels : list (string * level)) : option level :=
  match levels with
  | [] => None
  | (text, l) :: levels => if bool_decide (name = text) then Some l else find_level name levels
  end.

Definition ParseLevel (v : lua_value) : outcome level :=
  name ← read_string v "log.level";
  match find_level name kLevels with
  | Some l => Ret l
  | None => Throw (ConfigError (file +:+
      ": log.level must be one of trace, debug, info, warn, error, critical, off (got " +:+
      quoted name +:+ ")"))
  end.

(** The three visitors of [ReadConfig], from the inside out. *)
Definition visit_log (c : Config) (key : string) (v : lua_value) : reader Config :=
  if String.eqb key "level" then
    pbind (plift (ParseLevel v)) (fun l => pret (set_level c l))
  else if String.eqb key "file" then
    pbind (plift (read_string v "log.file")) (fun f => pret (set_log_file c f))
  else if String.eqb key "daily" then
    pbind (plift (read_boolean v "log.daily")) (fun b => pret (set_daily c b))
  else pbind (Unknown ("log." +:+ key)) (fun _ => pret c).

Definition visit_http (c : Config) (key : string) (v : lua_value) : reader Config :=
  if String.eqb key "cafile" then
    pbind (plift (read_string v "http.cafile")) (fun f => pret (set_cafile c f))
  else pbind (Unknown ("http." +:+ key)) (fun _ => pret c).

Definition visit_config (c : Config) (key : string) (v : lua_value) : reader Config :=
  if String.eqb key "scripts" then
    pbind (plift (read_string_list v "scripts")) (fun l => pret (set_scripts c l))
  else if String.eqb key "package_path" then
    pbind (plift (read_string v "package_path")) (fun s => pret (set_package_path c s))
  else if String.eqb key "log" then Fields v "log" visit_log c
  else if String.eqb key "http" then Fields v "http" visit_http c
  else pbind (Unknown key) (fun _ => pret c).

(** [ReadConfig(L, file)] on the value the file returned. *)
Definition ReadConfig (v : lua_value) : reader Config :=
  Fields v "the returned table" visit_config default_config.

(** What a protected call in the sandbox gave: a value, an error value, or the
    exception of the panic handler. *)
Inductive sandbox_result :=
  | SValue (v : lua_value) | SError (v : lua_value) | SPanic (what : string).

(** [LoadConfig(path)], with [file] the path: [opened] is what opening the
    libraries gave and [run] what the file returned. *)
Definition LoadConfig (opened run : sandbox_result) : reader Config :=
  let panicked what := pthrow (ConfigError (file +:+ ": " +:+ what)) in
  match opened with
  | SPanic what => panicked what
  | SError e => pthrow (ConfigError ("cannot set up the config sandbox: " +:+ ErrorText (Some e)))
  | SValue _ =>
      match run with
      | SPanic what => panicked what
      | SError e => pthrow (ConfigError (ErrorText (Some e)))
      | SValue v =>
          match v with
          | LTable _ _ => ReadConfig v
          | _ => pthrow (ConfigError (file +:+ " must return a table (got " +:+
                                      typename (type_of v) +:+ ")"))
          end
      end
  end.

(** ** The specification: one lookup per setting *)

(** A setting that is absent keeps its default. *)
Definition setting {A} (default : A) (read : lua_value -> outcome A) (v : lua_value) : outcome A :=
  match v with LNil => Ret default | _ => read v end.

Definition subtable (v : lua_value) (field : string) : outcome (list (lua_value * lua_value)) :=
  match v with
  | LNil => Ret []
  | LTable _ entries => Ret entries
  | _ => Throw (Fail_config field "a table" v)
  end.

Definition log_spec (c : LogConfig) (v : lua_value) : outcome LogConfig :=
  entries ← subtable v "log";
  lv ← setting (log_level c) ParseLevel (rawgets entries "level");
  lf ← setting (log_file c) (fun v => read_string v "log.file") (rawgets entries "file");
  ld ← setting (log_daily c) (fun v => read_boolean v "log.daily") (rawgets entries "daily");
  Ret (mkLog lv lf ld).

Definition http_spec (c : HttpConfig) (v : lua_value) : outcome HttpConfig :=
  entries ← subtable v "http";
  ca ← setting (cafile c) (fun v => read_string v "http.cafile") (rawgets entries "cafile");
  Ret (mkHttpConfig ca).

Definition config_spec (c : Config) (entries : list (lua_value * lua_value)) : outcome Config :=
  sc ← setting (scripts c) (fun v => read_string_list v "scripts") (rawgets entries "scripts");
  pp ← setting (package_path c) (fun v => read_string v "package_path")
         (rawgets entries "package_path");
  lg ← log_spec (log_cfg c) (rawgets entries "log");
  ht ← http_spec (http_cfg c) (rawgets entries "http");
  Ret (mkConfig sc pp lg ht).

(** A Lua table as [lua_next] gives it: no key twice and no nil value; the
    string keys hold no NUL. *)
Record entries_ok (entries : list (lua_value * lua_value)) : Prop := mkEntriesOk
  { eok_keys : NoDup entries.*1;
    eok_values k v : (k, v) ∈ entries -> v <> LNil;
    eok_nul k v : (LString k, v) ∈ entries -> c_str k = k }.

Definition value_ok (v : lua_value) : Prop :=
  match v with LTable _ entries => entries_ok entries | _ => True end.

(** ** Lemmas *)

(** The errors of the validation name the file. *)
Definition names_file (e : exn) : Prop := exists what, e = ConfigError (file +:+ ": " +:+ what).

Definition clean {A} (o : outcome A) : Prop :=
  match o with Ret _ => True | Throw e => names_file e | UB => False end.

(** Equal results, or both an error of the validation: which error comes first
    depends on the order of the keys. *)
Definition agrees {A} (o spec : outcome A) : Prop :=
  match spec with Ret a => o = Ret a | _ => clean spec /\ exists e, o = Throw e /\ names_file e end.

Lemma clean_bind {A B} (o : outcome A) (k : A -> outcome B) :
  clean o -> (forall a, clean (k a)) -> clean (o ≫= k).
Proof. destruct o; simpl; auto. Qed.

Lemma Fail_names_file field expected v : names_file (Fail_config field expected v).
Proof. by eexists. Qed.

Lemma read_string_clean v field : clean (read_string v field).
Proof. destruct v; try apply Fail_names_file. done. Qed.

Lemma read_boolean_clean v field : clean (read_boolean v field).
Proof. destruct v; try apply Fail_names_file. done. Qed.

Lemma ParseLevel_clean v : clean (ParseLevel v).
Proof.
  unfold ParseLevel. apply clean_bind; [apply read_string_clean|]. intros name.
  destruct (find_level name kLevels); simpl; [done|by eexists].
Qed.

Lemma read_string_list_clean v field : clean (read_string_list v field).
Proof.
  destruct v; try apply Fail_names_file. simpl.
  generalize (Z.to_nat (rawlen entries)) 1. intros n. induction n as [|n IH]; intros i; simpl; [done|].
  apply clean_bind; [apply read_string_clean|]. intros x. apply clean_bind; [apply IH|done].
Qed.

Lemma setting_clean {A} (d : A) read v : (forall v, clean (read v)) -> clean (setting d read v).
Proof. intros Hr. destruct v; simpl; auto. Qed.

Lemma subtable_clean v field : clean (subtable v field).
Proof. destruct v; simpl; try apply Fail_names_file; done. Qed.

Lemma log_spec_clean c v : clean (log_spec c v).
Proof.
  apply clean_bind; [apply subtable_clean|]. intros es.
  apply clean_bind; [apply setting_clean, ParseLevel_clean|]. intros lv.
  apply clean_bind; [apply setting_clean; intros; apply read_string_clean|]. intros lf.
  apply clean_bind; [apply setting_clean; intros; apply read_boolean_clean|done].
Qed.

Lemma http_spec_clean c v : clean (http_spec c v).
Proof.
  apply clean_bind; [apply subtable_clean|]. intros es.
  apply clean_bind; [apply setting_clean; intros; apply read_string_clean|done].
Qed.

Lemma rawgets_cons k v entries s :
  rawgets ((k, v) :: entries) s = if key_is_string s k then v else rawgets entries s.
Proof. done. Qed.

Lemma rawgets_absent entries s : LString s ∉ entries.*1 -> rawgets entries s = LNil.
Proof.
  unfold rawgets. induction entries as [|[k v] entries IH]; simpl; [done|].
  intros [Hne Hn]%not_elem_of_cons. destruct (key_is_string s k) eqn:E; [|by apply IH].
  exfalso. apply Hne. destruct k; try done. simpl in E. by apply String.eqb_eq in E as ->.
Qed.

Lemma entries_ok_cons k v entries :
  entries_ok ((k, v) :: entries) ->
  entries_ok entries /\ v <> LNil /\
  (forall s, k = LString s -> c_str s = s /\ rawgets entries s = LNil).
Proof.
  intros [Hk Hv Hn]. simpl in Hk. apply NoDup_cons in Hk as [Hnin Hk]. split_and!.
  - split; [done|intros ? ? ?; eapply Hv; by right|intros ? ? ?; eapply Hn; by right].
  - eapply Hv. by left.
  - intros s ->. split; [eapply Hn; by left|by apply rawgets_absent].
Qed.

Lemma setting_present {A} (d : A) read v : v <> LNil -> setting d read v = read v.
Proof. by destruct v. Qed.

Lemma agrees_throw {A} (o spec : outcome A) e :
  clean spec -> o = Throw e -> names_file e -> (forall a, spec <> Ret a) -> agrees o spec.
Proof. intros Hc -> He Hn. destruct spec as [a|e'|]; simpl in *; [by destruct (Hn a)|by eauto..]. Qed.

Definition with_log (c : Config) (o : outcome LogConfig) : outcome Config :=
  lg ← o; Ret (mkConfig (scripts c) (package_path c) lg (http_cfg c)).
Definition with_http (c : Config) (o : outcome HttpConfig) : outcome Config :=
  ht ← o; Ret (mkConfig (scripts c) (package_path c) (log_cfg c) ht).

(** Case analysis on the reads the goal still has to make. *)
Ltac read_cases :=
  repeat match goal with
  | |- context [setting ?d ?r ?v] =>
      let Hc := fresh "Hc" in
      assert (clean (setting d r v)) as Hc by
        (apply setting_clean; intros; first [apply ParseLevel_clean|apply read_string_clean
          |apply read_boolean_clean|apply read_string_list_clean]);
      destruct (setting d r v); simpl in Hc |- *; [|by eauto|done]
  end.

(** The value of the key at the head of the table is read now. *)
Ltac read_head Hclean :=
  let Hc := fresh "Hc" in
  pose proof Hclean as Hc;
  match type of Hc with clean ?o => destruct o eqn:?; simpl in Hc |- *; [| |done] end.

Lemma visit_log_agrees entries obj c ws :
  entries_ok entries ->
  agrees (fst (visit_fields "log" visit_log entries c ws))
    (with_log c (log_spec (log_cfg c) (LTable obj entries))).
Proof.
  revert c ws. induction entries as [|[k v] entries IH]; intros c ws Hok.
  { unfold with_log, log_spec. simpl. destruct c as [? ? [] ?]. done. }
  apply entries_ok_cons in Hok as (Hok & Hv & Hk).
  unfold with_log, log_spec in *. simpl subtable in *. cbn [mbind outcome_bind] in *.
  rewrite !rawgets_cons.
  destruct k as [| | | |s| | | | | |]; try (simpl; by apply IH).
  destruct (Hk s eq_refl) as [Hs Habs]. clear Hk. simpl visit_fields. rewrite Hs.
  simpl key_is_string. unfold visit_log at 1.
  destruct (String.eqb_spec s "level") as [->|H1]; [|
   destruct (String.eqb_spec s "file") as [->|H2]; [|
    destruct (String.eqb_spec s "daily") as [->|H3]]]; simpl; unfold pbind, plift, pret.
  - rewrite (setting_present _ _ v) by done. read_head (ParseLevel_clean v).
    + specialize (IH (set_level c a) ws Hok). rewrite Habs in IH. exact IH.
    + eauto.
  - rewrite (setting_present _ _ v) by done. read_head (read_string_clean v "log.file").
    + specialize (IH (set_log_file c a) ws Hok). rewrite Habs in IH. exact IH.
    + read_cases. eauto.
  - rewrite (setting_present _ _ v) by done. read_head (read_boolean_clean v "log.daily").
    + specialize (IH (set_daily c a) ws Hok). rewrite Habs in IH. exact IH.
    + read_cases. eauto.
  - apply (IH c _ Hok).
Qed.

Lemma visit_http_agrees entries obj c ws :
  entries_ok entries ->
  agrees (fst (visit_fields "http" visit_http entries c ws))
    (with_http c (http_spec (http_cfg c) (LTable obj entries))).
Proof.
  revert c ws. induction entries as [|[k v] entries IH]; intros c ws Hok.
  { unfold with_http, http_spec. simpl. destruct c as [? ? ? []]. done. }
  apply entries_ok_cons in Hok as (Hok & Hv & Hk).
  unfold with_http, http_spec in *. simpl subtable in *. cbn [mbind outcome_bind] in *.
  rewrite !rawgets_cons.
  destruct k as [| | | |s| | | | | |]; try (simpl; by apply IH).
  destruct (Hk s eq_refl) as [Hs Habs]. clear Hk. simpl visit_fields. rewrite Hs.
  simpl key_is_string. unfold visit_http at 1.
  destruct (String.eqb_spec s "cafile") as [->|H1]; simpl; unfold pbind, plift, pret.
  - rewrite (setting_present _ _ v) by done. read_head (read_string_clean v "http.cafile").
    + specialize (IH (set_cafile c a) ws Hok). rewrite Habs in IH. exact IH.
    + eauto.
  - apply (IH c _ Hok).
Qed.

(** A subtable that is there: the same reads. *)
Lemma log_fields_agree v c ws :
  v <> LNil -> value_ok v ->
  agrees (fst (Fields v "log" visit_log c ws)) (with_log c (log_spec (log_cfg c) v)).
Proof.
  intros Hv Hok. destruct v; try done; try (simpl; split; [apply Fail_names_file|];
    eexists; split; [reflexivity|apply Fail_names_file]).
  by apply (visit_log_agrees entries obj).
Qed.

Lemma http_fields_agree v c ws :
  v <> LNil -> value_ok v ->
  agrees (fst (Fields v "http" visit_http c ws)) (with_http c (http_spec (http_cfg c) v)).
Proof.
  intros Hv Hok. destruct v; try done; try (simpl; split; [apply Fail_names_file|];
    eexists; split; [reflexivity|apply Fail_names_file]).
  by apply (visit_http_agrees entries obj).
Qed.

Lemma log_spec_nil c : log_spec c LNil = Ret c.
Proof. by destruct c. Qed.
Lemma http_spec_nil c : http_spec c LNil = Ret c.
Proof. by destruct c. Qed.

Ltac read_subtables :=
  repeat match goal with
  | |- context [log_spec ?c ?v] =>
      let Hc := fresh "Hc" in
      pose proof (log_spec_clean c v) as Hc; destruct (log_spec c v); simpl in Hc |- *;
      [|by eauto|done]
  | |- context [http_spec ?c ?v] =>
      let Hc := fresh "Hc" in
      pose proof (http_spec_clean c v) as Hc; destruct (http_spec c v); simpl in Hc |- *;
      [|by eauto|done]
  end.

Lemma visit_config_agrees entries c ws :
  entries_ok entries -> (forall k v, (k, v) ∈ entries -> value_ok v) ->
  agrees (fst (visit_fields "the returned table" visit_config entries c ws)) (config_spec c entries).
Proof.
  revert c ws. induction entries as [|[k v] entries IH]; intros c ws Hok Hvals.
  { unfold config_spec. destruct c as [? ? [] []]. done. }
  apply entries_ok_cons in Hok as (Hok & Hv & Hk).
  assert (value_ok v) as Hvok by (eapply Hvals; by left).
  assert (forall k v, (k, v) ∈ entries -> value_ok v) as Hvals'
    by (intros; eapply Hvals; by right).
  clear Hvals. unfold config_spec in *. rewrite !rawgets_cons.
  destruct k as [| | | |s| | | | | |]; try (simpl; by apply IH).
  destruct (Hk s eq_refl) as [Hs Habs]. clear Hk. simpl visit_fields. rewrite Hs.
  simpl key_is_string. unfold visit_config at 1.
  destruct (String.eqb_spec s "scripts") as [->|H1]; [|
   destruct (String.eqb_spec s "package_path") as [->|H2]; [|
    destruct (String.eqb_spec s "log") as [->|H3]; [|
     destruct (String.eqb_spec s "http") as [->|H4]]]]; simpl.
  - unfold pbind, plift, pret.
    rewrite (setting_present _ _ v) by done. read_head (read_string_list_clean v "scripts").
    + specialize (IH (set_scripts c a) ws Hok Hvals'). rewrite Habs in IH. exact IH.
    + eauto.
  - unfold pbind, plift, pret.
    rewrite (setting_present _ _ v) by done. read_head (read_string_clean v "package_path").
    + specialize (IH (set_package_path c a) ws Hok Hvals'). rewrite Habs in IH. exact IH.
    + read_cases. eauto.
  - pose proof (log_fields_agree v c ws Hv Hvok) as Hl.
    pose proof (log_spec_clean (log_cfg c) v) as Hlc. unfold with_log in Hl.
    destruct (log_spec (log_cfg c) v) as [lg|e|]; simpl in *; [| |done].
    + unfold pbind. destruct (Fields v "log" visit_log c ws) as [r ws1]; simpl in Hl. subst r.
      specialize (IH (mkConfig (scripts c) (package_path c) lg (http_cfg c)) ws1 Hok Hvals').
      rewrite Habs, log_spec_nil in IH. exact IH.
    + unfold pbind. destruct (Fields v "log" visit_log c ws) as [r ws1]; simpl in Hl.
      destruct Hl as (_ & e' & -> & He'). simpl. read_cases. eauto.
  - pose proof (http_fields_agree v c ws Hv Hvok) as Hl.
    pose proof (http_spec_clean (http_cfg c) v) as Hlc. unfold with_http in Hl.
    destruct (http_spec (http_cfg c) v) as [ht|e|]; simpl in *; [| |done].
    + unfold pbind. destruct (Fields v "http" visit_http c ws) as [r ws1]; simpl in Hl. subst r.
      specialize (IH (mkConfig (scripts c) (package_path c) (log_cfg c) ht) ws1 Hok Hvals').
      rewrite Habs, http_spec_nil in IH. exact IH.
    + unfold pbind. destruct (Fields v "http" visit_http c ws) as [r ws1]; simpl in Hl.
      destruct Hl as (_ & e' & -> & He'). simpl. read_cases. read_subtables. eauto.
  - apply (IH c _ Hok Hvals').
Qed.

(** ** Properties *)

(** C31: the settings do not depend on the order in which Lua enumerates the
    table: each setting is what a lookup of its key gives (in the [log] and
    [http] subtables too), an absent one keeps its default, unknown keys and
    keys that are not strings only warn, and a value of the wrong type is
    always an error that names the file. *)
Theorem ReadConfig_is_by_lookup obj entries ws :
  entries_ok entries -> (forall k v, (k, v) ∈ entries -> value_ok v) ->
  match config_spec default_config entries with
  | Ret c => fst (ReadConfig (LTable obj entries) ws) = Ret c
  | _ => exists what,
      fst (ReadConfig (LTable obj entries) ws) = Throw (ConfigError (file +:+ ": " +:+ what))
  end.
Proof.
  intros Hok Hvals. pose proof (visit_config_agrees entries default_config ws Hok Hvals) as H.
  unfold ReadConfig. simpl. destruct (config_spec default_config entries); simpl in H; [done|..];
    destruct H as (_ & ? & -> & what & ->); by exists what.
Qed.
End reader.

Definition demo_config : list (lua_value * lua_value) :=
  [ (LString "log", LTable 2 [(LString "daily", LBool true); (LString "level", LString "warn")]);
    (LInt 1, LInt 5); (LString "scripts", LTable 3 [(LInt 1, LString "a.lua")]) ].

Lemma ReadConfig_is_by_lookup_witness :
  fst (ReadConfig (lib := plain_lib) "luaconfig.lua" (LTable 1 demo_config) []) =
    Ret (mkConfig ["a.lua"] "lua/?.lua;lua/?/init.lua" (mkLog Lwarn "" true) (mkHttpConfig "")).
Proof.
  assert (forall l : list (lua_value * lua_value), NoDup l.*1 ->
    Forall (fun e => match e.2 with LNil => False | _ => True end) l ->
    Forall (fun e => match e.1 with LString k => c_str k = k | _ => True end) l ->
    entries_ok l) as Hmk.
  { intros l Hn Hv Hk. rewrite Forall_forall in Hv, Hk. split; [done|..].
    - intros k v Hin. specialize (Hv _ Hin). simpl in Hv. by destruct v.
    - intros k v Hin. apply (Hk _ Hin). }
  apply (ReadConfig_is_by_lookup (lib := plain_lib) "luaconfig.lua" 1 demo_config []).
  - apply Hmk; [|by repeat constructor..].
    repeat (apply NoDup_cons; split; [by intros H; repeat (apply elem_of_cons in H as [?|H]; [done|]);
      apply not_elem_of_nil in H|]). constructor.
  - intros k v [H|[H|[H|H]%elem_of_cons]%elem_of_cons]%elem_of_cons; simplify_eq/=;
      [|done| |by apply not_elem_of_nil in H]; (apply Hmk; [|by repeat constructor..]);
      repeat (apply NoDup_cons; split; [by intros H'; repeat (apply elem_of_cons in H' as [?|H']; [done|]);
      apply not_elem_of_nil in H'|]); constructor.
Defined.
