(* ===== verification/Sandbox.v ===== *)
(** The sandbox that runs luaconfig.lua (src/runtime/config.cpp): its Lua state
    and when it is closed, the globals a file can reach, and the instruction
    budget of its run. Lua's VM is a machine that takes one instruction at a
    time ([LuaVM]); Config.v validates the table the file returns. *)
From stdpp Require Import base tactics list gmap strings.
From Stdlib Require Import ZArith Lia.
From S2P Require Import Prelude.
From S2P Require Import LuaValue.
From S2P Require Import Invoker.
From S2P Require Import Config.
Open Scope Z_scope.

(** The globals of a Lua state. *)
Abbreviation globals := (gmap string lua_value).

(** What the code relies on of Lua: [luaL_newstate] may fail; [luaopen_base]
    sets functions and gives the table of globals, [open_lib] the table of
    another library; a file is loaded in text mode, with the globals it will
    see; a running file takes one instruction, or ends; an error raised at some
    point is caught by the file's innermost [pcall], or ends the run. *)
Inductive vm_event (V : Type) :=
  | Running (s : V) | Returned (v : lua_value) | Raised (e : lua_value).
Arguments Running {V} s.
Arguments Returned {V} v.
Arguments Raised {V} e.

Class LuaVM := {
  vm : Type;
  luaL_newstate : bool;
  global_table : lua_value;
  base_functions : globals;
  open_lib : string -> lua_value;
  luaL_loadfilex : string -> globals -> lua_value + vm;
  vm_step : vm -> vm_event vm;
  vm_catch : vm -> lua_value -> option vm;
  luaL_where : vm -> string
}.

(** [kInstructionBudget]. *)
Definition kInstructionBudget : Z := 10000000.

Section sandbox.
Context {lua : LuaVM} {lib : LuaLib}.

(** ** OpenSandbox *)

(** [luaL_requiref(L, name, open, 1)]. *)
Definition require_lib (g : globals) (name : string) : globals := <[name := open_lib name]> g.

(** Base functions that reach files or run other code. *)
Definition kRemoved_base : list string := ["dofile"; "loadfile"; "load"; "collectgarbage"].

(** [OpenSandbox(L)]: the globals it leaves. Setting a global to nil removes it. *)
Definition OpenSandbox : globals :=
  let g := <["_G" := global_table]> base_functions in
  let g := fold_left require_lib ["string"; "table"; "math"; "utf8"] g in
  fold_left (fun g name => delete name g) kRemoved_base g.

(** ** RunConfigFile *)

(** The error [BudgetHook] raises. *)
Definition budget_error (s : vm) : lua_value :=
  LString (luaL_where s +:+ "the config file runs too long (endless loop?)").

(** [lua_call] under the count hook, which is called after every [budget]
    instructions; [rest] are those until its next call. An error that the file
    catches lets it go on, and the count starts again. *)
Fixpoint run_hooked (fuel budget rest : nat) (s : vm) : option sandbox_result :=
  match fuel with
  | O => None
  | S fuel =>
      match rest with
      | O =>
          match vm_catch s (budget_error s) with
          | Some s => run_hooked fuel budget budget s
          | None => Some (SError (budget_error s))
          end
      | S rest =>
          match vm_step s with
          | Running s => run_hooked fuel budget rest s
          | Returned v => Some (SValue v)
          | Raised e => Some (SError e)
          end
      end
  end.

Definition budget : nat := Z.to_nat kInstructionBudget.

(** [RunConfigFile(L)] in a protected call. *)
Definition RunConfigFile (fuel : nat) (path : string) (g : globals) : option sandbox_result :=
  match luaL_loadfilex path g with
  | inl e => Some (SError e)
  | inr s => run_hooked fuel budget budget s
  end.

(** ** SandboxState *)

(** The sandbox states that exist, and the warnings logged. *)
Record loading := mkLoading { states : Z; warnings : list string }.

(** The constructor, and the destructor: a state that panicked is leaked. *)
Definition open_state : prog loading unit := fun w =>
  if luaL_newstate then (Ret tt, mkLoading (states w + 1) (warnings w))
  else (Throw (ConfigError "cannot create a Lua state for the config file"), w).
Definition close_state (panicked : bool) (w : loading) : loading :=
  if panicked then w else mkLoading (states w - 1) (warnings w).

Definition panics (r : sandbox_result) : bool := match r with SPanic _ => true | _ => false end.
Definition is_value (r : sandbox_result) : bool := match r with SValue _ => true | _ => false end.

(** [LoadConfig(path)]: [opened] is what the protected call of [OpenSandbox]
    gave. *)
Definition load_config_file (fuel : nat) (path : string) (opened : sandbox_result) (w : loading)
    : option (outcome Config * loading) :=
  match open_state w with
  | (Ret _, w) =>
      run ← (if is_value opened then RunConfigFile fuel path OpenSandbox else Some opened);
      let '(r, ws) := LoadConfig path opened run (warnings w) in
      Some (r, close_state (panics opened || panics run) (mkLoading (states w) ws))
  | (Throw e, w) => Some (Throw e, w)
  | (UB, w) => Some (UB, w)
  end.

(** ** The globals *)

(** The base functions of the Lua manual. *)
Definition manual_base : list string :=
  ["_VERSION"; "assert"; "collectgarbage"; "dofile"; "error"; "getmetatable"; "ipairs"; "load";
   "loadfile"; "next"; "pairs"; "pcall"; "print"; "rawequal"; "rawget"; "rawlen"; "rawset"; "select";
   "setmetatable"; "tonumber"; "tostring"; "type"; "warn"; "xpcall"].

(** The globals docs/configuration.md makes available to the file, and those it
    says are not. *)
Definition doc_available : list string :=
  ["_G"; "_VERSION"; "assert"; "error"; "getmetatable"; "ipairs"; "next"; "pairs"; "pcall"; "print";
   "rawequal"; "rawget"; "rawlen"; "rawset"; "select"; "setmetatable"; "tonumber"; "tostring"; "type";
   "warn"; "xpcall"; "string"; "table"; "math"; "utf8"].
Definition doc_unavailable : list string :=
  ["io"; "os"; "require"; "package"; "debug"; "coroutine"; "dofile"; "loadfile"; "load";
   "collectgarbage"].

Lemma sandbox_globals (n : string) :
  dom base_functions = list_to_set (C := gset string) manual_base ->
  (is_Some (OpenSandbox !! n) <-> n ∈ doc_available) /\ (n ∈ doc_unavailable -> OpenSandbox !! n = None).
Proof.
  intros Hb.
  assert (dom OpenSandbox = list_to_set (C := gset string) doc_available) as Hd.
  { unfold OpenSandbox, require_lib, kRemoved_base. cbn [fold_left].
    rewrite !dom_delete_L, !dom_insert_L, Hb. apply (bool_decide_unpack _). vm_compute. exact I. }
  split.
  - rewrite <- elem_of_dom, Hd. by rewrite elem_of_list_to_set.
  - intros Hn. apply not_elem_of_dom. rewrite Hd, elem_of_list_to_set.
    unfold doc_unavailable in Hn. revert n Hn. apply Forall_forall.
    repeat (apply Forall_cons_2; [apply (bool_decide_unpack _); vm_compute; exact I|]). apply Forall_nil_2.
Qed.

(** ** The budget *)

(** The run of a file without the hook: [n] instructions. *)
Fixpoint run_plain (n : nat) (s : vm) : vm + sandbox_result :=
  match n with
  | O => inl s
  | S n =>
      match vm_step s with
      | Running s => run_plain n s
      | Returned v => inr (SValue v)
      | Raised e => inr (SError e)
      end
  end.

(** The run under the hook is the plain one, until the hook is called. *)
Lemma run_hooked_plain fuel b rest s :
  (rest < fuel)%nat ->
  run_hooked fuel b rest s =
    match run_plain rest s with
    | inr r => Some r
    | inl s =>
        match vm_catch s (budget_error s) with
        | Some s => run_hooked (fuel - rest - 1) b b s
        | None => Some (SError (budget_error s))
        end
    end.
Proof.
  revert fuel s. induction rest as [|rest IH]; intros [|fuel] s Hf; try lia; cbn [run_hooked run_plain].
  - destruct (vm_catch _ _); [|done]. by replace (S fuel - 0 - 1)%nat with fuel by lia.
  - destruct (vm_step s) as [s'| |]; try done. rewrite IH by lia. done.
Qed.

Lemma run_plain_panics n s r : run_plain n s = inr r -> panics r = false.
Proof.
  revert s. induction n as [|n IH]; intros s; cbn [run_plain]; [done|].
  destruct (vm_step s); [apply IH|by intros [= <-]..].
Qed.

(** More fuel gives the same result. *)
Lemma run_hooked_mono fuel fuel' b rest s r :
  run_hooked fuel b rest s = Some r -> (fuel <= fuel')%nat -> run_hooked fuel' b rest s = Some r.
Proof.
  revert fuel' rest s. induction fuel as [|fuel IH]; [done|]. intros [|fuel'] rest s H Hf; [lia|].
  cbn [run_hooked] in *. destruct rest as [|rest].
  - destruct (vm_catch _ _); [|done]. apply IH; [done|lia].
  - destruct (vm_step s); [|done..]. apply IH; [done|lia].
Qed.

(** A file whose code catches every error of the hook, and goes on, is never
    stopped. *)
Lemma caught_errors_renew_the_budget fuel b rest s :
  (forall s, exists s', vm_step s = Running s') -> (forall s e, exists s', vm_catch s e = Some s') ->
  run_hooked fuel b rest s = None.
Proof.
  intros Hs Hc. revert rest s. induction fuel as [|fuel IH]; [done|]. intros [|rest] s; cbn [run_hooked].
  - destruct (Hc s (budget_error s)) as [s' ->]. apply IH.
  - destruct (Hs s) as [s' ->]. apply IH.
Qed.

(** ** The errors of the settings file *)

(** A program that gives a result, or a [ConfigError]. *)
Class ConfigErrors {W A} (m : prog W A) : Prop := config_errors : forall w,
  match fst (m w) with Ret _ => True | Throw e => exists what, e = ConfigError what | UB => False end.

#[export] Instance config_errors_pret {W A} (a : A) : ConfigErrors (pret (W := W) a).
Proof. by intros w. Qed.
#[export] Instance config_errors_pthrow {W A} what : ConfigErrors (pthrow (W := W) (A := A) (ConfigError what)).
Proof. intros w. by exists what. Qed.
#[export] Instance config_errors_pbind {W A B} (m : prog W A) (k : A -> prog W B) :
  ConfigErrors m -> (forall a, ConfigErrors (k a)) -> ConfigErrors (pbind m k).
Proof.
  intros Hm Hk w. unfold pbind. specialize (Hm w). destruct (m w) as [[a|e|] w1]; [apply Hk|done..].
Qed.
#[export] Instance config_errors_warn text : ConfigErrors (warn text).
Proof. by intros w. Qed.
#[export] Instance config_errors_string file v field : ConfigErrors (W := list string) (plift (read_string file v field)).
Proof. intros w. destruct v; simpl; by try eexists. Qed.
#[export] Instance config_errors_boolean file v field : ConfigErrors (W := list string) (plift (read_boolean file v field)).
Proof. intros w. destruct v; simpl; by try eexists. Qed.
#[export] Instance config_errors_list file v field :
  ConfigErrors (W := list string) (plift (read_string_list file v field)).
Proof.
  intros w. unfold plift. cbn [fst]. destruct v as [| | | | |o es| | | | |]; simpl; try by eexists.
  generalize 1. induction (Z.to_nat (rawlen es)) as [|n IH]; intros i; cbn [read_items_from]; [done|].
  destruct (rawgeti es i) eqn:E; simpl; try by eexists. specialize (IH (i + 1)).
  by destruct (read_items_from _ _ _ _ _).
Qed.
#[export] Instance config_errors_level file v : ConfigErrors (W := list string) (plift (ParseLevel file v)).
Proof.
  intros w. unfold plift, ParseLevel. pose proof (config_errors_string file v "log.level" w) as H.
  unfold plift in H. cbn [fst] in *. destruct (read_string _ _ _) as [a|e|]; cbn [mbind outcome_bind]; [|done..].
  generalize (find_level a kLevels). intros [l|]; [done|by eexists].
Qed.
Lemma config_errors_Fields {C} file v field (visit : C -> string -> lua_value -> prog (list string) C) c :
  (forall c key v, ConfigErrors (visit c key v)) -> ConfigErrors (Fields file v field visit c).
Proof.
  intros Hv. unfold Fields. destruct v as [| | | | |o es| | | | |]; try apply _.
  revert c. induction es as [|[k x] es IH]; intros c; cbn [visit_fields]; [apply _|].
  destruct k; apply config_errors_pbind; first [apply _|intros ?; apply IH].
Qed.
Hint Extern 1 (ConfigErrors (if ?x then _ else _)) => destruct x : typeclass_instances.
Lemma config_errors_ReadConfig file v : ConfigErrors (ReadConfig file v).
Proof.
  apply config_errors_Fields. intros c key x. unfold visit_config.
  destruct (String.eqb key "scripts"); [apply _|]. destruct (String.eqb key "package_path"); [apply _|].
  destruct (String.eqb key "log").
  { apply config_errors_Fields. intros c' key' x'. unfold visit_log, Unknown. apply _. }
  destruct (String.eqb key "http"); [|unfold Unknown; apply _].
  apply config_errors_Fields. intros c' key' x'. unfold visit_http, Unknown. apply _.
Qed.
#[export] Instance config_errors_LoadConfig file opened run : ConfigErrors (LoadConfig file opened run).
Proof.
  unfold LoadConfig. destruct opened; try apply _. destruct run as [x| |]; try apply _.
  destruct x; first [apply config_errors_ReadConfig|apply _].
Qed.

(** ** Loading the settings file *)

(** What a run of the file comes to when it is stopped after the budget. *)
Definition file_result (path : string) : sandbox_result :=
  match luaL_loadfilex path OpenSandbox with
  | inl e => SError e
  | inr s => match run_plain budget s with inl s => SError (budget_error s) | inr r => r end
  end.

(** The file is not in a [pcall] of its own after the budget. *)
Definition uncaught (path : string) : Prop := forall s s',
  luaL_loadfilex path OpenSandbox = inr s -> run_plain budget s = inl s' ->
  vm_catch s' (budget_error s') = None.

Lemma RunConfigFile_result fuel path :
  uncaught path -> (budget < fuel)%nat -> RunConfigFile fuel path OpenSandbox = Some (file_result path).
Proof.
  intros Hu Hf. unfold RunConfigFile, file_result.
  destruct (luaL_loadfilex path OpenSandbox) as [e|s] eqn:E; [done|].
  rewrite run_hooked_plain by done. destruct (run_plain budget s) as [s'|r] eqn:Er; [|done].
  by rewrite (Hu s s' E Er).
Qed.

(** C18: The settings file is loaded in a bounded number of instructions, unless
    its own code catches the error that stops it: the plugin gets the
    configuration of the table the file returns, or a [ConfigError] (the file's
    own error, or [the config file runs too long] after 10,000,000 instructions,
    or what is wrong with the table), and never anything else. The sandbox's Lua
    state is closed on every path but a panic, after which it is leaked. *)
Theorem config_file_is_bounded fuel path opened w :
  uncaught path -> (budget < fuel)%nat ->
  exists r w', load_config_file fuel path opened w = Some (r, w') /\
    match r with Ret _ => True | Throw e => exists what, e = ConfigError what | UB => False end /\
    states w' = (if luaL_newstate && panics opened then states w + 1 else states w) /\
    (luaL_newstate = true -> is_value opened = true ->
     r = fst (LoadConfig path opened (file_result path) (warnings w)) /\
     panics (file_result path) = false).
Proof.
  intros Hu Hf. unfold load_config_file, open_state.
  destruct luaL_newstate; [|eexists _, _; split; [reflexivity|]; cbn [andb fst];
    split_and!; [by eexists|done|done]].
  assert (panics (file_result path) = false) as Hp.
  { unfold file_result. destruct (luaL_loadfilex _ _) as [e|s]; [done|].
    destruct (run_plain budget s) as [s'|r] eqn:E; [done|]. by apply run_plain_panics in E. }
  rewrite (RunConfigFile_result fuel path) by done.
  set (run := if is_value opened then file_result path else opened).
  assert ((if is_value opened then Some (file_result path) else Some opened) = Some run) as ->
    by (unfold run; by destruct (is_value opened)).
  assert (panics opened || panics run = panics opened) as Hrun
    by (unfold run; destruct opened; simpl; rewrite ?Hp; done).
  cbn [mbind option_bind states warnings].
  pose proof (config_errors_LoadConfig path opened run (warnings w)) as He.
  destruct (LoadConfig path opened run (warnings w)) as [r ws] eqn:E.
  eexists _, _. split; [reflexivity|]. split_and!; [exact He| |].
  - rewrite Hrun. cbn [andb]. unfold close_state. destruct (panics opened); simpl; lia.
  - intros _ Ho. split; [|done]. unfold run in E. rewrite Ho in E. by rewrite E.
Qed.
End sandbox.

(** ** Files that do not end *)

(** [while true do end], and the same in a [pcall] that is called again. *)
Definition endless (caught : bool) : LuaVM := {|
  vm := unit; luaL_newstate := true; global_table := LTable 1 [];
  base_functions := list_to_map ((fun n => (n, LFunction 2)) <$> manual_base);
  open_lib n := LTable 3 []; luaL_loadfilex path g := inr tt;
  vm_step s := Running s; vm_catch s e := if caught then Some s else None;
  luaL_where s := "luaconfig.lua:1: "
|}.

Lemma endless_plain caught n : run_plain (lua := endless caught) n tt = inl tt.
Proof. by induction n as [|n IH]. Qed.

Lemma config_file_is_bounded_witness :
  exists w', load_config_file (lua := endless false) (lib := plain_lib) (S budget) "luaconfig.lua" (SValue LNil) (mkLoading 0 []) =
    Some (Throw (ConfigError "luaconfig.lua:1: the config file runs too long (endless loop?)"), w') /\
    states w' = 0.
Proof.
  destruct (config_file_is_bounded (lua := endless false) (lib := plain_lib) (S budget) "luaconfig.lua"
    (SValue LNil) (mkLoading 0 [])) as (r & w' & Hl & _ & Hs & Hr).
  - intros s s' _ _. reflexivity.
  - apply Nat.lt_succ_diag_r.
  - exists w'. rewrite Hl. split; [|exact Hs]. do 2 f_equal.
    destruct (Hr eq_refl eq_refl) as [-> _]. unfold file_result. cbn [luaL_loadfilex endless].
    rewrite endless_plain. reflexivity.
Defined.

Lemma a_file_can_outrun_the_budget fuel path w :
  load_config_file (lua := endless true) (lib := plain_lib) fuel path (SValue LNil) w = None.
Proof.
  unfold load_config_file, RunConfigFile. cbn [open_state luaL_newstate luaL_loadfilex endless is_value].
  rewrite caught_errors_renew_the_budget; [done|intros []; by exists tt|intros [] e; by exists tt].
Qed.

Lemma sandbox_globals_demo n :
  n ∈ doc_unavailable -> OpenSandbox (lua := endless false) !! n = None.
Proof.
  apply (sandbox_globals (lua := endless false)). apply (bool_decide_unpack _). vm_compute. exact I.
Qed.
