(* ===== verification/Setup.v ===== *)
(** Setting up the Lua state of a runtime (src/runtime/preload.cpp and
    [SetupState] of runtime.cpp): the built-in modules in package.preload, the
    path of other modules, print, and the prelude. The C modules, the sources of
    the embedded ones and what Lua makes of a source are outside ([LuaLibs]). *)
From stdpp Require Import base tactics list gmap strings.
From Stdlib Require Import ZArith Lia.
From S2P Require Import Prelude.
From S2P Require Import LuaValue.
From S2P Require Import Invoker.
From S2P Require Import Config.
Open Scope Z_scope.

(** [embedded::Module]: the source is its bytes. *)
Record Module := mkModule { m_name : string; m_chunkname : string; m_source : string }.

(** An entry of package.preload: the open function of a C module, [LoadEmbedded]
    with its upvalue, [ReturnUpvalue] with its upvalue, or any other value a
    script or a module put there. *)
Inductive loader :=
  | COpen (module : string)
  | LoadEmbedded (index : Z)
  | ReturnUpvalue (value : lua_value)
  | Foreign (value : lua_value).

(** The Lua state as far as it is set up here; [lua_rest] is the rest. *)
Record LuaState (H : Type) := mkLua
  { preload : gmap string loader; lua_path : lua_value; lua_print : bool; lua_rest : H }.
Arguments mkLua {H}.
Arguments preload {H}.
Arguments lua_path {H}.
Arguments lua_print {H}.
Arguments lua_rest {H}.

(** What runs in a protected call of Lua: it gives a value, or raises one; or
    it is undefined. *)
Definition lua (H A : Type) : Type := LuaState H -> outcome (lua_value + A) * LuaState H.
Definition lret {H A} (a : A) : lua H A := fun L => (Ret (inr a), L).
Definition lraise {H A} (e : lua_value) : lua H A := fun L => (Ret (inl e), L).
Definition lbind {H A B} (m : lua H A) (k : A -> lua H B) : lua H B := fun L =>
  match m L with
  | (Ret (inr a), L) => k a L
  | (Ret (inl e), L) => (Ret (inl e), L)
  | (Throw e, L) => (Throw e, L)
  | (UB, L) => (UB, L)
  end.
Definition lmodify {H} (f : LuaState H -> LuaState H) : lua H unit := fun L => (Ret (inr tt), f L).

(** The embedded modules; [luaL_openlibs]; a C module's open function;
    [luaL_loadbufferx] in text mode; a call of a function; [luaL_tolstring]. *)
Class LuaLibs (H : Type) := {
  Modules : list Module;
  luaL_openlibs : LuaState H -> LuaState H;
  luaopen : string -> list lua_value -> lua H lua_value;
  luaL_loadbufferx : string -> string -> lua_value + Z;
  lua_call : Z -> list lua_value -> lua H lua_value;
  call_value : lua_value -> list lua_value -> lua H lua_value;
  luaL_tolstring : lua_value -> lua H string
}.

Definition set_preload {H} (name : string) (l : loader) (L : LuaState H) : LuaState H :=
  mkLua (<[name := l]> (preload L)) (lua_path L) (lua_print L) (lua_rest L).
Definition set_path {H} (path : string) (L : LuaState H) : LuaState H :=
  mkLua (preload L) (LString path) (lua_print L) (lua_rest L).
Definition set_print {H} (L : LuaState H) : LuaState H :=
  mkLua (preload L) (lua_path L) true (lua_rest L).

(** ** preload.cpp *)

(** [kCModules]: each with the function [luaopen_...] of its name. *)
Definition kCModules : list string :=
  ["lfs"; "cjson"; "cjson.safe"; "socket.core"; "mime.core"; "luasql.sqlite3"; "luasql.postgres";
   "luasql.mysql"].

Definition kInternalPrefix : string := "vcmp-lua/".
(** [Internal(module)]. *)
Definition Internal (m : Module) : bool := String.prefix kInternalPrefix (m_name m).

Section setup.
Context {H : Type} {libs : LuaLibs H}.
Implicit Types (L : LuaState H).

(** The loaders, called by [require] with the name and the loader data. *)
Definition load_embedded (index : Z) (args : list lua_value) : lua H lua_value :=
  if index <? 0 then fun L => (UB, L) else
  match Modules !! Z.to_nat index with
  | None => fun L => (UB, L)
  | Some m =>
      match luaL_loadbufferx (m_source m) (m_chunkname m) with
      | inl e => lraise e
      | inr f => lua_call f args
      end
  end.
Definition run_loader (l : loader) (args : list lua_value) : lua H lua_value :=
  match l with
  | COpen module => luaopen module args
  | LoadEmbedded index => load_embedded index args
  | ReturnUpvalue v => lret v
  | Foreign v => call_value v args
  end.

(** The two loops of [RegisterBuiltins(L)]. *)
Definition register_c (L : LuaState H) : LuaState H :=
  fold_left (fun L name => set_preload name (COpen name) L) kCModules L.
Fixpoint register_embedded (i : Z) (ms : list Module) (L : LuaState H) : LuaState H :=
  match ms with
  | [] => L
  | m :: ms =>
      register_embedded (i + 1) ms
        (if Internal m then L else set_preload (m_name m) (LoadEmbedded i) L)
  end.
Definition RegisterBuiltins (L : LuaState H) : LuaState H :=
  register_embedded 0 Modules (register_c L).

(** [RunPrelude(L)]: the first module of the name. *)
Fixpoint run_prelude (ms : list Module) : lua H lua_value :=
  match ms with
  | [] => lraise (LString "the prelude is not embedded")
  | m :: ms =>
      if negb (String.eqb (m_name m) "vcmp-lua/prelude") then run_prelude ms
      else
        match luaL_loadbufferx (m_source m) (m_chunkname m) with
        | inl e => lraise e
        | inr f => lua_call f []
        end
  end.
Definition RunPrelude : lua H lua_value := run_prelude Modules.

(** [PreloadValue(lua, name, value)]. *)
Definition PreloadValue (name : string) (value : lua_value) (L : LuaState H) : LuaState H :=
  set_preload name (ReturnUpvalue value) L.

(** ** runtime.cpp *)

(** The loop of [Print(L)] from its [i]-th argument on, and the line it logs. *)
Fixpoint print_from (first : bool) (args : list lua_value) : lua H string :=
  match args with
  | [] => lret ""
  | v :: args =>
      lbind (luaL_tolstring v) (fun s =>
      lbind (print_from false args) (fun rest =>
        lret ((if first then "" else String.String (Ascii.ascii_of_nat 9) "") +:+ s +:+ rest)))
  end.
Definition Print (args : list lua_value) : lua H string := print_from true args.

(** [SetupState(L)]. *)
Definition SetupState (config : Config) : lua H lua_value :=
  lbind (lmodify luaL_openlibs) (fun _ =>
  lbind (lmodify RegisterBuiltins) (fun _ =>
  lbind (lmodify (set_path (package_path config))) (fun _ =>
  lbind (lmodify set_print) (fun _ => RunPrelude)))).

(** The constructor's protected call of it: the table of the prelude. *)
Definition setup_lua {lib : LuaLib} (config : Config) (L : LuaState H)
    : outcome lua_value * LuaState H :=
  match SetupState config L with
  | (Ret (inr prelude), L) => (Ret prelude, L)
  | (Ret (inl e), L) =>
      (Throw (RuntimeError ("cannot set up the Lua state: " +:+ ProtectedCall_error e)), L)
  | (Throw e, L) => (Throw e, L)
  | (UB, L) => (UB, L)
  end.

(** The entries [bindings::Register] adds: the modules http and hash. *)
Definition register_bindings (http hash : lua_value) (L : LuaState H) : LuaState H :=
  PreloadValue "hash" hash (PreloadValue "http" http L).

(** ** What is preloaded *)

(** The last embedded module of a name that is not the runtime's own. *)
Fixpoint embedded_index (i : Z) (ms : list Module) (n : string) : option Z :=
  match ms with
  | [] => None
  | m :: ms =>
      match embedded_index (i + 1) ms n with
      | Some j => Some j
      | None => if bool_decide (m_name m = n) && negb (Internal m) then Some i else None
      end
  end.

(** The loader of a built-in module: the bindings' tables, the embedded modules,
    the C modules, in this order of precedence. *)
Definition builtin (http hash : lua_value) (n : string) : option loader :=
  if decide (n = "hash") then Some (ReturnUpvalue hash)
  else if decide (n = "http") then Some (ReturnUpvalue http)
  else match embedded_index 0 Modules n with
       | Some i => Some (LoadEmbedded i)
       | None => if decide (n ∈ kCModules) then Some (COpen n) else None
       end.

Lemma register_c_lookup L n :
  preload (register_c L) !! n = if decide (n ∈ kCModules) then Some (COpen n) else preload L !! n.
Proof.
  unfold register_c. generalize kCModules as names. intros names. revert L.
  induction names as [|m names IH]; intros L; cbn [fold_left]; [done|]. rewrite IH. cbn [set_preload preload].
  destruct (decide (n ∈ names)) as [Hn|Hn].
  - rewrite decide_True by (by right). done.
  - destruct (decide (n = m)) as [->|Hne].
    + rewrite lookup_insert_eq, decide_True by (by left). done.
    + rewrite lookup_insert_ne by done. by rewrite decide_False by (intros [?|?]%elem_of_cons; done).
Qed.

Lemma register_embedded_lookup i ms L n :
  preload (register_embedded i ms L) !! n =
    match embedded_index i ms n with Some j => Some (LoadEmbedded j) | None => preload L !! n end.
Proof.
  revert i L. induction ms as [|m ms IH]; intros i L; cbn [register_embedded embedded_index]; [done|].
  rewrite IH. destruct (embedded_index (i + 1) ms n); [done|]. case_bool_decide as Hn; simpl.
  - subst. destruct (Internal m); [done|]. apply lookup_insert_eq.
  - destruct (Internal m); [done|]. by apply lookup_insert_ne.
Qed.

Lemma embedded_index_spec i ms n j :
  embedded_index i ms n = Some j ->
  i <= j /\ exists m, ms !! Z.to_nat (j - i) = Some m /\ m_name m = n /\ Internal m = false.
Proof.
  revert i. induction ms as [|m ms IH]; intros i; cbn [embedded_index]; [done|].
  destruct (embedded_index (i + 1) ms n) as [j'|] eqn:E.
  - intros [= ->]. destruct (IH _ E) as (Hj & m' & Hm & Hn). split; [lia|]. exists m'. split; [|done].
    replace (Z.to_nat (j - i)) with (S (Z.to_nat (j - (i + 1)))) by lia. exact Hm.
  - case_bool_decide as Hn; [|done]. destruct (Internal m) eqn:Hi; [done|]. intros [= ->].
    split; [lia|]. exists m. by replace (Z.to_nat (j - j)) with 0%nat by lia.
Qed.

Lemma embedded_index_total i ms m :
  m ∈ ms -> Internal m = false -> is_Some (embedded_index i ms (m_name m)).
Proof.
  revert i. induction ms as [|m' ms IH]; intros i Hm Hi; [by apply elem_of_nil in Hm|].
  cbn [embedded_index]. apply elem_of_cons in Hm as [->|Hm].
  - destruct (embedded_index _ _ _); [by eexists|]. rewrite bool_decide_true by done. rewrite Hi. by eexists.
  - destruct (IH (i + 1) Hm Hi) as [j ->]. by eexists.
Qed.

(** The modules of docs/api/modules.md. *)
Definition doc_modules : list string :=
  ["http"; "hash"; "sql"; "luasql.sqlite3"; "luasql.postgres"; "luasql.mysql"; "cjson"; "cjson.safe";
   "socket"; "socket.http"; "socket.url"; "socket.ftp"; "socket.smtp"; "socket.headers"; "socket.tp";
   "ltn12"; "mime"; "copas"; "copas.http"; "copas.timer"; "copas.lock"; "copas.queue";
   "copas.semaphore"; "copas.future"; "copas.ftp"; "copas.smtp"; "binaryheap"; "timerwheel"; "lfs";
   "inspect"].

(** The modules the build embeds (cmake/deps, src/CMakeLists.txt). *)
Definition embedded_names : list string :=
  ["socket"; "socket.ftp"; "socket.headers"; "socket.http"; "socket.smtp"; "socket.tp"; "socket.url";
   "ltn12"; "mime"; "copas"; "copas.ftp"; "copas.future"; "copas.http"; "copas.lock"; "copas.queue";
   "copas.semaphore"; "copas.smtp"; "copas.timer"; "binaryheap"; "timerwheel"; "inspect"; "coxpcall";
   "sql"; "vcmp-lua/prelude"].

Lemma doc_modules_built_in n :
  n ∈ doc_modules ->
  n ∈ "http" :: "hash" :: kCModules \/ (n ∈ embedded_names /\ String.prefix kInternalPrefix n = false).
Proof.
  revert n. apply Forall_forall. unfold doc_modules.
  repeat (apply Forall_cons_2; [apply (bool_decide_unpack _); vm_compute; exact I|]). apply Forall_nil_2.
Qed.

(** What is assumed of Lua: a state whose libraries were just opened has no
    preloaded module, and the prelude leaves package.preload as it is. *)
Definition openlibs_preload : Prop := forall L, preload (luaL_openlibs L) = ∅.
Definition prelude_keeps_preload : Prop := forall m f L,
  m ∈ Modules -> m_name m = "vcmp-lua/prelude" -> luaL_loadbufferx (m_source m) (m_chunkname m) = inr f ->
  preload (snd (lua_call f [] L)) = preload L.

Lemma RunPrelude_preload L : prelude_keeps_preload -> preload (snd (RunPrelude L)) = preload L.
Proof.
  intros Hp. unfold RunPrelude. unfold prelude_keeps_preload in Hp. revert Hp.
  generalize Modules as ms. induction ms as [|m ms IH]; intros Hp; cbn [run_prelude]; [done|].
  destruct (String.eqb_spec (m_name m) "vcmp-lua/prelude") as [E|E]; cbn [negb].
  - destruct (luaL_loadbufferx _ _) as [e|f] eqn:Ef; [done|]. by apply (Hp m); [left| |].
  - apply IH. intros m' f L' Hm. apply Hp. by right.
Qed.

Lemma SetupState_preload config L :
  openlibs_preload -> prelude_keeps_preload ->
  preload (snd (SetupState config L)) = preload (RegisterBuiltins (luaL_openlibs L)).
Proof.
  intros Ho Hp. unfold SetupState, lbind, lmodify. by rewrite RunPrelude_preload.
Qed.

(** C19: Once the Lua state of a runtime is set up, package.preload holds exactly
    the built-in modules: the bindings' http and hash, the embedded modules but
    the runtime's own, and the C modules; every module docs/api/modules.md names
    is one of them. The loader of an embedded module loads its own source under
    its own chunk name: the index it was registered with is inside the array. *)
Theorem builtin_modules_are_preloaded {lib : LuaLib} config L prelude L1 http hash :
  openlibs_preload -> prelude_keeps_preload -> setup_lua config L = (Ret prelude, L1) ->
  let L2 := register_bindings http hash L1 in
  (forall n, preload L2 !! n = builtin http hash n) /\
  (forall n i, preload L2 !! n = Some (LoadEmbedded i) ->
     exists m, m ∈ Modules /\ m_name m = n /\ Internal m = false /\
       forall args, run_loader (LoadEmbedded i) args =
         match luaL_loadbufferx (m_source m) (m_chunkname m) with
         | inl e => lraise e | inr f => lua_call f args end) /\
  (m_name <$> Modules = embedded_names -> forall n, n ∈ doc_modules -> is_Some (preload L2 !! n)).
Proof.
  intros Ho Hp Hs L2. assert (forall n, preload L2 !! n = builtin http hash n) as Hall.
  { intros n. unfold L2, register_bindings, PreloadValue, set_preload, builtin. cbn [preload].
    rewrite !lookup_insert. repeat (case_decide; [subst; by try congruence|]).
    assert (preload L1 = preload (RegisterBuiltins (luaL_openlibs L))) as ->.
    { rewrite <- (SetupState_preload config) by done. unfold setup_lua in Hs.
      by destruct (SetupState config L) as [[[e|v]|e|] L']; simplify_eq. }
    unfold RegisterBuiltins. rewrite register_embedded_lookup, register_c_lookup, Ho, lookup_empty. done. }
  split_and!; [exact Hall| |].
  - intros n i Hi. rewrite Hall in Hi. unfold builtin in Hi. repeat (case_decide; [by simplify_eq|]).
    destruct (embedded_index 0 Modules n) as [j|] eqn:E; [|by case_decide; simplify_eq]. injection Hi as ->.
    destruct (embedded_index_spec _ _ _ _ E) as (Hj & m & Hm & Hn & Hint). exists m.
    split_and!; [by eapply list_elem_of_lookup_2|done|done|]. intros args. unfold run_loader, load_embedded.
    rewrite (proj2 (Z.ltb_ge i 0)) by lia. replace (i - 0) with i in Hm by lia. by rewrite Hm.
  - intros Hnames n Hn. rewrite Hall. unfold builtin. repeat (case_decide; [by eexists|]).
    destruct (doc_modules_built_in n Hn) as [[|[|Hc]%elem_of_cons]%elem_of_cons|[Hin Hi]]; [done..| |].
    + destruct (embedded_index 0 Modules n); [by eexists|]. rewrite decide_True by done. by eexists.
    + rewrite <- Hnames in Hin. apply list_elem_of_fmap in Hin as (m & -> & Hm).
      destruct (embedded_index_total 0 Modules m Hm Hi) as [j ->]. by eexists.
Qed.
End setup.

(** ** A concrete set of libraries *)

(** Every source loads as the function of its length; a call gives nil. *)
Definition demo_modules : list Module :=
  (fun n => mkModule n ("@builtin/" +:+ n +:+ ".lua") "return {}") <$> embedded_names.
#[local] Instance demo_libs : LuaLibs unit := {|
  Modules := demo_modules;
  luaL_openlibs L := mkLua ∅ (LString "./?.lua") false tt;
  luaopen n args := lret LNil;
  luaL_loadbufferx source chunkname := inr (Z.of_nat (String.length source));
  lua_call f args := lret LNil;
  call_value v args := lret LNil;
  luaL_tolstring v := lret "text"
|}.

Lemma builtin_modules_are_preloaded_witness :
  exists L1, setup_lua (lib := plain_lib) default_config (mkLua ∅ LNil false tt) = (Ret LNil, L1) /\
    let L2 := register_bindings (LTable 1 []) (LTable 2 []) L1 in
    preload L2 !! "socket.http" = Some (LoadEmbedded 3) /\ preload L2 !! "vcmp-lua/prelude" = None /\
    is_Some (preload L2 !! "luasql.mysql").
Proof.
  exists (snd (setup_lua (lib := plain_lib) default_config (mkLua ∅ LNil false tt))).
  assert (setup_lua (lib := plain_lib) default_config (mkLua ∅ LNil false tt) =
    (Ret LNil, snd (setup_lua (lib := plain_lib) default_config (mkLua ∅ LNil false tt)))) as E by reflexivity.
  split; [exact E|].
  destruct (builtin_modules_are_preloaded (libs := demo_libs) (lib := plain_lib) default_config (mkLua ∅ LNil false tt) LNil _
    (LTable 1 []) (LTable 2 []) ltac:(intros L; reflexivity) ltac:(intros m f L _ _ _; reflexivity) E) as (Hall & _ & Hdoc).
  intros L2. split_and!; [rewrite Hall; reflexivity..|].
  apply Hdoc; [reflexivity|]. apply (bool_decide_unpack _). vm_compute. exact I.
Defined.

(** print("a", "b"): the texts are separated by tabs. *)
Lemma Print_demo L : fst (Print [LNil; LNil] L) =
  Ret (inr ("text" +:+ String.String (Ascii.ascii_of_nat 9) "" +:+ "text")).
Proof. reflexivity. Qed.
