(* ===== verification/Http.v ===== *)
(** The http module (src/modules/http.hpp, http.cpp): checking a request,
    parsing response headers, the size and count limits, and calling back.
    libcurl is outside: what it reports arrives as data and events. *)
From stdpp Require Import base tactics list gmap strings pretty.
From Stdlib Require Import ZArith Lia Floats.SpecFloat.
From S2P Require Import Prelude.
From S2P Require Import Text.
From S2P Require Import EntityPool.
From S2P Require Import LuaValue.
From S2P Require Import Args.
From S2P Require Import Invoker.
Open Scope Z_scope.

(** ** Checking a request *)

(** [Http::Request]. *)
Record Request := mkRequest
  { url : string; method : string; headers : list string; req_body : string; has_body : bool;
    timeout_ms : Z; max_redirects : Z }.

Definition default_request : Request := mkRequest "" "" [] "" false 30000 5.

Definition kMaxPending : Z := 1000.
Definition kMaxBody : Z := 16 * 1024 * 1024.

Definition kFields : list string := ["url"; "method"; "headers"; "body"; "timeout"; "redirects"].

(** [TokenChar(c)]. *)
Definition token_punctuation : list Ascii.ascii :=
  string_to_list "!#$%&'*+-.^_`|~".
Definition TokenChar (c : Ascii.ascii) : bool :=
  isalnum c || bool_decide (c ∈ token_punctuation).

Definition line_break_or_nul (c : Ascii.ascii) : bool :=
  bool_decide (c = char 13) || bool_decide (c = char 10) || bool_decide (c = char 0).

(** [static_cast<std::int64_t>] of a double: towards zero. *)
Definition truncate (f : spec_float) : Z :=
  match f with
  | S754_finite s m e =>
      let v := if s then Z.neg m else Z.pos m in
      if 0 <=? e then v * 2 ^ e else Z.quot v (2 ^ (- e))
  | _ => 0
  end.

Definition f64 (z : Z) : spec_float := int_to_float64 z.

Section request.
Context {lib : LuaLib} (luaL_tolstring : lua_value -> string) (L : lua_State).

(** [TypeName] of the value on top of the stack. *)
Definition TypeNameOf (v : lua_value) : string :=
  match v with LHandle h => type_name (Traits (h_kind h)) | _ => typename (type_of v) end.

Definition FieldError (field expected : string) (v : lua_value) : exn :=
  ArgError L 1 ("field '" +:+ field +:+ "' must be " +:+ expected +:+
                " (got " +:+ TypeNameOf v +:+ ")").

Definition CheckUrl (u : string) : outcome unit :=
  let scheme := lowercase (match before_first (string_to_list "://") (string_to_list u) with
                           | Some before => string_of_list before
                           | None => u
                           end) in
  throw_if (bool_decide (before_first (string_to_list "://") (string_to_list u) = None)
            || (negb (String.eqb scheme "http") && negb (String.eqb scheme "https")))
    (ArgError L 1 "the URL must start with http:// or https://").

(** One header of the table: its name and value checked, and the line for libcurl. *)
Definition read_header (k v : lua_value) : outcome string :=
  match k with
  | LString name =>
      if String.eqb name "" || negb (all_chars TokenChar name)
      then Throw (ArgError L 1 ("invalid header name '" +:+ name +:+ "'"))
      else
        match v with
        | LString _ | LInt _ | LFloat _ =>
            let value := default "" (tostring v) in
            if any_char line_break_or_nul value
            then Throw (ArgError L 1 ("header '" +:+ name +:+ "' contains a line break or NUL"))
            else Ret (if String.eqb value "" then name +:+ ";" else name +:+ ": " +:+ value)
        | _ => Throw (ArgError L 1 ("header '" +:+ name +:+ "' must be a string (got " +:+
                                    TypeNameOf v +:+ ")"))
        end
  | _ => Throw (ArgError L 1 "header names must be strings")
  end.

(** [ReadHeaders(L, request)]. *)
Fixpoint ReadHeaders (entries : list (lua_value * lua_value)) : outcome (list string) :=
  match entries with
  | [] => Ret []
  | (k, v) :: entries => h ← read_header k v; hs ← ReadHeaders entries; Ret (h :: hs)
  end.

(** The loop over the table's keys. *)
Fixpoint check_fields (entries : list (lua_value * lua_value)) : outcome unit :=
  match entries with
  | [] => Ret tt
  | (k, _) :: entries =>
      match k with
      | LString name =>
          if bool_decide (name ∈ kFields) then check_fields entries
          else Throw (ArgError L 1 ("unknown field '" +:+ luaL_tolstring k +:+ "'"))
      | _ => Throw (ArgError L 1 ("unknown field '" +:+ luaL_tolstring k +:+ "'"))
      end
  end.

Definition read_url (v : lua_value) : outcome string :=
  match v with
  | LString u => _ ← CheckUrl u; Ret u
  | _ => Throw (FieldError "url" "a string" v)
  end.

Definition read_body (v : lua_value) : outcome (option string) :=
  match v with
  | LNil => Ret None
  | LString b => Ret (Some b)
  | _ => Throw (FieldError "body" "a string" v)
  end.

Definition read_method (v : lua_value) (with_body : bool) : outcome string :=
  m ← match v with
      | LNil => Ret (if with_body then "POST" else "GET")
      | LString m => Ret m
      | _ => Throw (FieldError "method" "a string" v)
      end;
  let m := uppercase m in
  _ ← throw_if (String.eqb m "" || (16 <? Z.of_nat (String.length m)) || negb (all_chars is_upper m))
        (ArgError L 1 ("invalid method '" +:+ m +:+ "'"));
  _ ← throw_if (with_body && (String.eqb m "GET" || String.eqb m "HEAD"))
        (ArgError L 1 ("a " +:+ m +:+ " request has no body"));
  Ret m.

Definition read_headers_field (v : lua_value) : outcome (list string) :=
  match v with
  | LNil => Ret []
  | LTable _ entries => ReadHeaders entries
  | _ => Throw (FieldError "headers" "a table" v)
  end.

Definition read_timeout (v : lua_value) : outcome Z :=
  match v, to_number v with
  | LNil, _ => Ret (timeout_ms default_request)
  | _, Some seconds =>
      if negb (SFltb (f64 0) seconds && SFleb seconds (f64 3600))
      then Throw (ArgError L 1 "field 'timeout' must be between 0 and 3600 seconds")
      else Ret (Z.max 1 (truncate (SFmul f64_prec f64_emax seconds (f64 1000))))
  | _, None => Throw (FieldError "timeout" "a number of seconds" v)
  end.

Definition read_redirects (v : lua_value) : outcome Z :=
  match v, to_number v with
  | LNil, _ => Ret (max_redirects default_request)
  | _, Some redirects =>
      if negb (SFleb (f64 0) redirects && SFleb redirects (f64 20))
         || bool_decide (float_to_Z redirects = None)
      then Throw (ArgError L 1 "field 'redirects' must be an integer between 0 and 20")
      else Ret (truncate redirects)
  | _, None => Throw (FieldError "redirects" "an integer" v)
  end.

(** [ReadRequest(L)]. *)
Definition ReadRequest : outcome Request :=
  match at_index L 1 with
  | Some (LString u) =>
      _ ← CheckUrl u; Ret (mkRequest u "GET" [] "" false 30000 5)
  | Some (LTable _ entries) =>
      _ ← check_fields entries;
      u ← read_url (rawgets entries "url");
      b ← read_body (rawgets entries "body");
      m ← read_method (rawgets entries "method") (bool_decide (is_Some b));
      h ← read_headers_field (rawgets entries "headers");
      t ← read_timeout (rawgets entries "timeout");
      r ← read_redirects (rawgets entries "redirects");
      Ret (mkRequest u m h (default "" b) (bool_decide (is_Some b)) t r)
  | _ => Throw (TypeError L 1 "table or URL")
  end.
End request.

(** ** A transfer *)

Record Transfer := mkTransfer
  { t_callback : Z; t_result : Z; t_error : string; too_large : bool;
    response_headers : list (string * string); t_body : string }.

Definition new_transfer (callback : Z) : Transfer := mkTransfer callback 0 "" false [] "".

Definition is_crlf (c : Ascii.ascii) : bool :=
  bool_decide (c = char 13) || bool_decide (c = char 10).
Definition is_blank (c : Ascii.ascii) : bool :=
  bool_decide (c = char 32) || bool_decide (c = char 9).

(** What one header line does to the headers: [Transfer::Header]. *)
Definition parse_header (line : string) (hs : list (string * string)) : list (string * string) :=
  let line := drop_while_end is_crlf (string_to_list line) in
  if starts_with (string_to_list "HTTP/") line then []
  else
    match split_at (is_char (char 58)) line with
    | (_, []) | ([], _) => hs
    | (name, _ :: value) =>
        hs ++ [(string_of_list (tolower <$> name),
                string_of_list (drop_while_end is_blank (drop_while is_blank value)))]
    end.

Definition Header (line : string) (t : Transfer) : Transfer :=
  mkTransfer (t_callback t) (t_result t) (t_error t) (too_large t)
    (parse_header line (response_headers t)) (t_body t).

(** [Transfer::Write]: what it returns to libcurl, and the transfer. *)
Definition Write (data : string) (t : Transfer) : Z * Transfer :=
  let n := Z.of_nat (String.length data) in
  if kMaxBody <? Z.of_nat (String.length (t_body t)) + n
  then (0, mkTransfer (t_callback t) (t_result t) (t_error t) true (response_headers t) (t_body t))
  else (n, mkTransfer (t_callback t) (t_result t) (t_error t) (too_large t) (response_headers t)
              (t_body t +:+ data)).

(** The response's header table: repeated headers joined. *)
Definition add_header (hs : gmap string string) (h : string * string) : gmap string string :=
  <[h.1 := match hs !! h.1 with Some old => old +:+ ", " +:+ h.2 | None => h.2 end]> hs.
Definition join_headers (hs : list (string * string)) : gmap string string :=
  fold_left add_header hs ∅.

(** ** The component *)

(** [Http]: [cafile_], [transfers_] and [next_id_]; the easy handles stay with
    libcurl. *)
Record Http := mkHttp { h_cafile : string; transfers : gmap Z Transfer; next_id : Z }.

Definition new_http (cafile : string) : Http := mkHttp cafile ∅ 1.

Definition Pending (h : Http) : Z := Z.of_nat (size (transfers h)).

(** The libcurl options of a request, in the order they are set (Linux);
    [bundle] is
    [DistributionCaBundle()], [kVersion] the version the build generates. *)
Inductive opt_value := OLong (z : Z) | OText (s : string) | ONull | OCaBlob | OHandle
  | OList (l : list string).

Definition curl_options (kVersion cafile : string) (bundle : option string) (r : Request)
    : list (string * opt_value) :=
  [ ("PRIVATE", OHandle); ("ERRORBUFFER", OHandle); ("NOSIGNAL", OLong 1);
    ("URL", OText (url r)); ("PROTOCOLS_STR", OText "http,https");
    ("REDIR_PROTOCOLS_STR", OText "http,https");
    ("FOLLOWLOCATION", OLong (if 0 <? max_redirects r then 1 else 0));
    ("MAXREDIRS", OLong (max_redirects r)); ("TIMEOUT_MS", OLong (timeout_ms r));
    ("CONNECTTIMEOUT_MS", OLong (Z.min 10000 (timeout_ms r)));
    ("USERAGENT", OText ("VCMP-Lua/" +:+ kVersion)); ("ACCEPT_ENCODING", OText "");
    ("MAXFILESIZE_LARGE", OLong kMaxBody); ("WRITEFUNCTION", OHandle); ("WRITEDATA", OHandle);
    ("HEADERFUNCTION", OHandle); ("HEADERDATA", OHandle);
    ("SSL_VERIFYPEER", OLong 1); ("SSL_VERIFYHOST", OLong 2) ] ++
  (if negb (String.eqb cafile "") then [("CAINFO", OText cafile); ("CAPATH", ONull)]
   else ("CAPATH", ONull) ::
     match bundle with
     | Some b => [("CAINFO", OText b)]
     | None => [("CAINFO", ONull); ("CAINFO_BLOB", OCaBlob)]
     end) ++
  (match headers r with [] => [] | hs => [("HTTPHEADER", OList hs)] end) ++
  (if String.eqb (method r) "HEAD" then [("NOBODY", OLong 1)]
   else if negb (String.eqb (method r) "GET") && negb (String.eqb (method r) "POST")
   then [("CUSTOMREQUEST", OText (method r))] else []) ++
  (if has_body r then [("POSTFIELDSIZE_LARGE", OLong (Z.of_nat (String.length (req_body r))));
                       ("COPYPOSTFIELDS", OText (req_body r))]
   else if String.eqb (method r) "POST"
   then [("POSTFIELDSIZE_LARGE", OLong 0); ("COPYPOSTFIELDS", OText "")] else []).

(** [kCaBundles] and [DistributionCaBundle()]: the first one that is readable. *)
Definition kCaBundles : list string :=
  [ "/etc/ssl/certs/ca-certificates.crt"; "/etc/pki/tls/certs/ca-bundle.crt";
    "/etc/pki/ca-trust/extracted/pem/tls-ca-bundle.pem"; "/etc/ssl/ca-bundle.pem"; "/etc/ssl/cert.pem";
    "/etc/pki/tls/cacert.pem" ].
Fixpoint first_readable (readable : string -> bool) (paths : list string) : option string :=
  match paths with
  | [] => None
  | path :: paths => if readable path then Some path else first_readable readable paths
  end.
Definition DistributionCaBundle (readable : string -> bool) : option string :=
  first_readable readable kCaBundles.

(** What libcurl goes by: the last value an option was set to. *)
Definition effective (options : list (string * opt_value)) (name : string) : option opt_value :=
  fold_left (fun v '(n, x) => if String.eqb n name then Some x else v) options None.

(** [Start(request, callback)]: [refused] is the error text when libcurl
    creates no handle, refuses an option or does not add the handle; the id
    has been used up then. *)
Definition Start (refused : option string) (h : Http) (callback : Z) : outcome unit * Http :=
  if kMaxPending <=? Pending h
  then (Throw (RuntimeError ("http.request: " +:+ pretty kMaxPending +:+
                             " requests are pending already")), h)
  else
    let id := next_id h in
    let h := mkHttp (h_cafile h) (transfers h) (id + 1) in
    match refused with
    | Some text => (Throw (RuntimeError ("http.request: " +:+ text)), h)
    | None => (Ret tt, mkHttp (h_cafile h) (<[id := new_transfer callback]> (transfers h)) (next_id h))
    end.

Definition Http_Clear (h : Http) : Http := mkHttp (h_cafile h) ∅ (next_id h).

(** What libcurl does during one [curl_multi_perform] and reports after it. *)
Inductive curl_event := EHeader (line : string) | EData (data : string).
Record curl_message := mkMessage
  { m_id : Z; m_result : Z; m_error : string; m_strerror : string; m_status : Z;
    m_url : option string }.
Record curl_report := mkReport
  { perform_error : option string; events : list (Z * curl_event); messages : list curl_message }.

Definition apply_event (ts : gmap Z Transfer) (e : Z * curl_event) : gmap Z Transfer :=
  alter (fun t => match e.2 with EHeader line => Header line t | EData data => snd (Write data t) end)
    e.1 ts.

(** The message loop: the finished transfers move out of [transfers_]. *)
Fixpoint collect (ms : list curl_message) (ts : gmap Z Transfer)
    : outcome (list (curl_message * Transfer) * gmap Z Transfer) :=
  match ms with
  | [] => Ret ([], ts)
  | m :: ms =>
      match ts !! m_id m with
      | None => UB
      | Some t =>
          '(done, ts) ← collect ms (delete (m_id m) ts); Ret ((m, t) :: done, ts)
      end
  end.

(** A state that owns the component. [new_obj] is the identity the Lua
    allocator gives a new table. *)
Class HasHttp (W : Type) `{LuaHost W} := {
  get_http : W -> Http;
  set_http : Http -> W -> W;
  new_obj : nat -> W -> Z;
  get_set_http h w : get_http (set_http h w) = h;
  get_http_invoker i w : get_http (set_invoker i w) = get_http w;
  get_http_log l s w : get_http (log_line l s w) = get_http w
}.

Section pump.
Context {W : Type} `{HasHttp W} {lib : LuaLib}.
Implicit Types (w : W).

(** The arguments of the callback: [(response, nil)] or [(nil, error)]. *)
Definition response_args (m : curl_message) (t : Transfer) : prog W (list lua_value) := fun w =>
  if negb (checkstack 6 w) then (Throw (RuntimeError "Lua stack overflow"), w)
  else if negb (m_result m =? 0) then
    (Ret [LNil; LString (if too_large t then
                           "the response body is larger than " +:+ pretty kMaxBody +:+ " bytes"
                         else if negb (String.eqb (m_error m) "") then m_error m
                         else m_strerror m)], w)
  else
    (Ret [LTable (new_obj 0 w)
            [ (LString "status", LInt (m_status m));
              (LString "url", LString (default "" (m_url m)));
              (LString "body", LString (t_body t));
              (LString "headers",
               LTable (new_obj 1 w)
                 ((fun e => (LString e.1, LString e.2)) <$>
                    map_to_list (join_headers (response_headers t)))) ];
          LNil], w).

(** [Complete(L, transfer)]. *)
Definition Complete (mt : curl_message * Transfer) : prog W unit :=
  pbind (Call (t_callback mt.2) "http.request callback" (response_args mt.1 mt.2)) (fun _ => pret tt).

Fixpoint complete_all (done : list (curl_message * Transfer)) : prog W unit :=
  match done with
  | [] => pret tt
  | mt :: done => pbind (Complete mt) (fun _ => complete_all done)
  end.

(** The part of [Pump] before the callbacks. *)
Definition pump_collect (r : curl_report) (w : W)
    : outcome (list (curl_message * Transfer)) * W :=
  let ts := fold_left apply_event (events r) (transfers (get_http w)) in
  let w := match perform_error r with
           | Some text => log_line Lerr ("http: curl_multi_perform failed: " +:+ text) w
           | None => w
           end in
  match collect (messages r) ts with
  | Ret (done, ts) =>
      (Ret done, set_http (mkHttp (h_cafile (get_http w)) ts (next_id (get_http w))) w)
  | Throw e => (Throw e, w)
  | UB => (UB, w)
  end.

(** [Pump(L)]. *)
Definition Pump (r : curl_report) : prog W unit := fun w =>
  if decide (transfers (get_http w) = ∅) then (Ret tt, w)
  else
    match pump_collect r w with
    | (Ret [], w) => (Ret tt, w)
    | (Ret done, w) => let '(o, w) := complete_all done (enter w) in (o, leave w)
    | (Throw e, w) => (Throw e, w)
    | (UB, w) => (UB, w)
    end.
End pump.

(** ** Checking a request: properties *)

(** A request whose parts cannot break the HTTP message. *)
Definition header_line_ok (h : string) : Prop :=
  (forall c, c ∈ string_to_list h -> line_break_or_nul c = false) /\
  exists name, name <> "" /\ all_chars TokenChar name = true /\
    (h = name +:+ ";" \/ exists value, value <> "" /\ h = name +:+ ": " +:+ value).

Record request_ok (r : Request) : Prop := mkRequestOk
  { rok_scheme : exists scheme rest,
      string_to_list (url r) = scheme ++ string_to_list "://" ++ rest /\
      (lowercase (string_of_list scheme) = "http" \/ lowercase (string_of_list scheme) = "https");
    rok_method : method r <> "" /\ Z.of_nat (String.length (method r)) <= 16 /\
      all_chars is_upper (method r) = true;
    rok_body : has_body r = true -> method r <> "GET" /\ method r <> "HEAD";
    rok_headers h : h ∈ headers r -> header_line_ok h;
    rok_timeout : 1 <= timeout_ms r;
    rok_redirects : 0 <= max_redirects r <= 20 }.

Lemma before_first_spec needle l a :
  before_first needle l = Some a -> exists rest, l = a ++ needle ++ rest.
Proof.
  revert a. induction l as [|c l IH]; intros a; simpl.
  - destruct (starts_with needle []) eqn:E; [|done]. intros [= <-].
    by apply starts_with_app in E.
  - destruct (starts_with needle (c :: l)) eqn:E.
    + intros [= <-]. by apply starts_with_app in E.
    + destruct (before_first needle l) as [b|]; simpl; [|done]. intros [= <-].
      destruct (IH b eq_refl) as [rest ->]. by exists rest.
Qed.

Lemma TokenChar_safe c : TokenChar c = true -> line_break_or_nul c = false /\ c <> char 58.
Proof.
  intros Ht. destruct (line_break_or_nul c) eqn:E.
  - exfalso. unfold line_break_or_nul in E. rewrite !orb_true_iff, !bool_decide_eq_true in E.
    destruct E as [[->| ->]| ->]; by vm_compute in Ht.
  - split; [done|]. intros ->. by vm_compute in Ht.
Qed.

Section request_theorems.
Context {lib : LuaLib} (luaL_tolstring : lua_value -> string) (L : lua_State).

(** An error of the argument check; every one is a std::invalid_argument. *)
Definition invalid {A} (o : outcome A) : Prop := exists what, o = Throw (InvalidArgument what).

Lemma ArgError_invalid i msg : exists what, ArgError L i msg = InvalidArgument what.
Proof. unfold ArgError. repeat case_match; by eexists. Qed.

Lemma throw_ArgError {A} i msg : invalid (A := A) (Throw (ArgError L i msg)).
Proof. destruct (ArgError_invalid i msg) as [what ->]. by exists what. Qed.

(** A result that satisfies [P], or an invalid argument. *)
Definition yields {A} (o : outcome A) (P : A -> Prop) : Prop :=
  match o with Ret a => P a | _ => invalid o end.

Lemma yields_bind {A B} (o : outcome A) (k : A -> outcome B) (P : A -> Prop) (Q : B -> Prop) :
  yields o P -> (forall a, P a -> yields (k a) Q) -> yields (o ≫= k) Q.
Proof. destruct o as [a|e|]; simpl; [auto|..]; intros [what Hw] _; exists what; by simplify_eq. Qed.

Lemma yields_throw_if (b : bool) i msg :
  yields (throw_if b (ArgError L i msg)) (fun _ => b = false).
Proof. destruct b; simpl; [apply throw_ArgError|done]. Qed.

Lemma CheckUrl_yields u :
  yields (CheckUrl L u) (fun _ => exists scheme rest,
    string_to_list u = scheme ++ string_to_list "://" ++ rest /\
    (lowercase (string_of_list scheme) = "http" \/ lowercase (string_of_list scheme) = "https")).
Proof.
  unfold CheckUrl.
  destruct (before_first (string_to_list "://") (string_to_list u)) as [scheme|] eqn:E.
  - destruct (before_first_spec _ _ _ E) as [rest Hr]. rewrite bool_decide_eq_false_2 by done. simpl.
    destruct (String.eqb_spec (lowercase (string_of_list scheme)) "http") as [Hh|Hh];
      [exists scheme, rest; by auto|].
    destruct (String.eqb_spec (lowercase (string_of_list scheme)) "https") as [Hs|Hs];
      [exists scheme, rest; by auto|]. apply throw_ArgError.
  - rewrite bool_decide_eq_true_2 by done. apply throw_ArgError.
Qed.

Lemma read_header_yields k v : yields (read_header L k v) header_line_ok.
Proof.
  unfold read_header. destruct k as [| | | |name| | | | | |]; try apply throw_ArgError.
  destruct (String.eqb_spec name "") as [|Hne]; simpl; [apply throw_ArgError|].
  destruct (all_chars TokenChar name) eqn:Ht; simpl; [|apply throw_ArgError].
  assert (forall value, any_char line_break_or_nul value = false ->
    header_line_ok (if String.eqb value "" then name +:+ ";" else name +:+ ": " +:+ value)) as Hok.
  { intros value Hv. rewrite any_char_false in Hv. pose proof Ht as Ht'.
    rewrite all_chars_spec in Ht'.
    assert (forall c, c ∈ string_to_list name -> line_break_or_nul c = false) as Hn
      by (intros c Hc; by apply TokenChar_safe, Ht').
    destruct (String.eqb_spec value "") as [->|Hv0]; split.
    - intros c. rewrite string_app_list. intros [Hc|Hc]%elem_of_app; [auto|].
      apply list_elem_of_singleton in Hc as ->. done.
    - exists name. split_and!; auto.
    - intros c. rewrite !string_app_list. intros [Hc|[Hc|Hc]%elem_of_app]%elem_of_app; [auto| |auto].
      apply elem_of_cons in Hc as [->|Hc]; [done|]. apply list_elem_of_singleton in Hc as ->. done.
    - exists name. split_and!; [done..|]. right. by exists value. }
  destruct v; simpl; try apply throw_ArgError;
    (destruct (any_char _ _) eqn:Ha; [apply throw_ArgError|by apply Hok]).
Qed.

Lemma ReadHeaders_yields entries :
  yields (ReadHeaders L entries) (fun hs => forall h, h ∈ hs -> header_line_ok h).
Proof.
  induction entries as [|[k v] entries IH]; simpl; [by intros h ?%not_elem_of_nil|].
  eapply yields_bind; [apply read_header_yields|]. intros h Hh.
  eapply yields_bind; [apply IH|]. intros hs Hhs. simpl.
  intros h' [->|Hin]%elem_of_cons; auto.
Qed.

Lemma check_fields_yields entries :
  yields (check_fields luaL_tolstring L entries) (fun _ => True).
Proof.
  induction entries as [|[k v] entries IH]; simpl; [done|].
  destruct k; try apply throw_ArgError. case_bool_decide; [done|apply throw_ArgError].
Qed.

Lemma read_method_yields v b :
  yields (read_method L v b) (fun m => (m <> "" /\ Z.of_nat (String.length m) <= 16 /\
    all_chars is_upper m = true) /\ (b = true -> m <> "GET" /\ m <> "HEAD")).
Proof.
  unfold read_method. eapply yields_bind with (P := fun _ => True).
  { destruct v; simpl; try done; apply throw_ArgError. }
  intros m0 _. set (m := uppercase m0). eapply yields_bind; [apply yields_throw_if|].
  intros [] [[H1%String.eqb_neq H2%Z.ltb_ge]%orb_false_iff H3%negb_false_iff]%orb_false_iff.
  eapply yields_bind; [apply yields_throw_if|]. intros [] Hb. simpl. split; [done|].
  intros Hbt. rewrite Hbt in Hb. simpl in Hb.
  by apply orb_false_iff in Hb as [?%String.eqb_neq ?%String.eqb_neq].
Qed.

Lemma read_timeout_yields v : yields (read_timeout L v) (fun t => 1 <= t).
Proof.
  unfold read_timeout. destruct v; simpl; try apply throw_ArgError; try lia;
    (destruct (negb _); [apply throw_ArgError|simpl; lia]).
Qed.

(** The doubles of a table are IEEE doubles. *)
Definition number_ok (v : lua_value) : Prop :=
  match to_number v with Some f => valid_binary f64_prec f64_emax f = true | None => True end.

Lemma truncate_small f :
  valid_binary f64_prec f64_emax f = true ->
  SFleb (f64 0) f = true -> SFleb f (f64 20) = true -> 0 <= truncate f <= 20.
Proof.
  replace (f64 0) with (S754_zero false) by (vm_compute; reflexivity).
  replace (f64 20) with (S754_finite false 5629499534213120 (-48)) by (vm_compute; reflexivity).
  destruct f as [s|s| |s m e].
  - intros _ _ _. cbn [truncate]. lia.
  - intros _ H1 H2. destruct s; [discriminate H1|discriminate H2].
  - intros _ H1. discriminate H1.
  - destruct s; [intros _ H1; discriminate H1|]. intros Hb _.
  cbn [valid_binary] in Hb. unfold SFleb. cbn [SFcompare truncate].
  unfold bounded, canonical_mantissa, fexp, emin, f64_prec, f64_emax in Hb.
  apply andb_true_iff in Hb as [Hc%Z.eqb_eq _].
  assert (Z.pos m < 2 ^ 53) as Hm.
  { assert (forall p, Z.pos p < 2 ^ Z.pos (digits2_pos p)) as Hd.
    { induction p as [p IH|p IH|]; simpl digits2_pos; [..|simpl; lia];
        rewrite Pos2Z.inj_succ, Z.pow_succ_r by lia; lia. }
    eapply Z.lt_le_trans; [apply Hd|]. apply Z.pow_le_mono_r; lia. }
  destruct (Z.compare_spec e (-48)) as [->|Hlt|Hgt]; [|intros _|done].
  + intros Hle. change (0 <=? -48) with false. cbv iota.
    rewrite Z.quot_div_nonneg by lia. split; [apply Z.div_pos; lia|].
    apply Z.div_le_upper_bound; [lia|].
    destruct (Pos.compare_cont _ m _) eqn:E; try done.
    * apply Pos.compare_eq_iff in E. lia.
    * assert (Z.pos m < 5629499534213120) by (by apply Pos2Z.pos_lt_pos). lia.
  + rewrite (proj2 (Z.leb_gt 0 e)) by lia.
    assert (2 ^ 49 <= 2 ^ (- e)) by (apply Z.pow_le_mono_r; lia).
    rewrite Z.quot_div_nonneg by lia. split; [apply Z.div_pos; lia|].
    apply Z.div_le_upper_bound; lia.
Qed.

Lemma redirects_yield f e :
  valid_binary f64_prec f64_emax f = true -> invalid (A := Z) (Throw e) ->
  yields (if negb (SFleb (f64 0) f && SFleb f (f64 20)) || bool_decide (float_to_Z f = None)
          then Throw e else Ret (truncate f)) (fun r => 0 <= r <= 20).
Proof.
  intros Hok He. destruct (SFleb (f64 0) f) eqn:E0; [|exact He].
  destruct (SFleb f (f64 20)) eqn:E20; [|exact He]. cbn [negb andb orb].
  case_bool_decide; [exact He|]. by apply truncate_small.
Qed.

Lemma read_redirects_yields v :
  number_ok v -> yields (read_redirects L v) (fun r => 0 <= r <= 20).
Proof.
  unfold number_ok, read_redirects. intros Hok.
  destruct v; cbn [to_number] in *;
    first [apply redirects_yield; [exact Hok|apply throw_ArgError]|apply throw_ArgError|simpl; lia].
Qed.

(** C23: whatever a script passes, [http.request] either raises an invalid
    argument error or starts a request that is safe to send: an http or https
    URL, an upper-case method of at most 16 letters, no body with GET or HEAD,
    header lines without line breaks or NUL whose names are tokens, a positive
    timeout and 0 to 20 redirects. *)
Theorem ReadRequest_is_safe :
  (forall obj entries, at_index L 1 = Some (LTable obj entries) ->
     number_ok (rawgets entries "redirects")) ->
  yields (ReadRequest luaL_tolstring L) request_ok.
Proof.
  intros Hnum. unfold ReadRequest.
  destruct (at_index L 1) as [v|]; [|apply throw_ArgError].
  destruct v as [| | | |u|obj entries| | | | |]; try apply throw_ArgError.
  - eapply yields_bind; [apply CheckUrl_yields|]. intros [] Hu.
    split; simpl; [done|by vm_compute|done|by intros h ?%not_elem_of_nil|lia|lia].
  - specialize (Hnum _ _ eq_refl).
    eapply yields_bind; [apply check_fields_yields|]. intros [] _.
    eapply yields_bind with (P := fun u => exists scheme rest,
      string_to_list u = scheme ++ string_to_list "://" ++ rest /\
      (lowercase (string_of_list scheme) = "http" \/ lowercase (string_of_list scheme) = "https")).
    { unfold read_url. destruct (rawgets entries "url"); simpl; try apply throw_ArgError.
      eapply yields_bind; [apply CheckUrl_yields|]. intros [] Hs. exact Hs. }
    intros u Hu. eapply yields_bind with (P := fun _ => True).
    { destruct (rawgets entries "body"); simpl; try done; apply throw_ArgError. }
    intros b _. eapply yields_bind; [apply read_method_yields|]. intros m [Hm Hb].
    eapply yields_bind with (P := fun hs => forall h, h ∈ hs -> header_line_ok h).
    { destruct (rawgets entries "headers"); simpl; try apply throw_ArgError;
        [by intros h ?%not_elem_of_nil|apply ReadHeaders_yields]. }
    intros hs Hh. eapply yields_bind; [apply read_timeout_yields|]. intros t Ht.
    eapply yields_bind; [by apply read_redirects_yields|]. intros r Hr.
    by split.
Qed.
End request_theorems.

Definition demo_request : lua_State := mkState None
  [LTable 1 [(LString "url", LString "HTTPS://a.b/"); (LString "redirects", LInt 3)]].

Lemma ReadRequest_is_safe_witness :
  exists r, ReadRequest (lib := plain_lib) (fun _ => "") demo_request = Ret r /\ request_ok r.
Proof.
  pose proof (ReadRequest_is_safe (lib := plain_lib) (fun _ => "") demo_request) as H.
  exists (mkRequest "HTTPS://a.b/" "GET" [] "" false 30000 3).
  assert (ReadRequest (lib := plain_lib) (fun _ => "") demo_request =
    Ret (mkRequest "HTTPS://a.b/" "GET" [] "" false 30000 3)) as E by (vm_compute; reflexivity).
  split; [exact E|]. rewrite E in H. apply H.
  intros obj entries [= _ <-]. vm_compute. reflexivity.
Defined.

(** ** Response headers: properties *)

Lemma starts_with_app_false p a x b y :
  x ∉ p -> y ∈ p -> y ∉ a -> starts_with p (a ++ x :: b) = false.
Proof.
  revert a. induction p as [|c p IH]; intros a Hx Hy Ha; [by apply not_elem_of_nil in Hy|].
  apply not_elem_of_cons in Hx as [Hcx Hx]. destruct a as [|d a]; simpl.
  - by rewrite bool_decide_eq_false_2 by congruence.
  - apply not_elem_of_cons in Ha as [Hyd Ha]. case_bool_decide as Hcd; [subst d|done]. simpl.
    apply IH; [done| |done]. by apply elem_of_cons in Hy as [->|Hy].
Qed.

Lemma drop_while_end_crlf l :
  (forall c, c ∈ l -> is_crlf c = false) -> drop_while_end is_crlf (l ++ [char 13; char 10]) = l.
Proof.
  intros Hl. unfold drop_while_end.
  rewrite reverse_app. change (reverse [char 13; char 10]) with [char 10; char 13].
  change (drop_while is_crlf ([char 10; char 13] ++ reverse l)) with (drop_while is_crlf (reverse l)).
  rewrite drop_while_id; [apply reverse_involutive|]. intros c r E. apply Hl.
  rewrite <- elem_of_reverse, E. constructor.
Qed.

Lemma crlf_of_break c : line_break_or_nul c = false -> is_crlf c = false.
Proof. unfold line_break_or_nul, is_crlf. by intros [-> _]%orb_false_iff. Qed.

(** The header lines the module sends and the ones it parses are the same
    format: a line built by [read_header] from a name and a value without
    blanks at its ends, sent back by a server with CR LF, is read as the
    lower-case name and exactly the value, after the headers read before it. *)
Theorem header_line_round_trip {lib : LuaLib} L name value line hs :
  read_header L (LString name) (LString value) = Ret line -> value <> "" ->
  drop_while_end is_blank (drop_while is_blank (string_to_list value)) = string_to_list value ->
  parse_header (line +:+ string_of_list [char 13; char 10]) hs = hs ++ [(lowercase name, value)].
Proof.
  unfold read_header. intros Hline Hv Htrim.
  destruct (String.eqb_spec name "") as [|Hne]; simpl in Hline; [done|].
  destruct (all_chars TokenChar name) eqn:Ht; simpl in Hline; [|done].
  destruct (any_char line_break_or_nul value) eqn:Hb; [done|].
  rewrite (proj2 (String.eqb_neq value "")) in Hline by done. injection Hline as <-.
  rewrite all_chars_spec in Ht. rewrite any_char_false in Hb.
  assert (forall c, c ∈ string_to_list name -> line_break_or_nul c = false /\ c <> char 58) as Hn
    by (intros c Hc; by apply TokenChar_safe, Ht).
  unfold parse_header. rewrite !string_app_list, string_to_of_list.
  change (string_to_list ": ") with [char 58; char 32].
  rewrite drop_while_end_crlf.
  2: { intros c Hc. apply crlf_of_break.
       apply elem_of_app in Hc as [Hc|[Hc|Hc]%elem_of_app]; [by apply Hn| |auto].
       apply elem_of_cons in Hc as [->|Hc]; [done|]. by apply list_elem_of_singleton in Hc as ->. }
  simpl app. rewrite (starts_with_app_false _ _ _ _ (char 47)).
  2, 3: by apply (bool_decide_unpack _); vm_compute.
  2: { intros Hc. apply Ht in Hc. by vm_compute in Hc. }
  rewrite split_at_none.
  2: { intros d Hd. apply bool_decide_eq_false_2. by apply Hn. }
  2: { by vm_compute. }
  destruct (string_to_list name) as [|c cs] eqn:Ename.
  { exfalso. apply Hne. rewrite <- (string_of_to_list name), Ename. done. }
  rewrite <- Ename. change (drop_while is_blank (char 32 :: string_to_list value))
    with (drop_while is_blank (string_to_list value)).
  rewrite Htrim, string_of_to_list. done.
Qed.

Lemma header_line_round_trip_witness :
  parse_header ("X-Id: a b" +:+ string_of_list [char 13; char 10]) [] = [("x-id", "a b")].
Proof.
  apply (header_line_round_trip (lib := plain_lib) demo_request "X-Id" "a b" "X-Id: a b" []).
  - vm_compute. reflexivity.
  - discriminate.
  - vm_compute. reflexivity.
Defined.

(** A response body never grows past 16 MiB: a block is appended whole
    and acknowledged, or nothing is appended, libcurl is told to abort and the
    transfer is marked too large, which happens exactly when the block would
    not fit. The mark is never taken back. *)
Theorem Write_keeps_the_limit data t :
  Z.of_nat (String.length (t_body t)) <= kMaxBody ->
  let n := Z.of_nat (String.length data) in
  Z.of_nat (String.length (t_body (snd (Write data t)))) <= kMaxBody /\
  (Z.of_nat (String.length (t_body t)) + n <= kMaxBody ->
     fst (Write data t) = n /\ t_body (snd (Write data t)) = t_body t +:+ data /\
     too_large (snd (Write data t)) = too_large t) /\
  (kMaxBody < Z.of_nat (String.length (t_body t)) + n ->
     fst (Write data t) = 0 /\ t_body (snd (Write data t)) = t_body t /\
     too_large (snd (Write data t)) = true /\ 0 < n).
Proof.
  intros Hb n. unfold Write. fold n.
  destruct (Z.ltb_spec kMaxBody (Z.of_nat (String.length (t_body t)) + n)) as [Hgt|Hle]; simpl.
  - split_and!; [done|lia|]. intros _. split_and!; try done. lia.
  - split_and!; [|done|lia]. rewrite <- length_string_to_list, string_app_list, length_app,
      !length_string_to_list. lia.
Qed.

Lemma Write_keeps_the_limit_witness :
  fst (Write "abc" (new_transfer 1)) = 3 /\ t_body (snd (Write "abc" (new_transfer 1))) = "abc".
Proof.
  destruct (Write_keeps_the_limit "abc" (new_transfer 1)) as (_ & H & _).
  - vm_compute. discriminate.
  - destruct H as (H1 & H2 & _); [vm_compute; discriminate|]. split; [exact H1|exact H2].
Defined.

(** The values of one header, in the order the server sent them. *)
Fixpoint values_of (n : string) (hs : list (string * string)) : list string :=
  match hs with
  | [] => []
  | (k, v) :: hs => if String.eqb k n then v :: values_of n hs else values_of n hs
  end.

Fixpoint join (sep : string) (vs : list string) : string :=
  match vs with
  | [] => ""
  | [v] => v
  | v :: vs => v +:+ sep +:+ join sep vs
  end.

Lemma string_app_assoc (a b c : string) : (a +:+ b) +:+ c = a +:+ (b +:+ c).
Proof.
  induction a as [|x a IH]; [done|].
  change (String.String x ((a +:+ b) +:+ c) = String.String x (a +:+ (b +:+ c))). by rewrite IH.
Qed.

Lemma join_app sep v v' vs : join sep ((v +:+ sep +:+ v') :: vs) = v +:+ sep +:+ join sep (v' :: vs).
Proof. destruct vs as [|u vs]; simpl; [done|]. by rewrite !string_app_assoc. Qed.

(** A response's header table has exactly the names the server sent, and
    the values of a repeated header joined with a comma in the order they came. *)
Theorem join_headers_spec hs n :
  join_headers hs !! n =
  match values_of n hs with [] => None | vs => Some (join ", " vs) end.
Proof.
  unfold join_headers.
  assert (forall m, fold_left add_header hs m !! n =
    match values_of n hs with
    | [] => m !! n
    | v :: vs => Some (join ", " (match m !! n with Some old => old +:+ ", " +:+ v | None => v end :: vs))
    end) as H.
  { induction hs as [|[k v] hs IH]; intros m; simpl; [done|].
    rewrite IH. unfold add_header. simpl fst; simpl snd.
    destruct (String.eqb_spec k n) as [->|Hne].
    - rewrite lookup_insert_eq. destruct (values_of n hs) as [|u us].
      + simpl. by destruct (m !! n).
      + f_equal. destruct (m !! n); apply (join_app ", ").
    - by rewrite lookup_insert_ne. }
  rewrite H, lookup_empty. done.
Qed.

(** ** The component: invariant and [Pump] *)

Record http_wf (h : Http) : Prop := mkHttpWf
  { hwf_ids id t : transfers h !! id = Some t -> id < next_id h;
    hwf_pending : Pending h <= kMaxPending }.

(** What any code that runs inside a call into Lua may do: start requests. *)
Record http_step (h h' : Http) : Prop := mkHttpStep
  { hst_wf : http_wf h -> http_wf h';
    hst_next : next_id h <= next_id h';
    hst_old id : id < next_id h -> transfers h' !! id = transfers h !! id }.

#[export] Instance http_step_preorder : PreOrder http_step.
Proof.
  split.
  - intros h. split; [done|lia|done].
  - intros h1 h2 h3 [Hw1 Hn1 Ho1] [Hw2 Hn2 Ho2]. split; [auto|lia|].
    intros id Hid. rewrite Ho2 by lia. by apply Ho1.
Qed.

Lemma new_http_wf cafile : http_wf (new_http cafile).
Proof. split; simpl; [by intros id t ?|]. unfold Pending. by vm_compute. Qed.

Lemma Start_step refused h cb : http_step h (snd (Start refused h cb)).
Proof.
  unfold Start. destruct (Z.leb_spec kMaxPending (Pending h)) as [Hge|Hlt]; [reflexivity|].
  assert (http_wf h -> forall id t, transfers h !! id = Some t -> id < next_id h + 1) as Hids.
  { intros Hwf id t Ht. apply (hwf_ids _ Hwf) in Ht. lia. }
  destruct refused as [text|]; simpl.
  - split; simpl; [|lia|done]. intros Hwf. split; simpl; [by apply Hids|apply Hwf].
  - split; simpl; [|lia|intros id Hid; by rewrite lookup_insert_ne by lia].
    intros Hwf. assert (transfers h !! next_id h = None) as Hfresh.
    { destruct (transfers h !! next_id h) eqn:E; [|done]. apply (hwf_ids _ Hwf) in E. lia. }
    split; simpl.
    + intros id t [[<- _]|[_ Ht]]%lookup_insert_Some; [lia|by eapply Hids].
    + unfold Pending in *. simpl. rewrite map_size_insert_None by done. lia.
Qed.

(** Where the certificates come from: the file of the settings; without one, the
    first bundle of the distribution that is readable; without one, the embedded
    bundle. *)
Definition trusted (cafile : string) (readable : string -> bool) : option opt_value * option opt_value :=
  if String.eqb cafile "" then
    match List.find readable kCaBundles with
    | Some path => (Some (OText path), None)
    | None => (Some ONull, Some OCaBlob)
    end
  else (Some (OText cafile), None).

Lemma first_readable_find readable paths : first_readable readable paths = List.find readable paths.
Proof. induction paths as [|p ps IH]; [done|]. simpl. by rewrite IH. Qed.

Lemma effective_app xs ys name :
  effective (xs ++ ys) name =
    match effective ys name with Some v => Some v | None => effective xs name end.
Proof.
  unfold effective. rewrite fold_left_app. generalize (fold_left (fun (v : option opt_value) '(n, x) =>
    if String.eqb n name then Some x else v) xs None) as v.
  induction ys as [|[n x] ys IH] using rev_ind; intros v; [done|].
  rewrite !fold_left_app. cbn [fold_left]. destruct (String.eqb n name); [done|apply IH].
Qed.

(** C24: Every request is sent over HTTP or HTTPS only, redirects included, and
    with TLS verifies the certificate and the host name: no request of a script
    can turn that off, and no option is set back by a later one. The certificates
    it trusts are those of the settings' file, else of the first readable bundle
    of the distribution, else the embedded ones; never those of the machine the
    plugin was built on. *)
Theorem requests_are_verified kVersion cafile readable r :
  let option := effective (curl_options kVersion cafile (DistributionCaBundle readable) r) in
  option "PROTOCOLS_STR" = Some (OText "http,https") /\
  option "REDIR_PROTOCOLS_STR" = Some (OText "http,https") /\
  option "SSL_VERIFYPEER" = Some (OLong 1) /\ option "SSL_VERIFYHOST" = Some (OLong 2) /\
  option "CAPATH" = Some ONull /\ (option "CAINFO", option "CAINFO_BLOB") = trusted cafile readable.
Proof.
  cbv zeta. unfold curl_options. rewrite !effective_app. unfold DistributionCaBundle, trusted.
  rewrite first_readable_find. destruct (String.eqb cafile "") eqn:Ec, (List.find readable kCaBundles),
    (headers r), (String.eqb (method r) "HEAD"), (String.eqb (method r) "GET"), (String.eqb (method r) "POST"),
    (has_body r); split_and!; reflexivity.
Qed.

(** A request is refused when 1000 are pending, and refusing it changes
    nothing; otherwise it gets an id no earlier request had and is pending with
    its callback, unless libcurl refuses it. At most 1000 are ever pending. *)
Theorem Start_spec refused h cb :
  http_wf h ->
  http_wf (snd (Start refused h cb)) /\
  (kMaxPending <= Pending h -> (exists what, Start refused h cb = (Throw (RuntimeError what), h))) /\
  (Pending h < kMaxPending ->
     transfers h !! next_id h = None /\ next_id (snd (Start refused h cb)) = next_id h + 1 /\
     match refused with
     | Some text => fst (Start refused h cb) = Throw (RuntimeError ("http.request: " +:+ text)) /\
         transfers (snd (Start refused h cb)) = transfers h
     | None => fst (Start refused h cb) = Ret tt /\
         transfers (snd (Start refused h cb)) = <[next_id h := new_transfer cb]> (transfers h)
     end).
Proof.
  intros Hwf. split; [by apply Start_step|].
  unfold Start. destruct (Z.leb_spec kMaxPending (Pending h)) as [Hge|Hlt].
  - split; [intros _; by eexists|lia].
  - split; [lia|]. intros _. split.
    + destruct (transfers h !! next_id h) eqn:E; [|done]. apply (hwf_ids _ Hwf) in E. lia.
    + by destruct refused.
Qed.

Lemma Start_spec_witness :
  transfers (snd (Start None (new_http "") 7)) = {[ 1 := new_transfer 7 ]}.
Proof.
  destruct (Start_spec None (new_http "") 7 (new_http_wf "")) as (_ & _ & H).
  destruct H as (_ & _ & _ & H); [vm_compute; reflexivity|]. exact H.
Defined.

Lemma apply_events_dom es ts : dom (fold_left apply_event es ts) = dom ts.
Proof.
  revert ts. induction es as [|e es IH]; intros ts; simpl; [done|].
  rewrite IH. apply dom_alter_L.
Qed.

Lemma collect_spec ms ts :
  NoDup (m_id <$> ms) -> (forall m, m ∈ ms -> m_id m ∈ dom ts) ->
  exists done ts', collect ms ts = Ret (done, ts') /\ done.*1 = ms /\
    (forall m t, (m, t) ∈ done -> ts !! m_id m = Some t) /\
    (forall id, ts' !! id = if bool_decide (id ∈ m_id <$> ms) then None else ts !! id).
Proof.
  revert ts. induction ms as [|m ms IH]; intros ts Hnd Hin; simpl.
  { exists [], ts. split_and!; [done|done|by intros ? ? ?%not_elem_of_nil|done]. }
  simpl in Hnd. apply NoDup_cons in Hnd as [Hnin Hnd].
  destruct (ts !! m_id m) as [t|] eqn:Ht.
  2: { exfalso. apply not_elem_of_dom in Ht. apply Ht, Hin. constructor. }
  destruct (IH (delete (m_id m) ts) Hnd) as (done & ts' & Hc & Hms & Hts & Hrest).
  { intros m' Hm'. rewrite dom_delete_L. apply elem_of_difference.
    split; [apply Hin; by constructor|]. rewrite elem_of_singleton. intros Heq. apply Hnin.
    rewrite <- Heq. by apply list_elem_of_fmap_2. }
  exists ((m, t) :: done), ts'. rewrite Hc. simpl. split_and!; [done|exact (f_equal (cons m) Hms)| |].
  - intros m' t' [[= -> ->]|Hin']%elem_of_cons; [done|].
    specialize (Hts _ _ Hin'). by apply lookup_delete_Some in Hts as [_ ?].
  - intros id. rewrite Hrest. rewrite lookup_delete.
    destruct (decide (id = m_id m)) as [->|Hne].
    + rewrite decide_True by done. rewrite (bool_decide_eq_true_2 (m_id m ∈ m_id m :: _)) by constructor.
      by case_bool_decide.
    + rewrite decide_False by done. erewrite bool_decide_ext; [done|].
      rewrite elem_of_cons. intuition congruence.
Qed.

Section pump_theorems.
Context {W : Type} `{HasHttp W} {lib : LuaLib}.
Implicit Types (w : W).

Definition http_rel w w' : Prop := http_step (get_http w) (get_http w').

#[export] Instance http_rel_preorder : PreOrder http_rel.
Proof.
  split; unfold http_rel; [intros w; reflexivity|].
  intros w1 w2 w3 ? ?. by etransitivity.
Qed.

Lemma get_http_enter w : get_http (enter w) = get_http w.
Proof. unfold enter. apply get_http_invoker. Qed.
Lemma get_http_leave w : get_http (leave w) = get_http w.
Proof. unfold leave. apply get_http_invoker. Qed.

#[export] Instance http_rel_stable : CallStable http_rel.
Proof.
  split; [apply _|..]; unfold http_rel.
  - intros. rewrite get_http_log. reflexivity.
  - intros w w'. by rewrite get_http_leave, get_http_enter.
Qed.

Lemma response_args_state m t w :
  snd (response_args m t w) = w /\ is_UB (fst (response_args m t w)) = false.
Proof. unfold response_args. by repeat case_match. Qed.

Lemma complete_all_respects R `{!CallStable R, !LuaRespects R} done :
  respects R (complete_all done).
Proof.
  induction done as [|[m t] done IH]; simpl; [apply respects_pret; apply _|].
  apply respects_pbind; [apply _| |by intros _].
  unfold Complete. apply respects_pbind; [apply _| |intros _; apply respects_pret; apply _].
  apply Call_respects; [done|done|]. intros w _. simpl. rewrite (proj1 (response_args_state m t w)).
  reflexivity.
Qed.

(** A relation that does not look at the requests. *)
Class HttpBlind (R : W -> W -> Prop) := blind_http h w : R w (set_http h w).

Lemma Pump_respects_blind R `{!CallStable R, !LuaRespects R, !HttpBlind R} r : respects R (Pump r).
Proof.
  intros w. unfold Pump. case_decide; [reflexivity|].
  assert (R w (snd (pump_collect r w))) as Hcol.
  { unfold pump_collect. destruct (perform_error r) as [text|];
      destruct (collect _ _) as [[d ts]|e|]; cbn [snd];
      first [apply stable_log | reflexivity | apply blind_http |
             etransitivity; [apply stable_log|apply blind_http]]. }
  destruct (pump_collect r w) as [[[|d done]|e|] w1]; cbn [fst snd] in *;
    [intros _; exact Hcol| |intros _; exact Hcol|by intros].
  pose proof (complete_all_respects R (d :: done) (enter w1)) as Hall.
  destruct (complete_all _ _) as [o w2]. cbn [fst snd] in *. intros Hub.
  etransitivity; [exact Hcol|]. by apply stable_bracket, Hall.
Qed.

Lemma complete_all_UB done w : is_UB (fst (complete_all done w)) = false.
Proof.
  revert w. induction done as [|[m t] done IH]; intros w; simpl; [done|].
  unfold pbind, Complete, pbind, pret.
  pose proof (Call_UB (t_callback t) "http.request callback" (response_args m t) w) as Hub.
  simpl. destruct (Call _ _ _ w) as [[b|e|] w1]; simpl in *; [apply IH|done|].
  by rewrite Hub by (intros; apply response_args_state).
Qed.

(** The whole of [Pump]; the property below is this. *)
Lemma Pump_spec `{!LuaRespects http_rel} r w :
  http_wf (get_http w) -> NoDup (m_id <$> messages r) ->
  (forall m, m ∈ messages r -> m_id m ∈ dom (transfers (get_http w))) ->
  let ts := fold_left apply_event (events r) (transfers (get_http w)) in
  exists done w1,
    done.*1 = messages r /\ (forall m t, (m, t) ∈ done -> ts !! m_id m = Some t) /\
    (messages r <> [] -> Pump r w =
       (fst (complete_all done (enter w1)), leave (snd (complete_all done (enter w1))))) /\
    is_UB (fst (Pump r w)) = false /\ http_wf (get_http (snd (Pump r w))) /\
    forall h, h = get_http w1 \/ h = get_http (snd (Pump r w)) ->
      forall id, id < next_id (get_http w) ->
      transfers h !! id = if bool_decide (id ∈ m_id <$> messages r) then None else ts !! id.
Proof.
  intros Hwf Hnd Hin ts.
  destruct (collect_spec (messages r) ts Hnd) as (done & ts' & Hc & Hms & Hdone & Hrest).
  { intros m Hm. unfold ts. rewrite apply_events_dom. auto. }
  set (h1 := mkHttp (h_cafile (get_http w)) ts' (next_id (get_http w))).
  set (w0 := match perform_error r with
    | Some text => log_line Lerr ("http: curl_multi_perform failed: " +:+ text) w | None => w end).
  assert (dom ts' ⊆ dom (transfers (get_http w))) as Hdom.
  { intros id. rewrite !elem_of_dom, Hrest. case_bool_decide; [by intros []|].
    rewrite <- !elem_of_dom. unfold ts. by rewrite apply_events_dom. }
  assert (get_http w0 = get_http w) as Hw0.
  { unfold w0. destruct (perform_error r); [apply get_http_log|done]. }
  assert (http_wf h1) as Hwf1.
  { split; simpl.
    - intros id t Ht. apply elem_of_dom_2, Hdom, elem_of_dom in Ht as [t' Ht].
      by apply (hwf_ids _ Hwf) in Ht.
    - etransitivity; [|apply (hwf_pending _ Hwf)]. unfold Pending. simpl.
      rewrite <- !size_dom. apply inj_le. by apply subseteq_size. }
  assert (pump_collect r w = (Ret done, set_http h1 w0)) as Hpc.
  { unfold pump_collect. fold ts w0. rewrite Hc. unfold h1. by rewrite Hw0. }
  exists done, (set_http h1 w0). split_and!; [done|done| |..].
  1: { intros Hne. unfold Pump. rewrite decide_False.
       - rewrite Hpc. destruct done as [|d done]; [by rewrite <- Hms in Hne|].
         by destruct (complete_all _ _).
       - intros Hemp. destruct (messages r) as [|m ms]; [done|].
         specialize (Hin m (list_elem_of_here _ _)). by rewrite Hemp, dom_empty_L in Hin. }
  all: unfold Pump; case_decide as Hemp.
  - done.
  - rewrite Hpc. destruct done as [|d done']; [done|].
    pose proof (complete_all_UB (d :: done') (enter (set_http h1 w0))) as Hub.
    by destruct (complete_all _ _).
  - done.
  - rewrite Hpc. destruct done as [|d done']; [simpl; by rewrite get_set_http|].
    pose proof (complete_all_respects http_rel (d :: done') (enter (set_http h1 w0))
      (complete_all_UB _ _)) as Hstep.
    destruct (complete_all _ _) as [o w2]. simpl in *. rewrite get_http_leave.
    unfold http_rel in Hstep. rewrite get_http_enter, get_set_http in Hstep. by apply Hstep.
  - intros h [->| ->] id Hid; simpl; [rewrite get_set_http; apply Hrest|].
    rewrite Hemp, lookup_empty. destruct (ts !! id) as [t|] eqn:E; [|by case_bool_decide].
    apply elem_of_dom_2 in E. unfold ts in E. by rewrite apply_events_dom, Hemp, dom_empty_L in E.
  - rewrite Hpc. intros h [->| ->] id Hid; [rewrite get_set_http; apply Hrest|].
    destruct done as [|d done']; [simpl; rewrite get_set_http; apply Hrest|].
    pose proof (complete_all_respects http_rel (d :: done') (enter (set_http h1 w0))
      (complete_all_UB _ _)) as Hstep.
    destruct (complete_all _ _) as [o w2]. simpl in *. rewrite get_http_leave.
    unfold http_rel in Hstep. rewrite get_http_enter, get_set_http in Hstep.
    rewrite (hst_old _ _ Hstep) by done. apply Hrest.
Qed.

End pump_theorems.
