(* ===== verification/Hash.v ===== *)
(** The Hash table (src/modules/hash.cpp): hex output, the checks before the
    key derivation functions are called, and comparison. The digests, HMAC,
    PBKDF2, scrypt and the random generator are OpenSSL's and digestpp's. *)
From stdpp Require Import base tactics list strings pretty.
From Stdlib Require Import ZArith Lia.
From S2P Require Import Prelude.
From S2P Require Import Text.
From S2P Require Import LuaValue.
From S2P Require Import Args.
Open Scope Z_scope.

Definition kDigests : list string :=
  ["md5"; "sha1"; "sha224"; "sha256"; "sha384"; "sha512"; "sha3-256"; "sha3-512"].

Definition kMaxOutput : Z := 1024.
Definition kMaxRandom : Z := 2 ^ 20.
Definition kMaxIterations : Z := 10000000.

(** [kDigits[v]], for a nibble. *)
Definition hex_digit (v : Z) : Ascii.ascii :=
  nth (Z.to_nat v) (string_to_list "0123456789abcdef") (char 0).

(** [Hex(data, size)]. *)
Definition Hex_chars (bs : list Z) : list Ascii.ascii :=
  concat ((fun b => [hex_digit (Z.shiftr b 4); hex_digit (Z.land b 15)]) <$> bs).
Definition Hex (bs : list Z) : string := string_of_list (Hex_chars bs).

Definition bytes_of (s : string) : list Z := byte_of_ascii <$> string_to_list s.
Definition string_of_bytes (bs : list Z) : string := string_of_list (ascii_of_byte <$> bs).

(** What the libraries do. [EVP_MD_fetch] may lack a digest; the others give
    [None] when they fail. *)
Class Crypto := {
  EVP_MD_fetch : string -> bool;
  HMAC : string -> string -> string -> option (list Z);
  PKCS5_PBKDF2_HMAC : string -> string -> Z -> string -> Z -> option (list Z);
  EVP_PBE_scrypt : string -> string -> Z -> Z -> Z -> Z -> option (list Z);
  RAND_bytes : Z -> option (list Z)
}.

Section hash.
Context {lib : LuaLib} {crypto : Crypto} (L : lua_State).

(** [CheckDigest(L, index)]: the digest's name. *)
Definition CheckDigest (index : Z) : outcome string :=
  name ← (if isnoneornil L index then Ret "sha256" else CheckString L index);
  let known := existsb (String.eqb name) kDigests in
  if known && EVP_MD_fetch name then Ret name
  else Throw (ArgError L index ("unknown digest '" +:+ name +:+ "' (use md5, sha1, sha224, " +:+
              "sha256, sha384, sha512, sha3-256 or sha3-512)")).

Definition Hmac : outcome string :=
  md ← CheckDigest 1;
  key ← CheckString L 2;
  data ← CheckString L 3;
  match HMAC md key data with
  | None => Throw (RuntimeError "Hash.hmac failed")
  | Some out => Ret (Hex out)
  end.

Definition Pbkdf2 : outcome string :=
  password ← CheckString L 1;
  salt ← CheckString L 2;
  iterations ← CheckInteger L 3 1 kMaxIterations;
  length ← CheckInteger L 4 1 kMaxOutput;
  md ← CheckDigest 5;
  match PKCS5_PBKDF2_HMAC password salt iterations md length with
  | None => Throw (RuntimeError "Hash.pbkdf2 failed")
  | Some out => Ret (Hex out)
  end.

Definition Scrypt : outcome string :=
  password ← CheckString L 1;
  salt ← CheckString L 2;
  n ← CheckInteger L 3 2 (2 ^ 30);
  r ← CheckInteger L 4 1 (2 ^ 16);
  p ← CheckInteger L 5 1 (2 ^ 16);
  length ← CheckInteger L 6 1 kMaxOutput;
  _ ← throw_if (negb (Z.land n (wrap 64 (n - 1)) =? 0)) (ArgError L 3 "N must be a power of two");
  match EVP_PBE_scrypt password salt n r p length with
  | None => Throw (RuntimeError ("Hash.scrypt: the parameters need too much memory " +:+
                                 "(N * r * 128 bytes, at most 32 MiB)"))
  | Some out => Ret (Hex out)
  end.

Definition RandomBytes : outcome string :=
  count ← CheckInteger L 1 0 kMaxRandom;
  if count =? 0 then Ret ""
  else match RAND_bytes count with
       | None => Throw (RuntimeError "Hash.randomBytes: the random generator failed")
       | Some out => Ret (string_of_bytes out)
       end.
End hash.

Definition ToHex (s : string) : string := Hex (bytes_of s).

(** [CRYPTO_memcmp]: every byte is looked at, then the differences are tested. *)
Definition CRYPTO_memcmp (a b : list Z) : Z :=
  fold_left (fun acc p => Z.lor acc (Z.lxor p.1 p.2)) (zip a b) 0.

Definition Equals (a b : string) : bool :=
  (Z.of_nat (String.length a) =? Z.of_nat (String.length b)) &&
  (CRYPTO_memcmp (bytes_of a) (bytes_of b) =? 0).

(** ** Reading hex back *)

Definition nibble_of (c : Ascii.ascii) : option Z :=
  if is_digit c then Some (byte_of_ascii c - 48)
  else if char_in 97 102 c then Some (byte_of_ascii c - 87)
  else None.

Fixpoint unhex (l : list Ascii.ascii) : option (list Z) :=
  match l with
  | [] => Some []
  | hi :: lo :: l =>
      h ← nibble_of hi; l' ← nibble_of lo; rest ← unhex l; Some (16 * h + l' :: rest)
  | _ => None
  end.

(** ** Lemmas *)

Lemma nibble_of_hex v : 0 <= v < 16 -> nibble_of (hex_digit v) = Some v.
Proof.
  intros Hv. rewrite <- (Z2Nat.id v) by lia. assert (Z.to_nat v < 16)%nat as Hn by lia.
  revert Hn. generalize (Z.to_nat v). intros n Hn.
  do 16 (destruct n as [|n]; [by vm_compute|]). lia.
Qed.

Lemma hex_nibbles b : is_byte b -> 0 <= Z.shiftr b 4 < 16 /\ 0 <= Z.land b 15 < 16 /\
  16 * Z.shiftr b 4 + Z.land b 15 = b.
Proof.
  unfold is_byte. intros Hb. rewrite Z.shiftr_div_pow2 by lia. change 15 with (Z.ones 4).
  rewrite Z.land_ones by lia. change (2 ^ 4) with 16.
  pose proof (Z.div_mod b 16). pose proof (Z.mod_pos_bound b 16).
  assert (b / 16 < 16) by (apply Z.div_lt_upper_bound; lia).
  pose proof (Z.div_pos b 16). lia.
Qed.

Lemma power_of_two n : 2 <= n -> Z.land n (n - 1) = 0 -> n = 2 ^ Z.log2 n.
Proof.
  intros Hn Hz. destruct (Z.log2_spec n) as [Hlo Hhi]; [lia|].
  assert (1 <= Z.log2 n) as Hl by (apply (Z.log2_le_mono 2); lia).
  destruct (decide (n = 2 ^ Z.log2 n)) as [|Hne]; [done|]. exfalso.
  assert (Z.testbit (Z.land n (n - 1)) (Z.log2 n) = true) as Hbit.
  { rewrite Z.land_spec, Z.bit_log2 by lia. simpl.
    replace (Z.log2 n) with (Z.log2 (n - 1)); [apply Z.bit_log2; lia|].
    apply Z.log2_unique; lia. }
  by rewrite Hz, Z.bits_0 in Hbit.
Qed.

Lemma power_of_two_conv k : 0 <= k -> Z.land (2 ^ k) (2 ^ k - 1) = 0.
Proof.
  intros Hk. replace (2 ^ k - 1) with (Z.ones k) by (rewrite Z.ones_equiv; lia).
  rewrite Z.land_ones by done. apply Z.mod_same. by apply Z.pow_nonzero.
Qed.

Lemma memcmp_zero a b :
  length a = length b -> CRYPTO_memcmp a b = 0 <-> a = b.
Proof.
  intros Hl. unfold CRYPTO_memcmp.
  assert (forall acc, fold_left (fun acc p => Z.lor acc (Z.lxor p.1 p.2)) (zip a b) acc = 0 <->
    acc = 0 /\ a = b) as H.
  { revert b Hl. induction a as [|x a IH]; intros [|y b] Hl acc; simplify_eq/=; [tauto|].
    rewrite IH by done. rewrite Z.lor_eq_0_iff, Z.lxor_eq_0_iff. split; [by intros [[-> ->] ->]|].
    intros [-> [= -> ->]]. done. }
  rewrite H. tauto.
Qed.

Lemma bytes_of_inj a b : bytes_of a = bytes_of b -> a = b.
Proof.
  intros H. rewrite <- (string_of_to_list a), <- (string_of_to_list b). f_equal.
  apply (list_fmap_eq_inj byte_of_ascii); [|done].
  intros x y Hxy. by rewrite <- (ascii_of_byte_of_ascii x), <- (ascii_of_byte_of_ascii y), Hxy.
Qed.

(** ** Properties *)

(** Hex output loses nothing: it has two lower-case digits per byte and
    reading them back gives the bytes. *)
Theorem Hex_round_trip bs :
  Forall is_byte bs ->
  unhex (string_to_list (Hex bs)) = Some bs /\ String.length (Hex bs) = (2 * length bs)%nat.
Proof.
  intros Hb. unfold Hex. rewrite <- length_string_to_list, !string_to_of_list. unfold Hex_chars.
  induction Hb as [|b bs Hb Hbs [IHu IHl]]; [done|].
  destruct (hex_nibbles b Hb) as (Hh & Hlo & Heq). split.
  - rewrite fmap_cons. simpl concat. simpl unhex.
    rewrite (nibble_of_hex _ Hh). simpl. rewrite (nibble_of_hex _ Hlo). simpl.
    rewrite IHu. simpl. by rewrite Heq.
  - rewrite fmap_cons. simpl. rewrite IHl. lia.
Qed.

Lemma Hex_round_trip_witness :
  Hex [0; 255; 26] = "00ff1a" /\ unhex (string_to_list (Hex [0; 255; 26])) = Some [0; 255; 26].
Proof.
  split; [by vm_compute|]. apply Hex_round_trip.
  repeat constructor; unfold is_byte; lia.
Defined.

(** The constant-time comparison is equality of the strings. *)
Theorem Equals_is_equality a b : Equals a b = true <-> a = b.
Proof.
  unfold Equals. rewrite andb_true_iff, !Z.eqb_eq, <- !length_string_to_list. split.
  - intros [Hl Hz]. apply bytes_of_inj, memcmp_zero; [|done].
    unfold bytes_of. rewrite !length_fmap. lia.
  - intros ->. split; [done|]. by apply memcmp_zero.
Qed.

Section hash_theorems.
Context {lib : LuaLib} {crypto : Crypto} (L : lua_State).

(** [Hash.scrypt] calls OpenSSL only with parameters in range and N a
    power of two from 2 to 2^30, and what it returns is then OpenSSL's output
    in hex; anything else is refused before the call as an invalid argument. *)
Theorem Scrypt_checks_parameters :
  (exists what, Scrypt L = Throw (InvalidArgument what)) \/
  exists password salt k r p length,
    1 <= k <= 30 /\ 1 <= r <= 65536 /\ 1 <= p <= 65536 /\ 1 <= length <= 1024 /\
    Scrypt L = match EVP_PBE_scrypt password salt (2 ^ k) r p length with
               | Some out => Ret (Hex out)
               | None => Throw (RuntimeError ("Hash.scrypt: the parameters need too much memory " +:+
                                              "(N * r * 128 bytes, at most 32 MiB)"))
               end.
Proof.
  unfold Scrypt.
  assert (forall i msg, exists what, ArgError L i msg = InvalidArgument what) as Harg.
  { intros i msg. unfold ArgError. repeat case_match; by eexists. }
  assert (forall i, (exists s, CheckString L i = Ret s) \/
    exists what, CheckString L i = Throw (InvalidArgument what)) as Hstr.
  { intros i. unfold CheckString, TypeError. destruct (at_index L i) as [[]|];
      try (by left; eexists); right; edestruct Harg as [what ->]; by exists what. }
  assert (forall i lo hi, (exists z, CheckInteger L i lo hi = Ret z /\ lo <= z <= hi) \/
    exists what, CheckInteger L i lo hi = Throw (InvalidArgument what)) as Hint.
  { intros i lo hi. destruct (CheckInteger L i lo hi) as [z|e|] eqn:E.
    - left. exists z. split; [done|]. apply CheckInteger_Ret in E as [_ ?]. done.
    - right. destruct (CheckInteger_total L i lo hi) as [[z Hz]|[what Hw]]; [congruence|].
      exists what. congruence.
    - destruct (CheckInteger_total L i lo hi) as [[z Hz]|[what Hw]]; congruence. }
  destruct (Hstr 1) as [[password ->]|[what ->]]; [|left; by exists what]. simpl.
  destruct (Hstr 2) as [[salt ->]|[what ->]]; [|left; by exists what]. simpl.
  destruct (Hint 3 2 (2 ^ 30)) as [(n & -> & Hn)|[what ->]]; [|left; by exists what]. simpl.
  destruct (Hint 4 1 (2 ^ 16)) as [(r & -> & Hr)|[what ->]]; [|left; by exists what]. simpl.
  destruct (Hint 5 1 (2 ^ 16)) as [(p & -> & Hp)|[what ->]]; [|left; by exists what]. simpl.
  destruct (Hint 6 1 kMaxOutput) as [(len & -> & Hlen)|[what ->]]; [|left; by exists what]. simpl.
  rewrite wrap_small by lia. destruct (Z.land n (n - 1) =? 0) eqn:Ez; simpl.
  - right. apply Z.eqb_eq in Ez. apply power_of_two in Ez; [|lia].
    exists password, salt, (Z.log2 n), r, p, len. rewrite <- Ez.
    assert (1 <= Z.log2 n) by (apply (Z.log2_le_mono 2); lia).
    assert (Z.log2 n <= 30) by (apply (Z.log2_le_mono n (2 ^ 30)); lia).
    unfold kMaxOutput in Hlen. split_and!; try lia. done.
  - left. edestruct Harg as [what ->]. by exists what.
Qed.

(** Every power of two in range is accepted as N. *)
Theorem Scrypt_accepts_powers_of_two password salt k r p len :
  1 <= k <= 30 -> 1 <= r <= 65536 -> 1 <= p <= 65536 -> 1 <= len <= 1024 ->
  stack L = [LString password; LString salt; LInt (2 ^ k); LInt r; LInt p; LInt len] ->
  forall out, EVP_PBE_scrypt password salt (2 ^ k) r p len = Some out -> Scrypt L = Ret (Hex out).
Proof.
  intros Hk Hr Hp Hlen HL out Hout. unfold Scrypt, CheckString, CheckInteger, at_index, check_range.
  rewrite HL. simpl.
  assert (2 ^ 1 <= 2 ^ k <= 2 ^ 30) by (split; apply Z.pow_le_mono_r; lia).
  unfold kMaxOutput.
  rewrite !(proj2 (Z.ltb_ge _ _)) by lia. simpl.
  rewrite wrap_small by lia. rewrite power_of_two_conv by lia. simpl.
  by rewrite Hout.
Qed.
End hash_theorems.

Definition demo_crypto : Crypto :=
  {| EVP_MD_fetch _ := true; HMAC _ _ _ := None; PKCS5_PBKDF2_HMAC _ _ _ _ _ := None;
     EVP_PBE_scrypt _ _ n r p len := if n * r * 128 <=? 2 ^ 25 then Some (replicate (Z.to_nat len) 7) else None;
     RAND_bytes _ := None |}.

Lemma Scrypt_accepts_powers_of_two_witness :
  Scrypt (lib := plain_lib) (crypto := demo_crypto)
    (mkState None [LString "pw"; LString "salt"; LInt (2 ^ 14); LInt 8; LInt 1; LInt 2]) = Ret "0707".
Proof.
  apply (Scrypt_accepts_powers_of_two (lib := plain_lib) (crypto := demo_crypto)
    (mkState None [LString "pw"; LString "salt"; LInt (2 ^ 14); LInt 8; LInt 1; LInt 2])
    "pw" "salt" 14 8 1 2) with (out := [7; 7]); try lia; vm_compute; reflexivity.
Defined.
