(* ===== verification/World.v ===== *)
(** The state of the whole plugin, and the interface [Env] to everything
    outside it: the Lua code of the scripts, the server, libcurl and the file
    system. The components' state classes are instantiated here once. *)
From stdpp Require Import base tactics list gmap strings.
From Stdlib Require Import ZArith Lia.
From S2P Require Import Prelude.
From S2P Require Import EntityPool.
From S2P Require Import LuaValue.
From S2P Require Import Invoker.
From S2P Require Import EventBus.
From S2P Require Import Dispatch.
From S2P Require Import EntityPools.
From S2P Require Import Scheduler.
From S2P Require Import Config.
From S2P Require Import Http.
Open Scope Z_scope.

(** The steps of the frame pump that [Runtime]'s constructor adds. *)
Inductive frame_step := TimersTick | HttpPump | CopasStep.

(** [Runtime] (src/runtime/runtime.hpp). [r_this_timer] is the raw global
    [thisTimer] of its Lua state; [r_lua] says whether [lua_] has a value. *)
Record Runtime := mkRuntime
  { r_config : Config; r_invoker : Invoker; r_entities : list EntityPool; r_events : EventBus;
    r_timers : Scheduler; r_http : Http; r_pump : list frame_step; r_this_timer : lua_value;
    r_lua : bool; closing_ : bool; dead_ : bool; reload_requested_ : bool }.

Definition set_r_invoker (i : Invoker) (r : Runtime) : Runtime :=
  mkRuntime (r_config r) i (r_entities r) (r_events r) (r_timers r) (r_http r) (r_pump r)
    (r_this_timer r) (r_lua r) (closing_ r) (dead_ r) (reload_requested_ r).
Definition set_r_entities (x : list EntityPool) (r : Runtime) : Runtime :=
  mkRuntime (r_config r) (r_invoker r) x (r_events r) (r_timers r) (r_http r) (r_pump r)
    (r_this_timer r) (r_lua r) (closing_ r) (dead_ r) (reload_requested_ r).
Definition set_r_events (x : EventBus) (r : Runtime) : Runtime :=
  mkRuntime (r_config r) (r_invoker r) (r_entities r) x (r_timers r) (r_http r) (r_pump r)
    (r_this_timer r) (r_lua r) (closing_ r) (dead_ r) (reload_requested_ r).
Definition set_r_timers (x : Scheduler) (r : Runtime) : Runtime :=
  mkRuntime (r_config r) (r_invoker r) (r_entities r) (r_events r) x (r_http r) (r_pump r)
    (r_this_timer r) (r_lua r) (closing_ r) (dead_ r) (reload_requested_ r).
Definition set_r_http (x : Http) (r : Runtime) : Runtime :=
  mkRuntime (r_config r) (r_invoker r) (r_entities r) (r_events r) (r_timers r) x (r_pump r)
    (r_this_timer r) (r_lua r) (closing_ r) (dead_ r) (reload_requested_ r).
Definition set_r_pump (x : list frame_step) (r : Runtime) : Runtime :=
  mkRuntime (r_config r) (r_invoker r) (r_entities r) (r_events r) (r_timers r) (r_http r) x
    (r_this_timer r) (r_lua r) (closing_ r) (dead_ r) (reload_requested_ r).
Definition set_r_this_timer (x : lua_value) (r : Runtime) : Runtime :=
  mkRuntime (r_config r) (r_invoker r) (r_entities r) (r_events r) (r_timers r) (r_http r) (r_pump r)
    x (r_lua r) (closing_ r) (dead_ r) (reload_requested_ r).
Definition set_r_lua (x : bool) (r : Runtime) : Runtime :=
  mkRuntime (r_config r) (r_invoker r) (r_entities r) (r_events r) (r_timers r) (r_http r) (r_pump r)
    (r_this_timer r) x (closing_ r) (dead_ r) (reload_requested_ r).
Definition set_closing (x : bool) (r : Runtime) : Runtime :=
  mkRuntime (r_config r) (r_invoker r) (r_entities r) (r_events r) (r_timers r) (r_http r) (r_pump r)
    (r_this_timer r) (r_lua r) x (dead_ r) (reload_requested_ r).
Definition set_dead (x : bool) (r : Runtime) : Runtime :=
  mkRuntime (r_config r) (r_invoker r) (r_entities r) (r_events r) (r_timers r) (r_http r) (r_pump r)
    (r_this_timer r) (r_lua r) (closing_ r) x (reload_requested_ r).
Definition set_reload (x : bool) (r : Runtime) : Runtime :=
  mkRuntime (r_config r) (r_invoker r) (r_entities r) (r_events r) (r_timers r) (r_http r) (r_pump r)
    (r_this_timer r) (r_lua r) (closing_ r) (dead_ r) x.

(** The constructor's members; the Lua state it sets up is the environment's. *)
Definition new_runtime (config : Config) : Runtime :=
  mkRuntime config new_invoker new_pools new_bus new_scheduler (new_http (cafile (http_cfg config)))
    [TimersTick; HttpPump; CopasStep] LNil true false false false.

(** The plugin: the runtime the code runs in, whether it is
    [plugin.runtime] (or the plugin has none), the deferred shutdown, the log,
    the clock, the Lua stack slots that are free, and the rest of the world
    [S] (the server, the heap of the scripts). *)
Record World (S : Type) := mkWorld
  { rt : Runtime; present : bool; shutdown_deferred : bool; log : list (level * string);
    now_ms : Z; room : Z; rest : S }.
Arguments mkWorld {S}.
Arguments rt {S}.
Arguments present {S}.
Arguments shutdown_deferred {S}.
Arguments log {S}.
Arguments now_ms {S}.
Arguments room {S}.
Arguments rest {S}.

Section world.
Context {S : Type}.
Implicit Types (w : World S).

Definition upd_rt (f : Runtime -> Runtime) (w : World S) : World S :=
  mkWorld (f (rt w)) (present w) (shutdown_deferred w) (log w) (now_ms w) (room w) (rest w).
Definition set_present (b : bool) (w : World S) : World S :=
  mkWorld (rt w) b (shutdown_deferred w) (log w) (now_ms w) (room w) (rest w).
Definition set_deferred (b : bool) (w : World S) : World S :=
  mkWorld (rt w) (present w) b (log w) (now_ms w) (room w) (rest w).
Definition set_log (l : list (level * string)) (w : World S) : World S :=
  mkWorld (rt w) (present w) (shutdown_deferred w) l (now_ms w) (room w) (rest w).
Definition set_rest (s : S) (w : World S) : World S :=
  mkWorld (rt w) (present w) (shutdown_deferred w) (log w) (now_ms w) (room w) s.
Definition add_log (l : level) (s : string) (w : World S) : World S :=
  set_log (log w ++ [(l, s)]) w.
End world.

(** Everything outside the plugin. *)
Class Env (S : Type) := {
  (** a protected call of a Lua function: the error value, if it raised one *)
  env_pcall : Z -> list lua_value -> World S -> option lua_value * World S;
  (** loading a script file: an error value, or the chunk's function *)
  env_load : string -> World S -> (lua_value + Z) * World S;
  (** closing the Lua state, which runs the finalizers of the scripts *)
  env_close : World S -> World S;
  (** the prelude's [copas_step] *)
  env_copas_step : Z;
  (** the server's answers and its delete functions *)
  env_queries : World S -> ServerQueries;
  env_delete : EntityKind -> option (Z -> World S -> World S);
  (** libcurl's work of one frame *)
  env_curl : World S -> curl_report;
  (** reading luaconfig.lua again and building a runtime from it, on a reload *)
  env_reload : World S -> outcome Config;
  (** identities of new Lua objects *)
  env_new_obj : nat -> World S -> Z
}.

Section instances.
Context {S : Type} {env : Env S}.

#[export] Instance world_host : LuaHost (World S).
Proof.
  refine {| get_invoker w := r_invoker (rt w); set_invoker i := upd_rt (set_r_invoker i);
            log_line := add_log; checkstack n w := n <=? room w; pcall := env_pcall |}; done.
Defined.

#[export] Instance world_bus : HasBus (World S).
Proof.
  refine {| get_bus w := r_events (rt w); set_bus b := upd_rt (set_r_events b) |}; done.
Defined.

#[export] Instance world_timers : HasTimers (World S).
Proof.
  refine {| get_sched w := r_timers (rt w); set_sched s := upd_rt (set_r_timers s);
            clock := now_ms; this_timer w := r_this_timer (rt w);
            set_this_timer v := upd_rt (set_r_this_timer v) |}; done.
Defined.

#[export] Instance world_http : HasHttp (World S).
Proof.
  refine {| get_http w := r_http (rt w); set_http h := upd_rt (set_r_http h);
            new_obj := env_new_obj |}; done.
Defined.

#[export] Instance world_pools : HasPools (World S).
Proof.
  refine {| get_pools w := r_entities (rt w); set_pools ps := upd_rt (set_r_entities ps) |}; done.
Defined.

#[export] Instance world_delete : ServerDelete (World S) := {| delete_fn := env_delete |}.
End instances.

(** ** Arguments of an event *)

(** What [Emit] is given: a value, or an entity reference that becomes the
    entity's handle when it is pushed. *)
Inductive arg := AValue (v : lua_value) | ARef (k : EntityKind) (r : EntityRef).

Definition AText (s : option string) : arg :=
  AValue (match s with Some s => LString s | None => LNil end).
Definition AInt (z : Z) : arg := AValue (LInt z).
Definition ABool (b : bool) : arg := AValue (LBool b).

Section push.
Context {S : Type} {env : Env S}.

(** [PushEntity(L, kind, id, generation)]: the cached handle, or nil. *)
Definition PushEntity (k : EntityKind) (r : EntityRef) : prog (World S) lua_value := fun w =>
  if ref_id r <? 0 then (Ret LNil, w)
  else
    let '(h, p) := Push (pool_of k w) (env_new_obj 0 w) (ref_id r) (ref_generation r) in
    (Ret (match h with Some h => LHandle h | None => LNil end),
     upd_pool k (fun _ => p) w).

Definition push_arg (a : arg) : prog (World S) lua_value :=
  match a with AValue v => pret v | ARef k r => PushEntity k r end.

Fixpoint push_list (args : list arg) : prog (World S) (list lua_value) :=
  match args with
  | [] => pret []
  | a :: args => pbind (push_arg a) (fun v => pbind (push_list args) (fun vs => pret (v :: vs)))
  end.
End push.
