(* ===== verification/Runtime.v ===== *)
(** The runtime (src/runtime/runtime.hpp, runtime.cpp, src/core/frame_pump.cpp):
    loading scripts, the frame, telling the scripts about a shutdown, and
    tearing the Lua state down in order. *)
From stdpp Require Import base tactics list gmap strings.
From Stdlib Require Import ZArith Lia Floats.SpecFloat.
From S2P Require Import Prelude.
From S2P Require Import EntityPool.
From S2P Require Import LuaValue.
From S2P Require Import Invoker.
From S2P Require Import EventBus.
From S2P Require Import Dispatch.
From S2P Require Import EntityPools.
From S2P Require Import Scheduler.
From S2P Require Import Config.
From S2P Require Import Http.
From S2P Require Import World.
Open Scope Z_scope.

(** [vcmpDisconnectReasonTimeout]. *)
Definition vcmpDisconnectReasonTimeout : Z := 0.

Inductive ShutdownReason := Server | Reload.

Section runtime.
Context {S : Type} {env : Env S} {lib : LuaLib}.
Implicit Types (w : World S).

(** ** State tests *)

Definition Usable (w : World S) : bool :=
  r_lua (rt w) && negb (closing_ (rt w)) && negb (dead_ (rt w)).

Definition InLuaCall (w : World S) : bool := 0 <? depth (get_invoker w).

(** [MarkDead()], which the panic handler calls before it throws. *)
Definition MarkDead (w : World S) : World S :=
  upd_rt (fun r => set_r_invoker (Invoker_MarkDead (r_invoker r)) (set_dead true r)) w.

(** [RequestReload()]. *)
Definition RequestReload (w : World S) : World S := upd_rt (set_reload true) w.

(** [Runtime::Require(L)], the first thing every binding does. *)
Definition Require_runtime : prog (World S) unit := fun w =>
  if Usable w then (Ret tt, w) else (Throw (RuntimeError "runtime shutting down"), w).

Definition Emit (e : Event) (args : list arg) : prog (World S) bool :=
  EmitOn e (push_list args).

(** ** The frame pump *)

(** [FramePump::Run]: by index, up to the current size; [fuel] bounds the
    number of steps, which may grow while they run. *)
Fixpoint run_pump (run_step : frame_step -> prog (World S) unit) (fuel i : nat)
    : prog (World S) unit :=
  match fuel with
  | O => pret tt
  | Datatypes.S fuel => fun w =>
      match r_pump (rt w) !! i with
      | None => (Ret tt, w)
      | Some s => pbind (run_step s) (fun _ => run_pump run_step fuel (Datatypes.S i)) w
      end
  end.

Definition Pump_Add (s : frame_step) (w : World S) : World S :=
  upd_rt (fun r => set_r_pump (r_pump r ++ [s]) r) w.
Definition Pump_Clear (w : World S) : World S := upd_rt (set_r_pump []) w.

(** The steps [Runtime]'s constructor adds. *)
Definition run_step (s : frame_step) : prog (World S) unit :=
  match s with
  | TimersTick => Tick
  | HttpPump => fun w => Pump (env_curl w) w
  | CopasStep => pbind (Call env_copas_step "copas.step" (pret [])) (fun _ => pret tt)
  end.

(** ** Operations *)

(** [Frame(elapsed_seconds)]. *)
Definition Frame (elapsed : spec_float) : prog (World S) unit := fun w =>
  if negb (Usable w) then (Ret tt, w)
  else
    pbind (run_pump run_step (length (r_pump (rt w))) 0) (fun _ w =>
      if Usable w
      then pbind (Emit ServerFrame [AValue (LFloat elapsed)]) (fun _ => pret tt) w
      else (Ret tt, w)) w.

(** One script of [LoadScripts]. *)
Definition load_script (script : string) (w : World S) : World S :=
  let w := enter w in
  let w := log_line Linfo ("Loading " +:+ script) w in
  let w :=
    match env_load script w with
    | (inl error, w) => log_line Lerr (ErrorText (Some error)) w
    | (inr chunk, w) =>
        match env_pcall chunk [] w with
        | (Some error, w) => log_line Lerr (ProtectedCall_error error) w
        | (None, w) => w
        end
    end in
  leave w.

(** The loop over the scripts: [false] when it returned early. *)
Fixpoint load_scripts (scripts : list string) (w : World S) : bool * World S :=
  match scripts with
  | [] => (true, w)
  | script :: scripts =>
      if negb (Usable w) then (false, w) else load_scripts scripts (load_script script w)
  end.

(** [Enumerate] on the runtime's pools, with its warnings. *)
Definition enumerate (w : World S) : World S :=
  let '(ps, warnings) := Enumerate (env_queries w) (get_pools w) in
  fold_left (fun w s => log_line Lwarn s w) warnings (set_pools ps w).

(** [LoadScripts()]. *)
Definition LoadScripts : prog (World S) unit := fun w =>
  if negb (Usable w) then (Ret tt, w)
  else
    match load_scripts (scripts (r_config (rt w))) (enumerate w) with
    | (false, w) => (Ret tt, w)
    | (true, w) =>
        if Usable w then pbind (Emit ServerInit []) (fun _ => pret tt) w else (Ret tt, w)
    end.

Definition adopt_id (k : EntityKind) (id : Z) (w : World S) : World S :=
  let '(p, warnings) := Adopt (pool_of k w) id in
  fold_left (fun w s => log_line Lwarn s w) warnings (upd_pool k (fun _ => p) w).
Definition release_id (k : EntityKind) (id : Z) (w : World S) : World S :=
  upd_pool k (fun p => Release p id) w.

(** The loop of [NotifyServerShutdown] over the players that were online. *)
Fixpoint notify_players (ids : list Z) : prog (World S) unit :=
  match ids with
  | [] => pret tt
  | id :: ids => fun w =>
      if negb (Usable w) then (Ret tt, w)
      else if negb (Alive (pool_of Player w) id) then notify_players ids w
      else
        pbind (Emit PlayerDisconnect
                 [ARef Player (Ref (pool_of Player w) id); AInt vcmpDisconnectReasonTimeout])
          (fun _ => pbind (pmodify (release_id Player id)) (fun _ => notify_players ids)) w
  end.

(** [NotifyServerShutdown()]. *)
Definition NotifyServerShutdown : prog (World S) unit := fun w =>
  if negb (Usable w) then (Ret tt, w)
  else
    pbind (Emit ServerShutdown []) (fun _ w => notify_players (AliveIds (pool_of Player w)) w) w.

(** Step 2 of [Shutdown]: every Lua reference C++ holds is released. *)
Definition release_lua_refs (w : World S) : World S :=
  let w := Pump_Clear w in
  let w := set_sched (Sched_Clear (get_sched w)) w in
  let w := set_http (Http_Clear (get_http w)) w in
  let w := set_bus (Bus_Clear (get_bus w)) w in
  set_pools (Pools_ReleaseRefs (get_pools w)) w.

(** [Shutdown(reason)]. The reset members of step 4 are gone with [r_lua]. *)
Definition Shutdown (reason : ShutdownReason) (w : World S) : World S :=
  if negb (r_lua (rt w)) then w
  else if InLuaCall w
  then log_line Lerr "Runtime::Shutdown during a call into Lua; ignored" w
  else
    let w := upd_rt (set_closing true) w in
    if dead_ (rt w) then upd_rt (set_r_lua false) w
    else
      let w := set_pools (Pools_Close (get_pools w)) w in
      let w := match reason with Reload => DeleteCreated w | Server => w end in
      let w := release_lua_refs w in
      let w := env_close w in
      upd_rt (set_r_lua false) w.
End runtime.

(** ** Lemmas *)

Section lemmas.
Context {S : Type} {env : Env S} {lib : LuaLib}.
Implicit Types (w : World S).

(** No Lua reference is left: what step 2 of [Shutdown] establishes before the
    Lua state is closed. *)
Record released w : Prop := mkReleased
  { rel_pump : r_pump (rt w) = [];
    rel_timers : timers (r_timers (rt w)) = ∅;
    rel_http : transfers (r_http (rt w)) = ∅;
    rel_events l : l ∈ lists (r_events (rt w)) -> l = [];
    rel_pools p s : p ∈ r_entities (rt w) -> s ∈ slots p -> handle s = None /\ data s = None }.

(** The state right before [lua_.reset()]. *)
Definition before_close (reason : ShutdownReason) (w : World S) : World S :=
  let w := upd_rt (set_closing true) w in
  let w := set_pools (Pools_Close (get_pools w)) w in
  let w := match reason with Reload => DeleteCreated w | Server => w end in
  release_lua_refs w.

Lemma release_lua_refs_released w : released (release_lua_refs w).
Proof.
  split; simpl; try done.
  - intros l (x & -> & _)%list_elem_of_fmap. done.
  - intros p s (x & -> & _)%list_elem_of_fmap. simpl.
    intros (y & -> & _)%list_elem_of_fmap. done.
Qed.

Lemma release_lua_refs_closing w : closing_ (rt (release_lua_refs w)) = closing_ (rt w).
Proof. done. Qed.

(** What the server's delete functions may do to the runtime while it closes
    (it is not [plugin.runtime] then): nothing that opens it again. *)
Definition closing_rel w w' : Prop :=
  closing_ (rt w') = closing_ (rt w) /\ dead_ (rt w') = dead_ (rt w) /\
  r_lua (rt w') = r_lua (rt w) /\ depth (get_invoker w') = depth (get_invoker w).

#[export] Instance closing_rel_preorder : PreOrder closing_rel.
Proof.
  split; unfold closing_rel; [done|].
  intros w1 w2 w3 (?&?&?&?) (?&?&?&?). split_and!; congruence.
Qed.

Lemma DeleteCreated_closing w :
  (forall k f id w, delete_fn k = Some f -> closing_rel w (f id w)) -> closing_rel w (DeleteCreated w).
Proof.
  intros Hdel. apply (DeleteCreated_keeps (closing_rel w)); [| |reflexivity].
  - intros k f id w' Hf Hw. etransitivity; [exact Hw|by eapply Hdel].
  - intros k id w' Hw. exact Hw.
Qed.

Lemma Shutdown_unfold reason w :
  r_lua (rt w) = true -> InLuaCall w = false -> dead_ (rt w) = false ->
  Shutdown reason w = upd_rt (set_r_lua false) (env_close (before_close reason w)).
Proof. intros Hl Hc Hd. unfold Shutdown. rewrite Hl, Hc. simpl. rewrite Hd. done. Qed.

(** ** Properties *)

(** C15: a shutdown that is not refused releases every Lua reference C++ holds
    (handlers, timers, requests, pump steps, handles and data tables) before
    the Lua state is closed, so the finalizers run while the subsystems are
    there and empty; the bindings raise an error from its first step on. *)
Theorem Shutdown_releases_before_close reason w :
  r_lua (rt w) = true -> InLuaCall w = false -> dead_ (rt w) = false ->
  (forall k f id w, delete_fn k = Some f -> closing_rel w (f id w)) ->
  exists w1, Shutdown reason w = upd_rt (set_r_lua false) (env_close w1) /\
    released w1 /\ Usable w1 = false /\ closing_ (rt w1) = true /\
    (forall p, p ∈ r_entities (rt w1) -> reason = Server -> closed p = true).
Proof.
  intros Hl Hc Hd Hdel. exists (before_close reason w). split; [by apply Shutdown_unfold|].
  split; [apply release_lua_refs_released|].
  assert (closing_ (rt (before_close reason w)) = true) as Hcl.
  { unfold before_close. rewrite release_lua_refs_closing. destruct reason; [done|].
    by rewrite (proj1 (DeleteCreated_closing _ Hdel)). }
  split; [|split; [done|]].
  - unfold Usable. by rewrite Hcl, andb_false_r.
  - intros p Hp ->. simpl in Hp. apply list_elem_of_fmap in Hp as (p' & -> & Hp).
    apply list_elem_of_fmap in Hp as (p'' & -> & _). done.
Qed.

(** Shutting down is idempotent, and it never happens during a call into
    Lua: then it only logs. A dead runtime is abandoned without touching its
    Lua state or any reference into it. *)
Theorem Shutdown_is_safe reason reason' w :
  (InLuaCall w = true -> exists l, Shutdown reason w = set_log (log w ++ l) w) /\
  (r_lua (rt w) = true -> InLuaCall w = false -> dead_ (rt w) = true ->
     Shutdown reason w = upd_rt (set_r_lua false) (upd_rt (set_closing true) w)) /\
  (InLuaCall w = false -> Shutdown reason' (Shutdown reason w) = Shutdown reason w).
Proof.
  split_and!.
  - intros Hc. unfold Shutdown. rewrite Hc. destruct (r_lua (rt w)); simpl.
    + by eexists.
    + exists []. rewrite app_nil_r. by destruct w.
  - intros Hl Hc Hd. unfold Shutdown. rewrite Hl, Hc. simpl. by rewrite Hd.
  - intros Hc. unfold Shutdown at 2. destruct (r_lua (rt w)) eqn:Hl; simpl.
    + rewrite Hc. simpl. unfold Shutdown at 1. destruct (dead_ (rt w)) eqn:Hd.
      * unfold Shutdown. rewrite Hl. simpl. rewrite Hc, Hd. done.
      * rewrite Shutdown_unfold by done. done.
    + unfold Shutdown. by rewrite Hl.
Qed.
End lemmas.
