(* ===== verification/ServerCalls.v ===== *)
(** Calling the server from a binding (src/bindings/args.hpp, args.cpp,
    entity_type.hpp): the table of server functions, the checks on their
    results, and the texts they write into buffers. What a server function does
    is the parameter [server_api]: it may call the plugin back before it
    returns, so it changes the whole state. *)
From stdpp Require Import base tactics list strings.
From Stdlib Require Import ZArith Lia Floats.SpecFloat.
From S2P Require Import Prelude.
From S2P Require Import ApiGuard.
From S2P Require Import EntityPool.
From S2P Require Import LuaValue.
From S2P Require Import Args.
From S2P Require Import Invoker.
From S2P Require Import EntityPools.
From S2P Require Import World.
From S2P Require Import Runtime.
Open Scope Z_scope.

(** ** The function table *)

(** An argument of a server function: an integer, a [float] or [double], or a
    C string. *)
Inductive cval := CInt (z : Z) | CNum (f : spec_float) | CText (s : string).

(** What a server function gives back: its result, as an integer (an error
    code, a number, a flag) or as a floating-point number; what it wrote
    through its pointer arguments, integers and floating-point numbers apart;
    and the bytes it wrote into a buffer. *)
Record answer := mkAnswer
  { a_int : Z; a_num : spec_float; a_ints : list Z; a_nums : list spec_float; a_text : string }.

(** An out parameter: what the function wrote, or the initial value [d]. *)
Definition out_int (a : answer) (i : nat) (d : Z) : Z := nth i (a_ints a) d.
Definition out_num_or (a : answer) (i : nat) (d : spec_float) : spec_float := nth i (a_nums a) d.
Definition out_num (a : answer) (i : nat) : spec_float := out_num_or a i (S754_zero false).

(** The pointers of [PluginFuncs], in the order of the struct. *)
Definition PluginFuncs_names : list string :=
  ["GetServerVersion"; "GetServerSettings"; "ExportFunctions"; "GetNumberOfPlugins";
   "GetPluginInfo"; "FindPlugin"; "GetPluginExports"; "SendPluginCommand"; "GetTime";
   "LogMessage"; "GetLastError"; "SendClientScriptData"; "SendClientMessage"; "SendGameMessage";
   "SetServerName"; "GetServerName"; "SetMaxPlayers"; "GetMaxPlayers"; "SetServerPassword";
   "GetServerPassword"; "SetGameModeText"; "GetGameModeText"; "ShutdownServer";
   "SetServerOption"; "GetServerOption"; "SetWorldBounds"; "GetWorldBounds"; "SetWastedSettings";
   "GetWastedSettings"; "SetTimeRate"; "GetTimeRate"; "SetHour"; "GetHour"; "SetMinute";
   "GetMinute"; "SetWeather"; "GetWeather"; "SetGravity"; "GetGravity"; "SetGameSpeed";
   "GetGameSpeed"; "SetWaterLevel"; "GetWaterLevel"; "SetMaximumFlightAltitude";
   "GetMaximumFlightAltitude"; "SetKillCommandDelay"; "GetKillCommandDelay";
   "SetVehiclesForcedRespawnHeight"; "GetVehiclesForcedRespawnHeight"; "CreateExplosion";
   "PlaySound"; "HideMapObject"; "ShowMapObject"; "ShowAllMapObjects"; "SetWeaponDataValue";
   "GetWeaponDataValue"; "ResetWeaponDataValue"; "IsWeaponDataValueModified"; "ResetWeaponData";
   "ResetAllWeaponData"; "GetKeyBindUnusedSlot"; "GetKeyBindData"; "RegisterKeyBind";
   "RemoveKeyBind"; "RemoveAllKeyBinds"; "CreateCoordBlip"; "DestroyCoordBlip";
   "GetCoordBlipInfo"; "AddRadioStream"; "RemoveRadioStream"; "AddPlayerClass";
   "SetSpawnPlayerPosition"; "SetSpawnCameraPosition"; "SetSpawnCameraLookAt"; "IsPlayerAdmin";
   "SetPlayerAdmin"; "GetPlayerIP"; "GetPlayerUID"; "GetPlayerUID2"; "KickPlayer"; "BanPlayer";
   "BanIP"; "UnbanIP"; "IsIPBanned"; "GetPlayerIdFromName"; "IsPlayerConnected";
   "IsPlayerStreamedForPlayer"; "GetPlayerKey"; "GetPlayerName"; "SetPlayerName";
   "GetPlayerState"; "SetPlayerOption"; "GetPlayerOption"; "SetPlayerWorld"; "GetPlayerWorld";
   "SetPlayerSecondaryWorld"; "GetPlayerSecondaryWorld"; "GetPlayerUniqueWorld";
   "IsPlayerWorldCompatible"; "GetPlayerClass"; "SetPlayerTeam"; "GetPlayerTeam";
   "SetPlayerSkin"; "GetPlayerSkin"; "SetPlayerColour"; "GetPlayerColour"; "IsPlayerSpawned";
   "ForcePlayerSpawn"; "ForcePlayerSelect"; "ForceAllSelect"; "IsPlayerTyping";
   "GivePlayerMoney"; "SetPlayerMoney"; "GetPlayerMoney"; "SetPlayerScore"; "GetPlayerScore";
   "SetPlayerWantedLevel"; "GetPlayerWantedLevel"; "GetPlayerPing"; "GetPlayerFPS";
   "SetPlayerHealth"; "GetPlayerHealth"; "SetPlayerArmour"; "GetPlayerArmour";
   "SetPlayerImmunityFlags"; "GetPlayerImmunityFlags"; "SetPlayerPosition"; "GetPlayerPosition";
   "SetPlayerSpeed"; "GetPlayerSpeed"; "AddPlayerSpeed"; "SetPlayerHeading"; "GetPlayerHeading";
   "SetPlayerAlpha"; "GetPlayerAlpha"; "GetPlayerAimPosition"; "GetPlayerAimDirection";
   "IsPlayerOnFire"; "IsPlayerCrouching"; "GetPlayerAction"; "GetPlayerGameKeys";
   "PutPlayerInVehicle"; "RemovePlayerFromVehicle"; "GetPlayerInVehicleStatus";
   "GetPlayerInVehicleSlot"; "GetPlayerVehicleId"; "GivePlayerWeapon"; "SetPlayerWeapon";
   "GetPlayerWeapon"; "GetPlayerWeaponAmmo"; "SetPlayerWeaponSlot"; "GetPlayerWeaponSlot";
   "GetPlayerWeaponAtSlot"; "GetPlayerAmmoAtSlot"; "RemovePlayerWeapon"; "RemoveAllWeapons";
   "SetCameraPosition"; "RestoreCamera"; "IsCameraLocked"; "SetPlayerAnimation";
   "GetPlayerStandingOnVehicle"; "GetPlayerStandingOnObject"; "IsPlayerAway";
   "GetPlayerSpectateTarget"; "SetPlayerSpectateTarget"; "RedirectPlayerToServer";
   "CheckEntityExists"; "CreateVehicle"; "DeleteVehicle"; "SetVehicleOption"; "GetVehicleOption";
   "GetVehicleSyncSource"; "GetVehicleSyncType"; "IsVehicleStreamedForPlayer"; "SetVehicleWorld";
   "GetVehicleWorld"; "GetVehicleModel"; "GetVehicleOccupant"; "RespawnVehicle";
   "SetVehicleImmunityFlags"; "GetVehicleImmunityFlags"; "ExplodeVehicle"; "IsVehicleWrecked";
   "SetVehiclePosition"; "GetVehiclePosition"; "SetVehicleRotation"; "SetVehicleRotationEuler";
   "GetVehicleRotation"; "GetVehicleRotationEuler"; "SetVehicleSpeed"; "GetVehicleSpeed";
   "SetVehicleTurnSpeed"; "GetVehicleTurnSpeed"; "SetVehicleSpawnPosition";
   "GetVehicleSpawnPosition"; "SetVehicleSpawnRotation"; "SetVehicleSpawnRotationEuler";
   "GetVehicleSpawnRotation"; "GetVehicleSpawnRotationEuler"; "SetVehicleIdleRespawnTimer";
   "GetVehicleIdleRespawnTimer"; "SetVehicleHealth"; "GetVehicleHealth"; "SetVehicleColour";
   "GetVehicleColour"; "SetVehiclePartStatus"; "GetVehiclePartStatus"; "SetVehicleTyreStatus";
   "GetVehicleTyreStatus"; "SetVehicleDamageData"; "GetVehicleDamageData"; "SetVehicleRadio";
   "GetVehicleRadio"; "GetVehicleTurretRotation"; "ResetAllVehicleHandlings";
   "ExistsHandlingRule"; "SetHandlingRule"; "GetHandlingRule"; "ResetHandlingRule";
   "ResetHandling"; "ExistsInstHandlingRule"; "SetInstHandlingRule"; "GetInstHandlingRule";
   "ResetInstHandlingRule"; "ResetInstHandling"; "CreatePickup"; "DeletePickup";
   "IsPickupStreamedForPlayer"; "SetPickupWorld"; "GetPickupWorld"; "SetPickupAlpha";
   "GetPickupAlpha"; "SetPickupIsAutomatic"; "IsPickupAutomatic"; "SetPickupAutoTimer";
   "GetPickupAutoTimer"; "RefreshPickup"; "SetPickupPosition"; "GetPickupPosition";
   "GetPickupModel"; "GetPickupQuantity"; "CreateCheckPoint"; "DeleteCheckPoint";
   "IsCheckPointStreamedForPlayer"; "IsCheckPointSphere"; "SetCheckPointWorld";
   "GetCheckPointWorld"; "SetCheckPointColour"; "GetCheckPointColour"; "SetCheckPointPosition";
   "GetCheckPointPosition"; "SetCheckPointRadius"; "GetCheckPointRadius"; "GetCheckPointOwner";
   "CreateObject"; "DeleteObject"; "IsObjectStreamedForPlayer"; "GetObjectModel";
   "SetObjectWorld"; "GetObjectWorld"; "SetObjectAlpha"; "GetObjectAlpha"; "MoveObjectTo";
   "MoveObjectBy"; "SetObjectPosition"; "GetObjectPosition"; "RotateObjectTo";
   "RotateObjectToEuler"; "RotateObjectBy"; "RotateObjectByEuler"; "GetObjectRotation";
   "GetObjectRotationEuler"; "SetObjectShotReportEnabled"; "IsObjectShotReportEnabled";
   "SetObjectTouchedReportEnabled"; "IsObjectTouchedReportEnabled"; "GetPlayerModuleList";
   "SetPickupOption"; "GetPickupOption"; "SetFallTimer"; "GetFallTimer"; "SetVehicleLightsData";
   "GetVehicleLightsData"; "KillPlayer"; "SetVehicle3DArrowForPlayer";
   "GetVehicle3DArrowForPlayer"; "SetPlayer3DArrowForPlayer"; "GetPlayer3DArrowForPlayer";
   "SetPlayerDrunkHandling"; "GetPlayerDrunkHandling"; "SetPlayerDrunkVisuals";
   "GetPlayerDrunkVisuals"; "InterpolateCameraLookAt"; "GetNetworkStatistics"].

(** The field of a name: after the 4-byte [structSize] and its padding. *)
Definition PluginFuncs_index (name : string) : nat :=
  match list_find (eq name) PluginFuncs_names with
  | Some (i, _) => i
  | None => length PluginFuncs_names
  end.
Definition PluginFuncs_field (name : string) : Field :=
  mkField name (8 + 8 * Z.of_nat (PluginFuncs_index name)) 8.

(** The server's table; the text of sol2's error for an argument that is not
    of the class; the userdata of the class Server; and whether the compiler evaluates the arguments of a call
    from the last to the first (C++ leaves the order to it). *)
Class ServerFns (S : Type) := {
  server_api : ServerApi (list cval -> World S -> answer * World S);
  sol_bad_self : string;
  is_ServerTag : Z -> bool;
  last_argument_first : bool
}.

Section calls.
Context {S : Type} {env : Env S} {server : ServerFns S} {lib : LuaLib}.
Implicit Types (w : World S).
Abbreviation program A := (prog (World S) A).

(** A server function, called. *)
Definition as_program (g : list cval -> World S -> answer * World S) (args : list cval)
    : program answer := fun w => let '(a, w) := g args w in (Ret a, w).

(** [VCMP_LUA_FIND(api, name)] and [VCMP_FN(self, name)]: the function, to be
    called with its arguments. *)
Definition find_fn (name : string) : program (option (list cval -> program answer)) :=
  plift (f ← VCMP_LUA_FIND server_api (PluginFuncs_field name); Ret (fmap (M := option) as_program f)).
Definition VCMP_FN (name : string) : program (list cval -> program answer) :=
  plift (g ← VCMP_LUA_API server_api (PluginFuncs_field name); Ret (as_program g)).

(** [VCMP_FN(self, name)(args...)]. *)
Definition call (name : string) (args : list cval) : program answer :=
  pbind (VCMP_FN name) (fun f => f args).

(** [Check(L, error)] and [CheckLast(L, api)]. *)
Definition Check (L : lua_State) (error : Z) : program bool :=
  plift (Check_error (CurrentFunction L) error).
Definition last_error : program (option Z) :=
  pbind (find_fn "GetLastError") (fun f =>
    match f with None => pret None | Some f => pbind (f []) (fun a => pret (Some (a_int a))) end).
Definition CheckLastError (L : lua_State) : program bool :=
  pbind last_error (fun e => plift (CheckLast (CurrentFunction L) e)).

(** [Check(L, VCMP_FN(self, name)(args...))]. *)
Definition checked (L : lua_State) (name : string) (args : list cval) : program bool :=
  pbind (call name args) (fun a => Check L (a_int a)).

(** [ReadText<Size>(L, fn, args...)]: the text up to the first NUL of the
    buffer, whose last byte is set to NUL. *)
Definition ReadText (L : lua_State) (Size : nat) (name : string) (args : list cval)
    : program string :=
  pbind (call name args) (fun a =>
  pbind (if a_int a =? vcmpErrorBufferTooSmall then pret true else Check L (a_int a)) (fun _ =>
  pret (c_str (String.substring 0 (Size - 1) (a_text a))))).

(** ** Entities *)

(** [RefOf<K>(runtime, id)]. *)
Definition RefOf (k : EntityKind) (id : Z) : program EntityRef := fun w =>
  (Ret (Ref (pool_of k w) id), w).

(** [Created<K>(L, runtime, id)]. *)
Definition Created (k : EntityKind) (L : lua_State) (id : Z) : program EntityRef :=
  if id <? 0 then
    pbind last_error (fun e =>
    let error := default vcmpErrorNone e in
    pbind (if negb (error =? vcmpErrorNone) then Check L error else pret true) (fun _ =>
    pthrow (RuntimeError ("'" +:+ CurrentFunction L +:+ "' failed: the server refused"))))
  else fun w =>
    let w := adopt_id k id w in
    let ref := Ref (pool_of k w) id in
    (Ret ref, upd_pool k (fun p => MarkCreatedByUs p id) w).
End calls.
