(* ===== verification/EntityType.v ===== *)
(** Bindings that read their arguments with the types of
    src/bindings/args.hpp, and the members every entity class has
    (src/bindings/entity_type.hpp, entities.cpp). A binding is given the Lua
    stack it is called with and the index of its next argument. *)
From stdpp Require Import base tactics list strings.
From Stdlib Require Import ZArith Lia Floats.SpecFloat.
From S2P Require Import Prelude.
From S2P Require Import ApiGuard.
From S2P Require Import EntityPool.
From S2P Require Import LuaValue.
From S2P Require Import Args.
From S2P Require Import Invoker.
From S2P Require Import EntityPools.
From S2P Require Import World.
From S2P Require Import Runtime.
From S2P Require Import ServerCalls.
Open Scope Z_scope.

(** A [Live<K>]: an entity that exists. *)
Record Live := mkLive { l_id : Z; l_generation : Z }.

Section bindings.
Context {S : Type} {env : Env S} {server : ServerFns S} {lib : LuaLib}.
Implicit Types (w : World S).
Abbreviation program A := (prog (World S) A).

(** ** Reading arguments *)

(** A computation on the arguments from index [i] on: its result and the index
    of the next argument. *)
Definition reader (A : Type) : Type := lua_State -> Z -> program (A * Z).

Definition rret {A} (a : A) : reader A := fun L i => pret (a, i).
Definition rbind {A B} (m : reader A) (k : A -> reader B) : reader B := fun L i =>
  pbind (m L i) (fun '(a, i) => k a L i).
(** Two arguments of a C++ call, evaluated in the compiler's order. *)
Definition both {A B} (m : reader A) (m' : reader B) : reader (A * B) :=
  if last_argument_first then rbind m' (fun b => rbind m (fun a => rret (a, b)))
  else rbind m (fun a => rbind m' (fun b => rret (a, b))).
(** A program that reads no argument; it may look at the thread. *)
Definition run {A} (m : lua_State -> program A) : reader A := fun L i =>
  pbind (m L) (fun a => pret (a, i)).

(** An argument type that uses one slot. *)
Definition slot {A} (get : lua_State -> Z -> outcome A) : reader A := fun L i =>
  plift (a ← get L i; Ret (a, i + 1)).

(** [Int<T>], [Float], [Double], [Boolean], [String], [Colour], [Vec3]. *)
Definition Int (T : IntType) : reader Z := slot (get_Int T).
Definition Float : reader spec_float := slot get_Float.
Definition Double : reader spec_float := slot CheckNumber.
Definition Boolean : reader bool := slot CheckBoolean.
Definition String_arg : reader string := slot CheckString.
Definition Colour : reader Z := slot CheckColour.
Definition Vec3_arg : reader Vec3 := fun L i =>
  plift ('(v, used) ← get_Vec3 L i; Ret (v, i + used)).

(** [Opt<T>]: nil or a missing argument uses one slot. *)
Definition Opt {A} (m : reader A) : reader (option A) := fun L i =>
  if isnoneornil L i then pret (None, i + 1)
  else pbind (m L i) (fun '(a, j) => pret (Some a, j)).

(** [Ctx] uses no slot. *)
Definition Ctx : reader unit := run (fun _ => Require_runtime).

(** The remaining arguments, for the bindings that inspect them themselves. *)
Definition variadic : reader ArgReader := fun L i => pret (mkReader L i, i).

(** The table or number at a position, for errors and raw reads. *)
Definition checked_arg {A} (o : outcome A) : reader A := run (fun _ => plift o).

(** [sol::object]: any value. *)
Definition Any : reader lua_value := fun L i => pret (default LNil (at_index L i), i + 1).

(** The stack with one more value on it, as after [lua_push...]. *)
Definition pushed (L : lua_State) (v : lua_value) : lua_State :=
  mkState (frame L) (stack L ++ [v]).

(** ** Live entities *)

(** [RequireBindExists(runtime, id)]. *)
Definition RequireBindExists (id : Z) : program unit := fun w =>
  if KeyBindExists (env_queries w) id then (Ret tt, w)
  else (Throw (RuntimeError "bind no longer exists"), release_id Bind id w).

(** [CheckLive<K>(L, index)]. *)
Definition CheckLive (k : EntityKind) (L : lua_State) (index : Z) : program Live :=
  pbind Require_runtime (fun _ =>
  match ToHandle k L index with
  | None => pthrow (TypeError L index (type_name (Traits k)))
  | Some h =>
      pbind (fun w => (Require (pool_of k w) (h_id h) (h_generation h), w)) (fun _ =>
      pbind (match k with Bind => RequireBindExists (h_id h) | _ => pret tt end) (fun _ =>
      pret (mkLive (h_id h) (h_generation h))))
  end).

(** [Live<K>] as an argument. *)
Definition Live_arg (k : EntityKind) : reader Live := fun L i =>
  pbind (CheckLive k L i) (fun self => pret (self, i + 1)).

(** [const EntityHandle<K>&]: sol2 checks the class, not the entity. *)
Definition Handle_arg (k : EntityKind) : reader EntityHandle := fun L i =>
  match ToHandle k L i with
  | Some h => pret (h, i + 1)
  | None => pthrow (RuntimeError sol_bad_self)
  end.

(** ** Results *)

(** What a member pushes. *)
Definition results : Type := list lua_value.

Definition r_nil : reader results := rret [LNil].
Definition r_none : reader results := rret [].
Definition r_bool (b : bool) : reader results := rret [LBool b].
Definition r_int (z : Z) : reader results := rret [LInt z].
Definition r_num (f : spec_float) : reader results := rret [LFloat f].
Definition r_text (s : string) : reader results := rret [LString s].
(** An [EntityRef<K>]: the cached handle, or nil. *)
Definition r_ref (k : EntityKind) (r : EntityRef) : reader results :=
  run (fun _ => pbind (PushEntity k r) (fun v => pret [v])).
(** [create_table_with(...)]: the [n]-th new object. *)
Definition new_table (n : nat) (entries : list (lua_value * lua_value)) : reader lua_value :=
  run (fun _ w => (Ret (LTable (env_new_obj n w) entries), w)).
Definition r_table (entries : list (lua_value * lua_value)) : reader results :=
  rbind (new_table 0 entries) (fun t => rret [t]).
(** [sol_lua_push(Vec3)]. *)
Definition r_vec (v : Vec3) : reader results :=
  run (fun _ w => (Ret [push_Vec3 (env_new_obj 0 w) v], w)).

(** Calls of the server in a binding. *)
Definition server_call (name : string) (args : list cval) : reader answer :=
  run (fun _ => call name args).
Definition server_checked (name : string) (args : list cval) : reader bool :=
  run (fun L => checked L name args).
Definition check_last : reader bool := run CheckLastError.
(** [VCMP_FN(self, name)]: looked up before its arguments are computed. *)
Definition server_fn (name : string) : reader (list cval -> program answer) :=
  run (fun _ => VCMP_FN name).

(** [Vec3 v; Check(L, fn(args..., &v.x, &v.y, &v.z)); return v;] *)
Definition server_vec (name : string) (args : list cval) : reader Vec3 :=
  run (fun L => pbind (call name args) (fun a =>
    pbind (Check L (a_int a)) (fun _ => pret (mkVec3 (out_num a 0) (out_num a 1) (out_num a 2))))).

Definition vec_args (v : Vec3) : list cval := [CNum (vx v); CNum (vy v); CNum (vz v)].
Definition flag (b : bool) : cval := CInt (if b then 1 else 0).
(** [text.c_str()]. *)
Definition c_text (s : string) : cval := CText (c_str s).

(** ** Members *)

(** A member of a class: a function of the class; a method, whose first
    argument is [Live<K>]; a property of [Property<K>(get, set)]: sol2 reads the
    value before the setter checks the entity; or a method or property that
    takes the bare handle. *)
Inductive member :=
  | Static (body : reader results)
  | Method (body : Live -> reader results)
  | Property (get : Live -> reader results)
  | PropertyRW (get : Live -> reader results) (set : reader (Live -> reader unit))
  | OnHandle (body : EntityHandle -> reader results)
  | HandleProperty (get : EntityHandle -> reader results)
      (set : option (reader (EntityHandle -> reader unit))).

(** How a script uses a member: a call, a read, an assignment. *)
Inductive access := ACall | AGet | ASet.

Definition discard {A} (m : reader A) : reader results := rbind m (fun _ => r_none).

(** Using a member of class [k] on the stack [L]: the arguments of a call, or
    (object, key) or (object, key, value). *)
Definition use_member (k : EntityKind) (m : member) (a : access) (L : lua_State)
    : option (program results) :=
  let on (r : reader results) := pbind (r L 1) (fun '(vs, _) => pret vs) in
  let at_value {A} (r : reader A) : reader A := fun L _ => r L 3 in
  let self_at_1 (body : Live -> reader results) : reader results := fun L _ =>
    rbind (Live_arg k) body L 1 in
  match m, a with
  | Static body, ACall => Some (on body)
  | Method body, ACall => Some (on (rbind (Live_arg k) body))
  | OnHandle body, ACall => Some (on (rbind (Handle_arg k) body))
  | (Property get | PropertyRW get _), AGet =>
      Some (on (rbind (Handle_arg k) (fun _ => self_at_1 get)))
  | PropertyRW _ set, ASet =>
      Some (on (rbind (Handle_arg k) (fun _ => rbind (at_value set) (fun f =>
                  self_at_1 (fun self => discard (f self))))))
  | HandleProperty get _, AGet => Some (on (rbind (Handle_arg k) get))
  | HandleProperty _ (Some set), ASet =>
      Some (on (rbind (Handle_arg k) (fun h =>
                  rbind (at_value set) (fun f => discard (f h)))))
  | _, _ => None
  end.

(** A class: its members in the order they are registered; a later one
    replaces an earlier one of the same name. *)
Definition class : Type := list (string * member).
Fixpoint first_member (c : class) (name : string) : option member :=
  match c with
  | [] => None
  | (n, m) :: c => if bool_decide (n = name) then Some m else first_member c name
  end.
Definition find_member (c : class) (name : string) : option member := first_member (reverse c) name.

(** [Check(L, fn(...))] for a function that is already looked up. *)
Definition check_call (fn : list cval -> program answer) (args : list cval) : reader bool :=
  run (fun L => pbind (fn args) (fun a => Check L (a_int a))).
(** The answer of a call whose error code is checked first. *)
Definition checked_answer (name : string) (args : list cval) : reader answer :=
  run (fun L => pbind (call name args) (fun a => pbind (Check L (a_int a)) (fun _ => pret a))).

(** ** Common shapes of members *)

(** [VCMP_FN(self, name)(self.id)] as a number, a flag, a float, and the same
    for the functions that give an entity or a text. *)
Definition self_id (self : Live) : cval := CInt (l_id self).
Definition get_int (name : string) (self : Live) : reader results :=
  rbind (server_call name [self_id self]) (fun a => r_int (a_int a)).
Definition get_flag (name : string) (self : Live) : reader results :=
  rbind (server_call name [self_id self]) (fun a => r_bool (negb (a_int a =? 0))).
Definition get_num (name : string) (self : Live) : reader results :=
  rbind (server_call name [self_id self]) (fun a => r_num (a_num a)).
Definition get_vec (name : string) (self : Live) : reader results :=
  rbind (server_vec name [self_id self]) r_vec.
Definition get_ref (k : EntityKind) (name : string) (self : Live) : reader results :=
  rbind (server_call name [self_id self]) (fun a =>
  rbind (run (fun _ => RefOf k (a_int a))) (r_ref k)).
Definition get_text (name : string) (self : Live) : reader results :=
  rbind (run (fun L => ReadText L 256 name [self_id self])) r_text.

(** [Check(self.L, VCMP_FN(self, name)(self.id, args...))], and whether it
    succeeded. *)
Definition done_checked (name : string) (args : list cval) : reader results :=
  rbind (server_checked name args) r_bool.
Definition do_checked (name : string) (self : Live) : reader results :=
  done_checked name [self_id self].

(** A call whose errors are reported by [GetLastError]. *)
Definition int_or_last_error (name : string) (args : list cval) : reader results :=
  rbind (server_call name args) (fun a => rbind check_last (fun _ => r_int (a_int a))).
Definition flag_or_last_error (name : string) (args : list cval) : reader results :=
  rbind (server_call name args) (fun a =>
  rbind check_last (fun _ => r_bool (negb (a_int a =? 0)))).
Definition num_or_last_error (name : string) (args : list cval) : reader results :=
  rbind (server_call name args) (fun a => rbind check_last (fun _ => r_num (a_num a))).

(** Setters that pass the value to a server function and check its result. *)
Definition set_with {A} (value : reader A) (to_args : A -> list cval) (name : string)
    : reader (Live -> reader unit) :=
  rbind value (fun v => rret (fun self =>
    rbind (server_checked name (self_id self :: to_args v)) (fun _ => rret tt))).
Definition set_int (T : IntType) := set_with (Int T) (fun v => [CInt v]).
Definition set_num := set_with Float (fun v => [CNum v]).
Definition set_flag := set_with Boolean (fun v => [flag v]).
Definition set_colour := set_with Colour (fun v => [CInt v]).
Definition set_text := set_with String_arg (fun v => [c_text v]).
Definition set_vec := set_with Vec3_arg vec_args.

(** Methods of one integer argument. *)
Definition int_method (T : IntType) (f : Live -> Z -> reader results) (self : Live)
    : reader results := rbind (Int T) (f self).

(** destroy() of the server's entities: the handle is released when the server
    deleted the entity. *)
Definition destroy (k : EntityKind) (name : string) (self : Live) : reader results :=
  rbind (server_checked name [self_id self]) (fun deleted =>
  rbind (if deleted : bool then run (fun _ w => (Ret tt, release_id k (l_id self) w)) else rret tt)
    (fun _ => r_bool deleted)).

Definition streamed_for_player (name : string) (self : Live) : reader results :=
  rbind (Live_arg Player) (fun player =>
  rbind (server_call name [self_id self; self_id player]) (fun a =>
  r_bool (negb (a_int a =? 0)))).

(** ** The members every kind has (RegisterKind) *)

(** [IsAlive<K>(L, self)]. *)
Definition IsAlive (k : EntityKind) (h : EntityHandle) (w : World S) : bool :=
  Usable w && Valid (pool_of k w) (h_id h) (h_generation h).

(** [pool.Data(L, id, generation)]: the table, by its identity. *)
Definition get_data (k : EntityKind) (h : EntityHandle) : program lua_value :=
  pbind Require_runtime (fun _ w =>
    match Data (pool_of k w) (env_new_obj 0 w) (h_id h) (h_generation h) with
    | Ret (d, p) => (Ret (LTable d []), upd_pool k (fun _ => p) w)
    | Throw e => (Throw e, w)
    | UB => (UB, w)
    end).
Definition set_data (k : EntityKind) (h : EntityHandle) (d : Z) : program unit :=
  pbind Require_runtime (fun _ w =>
    match SetData (pool_of k w) (h_id h) (h_generation h) d with
    | Ret p => (Ret tt, upd_pool k (fun _ => p) w)
    | Throw e => (Throw e, w)
    | UB => (UB, w)
    end).

(** [sol::main_table]: the identity of a table; anything else is refused. *)
Definition Table_arg : reader Z := fun L i =>
  match at_index L i with
  | Some (LTable obj _) => pret (obj, i + 1)
  | _ => pthrow (RuntimeError sol_bad_self)
  end.

(** The references of [ids], in turn, as the entries of a table. *)
Fixpoint push_refs (k : EntityKind) (ids : list Z) : program (list (lua_value * lua_value)) :=
  match ids with
  | [] => pret []
  | id :: ids =>
      pbind (RefOf k id) (fun r => pbind (PushEntity k r) (fun v =>
      pbind (push_refs k ids) (fun es =>
        pret (match v with LNil => es | _ => (LInt id, v) :: es end))))
  end.

Definition alive_ids (k : EntityKind) : program (list Z) := fun w =>
  (Ret (AliveIds (pool_of k w)), w).

Definition RegisterKind (k : EntityKind) : class :=
  let get_id self := r_int (l_id self) in
  [ ("id", Property get_id);
    ("getID", Method get_id);
    ("valid", HandleProperty (fun h => rbind (run (fun _ w => (Ret (IsAlive k h w), w))) r_bool) None);
    ("data", HandleProperty (fun h => rbind (run (fun _ => get_data k h)) (fun t => rret [t]))
               (Some (rbind Table_arg (fun d => rret (fun h => run (fun _ => set_data k h d))))));
    ("type", Static (r_text (type_name (Traits k))));
    ("getType", OnHandle (fun _ => r_text (type_name (Traits k))));
    ("findByID", Static (rbind Ctx (fun _ => rbind (Int Int32) (fun id =>
                   rbind (run (fun _ => RefOf k id)) (r_ref k)))));
    ("count", Static (rbind Ctx (fun _ => rbind (run (fun _ => alive_ids k)) (fun ids =>
                r_int (Z.of_nat (length ids))))));
    ("getActive", Static (rbind Ctx (fun _ =>
                    rbind (run (fun _ => pbind (alive_ids k) (push_refs k))) r_table)));
    ("__tostring", OnHandle (fun h => rbind (run (fun _ w => (Ret (IsAlive k h w), w))) (fun live =>
                     r_text (type_name (Traits k) +:+ "(" +:+ pretty (h_id h) +:+
                             (if live : bool then "" else ", no longer exists") +:+ ")")))) ].
Lemma at_index_pushed L v : at_index (pushed L v) (lua_gettop (pushed L v)) = Some v.
Proof.
  unfold at_index, lua_gettop, pushed. simpl. rewrite length_app. simpl.
  replace (_ <=? 0) with false by (symmetry; apply Z.leb_gt; lia).
  replace (Z.to_nat _) with (length (stack L)) by lia.
  by rewrite lookup_app_r, Nat.sub_diag by done.
Qed.

End bindings.

Declare Scope reader_scope.
Delimit Scope reader_scope with reader.
Notation "x <~ m ;; k" := (rbind m (fun x => k))
  (at level 100, m at next level, right associativity) : reader_scope.
Notation "m ;;; k" := (rbind m (fun _ => k))
  (at level 100, right associativity) : reader_scope.
Notation "' p <~ m ;; k" := (rbind m (fun x => match x with p => k end))
  (at level 20, p pattern, m at level 99, k at level 200) : reader_scope.
