(* ===== verification/PlayerMembers.v ===== *)
(** The class Player (src/bindings/player.cpp). Messages are sent with a %s
    format, so that the text is never read as a printf format. *)
From stdpp Require Import base tactics list strings.
From Stdlib Require Import ZArith Lia Floats.SpecFloat.
From S2P Require Import Prelude.
From S2P Require Import ApiGuard.
From S2P Require Import EntityPool.
From S2P Require Import LuaValue.
From S2P Require Import Args.
From S2P Require Import EntityPools.
From S2P Require Import World.
From S2P Require Import Runtime.
From S2P Require Import ServerCalls.
From S2P Require Import EntityType.
Open Scope Z_scope.
Open Scope reader_scope.

Section player.
Context {S : Type} {env : Env S} {server : ServerFns S} {lib : LuaLib}.
Abbreviation reader := (reader (S := S)).
Abbreviation class := (class (S := S)).

Definition kWhite : Z := 4294967295.
Definition quiet_NaN : spec_float := S754_nan.

(** ** Helpers *)

Definition Message (self : Live) (colour : Z) (text : string) : reader bool :=
  server_checked "SendClientMessage" [self_id self; CInt colour; CText "%s"; c_text text].

Definition Announce (self : Live) (type : Z) (text : string) : reader bool :=
  server_checked "SendGameMessage" [self_id self; CInt type; CText "%s"; c_text text].

Definition Position (self : Live) : reader Vec3 :=
  server_vec "GetPlayerPosition" [self_id self].

Definition PlaySoundAt (self : Live) (sound : Z) (at_ : Vec3) : reader bool :=
  world <~ server_call "GetPlayerUniqueWorld" [self_id self];;
  server_checked "PlaySound" (CInt (a_int world) :: CInt sound :: vec_args at_).

(** [ForEachPlayer]: the players that were online when it started; one that has
    left meanwhile is passed as the invalid reference. *)
Fixpoint each_player (ids : list Z) (fn : Live -> reader unit) : reader unit :=
  match ids with
  | [] => rret tt
  | id :: ids =>
      ref <~ run (fun _ => RefOf Player id);;
      fn (mkLive (ref_id ref) (ref_generation ref));;;
      each_player ids fn
  end.
Definition ForEachPlayer (fn : Live -> reader unit) : reader unit :=
  ids <~ run (fun _ => alive_ids Player);; each_player ids fn.

(** The loop of Player.getActive. *)
Fixpoint active_players (only_spawned : bool) (ids : list Z)
    : reader (list (lua_value * lua_value)) :=
  match ids with
  | [] => rret []
  | id :: ids =>
      spawned <~ (if only_spawned
                  then a <~ server_call "IsPlayerSpawned" [CInt id];; rret (negb (a_int a =? 0))
                  else rret true);;
      es <~ (if spawned : bool
             then r <~ run (fun _ => RefOf Player id);; v <~ run (fun _ => PushEntity Player r);;
                  rret (match v with LNil => [] | _ => [(LInt id, v)] end)
             else rret []);;
      rest <~ active_players only_spawned ids;;
      rret (es ++ rest)
  end.

(** ** Functions of the class *)

Definition player_statics : class :=
  [ ("getActive", Static (Ctx;;; spawned_only <~ Opt Boolean;;
       ids <~ run (fun _ => alive_ids Player);;
       es <~ active_players (default false spawned_only) ids;; r_table es));
    ("findByName", Static (Ctx;;; name <~ String_arg;;
       a <~ server_call "GetPlayerIdFromName" [c_text name];;
       r <~ run (fun _ => RefOf Player (a_int a));; r_ref Player r));
    ("msgAll", Static (Ctx;;; text <~ String_arg;; colour <~ Opt Colour;;
       ForEachPlayer (fun player =>
         server_call "SendClientMessage"
           [self_id player; CInt (default kWhite colour); CText "%s"; c_text text];;; rret tt);;;
       r_none));
    ("announceAll", Static (Ctx;;; text <~ String_arg;; announce_type <~ Opt (Int Int32);;
       ForEachPlayer (fun player =>
         server_call "SendGameMessage"
           [self_id player; CInt (default 0 announce_type); CText "%s"; c_text text];;; rret tt);;;
       r_none)) ].

(** ** Methods *)

Definition player_methods_1 : class :=
  [ ("msg", Method (fun self => text <~ String_arg;; colour <~ Opt Colour;;
       b <~ Message self (default kWhite colour) text;; r_bool b));
    ("announce", Method (fun self => text <~ String_arg;; announce_type <~ Opt (Int Int32);;
       b <~ Announce self (default 0 announce_type) text;; r_bool b));
    ("getAlpha", Method (get_int "GetPlayerAlpha"));
    ("setAlpha", Method (fun self => alpha <~ Int Int32;; fade_time <~ Opt (Int UInt32);;
       done_checked "SetPlayerAlpha" [self_id self; CInt alpha; CInt (default 0 fade_time)]));
    ("getOption", Method (int_method Int32 (fun self option =>
       flag_or_last_error "GetPlayerOption" [self_id self; CInt option])));
    ("setOption", Method (fun self => option <~ Int Int32;; on <~ Boolean;;
       done_checked "SetPlayerOption" [self_id self; CInt option; flag on]));
    ("isPlayerStreamed", Method (fun self => other <~ Live_arg Player;;
       a <~ server_call "IsPlayerStreamedForPlayer" [self_id self; self_id other];;
       r_bool (negb (a_int a =? 0))));
    ("forceSpawn", Method (do_checked "ForcePlayerSpawn"));
    ("selectClass", Method (do_checked "ForcePlayerSelect"));
    ("playSound", Method (int_method Int32 (fun self sound =>
       b <~ PlaySoundAt self sound (mkVec3 quiet_NaN quiet_NaN quiet_NaN);; r_bool b)));
    ("playSound3D", Method (fun self => sound <~ Int Int32;; at_ <~ Opt Vec3_arg;;
       at_ <~ match at_ with Some v => rret v | None => Position self end;;
       b <~ PlaySoundAt self sound at_;; r_bool b));
    ("setWeapon", Method (fun self => weapon <~ Int Int32;; ammo <~ Int Int32;;
       done_checked "SetPlayerWeapon" [self_id self; CInt weapon; CInt ammo]));
    ("giveWeapon", Method (fun self => weapon <~ Int Int32;; ammo <~ Int Int32;;
       done_checked "GivePlayerWeapon" [self_id self; CInt weapon; CInt ammo]));
    ("removeWeapon", Method (int_method Int32 (fun self weapon =>
       done_checked "RemovePlayerWeapon" [self_id self; CInt weapon])));
    ("disarm", Method (do_checked "RemoveAllWeapons"));
    ("getWeaponAtSlot", Method (int_method Int32 (fun self slot =>
       int_or_last_error "GetPlayerWeaponAtSlot" [self_id self; CInt slot])));
    ("getAmmoAtSlot", Method (int_method Int32 (fun self slot =>
       int_or_last_error "GetPlayerAmmoAtSlot" [self_id self; CInt slot])));
    ("giveMoney", Method (int_method Int32 (fun self amount =>
       done_checked "GivePlayerMoney" [self_id self; CInt amount])));
    ("addSpeed", Method (fun self => speed <~ Vec3_arg;;
       done_checked "AddPlayerSpeed" (self_id self :: vec_args speed))) ].

Definition player_methods_2 : class :=
  [ ("setVehicle", Method (fun self => vehicle <~ Live_arg Vehicle;; slot <~ Opt (Int Int32);;
       done_checked "PutPlayerInVehicle"
         [self_id self; self_id vehicle; CInt (default 0 slot); CInt 1; CInt 1]));
    ("eject", Method (do_checked "RemovePlayerFromVehicle"));
    ("redirect", Method (fun self => ip <~ String_arg;; port <~ Int UInt32;;
       server_password <~ Opt String_arg;; user_password <~ Opt String_arg;;
       name <~ run (fun L => ReadText L 256 "GetPlayerName" [self_id self]);;
       done_checked "RedirectPlayerToServer"
         [self_id self; c_text ip; CInt port; c_text name; c_text (default "" server_password);
          c_text (default "" user_password)]));
    ("setCamera", Method (fun self => position <~ Vec3_arg;; look_at <~ Vec3_arg;;
       done_checked "SetCameraPosition" (self_id self :: vec_args position ++ vec_args look_at)));
    ("restoreCamera", Method (do_checked "RestoreCamera"));
    ("interpolateCamLookAt", Method (fun self => look_at <~ Vec3_arg;; ms <~ Int UInt32;;
       done_checked "InterpolateCameraLookAt" (self_id self :: vec_args look_at ++ [CInt ms])));
    ("kick", Method (fun self => discard (server_checked "KickPlayer" [self_id self])));
    ("ban", Method (fun self => discard (server_checked "BanPlayer" [self_id self])));
    ("kill", Method (do_checked "KillPlayer"));
    ("setAnimation", Method (fun self => first <~ Int Int32;; second <~ Opt (Int Int32);;
       let group := match second with Some _ => first | None => 0 end in
       let animation := match second with Some a => a | None => first end in
       done_checked "SetPlayerAnimation" [self_id self; CInt group; CInt animation]));
    ("set3DArrowToPlayer", Method (fun self => target <~ Live_arg Player;; on <~ Boolean;;
       done_checked "SetPlayer3DArrowForPlayer" [self_id self; self_id target; flag on]));
    ("get3DArrowToPlayer", Method (fun self => target <~ Live_arg Player;;
       a <~ server_call "GetPlayer3DArrowForPlayer" [self_id self; self_id target];;
       r_bool (negb (a_int a =? 0))));
    ("setDrunkHandling", Method (int_method UInt32 (fun self level =>
       done_checked "SetPlayerDrunkHandling" [self_id self; CInt level])));
    ("setDrunkVisuals", Method (int_method UInt8 (fun self level =>
       done_checked "SetPlayerDrunkVisuals" [self_id self; CInt level])));
    ("getNetworkStatistics", Method (int_method Int32 (fun self option =>
       num_or_last_error "GetNetworkStatistics" [self_id self; CInt option])));
    ("getModules", Method (do_checked "GetPlayerModuleList")) ].

(** ** Getters that are both a method and a property *)

Definition player_getters : list (string * string * (Live -> reader results)) :=
  [ ("getIP", "ip", get_text "GetPlayerIP");
    ("getUID", "uid", get_text "GetPlayerUID");
    ("getUID2", "uid2", get_text "GetPlayerUID2");
    ("getKey", "key", get_int "GetPlayerKey");
    ("getState", "state", get_int "GetPlayerState");
    ("getUniqueWorld", "uniqueWorld", get_int "GetPlayerUniqueWorld");
    ("getClass", "class", get_int "GetPlayerClass");
    ("isOnline", "online", get_flag "IsPlayerConnected");
    ("isSpawned", "spawned", get_flag "IsPlayerSpawned");
    ("isTyping", "typing", get_flag "IsPlayerTyping");
    ("isCrouching", "crouching", get_flag "IsPlayerCrouching");
    ("isAway", "away", get_flag "IsPlayerAway");
    ("getPing", "ping", get_int "GetPlayerPing");
    ("getFPS", "fps", get_num "GetPlayerFPS") ].

Definition drunk_handling : Live -> reader results := get_int "GetPlayerDrunkHandling".
Definition drunk_visuals : Live -> reader results := get_int "GetPlayerDrunkVisuals".

Definition player_getter_members : class :=
  ((fun '(method, _, get) => (method, Method get)) <$> player_getters) ++
  [ ("getDrunkHandling", Method drunk_handling); ("getDrunkVisuals", Method drunk_visuals) ] ++
  ((fun '(_, property, get) => (property, Property get)) <$> player_getters).

(** ** Properties *)

Definition player_readonly : class :=
  [ ("cameraLocked", Property (get_flag "IsCameraLocked"));
    ("onFire", Property (get_flag "IsPlayerOnFire"));
    ("action", Property (get_int "GetPlayerAction"));
    ("gameKeys", Property (get_int "GetPlayerGameKeys"));
    ("weapon", Property (get_int "GetPlayerWeapon"));
    ("ammo", Property (get_int "GetPlayerWeaponAmmo"));
    ("vehicleSlot", Property (get_int "GetPlayerInVehicleSlot"));
    ("vehicleStatus", Property (get_int "GetPlayerInVehicleStatus"));
    ("aimPosition", Property (get_vec "GetPlayerAimPosition"));
    ("aimDirection", Property (get_vec "GetPlayerAimDirection"));
    ("standingOnVehicle", Property (get_ref Vehicle "GetPlayerStandingOnVehicle"));
    ("standingOnObject", Property (get_ref Object "GetPlayerStandingOnObject")) ].

Definition player_writable : class :=
  [ ("admin", PropertyRW (get_flag "IsPlayerAdmin") (set_flag "SetPlayerAdmin"));
    ("world", PropertyRW (get_int "GetPlayerWorld") (set_int Int32 "SetPlayerWorld"));
    ("secondaryWorld", PropertyRW (get_int "GetPlayerSecondaryWorld")
       (set_int Int32 "SetPlayerSecondaryWorld"));
    ("team", PropertyRW (get_int "GetPlayerTeam") (set_int Int32 "SetPlayerTeam"));
    ("skin", PropertyRW (get_int "GetPlayerSkin") (set_int Int32 "SetPlayerSkin"));
    ("color", PropertyRW (get_int "GetPlayerColour") (set_colour "SetPlayerColour"));
    ("cash", PropertyRW (get_int "GetPlayerMoney") (set_int Int32 "SetPlayerMoney"));
    ("score", PropertyRW (get_int "GetPlayerScore") (set_int Int32 "SetPlayerScore"));
    ("wantedLevel", PropertyRW (get_int "GetPlayerWantedLevel") (set_int Int32 "SetPlayerWantedLevel"));
    ("immunity", PropertyRW (get_int "GetPlayerImmunityFlags")
       (set_int UInt32 "SetPlayerImmunityFlags"));
    ("health", PropertyRW (get_num "GetPlayerHealth") (set_num "SetPlayerHealth"));
    ("armour", PropertyRW (get_num "GetPlayerArmour") (set_num "SetPlayerArmour"));
    ("name", PropertyRW (get_text "GetPlayerName") (set_text "SetPlayerName"));
    ("weaponSlot", PropertyRW (get_int "GetPlayerWeaponSlot") (set_int Int32 "SetPlayerWeaponSlot"));
    ("drunkHandling", PropertyRW drunk_handling (set_int UInt32 "SetPlayerDrunkHandling"));
    ("drunkVisuals", PropertyRW drunk_visuals (set_int UInt8 "SetPlayerDrunkVisuals")) ].

(** player.vehicle: nil removes the player from the vehicle, if any. *)
Definition set_player_vehicle : reader (Live -> reader unit) :=
  vehicle <~ Opt (Live_arg Vehicle);;
  rret (fun self =>
    match vehicle with
    | None =>
        current <~ server_call "GetPlayerVehicleId" [self_id self];;
        if 0 <? a_int current
        then server_checked "RemovePlayerFromVehicle" [self_id self];;; rret tt else rret tt
    | Some vehicle =>
        server_checked "PutPlayerInVehicle"
          [self_id self; self_id vehicle; CInt 0; CInt 1; CInt 1];;; rret tt
    end).

Definition player_entities : class :=
  [ ("vehicle", PropertyRW (get_ref Vehicle "GetPlayerVehicleId") set_player_vehicle);
    ("spectateTarget", PropertyRW (get_ref Player "GetPlayerSpectateTarget")
       (set_with (Opt (Live_arg Player))
          (fun target => [CInt match target with Some t => l_id t | None => -1 end])
          "SetPlayerSpectateTarget"));
    ("position", PropertyRW (fun self => v <~ Position self;; r_vec v)
       (set_vec "SetPlayerPosition"));
    ("speed", PropertyRW (get_vec "GetPlayerSpeed") (set_vec "SetPlayerSpeed"));
    ("angle", PropertyRW (get_num "GetPlayerHeading") (set_num "SetPlayerHeading")) ].

(** [RegisterPlayer], after the members every kind has. *)
Definition RegisterPlayer : class :=
  player_statics ++ player_methods_1 ++ player_methods_2 ++ player_getter_members ++
  player_readonly ++ player_writable ++ player_entities.
End player.
