(* ===== verification/VehicleMembers.v ===== *)
(** The class Vehicle (src/bindings/vehicle.cpp). *)
From stdpp Require Import base tactics list strings.
From Stdlib Require Import ZArith Lia Floats.SpecFloat.
From S2P Require Import Prelude.
From S2P Require Import ApiGuard.
From S2P Require Import EntityPool.
From S2P Require Import LuaValue.
From S2P Require Import Args.
From S2P Require Import EntityPools.
From S2P Require Import World.
From S2P Require Import Runtime.
From S2P Require Import ServerCalls.
From S2P Require Import EntityType.
Open Scope Z_scope.
Open Scope reader_scope.

(** [Speed], and the bit of the lights that is the taxi's. *)
Definition kNormal : Z := 1.
Definition kNormalRelative : Z := 2.
Definition kTurn : Z := 3.
Definition kTurnRelative : Z := 4.
Definition kTaxiLight : Z := 256.

Section vehicle.
Context {S : Type} {env : Env S} {server : ServerFns S} {lib : LuaLib}.
Abbreviation program A := (prog (World S) A).
Abbreviation reader := (reader (S := S)).
Abbreviation class := (class (S := S)).

(** A value of the arguments, an error, in a binding that inspects them. *)
Abbreviation arg := checked_arg.

(** ** Vehicle.create *)

(** The angle in the fourth element of the position's table. *)
Definition table_angle (args : ArgReader) : outcome spec_float :=
  let v := rawgeti (entries_at (ar_L args) (ar_index args 3)) 4 in
  match to_number v with
  | Some f => Ret (to_float32 f)
  | None =>
      match v with
      | LNil => Ret (S754_zero false)
      | _ =>
          let L := pushed (ar_L args) v in
          Throw (ArgError L (ar_index args 3)
            ("angle (element 4) must be a number, got " +:+ TypeName L (lua_gettop L)))
      end
  end.

Definition Vehicle_create : reader results :=
  run (fun _ => Require_runtime);;;
  args <~ variadic;;
  model <~ arg (ar_Int Int32 args 1);;
  world <~ arg (ar_Int Int32 args 2);;
  '(position, angle, i) <~
    (if decide (ar_type args 3 = TTable) then
       '(position, i) <~ arg (ar_Vector args 3);;
       angle <~ arg (table_angle args);; rret (position, angle, i)
     else
       '(position, i) <~ arg (ar_Vector args 3);;
       angle <~ arg (ar_Number args i);; rret (position, angle, i + 1));;
  primary <~ arg (ar_IntOr Int32 args i (-1));;
  secondary <~ arg (ar_IntOr Int32 args (i + 1) (-1));;
  id <~ server_call "CreateVehicle"
    (CInt model :: CInt world :: vec_args position ++ [CNum angle; CInt primary; CInt secondary]);;
  r <~ run (fun L => Created Vehicle L (a_int id));; r_ref Vehicle r.

(** ** Speed *)

Definition speed_from (get : list cval -> program answer) (self : Live) (relative : Z) : reader Vec3 :=
  run (fun L => pbind (get [self_id self; CInt relative]) (fun a =>
    pbind (Check L (a_int a)) (fun _ => pret (mkVec3 (out_num a 0) (out_num a 1) (out_num a 2))))).

Definition GetSpeed (self : Live) (which : Z) : reader Vec3 :=
  get <~ server_fn "GetVehicleSpeed";;
  get_turn <~ server_fn "GetVehicleTurnSpeed";;
  if which =? kNormal then speed_from get self 0
  else if which =? kNormalRelative then speed_from get self 1
  else if which =? kTurn then speed_from get_turn self 0
  else if which =? kTurnRelative then speed_from get_turn self 1
  else run (fun L => pthrow (ArgError L 2 "VehicleSpeed value expected")).

(** Whether the first argument of setSpeed is the type. *)
Definition typed_speed (args : ArgReader) : bool :=
  bool_decide (ar_type args 1 = TNumber) &&
  (bool_decide (ar_type args 2 = TTable) ||
   (bool_decide (ar_type args 2 = TNumber) && bool_decide (ar_type args 4 = TNumber))).

Definition SetSpeed (self : Live) (args : ArgReader) : reader bool :=
  let typed := typed_speed args in
  which <~ (if typed then arg (ar_Int Int32 args 1) else rret kNormal);;
  '(v, i) <~ arg (ar_Vector args (if typed then 2 else 1));;
  add <~ arg (ar_BoolOr args i false);;
  if (which =? kNormal) || (which =? kNormalRelative) then
    server_checked "SetVehicleSpeed"
      (self_id self :: vec_args v ++ [flag add; flag (which =? kNormalRelative)])
  else if (which =? kTurn) || (which =? kTurnRelative) then
    server_checked "SetVehicleTurnSpeed"
      (self_id self :: vec_args v ++ [flag add; flag (which =? kTurnRelative)])
  else run (fun L => pthrow (ArgError L (ar_index args 1) "VehicleSpeed value expected")).

(** ** Rotation *)

Definition numbered (fs : list spec_float) : list (lua_value * lua_value) :=
  imap (fun i f => (LInt (Z.of_nat i + 1), LFloat f)) fs.

Definition GetRotation (self : Live) : reader results :=
  e <~ server_vec "GetVehicleRotationEuler" [self_id self];;
  euler <~ new_table 0 (numbered [vx e; vy e; vz e]);;
  q <~ checked_answer "GetVehicleRotation" [self_id self];;
  quaternion <~ new_table 1 (numbered [out_num_or q 0 (vx e); out_num_or q 1 (vy e);
                                       out_num_or q 2 (vz e); out_num q 3]);;
  t <~ new_table 2 [(LString "euler", euler); (LString "quaternion", quaternion)];; rret [t].

(** What a C function may push without [lua_checkstack]. *)
Definition LUA_MINSTACK : nat := 20.

Definition set_rotation_fn (spawn quaternion : bool) : string :=
  match spawn, quaternion with
  | true, true => "SetVehicleSpawnRotation" | false, true => "SetVehicleRotation"
  | true, false => "SetVehicleSpawnRotationEuler" | false, false => "SetVehicleRotationEuler"
  end.

(** The numbers of a rotation table, sent to the server: a quaternion when there
    are four elements, else Euler angles. *)
Definition set_flat_rotation (self : Live) (L : lua_State) (index : Z) (spawn : bool)
    : program unit :=
  pbind (plift (TableNumber L index 1)) (fun x =>
  pbind (plift (TableNumber L index 2)) (fun y =>
  pbind (plift (TableNumber L index 3)) (fun z =>
  if 4 <=? TableLength L index then
    pbind (plift (TableNumber L index 4)) (fun w =>
    pbind (checked L (set_rotation_fn spawn true)
             [self_id self; CNum x; CNum y; CNum z; CNum w]) (fun _ => pret tt))
  else
    pbind (checked L (set_rotation_fn spawn false)
             [self_id self; CNum x; CNum y; CNum z]) (fun _ => pret tt)))).

(** [SetRotationFromTable(self, index, spawn)] with [slots] free slots on the
    Lua stack. [RawField] takes one for the field it reads, which stays on the
    stack while the function calls itself for a field that is a table; nothing
    checks that there is one. *)
Fixpoint SetRotationFromTable (slots : nat) (self : Live) (L : lua_State) (index : Z)
    (spawn : bool) : program unit :=
  match slots with
  | O => fun w => (UB, w)
  | Datatypes.S slots =>
      let inner v := SetRotationFromTable slots self (pushed L v) (lua_gettop (pushed L v)) spawn in
      match RawField L index "quaternion", RawField L index "euler" with
      | LTable o es, _ => inner (LTable o es)
      | _, LTable o es => inner (LTable o es)
      | _, _ => set_flat_rotation self L index spawn
      end
  end.

(** [SetRotation(self, value)], and the same for the spawn rotation: the value
    is pushed again, above the three slots of the assignment. *)
Definition SetRotation (spawn : bool) : reader (Live -> reader unit) :=
  value <~ Any;;
  rret (fun self => run (fun L =>
    match value with
    | LTable _ _ =>
        SetRotationFromTable (LUA_MINSTACK - 1) self (pushed L value) (lua_gettop (pushed L value)) spawn
    | _ => pthrow (TypeError L 3 "table")
    end)).

Definition setRotation (self : Live) : reader results :=
  args <~ variadic;;
  if decide (ar_type args 1 = TTable) then
    run (fun L => SetRotationFromTable LUA_MINSTACK self L (ar_index args 1) false);;; r_none
  else
    x <~ arg (ar_Number args 1);; y <~ arg (ar_Number args 2);; z <~ arg (ar_Number args 3);;
    if ar_missing args 4 then
      discard (server_checked "SetVehicleRotationEuler" [self_id self; CNum x; CNum y; CNum z])
    else
      fn <~ server_fn "SetVehicleRotation";;
      w <~ arg (ar_Number args 4);;
      discard (check_call fn [self_id self; CNum x; CNum y; CNum z; CNum w]).

(** ** Functions of the class *)

Definition vehicle_statics : class :=
  [ ("create", Static Vehicle_create); ("new", Static Vehicle_create);
    ("__call", Static Vehicle_create);
    ("resetAllHandlings", Static (Ctx;;; discard (server_call "ResetAllVehicleHandlings" [])));
    ("modelHandlingRuleExists", Static (Ctx;;; model <~ Int Int32;; rule <~ Int Int32;;
       flag_or_last_error "ExistsHandlingRule" [CInt model; CInt rule]));
    ("resetModelHandlingRule", Static (Ctx;;; model <~ Int Int32;; rule <~ Int Int32;;
       done_checked "ResetHandlingRule" [CInt model; CInt rule]));
    ("resetModelHandlingRules", Static (Ctx;;; model <~ Int Int32;;
       done_checked "ResetHandling" [CInt model]));
    ("getModelHandlingRule", Static (Ctx;;; model <~ Int Int32;; rule <~ Int Int32;;
       num_or_last_error "GetHandlingRule" [CInt model; CInt rule]));
    ("setModelHandlingRule", Static (Ctx;;; model <~ Int Int32;; rule <~ Int Int32;;
       value <~ Double;; done_checked "SetHandlingRule" [CInt model; CInt rule; CNum value])) ].

(** ** Methods *)

Definition repair (self : Live) : reader results :=
  health <~ server_checked "SetVehicleHealth" [self_id self; CNum (to_float32 (int_to_float64 1000))];;
  damage <~ server_checked "SetVehicleDamageData" [self_id self; CInt 0];;
  lights <~ server_call "GetVehicleLightsData" [self_id self];;
  b <~ server_checked "SetVehicleLightsData" [self_id self; CInt (Z.land (a_int lights) 4294967040)];;
  r_bool (b && (damage && health)).

(** The loop of resetHandlingRule over a table. *)
Fixpoint reset_rules (self : Live) (table : Z) (indices : list Z) (all : bool) : reader bool :=
  match indices with
  | [] => rret all
  | i :: indices =>
      rule <~ run (fun L => plift (TableInteger L table i INT32_MIN INT32_MAX None));;
      b <~ server_checked "ResetInstHandlingRule" [self_id self; CInt (swrap 32 rule)];;
      reset_rules self table indices (b && all)
  end.

Definition resetHandlingRule (self : Live) : reader results :=
  args <~ variadic;;
  if decide (ar_type args 1 = TTable) then
    let table := ar_index args 1 in
    all <~ reset_rules self table (zrange 1 (TableLength (ar_L args) table + 1)) true;; r_bool all
  else
    fn <~ server_fn "ResetInstHandlingRule";;
    rule <~ arg (ar_Int Int32 args 1);;
    b <~ check_call fn [self_id self; CInt rule];;
    r_bool b.

Definition getOccupant (self : Live) (slot : Z) : reader results :=
  id <~ server_call "GetVehicleOccupant" [self_id self; CInt slot];;
  e <~ run (fun _ => last_error);;
  let error := default vcmpErrorNone e in
  (if negb (error =? vcmpErrorNoSuchEntity) then discard (run (fun L => Check L error)) else r_none);;;
  r <~ (if error =? vcmpErrorNone then run (fun _ => RefOf Player (a_int id)) else rret no_ref);;
  r_ref Player r.

Definition vehicle_methods_1 : class :=
  [ ("destroy", Method (destroy Vehicle "DeleteVehicle"));
    ("respawn", Method (do_checked "RespawnVehicle"));
    ("explode", Method (do_checked "ExplodeVehicle"));
    ("repair", Method repair); ("fix", Method repair);
    ("streamedForPlayer", Method (streamed_for_player "IsVehicleStreamedForPlayer"));
    ("getOption", Method (int_method Int32 (fun self option =>
       flag_or_last_error "GetVehicleOption" [self_id self; CInt option])));
    ("setOption", Method (fun self => option <~ Int Int32;; on <~ Boolean;;
       done_checked "SetVehicleOption" [self_id self; CInt option; flag on]));
    ("getPartStatus", Method (int_method Int32 (fun self part =>
       int_or_last_error "GetVehiclePartStatus" [self_id self; CInt part])));
    ("setPartStatus", Method (fun self => part <~ Int Int32;; status <~ Int Int32;;
       done_checked "SetVehiclePartStatus" [self_id self; CInt part; CInt status]));
    ("getTyreStatus", Method (int_method Int32 (fun self tyre =>
       int_or_last_error "GetVehicleTyreStatus" [self_id self; CInt tyre])));
    ("setTyreStatus", Method (fun self => tyre <~ Int Int32;; status <~ Int Int32;;
       done_checked "SetVehicleTyreStatus" [self_id self; CInt tyre; CInt status]));
    ("getSpeed", Method (fun self => which <~ Opt (Int Int32);;
       v <~ GetSpeed self (default kNormal which);; r_vec v));
    ("setSpeed", Method (fun self => args <~ variadic;; b <~ SetSpeed self args;; r_bool b));
    ("getRotation", Method GetRotation);
    ("setRotation", Method setRotation) ].

Definition vehicle_methods_2 : class :=
  [ ("resetHandling", Method (do_checked "ResetInstHandling"));
    ("resetHandlingRule", Method resetHandlingRule);
    ("hasHandlingRule", Method (int_method Int32 (fun self rule =>
       flag_or_last_error "ExistsInstHandlingRule" [self_id self; CInt rule])));
    ("getHandlingRule", Method (int_method Int32 (fun self rule =>
       num_or_last_error "GetInstHandlingRule" [self_id self; CInt rule])));
    ("setHandlingRule", Method (fun self => rule <~ Int Int32;; value <~ Double;;
       done_checked "SetInstHandlingRule" [self_id self; CInt rule; CNum value]));
    ("get3DArrowToPlayer", Method (fun self => player <~ Live_arg Player;;
       a <~ server_call "GetVehicle3DArrowForPlayer" [self_id self; self_id player];;
       r_bool (negb (a_int a =? 0))));
    ("set3DArrowToPlayer", Method (fun self => player <~ Live_arg Player;; on <~ Boolean;;
       done_checked "SetVehicle3DArrowForPlayer" [self_id self; self_id player; flag on]));
    ("getModel", Method (get_int "GetVehicleModel"));
    ("model", Property (get_int "GetVehicleModel"));
    ("getOccupant", Method (int_method Int32 getOccupant));
    ("getTurretRotation", Method (fun self =>
       a <~ checked_answer "GetVehicleTurretRotation" [self_id self];;
       rret [LFloat (out_num a 0); LFloat (out_num a 1)]));
    ("wrecked", Property (get_flag "IsVehicleWrecked")) ].

(** ** Properties *)

(** The lights with the taxi's bit set or cleared, and whether it is set. *)
Definition with_taxi_light (on : bool) (lights : Z) : Z :=
  if on then Z.lor lights kTaxiLight else Z.land lights (wrap 32 (Z.lnot kTaxiLight)).
Definition has_taxi_light (lights : Z) : bool := negb (Z.land lights kTaxiLight =? 0).

Definition set_taxi_light : reader (Live -> reader unit) :=
  on <~ Boolean;;
  rret (fun self =>
    a <~ server_call "GetVehicleLightsData" [self_id self];;
    server_checked "SetVehicleLightsData"
      [self_id self; CInt (with_taxi_light on (a_int a))];;; rret tt).

Definition get_colours (self : Live) : reader (Z * Z) :=
  a <~ checked_answer "GetVehicleColour" [self_id self];;
  rret (out_int a 0 0, out_int a 1 0).

(** vehicle.color = {primary, secondary}; a missing element keeps its colour. *)
Definition set_colours : reader (Live -> reader unit) :=
  colours <~ Any;;
  rret (fun self =>
    match colours with
    | LTable _ _ =>
        '(primary, secondary) <~ get_colours self;;
        let element i old := run (fun L =>
          plift (z ← TableInteger (pushed L colours) (lua_gettop (pushed L colours)) i
                       INT32_MIN INT32_MAX (Some old); Ret (swrap 32 z))) in
        primary <~ element 1 primary;; secondary <~ element 2 secondary;;
        server_checked "SetVehicleColour" [self_id self; CInt primary; CInt secondary];;; rret tt
    | _ => run (fun L => pthrow (TypeError L 3 "table"))
    end).

Definition vehicle_properties_1 : class :=
  [ ("world", PropertyRW (get_int "GetVehicleWorld") (set_int Int32 "SetVehicleWorld"));
    ("health", PropertyRW (get_num "GetVehicleHealth") (set_num "SetVehicleHealth"));
    ("idleRespawnTime", PropertyRW (get_int "GetVehicleIdleRespawnTimer")
       (set_int UInt32 "SetVehicleIdleRespawnTimer"));
    ("radio", PropertyRW (get_int "GetVehicleRadio") (set_int Int32 "SetVehicleRadio"));
    ("damage", PropertyRW (get_int "GetVehicleDamageData") (set_int UInt32 "SetVehicleDamageData"));
    ("immunity", PropertyRW (get_int "GetVehicleImmunityFlags")
       (set_int UInt32 "SetVehicleImmunityFlags"));
    ("lightsData", PropertyRW (get_int "GetVehicleLightsData") (set_int UInt32 "SetVehicleLightsData"));
    ("taxiLight", PropertyRW (fun self =>
        a <~ server_call "GetVehicleLightsData" [self_id self];;
        r_bool (has_taxi_light (a_int a))) set_taxi_light);
    ("color", PropertyRW (fun self => '(primary, secondary) <~ get_colours self;;
        r_table [(LInt 1, LInt primary); (LInt 2, LInt secondary)]) set_colours) ].

Definition vehicle_properties_2 : class :=
  [ ("position", PropertyRW (get_vec "GetVehiclePosition")
       (set_with Vec3_arg (fun v => vec_args v ++ [CInt 0]) "SetVehiclePosition"));
    ("spawnPosition", PropertyRW (get_vec "GetVehicleSpawnPosition")
       (set_vec "SetVehicleSpawnPosition"));
    ("spawnRotation", PropertyRW (get_vec "GetVehicleSpawnRotationEuler") (SetRotation true));
    ("rotation", PropertyRW GetRotation (SetRotation false));
    ("angle", PropertyRW GetRotation (SetRotation false)) ].

(** [RegisterVehicle], after the members every kind has. *)
Definition RegisterVehicle : class :=
  vehicle_statics ++ vehicle_methods_1 ++ vehicle_methods_2 ++ vehicle_properties_1 ++
  vehicle_properties_2.

(** ** Properties *)

Definition is_table (v : lua_value) : bool := match v with LTable _ _ => true | _ => false end.
Definition entries (v : lua_value) : list (lua_value * lua_value) :=
  match v with LTable _ es => es | _ => [] end.

(** The table inside a rotation table, if it holds one: its quaternion, else its
    Euler angles. *)
Definition inner_rotation (v : lua_value) : option lua_value :=
  let q := rawgets (entries v) "quaternion" in
  let e := rawgets (entries v) "euler" in
  if is_table q then Some q else if is_table e then Some e else None.

(** [nests v n t]: following [inner_rotation] from [v] visits [n] tables, the
    last of which is [t]. *)
Inductive nests : lua_value -> nat -> lua_value -> Prop :=
  | nests_flat v : inner_rotation v = None -> nests v 1 v
  | nests_inner v u n t : inner_rotation v = Some u -> nests u n t -> nests v (1 + n) t.

Lemma SetRotation_step slots self L i spawn v :
  at_index L i = Some v ->
  SetRotationFromTable (Datatypes.S slots) self L i spawn =
    match inner_rotation v with
    | Some u => SetRotationFromTable slots self (pushed L u) (lua_gettop (pushed L u)) spawn
    | None => set_flat_rotation self L i spawn
    end.
Proof.
  intros Hv. cbn [SetRotationFromTable]. unfold RawField, entries_at. rewrite Hv.
  unfold inner_rotation, entries.
  destruct (rawgets _ "quaternion"), (rawgets _ "euler"); reflexivity.
Qed.

(** The size of a value; a table is larger than what it holds. *)
Fixpoint size (v : lua_value) : nat :=
  match v with
  | LTable _ es => Datatypes.S (list_sum (map (fun '(k, x) => size k + size x)%nat es))
  | _ => 1
  end.

Lemma raw_find_size f o es : is_table (raw_find f es) = true -> (size (raw_find f es) < size (LTable o es))%nat.
Proof.
  induction es as [|[k x] es IH]; [done|]. cbn [raw_find]. destruct (f k); simpl in *; [lia|].
  intros Ht. specialize (IH Ht). lia.
Qed.

Lemma inner_rotation_size v u : inner_rotation v = Some u -> (size u < size v)%nat /\ is_table u = true.
Proof.
  unfold inner_rotation. destruct v as [| | | | |o es| | | | |]; try done. cbn [entries].
  destruct (is_table (rawgets es "quaternion")) eqn:Hq; [|destruct (is_table (rawgets es "euler")) eqn:He; [|done]];
    intros [= <-]; (split; [by apply raw_find_size|done]).
Qed.

Lemma nests_total v : exists n t, nests v n t.
Proof.
  induction (Nat.lt_wf_0_projected size v) as [v _ IH]. destruct (inner_rotation v) as [u|] eqn:E.
  - destruct (IH u (proj1 (inner_rotation_size _ _ E))) as (n & t & H).
    exists (1 + n)%nat, t. by eapply nests_inner.
  - exists 1%nat, v. by constructor.
Qed.

(** C20: Setting a rotation from a table ends for every table (a value of the
    model is finite; a table that contains itself is one whose copies are nested
    as deeply as one likes): following the tables inside it takes some number [n]
    of steps, and with at least [n] free Lua stack slots the numbers of the last
    one are what is sent. With fewer it is undefined: nothing bounds the nesting,
    though a binding may only use LUA_MINSTACK slots. *)
Theorem rotation_table_ends_with_enough_slots self L i spawn v :
  at_index L i = Some v ->
  exists n t, nests v n t /\
    (forall slots, (n <= slots)%nat -> exists L' j, at_index L' j = Some t /\ frame L' = frame L /\
       SetRotationFromTable slots self L i spawn = set_flat_rotation self L' j spawn) /\
    (forall slots w, (slots < n)%nat -> SetRotationFromTable slots self L i spawn w = (UB, w)).
Proof.
  intros Hv. destruct (nests_total v) as (n & t & Hn). exists n, t. split; [done|].
  revert L i Hv. induction Hn as [v Hi|v u n t Hi Hn IH]; intros L i Hv.
  - split; intros slots; [|intros w]; intros Hs.
    + destruct slots as [|slots]; [lia|]. rewrite (SetRotation_step _ _ _ _ _ _ Hv), Hi. by exists L, i.
    + by replace slots with 0%nat by lia.
  - destruct (IH (pushed L u) _ (at_index_pushed L u)) as [Hok Hub].
    split; intros slots; [|intros w]; intros Hs.
    + destruct slots as [|slots]; [lia|]. rewrite (SetRotation_step _ _ _ _ _ _ Hv), Hi.
      apply Hok. lia.
    + destruct slots as [|slots]; [done|]. rewrite (SetRotation_step _ _ _ _ _ _ Hv), Hi.
      apply Hub. lia.
Qed.

(** A value a [float] holds: widening it to a Lua number and narrowing it again
    changes nothing. *)
Definition is_float (f : spec_float) : Prop := to_float32 f = f.

Lemma rawgeti_numbered_from (fs : list spec_float) i k :
  rawgeti (imap (fun j f => (LInt (Z.of_nat (i + j) + 1), LFloat f)) fs) k =
    (if Z.of_nat i <? k then
       match fs !! Z.to_nat (k - Z.of_nat i - 1) with Some f => LFloat f | None => LNil end
     else LNil).
Proof.
  revert i. induction fs as [|f fs IH]; intros i; [by destruct (_ <? _)|].
  cbn [imap]. unfold rawgeti. cbn [raw_find key_is_int]. rewrite Nat.add_0_r.
  destruct (Z.eqb_spec (Z.of_nat i + 1) k) as [<-|Hne].
  - rewrite (proj2 (Z.ltb_lt _ _)) by lia. by replace (Z.to_nat _) with 0%nat by lia.
  - specialize (IH (Datatypes.S i)). unfold rawgeti in IH.
    rewrite (imap_ext _ (fun j f => (LInt (Z.of_nat (Datatypes.S i + j) + 1), LFloat f)))
      by (intros; simpl; do 3 f_equal; lia).
    rewrite IH. destruct (Z.ltb_spec (Z.of_nat i) k).
    + rewrite (proj2 (Z.ltb_lt _ _)) by lia.
      by replace (Z.to_nat (k - Z.of_nat i - 1))
        with (Datatypes.S (Z.to_nat (k - Z.of_nat (Datatypes.S i) - 1))) by lia.
    + by rewrite (proj2 (Z.ltb_ge _ _)) by lia.
Qed.

Lemma rawgeti_numbered fs (i : nat) :
  rawgeti (numbered fs) (Z.of_nat i + 1) =
    match fs !! i with Some f => LFloat f | None => LNil end.
Proof.
  pose proof (rawgeti_numbered_from fs 0 (Z.of_nat i + 1)) as H. simpl in H. fold (numbered fs) in H.
  rewrite H, (proj2 (Z.ltb_lt _ _)) by lia. by replace (Z.to_nat _) with i by lia.
Qed.

Lemma rawlen_numbered (fs : list spec_float) : rawlen (numbered fs) = Z.of_nat (length fs).
Proof.
  destruct (rawlen_border (numbered fs)) as (H0 & H1 & H2).
  assert (rawlen (numbered fs) = Z.of_nat (Z.to_nat (rawlen (numbered fs)))) as E by lia.
  revert H1 H2. rewrite E. generalize (Z.to_nat (rawlen (numbered fs))). clear E H0.
  intros n H1 H2. rewrite rawgeti_numbered in H2. destruct (fs !! n) as [f|] eqn:Hn; [done|].
  apply lookup_ge_None in Hn. destruct n as [|n]; [lia|].
  destruct H1 as [H1|H1]; [lia|]. replace (Z.of_nat (Datatypes.S n)) with (Z.of_nat n + 1) in H1 by lia.
  rewrite rawgeti_numbered in H1. destruct (fs !! n) as [f|] eqn:Hn'; [|done].
  apply lookup_lt_Some in Hn'. lia.
Qed.

Lemma numbered_number L j o fs i f :
  at_index L j = Some (LTable o (numbered fs)) -> fs !! i = Some f -> is_float f ->
  TableNumber L j (Z.of_nat i + 1) = Ret f.
Proof.
  intros Hj Hi Hf. unfold TableNumber, entries_at. rewrite Hj, rawgeti_numbered, Hi. simpl.
  by rewrite Hf.
Qed.

(** C29: The table [vehicle:getRotation()] returns, assigned to [rotation] (or to
    [spawnRotation]) of any vehicle, sends the server exactly the quaternion it
    was read from, not the less exact Euler angles. *)
Theorem rotation_round_trip self self' spawn L L' i j w w1 w2 w' e q x y z u :
  call "GetVehicleRotationEuler" [self_id self] w = (Ret e, w1) -> a_int e = vcmpErrorNone ->
  call "GetVehicleRotation" [self_id self] w1 = (Ret q, w2) -> a_int q = vcmpErrorNone ->
  a_nums q = [x; y; z; u] -> Forall is_float [x; y; z; u] ->
  exists t, GetRotation self L i w = (Ret ([t], i), w2) /\
    (at_index L' 3 = Some t -> exists set L2,
       SetRotation spawn L' 3 w' = (Ret (set, 4), w') /\ frame L2 = frame L' /\
       set self' L' j w' =
         pbind (checked L2 (set_rotation_fn spawn true)
           [self_id self'; CNum x; CNum y; CNum z; CNum u]) (fun _ => pret (tt, j)) w').
Proof.
  intros He Ee Hq Eq Hn Hf. eexists. split.
  { unfold GetRotation, server_vec, checked_answer, rbind, run, pbind, Check, plift, Check_error.
    rewrite He, Ee. simpl. rewrite Hq, Eq. simpl. unfold out_num, out_num_or. rewrite Hn. reflexivity. }
  intros Ht. eexists. 
  exists (pushed (pushed L' (LTable (env_new_obj 2 w2)
    [(LString "euler", LTable (env_new_obj 0 w1) (numbered [out_num e 0; out_num e 1; out_num e 2]));
     (LString "quaternion", LTable (env_new_obj 1 w2) (numbered [x; y; z; u]))]))
    (LTable (env_new_obj 1 w2) (numbered [x; y; z; u]))).
  split; [unfold SetRotation, rbind, Any, rret, pbind, pret; rewrite Ht; reflexivity|].
  split; [done|]. unfold run, pbind at 1, default, from_option, id. cbv beta iota.
  set (q' := LTable (env_new_obj 1 w2) _). set (t := LTable (env_new_obj 2 w2) _).
  change (LUA_MINSTACK - 1)%nat with (Datatypes.S (Datatypes.S 17)).
  rewrite (SetRotation_step _ _ _ _ _ t) by apply at_index_pushed.
  change (inner_rotation t) with (Some q'). cbv iota.
  rewrite (SetRotation_step _ _ _ _ _ q') by apply at_index_pushed.
  change (inner_rotation q') with (@None lua_value). cbv iota.
  assert (forall n f, [x; y; z; u] !! n = Some f ->
    TableNumber (pushed (pushed L' t) q') (lua_gettop (pushed (pushed L' t) q')) (Z.of_nat n + 1) = Ret f)
    as Hnum.
  { intros n f Hl. eapply numbered_number; [apply at_index_pushed|exact Hl|].
    rewrite Forall_lookup in Hf. by eapply Hf. }
  unfold set_flat_rotation.
  pose proof (Hnum 0%nat x eq_refl) as H1. pose proof (Hnum 1%nat y eq_refl) as H2.
  pose proof (Hnum 2%nat z eq_refl) as H3. pose proof (Hnum 3%nat u eq_refl) as H4.
  change (Z.of_nat 0 + 1) with 1 in H1. change (Z.of_nat 1 + 1) with 2 in H2.
  change (Z.of_nat 2 + 1) with 3 in H3. change (Z.of_nat 3 + 1) with 4 in H4. rewrite H1, H2, H3, H4.
  unfold TableLength, entries_at. rewrite at_index_pushed. subst q'. cbv iota. rewrite rawlen_numbered.
  unfold pbind, plift. simpl. by destruct (checked _ _ _ w') as [[b|err|] w3].
Qed.

(** ** The taxi light *)

(** Switching a taxi's light on or off changes bit 8 of the lights data and
    no other bit, and [taxiLight] then reads back what was set. *)
Theorem taxi_light_changes_one_bit on lights :
  0 <= lights < 2 ^ 32 ->
  0 <= with_taxi_light on lights < 2 ^ 32 /\
  (forall n, 0 <= n -> n <> 8 -> Z.testbit (with_taxi_light on lights) n = Z.testbit lights n) /\
  has_taxi_light (with_taxi_light on lights) = on.
Proof.
  intros Hl.
  assert (forall n, 0 <= n -> Z.testbit kTaxiLight n = (n =? 8)) as Hbit.
  { intros n Hn. change kTaxiLight with (2 ^ 8). by rewrite Z.pow2_bits_eqb, Z.eqb_sym by lia. }
  assert (forall n, 32 <= n -> Z.testbit lights n = false) as Hhigh.
  { intros n Hn. rewrite <- (Z.mod_small lights (2 ^ 32)) by done. by apply Z.mod_pow2_bits_high; lia. }
  assert (forall n, 0 <= n -> Z.testbit (with_taxi_light on lights) n =
    if n =? 8 then on else Z.testbit lights n) as Hspec.
  { intros n Hn. unfold with_taxi_light. destruct on.
    - rewrite Z.lor_spec, Hbit by done. destruct (n =? 8); [by rewrite orb_true_r|by rewrite orb_false_r].
    - rewrite Z.land_spec. unfold wrap. destruct (Z.ltb_spec n 32).
      + rewrite Z.mod_pow2_bits_low, Z.lnot_spec, Hbit by lia.
        destruct (n =? 8); [by rewrite andb_false_r|by rewrite andb_true_r].
      + rewrite Z.mod_pow2_bits_high, Hhigh by lia. by destruct (Z.eqb_spec n 8); [lia|]. }
  split; [|split].
  - assert (0 <= with_taxi_light on lights) as H0.
    { unfold with_taxi_light. destruct on; [apply Z.lor_nonneg; unfold kTaxiLight; lia|].
      apply Z.land_nonneg. lia. }
    split; [done|]. apply Z.lt_nge. intros Hge.
    assert (0 < with_taxi_light on lights) as Hpos by lia.
    assert (32 <= Z.log2 (with_taxi_light on lights)) as Hlog by (by apply Z.log2_le_pow2).
    pose proof (Z.bit_log2 _ Hpos) as Hb. rewrite Hspec in Hb by lia.
    rewrite Hhigh in Hb by done. by destruct (Z.eqb_spec (Z.log2 (with_taxi_light on lights)) 8); [lia|].
  - intros n Hn Hne. rewrite Hspec by done. by destruct (Z.eqb_spec n 8).
  - unfold has_taxi_light.
    assert (Z.land (with_taxi_light on lights) kTaxiLight = if on then kTaxiLight else 0) as ->; [|by destruct on].
    apply Z.bits_inj'. intros n Hn. rewrite Z.land_spec, Hspec, Hbit by done.
    destruct (n =? 8) eqn:E; [|rewrite andb_false_r]; destruct on; rewrite ?Hbit, ?Z.bits_0, ?E by done; done.
Qed.
End vehicle.

Lemma taxi_light_changes_one_bit_witness : has_taxi_light (with_taxi_light true 5) = true.
Proof. apply (taxi_light_changes_one_bit true 5). lia. Defined.
