(* ===== verification/ObjectMembers.v ===== *)
(** The classes Object, Pickup and Checkpoint (src/bindings/object.cpp,
    pickup.cpp, checkpoint.cpp). *)
From stdpp Require Import base tactics list strings.
From Stdlib Require Import ZArith Lia Floats.SpecFloat.
From S2P Require Import Prelude.
From S2P Require Import ApiGuard.
From S2P Require Import EntityPool.
From S2P Require Import LuaValue.
From S2P Require Import Args.
From S2P Require Import EntityPools.
From S2P Require Import World.
From S2P Require Import Runtime.
From S2P Require Import ServerCalls.
From S2P Require Import EntityType.
Open Scope Z_scope.
Open Scope reader_scope.

Section objects.
Context {S : Type} {env : Env S} {server : ServerFns S} {lib : LuaLib}.
Abbreviation program A := (prog (World S) A).
Abbreviation reader := (reader (S := S)).
Abbreviation class := (class (S := S)).
Abbreviation arg := checked_arg.

(** ** Object *)

Definition Object_create : reader results :=
  run (fun _ => Require_runtime);;;
  args <~ variadic;;
  model <~ arg (ar_Int Int32 args 1);;
  world <~ arg (ar_Int Int32 args 2);;
  '(position, i) <~ arg (ar_Vector args 3);;
  alpha <~ (if decide (ar_type args 3 = TTable)
            then arg (z ← TableInteger (ar_L args) (ar_index args 3) 4 0 255 (Some 255); Ret (swrap 32 z))
            else arg (ar_IntOr UInt8 args i 255));;
  id <~ server_call "CreateObject"
    (CInt model :: CInt world :: vec_args position ++ [CInt alpha]);;
  r <~ run (fun L => Created Object L (a_int id));; r_ref Object r.

(** [MoveObject(self, args, move)]. *)
Definition MoveObject (name : string) (self : Live) : reader results :=
  args <~ variadic;;
  move <~ server_fn name;;
  '(to, i) <~ arg (ar_Vector args 1);;
  ms <~ (if bool_decide (ar_type args 1 = TTable) && ar_missing args 2
         then arg (z ← TableInteger (ar_L args) (ar_index args 1) 4 0 UINT32_MAX (Some 0);
                   Ret (wrap 32 z))
         else arg (ar_IntOr UInt32 args i 0));;
  b <~ check_call move (self_id self :: vec_args to ++ [CInt ms]);; r_bool b.

(** [RotateObject(self, args, quaternion, euler)]. *)
Definition RotateObject (quaternion euler : string) (self : Live) : reader results :=
  args <~ variadic;;
  '(quaternion, euler) <~ both (server_fn quaternion) (server_fn euler);;
  if decide (ar_type args 1 = TTable) then
    let table := ar_index args 1 in
    let number i := arg (TableNumber (ar_L args) table i) in
    x <~ number 1;; y <~ number 2;; z <~ number 3;;
    ms <~ arg (ar_IntOr UInt32 args 2 0);;
    b <~ (if 4 <=? TableLength (ar_L args) table then
            w <~ number 4;;
            check_call quaternion [self_id self; CNum x; CNum y; CNum z; CNum w; CInt ms]
          else check_call euler [self_id self; CNum x; CNum y; CNum z; CInt ms]);;
    r_bool b
  else run (fun L => pthrow (TypeError L (ar_index args 1) "table")).

(** [RegisterObject]. *)
Definition RegisterObject : class :=
  [ ("create", Static Object_create); ("new", Static Object_create);
    ("__call", Static Object_create);
    ("destroy", Method (destroy Object "DeleteObject"));
    ("streamedForPlayer", Method (streamed_for_player "IsObjectStreamedForPlayer"));
    ("getAlpha", Method (get_int "GetObjectAlpha"));
    ("setAlpha", Method (fun self => alpha <~ Int Int32;; ms <~ Opt (Int UInt32);;
       done_checked "SetObjectAlpha" [self_id self; CInt alpha; CInt (default 0 ms)]));
    ("alpha", PropertyRW (get_int "GetObjectAlpha")
       (set_with (Int Int32) (fun alpha => [CInt alpha; CInt 0]) "SetObjectAlpha"));
    ("moveTo", Method (MoveObject "MoveObjectTo"));
    ("moveBy", Method (MoveObject "MoveObjectBy"));
    ("rotateTo", Method (RotateObject "RotateObjectTo" "RotateObjectToEuler"));
    ("rotateBy", Method (RotateObject "RotateObjectBy" "RotateObjectByEuler"));
    ("getModel", Method (get_int "GetObjectModel"));
    ("model", Property (get_int "GetObjectModel"));
    ("world", PropertyRW (get_int "GetObjectWorld") (set_int Int32 "SetObjectWorld"));
    ("trackShots", PropertyRW (get_flag "IsObjectShotReportEnabled")
       (set_flag "SetObjectShotReportEnabled"));
    ("trackTouch", PropertyRW (get_flag "IsObjectTouchedReportEnabled")
       (set_flag "SetObjectTouchedReportEnabled"));
    ("position", PropertyRW (get_vec "GetObjectPosition") (set_vec "SetObjectPosition"));
    ("angle", PropertyRW (get_vec "GetObjectRotationEuler")
       (set_with Vec3_arg (fun angle => vec_args angle ++ [CInt 0]) "RotateObjectToEuler")) ].

(** ** Pickup *)

Definition Pickup_create : reader results :=
  run (fun _ => Require_runtime);;;
  args <~ variadic;;
  model <~ arg (ar_Int Int32 args 1);;
  world <~ arg (ar_Int Int32 args 2);;
  quantity <~ arg (ar_Int Int32 args 3);;
  '(position, i) <~ arg (ar_Vector args 4);;
  alpha <~ arg (ar_IntOr UInt8 args i 255);;
  automatic <~ arg (ar_BoolOr args (i + 1) true);;
  id <~ server_call "CreatePickup"
    (CInt model :: CInt world :: CInt quantity :: vec_args position ++ [CInt alpha; flag automatic]);;
  r <~ run (fun L => Created Pickup L (a_int id));; r_ref Pickup r.

(** [RegisterPickup]. *)
Definition RegisterPickup : class :=
  [ ("create", Static Pickup_create); ("new", Static Pickup_create);
    ("__call", Static Pickup_create);
    ("destroy", Method (destroy Pickup "DeletePickup"));
    ("respawn", Method (do_checked "RefreshPickup"));
    ("streamedForPlayer", Method (streamed_for_player "IsPickupStreamedForPlayer"));
    ("getOption", Method (int_method Int32 (fun self option =>
       flag_or_last_error "GetPickupOption" [self_id self; CInt option])));
    ("setOption", Method (fun self => option <~ Int Int32;; on <~ Boolean;;
       done_checked "SetPickupOption" [self_id self; CInt option; flag on]));
    ("getModel", Method (get_int "GetPickupModel"));
    ("model", Property (get_int "GetPickupModel"));
    ("quantity", Property (get_int "GetPickupQuantity"));
    ("world", PropertyRW (get_int "GetPickupWorld") (set_int Int32 "SetPickupWorld"));
    ("alpha", PropertyRW (get_int "GetPickupAlpha") (set_int Int32 "SetPickupAlpha"));
    ("auto", PropertyRW (get_flag "IsPickupAutomatic") (set_flag "SetPickupIsAutomatic"));
    ("autoTimer", PropertyRW (get_int "GetPickupAutoTimer") (set_int UInt32 "SetPickupAutoTimer"));
    ("position", PropertyRW (get_vec "GetPickupPosition") (set_vec "SetPickupPosition")) ].

(** ** Checkpoint *)

Record Rgba := mkRgba { c_r : Z; c_g : Z; c_b : Z; c_a : Z }.

Definition Channel (L : lua_State) (table i : Z) : outcome Z :=
  z ← TableInteger L table i 0 255 None; Ret (swrap 32 z).

(** [ReadColour(L, table, alpha)]. *)
Definition ReadColour (L : lua_State) (table alpha : Z) : outcome Rgba :=
  if decide (ltype L table = TTable) then
    r ← Channel L table 1; g ← Channel L table 2; b ← Channel L table 3;
    a ← (if 4 <=? TableLength L table then Channel L table 4 else Ret alpha);
    Ret (mkRgba r g b a)
  else Throw (TypeError L table "table").

Definition GetColour (self : Live) : reader Rgba :=
  c <~ checked_answer "GetCheckPointColour" [self_id self];;
  rret (mkRgba (out_int c 0 0) (out_int c 1 0) (out_int c 2 0) (out_int c 3 255)).

Definition rgba_args (c : Rgba) : list cval := [CInt (c_r c); CInt (c_g c); CInt (c_b c); CInt (c_a c)].

Definition Checkpoint_create : reader results :=
  run (fun _ => Require_runtime);;;
  args <~ variadic;;
  owner <~ (if ar_missing args 1 then rret (-1)
            else run (fun L => pbind (CheckLive Player L (ar_index args 1)) (fun p => pret (l_id p))));;
  world <~ arg (ar_Int Int32 args 2);;
  sphere <~ arg (ar_Bool args 3);;
  '(position, i) <~ arg (ar_Vector args 4);;
  colour <~ arg (ReadColour (ar_L args) (ar_index args i) 255);;
  radius <~ arg (ar_Number args (i + 1));;
  id <~ server_call "CreateCheckPoint"
    (CInt owner :: CInt world :: flag sphere :: vec_args position ++ rgba_args colour ++ [CNum radius]);;
  r <~ run (fun L => Created Checkpoint L (a_int id));; r_ref Checkpoint r.

(** checkpoint.color and checkpoint.alpha: the value is pushed again above the
    three slots of the assignment. *)
Definition set_colour_table : reader (Live -> reader unit) :=
  value <~ Any;;
  rret (fun self =>
    old <~ GetColour self;;
    c <~ run (fun L => let L := pushed L value in plift (ReadColour L (lua_gettop L) (c_a old)));;
    server_checked "SetCheckPointColour" (self_id self :: rgba_args c);;; rret tt).
Definition set_checkpoint_alpha : reader (Live -> reader unit) :=
  alpha <~ Int Int32;;
  rret (fun self =>
    c <~ GetColour self;;
    server_checked "SetCheckPointColour"
      (self_id self :: rgba_args (mkRgba (c_r c) (c_g c) (c_b c) alpha));;; rret tt).

(** [RegisterCheckpoint]. *)
Definition RegisterCheckpoint : class :=
  [ ("create", Static Checkpoint_create); ("new", Static Checkpoint_create);
    ("__call", Static Checkpoint_create);
    ("destroy", Method (destroy Checkpoint "DeleteCheckPoint"));
    ("streamedForPlayer", Method (streamed_for_player "IsCheckPointStreamedForPlayer"));
    ("getOwner", Method (get_ref Player "GetCheckPointOwner"));
    ("owner", Property (get_ref Player "GetCheckPointOwner"));
    ("isSphere", Method (get_flag "IsCheckPointSphere"));
    ("sphere", Property (get_flag "IsCheckPointSphere"));
    ("world", PropertyRW (get_int "GetCheckPointWorld") (set_int Int32 "SetCheckPointWorld"));
    ("radius", PropertyRW (get_num "GetCheckPointRadius") (set_num "SetCheckPointRadius"));
    ("color", PropertyRW (fun self => c <~ GetColour self;;
        r_table [(LInt 1, LInt (c_r c)); (LInt 2, LInt (c_g c)); (LInt 3, LInt (c_b c));
                 (LInt 4, LInt (c_a c))]) set_colour_table);
    ("alpha", PropertyRW (fun self => c <~ GetColour self;; r_int (c_a c)) set_checkpoint_alpha);
    ("position", PropertyRW (get_vec "GetCheckPointPosition") (set_vec "SetCheckPointPosition")) ].
End objects.
