(* ===== verification/BindMembers.v ===== *)
(** The classes Bind (src/bindings/bind.cpp) and Blip (the blips of
    src/bindings/server.cpp). *)
From stdpp Require Import base tactics list strings.
From Stdlib Require Import ZArith Lia Floats.SpecFloat.
From S2P Require Import Prelude.
From S2P Require Import ApiGuard.
From S2P Require Import EntityPool.
From S2P Require Import LuaValue.
From S2P Require Import Args.
From S2P Require Import EntityPools.
From S2P Require Import World.
From S2P Require Import Runtime.
From S2P Require Import ServerCalls.
From S2P Require Import EntityType.
Open Scope Z_scope.
Open Scope reader_scope.

Section binds.
Context {S : Type} {env : Env S} {server : ServerFns S} {lib : LuaLib}.
Abbreviation program A := (prog (World S) A).
Abbreviation reader := (reader (S := S)).
Abbreviation class := (class (S := S)).
Abbreviation arg := checked_arg.

(** ** Bind *)

(** [throw std::runtime_error("'" + CurrentFunction(L) + "' failed: " + what)]. *)
Definition failed {A} (what : string) : reader A :=
  run (fun L => pthrow (RuntimeError ("'" +:+ CurrentFunction L +:+ "' failed: " +:+ what))).

Definition Bind_create : reader results :=
  Ctx;;; on_release <~ Boolean;; key1 <~ Int Int32;; key2 <~ Opt (Int Int32);;
  key3 <~ Opt (Int Int32);;
  slot <~ server_call "GetKeyBindUnusedSlot" [];;
  if a_int slot <? 0 then failed "no free key bind slot" else
  ok <~ server_checked "RegisterKeyBind"
    [CInt (a_int slot); flag on_release; CInt key1; CInt (default 0 key2); CInt (default 0 key3)];;
  if negb ok then failed "request denied" else
  r <~ run (fun L => Created Bind L (a_int slot));; r_ref Bind r.

(** [Remove(self)]. *)
Definition Remove (self : Live) : reader bool :=
  a <~ server_call "RemoveKeyBind" [self_id self];;
  if (a_int a =? vcmpErrorNone) || (a_int a =? vcmpErrorNoSuchEntity) then
    run (fun _ w => (Ret true, release_id Bind (l_id self) w))
  else run (fun L => Check L (a_int a)).

(** The loop of Bind.findByTag. *)
Fixpoint find_by_tag (tag : string) (ids : list Z) : program EntityRef := fun w =>
  match ids with
  | [] => (Ret no_ref, w)
  | id :: ids =>
      let pool := pool_of Bind w in
      let ref := Ref pool id in
      match Tag pool (ref_id ref) (ref_generation ref) with
      | Ret t => if String.eqb t tag then (Ret ref, w) else find_by_tag tag ids w
      | Throw e => (Throw e, w)
      | UB => (UB, w)
      end
  end.

(** The loop of Bind.clearAllBinds. *)
Fixpoint remove_all (ids : list Z) : reader unit :=
  match ids with
  | [] => rret tt
  | id :: ids =>
      ref <~ run (fun _ => RefOf Bind id);;
      Remove (mkLive (ref_id ref) (ref_generation ref));;;
      remove_all ids
  end.

(** [ReadBind], and the table of bind:getData(). *)
Definition getData (self : Live) : reader results :=
  a <~ server_call "GetKeyBindData" [self_id self];;
  if negb (a_int a =? vcmpErrorNone) then
    run (fun _ => pthrow (RuntimeError "bind no longer exists"))
  else
    let key i := LInt (out_int a i 0) in
    r_table [(LString "keyOne", key 1%nat); (LString "keyTwo", key 2%nat);
             (LString "keyThree", key 3%nat);
             (LString "signalsOnRelease", LBool (negb (out_int a 0 0 =? 0)))].

Definition get_tag (self : Live) : reader results :=
  tag <~ run (fun _ w => (Tag (pool_of Bind w) (l_id self) (l_generation self), w));; r_text tag.
Definition set_tag : reader (Live -> reader unit) :=
  tag <~ String_arg;;
  rret (fun self => run (fun _ w =>
    match SetTag (pool_of Bind w) (l_id self) (l_generation self) tag with
    | Ret p => (Ret tt, upd_pool Bind (fun _ => p) w)
    | Throw e => (Throw e, w)
    | UB => (UB, w)
    end)).

(** [RegisterBind]. *)
Definition RegisterBind : class :=
  [ ("create", Static Bind_create); ("new", Static Bind_create); ("__call", Static Bind_create);
    ("findByTag", Static (Ctx;;; tag <~ String_arg;;
       r <~ run (fun _ => pbind (alive_ids Bind) (find_by_tag tag));; r_ref Bind r));
    ("clearAllBinds", Static (Ctx;;;
       ids <~ run (fun _ w => (Ret (CreatedByUs (pool_of Bind w)), w));; remove_all ids;;; r_none));
    ("destroy", Method (fun self => removed <~ Remove self;; r_bool removed));
    ("getData", Method getData);
    ("tag", PropertyRW get_tag set_tag) ].

(** ** Blip *)

(** Whether Blip.create is given the blip's index first. *)
Definition indexed_form (args : ArgReader) : bool :=
  let table := bool_decide (ar_type args 2 = TTable) || bool_decide (ar_type args 3 = TTable) in
  if table then bool_decide (ar_type args 3 = TTable) else 8 <=? ar_count args.

(** [CreateBlip(ctx, args)]. *)
Definition CreateBlip : reader results :=
  Ctx;;; args <~ variadic;;
  let indexed := indexed_form args in
  let i := if indexed then 2 else 1 in
  index <~ (if indexed then arg (ar_Int Int32 args 1) else rret (-1));;
  world <~ arg (ar_Int Int32 args i);;
  '(at_, i) <~ arg (ar_Vector args (i + 1));;
  scale <~ arg (ar_Int Int32 args i);;
  colour <~ arg (ar_ColourAt args (i + 1));;
  sprite <~ arg (ar_Int Int32 args (i + 2));;
  id <~ server_call "CreateCoordBlip"
    (CInt index :: CInt world :: vec_args at_ ++ [CInt scale; CInt colour; CInt sprite]);;
  r <~ run (fun L => Created Blip L (a_int id));; r_ref Blip r.

(** [BlipId(ctx, index)]: a handle, or an id. *)
Definition BlipId : reader Z := fun L i =>
  if decide (ltype L i = TNumber) then
    plift (z ← CheckInteger L i (-1) INT32_MAX; Ret (swrap 32 z, i))
  else pbind (CheckLive Blip L i) (fun self => pret (l_id self, i)).

Definition BlipInfo (id : Z) : reader results :=
  a <~ server_call "GetCoordBlipInfo" [CInt id];;
  if negb (a_int a =? vcmpErrorNone) then r_nil
  else
    position <~ run (fun _ w =>
      (Ret (push_Vec3 (env_new_obj 1 w) (mkVec3 (out_num a 0) (out_num a 1) (out_num a 2))), w));;
    r_table [(LString "world", LInt (out_int a 0 0)); (LString "position", position);
             (LString "scale", LInt (out_int a 1 0)); (LString "color", LInt (out_int a 2 0));
             (LString "sprite", LInt (out_int a 3 0))].

Definition DestroyBlip (id : Z) : reader results :=
  a <~ server_call "DestroyCoordBlip" [CInt id];;
  if (a_int a =? vcmpErrorNone) || (a_int a =? vcmpErrorNoSuchEntity) then
    run (fun _ w => (Ret tt, release_id Blip id w));;; r_bool (a_int a =? vcmpErrorNone)
  else b <~ run (fun L => Check L (a_int a));; r_bool b.

(** [RegisterBlipMembers]. *)
Definition RegisterBlip : class :=
  [ ("create", Static CreateBlip);
    ("destroy", Static (Ctx;;; id <~ BlipId;; DestroyBlip id));
    ("getInfo", Static (Ctx;;; id <~ BlipId;; BlipInfo id)) ].
End binds.
