(* ===== verification/ServerMembers.v ===== *)
(** Server, Map, Radio, Weapon and Sound (src/bindings/server.cpp). *)
From stdpp Require Import base tactics list strings.
From Stdlib Require Import ZArith Lia Floats.SpecFloat.
From S2P Require Import Prelude.
From S2P Require Import Names.
From S2P Require Import ApiGuard.
From S2P Require Import EntityPool.
From S2P Require Import LuaValue.
From S2P Require Import Args.
From S2P Require Import EntityPools.
From S2P Require Import World.
From S2P Require Import Runtime.
From S2P Require Import ServerCalls.
From S2P Require Import EntityType.
Open Scope Z_scope.
Open Scope reader_scope.

(** ** Districts *)

(** A float literal [n / d]: the quotient of two exact floats, rounded once. *)
Definition int_to_float32 (z : Z) : spec_float := binary_normalize f32_prec f32_emax z 0 false.
Definition float_literal (n d : Z) : spec_float :=
  SFdiv f32_prec f32_emax (int_to_float32 n) (int_to_float32 d).

(** [x > a && y > b && x < c && y < d]. *)
Definition within (x y : spec_float) (a b c d : spec_float) : bool :=
  SFltb a x && SFltb b y && SFltb x c && SFltb y d.

Definition districts : list (spec_float * spec_float * spec_float * spec_float * string) :=
  let m := float_literal in
  [ (m (-161303) 100, m 413218 1000, m (-21373) 100, m 167732 100, "Downtown Vice City");
    (m 163656 1000, m (-351153) 1000, m 124603 100, m 139885 100, "Vice Point");
    (m (-10397) 100, m (-930526) 1000, m 124603 100, m (-351153) 1000, "Washington Beach");
    (m (-253206) 1000, m (-180537) 100, m 12549 10, m (-930526) 1000, "Ocean Beach");
    (m (-188821) 100, m (-177961) 100, m (-120821) 100, m 23039 100, "Escobar International Airport");
    (m (-748206) 1000, m (-818266) 1000, m (-104505) 1000, m (-241467) 1000, "Starfish Island");
    (m (-21373) 100, m 797605 1000, m 163656 1000, m 124347 100, "Prawn Island");
    (m (-21373) 100, m (-241429) 1000, m 163656 1000, m 797605 1000, "Leaf Links");
    (m (-139676) 100, m (-429113) 10000, m (-120821) 100, m 23039 100, "Junkyard");
    (m (-120821) 100, m (-177961) 100, m (-253206) 1000, m (-898738) 1000, "Viceport");
    (m (-120821) 100, m (-898738) 1000, m (-748206) 1000, m (-241467) 1000, "Little Havana");
    (m (-120821) 100, m (-241467) 1000, m (-578289) 1000, m 41266 100, "Little Haiti") ].

Fixpoint find_district (x y : spec_float)
    (ds : list (spec_float * spec_float * spec_float * spec_float * string)) : string :=
  match ds with
  | [] => "Vice City"
  | (a, b, c, d, name) :: ds => if within x y a b c d then name else find_district x y ds
  end.
Definition DistrictName (x y : spec_float) : string := find_district x y districts.

(** [std::round] of a finite double: to the nearest integer, halves away from
    zero. *)
Definition round (f : spec_float) : option Z :=
  match f with
  | S754_zero _ => Some 0
  | S754_finite s m e =>
      let a := if 0 <=? e then Z.pos m * 2 ^ e else (2 * Z.pos m + 2 ^ (- e)) / (2 * 2 ^ (- e)) in
      Some (if s then - a else a)
  | _ => None
  end.

Section server.
Context {S : Type} {env : Env S} {server : ServerFns S} {lib : LuaLib}.
Abbreviation program A := (prog (World S) A).
Abbreviation reader := (reader (S := S)).
Abbreviation arg := checked_arg.

(** [Tenths(L, value, index)]. *)
Definition Tenths (L : lua_State) (value : spec_float) (index : Z) : outcome Z :=
  match round (SFmul f64_prec f64_emax value (int_to_float64 10)) with
  | Some tenths =>
      if (-32768 <=? tenths) && (tenths <=? 32767) then Ret (swrap 16 tenths)
      else Throw (ArgError L index "coordinate out of range")
  | None => Throw (ArgError L index "coordinate out of range")
  end.

(** ** Members of Server *)

(** A function of the class, or a [ServerProperty]. *)
Inductive server_member :=
  | Function (body : reader results)
  | ServerProperty (get : reader results) (set : reader (reader unit)).

(** A property's getter and setter take a Ctx, after the value is read. *)
Definition server_property (get : reader results) (set : reader (reader unit)) : server_member :=
  ServerProperty (Ctx;;; get) (f <~ set;; rret (Ctx;;; f)).
Definition set_from {A} (value : reader A) (f : A -> reader unit) : reader (reader unit) :=
  v <~ value;; rret (f v).

(** [const ServerTag&]: the value of the global Server. *)
Definition Server_self : reader unit := fun L i =>
  match at_index L i with
  | Some (LUserdata obj) =>
      if is_ServerTag obj then pret (tt, i + 1) else pthrow (RuntimeError sol_bad_self)
  | _ => pthrow (RuntimeError sol_bad_self)
  end.

(** Using a member: a call, (Server, key), or (Server, key, value). *)
Definition use_server_member (m : server_member) (a : access) (L : lua_State)
    : option (program results) :=
  let on (r : reader results) := pbind (r L 1) (fun '(vs, _) => pret vs) in
  match m, a with
  | Function body, ACall => Some (on body)
  | ServerProperty get _, AGet => Some (on (Server_self;;; get))
  | ServerProperty _ set, ASet =>
      Some (on (Server_self;;; f <~ (fun L _ => set L 3);; discard f))
  | _, _ => None
  end.

Definition set_checked (name : string) (args : list cval) : reader unit :=
  server_checked name args;;; rret tt.
Definition set_called (name : string) (args : list cval) : reader unit :=
  server_call name args;;; rret tt.

(** [ReadServerText(ctx, fn)]. *)
Definition ReadServerText (name : string) : reader string := run (fun L => ReadText L 512 name []).

(** Six weapons from argument [i] on. *)
Fixpoint weapon_args (args : ArgReader) (i : Z) (n : nat) : outcome (list Z) :=
  match n with
  | O => Ret []
  | Datatypes.S n =>
      w ← ar_IntOr Int32 args i 0; ws ← weapon_args args (i + 1) n; Ret (w :: ws)
  end.

(** [AddClass(ctx, args)]. *)
Definition AddClass : reader results :=
  args <~ variadic;;
  team <~ arg (ar_Int Int32 args 1);;
  colour <~ arg (ar_ColourAt args 2);;
  skin <~ arg (ar_Int Int32 args 3);;
  let angle_in_table :=
    bool_decide (ar_type args 4 = TTable) && (4 <=? TableLength (ar_L args) (ar_index args 4)) in
  '(position, i) <~ arg (ar_Vector args 4);;
  angle <~ arg (if angle_in_table then TableNumber (ar_L args) (ar_index args 4) 4
                else ar_Number args i);;
  weapons <~ arg (weapon_args args (if angle_in_table then i else i + 1) 6);;
  a <~ server_call "AddPlayerClass"
    (CInt team :: CInt colour :: CInt skin :: vec_args position ++ CNum angle :: map CInt weapons);;
  if a_int a <? 0 then
    check_last;;;
    run (fun L => pthrow (RuntimeError ("'" +:+ CurrentFunction L +:+ "' failed: the server refused")))
  else r_int (a_int a).

Definition getSettings : reader results :=
  a <~ checked_answer "GetServerSettings" [];;
  password <~ ReadServerText "GetServerPassword";;
  r_table [(LString "maxPlayers", LInt (out_int a 0 0)); (LString "port", LInt (out_int a 1 0));
           (LString "serverName", LString (c_str (String.substring 0 127 (a_text a))));
           (LString "serverPassword", LString password);
           (LString "flags", LInt (out_int a 2 0))].

(** A text with a getter, a setter and a property for both. *)
Definition server_text (suffix property get set : string) : list (string * server_member) :=
  let get_text := text <~ ReadServerText get;; r_text text in
  let set_text v := set_checked set [c_text v] in
  [ ("get" +:+ suffix, Function (Ctx;;; get_text));
    ("set" +:+ suffix, Function (Ctx;;; v <~ String_arg;; discard (set_text v)));
    (property, server_property get_text (set_from String_arg set_text)) ].

Definition get_max_players : reader results :=
  a <~ server_call "GetMaxPlayers" [];; r_int (a_int a).
Definition set_max_players (count : Z) : reader unit := set_checked "SetMaxPlayers" [CInt count].

Definition set_vector (name : string) : server_member :=
  Function (Ctx;;; v <~ Vec3_arg;; discard (set_called name (vec_args v))).

(** Server.banIP(ip), and the calls that give a flag. *)
Definition banIP (ip : string) : reader results :=
  banned <~ server_call "IsIPBanned" [c_text ip];;
  if negb (a_int banned =? 0) then r_bool false
  else server_call "BanIP" [c_text ip];;; r_bool true.
Definition ip_flag (name : string) : server_member :=
  Function (Ctx;;; ip <~ String_arg;; a <~ server_call name [c_text ip];;
            r_bool (negb (a_int a =? 0))).

Definition server_functions : list (string * server_member) :=
  [ ("type", Function (r_text "Server"));
    ("reload", Function (Ctx;;; run (fun _ w => (Ret tt, RequestReload w));;; r_none));
    ("shutdown", Function (Ctx;;; discard (server_call "ShutdownServer" [])));
    ("getOption", Function (Ctx;;; option <~ Int Int32;;
       flag_or_last_error "GetServerOption" [CInt option]));
    ("setOption", Function (Ctx;;; option <~ Int Int32;; on <~ Boolean;;
       done_checked "SetServerOption" [CInt option; flag on]));
    ("getSettings", Function (Ctx;;; getSettings)) ] ++
  server_text "Name" "name" "GetServerName" "SetServerName" ++
  [ ("getMaxPlayers", Function (Ctx;;; get_max_players));
    ("setMaxPlayers", Function (Ctx;;; count <~ Int UInt32;; discard (set_max_players count)));
    ("maxPlayers", server_property get_max_players (set_from (Int UInt32) set_max_players)) ] ++
  server_text "Game" "gamemode" "GetGameModeText" "SetGameModeText" ++
  server_text "Password" "password" "GetServerPassword" "SetServerPassword" ++
  [ ("addClass", Function (Ctx;;; AddClass));
    ("setClassPosition", set_vector "SetSpawnPlayerPosition");
    ("setClassCameraPosition", set_vector "SetSpawnCameraPosition");
    ("setClassCameraLook", set_vector "SetSpawnCameraLookAt");
    ("banIP", Function (Ctx;;; ip <~ String_arg;; banIP ip));
    ("unbanIP", ip_flag "UnbanIP");
    ("isIPBanned", ip_flag "IsIPBanned");
    ("createExplosion", Function (Ctx;;; world <~ Int Int32;; explosion <~ Int Int32;;
       at_ <~ Vec3_arg;; creator <~ Opt (Live_arg Player);; grounded <~ Opt Boolean;;
       done_checked "CreateExplosion" (CInt world :: CInt explosion :: vec_args at_ ++
         [CInt match creator with Some p => l_id p | None => -1 end;
          flag (default false grounded)])));
    ("getSkinID", Function (name <~ String_arg;; r_int (SkinId (String.list_ascii_of_string name))));
    ("getSkinName", Function (id <~ Int Int32;;
       match SkinName id with Some name => r_text name | None => r_nil end)) ].

(** A setting the server reads and writes without an error code. *)
Definition int_setting (T : IntType) (get set : string) : server_member :=
  server_property (a <~ server_call get [];; r_int (a_int a))
    (set_from (Int T) (fun v => set_called set [CInt v])).
Definition num_setting (get set : string) : server_member :=
  server_property (a <~ server_call get [];; r_num (a_num a))
    (set_from Float (fun v => set_called set [CNum v])).

(** ** Server.wastedSettings *)

Record Wasted := mkWasted
  { w_death : Z; w_fade : Z; w_fade_in : spec_float; w_fade_out : spec_float; w_colour : Z;
    w_corpse_start : Z; w_corpse_time : Z }.

Definition GetWastedSettings : reader Wasted :=
  a <~ server_call "GetWastedSettings" [];;
  rret (mkWasted (out_int a 0 0) (out_int a 1 0) (out_num a 0) (out_num a 1) (out_int a 2 0)
          (out_int a 3 0) (out_int a 4 0)).

Definition get_wasted : reader results :=
  w <~ GetWastedSettings;;
  r_table [(LString "deathTimer", LInt (w_death w)); (LString "fadeTimer", LInt (w_fade w));
           (LString "fadeInSpeed", LFloat (w_fade_in w));
           (LString "fadeOutSpeed", LFloat (w_fade_out w));
           (LString "fadeColour", LInt (w_colour w));
           (LString "corpseFadeStart", LInt (w_corpse_start w));
           (LString "corpseFadeTime", LInt (w_corpse_time w))].

(** The three lambdas of the setter: a field of the table at the top of [L],
    or the old value when the table has none. *)
Definition wasted_field {A} (check : lua_State -> Z -> outcome A) (L : lua_State) (key : string)
    (old : A) : outcome A :=
  match RawField L (lua_gettop L) key with
  | LNil => Ret old
  | v => let L := pushed L v in check L (lua_gettop L)
  end.
Definition wasted_integer := wasted_field (fun L i =>
  z ← CheckInteger L i 0 UINT32_MAX; Ret (wrap 32 z)).
Definition wasted_colour := wasted_field CheckColour.
Definition wasted_number := wasted_field get_Float.

Definition wasted_fields (L : lua_State) (w : Wasted) : outcome Wasted :=
  death ← wasted_integer L "deathTimer" (w_death w);
  fade ← wasted_integer L "fadeTimer" (w_fade w);
  fade_in ← wasted_number L "fadeInSpeed" (w_fade_in w);
  fade_out ← wasted_number L "fadeOutSpeed" (w_fade_out w);
  colour ← wasted_colour L "fadeColour" (w_colour w);
  corpse_start ← wasted_integer L "corpseFadeStart" (w_corpse_start w);
  corpse_time ← wasted_integer L "corpseFadeTime" (w_corpse_time w);
  Ret (mkWasted death fade fade_in fade_out colour corpse_start corpse_time).

Definition wasted_args (w : Wasted) : list cval :=
  [CInt (w_death w); CInt (w_fade w); CNum (w_fade_in w); CNum (w_fade_out w); CInt (w_colour w);
   CInt (w_corpse_start w); CInt (w_corpse_time w)].

Definition set_wasted (value : lua_value) : reader unit :=
  if decide (type_of value = TTable) then
    old <~ GetWastedSettings;;
    w <~ run (fun L => plift (wasted_fields (pushed L value) old));;
    set_called "SetWastedSettings" (wasted_args w)
  else run (fun L => pthrow (TypeError L 3 "table")).

Definition server_settings : list (string * server_member) :=
  [ ("fallTimer", int_setting UInt16 "GetFallTimer" "SetFallTimer");
    ("timeRate", int_setting Int32 "GetTimeRate" "SetTimeRate");
    ("hour", int_setting Int32 "GetHour" "SetHour");
    ("minute", int_setting Int32 "GetMinute" "SetMinute");
    ("weather", int_setting Int32 "GetWeather" "SetWeather");
    ("gravity", num_setting "GetGravity" "SetGravity");
    ("waterLevel", num_setting "GetWaterLevel" "SetWaterLevel");
    ("gameSpeed", num_setting "GetGameSpeed" "SetGameSpeed");
    ("flightAltitude", num_setting "GetMaximumFlightAltitude" "SetMaximumFlightAltitude");
    ("vehicleRespawnHeight",
       num_setting "GetVehiclesForcedRespawnHeight" "SetVehiclesForcedRespawnHeight");
    ("killDelay", int_setting Int32 "GetKillCommandDelay" "SetKillCommandDelay");
    ("wastedSettings", server_property get_wasted (set_from Any set_wasted)) ].

Definition RegisterServerTable : list (string * server_member) :=
  server_functions ++ server_settings.

(** ** The tables Map, Radio, Weapon and Sound *)

Definition functions : Type := list (string * reader results).

(** The three coordinates of Map.hideObject, in the compiler's order. *)
Definition tenths_of (at_ : Vec3) : reader (list cval) :=
  let tenths v i := run (fun L => plift (Tenths L v i)) in
  '(x, (y, z)) <~ both (tenths (vx at_) 2) (both (tenths (vy at_) 3) (tenths (vz at_) 4));;
  rret [CInt x; CInt y; CInt z].
Definition map_object (name : string) : reader results :=
  Ctx;;; model <~ Int Int32;; at_ <~ Vec3_arg;;
  fn <~ server_fn name;; xyz <~ tenths_of at_;; discard (run (fun _ => fn (CInt model :: xyz))).

Definition getDistrictName : reader results :=
  args <~ variadic;;
  '(x, y) <~
    (if decide (ar_type args 1 = TTable) then
       let number i := arg (TableNumber (ar_L args) (ar_index args 1) i) in
       both (number 1) (number 2)
     else both (arg (ar_Number args 1)) (arg (ar_Number args 2)));;
  r_text (DistrictName x y).

Definition RegisterMap : functions :=
  [ ("setBounds", Ctx;;; max_x <~ Float;; min_x <~ Float;; max_y <~ Float;; min_y <~ Float;;
       discard (server_call "SetWorldBounds" [CNum max_x; CNum min_x; CNum max_y; CNum min_y]));
    ("getBounds", Ctx;;; a <~ server_call "GetWorldBounds" [];;
       r_table [(LString "max_x", LFloat (out_num a 0)); (LString "min_x", LFloat (out_num a 1));
                (LString "max_y", LFloat (out_num a 2)); (LString "min_y", LFloat (out_num a 3))]);
    ("hideObject", map_object "HideMapObject");
    ("hideObjectRaw", Ctx;;; model <~ Int Int32;; x <~ Int Int16;; y <~ Int Int16;;
       z <~ Int Int16;; discard (server_call "HideMapObject" [CInt model; CInt x; CInt y; CInt z]));
    ("showMapObject", map_object "ShowMapObject");
    ("showObject", map_object "ShowMapObject");
    ("showAllObjects", Ctx;;; discard (server_call "ShowAllMapObjects" []));
    ("getDistrictName", getDistrictName) ].

(** Radio.createStream([id,] name, url[, listed]). *)
Definition createStream : reader results :=
  Ctx;;; args <~ variadic;;
  let with_id := bool_decide (ar_type args 1 = TNumber) in
  let first := if with_id then 2 else 1 in
  id <~ (if with_id then arg (ar_Int Int32 args 1) else rret (-1));;
  name <~ arg (CheckString (ar_L args) (ar_index args first));;
  url <~ arg (CheckString (ar_L args) (ar_index args (first + 1)));;
  listed <~ arg (ar_BoolOr args (first + 2) true);;
  done_checked "AddRadioStream" [CInt id; c_text name; c_text url; flag listed].

Definition RegisterRadio : functions :=
  [ ("createStream", createStream);
    ("destroyStream", Ctx;;; id <~ Int Int32;; done_checked "RemoveRadioStream" [CInt id]) ].

Definition weapon_data : reader results :=
  Ctx;;; id <~ Int Int32;; field <~ Int Int32;; value <~ Opt Double;;
  match value with
  | Some v => server_checked "SetWeaponDataValue" [CInt id; CInt field; CNum v];;; r_nil
  | None => num_or_last_error "GetWeaponDataValue" [CInt id; CInt field]
  end.

Definition RegisterWeapon : functions :=
  [ ("data", weapon_data);
    ("isFieldModified", Ctx;;; id <~ Int Int32;; field <~ Int Int32;;
       flag_or_last_error "IsWeaponDataValueModified" [CInt id; CInt field]);
    ("resetField", Ctx;;; id <~ Int Int32;; field <~ Int Int32;;
       done_checked "ResetWeaponDataValue" [CInt id; CInt field]);
    ("reset", Ctx;;; id <~ Int Int32;; done_checked "ResetWeaponData" [CInt id]);
    ("resetAll", Ctx;;; discard (server_call "ResetAllWeaponData" []));
    ("getName", id <~ Int Int32;; r_text (WeaponName id));
    ("getID", name <~ String_arg;; r_int (WeaponId (String.list_ascii_of_string name))) ].

(** Whether Sound.play is given a world first. *)
Definition has_world (args : ArgReader) : bool :=
  let count := ar_count args in
  ((count =? 2) && negb (bool_decide (ar_type args 2 = TTable))) || (count =? 3) || (5 <=? count).

Definition play : reader results :=
  Ctx;;; args <~ variadic;;
  let i := if has_world args then 2 else 1 in
  world <~ (if has_world args then arg (ar_Int Int32 args 1) else rret 0);;
  id <~ arg (ar_Int Int32 args i);;
  at_ <~ (if ar_missing args (i + 1) then rret (mkVec3 S754_nan S754_nan S754_nan)
          else '(v, _) <~ arg (ar_Vector args (i + 1));; rret v);;
  done_checked "PlaySound" (CInt world :: CInt id :: vec_args at_).

Definition RegisterSound : functions := [ ("play", play) ].

(** ** Properties *)

(** The values a field of wastedSettings takes from a Lua value. *)
Definition uint_value (v : lua_value) (n : Z) : Prop :=
  integer_of v = Some n /\ 0 <= n <= UINT32_MAX.
Definition colour_value (v : lua_value) (n : Z) : Prop :=
  exists z, integer_of v = Some z /\ INT32_MIN <= z <= UINT32_MAX /\ n = wrap 32 z.
Definition float_value (v : lua_value) (f : spec_float) : Prop :=
  exists d, to_number v = Some d /\ f = to_float32 d.

(** A field after an assignment: the old value when the table has none, else
    the table's. *)
Definition kept_or_set {A} (takes : lua_value -> A -> Prop) (es : list (lua_value * lua_value))
    (key : string) (old new : A) : Prop :=
  (rawgets es key = LNil /\ new = old) \/ (rawgets es key <> LNil /\ takes (rawgets es key) new).

Record merged (es : list (lua_value * lua_value)) (old new : Wasted) : Prop := mkMerged
  { m_death : kept_or_set uint_value es "deathTimer" (w_death old) (w_death new);
    m_fade : kept_or_set uint_value es "fadeTimer" (w_fade old) (w_fade new);
    m_fade_in : kept_or_set float_value es "fadeInSpeed" (w_fade_in old) (w_fade_in new);
    m_fade_out : kept_or_set float_value es "fadeOutSpeed" (w_fade_out old) (w_fade_out new);
    m_colour : kept_or_set colour_value es "fadeColour" (w_colour old) (w_colour new);
    m_start : kept_or_set uint_value es "corpseFadeStart" (w_corpse_start old) (w_corpse_start new);
    m_time : kept_or_set uint_value es "corpseFadeTime" (w_corpse_time old) (w_corpse_time new) }.

Lemma wasted_field_iff {A} (check : lua_State -> Z -> outcome A) takes L o es key old new :
  (forall L v n, check (pushed L v) (lua_gettop (pushed L v)) = Ret n <-> takes v n) ->
  wasted_field check (pushed L (LTable o es)) key old = Ret new <-> kept_or_set takes es key old new.
Proof.
  intros Hc. unfold wasted_field, RawField, entries_at, kept_or_set. rewrite at_index_pushed.
  destruct (rawgets es key) eqn:E; rewrite ?Hc; split.
  all: try (intros [[? ->]|[? ?]]; done).
  all: try (intros H; right; split; done).
  intros [= ->]. by left.
Qed.

Lemma CheckInteger_pushed L v min max z :
  CheckInteger (pushed L v) (lua_gettop (pushed L v)) min max = Ret z <->
  integer_of v = Some z /\ min <= z <= max.
Proof.
  rewrite CheckInteger_Ret, at_index_pushed. split.
  - by intros [(? & [= <-] & ?) ?].
  - intros [? ?]. split; [by exists v|done].
Qed.

Lemma wasted_integer_iff L o es key old new :
  wasted_integer (pushed L (LTable o es)) key old = Ret new <-> kept_or_set uint_value es key old new.
Proof.
  apply wasted_field_iff. clear. intros L v n. unfold uint_value. rewrite <- CheckInteger_pushed with (L := L).
  destruct (CheckInteger _ _ _ _) as [z| |] eqn:E; simpl; [|done..].
  apply CheckInteger_pushed in E as [_ Hz]. unfold wrap, UINT32_MAX in *. rewrite Z.mod_small by lia. done.
Qed.

Lemma wasted_colour_iff L o es key old new :
  wasted_colour (pushed L (LTable o es)) key old = Ret new <-> kept_or_set colour_value es key old new.
Proof.
  apply wasted_field_iff. clear. intros L v n. unfold colour_value, CheckColour.
  pose proof (CheckInteger_pushed L v INT32_MIN UINT32_MAX) as H.
  destruct (CheckInteger _ _ _ _) as [z|e|] eqn:E; simpl.
  - destruct (proj1 (H z) eq_refl) as [Hz Hr]. split; [intros [= <-]; by exists z|].
    intros (z' & Hz' & _ & ->). congruence.
  - split; [done|]. intros (z & Hz & Hr & _). by specialize (proj2 (H z) (conj Hz Hr)).
  - split; [done|]. intros (z & Hz & Hr & _). by specialize (proj2 (H z) (conj Hz Hr)).
Qed.

Lemma wasted_number_iff L o es key old new :
  wasted_number (pushed L (LTable o es)) key old = Ret new <-> kept_or_set float_value es key old new.
Proof.
  apply wasted_field_iff. clear. intros L v n. unfold float_value, get_Float, CheckNumber.
  rewrite at_index_pushed. destruct v; simpl;
    (split; [intros [=]; subst; by eexists | intros (d & [=] & ->); by subst]).
Qed.

Lemma bind_Ret {A B} (m : outcome A) (k : A -> outcome B) b :
  (m ≫= k) = Ret b <-> exists a, m = Ret a /\ k a = Ret b.
Proof.
  destruct m; simpl; (split; [intros H; try done; by eexists | intros (? & H & ?); by simplify_eq]).
Qed.

Lemma wasted_fields_iff L o es old new :
  wasted_fields (pushed L (LTable o es)) old = Ret new <-> merged es old new.
Proof.
  unfold wasted_fields. rewrite bind_Ret. setoid_rewrite bind_Ret. setoid_rewrite bind_Ret.
  setoid_rewrite bind_Ret. setoid_rewrite bind_Ret. setoid_rewrite bind_Ret. setoid_rewrite bind_Ret.
  setoid_rewrite wasted_integer_iff. setoid_rewrite wasted_number_iff. setoid_rewrite wasted_colour_iff.
  split.
  - intros (?&?&?&?&?&?&?&?&?&?&?&?&?&?&[= <-]). by split.
  - intros []. destruct new. simpl in *. do 7 (eexists; split; [eassumption|]). done.
Qed.

End server.
