(* ===== verification/Enums.v ===== *)
(** The constant tables (src/bindings/enums.cpp) with the values of
    third_party/vcmp/vcmp.h, and the globals of 2.x that 3.0 removed
    (src/bindings/removed_globals.cpp). *)
From stdpp Require Import base tactics list strings.
From Stdlib Require Import ZArith Lia.
From S2P Require Import Prelude.
From S2P Require Import ApiGuard.
From S2P Require Import EntityPool.
From S2P Require Import LuaValue.
From S2P Require Import EntityPools.
From S2P Require Import World.
From S2P Require Import Runtime.
Open Scope Z_scope.

(** ** The server's constants *)

Definition vcmpServerOptionSyncFrameLimiter : Z := 0.
Definition vcmpServerOptionFrameLimiter : Z := 1.
Definition vcmpServerOptionTaxiBoostJump : Z := 2.
Definition vcmpServerOptionDriveOnWater : Z := 3.
Definition vcmpServerOptionFastSwitch : Z := 4.
Definition vcmpServerOptionFriendlyFire : Z := 5.
Definition vcmpServerOptionDisableDriveBy : Z := 6.
Definition vcmpServerOptionPerfectHandling : Z := 7.
Definition vcmpServerOptionFlyingCars : Z := 8.
Definition vcmpServerOptionJumpSwitch : Z := 9.
Definition vcmpServerOptionShowMarkers : Z := 10.
Definition vcmpServerOptionOnlyShowTeamMarkers : Z := 11.
Definition vcmpServerOptionStuntBike : Z := 12.
Definition vcmpServerOptionShootInAir : Z := 13.
Definition vcmpServerOptionShowNameTags : Z := 14.
Definition vcmpServerOptionJoinMessages : Z := 15.
Definition vcmpServerOptionDeathMessages : Z := 16.
Definition vcmpServerOptionChatTagsEnabled : Z := 17.
Definition vcmpServerOptionUseClasses : Z := 18.
Definition vcmpServerOptionWallGlitch : Z := 19.
Definition vcmpServerOptionDisableBackfaceCulling : Z := 20.
Definition vcmpServerOptionDisableHeliBladeDamage : Z := 21.
Definition vcmpServerOptionDisableCrouch : Z := 22.
Definition vcmpDisconnectReasonQuit : Z := 1.
Definition vcmpDisconnectReasonKick : Z := 2.
Definition vcmpDisconnectReasonCrash : Z := 3.
Definition vcmpDisconnectReasonAntiCheat : Z := 4.
Definition vcmpBodyPartBody : Z := 0.
Definition vcmpBodyPartTorso : Z := 1.
Definition vcmpBodyPartLeftArm : Z := 2.
Definition vcmpBodyPartRightArm : Z := 3.
Definition vcmpBodyPartLeftLeg : Z := 4.
Definition vcmpBodyPartRightLeg : Z := 5.
Definition vcmpBodyPartHead : Z := 6.
Definition vcmpBodyPartInVehicle : Z := 7.
Definition vcmpPlayerStateNone : Z := 0.
Definition vcmpPlayerStateNormal : Z := 1.
Definition vcmpPlayerStateAim : Z := 2.
Definition vcmpPlayerStateDriver : Z := 3.
Definition vcmpPlayerStatePassenger : Z := 4.
Definition vcmpPlayerStateEnterDriver : Z := 5.
Definition vcmpPlayerStateEnterPassenger : Z := 6.
Definition vcmpPlayerStateExit : Z := 7.
Definition vcmpPlayerStateUnspawned : Z := 8.
Definition vcmpPlayerUpdateNormal : Z := 0.
Definition vcmpPlayerUpdateAimingDeprecated : Z := 1.
Definition vcmpPlayerUpdateDriver : Z := 2.
Definition vcmpPlayerUpdatePassenger : Z := 3.
Definition vcmpPlayerOptionControllable : Z := 0.
Definition vcmpPlayerOptionDriveBy : Z := 1.
Definition vcmpPlayerOptionWhiteScanlines : Z := 2.
Definition vcmpPlayerOptionGreenScanlines : Z := 3.
Definition vcmpPlayerOptionWidescreen : Z := 4.
Definition vcmpPlayerOptionShowMarkers : Z := 5.
Definition vcmpPlayerOptionCanAttack : Z := 6.
Definition vcmpPlayerOptionHasMarker : Z := 7.
Definition vcmpPlayerOptionChatTagsEnabled : Z := 8.
Definition vcmpPlayerOptionDrunkEffectsDeprecated : Z := 9.
Definition vcmpPlayerOptionBleeding : Z := 10.
Definition vcmpPlayerVehicleOut : Z := 0.
Definition vcmpPlayerVehicleEntering : Z := 1.
Definition vcmpPlayerVehicleExiting : Z := 2.
Definition vcmpPlayerVehicleIn : Z := 3.
Definition vcmpVehicleUpdateDriverSync : Z := 0.
Definition vcmpVehicleUpdateOtherSync : Z := 1.
Definition vcmpVehicleUpdatePosition : Z := 2.
Definition vcmpVehicleUpdateHealth : Z := 4.
Definition vcmpVehicleUpdateColour : Z := 5.
Definition vcmpVehicleUpdateRotation : Z := 6.
Definition vcmpVehicleOptionDoorsLocked : Z := 0.
Definition vcmpVehicleOptionAlarm : Z := 1.
Definition vcmpVehicleOptionLights : Z := 2.
Definition vcmpVehicleOptionRadioLocked : Z := 3.
Definition vcmpVehicleOptionGhost : Z := 4.
Definition vcmpVehicleOptionSiren : Z := 5.
Definition vcmpVehicleOptionSingleUse : Z := 6.
Definition vcmpVehicleOptionEngineDisabled : Z := 7.
Definition vcmpVehicleOptionBootOpen : Z := 8.
Definition vcmpVehicleOptionBonnetOpen : Z := 9.
Definition vcmpPickupOptionSingleUse : Z := 0.
Definition forceSizeVcmpPickupOption : Z := INT32_MAX.
Definition vcmpEntityPoolPlayer : Z := 5.
Definition vcmpNetworkStatisticsOptionDataSentPerSecond : Z := 0.
Definition vcmpNetworkStatisticsOptionDataResentPerSecond : Z := 1.
Definition vcmpNetworkStatisticsOptionDataReceivedPerSecond : Z := 2.
Definition vcmpNetworkStatisticsOptionDataDiscardedPerSecond : Z := 3.
Definition vcmpNetworkStatisticsOptionAllBytesSentPerSecond : Z := 4.
Definition vcmpNetworkStatisticsOptionAllBytesReceivedPerSecond : Z := 5.
Definition vcmpNetworkStatisticsOptionDataSentTotal : Z := 6.
Definition vcmpNetworkStatisticsOptionDataResentTotal : Z := 7.
Definition vcmpNetworkStatisticsOptionDataReceivedTotal : Z := 8.
Definition vcmpNetworkStatisticsOptionDataDiscardedTotal : Z := 9.
Definition vcmpNetworkStatisticsOptionAllBytesSentTotal : Z := 10.
Definition vcmpNetworkStatisticsOptionAllBytesReceivedTotal : Z := 11.
Definition vcmpNetworkStatisticsOptionMessagesWaiting : Z := 12.
Definition vcmpNetworkStatisticsOptionMessagesResending : Z := 13.
Definition vcmpNetworkStatisticsOptionBytesResending : Z := 14.
Definition vcmpNetworkStatisticsOptionPacketLossPerSecond : Z := 15.
Definition vcmpNetworkStatisticsOptionPacketLossTotal : Z := 16.

(** ** The tables *)

(** [Items]: names and values, in the order of the source. *)
Definition items : Type := list (string * Z).

Definition enum_ServerOption : items :=
  [ ("syncFrameLimiter", vcmpServerOptionSyncFrameLimiter);
    ("frameLimit", vcmpServerOptionFrameLimiter);
    ("taxiBoostJump", vcmpServerOptionTaxiBoostJump);
    ("driveOnWater", vcmpServerOptionDriveOnWater);
    ("fastSwitch", vcmpServerOptionFastSwitch);
    ("friendlyFire", vcmpServerOptionFriendlyFire);
    ("driveBy", vcmpServerOptionDisableDriveBy);
    ("perfectHandling", vcmpServerOptionPerfectHandling);
    ("flyingCars", vcmpServerOptionFlyingCars); ("jumpSwitch", vcmpServerOptionJumpSwitch);
    ("showMarkers", vcmpServerOptionShowMarkers);
    ("teamMarkersOnly", vcmpServerOptionOnlyShowTeamMarkers);
    ("stuntBike", vcmpServerOptionStuntBike); ("shootInAir", vcmpServerOptionShootInAir);
    ("nametags", vcmpServerOptionShowNameTags);
    ("joinMessages", vcmpServerOptionJoinMessages);
    ("deathMessages", vcmpServerOptionDeathMessages);
    ("chatTags", vcmpServerOptionChatTagsEnabled); ("classes", vcmpServerOptionUseClasses);
    ("wallGlitch", vcmpServerOptionWallGlitch);
    ("backfaceCulling", vcmpServerOptionDisableBackfaceCulling);
    ("heliBladeDamage", vcmpServerOptionDisableHeliBladeDamage);
    ("disableCrouch", vcmpServerOptionDisableCrouch) ].
Definition enum_DisconnectReason : items :=
  [ ("timeout", vcmpDisconnectReasonTimeout); ("quit", vcmpDisconnectReasonQuit);
    ("kick", vcmpDisconnectReasonKick); ("ban", vcmpDisconnectReasonKick);
    ("kickBan", vcmpDisconnectReasonKick); ("crash", vcmpDisconnectReasonCrash);
    ("ac", vcmpDisconnectReasonAntiCheat) ].
Definition enum_BodyPart : items :=
  [ ("body", vcmpBodyPartBody); ("torso", vcmpBodyPartTorso);
    ("leftArm", vcmpBodyPartLeftArm); ("rightArm", vcmpBodyPartRightArm);
    ("leftLeg", vcmpBodyPartLeftLeg); ("rightLeg", vcmpBodyPartRightLeg);
    ("head", vcmpBodyPartHead); ("inVehicle", vcmpBodyPartInVehicle) ].
Definition enum_PlayerState : items :=
  [ ("none", vcmpPlayerStateNone); ("normal", vcmpPlayerStateNormal);
    ("aim", vcmpPlayerStateAim); ("driver", vcmpPlayerStateDriver);
    ("passenger", vcmpPlayerStatePassenger); ("enterDriver", vcmpPlayerStateEnterDriver);
    ("enterPassenger", vcmpPlayerStateEnterPassenger); ("exit", vcmpPlayerStateExit);
    ("unspawned", vcmpPlayerStateUnspawned) ].
Definition enum_PlayerUpdate : items :=
  [ ("normal", vcmpPlayerUpdateNormal); ("aiming", vcmpPlayerUpdateAimingDeprecated);
    ("driver", vcmpPlayerUpdateDriver); ("passenger", vcmpPlayerUpdatePassenger) ].
Definition enum_PlayerOption : items :=
  [ ("controllable", vcmpPlayerOptionControllable); ("driveBy", vcmpPlayerOptionDriveBy);
    ("whiteScanLines", vcmpPlayerOptionWhiteScanlines);
    ("greenScanLines", vcmpPlayerOptionGreenScanlines);
    ("widescreen", vcmpPlayerOptionWidescreen);
    ("showMarkers", vcmpPlayerOptionShowMarkers); ("canAttack", vcmpPlayerOptionCanAttack);
    ("hasMarker", vcmpPlayerOptionHasMarker); ("showOnRadar", vcmpPlayerOptionHasMarker);
    ("chatTags", vcmpPlayerOptionChatTagsEnabled);
    ("drunkEffects", vcmpPlayerOptionDrunkEffectsDeprecated);
    ("bleeding", vcmpPlayerOptionBleeding) ].
Definition enum_PlayerVehicle : items :=
  [ ("outside", vcmpPlayerVehicleOut); ("entering", vcmpPlayerVehicleEntering);
    ("exiting", vcmpPlayerVehicleExiting); ("inside", vcmpPlayerVehicleIn) ].
Definition enum_VehicleUpdate : items :=
  [ ("driverSync", vcmpVehicleUpdateDriverSync); ("otherSync", vcmpVehicleUpdateOtherSync);
    ("position", vcmpVehicleUpdatePosition); ("health", vcmpVehicleUpdateHealth);
    ("color", vcmpVehicleUpdateColour); ("colour", vcmpVehicleUpdateColour);
    ("rotation", vcmpVehicleUpdateRotation) ].
Definition enum_VehicleOption : items :=
  [ ("lockDoors", vcmpVehicleOptionDoorsLocked); ("alarm", vcmpVehicleOptionAlarm);
    ("lights", vcmpVehicleOptionLights); ("radioLocked", vcmpVehicleOptionRadioLocked);
    ("ghost", vcmpVehicleOptionGhost); ("siren", vcmpVehicleOptionSiren);
    ("singleUse", vcmpVehicleOptionSingleUse); ("engine", vcmpVehicleOptionEngineDisabled);
    ("boot", vcmpVehicleOptionBootOpen); ("bonnet", vcmpVehicleOptionBonnetOpen) ].
Definition enum_VehicleSpeed : items :=
  [ ("normal", 1); ("normalRelative", 2); ("turn", 3); ("turnRelative", 4) ].
Definition enum_PickupOption : items :=
  [ ("singleUse", vcmpPickupOptionSingleUse); ("forceSize", forceSizeVcmpPickupOption) ].
Definition enum_EntityType : items :=
  [ ("vehicle", vcmpEntityPoolVehicle); ("object", vcmpEntityPoolObject);
    ("pickup", vcmpEntityPoolPickup); ("radio", vcmpEntityPoolRadio);
    ("player", vcmpEntityPoolPlayer); ("blip", vcmpEntityPoolBlip);
    ("checkpoint", vcmpEntityPoolCheckPoint) ].
Definition enum_NetworkStatistics : items :=
  [ ("dataSentPerSecond", vcmpNetworkStatisticsOptionDataSentPerSecond);
    ("dataResentPerSecond", vcmpNetworkStatisticsOptionDataResentPerSecond);
    ("dataReceivedPerSecond", vcmpNetworkStatisticsOptionDataReceivedPerSecond);
    ("dataDiscardedPerSecond", vcmpNetworkStatisticsOptionDataDiscardedPerSecond);
    ("allBytesSentPerSecond", vcmpNetworkStatisticsOptionAllBytesSentPerSecond);
    ("allBytesReceivedPerSecond", vcmpNetworkStatisticsOptionAllBytesReceivedPerSecond);
    ("dataSentTotal", vcmpNetworkStatisticsOptionDataSentTotal);
    ("dataResentTotal", vcmpNetworkStatisticsOptionDataResentTotal);
    ("dataReceivedTotal", vcmpNetworkStatisticsOptionDataReceivedTotal);
    ("dataDiscardedTotal", vcmpNetworkStatisticsOptionDataDiscardedTotal);
    ("allBytesSentTotal", vcmpNetworkStatisticsOptionAllBytesSentTotal);
    ("allBytesReceivedTotal", vcmpNetworkStatisticsOptionAllBytesReceivedTotal);
    ("messagesWaiting", vcmpNetworkStatisticsOptionMessagesWaiting);
    ("messagesResending", vcmpNetworkStatisticsOptionMessagesResending);
    ("bytesResending", vcmpNetworkStatisticsOptionBytesResending);
    ("packetLossPerSecond", vcmpNetworkStatisticsOptionPacketLossPerSecond);
    ("packetLossTotal", vcmpNetworkStatisticsOptionPacketLossTotal) ].

Definition enums : list (string * items) :=
  [ ("ServerOption", enum_ServerOption); ("DisconnectReason", enum_DisconnectReason);
    ("BodyPart", enum_BodyPart); ("PlayerState", enum_PlayerState);
    ("PlayerUpdate", enum_PlayerUpdate); ("PlayerOption", enum_PlayerOption);
    ("PlayerVehicle", enum_PlayerVehicle); ("VehicleUpdate", enum_VehicleUpdate);
    ("VehicleOption", enum_VehicleOption); ("VehicleSpeed", enum_VehicleSpeed);
    ("PickupOption", enum_PickupOption); ("EntityType", enum_EntityType);
    ("NetworkStatistics", enum_NetworkStatistics) ].

(** [Enum]: a read of the table; other keys give nil. *)
Fixpoint item (key : string) (t : items) : option Z :=
  match t with
  | [] => None
  | (k, v) :: t => if String.eqb k key then Some v else item key t
  end.
Definition enum_value (table key : string) : option Z :=
  match list_find (fun t => fst t = table) enums with
  | Some (_, (_, t)) => item key t
  | None => None
  end.

(** ** The removed globals *)

(** [Removed]: the global, its section in docs/MIGRATION-v3.md, and what
    replaced it. *)
Record Removed := mkRemoved { rm_name : string; rm_anchor : string; rm_replaced : string }.

Definition quoted (s : string) : string :=
  String (Ascii.ascii_of_nat 34) s +:+ String (Ascii.ascii_of_nat 34) EmptyString.

Definition kRemoved : list Removed :=
  [ mkRemoved "MySQL" "mysql" ("use require " +:+ quoted "luasql.mysql");
    mkRemoved "SQLite" "sqlite" ("use require " +:+ quoted "luasql.sqlite3");
    mkRemoved "SqLite" "sqlite" ("use require " +:+ quoted "luasql.sqlite3");
    mkRemoved "SQLiteDatabase" "sqlite" ("use require " +:+ quoted "luasql.sqlite3");
    mkRemoved "Remote" "remote" ("use require " +:+ quoted "http");
    mkRemoved "JSON" "json" ("use require " +:+ quoted "cjson");
    mkRemoved "Thread" "thread" "Lua runs on the server's thread only";
    mkRemoved "dbg" "debugger" "it blocked the server waiting for console input" ].

Definition removed_message (r : Removed) : string :=
  rm_name r +:+ " was removed in 3.0: " +:+ rm_replaced r +:+
  " (see docs/MIGRATION-v3.md#" +:+ rm_anchor r +:+ ")".

(** What a script does with a global: reading a key, assigning one, calling it. *)
Inductive global_use := GIndex | GNewIndex | GCall.

(** [RegisterRemovedV1Stubs]: the metatable's three functions raise the message;
    [None]: the global is not one of the stubs. *)
Definition use_removed (global : string) (use : global_use) : option (outcome lua_value) :=
  match list_find (fun r => rm_name r = global) kRemoved with
  | Some (_, r) => Some (Throw (RuntimeError (removed_message r)))
  | None => None
  end.

(** ** Properties *)

(** The values of docs/api/enums.md. *)
Definition documented : list (string * items) :=
  [ ("ServerOption", [("syncFrameLimiter", 0); ("frameLimit", 1); ("taxiBoostJump", 2);
       ("driveOnWater", 3); ("fastSwitch", 4); ("friendlyFire", 5); ("driveBy", 6);
       ("perfectHandling", 7); ("flyingCars", 8); ("jumpSwitch", 9);
       ("showMarkers", 10); ("teamMarkersOnly", 11); ("stuntBike", 12);
       ("shootInAir", 13); ("nametags", 14); ("joinMessages", 15);
       ("deathMessages", 16); ("chatTags", 17); ("classes", 18); ("wallGlitch", 19);
       ("backfaceCulling", 20); ("heliBladeDamage", 21); ("disableCrouch", 22)]);
    ("DisconnectReason", [("timeout", 0); ("quit", 1); ("kick", 2); ("ban", 2); ("kickBan", 2);
       ("crash", 3); ("ac", 4)]);
    ("BodyPart", [("body", 0); ("torso", 1); ("leftArm", 2); ("rightArm", 3); ("leftLeg", 4);
       ("rightLeg", 5); ("head", 6); ("inVehicle", 7)]);
    ("PlayerState", [("none", 0); ("normal", 1); ("aim", 2); ("driver", 3); ("passenger", 4);
       ("enterDriver", 5); ("enterPassenger", 6); ("exit", 7); ("unspawned", 8)]);
    ("PlayerUpdate", [("normal", 0); ("aiming", 1); ("driver", 2); ("passenger", 3)]);
    ("PlayerOption", [("controllable", 0); ("driveBy", 1); ("whiteScanLines", 2);
       ("greenScanLines", 3); ("widescreen", 4); ("showMarkers", 5); ("canAttack", 6);
       ("hasMarker", 7); ("showOnRadar", 7); ("chatTags", 8); ("drunkEffects", 9);
       ("bleeding", 10)]);
    ("PlayerVehicle", [("outside", 0); ("entering", 1); ("exiting", 2); ("inside", 3)]);
    ("VehicleUpdate", [("driverSync", 0); ("otherSync", 1); ("position", 2); ("health", 4);
       ("color", 5); ("colour", 5); ("rotation", 6)]);
    ("VehicleOption", [("lockDoors", 0); ("alarm", 1); ("lights", 2); ("radioLocked", 3);
       ("ghost", 4); ("siren", 5); ("singleUse", 6); ("engine", 7); ("boot", 8);
       ("bonnet", 9)]);
    ("VehicleSpeed", [("normal", 1); ("normalRelative", 2); ("turn", 3); ("turnRelative", 4)]);
    ("PickupOption", [("singleUse", 0); ("forceSize", 2147483647)]);
    ("EntityType", [("vehicle", 1); ("object", 2); ("pickup", 3); ("radio", 4); ("player", 5);
       ("blip", 7); ("checkpoint", 8)]);
    ("NetworkStatistics", [("dataSentPerSecond", 0); ("dataResentPerSecond", 1);
       ("dataReceivedPerSecond", 2); ("dataDiscardedPerSecond", 3);
       ("allBytesSentPerSecond", 4); ("allBytesReceivedPerSecond", 5);
       ("dataSentTotal", 6); ("dataResentTotal", 7); ("dataReceivedTotal", 8);
       ("dataDiscardedTotal", 9); ("allBytesSentTotal", 10);
       ("allBytesReceivedTotal", 11); ("messagesWaiting", 12);
       ("messagesResending", 13); ("bytesResending", 14); ("packetLossPerSecond", 15);
       ("packetLossTotal", 16)]) ].

(** The constant tables hold exactly the values the documentation lists,
    in particular a ban is reported as a kick, and each event's entity type is
    the pool from which the plugin finds the kind of the entity. *)
Theorem enums_are_documented :
  enums = documented /\
  (enum_value "DisconnectReason" "ban" = enum_value "DisconnectReason" "kick" /\
   enum_value "DisconnectReason" "kickBan" = enum_value "DisconnectReason" "kick") /\
  Forall (fun '(k, key) => (enum_value "EntityType" key ≫= FromServerPool) = Some k)
    [(Vehicle, "vehicle"); (Object, "object"); (Pickup, "pickup"); (Checkpoint, "checkpoint");
     (Blip, "blip")] /\
  enum_value "DisconnectReason" "timeout" = Some vcmpDisconnectReasonTimeout.
Proof.
  split_and!; [vm_compute; reflexivity..| |vm_compute; reflexivity].
  repeat constructor; vm_compute; reflexivity.
Qed.

(** A removed global raises an error that names its replacement, however it is
    used. *)
Lemma removed_globals_raise r use :
  r ∈ kRemoved -> use_removed (rm_name r) use = Some (Throw (RuntimeError (removed_message r))).
Proof.
  intros H. pattern r. revert r H. apply Forall_forall. repeat constructor; destruct use; reflexivity.
Qed.
