(* ===== verification/Plugin.v ===== *)
(** The plugin around the runtime (src/plugin/callbacks.cpp): the exception
    boundary of the callbacks, starting, reloading and shutting down, and the
    shutdown that is deferred while Lua runs. *)
From stdpp Require Import base tactics list gmap strings.
From Stdlib Require Import ZArith Lia Floats.SpecFloat.
From S2P Require Import Prelude.
From S2P Require Import EntityPool.
From S2P Require Import LuaValue.
From S2P Require Import Invoker.
From S2P Require Import EventBus.
From S2P Require Import Dispatch.
From S2P Require Import EntityPools.
From S2P Require Import Scheduler.
From S2P Require Import Config.
From S2P Require Import Http.
From S2P Require Import World.
From S2P Require Import Runtime.
Open Scope Z_scope.

(** [error.what()], or the text for something that is not a std::exception. *)
Definition exn_text (e : exn) : string :=
  match e with
  | RuntimeError s | InvalidArgument s | OutOfRange s | LengthError s | LogicError s
  | ConfigError s | LuaPanic s => s
  | UnknownException => "unknown exception"
  end.

Section plugin.
Context {S : Type} {env : Env S} {lib : LuaLib}.
Implicit Types (w : World S).

(** [ReportException(where)]. *)
Definition ReportException (where_ : string) (e : exn) (w : World S) : World S :=
  log_line Lerr (where_ +:+ ": " +:+ exn_text e) w.

(** [Guarded(where, body)]: the noexcept boundary. *)
Definition Guarded (where_ : string) (body : prog (World S) unit) : prog (World S) unit := fun w =>
  match body w with
  | (Ret _, w) => (Ret tt, w)
  | (Throw e, w) => (Ret tt, ReportException where_ e w)
  | (UB, w) => (UB, w)
  end.

(** [Live()] and [Dispatchable()]: is there such a runtime? *)
Definition Live (w : World S) : bool := present w && negb (dead_ (rt w)).
Definition Dispatchable (w : World S) : bool := Live w && Usable w.

(** [FinishShutdown()]. Deleting the runtime calls [Shutdown] again, which
    does nothing. *)
Definition FinishShutdown : prog (World S) unit := fun w =>
  let w := set_deferred false w in
  if negb (present w) then (Ret tt, w)
  else
    match Guarded "OnServerShutdown" NotifyServerShutdown w with
    | (Ret _, w) =>
        let w := set_present false w in
        let w := Shutdown Server (Shutdown Server w) in
        let w := set_deferred false w in
        (Ret tt, log_line Linfo "Shut down" w)
    | r => r
    end.

(** [Reload()]. *)
Definition Reload_runtime : prog (World S) unit := fun w =>
  match env_reload w with
  | Throw e =>
      let w := ReportException "Server.reload" e w in
      let w := log_line Lerr "Server.reload: the scripts keep running unchanged" w in
      (Ret tt, upd_rt (set_reload false) w)
  | UB => (UB, w)
  | Ret config =>
      let w := log_line Linfo "Reloading the scripts" w in
      let w := set_present false w in
      let w := Shutdown Server (Shutdown Reload w) in
      let w := set_present true (upd_rt (fun _ => new_runtime config) w) in
      LoadScripts w
  end.

(** [AfterCallback()]. *)
Definition AfterCallback : prog (World S) unit := fun w =>
  if shutdown_deferred w && present w && negb (InLuaCall w) then FinishShutdown w else (Ret tt, w).

Definition OnServerInitialise : prog (World S) Z :=
  pbind (Guarded "OnServerInitialise" (fun w => if Live w then LoadScripts w else (Ret tt, w)))
    (fun _ => pbind AfterCallback (fun _ => pret 1)).

Definition OnServerFrame (elapsed : spec_float) : prog (World S) unit :=
  pbind (Guarded "OnServerFrame" (fun w => if Live w then Frame elapsed w else (Ret tt, w))) (fun _ =>
  pbind AfterCallback (fun _ =>
  pbind (Guarded "Server.reload" (fun w =>
    if Live w && reload_requested_ (rt w) && negb (InLuaCall w) && negb (shutdown_deferred w)
    then Reload_runtime w else (Ret tt, w))) (fun _ =>
  AfterCallback))).

Definition OnServerShutdown : prog (World S) unit := fun w =>
  if negb (present w) then (Ret tt, w)
  else if InLuaCall w then (Ret tt, set_deferred true w)
  else FinishShutdown w.

(** [OnEvent(where, body)]: what the server gets, 0 when the event was cancelled. *)
Definition OnEvent (where_ : string) (body : prog (World S) bool) : prog (World S) Z := fun w =>
  let guarded : outcome bool * World S :=
    if Dispatchable w then
      match body w with
      | (Ret c, w) => (Ret c, w)
      | (Throw e, w) => (Ret false, ReportException where_ e w)
      | (UB, w) => (UB, w)
      end
    else (Ret false, w) in
  match guarded with
  | (Ret cancelled, w) =>
      match AfterCallback w with
      | (Ret _, w) => (Ret (if cancelled then 0 else 1), w)
      | (Throw e, w) => (Throw e, w)
      | (UB, w) => (UB, w)
      end
  | (Throw e, w) => (Throw e, w)
  | (UB, w) => (UB, w)
  end.

(** [Seen<K>(runtime, id)]: adopted on first sight; none outside the pool. *)
Definition SeenRef (k : EntityKind) (id : Z) : prog (World S) EntityRef := fun w =>
  if negb (InRange (pool_of k w) id) then (Ret no_ref, w)
  else let w := adopt_id k id w in (Ret (Ref (pool_of k w) id), w).
End plugin.

(** ** Lemmas *)

Section plugin_lemmas.
Context {S : Type} {env : Env S} {lib : LuaLib}.
Implicit Types (w : World S).

(** What Lua code does to the runtime and the plugin from the outside: the
    call depth is balanced, and the plugin keeps its runtime. *)
Definition plugin_rel w w' : Prop :=
  depth (get_invoker w') = depth (get_invoker w) /\ present w' = present w /\
  (dead_ (rt w) = true -> dead_ (rt w') = true) /\
  (shutdown_deferred w = true -> shutdown_deferred w' = true) /\
  r_lua (rt w') = r_lua (rt w).

#[export] Instance plugin_rel_preorder : PreOrder plugin_rel.
Proof.
  split; unfold plugin_rel; [done|].
  intros w1 w2 w3 (?&?&?&?&?) (?&?&?&?&?). split_and!; [congruence|congruence|auto|auto|congruence].
Qed.

#[export] Instance plugin_rel_stable : CallStable plugin_rel.
Proof.
  split; [apply _|..]; unfold plugin_rel.
  - done.
  - intros w w'. unfold enter, leave, scope_enter, scope_leave. simpl.
    intros (?&?&?&?&?). split_and!; [lia|done..].
Qed.

#[export] Instance plugin_rel_blind : BusBlind plugin_rel.
Proof. by intros b w. Qed.

Lemma PushEntity_blind R `{!PreOrder R} k r :
  (forall k f w, R w (upd_pool k f w)) -> respects R (PushEntity k r).
Proof.
  intros Hpool w _. unfold PushEntity. destruct (ref_id r <? 0); [reflexivity|].
  destruct (Push _ _ _ _) as [h p]. apply Hpool.
Qed.

Lemma push_list_respects R `{!PreOrder R} args :
  (forall k r, respects R (PushEntity k r)) -> respects R (push_list args).
Proof.
  intros Hpush. induction args as [|a args IH]; simpl; [by apply respects_pret|].
  apply respects_pbind; [done| |].
  - destruct a as [v|k r]; simpl; [by apply respects_pret|apply Hpush].
  - intros v. apply respects_pbind; [done|done|]. intros vs. by apply respects_pret.
Qed.

Lemma push_list_UB args w : is_UB (fst (push_list args w)) = false.
Proof.
  revert w. induction args as [|a args IH]; intros w; simpl; [done|]. unfold pbind.
  assert (is_UB (fst (push_arg a w)) = false) as Ha.
  { destruct a; simpl; [done|]. unfold PushEntity. destruct (_ <? 0); [done|]. by destruct (Push _ _ _ _). }
  destruct (push_arg a w) as [[v|e|] w1]; simpl in *; try done.
  specialize (IH w1). by destruct (push_list args w1) as [[vs|e|] w2].
Qed.

Context `{!LuaRespects plugin_rel}.

Lemma Emit_plugin e args : respects plugin_rel (Emit e args).
Proof.
  apply Dispatch_respects_blind; try apply _.
  apply push_list_respects; [apply _|]. intros k r. by apply PushEntity_blind; [apply _|].
Qed.

(** No shutdown is pending. *)
Definition settled w : Prop :=
  shutdown_deferred w = true -> present w = true -> InLuaCall w = true.

Lemma Shutdown_present reason w :
  (forall k f id w, delete_fn k = Some f -> present (f id w) = present w) ->
  (forall w, present (env_close w) = present w) ->
  present (Shutdown reason w) = present w.
Proof.
  intros Hdel Hclose. unfold Shutdown.
  destruct (negb (r_lua (rt w))); [done|]. destruct (InLuaCall w); [done|].
  assert (forall w', present w' = present w ->
    present (upd_rt (set_r_lua false) (env_close (release_lua_refs w'))) = present w) as Hend.
  { intros w' Hw'. simpl. rewrite Hclose. done. }
  destruct (dead_ _); [done|]. destruct reason; [by apply Hend|]. apply Hend.
  apply (DeleteCreated_keeps (fun w' => present w' = present w)); [|done|done].
  intros k f id w' Hf Hw. by rewrite (Hdel _ _ _ _ Hf).
Qed.
End plugin_lemmas.

(** ** Properties *)

(** The server's delete functions and the finalizers, which run while the
    plugin has no runtime: the callbacks they cause do nothing. *)
Class QuietTeardown {S : Type} (env : Env S) := {
  quiet_delete k f id w : delete_fn k = Some f ->
    present (f id w) = present w /\ closing_rel w (f id w);
  quiet_close w : present (env_close w) = present w /\
    depth (get_invoker (env_close w)) = depth (get_invoker w)
}.

Section plugin_theorems.
Context {S : Type} {env : Env S} {lib : LuaLib} `{!QuietTeardown env} `{!LuaRespects plugin_rel}.
Implicit Types (w : World S).

Lemma InLuaCall_depth w w' :
  depth (get_invoker w') = depth (get_invoker w) -> InLuaCall w' = InLuaCall w.
Proof. intros Hd. unfold InLuaCall. by rewrite Hd. Qed.

Lemma present_Shutdown reason w : present (Shutdown reason w) = present w.
Proof. apply Shutdown_present; [intros; by eapply quiet_delete|intros; apply quiet_close]. Qed.

Lemma Shutdown_closes reason w :
  InLuaCall w = false -> r_lua (rt (Shutdown reason w)) = false.
Proof.
  intros Hc. unfold Shutdown. destruct (r_lua (rt w)) eqn:Hl; simpl; [|done].
  rewrite Hc. by destruct (dead_ (rt w)).
Qed.

Lemma Shutdown_depth reason w :
  depth (get_invoker (Shutdown reason w)) = depth (get_invoker w).
Proof.
  unfold Shutdown. destruct (negb _); [done|]. destruct (InLuaCall w); [done|].
  assert (forall w', depth (get_invoker w') = depth (get_invoker w) ->
    depth (get_invoker (upd_rt (set_r_lua false) (env_close (release_lua_refs w')))) =
    depth (get_invoker w)) as Hend.
  { intros w' Hw'. rewrite <- Hw'. exact (proj2 (quiet_close (release_lua_refs w'))). }
  destruct (dead_ _); [done|]. destruct reason; [by apply Hend|]. apply Hend.
  etransitivity; [apply DeleteCreated_closing|done]. intros. by eapply quiet_delete.
Qed.

Lemma notify_players_plugin ids : respects plugin_rel (notify_players ids).
Proof.
  induction ids as [|id ids IH]; simpl; [apply respects_pret; apply _|].
  intros w. destruct (negb (Usable w)); [reflexivity|]. destruct (negb (Alive _ _)); [apply IH|].
  apply respects_pbind; [apply _|apply Emit_plugin|]. intros _.
  apply respects_pbind; [apply _|by intros w' _|by intros _].
Qed.

Lemma NotifyServerShutdown_plugin : respects plugin_rel NotifyServerShutdown.
Proof.
  intros w. unfold NotifyServerShutdown. destruct (negb _); [reflexivity|].
  apply respects_pbind; [apply _|apply Emit_plugin|]. intros _ w'.
  apply notify_players_plugin.
Qed.

Lemma Guarded_respects R `{!PreOrder R} where_ body :
  (forall l s w, R w (log_line l s w)) -> respects R body -> respects R (Guarded where_ body).
Proof.
  intros Hlog Hb w. unfold Guarded. specialize (Hb w).
  destruct (body w) as [[[]|e|] w1]; simpl in *; [done| |done].
  intros _. etransitivity; [by apply Hb|apply Hlog].
Qed.

(** Finishing a shutdown outside a call into Lua: the plugin has no runtime
    afterwards, its Lua state is closed and nothing is deferred. *)
Lemma FinishShutdown_done w :
  InLuaCall w = false -> present w = true -> is_UB (fst (FinishShutdown w)) = false ->
  fst (FinishShutdown w) = Ret tt /\
  present (snd (FinishShutdown w)) = false /\ r_lua (rt (snd (FinishShutdown w))) = false /\
  shutdown_deferred (snd (FinishShutdown w)) = false /\
  depth (get_invoker (snd (FinishShutdown w))) = depth (get_invoker w).
Proof.
  intros Hc Hp. unfold FinishShutdown. change (present (set_deferred false w)) with (present w).
  rewrite Hp. cbn [negb].
  pose proof (Guarded_respects plugin_rel "OnServerShutdown" NotifyServerShutdown ltac:(done)
    NotifyServerShutdown_plugin (set_deferred false w)) as HG.
  assert (forall e, fst (Guarded "OnServerShutdown" NotifyServerShutdown (set_deferred false w)) <> Throw e) as HT.
  { intros e. unfold Guarded. by destruct (NotifyServerShutdown _) as [[[]|?|] ?]. }
  destruct (Guarded _ _ _) as [[[]|e|] w1]; simpl in *; [|by destruct (HT e)|done].
  intros _. specialize (HG eq_refl) as (Hd & _).
  assert (InLuaCall (set_present false w1) = false) as Hc1.
  { rewrite <- Hc. apply InLuaCall_depth. exact Hd. }
  set (w2 := Shutdown Server (set_present false w1)).
  assert (r_lua (rt w2) = false) as Hl2 by (by apply Shutdown_closes).
  assert (Shutdown Server w2 = w2) as -> by (unfold Shutdown; by rewrite Hl2).
  split_and!; [done| |done|done|].
  - unfold w2. by rewrite present_Shutdown.
  - exact (eq_trans (Shutdown_depth Server (set_present false w1)) Hd).
Qed.



(** Without a runtime (before start, after a shutdown, or while a reload
    tears the old one down) every callback does nothing and allows the event. *)
Theorem callbacks_tolerate_no_runtime where_ body elapsed w :
  present w = false ->
  OnEvent where_ body w = (Ret 1, w) /\ OnServerInitialise w = (Ret 1, w) /\
  OnServerFrame elapsed w = (Ret tt, w) /\ OnServerShutdown w = (Ret tt, w) /\
  AfterCallback w = (Ret tt, w).
Proof.
  intros Hp.
  assert (AfterCallback w = (Ret tt, w)) as HA.
  { unfold AfterCallback. by rewrite Hp, andb_false_r. }
  assert (Live w = false) as HL by (unfold Live; by rewrite Hp).
  unfold OnEvent, OnServerInitialise, OnServerFrame, OnServerShutdown, Dispatchable, Guarded, pbind, pret.
  rewrite HL, Hp. cbn [negb andb]. rewrite !HA.
  split_and!; try reflexivity. rewrite HL. cbn [andb]. exact HA.
Qed.

(** A reload whose config cannot be read (or whose Lua state cannot be set
    up) keeps the old runtime running as it is, only the request is dropped;
    one that can replaces it by a runtime with no handler, timer, request or
    entity of the old one, before the new scripts load. *)
Theorem Reload_replaces_or_keeps w :
  match env_reload w with
  | Throw _ => fst (Reload_runtime w) = Ret tt /\ present (snd (Reload_runtime w)) = present w /\
      rt (snd (Reload_runtime w)) = set_reload false (rt w)
  | Ret config => exists w1, Reload_runtime w = LoadScripts w1 /\ rt w1 = new_runtime config /\
      present w1 = true
  | UB => True
  end.
Proof.
  unfold Reload_runtime. destruct (env_reload w) as [config|e|]; [|by split_and!|done].
  eexists. split; [reflexivity|]. by split.
Qed.
End plugin_theorems.
