(* ===== verification/Callbacks.v ===== *)
(** The server's event callbacks (src/plugin/callbacks.cpp): which event each
    one raises, with which arguments, and what it does to the entity pools. *)
From stdpp Require Import base tactics list gmap strings.
From Stdlib Require Import ZArith Lia.
From S2P Require Import Prelude.
From S2P Require Import Text.
From S2P Require Import EntityPool.
From S2P Require Import LuaValue.
From S2P Require Import Invoker.
From S2P Require Import EventBus.
From S2P Require Import Dispatch.
From S2P Require Import EntityPools.
From S2P Require Import World.
From S2P Require Import Runtime.
From S2P Require Import Plugin.
Open Scope Z_scope.

(** ** The words of a command *)

Definition is_space (c : Ascii.ascii) : bool := bool_decide (c = char 32).

(** The loop of [OnPlayerCommand] from the current position: [text] is what is
    left, [rest] the text from the second word on. [fuel] is at least the
    length of [text]: every round takes at least one character. *)
Fixpoint command_loop (fuel : nat) (text : list Ascii.ascii) (words : list (list Ascii.ascii))
    (rest : list Ascii.ascii) : list (list Ascii.ascii) * list Ascii.ascii :=
  match fuel with
  | O => (words, rest)
  | S fuel =>
      match drop_while is_space text with
      | [] => (words, rest)
      | t =>
          let '(word, remaining) := split_at is_space t in
          command_loop fuel remaining (words ++ [word])
            (if bool_decide (length words = 1%nat) then t else rest)
      end
  end.

(** The words of the message, and everything after the first one. *)
Definition command_words (message : string) : list string * string :=
  let text := string_to_list message in
  let '(words, rest) := command_loop (length text) text [] [] in
  (string_of_list <$> words, string_of_list rest).

(** [vcmpBodyPartInVehicle]. *)
Definition vcmpBodyPartInVehicle : Z := 7.

(** 2.x's reasons of onPlayerWasted. *)
Definition wasted_reason (reason body_part : Z) : Z :=
  if (reason =? 43) || (reason =? 50) then 43
  else if (reason =? 39) && (body_part =? vcmpBodyPartInVehicle) then 39
  else if (reason =? 39) || (reason =? 40) || (reason =? 44) then 44
  else reason.

Section callbacks.
Context {S : Type} {env : Env S} {lib : LuaLib}.
Implicit Types (w : World S).

Abbreviation prog := (Prelude.prog (World S)).

(** A callback that returns nothing drops what [OnEvent] gives. *)
Definition ignore {A} (m : prog A) : prog unit := pbind m (fun _ => pret tt).

(** ** Connecting, disconnecting, and the server's pools *)

Definition OnPlayerConnect (player_id : Z) : prog unit :=
  pbind (Guarded "OnPlayerConnect" (fun w =>
    if negb (Live w) then (Ret tt, w)
    else
      let w := adopt_id Player player_id w in
      let player := Ref (pool_of Player w) player_id in
      if Usable w then pbind (Emit PlayerConnect [ARef Player player]) (fun _ => pret tt) w
      else (Ret tt, w)))
    (fun _ => AfterCallback).

Definition OnPlayerDisconnect (player_id reason : Z) : prog unit :=
  pbind (Guarded "OnPlayerDisconnect" (fun w =>
    if negb (Live w) then (Ret tt, w)
    else
      let w := adopt_id Player player_id w in
      let player := Ref (pool_of Player w) player_id in
      pbind (fun w =>
          if Usable w
          then pbind (Emit PlayerDisconnect [ARef Player player; AInt reason]) (fun _ => pret tt) w
          else (Ret tt, w))
        (fun _ w => (Ret tt, if Live w then release_id Player player_id w else w)) w))
    (fun _ => AfterCallback).

Definition OnEntityPoolChange (type entity_id is_deleted : Z) : prog unit :=
  pbind (Guarded "OnEntityPoolChange" (fun w =>
    if negb (Live w) then (Ret tt, w)
    else
      let deleted := negb (is_deleted =? 0) in
      let w := match FromServerPool type with
               | Some k => if negb deleted then adopt_id k entity_id w else w
               | None => w
               end in
      pbind (fun w =>
          if Usable w
          then pbind (Emit EntityPoolChange [AInt type; AInt entity_id; ABool deleted])
                 (fun _ => pret tt) w
          else (Ret tt, w))
        (fun _ w =>
          (Ret tt, if Live w && deleted
                   then match FromServerPool type with
                        | Some k => release_id k entity_id w
                        | None => w
                        end
                   else w)) w))
    (fun _ => AfterCallback).

(** ** The events with an entity and values *)

Definition SeenPlayer (id : Z) : prog EntityRef := SeenRef Player id.

(** [Emit(runtime, event, SeenPlayer(runtime, id), args...)]. *)
Definition EmitPlayer (e : Event) (id : Z) (args : list arg) : prog bool :=
  pbind (SeenPlayer id) (fun p => Emit e (ARef Player p :: args)).

Definition OnIncomingConnection (nm : option string) (name_size : Z) (password ip : option string)
    : prog Z :=
  OnEvent "OnIncomingConnection"
    (Emit PlayerConnection [AText nm; AInt name_size; AText password; AText ip]).

Definition OnPlayerModuleList (player_id : Z) (l : option string) : prog unit :=
  ignore (OnEvent "OnPlayerModuleList" (EmitPlayer PlayerModuleList player_id [AText l])).
Definition OnPlayerRequestClass (player_id offset : Z) : prog Z :=
  OnEvent "OnPlayerRequestClass" (EmitPlayer PlayerRequestClass player_id [AInt offset]).
Definition OnPlayerRequestSpawn (player_id : Z) : prog Z :=
  OnEvent "OnPlayerRequestSpawn" (EmitPlayer PlayerRequestSpawn player_id []).
Definition OnPlayerSpawn (player_id : Z) : prog unit :=
  ignore (OnEvent "OnPlayerSpawn" (EmitPlayer PlayerSpawn player_id [])).

Definition OnPlayerDeath (player_id killer_id reason body_part : Z) : prog unit :=
  ignore (OnEvent "OnPlayerDeath" (pbind (SeenPlayer player_id) (fun player w =>
    let connected := match IsPlayerConnected (env_queries w) with
                     | Some f => negb (f killer_id =? 0) | None => false end in
    if (0 <=? killer_id) && connected then
      pbind (SeenPlayer killer_id) (fun killer =>
        Emit PlayerKill [ARef Player killer; ARef Player player; AInt reason; AInt body_part]) w
    else Emit PlayerWasted [ARef Player player; AInt (wasted_reason reason body_part)] w))).

(** Skipped when nobody listens: many per second. *)
Definition unless_unheard (e : Event) (body : prog bool) : prog bool := fun w =>
  if negb (HasHandlers (get_bus w) (Index e)) then (Ret false, w) else body w.

Definition OnPlayerUpdate (player_id update : Z) : prog unit :=
  ignore (OnEvent "OnPlayerUpdate"
    (unless_unheard PlayerUpdate (EmitPlayer PlayerUpdate player_id [AInt update]))).

(** A player and a second entity. C++ leaves the order of their two adoptions
    open; they touch different slots. *)
Definition EmitPlayerAnd (e : Event) (player_id : Z) (k : EntityKind) (id : Z) (args : list arg)
    : prog bool :=
  pbind (SeenPlayer player_id) (fun p =>
  pbind (SeenRef k id) (fun r => Emit e (ARef Player p :: ARef k r :: args))).
Definition EmitAndPlayer (e : Event) (k : EntityKind) (id player_id : Z) (args : list arg)
    : prog bool :=
  pbind (SeenRef k id) (fun r =>
  pbind (SeenPlayer player_id) (fun p => Emit e (ARef k r :: ARef Player p :: args))).

Definition OnPlayerRequestEnterVehicle (player_id vehicle_id slot : Z) : prog Z :=
  OnEvent "OnPlayerRequestEnterVehicle"
    (EmitPlayerAnd PlayerRequestEnterVehicle player_id Vehicle vehicle_id [AInt slot]).
Definition OnPlayerEnterVehicle (player_id vehicle_id slot : Z) : prog unit :=
  ignore (OnEvent "OnPlayerEnterVehicle"
    (EmitPlayerAnd PlayerEnterVehicle player_id Vehicle vehicle_id [AInt slot])).
Definition OnPlayerExitVehicle (player_id vehicle_id : Z) : prog unit :=
  ignore (OnEvent "OnPlayerExitVehicle" (EmitPlayerAnd PlayerExitVehicle player_id Vehicle vehicle_id [])).
Definition OnPlayerNameChange (player_id : Z) (old_name new_name : option string) : prog unit :=
  ignore (OnEvent "OnPlayerNameChange" (EmitPlayer PlayerNameChange player_id [AText old_name; AText new_name])).
Definition OnPlayerStateChange (player_id old_state new_state : Z) : prog unit :=
  ignore (OnEvent "OnPlayerStateChange" (EmitPlayer PlayerStateChange player_id [AInt old_state; AInt new_state])).
Definition OnPlayerActionChange (player_id old_action new_action : Z) : prog unit :=
  ignore (OnEvent "OnPlayerActionChange"
    (EmitPlayer PlayerActionChange player_id [AInt old_action; AInt new_action])).
Definition OnPlayerOnFireChange (player_id on_fire : Z) : prog unit :=
  ignore (OnEvent "OnPlayerOnFireChange" (EmitPlayer PlayerFireChange player_id [ABool (negb (on_fire =? 0))])).
Definition OnPlayerCrouchChange (player_id crouching : Z) : prog unit :=
  ignore (OnEvent "OnPlayerCrouchChange"
    (EmitPlayer PlayerCrouchChange player_id [ABool (negb (crouching =? 0))])).
Definition OnPlayerGameKeysChange (player_id old_keys new_keys : Z) : prog unit :=
  ignore (OnEvent "OnPlayerGameKeysChange"
    (EmitPlayer PlayerGameKeysChange player_id [AInt old_keys; AInt new_keys])).
Definition OnPlayerBeginTyping (player_id : Z) : prog unit :=
  ignore (OnEvent "OnPlayerBeginTyping" (EmitPlayer PlayerBeginTyping player_id [])).
Definition OnPlayerEndTyping (player_id : Z) : prog unit :=
  ignore (OnEvent "OnPlayerEndTyping" (EmitPlayer PlayerFinishTyping player_id [])).
Definition OnPlayerAwayChange (player_id away : Z) : prog unit :=
  ignore (OnEvent "OnPlayerAwayChange" (EmitPlayer PlayerAwayChange player_id [ABool (negb (away =? 0))])).
Definition OnPlayerMessage (player_id : Z) (message : option string) : prog Z :=
  OnEvent "OnPlayerMessage" (EmitPlayer PlayerMessage player_id [AText message]).

(** The arguments of onPlayerCommand; [obj] is the identity of the new table. *)
Definition command_args (obj : Z) (message : option string) : list arg :=
  let '(words, arguments) := command_words (default "" message) in
  match words with
  | [] => [AValue LNil; AValue LNil; AText (Some "")]
  | [command] => [AText (Some command); AValue LNil; AText (Some arguments)]
  | command :: args =>
      [AText (Some command);
       AValue (LTable obj (imap (fun i a => (LInt (Z.of_nat i + 1), LString a)) args));
       AText (Some arguments)]
  end.

Definition OnPlayerCommand (player_id : Z) (message : option string) : prog Z :=
  OnEvent "OnPlayerCommand" (pbind (SeenPlayer player_id) (fun p w =>
    Emit PlayerCommand (ARef Player p :: command_args (env_new_obj 1 w) message) w)).

Definition OnPlayerPrivateMessage (player_id target_id : Z) (message : option string) : prog Z :=
  OnEvent "OnPlayerPrivateMessage" (EmitPlayerAnd PlayerPM player_id Player target_id [AText message]).
Definition OnPlayerSpectate (player_id target_id : Z) : prog unit :=
  ignore (OnEvent "OnPlayerSpectate" (EmitPlayerAnd PlayerSpectate player_id Player target_id [])).
Definition OnPlayerCrashReport (player_id : Z) (report : option string) : prog unit :=
  ignore (OnEvent "OnPlayerCrashReport" (EmitPlayer PlayerCrashReport player_id [AText report])).

Definition EmitEntity (e : Event) (k : EntityKind) (id : Z) (args : list arg) : prog bool :=
  pbind (SeenRef k id) (fun r => Emit e (ARef k r :: args)).

Definition OnVehicleUpdate (vehicle_id update : Z) : prog unit :=
  ignore (OnEvent "OnVehicleUpdate"
    (unless_unheard VehicleUpdate (EmitEntity VehicleUpdate Vehicle vehicle_id [AInt update]))).
Definition OnVehicleExplode (vehicle_id : Z) : prog unit :=
  ignore (OnEvent "OnVehicleExplode" (EmitEntity VehicleExplode Vehicle vehicle_id [])).
Definition OnVehicleRespawn (vehicle_id : Z) : prog unit :=
  ignore (OnEvent "OnVehicleRespawn" (EmitEntity VehicleRespawn Vehicle vehicle_id [])).
Definition OnObjectShot (object_id player_id weapon : Z) : prog unit :=
  ignore (OnEvent "OnObjectShot" (EmitAndPlayer ObjectShot Object object_id player_id [AInt weapon])).
Definition OnObjectTouched (object_id player_id : Z) : prog unit :=
  ignore (OnEvent "OnObjectTouched" (EmitAndPlayer ObjectTouch Object object_id player_id [])).
Definition OnPickupPickAttempt (pickup_id player_id : Z) : prog Z :=
  OnEvent "OnPickupPickAttempt" (EmitAndPlayer PickupPickAttempt Pickup pickup_id player_id []).
Definition OnPickupPicked (pickup_id player_id : Z) : prog unit :=
  ignore (OnEvent "OnPickupPicked" (EmitAndPlayer PickupPicked Pickup pickup_id player_id [])).
Definition OnPickupRespawn (pickup_id : Z) : prog unit :=
  ignore (OnEvent "OnPickupRespawn" (EmitEntity PickupRespawn Pickup pickup_id [])).
Definition OnCheckpointEntered (checkpoint_id player_id : Z) : prog unit :=
  ignore (OnEvent "OnCheckpointEntered" (EmitAndPlayer CheckpointEnter Checkpoint checkpoint_id player_id [])).
Definition OnCheckpointExited (checkpoint_id player_id : Z) : prog unit :=
  ignore (OnEvent "OnCheckpointExited" (EmitAndPlayer CheckpointExit Checkpoint checkpoint_id player_id [])).
Definition OnPlayerKeyBindDown (player_id bind_id : Z) : prog unit :=
  ignore (OnEvent "OnPlayerKeyBindDown" (EmitPlayerAnd PlayerKeyDown player_id Bind bind_id [])).
Definition OnPlayerKeyBindUp (player_id bind_id : Z) : prog unit :=
  ignore (OnEvent "OnPlayerKeyBindUp" (EmitPlayerAnd PlayerKeyUp player_id Bind bind_id [])).

(** The stream object is one new userdata for every handler; its bytes are
    [data], or none for a null pointer. *)
Definition OnClientScriptData (new_stream : list Z -> World S -> lua_value * World S)
    (player_id : Z) (data : option (list Z)) (size : Z) : prog unit :=
  ignore (OnEvent "OnClientScriptData" (unless_unheard ClientData (fun w =>
    let '(object, w) := new_stream (match data with
      | Some bytes => if 0 <? size then bytes else [] | None => [] end) w in
    EmitPlayer ClientData player_id [AValue object; AInt size] w))).

Definition OnPluginCommand (command : Z) (message : option string) : prog Z :=
  OnEvent "OnPluginCommand" (Emit PluginCommand [AInt command; AText message]).

(** The two arrays as a list, [None] when one of them is a null pointer; a
    null description becomes an empty one; [count] is the length of both. *)
Definition OnServerPerformanceReport (count : Z) (entries : option (list (option string * Z))) : prog unit :=
  ignore (OnEvent "OnServerPerformanceReport" (unless_unheard ServerPerformanceReport (fun w =>
    let es := default [] entries in
    let numbered {A} (f : A -> lua_value) (l : list A) :=
      imap (fun i a => (LInt (Z.of_nat i + 1), f a)) l in
    Emit ServerPerformanceReport
      [AInt count;
       AValue (LTable (env_new_obj 0 w) (numbered (fun e : option string * Z => LString (default "" e.1)) es));
       AValue (LTable (env_new_obj 1 w) (numbered (fun e : option string * Z => LInt (swrap 64 e.2)) es))] w))).

Definition OnEntityStreamingChange (player_id entity_id type deleted : Z) : prog unit :=
  ignore (OnEvent "OnEntityStreamingChange"
    (EmitPlayer EntityStreamingChange player_id [AInt type; AInt entity_id; ABool (negb (deleted =? 0))])).
End callbacks.

(** ** Lemmas on the words of a command *)

Definition space_free (word : list Ascii.ascii) : Prop :=
  word <> [] /\ forall c, c ∈ word -> is_space c = false.

(** A message as the words it has, each with the number of spaces before it,
    and the number of spaces at its end. *)
Fixpoint render (items : list (nat * list Ascii.ascii)) (trail : nat) : list Ascii.ascii :=
  match items with
  | [] => replicate trail (char 32)
  | (n, word) :: items => replicate n (char 32) ++ word ++ render items trail
  end.

(** The words are words, and there is a space between any two. *)
Fixpoint separated (items : list (nat * list Ascii.ascii)) : Prop :=
  match items with
  | [] => True
  | (_, word) :: rest =>
      space_free word /\ match rest with [] => True | (m, _) :: _ => (0 < m)%nat end /\ separated rest
  end.

(** The message from its [k]-th word on, [dflt] when it has fewer. *)
Definition from_word (k : nat) (items : list (nat * list Ascii.ascii)) (trail : nat)
    (dflt : list Ascii.ascii) : list Ascii.ascii :=
  match drop k items with
  | (_, word) :: rest => word ++ render rest trail
  | [] => dflt
  end.

Lemma spaces_replicate l :
  (forall c, c ∈ l -> is_space c = true) -> l = replicate (length l) (char 32).
Proof.
  induction l as [|c l IH]; intros H; simpl; [done|]. f_equal.
  - by specialize (H c ltac:(by left)) as ?%bool_decide_eq_true.
  - apply IH. intros d Hd. apply H. by right.
Qed.

Lemma drop_spaces text :
  exists n, text = replicate n (char 32) ++ drop_while is_space text.
Proof.
  destruct (drop_while_suffix is_space text) as (a & E & Ha).
  exists (length a). by rewrite <- (spaces_replicate a Ha).
Qed.

(** After a word comes a space, or nothing. *)
Lemma render_gap items trail c r :
  separated items -> render items trail = c :: r -> is_space c = true ->
  match items with [] => True | (m, _) :: _ => (0 < m)%nat end.
Proof.
  destruct items as [|[[|m] word] items]; simpl; [done| |lia].
  intros [[Hne Hw] _]. destruct word as [|d word]; [done|]. simpl. intros [= -> _].
  rewrite Hw; [done|by left].
Qed.

Lemma command_loop_spec fuel text words rest :
  (length text <= fuel)%nat ->
  exists items trail, separated items /\ text = render items trail /\
    command_loop fuel text words rest =
      (words ++ items.*2,
       if bool_decide (length words <= 1)%nat
       then from_word (1 - length words) items trail rest else rest).
Proof.
  revert text words rest. induction fuel as [|fuel IH]; intros text words rest Hlen.
  { assert (text = []) as -> by (destruct text; simpl in *; [done|lia]).
    exists [], 0%nat. split_and!; [done|done|]. simpl. rewrite app_nil_r.
    f_equal. unfold from_word. rewrite drop_nil. by case_bool_decide. }
  cbn [command_loop]. destruct (drop_spaces text) as [n Htext].
  destruct (drop_while is_space text) as [|c t] eqn:Ed.
  { rewrite app_nil_r in Htext. exists [], n. split_and!; [done|done|]. simpl. rewrite app_nil_r.
    f_equal. unfold from_word. rewrite drop_nil. by case_bool_decide. }
  pose proof (drop_while_head _ _ _ _ Ed) as Hc.
  pose proof (split_at_app is_space (c :: t)) as Happ.
  pose proof (split_at_before is_space (c :: t)) as Hbefore.
  pose proof (split_at_stop is_space (c :: t)) as Hstop.
  assert (fst (split_at is_space (c :: t)) <> []) as Hne.
  { simpl. rewrite Hc. by destruct (split_at is_space t). }
  destruct (split_at is_space (c :: t)) as [word remaining].
  cbn [fst snd] in Happ, Hbefore, Hstop, Hne.
  assert (length remaining < length (c :: t))%nat as Hshort.
  { rewrite <- Happ, length_app. destruct word; simpl; [done|lia]. }
  assert (length (c :: t) <= length text)%nat as Hle by (rewrite Htext, length_app; lia).
  destruct (IH remaining (words ++ [word]) (if bool_decide (length words = 1%nat) then c :: t else rest))
    as (items & trail & Hsep & Hrem & Heq); [lia|].
  exists ((n, word) :: items), trail. split; [|split].
  - split; [done|]. split; [|done].
    destruct items as [|[m word'] items]; [done|].
    destruct remaining as [|d remaining].
    { destruct m; [|lia]. destruct Hsep as [[? _] _].
      destruct word'; [done|]. by simpl in Hrem. }
    exact (render_gap _ _ _ _ Hsep (eq_sym Hrem) (Hstop d remaining eq_refl)).
  - cbn [render]. by rewrite <- Hrem, Happ.
  - rewrite Heq, <- app_assoc. f_equal. rewrite length_app. cbn [length].
    destruct (length words) as [|[|k]]; cbn [Nat.add Nat.sub].
    + done.
    + rewrite (bool_decide_false (1 + 1 <= 1)%nat), !bool_decide_true by lia.
      unfold from_word. cbn [drop]. by rewrite <- Hrem, Happ.
    + repeat case_bool_decide; try lia; done.
Qed.

(** ** Properties *)

(** C35: every message of a player is split into its words at runs of spaces:
    each word is non-empty and free of spaces, the words and the runs between
    them make up the message, and the text given to the handlers is the message
    from its second word on, unchanged, or empty when there is none. *)
Theorem command_words_spec message :
  exists items trail, separated items /\ string_to_list message = render items trail /\
    command_words message =
      (string_of_list <$> items.*2, string_of_list (from_word 1 items trail [])).
Proof.
  unfold command_words.
  destruct (command_loop_spec (length (string_to_list message)) (string_to_list message) [] [])
    as (items & trail & Hsep & Htext & Heq); [done|].
  exists items, trail. split_and!; [done|done|]. by rewrite Heq.
Qed.

Section pool_events.
Context {S : Type} {env : Env S} {lib : LuaLib}.
Implicit Types (w : World S).

(** What all Lua code keeps of the pools: the scripts reach them only through
    the operations of [EntityPool]. *)
Definition pools_rel w w' : Prop := pools_wf (get_pools w) -> pools_wf (get_pools w').

#[export] Instance pools_rel_preorder : PreOrder pools_rel.
Proof. split; [intros w H; exact H|intros w1 w2 w3 H1 H2 H; by apply H2, H1]. Qed.

#[export] Instance pools_rel_stable : CallStable pools_rel.
Proof. split; [apply _|intros l s w H; exact H|intros w w' H; exact H]. Qed.

#[export] Instance pools_rel_blind : BusBlind pools_rel.
Proof. intros b w H. exact H. Qed.

Lemma pools_wf_upd k f w :
  pools_wf (get_pools w) -> (forall p, pool_wf p -> pool_wf (f p) /\ kind (f p) = kind p) ->
  pools_wf (get_pools (upd_pool k f w)).
Proof.
  intros Hwf Hf. destruct (Hf (pool_of k w) (pswf_pool _ Hwf k)) as [Hp Hk].
  apply put_pool_wf; [done|done|]. rewrite Hk. apply (pswf_kind _ Hwf).
Qed.

Lemma pool_of_upd k f w :
  pools_wf (get_pools w) -> pool_of k (upd_pool k f w) = f (pool_of k w).
Proof. intros Hwf. exact (Get_put_eq _ _ _ (pswf_length _ Hwf)). Qed.

Lemma log_lines_pools (l : level) ws w :
  get_pools (fold_left (fun w s => log_line l s w) ws w) = get_pools w.
Proof. revert w. induction ws as [|s ws IH]; intros w; [done|]. exact (IH (log_line l s w)). Qed.

Lemma adopt_id_pools k id w :
  get_pools (adopt_id k id w) = put_pool k (fst (Adopt (pool_of k w) id)) (get_pools w).
Proof. unfold adopt_id. destruct (Adopt _ _) as [p ws]. by rewrite log_lines_pools. Qed.

Lemma adopt_id_wf k id w : pools_wf (get_pools w) -> pools_wf (get_pools (adopt_id k id w)).
Proof.
  intros Hwf. rewrite adopt_id_pools. apply put_pool_wf; [done| |].
  - apply Adopt_wf, Hwf.
  - rewrite kind_Adopt. apply (pswf_kind _ Hwf).
Qed.

Lemma Push_wf p obj id gen : pool_wf p -> pool_wf (snd (Push p obj id gen)).
Proof. apply (run_op_wf p (OPush obj id gen)). Qed.

Lemma PushEntity_pools k r : respects pools_rel (PushEntity k r).
Proof.
  intros w _ Hwf. unfold PushEntity. destruct (ref_id r <? 0); [done|].
  pose proof (Push_wf (pool_of k w) (env_new_obj 0 w) (ref_id r) (ref_generation r)
    (pswf_pool _ Hwf k)) as Hp.
  pose proof (run_op_shape (pool_of k w) (OPush (env_new_obj 0 w) (ref_id r) (ref_generation r))) as Hk.
  simpl in Hk. destruct (Push _ _ _ _) as [h p]. apply put_pool_wf; [done|done|].
  rewrite <- (pswf_kind _ Hwf k). apply Hk.
Qed.

Lemma Alive_adopt_id k id w :
  pools_wf (get_pools w) -> InRange (pool_of k w) id = true ->
  Alive (pool_of k (adopt_id k id w)) id = true.
Proof.
  intros Hwf Hr. unfold pool_of. rewrite adopt_id_pools, (Get_put_eq _ _ _ (pswf_length _ Hwf)).
  rewrite Alive_Adopt; [by rewrite Z.eqb_refl|apply Hwf|done].
Qed.

Lemma Alive_release_id k id w :
  pools_wf (get_pools w) -> Alive (pool_of k (release_id k id w)) id = false.
Proof.
  intros Hwf. unfold release_id. rewrite pool_of_upd by done.
  rewrite Alive_Release by apply Hwf. by rewrite Z.eqb_refl, andb_false_r.
Qed.

Context `{!LuaRespects pools_rel}.

Lemma Emit_pools e args : respects pools_rel (Emit e args).
Proof.
  apply Dispatch_respects_blind; try apply _.
  apply push_list_respects; [apply _|apply PushEntity_pools].
Qed.

(** The event a callback raises when the runtime is usable. *)
Definition raise_event (e : Event) (args : list arg) : prog (World S) unit := fun w =>
  if Usable w then pbind (Emit e args) (fun _ => pret tt) w else (Ret tt, w).

Lemma raise_event_pools e args : respects pools_rel (raise_event e args).
Proof.
  intros w. unfold raise_event. destruct (Usable w); [|reflexivity].
  apply respects_pbind; [apply _|apply Emit_pools|]. intros _. apply respects_pret. apply _.
Qed.

(** No teardown is due. *)
Definition undisturbed w : Prop := shutdown_deferred w = false \/ InLuaCall w = true.

Lemma AfterCallback_undisturbed w : undisturbed w -> AfterCallback w = (Ret tt, w).
Proof.
  intros [H|H]; unfold AfterCallback; rewrite H; [done|]. by rewrite andb_false_r.
Qed.


End pool_events.
