(* ===== verification/Init.v ===== *)
(** Starting the plugin (src/plugin/callbacks.cpp, [Init]), the C libraries it
    owns (src/runtime/libraries.cpp) and the sinks of its log
    (src/runtime/log.cpp). *)
From stdpp Require Import base tactics list gmap strings.
From Stdlib Require Import ZArith Lia.
From S2P Require Import Prelude.
From S2P Require Import ApiGuard.
From S2P Require Import Invoker.
From S2P Require Import Config.
From S2P Require Import Plugin.
Open Scope Z_scope.

(** ** The libraries *)

(** The C libraries the plugin initialises and cleans up. *)
Inductive library := OpenSSL | Curl | MySQL.

#[export] Instance library_eq_dec : EqDecision library.
Proof. solve_decision. Defined.

(** A call of a library's init or cleanup function. *)
Inductive lib_call := LInit (l : library) | LCleanup (l : library).

(** [g_initialised], and the calls made, in order. *)
Record Libs := mkLibs { g_openssl : bool; g_curl : bool; g_mysql : bool; lib_calls : list lib_call }.

Definition new_libs : Libs := mkLibs false false false [].

Definition initialised (s : Libs) (l : library) : bool :=
  match l with OpenSSL => g_openssl s | Curl => g_curl s | MySQL => g_mysql s end.

Definition set_initialised (l : library) (b : bool) (s : Libs) : Libs :=
  match l with
  | OpenSSL => mkLibs b (g_curl s) (g_mysql s) (lib_calls s)
  | Curl => mkLibs (g_openssl s) b (g_mysql s) (lib_calls s)
  | MySQL => mkLibs (g_openssl s) (g_curl s) b (lib_calls s)
  end.

Definition called (c : lib_call) (s : Libs) : Libs :=
  mkLibs (g_openssl s) (g_curl s) (g_mysql s) (lib_calls s ++ [c]).

Definition init_error (l : library) : string :=
  match l with
  | OpenSSL => "OpenSSL initialisation failed"
  | Curl => "libcurl initialisation failed"
  | MySQL => "MariaDB Connector/C initialisation failed"
  end.

(** One [if (!g_initialised.l)] block; [ok] says whether the library's own init
    function succeeds. *)
Definition init_one (ok : library -> bool) (l : library) : prog Libs unit := fun s =>
  if initialised s l then (Ret tt, s)
  else if ok l then (Ret tt, set_initialised l true (called (LInit l) s))
  else (Throw (RuntimeError (init_error l)), s).

(** [libraries::Init()]; [digest] is digestpp's SHA-256 of abc. *)
Definition Libraries_Init (ok : library -> bool) (digest : string) : prog Libs unit :=
  pbind (init_one ok OpenSSL) (fun _ =>
  pbind (init_one ok Curl) (fun _ =>
  pbind (init_one ok MySQL) (fun _ =>
  plift (throw_if (negb (bool_decide (digest =
      "ba7816bf8f01cfea414140de5dae2223b00361a396177a9cb410ff61f20015ad")))
    (RuntimeError "digestpp self-test failed"))))).

Definition cleanup_one (l : library) (s : Libs) : Libs :=
  if initialised s l then set_initialised l false (called (LCleanup l) s) else s.

(** [libraries::Cleanup()]; [sqlite3_shutdown] may be called at any time. *)
Definition Libraries_Cleanup (s : Libs) : Libs :=
  cleanup_one OpenSSL (cleanup_one Curl (cleanup_one MySQL s)).

(** ** The log *)

(** A sink of the logger: the console, or a log file by its identity. *)
Inductive sink := Console | LogFile (id : Z) (path : string) (daily : bool).

(** [g_logger] and [g_file_sink]. *)
Record Logger := mkLogger { logger : option (level * list sink); g_file_sink : option Z }.

Definition new_logger : Logger := mkLogger None None.

(** [log::Init()]. *)
Definition Log_Init (g : Logger) : Logger :=
  match logger g with Some _ => g | None => mkLogger (Some (Linfo, [Console])) (g_file_sink g) end.

Definition is_file_sink (id : Z) (s : sink) : bool :=
  match s with LogFile i _ _ => i =? id | Console => false end.

(** [log::Configure(config)]; [opened] is the identity of the new file sink, or
    the error of opening the file. The line logged on failure is [Some]. *)
Definition Log_Configure (config : LogConfig) (opened : Z + string) (g : Logger)
    : Logger * option string :=
  match logger g with
  | None => (g, None)
  | Some (_, sinks) =>
      let sinks := match g_file_sink g with
                   | Some id => List.filter (fun s => negb (is_file_sink id s)) sinks
                   | None => sinks end in
      if bool_decide (log_file config = "") then (mkLogger (Some (log_level config, sinks)) None, None)
      else
        match opened with
        | inl id =>
            (mkLogger (Some (log_level config, sinks ++ [LogFile id (log_file config) (log_daily config)]))
               (Some id), None)
        | inr error =>
            (mkLogger (Some (log_level config, sinks)) None,
             Some ("cannot open the log file " +:+ log_file config +:+ ": " +:+ error))
        end
  end.

(** ** The structs of the server *)

(** A struct of the server: its reported size, and what its fields hold. Only
    the first [s_size] bytes exist. *)
Record Struct (V : Type) := mkStruct { s_size : Z; s_fields : gmap string V }.
Arguments mkStruct {V}.
Arguments s_size {V}.
Arguments s_fields {V}.

Definition write_field {V} (f : Field) (v : V) (t : Struct V) : outcome (Struct V) :=
  if decide (0 <= field_offset f /\ field_offset f + field_size f <= s_size t)
  then Ret (mkStruct (s_size t) (<[field_name f := v]> (s_fields t))) else UB.

(** The layout of [PluginInfo]. *)
Definition info_name : Field := mkField "name" 8 32.
Definition info_pluginVersion : Field := mkField "pluginVersion" 40 4.
Definition info_apiMajorVersion : Field := mkField "apiMajorVersion" 44 2.
Definition info_apiMinorVersion : Field := mkField "apiMinorVersion" 46 2.

Inductive info_value := InfoText (s : string) | InfoNumber (z : Z).

(** The callbacks of [PluginCallbacks], in the order of the struct. *)
Definition callback_names : list string :=
  ["OnServerInitialise"; "OnServerShutdown"; "OnServerFrame"; "OnPluginCommand";
   "OnIncomingConnection"; "OnClientScriptData"; "OnPlayerConnect"; "OnPlayerDisconnect";
   "OnPlayerRequestClass"; "OnPlayerRequestSpawn"; "OnPlayerSpawn"; "OnPlayerDeath";
   "OnPlayerUpdate"; "OnPlayerRequestEnterVehicle"; "OnPlayerEnterVehicle"; "OnPlayerExitVehicle";
   "OnPlayerNameChange"; "OnPlayerStateChange"; "OnPlayerActionChange"; "OnPlayerOnFireChange";
   "OnPlayerCrouchChange"; "OnPlayerGameKeysChange"; "OnPlayerBeginTyping"; "OnPlayerEndTyping";
   "OnPlayerAwayChange"; "OnPlayerMessage"; "OnPlayerCommand"; "OnPlayerPrivateMessage";
   "OnPlayerKeyBindDown"; "OnPlayerKeyBindUp"; "OnPlayerSpectate"; "OnPlayerCrashReport";
   "OnVehicleUpdate"; "OnVehicleExplode"; "OnVehicleRespawn"; "OnObjectShot"; "OnObjectTouched";
   "OnPickupPickAttempt"; "OnPickupPicked"; "OnPickupRespawn"; "OnCheckpointEntered";
   "OnCheckpointExited"; "OnEntityPoolChange"; "OnServerPerformanceReport"; "OnPlayerModuleList";
   "OnEntityStreamingChange"].

(** A pointer field after the 4-byte [structSize] and its padding. *)
Definition callback_field (i : nat) (name : string) : Field :=
  mkField name (8 + 8 * Z.of_nat i) 8.
Definition callback_fields : list Field := imap callback_field callback_names.

Definition index_of (name : string) : nat :=
  default 0%nat (fst <$> list_find (fun n => n = name) callback_names).
Definition callback (name : string) : Field := callback_field (index_of name) name.

(** ** Starting *)

Definition kPluginName : string := "VCMP-Lua".
Definition PLUGIN_API_MAJOR : Z := 2.
Definition kApiMinorVersion : Z := 0.

(** [SetPluginName]: cut to the 31 characters the field has room for. *)
Definition SetPluginName : info_value :=
  InfoText (String.substring 0 (Nat.min (String.length kPluginName) 31) kPluginName).

(** What [Init] changes: the libraries, the lines of its log, the two structs,
    and the plugin's runtime, by its config. *)
Record Start := mkStart
  { st_libs : Libs; st_log : list (level * string); st_info : Struct info_value;
    st_calls : Struct string; st_runtime : option Config }.

Definition st_line (l : level) (s : string) (t : Start) : Start :=
  mkStart (st_libs t) (st_log t ++ [(l, s)]) (st_info t) (st_calls t) (st_runtime t).
Definition st_with_libs (x : Libs) (t : Start) : Start :=
  mkStart x (st_log t) (st_info t) (st_calls t) (st_runtime t).
Definition st_with_info (x : Struct info_value) (t : Start) : Start :=
  mkStart (st_libs t) (st_log t) x (st_calls t) (st_runtime t).
Definition st_with_calls (x : Struct string) (t : Start) : Start :=
  mkStart (st_libs t) (st_log t) (st_info t) x (st_runtime t).
Definition st_with_runtime (x : option Config) (t : Start) : Start :=
  mkStart (st_libs t) (st_log t) (st_info t) (st_calls t) x.

(** What starting depends on: the arguments that are not null, the options, the
    libraries, the config, and whether a runtime can be made from it
    ([Runtime]'s constructor and [on_runtime]). *)
Record StartEnv := mkStartEnv
  { has_funcs : bool; has_calls : bool; has_info : bool; manage_libraries : bool;
    libs_ok : library -> bool; libs_digest : string; versions : string; kVersionNumber : Z;
    read_config : outcome Config; make_runtime : outcome unit }.

Abbreviation start := (prog Start).

Definition write_info (f : Field) (v : info_value) : start unit := fun t =>
  if VCMP_LUA_HAS_FIELD (s_size (st_info t)) f
  then match write_field f v (st_info t) with
       | Ret i => (Ret tt, st_with_info i t)
       | Throw e => (Throw e, t)
       | UB => (UB, t)
       end
  else (Ret tt, t).

Definition write_callback (name : string) : start unit := fun t =>
  match write_field (callback name) name (st_calls t) with
  | Ret c => (Ret tt, st_with_calls c t)
  | Throw e => (Throw e, t)
  | UB => (UB, t)
  end.

(** [VCMP_LUA_SET_CALLBACK(calls, name, &name)]. *)
Definition VCMP_LUA_SET_CALLBACK (name : string) : start unit := fun t =>
  if VCMP_LUA_HAS_FIELD (s_size (st_calls t)) (callback name) then write_callback name t
  else (Ret tt, st_line Lwarn ("this server version has no " +:+ name +:+ " callback") t).

Definition required_callbacks : list string :=
  ["OnServerInitialise"; "OnServerShutdown"; "OnServerFrame"].

(** The optional callbacks, in the order [Init] installs them. *)
Definition optional_callbacks : list string :=
  ["OnPlayerConnect"; "OnPlayerDisconnect"; "OnEntityPoolChange"; "OnIncomingConnection";
   "OnPlayerModuleList"; "OnPlayerRequestClass"; "OnPlayerRequestSpawn"; "OnPlayerSpawn";
   "OnPlayerDeath"; "OnPlayerUpdate"; "OnPlayerRequestEnterVehicle"; "OnPlayerEnterVehicle";
   "OnPlayerExitVehicle"; "OnPlayerNameChange"; "OnPlayerStateChange"; "OnPlayerActionChange";
   "OnPlayerOnFireChange"; "OnPlayerCrouchChange"; "OnPlayerGameKeysChange"; "OnPlayerBeginTyping";
   "OnPlayerEndTyping"; "OnPlayerAwayChange"; "OnPlayerMessage"; "OnPlayerCommand";
   "OnPlayerPrivateMessage"; "OnPlayerSpectate"; "OnPlayerCrashReport"; "OnClientScriptData";
   "OnPlayerKeyBindDown"; "OnPlayerKeyBindUp"; "OnVehicleUpdate"; "OnVehicleExplode";
   "OnVehicleRespawn"; "OnObjectShot"; "OnObjectTouched"; "OnPickupPickAttempt"; "OnPickupPicked";
   "OnPickupRespawn"; "OnCheckpointEntered"; "OnCheckpointExited"; "OnPluginCommand";
   "OnServerPerformanceReport"; "OnEntityStreamingChange"].

Fixpoint each (f : string -> start unit) (names : list string) : start unit :=
  match names with [] => pret tt | n :: names => pbind (f n) (fun _ => each f names) end.

Definition run_libs (m : prog Libs unit) : start unit := fun t =>
  let '(r, x) := m (st_libs t) in (r, st_with_libs x t).
Definition cleanup_if (manage : bool) (t : Start) : Start :=
  if manage then st_with_libs (Libraries_Cleanup (st_libs t)) t else t.

Definition libs_step (e : StartEnv) : start unit :=
  if manage_libraries e then run_libs (Libraries_Init (libs_ok e) (libs_digest e)) else pret tt.

(** The fields of the info struct. *)
Definition write_infos (e : StartEnv) : start unit :=
  pbind (write_info info_name SetPluginName) (fun _ =>
  pbind (write_info info_pluginVersion (InfoNumber (kVersionNumber e))) (fun _ =>
  pbind (write_info info_apiMajorVersion (InfoNumber PLUGIN_API_MAJOR)) (fun _ =>
  write_info info_apiMinorVersion (InfoNumber kApiMinorVersion)))).

(** The runtime, and, last, the callbacks. *)
Definition start_runtime (e : StartEnv) : start Z :=
  pbind (fun t => (read_config e, st_line Linfo (versions e) t)) (fun config =>
  pbind (plift (make_runtime e)) (fun _ =>
  pbind (each write_callback required_callbacks) (fun _ =>
  pbind (each VCMP_LUA_SET_CALLBACK optional_callbacks) (fun _ t =>
  (Ret 1, st_with_runtime (Some config) t))))).

Definition lacks_required (size : Z) : bool :=
  existsb (fun n => negb (VCMP_LUA_HAS_FIELD size (callback n))) required_callbacks.

(** The [try] block of [Init], after the checks that return early. *)
Definition start_body (e : StartEnv) : start Z :=
  pbind (libs_step e) (fun _ =>
  pbind (write_infos e) (fun _ t =>
  if lacks_required (s_size (st_calls t))
  then (Ret 0, cleanup_if (manage_libraries e)
                 (st_line Lerr "VcmpPluginInit: this server version has no OnServerFrame callback" t))
  else start_runtime e t)).

(** [Init(funcs, calls, info, options)]. *)
Definition Init (e : StartEnv) : start Z := fun t =>
  if negb (has_funcs e) || negb (has_calls e) || negb (has_info e)
  then (Ret 0, st_line Lerr "VcmpPluginInit: the server passed a null pointer" t)
  else
    match st_runtime t with
    | Some _ => (Ret 0, st_line Lerr "VcmpPluginInit: already initialised" t)
    | None =>
        match start_body e t with
        | (Ret z, t) => (Ret z, t)
        | (Throw x, t) =>
            (Ret 0, cleanup_if (manage_libraries e)
                      (st_line Lerr ("VcmpPluginInit: " +:+ exn_text x) t))
        | (UB, t) => (UB, t)
        end
    end.

(** ** Lemmas *)

Definition all_cleared (s : Libs) : Prop := forall l, initialised s l = false.

Lemma Cleanup_clears s : all_cleared (Libraries_Cleanup s).
Proof. intros l. destruct s as [[] [] [] ?], l; done. Qed.

(** What a step of [Init] keeps: the sizes of the structs, and the runtime. *)
Definition start_rel (t t' : Start) : Prop :=
  s_size (st_info t') = s_size (st_info t) /\ s_size (st_calls t') = s_size (st_calls t) /\
  st_runtime t' = st_runtime t.

#[export] Instance start_rel_preorder : PreOrder start_rel.
Proof.
  split; unfold start_rel; [done|]. intros t1 t2 t3 (?&?&?) (?&?&?). split_and!; congruence.
Qed.

Definition sizes_ok (t : Start) : Prop := size_ok (s_size (st_info t)) /\ size_ok (s_size (st_calls t)).

Lemma write_fits {V} f (v : V) t :
  size_ok (s_size t) -> field_ok f -> VCMP_LUA_HAS_FIELD (s_size t) f = true ->
  write_field f v t = Ret (mkStruct (s_size t) (<[field_name f := v]> (s_fields t))).
Proof.
  intros Hs [[Ho _] _] Hf%FieldFits_spec; [|done..]. unfold write_field. by rewrite decide_True by lia.
Qed.

(** A step that changes the info struct at most. *)
Definition only_info (t t' : Start) : Prop :=
  s_size (st_info t') = s_size (st_info t) /\ st_calls t' = st_calls t /\
  st_runtime t' = st_runtime t /\ st_libs t' = st_libs t.

Lemma write_info_spec f v t :
  sizes_ok t -> field_ok f -> exists t', write_info f v t = (Ret tt, t') /\ only_info t t'.
Proof.
  intros [Hi _] Hf. unfold write_info. destruct (VCMP_LUA_HAS_FIELD _ _) eqn:E.
  - rewrite write_fits by done. by eexists.
  - by exists t.
Qed.

Lemma callback_ok name : field_ok (callback name).
Proof.
  unfold callback, callback_field, index_of, field_ok. cbn [field_offset field_size].
  assert (default 0%nat (fst <$> list_find (fun n => n = name) callback_names) <= 46)%nat.
  { destruct (list_find _ _) as [[i x]|] eqn:E; simpl; [|lia].
    apply list_find_Some in E as (Hi & _ & _). apply lookup_lt_Some in Hi. simpl in Hi. lia. }
  lia.
Qed.

Lemma write_callback_spec name t :
  sizes_ok t -> VCMP_LUA_HAS_FIELD (s_size (st_calls t)) (callback name) = true ->
  write_callback name t =
    (Ret tt, st_with_calls (mkStruct (s_size (st_calls t)) (<[name := name]> (s_fields (st_calls t)))) t).
Proof.
  intros [_ Hc] Hf. unfold write_callback. by rewrite write_fits by (try apply callback_ok; done).
Qed.

(** What the table holds at [n] once [names] are installed. *)
Definition installed_at (size : Z) (names : list string) (old : gmap string string) (n : string)
    : option string :=
  if bool_decide (n ∈ names) && VCMP_LUA_HAS_FIELD size (callback n) then Some n else old !! n.

Lemma elem_of_cons_ne (n m : string) names :
  n <> m -> bool_decide (n ∈ m :: names) = bool_decide (n ∈ names).
Proof. intros Hne. apply bool_decide_ext. rewrite elem_of_cons. intuition congruence. Qed.

Lemma each_set_spec names t :
  sizes_ok t ->
  exists t', each VCMP_LUA_SET_CALLBACK names t = (Ret tt, t') /\ start_rel t t' /\
    st_libs t' = st_libs t /\
    forall n, s_fields (st_calls t') !! n =
      installed_at (s_size (st_calls t)) names (s_fields (st_calls t)) n.
Proof.
  revert t. induction names as [|m names IH]; intros t Hok; cbn [each].
  { exists t. split_and!; done. }
  unfold pbind, VCMP_LUA_SET_CALLBACK at 1.
  destruct (VCMP_LUA_HAS_FIELD _ _) eqn:E.
  - rewrite write_callback_spec by done. edestruct IH as (t' & -> & Hrel & Hl & Hf); [exact Hok|].
    exists t'. split_and!; [done|exact Hrel|exact Hl|]. intros n. rewrite Hf. unfold installed_at.
    cbn [st_with_calls st_calls s_size s_fields]. destruct (decide (n = m)) as [->|Hne].
    + rewrite E, !andb_true_r, lookup_insert_eq, (bool_decide_true (m ∈ m :: names))
        by (apply elem_of_cons; by left).
      by destruct (bool_decide _).
    + rewrite lookup_insert_ne, (elem_of_cons_ne n m names) by done. done.
  - edestruct IH as (t' & -> & Hrel & Hl & Hf); [exact Hok|].
    exists t'. split_and!; [done|exact Hrel|exact Hl|]. intros n. rewrite Hf. unfold installed_at.
    cbn [st_line st_calls]. destruct (decide (n = m)) as [->|Hne]; [by rewrite E, !andb_false_r|].
    by rewrite (elem_of_cons_ne n m names).
Qed.

Lemma each_write_set names t :
  sizes_ok t ->
  existsb (fun n => negb (VCMP_LUA_HAS_FIELD (s_size (st_calls t)) (callback n))) names = false ->
  each write_callback names t = each VCMP_LUA_SET_CALLBACK names t.
Proof.
  revert t. induction names as [|m names IH]; intros t Hok; cbn [each existsb]; [done|].
  intros [E%negb_false_iff Hn]%orb_false_iff.
  unfold pbind, VCMP_LUA_SET_CALLBACK at 1. rewrite E, write_callback_spec by done. by apply IH.
Qed.

Lemma each_app f xs ys t : each f (xs ++ ys) t = pbind (each f xs) (fun _ => each f ys) t.
Proof.
  revert t. induction xs as [|x xs IH]; intros t; cbn [each app]; [done|].
  rewrite pbind_assoc. unfold pbind at 1 2. destruct (f x t) as [[]]; [|done|done]. apply IH.
Qed.

Lemma only_info_sizes t t' : only_info t t' -> sizes_ok t -> sizes_ok t'.
Proof. intros (E1 & E2 & _) [? ?]. unfold sizes_ok. by rewrite E1, E2. Qed.

Lemma only_info_trans t1 t2 t3 : only_info t1 t2 -> only_info t2 t3 -> only_info t1 t3.
Proof. intros (?&?&?&?) (?&?&?&?). unfold only_info. split_and!; congruence. Qed.

Lemma write_infos_spec e t :
  sizes_ok t -> exists t', write_infos e t = (Ret tt, t') /\ only_info t t'.
Proof.
  intros Hok. unfold write_infos, pbind.
  destruct (write_info_spec info_name SetPluginName t Hok) as (t1 & -> & H1); [done|].
  pose proof (only_info_sizes _ _ H1 Hok) as Hok1.
  destruct (write_info_spec info_pluginVersion (InfoNumber (kVersionNumber e)) t1 Hok1)
    as (t2 & -> & H2); [done|]. pose proof (only_info_sizes _ _ H2 Hok1) as Hok2.
  destruct (write_info_spec info_apiMajorVersion (InfoNumber PLUGIN_API_MAJOR) t2 Hok2)
    as (t3 & -> & H3); [done|]. pose proof (only_info_sizes _ _ H3 Hok2) as Hok3.
  destruct (write_info_spec info_apiMinorVersion (InfoNumber kApiMinorVersion) t3 Hok3)
    as (t4 & -> & H4); [done|].
  exists t4. split; [done|]. eauto using only_info_trans.
Qed.

Lemma libs_step_spec e t :
  let r := libs_step e t in
  (fst r = Ret tt \/ exists x, fst r = Throw x) /\ st_info (snd r) = st_info t /\
  st_calls (snd r) = st_calls t /\ st_runtime (snd r) = st_runtime t /\
  (manage_libraries e = false -> st_libs (snd r) = st_libs t).
Proof.
  unfold libs_step, run_libs. destruct (manage_libraries e); [|split_and!; auto].
  unfold Libraries_Init, pbind, init_one, plift, throw_if.
  repeat (case_match; simplify_eq/=; try (by split_and!; eauto)).
Qed.

Definition all_callbacks : list string := required_callbacks ++ optional_callbacks.

Lemma start_runtime_spec e t :
  sizes_ok t -> lacks_required (s_size (st_calls t)) = false ->
  is_UB (read_config e) = false -> is_UB (make_runtime e) = false ->
  let r := start_runtime e t in
  (exists config, read_config e = Ret config /\ fst r = Ret 1 /\ st_runtime (snd r) = Some config /\
     forall n, s_fields (st_calls (snd r)) !! n =
       installed_at (s_size (st_calls t)) all_callbacks (s_fields (st_calls t)) n) \/
  ((exists x, fst r = Throw x) /\ st_calls (snd r) = st_calls t /\
   st_runtime (snd r) = st_runtime t /\ st_libs (snd r) = st_libs t).
Proof.
  intros Hok Hl Hc Hr r.
  destruct (read_config e) as [config|x|] eqn:Ec; [| |done].
  2: { right. unfold r, start_runtime, pbind. rewrite Ec. eauto. }
  destruct (make_runtime e) as [[]|x|] eqn:Er; [| |done].
  2: { right. unfold r, start_runtime, pbind, plift. rewrite Ec, Er. eauto. }
  left. exists config. split; [done|].
  destruct (each_set_spec all_callbacks (st_line Linfo (versions e) t) Hok) as (t2 & E & _ & _ & Hf).
  assert (start_runtime e t = (Ret 1, st_with_runtime (Some config) t2)) as Hrun.
  { unfold all_callbacks in E. rewrite each_app in E. unfold pbind at 1 in E.
    rewrite <- (each_write_set required_callbacks (st_line Linfo (versions e) t) Hok Hl) in E.
    unfold start_runtime, pbind, plift. rewrite Ec, Er.
    destruct (each write_callback _ _) as [[[]|x|] t3]; [|done|done]. by rewrite E. }
  unfold r. rewrite Hrun. split_and!; [done|done|exact Hf].
Qed.

(** ** Properties *)


Definition demo_start : Start :=
  mkStart new_libs [] (mkStruct 48 ∅) (mkStruct 368 ∅) None.
Definition demo_start_env : StartEnv :=
  mkStartEnv true true true true (fun _ => true)
    "ba7816bf8f01cfea414140de5dae2223b00361a396177a9cb410ff61f20015ad" "versions" 65536
    (Ret default_config) (Ret tt).


(** A step of the libraries: an [Init] in which some of them may fail, or a
    [Cleanup]. *)
Inductive lib_op := OpInit (ok : library -> bool) (digest : string) | OpCleanup.

Definition run_lib_op (s : Libs) (op : lib_op) : Libs :=
  match op with
  | OpInit ok digest => snd (Libraries_Init ok digest s)
  | OpCleanup => Libraries_Cleanup s
  end.

Definition is_init (l : library) (c : lib_call) : bool :=
  match c with LInit l' => bool_decide (l' = l) | LCleanup _ => false end.
Definition is_cleanup (l : library) (c : lib_call) : bool :=
  match c with LCleanup l' => bool_decide (l' = l) | LInit _ => false end.
Definition count (p : lib_call -> bool) (cs : list lib_call) : nat := length (List.filter p cs).

Arguments count : simpl never.

(** Every init call is paired with at most one cleanup call, the pairs are
    nested in the order of the libraries, and OpenSSL is the outermost. *)
Record libs_wf (s : Libs) : Prop := mkLibsWf
  { lwf_balanced l : count (is_init l) (lib_calls s) =
      (count (is_cleanup l) (lib_calls s) + if initialised s l then 1 else 0)%nat;
    lwf_curl : g_curl s = true -> g_openssl s = true;
    lwf_mysql : g_mysql s = true -> g_curl s = true }.

Lemma count_app p xs ys : count p (xs ++ ys) = (count p xs + count p ys)%nat.
Proof. unfold count. by rewrite List.filter_app, length_app. Qed.

Lemma count_single p c : count p [c] = if p c then 1%nat else 0%nat.
Proof. unfold count. simpl. by destruct (p c). Qed.

Lemma init_one_balanced ok l0 s l :
  count (is_init l) (lib_calls s) =
    (count (is_cleanup l) (lib_calls s) + if initialised s l then 1 else 0)%nat ->
  let s' := snd (init_one ok l0 s) in
  count (is_init l) (lib_calls s') =
    (count (is_cleanup l) (lib_calls s') + if initialised s' l then 1 else 0)%nat.
Proof.
  intros H. unfold init_one. destruct (initialised s l0) eqn:E; [done|]. destruct (ok l0); [|done].
  simpl. destruct l0, l; simpl in *; rewrite ?E in H; rewrite !count_app, !count_single, H; simpl; lia.
Qed.

Lemma cleanup_one_balanced l0 s l :
  count (is_init l) (lib_calls s) =
    (count (is_cleanup l) (lib_calls s) + if initialised s l then 1 else 0)%nat ->
  let s' := cleanup_one l0 s in
  count (is_init l) (lib_calls s') =
    (count (is_cleanup l) (lib_calls s') + if initialised s' l then 1 else 0)%nat.
Proof.
  intros H. unfold cleanup_one. destruct (initialised s l0) eqn:E; [|done].
  destruct l0, l; simpl in *; rewrite ?E in H; rewrite !count_app, !count_single, H; simpl; lia.
Qed.

Lemma run_lib_op_wf s op : libs_wf s -> libs_wf (run_lib_op s op).
Proof.
  intros [Hb Hc Hm]. destruct op as [ok digest|]; cbn [run_lib_op].
  - unfold Libraries_Init, pbind.
    pose proof (fun l => init_one_balanced ok OpenSSL s l (Hb l)) as H1. cbn zeta in H1.
    destruct (init_one ok OpenSSL s) as [o1 s1] eqn:E1; cbn [snd] in H1.
    assert (g_curl s1 = g_curl s /\ g_mysql s1 = g_mysql s /\ (g_openssl s = true -> g_openssl s1 = true) /\
      (o1 = Ret tt -> g_openssl s1 = true)) as (C1 & M1 & O1 & R1).
    { revert E1. unfold init_one. simpl. destruct (g_openssl s) eqn:Eo, (ok OpenSSL); intros [= <- <-]; done. }
    destruct o1 as [[]|x|]; cbn [snd]; [|split; [exact H1|rewrite C1; auto|rewrite C1, M1; auto]..].
    specialize (R1 eq_refl).
    pose proof (fun l => init_one_balanced ok Curl s1 l (H1 l)) as H2. cbn zeta in H2.
    destruct (init_one ok Curl s1) as [o2 s2] eqn:E2; cbn [snd] in H2.
    assert (g_openssl s2 = true /\ g_mysql s2 = g_mysql s /\ (g_curl s = true -> g_curl s2 = true) /\
      (o2 = Ret tt -> g_curl s2 = true)) as (O2 & M2 & C2 & R2).
    { revert E2. unfold init_one. simpl. rewrite C1.
      destruct (g_curl s) eqn:Eo, (ok Curl); intros [= <- <-]; simpl; split_and!; try congruence; done. }
    destruct o2 as [[]|x|]; cbn [snd]; [|split; [exact H2|done|rewrite M2; auto]..].
    specialize (R2 eq_refl).
    pose proof (fun l => init_one_balanced ok MySQL s2 l (H2 l)) as H3. cbn zeta in H3.
    destruct (init_one ok MySQL s2) as [o3 s3] eqn:E3; cbn [snd] in H3.
    assert (g_openssl s3 = true /\ g_curl s3 = true) as [O3 C3].
    { revert E3. unfold init_one. simpl. destruct (g_mysql s2), (ok MySQL); intros [= <- <-]; done. }
    destruct o3 as [[]|x|]; cbn [snd]; by split.
  - assert (all_cleared (Libraries_Cleanup s)) as Hall by apply Cleanup_clears.
    split; [|intros H; by rewrite (Hall Curl : g_curl _ = false) in H
            |intros H; by rewrite (Hall MySQL : g_mysql _ = false) in H].
    intros l. unfold Libraries_Cleanup. by do 3 apply cleanup_one_balanced.
Qed.

(** Over any sequence of starts, failed starts and shutdowns every library
    is cleaned up exactly as often as it was initialised, save one that is
    initialised now; none is initialised twice, and OpenSSL is initialised
    whenever libcurl or the MariaDB connector is. *)
Theorem libraries_are_balanced ops : libs_wf (fold_left run_lib_op ops new_libs).
Proof.
  assert (libs_wf new_libs) as H by (split; [by intros []|done|done]). revert H.
  generalize new_libs. induction ops as [|op ops IH]; intros s Hs; simpl; [done|].
  by apply IH, run_lib_op_wf.
Qed.

(** Whatever configurations a start and the reloads after it read, the
    logger has its console and at most one file sink, the one of the last
    configuration: a reload leaves no log file of an old one open. *)
Theorem one_log_file steps :
  let g := fold_left (fun g s => fst (Log_Configure s.1 s.2 g)) steps (Log_Init new_logger) in
  exists lv files, logger g = Some (lv, Console :: files) /\
    match g_file_sink g with
    | None => files = []
    | Some id => exists config opened, last steps = Some (config, opened) /\
        files = [LogFile id (log_file config) (log_daily config)] /\ opened = inl id
    end.
Proof.
  cbn zeta. induction steps as [|[config opened] steps IH] using rev_ind; [by eexists _, _|].
  rewrite fold_left_app. cbn [fold_left].
  destruct IH as (lv & files & Hlog & Hfile).
  set (g := fold_left _ _ _) in *. unfold Log_Configure. rewrite Hlog.
  assert (match g_file_sink g with
    | Some id => List.filter (fun s => negb (is_file_sink id s)) (Console :: files)
    | None => Console :: files end = [Console]) as ->.
  { destruct (g_file_sink g) as [id|]; [|by subst].
    destruct Hfile as (? & ? & _ & -> & _). simpl. by rewrite Z.eqb_refl. }
  rewrite last_snoc. cbn [fst snd].
  case_bool_decide; [by eexists _, _|]. destruct opened as [id|error]; [|by eexists _, _].
  eexists _, _. split; [done|]. cbn. by eexists _, _.
Qed.
