(* ===== verification/Bindings.v ===== *)
(** The bindings scripts drive the components with: Event
    (src/bindings/event.cpp), Timer (src/bindings/timer.cpp), http.request
    (src/modules/http.cpp), Logger's level (src/bindings/logger.cpp) and
    Server.reload (src/bindings/server.cpp). A binding is given its arguments
    after sol2 has read them from the Lua stack; what it throws becomes a Lua
    error with the exception's text. *)
From stdpp Require Import base tactics list gmap strings.
From Stdlib Require Import ZArith Lia.
From S2P Require Import Prelude.
From S2P Require Import EntityPool.
From S2P Require Import LuaValue.
From S2P Require Import Args.
From S2P Require Import Invoker.
From S2P Require Import EventBus.
From S2P Require Import Dispatch.
From S2P Require Import EntityPools.
From S2P Require Import Scheduler.
From S2P Require Import Config.
From S2P Require Import Http.
From S2P Require Import World.
From S2P Require Import Runtime.
From S2P Require Import Plugin.
Open Scope Z_scope.

Section bindings.
Context {S : Type} {env : Env S} {lib : LuaLib}.
Implicit Types (w : World S).

Abbreviation binding := (prog (World S) lua_value).

(** ** Event *)

(** [RequireEvent(events, name)]. *)
Definition RequireEvent (b : EventBus) (name : string) : outcome nat :=
  match Find b name with
  | Some index => Ret index
  | None => Throw (InvalidArgument ("unknown event '" +:+ name +:+ "'"))
  end.

(** A change of the bus that gives a boolean; [Same] needs two stack slots. *)
Definition on_bus (f : bool -> EventBus -> outcome (bool * EventBus)) : binding := fun w =>
  match f (checkstack 2 w) (get_bus w) with
  | Ret (r, b) => (Ret (LBool r), set_bus b w)
  | Throw e => (Throw e, w)
  | UB => (UB, w)
  end.

(** Event.bind, Event.unbind. C++ leaves open which of the two arguments is
    checked first; here the name is. *)
Definition Event_bind (name : string) (fn : lua_value) : binding :=
  pbind Require_runtime (fun _ => on_bus (fun room b =>
    event ← RequireEvent b name; f ← RequireFunction fn "Event.bind" 2; BindHandler room b event f)).
Definition Event_unbind (name : string) (fn : lua_value) : binding :=
  pbind Require_runtime (fun _ => on_bus (fun room b =>
    event ← RequireEvent b name; f ← RequireFunction fn "Event.unbind" 2; Unbind room b event f)).

(** Event.cancel. *)
Definition Event_cancel : binding :=
  pbind Require_runtime (fun _ w =>
    match Cancel (get_bus w) with
    | Ret b => (Ret LNil, set_bus b w)
    | Throw e => (Throw e, w)
    | UB => (UB, w)
    end).

(** Event.create. *)
Definition Event_create (name : string) : binding :=
  pbind Require_runtime (fun _ => on_bus (fun _ b => Ret (Create b name))).

(** The arguments of Event.trigger, copied for every handler. *)
Definition push_variadic (args : list lua_value) : prog (World S) (list lua_value) := fun w =>
  if negb (checkstack (Z.of_nat (length args)) w)
  then (Throw (RuntimeError "Lua stack overflow"), w) else (Ret args, w).

(** Event.trigger. *)
Definition Event_trigger (name : string) (args : list lua_value) : binding :=
  pbind Require_runtime (fun _ =>
  pbind (fun w => (RequireEvent (get_bus w) name, w)) (fun index =>
  pbind (Dispatch index (push_variadic args)) (fun cancelled => pret (LBool (negb cancelled))))).

(** ** Timer *)

(** A [TimerHandle] userdata, written by the id it holds. *)
Definition TimerHandle (id : Z) : lua_value := LUserdata id.

(** Timer.create(fn, interval, repeats, ...). *)
Definition Timer_create (fn interval repeats : lua_value) (extra : list lua_value) : binding :=
  pbind Require_runtime (fun _ w =>
    match
      cb ← RequireFunction fn "Timer.create" 1;
      i ← ToInteger interval "Timer.create: argument 2 (interval)";
      r ← ToInteger repeats "Timer.create: argument 3 (repeat count)";
      CreateTimer (get_sched w) (clock w) cb i r extra
    with
    | Ret (id, s) => (Ret (TimerHandle id), set_sched (SetHandle s id (TimerHandle id)) w)
    | Throw e => (Throw e, w)
    | UB => (UB, w)
    end).

(** Timer.destroy(timer), timer.active, tostring(timer). *)
Definition Timer_destroy (id : Z) : binding :=
  pbind Require_runtime (fun _ w =>
    let '(r, s) := Destroy (get_sched w) id in (Ret (LBool r), set_sched s w)).
Definition Timer_active (id : Z) : binding :=
  pbind Require_runtime (fun _ w => (Ret (LBool (Exists (get_sched w) id)), w)).
Definition Timer_tostring (id : Z) : string := "Timer(" +:+ pretty id +:+ ")".

(** ** http.request *)

(** [Request]: the Lua stack it is called with, and libcurl's refusal of the
    handle, if it refuses it. *)
Definition http_request (luaL_tolstring : lua_value -> string) (L : lua_State)
    (refused : option string) : binding :=
  pbind Require_runtime (fun _ =>
  pbind (plift (ReadRequest luaL_tolstring L)) (fun _ =>
  pbind (plift (RequireFunction (default LNil (at_index L 2)) "http.request" 2)) (fun cb w =>
    let '(r, h) := Start refused (get_http w) cb in
    (match r with Ret _ => Ret LNil | Throw e => Throw e | UB => UB end, set_http h w)))).

(** ** Server.reload *)

Definition Server_reload : binding :=
  pbind Require_runtime (fun _ w => (Ret LNil, RequestReload w)).
End bindings.

(** ** Logger's level *)

(** 2.x's numbers: 0 debug to 4 critical, 5 off. *)
Definition kLevels : list (string * level) :=
  [("trace", Ltrace); ("debug", Ldebug); ("info", Linfo); ("warn", Lwarn); ("error", Lerr);
   ("critical", Lcritical); ("off", Loff)].
Definition kNumbered : list level := [Ldebug; Linfo; Lwarn; Lerr; Lcritical; Loff].

Section logger.
Context {lib : LuaLib}.

Fixpoint level_of (name : string) (ls : list (string * level)) : option level :=
  match ls with
  | [] => None
  | (n, l) :: ls => if String.eqb name n then Some l else level_of name ls
  end.

(** [CheckLevel(L, index)]. *)
Definition CheckLevel (L : lua_State) (i : Z) : outcome level :=
  match ltype L i with
  | TNumber => z ← CheckInteger L i 0 5;
      match kNumbered !! Z.to_nat z with Some l => Ret l | None => UB end
  | _ =>
      name ← CheckString L i;
      match level_of name kLevels with
      | Some l => Ret l
      | None => Throw (ArgError L i
          "level must be trace, debug, info, warn, error, critical, off or 0-5")
      end
  end.

(** Logger.getLevel. *)
Definition getLevel (current : option level) : string :=
  let l := default Linfo current in
  default "info" (fst <$> List.find (fun e : string * level => bool_decide (e.2 = l)) kLevels).

(** Logger.setLevel accepts the name Logger.getLevel gives for a level and
    sets that level, its number in 2.x's table is never read out of bounds, and
    any other name is a bad argument. *)
Theorem level_round_trip L i :
  (forall l, at_index L i = Some (LString (getLevel (Some l))) -> CheckLevel L i = Ret l) /\
  is_UB (CheckLevel L i) = false /\
  (forall z, at_index L i = Some (LInt z) -> 0 <= z <= 5 ->
     exists l, CheckLevel L i = Ret l /\ kNumbered !! Z.to_nat z = Some l).
Proof.
  assert (forall z, 0 <= z <= 5 -> exists l, kNumbered !! Z.to_nat z = Some l) as Hnum.
  { intros z Hz. apply lookup_lt_is_Some. simpl. lia. }
  split_and!.
  - intros l Hl. unfold CheckLevel, ltype, CheckString. rewrite Hl. by destruct l.
  - unfold CheckLevel. destruct (ltype L i) eqn:Ht.
    5: { destruct (CheckInteger L i 0 5) as [z|e|] eqn:Ez; simpl; [|done|].
         - apply CheckInteger_Ret in Ez as [_ Hz]. by destruct (Hnum z Hz) as [l ->].
         - exfalso. revert Ez. unfold CheckInteger, check_range. by repeat case_match. }
    all: unfold CheckString; repeat (case_match; simplify_eq/=; try done).
  - intros z Hz Hr. destruct (Hnum z Hr) as [l Hl]. exists l. split; [|done].
    unfold CheckLevel, ltype. rewrite Hz. cbn [type_of].
    unfold CheckInteger. rewrite Hz. unfold check_range.
    destruct ((z <? 0) || (5 <? z)) eqn:E; [lia|]. simpl. by rewrite Hl.
Qed.
End logger.
