(* ===== verification/ScriptRel.v ===== *)
(** What all Lua code does to the plugin: the relation [script_rel] every
    binding and every callback made during a call into Lua keeps. *)
From stdpp Require Import base tactics list gmap strings.
From Stdlib Require Import ZArith Lia.
From S2P Require Import Prelude.
From S2P Require Import EntityPool.
From S2P Require Import LuaValue.
From S2P Require Import Args.
From S2P Require Import Invoker.
From S2P Require Import EventBus.
From S2P Require Import Dispatch.
From S2P Require Import EntityPools.
From S2P Require Import Scheduler.
From S2P Require Import Config.
From S2P Require Import Http.
From S2P Require Import World.
From S2P Require Import Runtime.
From S2P Require Import Plugin.
From S2P Require Import Callbacks.
From S2P Require Import Bindings.
Open Scope Z_scope.

(** ** What all Lua code does to the plugin *)

(** The components' relations together. *)
Record script_rel {S : Type} (w w' : World S) : Prop := mkScriptRel
  { sr_bus : bus_step (r_events (rt w)) (r_events (rt w'));
    sr_timers : sched_step (r_timers (rt w)) (r_timers (rt w'));
    sr_http : http_step (r_http (rt w)) (r_http (rt w'));
    sr_pools : pools_wf (r_entities (rt w)) -> pools_wf (r_entities (rt w'));
    sr_depth : depth (r_invoker (rt w')) = depth (r_invoker (rt w));
    sr_invoker : dead (r_invoker (rt w)) = true -> dead (r_invoker (rt w')) = true;
    sr_present : present w' = present w;
    sr_dead : dead_ (rt w) = true -> dead_ (rt w') = true;
    sr_deferred : shutdown_deferred w = true -> shutdown_deferred w' = true;
    sr_lua : r_lua (rt w') = r_lua (rt w) }.

#[export] Instance script_rel_preorder S : PreOrder (@script_rel S).
Proof.
  split.
  - intros w. split; try reflexivity; done.
  - intros w1 w2 w3 [? ? ? ? ? ? ? ? ? ?] [? ? ? ? ? ? ? ? ? ?].
    split; try (by etransitivity); auto.
Qed.

(** A step that touches nothing the relation looks at. *)
Lemma script_rel_same {S} (w w' : World S) :
  r_events (rt w') = r_events (rt w) -> r_timers (rt w') = r_timers (rt w) ->
  r_http (rt w') = r_http (rt w) -> r_entities (rt w') = r_entities (rt w) ->
  r_invoker (rt w') = r_invoker (rt w) -> present w' = present w ->
  dead_ (rt w') = dead_ (rt w) -> (shutdown_deferred w = true -> shutdown_deferred w' = true) ->
  r_lua (rt w') = r_lua (rt w) -> script_rel w w'.
Proof.
  intros E1 E2 E3 E4 E5 E6 E7 E8 E9.
  split; rewrite ?E1, ?E2, ?E3, ?E4, ?E5, ?E6, ?E7, ?E9; try reflexivity; done.
Qed.

Lemma respects_mono {W A} (R R' : W -> W -> Prop) (m : prog W A) :
  (forall w w', R w w' -> R' w w') -> respects R m -> respects R' m.
Proof. intros HR Hm w Hub. by apply HR, Hm. Qed.

Section script.
Context {S : Type} {env : Env S} {lib : LuaLib}.
Implicit Types (w : World S).

#[export] Instance script_rel_stable : CallStable (@script_rel S).
Proof.
  split; [apply _| |].
  - intros l s w. by apply script_rel_same.
  - intros w w' [? ? ? ? Hd ? ? ? ? ?]. split; try done.
    simpl in *. lia.
Qed.

(** The relations of the components follow. *)
Lemma script_bus w w' : script_rel w w' -> bus_rel w w'.
Proof. by intros []. Qed.
Lemma script_sched w w' : script_rel w w' -> sched_rel w w'.
Proof. by intros []. Qed.
Lemma script_http w w' : script_rel w w' -> http_rel w w'.
Proof. by intros []. Qed.
Lemma script_pools w w' : script_rel w w' -> pools_rel w w'.
Proof. by intros []. Qed.
Lemma script_inv w w' : script_rel w w' -> inv_rel w w'.
Proof. intros []. by split. Qed.
Lemma script_plugin w w' : script_rel w w' -> plugin_rel w w'.
Proof. intros []. by split_and!. Qed.

(** The rest of the relation, which does not look at the bus. *)
Definition off_bus w w' : Prop :=
  sched_rel w w' /\ http_rel w w' /\ pools_rel w w' /\ inv_rel w w' /\ plugin_rel w w'.

Lemma off_bus_script w w' : bus_rel w w' -> off_bus w w' -> script_rel w w'.
Proof. intros Hb (?&?&?&[]&?&?&?&?&?). by split. Qed.

#[export] Instance off_bus_preorder : PreOrder off_bus.
Proof.
  split; unfold off_bus.
  - intros w. split_and!; try reflexivity.
  - intros w1 w2 w3 (?&?&?&?&?) (?&?&?&?&?). split_and!; by etransitivity.
Qed.

#[export] Instance off_bus_stable : CallStable off_bus.
Proof.
  split; [apply _| |]; unfold off_bus.
  - intros l s w. split_and!; apply stable_log.
  - intros w w' (?&?&?&?&?). split_and!; by apply stable_bracket.
Qed.

#[export] Instance off_bus_blind : BusBlind off_bus.
Proof.
  intros b w. unfold off_bus. split_and!; [| |intros H; exact H|by split|by split_and!].
  - unfold sched_rel. reflexivity.
  - unfold http_rel. reflexivity.
Qed.

Context `{!LuaRespects (@script_rel S)}.

#[export] Instance lua_script_bus : LuaRespects bus_rel.
Proof. intros fn args w. apply script_bus, lua_respects. Qed.
#[export] Instance lua_script_sched : LuaRespects sched_rel.
Proof. intros fn args w. apply script_sched, lua_respects. Qed.
#[export] Instance lua_script_http : LuaRespects http_rel.
Proof. intros fn args w. apply script_http, lua_respects. Qed.
#[export] Instance lua_script_pools : LuaRespects pools_rel.
Proof. intros fn args w. apply script_pools, lua_respects. Qed.
#[export] Instance lua_script_inv : LuaRespects inv_rel.
Proof. intros fn args w. apply script_inv, lua_respects. Qed.
#[export] Instance lua_script_plugin : LuaRespects plugin_rel.
Proof. intros fn args w. apply script_plugin, lua_respects. Qed.
#[export] Instance lua_off_bus : LuaRespects off_bus.
Proof.
  intros fn args w. pose proof (lua_respects (R := @script_rel S) fn args w) as Hs.
  split_and!; [by apply script_sched|by apply script_http|by apply script_pools
              |by apply script_inv|by apply script_plugin].
Qed.

Lemma Dispatch_script event push :
  respects script_rel push -> respects script_rel (Dispatch event push).
Proof.
  intros Hpush w Hub. apply off_bus_script.
  - apply Dispatch_respects_bus; [|done]. by eapply respects_mono, Hpush; apply script_bus.
  - apply Dispatch_respects_blind; try apply _; [|done].
    eapply respects_mono, Hpush. intros w1 w2 Hs. split_and!;
      [by apply script_sched|by apply script_http|by apply script_pools
      |by apply script_inv|by apply script_plugin].
Qed.

(** A step that changes one pool, and keeps it well-formed. *)
Lemma upd_pool_script k f w :
  (forall p, pool_wf p -> pool_wf (f p) /\ kind (f p) = kind p) -> script_rel w (upd_pool k f w).
Proof.
  intros Hf. split; try done; try reflexivity. intros Hwf. by apply (pools_wf_upd k f w).
Qed.

Lemma log_lines_script (l : level) ws w :
  script_rel w (fold_left (fun w s => log_line l s w) ws w).
Proof.
  revert w. induction ws as [|s ws IH]; intros w; [reflexivity|].
  etransitivity; [|exact (IH (log_line l s w))]. apply stable_log.
Qed.

Lemma adopt_id_script k id w : script_rel w (adopt_id k id w).
Proof.
  unfold adopt_id. destruct (Adopt (pool_of k w) id) as [p ws] eqn:E.
  etransitivity; [|apply log_lines_script]. split; try done; try reflexivity.
  intros Hwf. pose proof (Adopt_wf (pool_of k w) id (pswf_pool _ Hwf k)) as Hp.
  pose proof (kind_Adopt (pool_of k w) id) as Hk. rewrite E in Hp, Hk. simpl in Hp, Hk.
  apply put_pool_wf; [done|done|]. rewrite Hk. apply (pswf_kind _ Hwf).
Qed.

Lemma release_id_script k id w : script_rel w (release_id k id w).
Proof. apply upd_pool_script. intros p Hp. split; [by apply Release_wf|apply kind_Release]. Qed.

Lemma PushEntity_script k r : respects script_rel (PushEntity k r).
Proof.
  intros w Hub. apply off_bus_script.
  - unfold PushEntity. destruct (_ <? 0); [reflexivity|]. by destruct (Push _ _ _ _).
  - split; [|split; [|split; [by apply PushEntity_pools|split]]];
      unfold PushEntity; destruct (_ <? 0); try reflexivity; destruct (Push _ _ _ _);
      [unfold sched_rel; reflexivity|unfold http_rel; reflexivity|by split|by split_and!].
Qed.

Lemma Emit_script e args : respects script_rel (Emit e args).
Proof.
  apply Dispatch_script. apply push_list_respects; [apply _|]. intros k r. apply PushEntity_script.
Qed.

Lemma raise_event_script e args : respects script_rel (raise_event e args).
Proof.
  intros w. unfold raise_event. destruct (Usable w); [|reflexivity].
  apply respects_pbind; [apply _|apply Emit_script|]. intros _. apply respects_pret. apply _.
Qed.

(** ** Callbacks the server makes while a script runs *)

Lemma AfterCallback_in_lua w : InLuaCall w = true -> AfterCallback w = (Ret tt, w).
Proof. intros Hc. apply AfterCallback_undisturbed. by right. Qed.

Lemma guarded_in_lua where_ body w :
  InLuaCall w = true -> respects script_rel body ->
  is_UB (fst (pbind (Guarded where_ body) (fun _ => AfterCallback) w)) = false ->
  script_rel w (snd (pbind (Guarded where_ body) (fun _ => AfterCallback) w)).
Proof.
  intros Hc Hb. pose proof (Guarded_respects script_rel where_ body) as HG.
  specialize (HG (fun l s w => stable_log l s w) Hb w). unfold pbind.
  destruct (Guarded where_ body w) as [[[]|e|] w1]; cbn [fst snd] in *; [|auto|done].
  specialize (HG eq_refl). rewrite AfterCallback_in_lua; [auto|].
  rewrite <- Hc. apply InLuaCall_depth, HG.
Qed.

Lemma OnPlayerDisconnect_in_lua id reason w :
  InLuaCall w = true -> is_UB (fst (OnPlayerDisconnect id reason w)) = false ->
  script_rel w (snd (OnPlayerDisconnect id reason w)).
Proof.
  intros Hc. apply guarded_in_lua; [done|]. intros w0. destruct (negb (Live w0)); [reflexivity|].
  intros Hub. etransitivity; [apply adopt_id_script|]. revert Hub.
  refine (respects_pbind script_rel (raise_event _ _) _ (raise_event_script _ _) _ _).
  intros _ w1 _. cbn [snd]. destruct (Live w1); [apply release_id_script|reflexivity].
Qed.

Lemma OnPlayerConnect_in_lua id w :
  InLuaCall w = true -> is_UB (fst (OnPlayerConnect id w)) = false ->
  script_rel w (snd (OnPlayerConnect id w)).
Proof.
  intros Hc. apply guarded_in_lua; [done|]. intros w0. destruct (negb (Live w0)); [reflexivity|].
  intros Hub. etransitivity; [apply adopt_id_script|].
  exact (raise_event_script PlayerConnect
    [ARef Player (Ref (pool_of Player (adopt_id Player id w0)) id)] _ Hub).
Qed.

Lemma OnEntityPoolChange_in_lua type id deleted w :
  InLuaCall w = true -> is_UB (fst (OnEntityPoolChange type id deleted w)) = false ->
  script_rel w (snd (OnEntityPoolChange type id deleted w)).
Proof.
  intros Hc. apply guarded_in_lua; [done|]. intros w0. destruct (negb (Live w0)); [reflexivity|].
  intros Hub. etransitivity.
  2: { revert Hub.
       refine (respects_pbind script_rel (raise_event _ _) _ (raise_event_script _ _) _ _).
       intros _ w1 _. cbn [snd]. destruct (_ && _); [|reflexivity].
       destruct (FromServerPool type); [apply release_id_script|reflexivity]. }
  destruct (FromServerPool type) as [k|]; [|reflexivity].
  destruct (negb _); [reflexivity|apply adopt_id_script].
Qed.

Lemma OnServerShutdown_in_lua w : InLuaCall w = true -> script_rel w (snd (OnServerShutdown w)).
Proof.
  intros Hc. unfold OnServerShutdown. destruct (negb (present w)); [reflexivity|].
  rewrite Hc. by apply script_rel_same.
Qed.

(** ** The bindings *)

Lemma Require_then_script {A} (k : prog (World S) A) :
  respects script_rel k -> respects script_rel (pbind Require_runtime (fun _ => k)).
Proof.
  intros Hk. apply respects_pbind; [apply _| |by intros _]. intros w _.
  unfold Require_runtime. destruct (Usable w); reflexivity.
Qed.

Lemma on_bus_script f :
  (forall room b r b', f room b = Ret (r, b') -> bus_step b b') -> respects script_rel (on_bus f).
Proof.
  intros Hf w _. unfold on_bus. destruct (f _ _) as [[r b]|e|] eqn:E; [|reflexivity|reflexivity].
  apply Hf in E. by apply off_bus_script; [|apply off_bus_blind].
Qed.

Lemma Event_bind_script name fn : respects script_rel (Event_bind name fn).
Proof.
  apply Require_then_script, on_bus_script. intros room b r b'.
  destruct (RequireEvent b name) as [e| |]; [|done|done].
  destruct (RequireFunction _ _ _); [|done|done]. apply BindHandler_step.
Qed.

Lemma Event_unbind_script name fn : respects script_rel (Event_unbind name fn).
Proof.
  apply Require_then_script, on_bus_script. intros room b r b'.
  destruct (RequireEvent b name) as [e| |]; [|done|done].
  destruct (RequireFunction _ _ _); [|done|done]. apply Unbind_step.
Qed.

Lemma Event_create_script name : respects script_rel (Event_create name).
Proof.
  apply Require_then_script, on_bus_script. intros _ b r b' [= E].
  pose proof (Create_step b name) as H. by rewrite E in H.
Qed.

Lemma Event_cancel_script : respects (@script_rel S) Event_cancel.
Proof.
  apply Require_then_script. intros w _. destruct (Cancel (get_bus w)) as [b|e|] eqn:E; [|reflexivity..].
  apply Cancel_step in E. by apply off_bus_script; [|apply off_bus_blind].
Qed.

Lemma Event_trigger_script name args : respects script_rel (Event_trigger name args).
Proof.
  apply Require_then_script, respects_pbind; [apply _| |].
  { intros w _. reflexivity. }
  intros index. apply respects_pbind; [apply _| |intros c; apply respects_pret; apply _].
  apply Dispatch_script. intros w _. unfold push_variadic. destruct (negb _); reflexivity.
Qed.

Lemma set_sched_script s w : sched_step (get_sched w) s -> script_rel w (set_sched s w).
Proof. intros Hs. split; try done; reflexivity. Qed.

Lemma Timer_create_script fn i r extra : respects script_rel (Timer_create fn i r extra).
Proof.
  apply Require_then_script. intros w _.
  destruct (RequireFunction fn _ _) as [cb| |]; [cbn [mbind outcome_bind]|reflexivity..].
  destruct (ToInteger i _) as [iv| |]; [cbn [mbind outcome_bind]|reflexivity..].
  destruct (ToInteger r _) as [rv| |]; [cbn [mbind outcome_bind]|reflexivity..].
  destruct (CreateTimer _ _ _ _ _ _) as [[id s]| |] eqn:E; [|reflexivity..].
  apply set_sched_script. etransitivity; [by eapply CreateTimer_step|apply SetHandle_step].
Qed.

Lemma Timer_destroy_script id : respects script_rel (Timer_destroy id).
Proof.
  apply Require_then_script. intros w _. pose proof (Destroy_step (get_sched w) id) as Hs.
  destruct (Destroy (get_sched w) id) as [r s]. by apply set_sched_script.
Qed.

Lemma Timer_active_script id : respects (@script_rel S) (Timer_active id).
Proof. apply Require_then_script. intros w _. reflexivity. Qed.

Lemma http_request_script tolstring L refused : respects script_rel (http_request tolstring L refused).
Proof.
  apply Require_then_script, respects_pbind; [apply _|apply respects_plift; apply _|]. intros _.
  apply respects_pbind; [apply _|apply respects_plift; apply _|]. intros cb w _.
  pose proof (Start_step refused (get_http w) cb) as Hs. destruct (Start _ _ _) as [r h].
  split; try done; reflexivity.
Qed.

Lemma Server_reload_script : respects (@script_rel S) Server_reload.
Proof. apply Require_then_script. intros w _. by apply script_rel_same. Qed.
End script.
#[export] Hint Resolve Event_bind_script Event_unbind_script Event_create_script Event_cancel_script
  Event_trigger_script Timer_create_script Timer_destroy_script Timer_active_script
  http_request_script Server_reload_script : vcmp.
