(* ===== verification/MemberRel.v ===== *)
(** What every binding of the entity classes and of Server, Map, Radio, Weapon
    and Sound does to the plugin: it keeps [script_rel], and it is defined,
    except that a rotation table nested deeper than the free Lua stack slots
    is not. The proofs are a type class over the combinators of EntityType.v,
    whose instances follow the definitions. *)
From stdpp Require Import base tactics list gmap strings.
From Stdlib Require Import ZArith Lia Floats.SpecFloat.
From S2P Require Import Prelude.
From S2P Require Import ApiGuard.
From S2P Require Import EntityPool.
From S2P Require Import LuaValue.
From S2P Require Import Args.
From S2P Require Import Invoker.
From S2P Require Import EntityPools.
From S2P Require Import World.
From S2P Require Import Runtime.
From S2P Require Import ServerCalls.
From S2P Require Import EntityType.
From S2P Require Import PlayerMembers.
From S2P Require Import VehicleMembers.
From S2P Require Import ObjectMembers.
From S2P Require Import BindMembers.
From S2P Require Import ServerMembers.
From S2P Require Import ScriptRel.
Open Scope Z_scope.

(** What is assumed of the server: it reports the size of its table as a
    [uint32_t], and a function of the table changes the plugin only through
    the callbacks it makes. *)
Class ServerRespects {S} (server : ServerFns S) := {
  server_size t : funcs server_api = Some t -> size_ok (structSize t);
  server_script t o f args (w : World S) :
    funcs server_api = Some t -> pointer_at t o = Some f -> script_rel w (snd (f args w))
}.

(** ** Outcomes that are defined *)

Class Defined {A} (o : outcome A) : Prop := defined : is_UB o = false.

#[export] Instance defined_ret {A} (a : A) : Defined (Ret a).
Proof. done. Qed.
#[export] Instance defined_throw {A} e : Defined (Throw (A := A) e).
Proof. done. Qed.
#[export] Instance defined_bind {A B} (m : outcome A) (k : A -> outcome B) :
  Defined m -> (forall a, Defined (k a)) -> Defined (m ≫= k).
Proof. intros Hm Hk. destruct m; [apply Hk|done|done]. Qed.
#[export] Hint Extern 1 (Defined (match ?x with _ => _ end)) => destruct x : typeclass_instances.
#[export] Hint Extern 1 (Defined (let _ := _ in _)) => cbv zeta : typeclass_instances.

Section defined_args.
Context {lib : LuaLib}.

#[export] Instance defined_check_range L i v min max : Defined (check_range L i v min max).
Proof. unfold check_range. apply _. Qed.
#[export] Instance defined_CheckInteger L i min max : Defined (CheckInteger L i min max).
Proof. unfold CheckInteger. apply _. Qed.
#[export] Instance defined_CheckNumber L i : Defined (CheckNumber L i).
Proof. unfold CheckNumber. apply _. Qed.
#[export] Instance defined_CheckBoolean L i : Defined (CheckBoolean L i).
Proof. unfold CheckBoolean. apply _. Qed.
#[export] Instance defined_CheckString L i : Defined (CheckString L i).
Proof. unfold CheckString. apply _. Qed.
#[export] Instance defined_CheckColour L i : Defined (CheckColour L i).
Proof. unfold CheckColour. apply _. Qed.
#[export] Instance defined_get_Int T L i : Defined (get_Int T L i).
Proof. unfold get_Int. apply _. Qed.
#[export] Instance defined_get_Float L i : Defined (get_Float L i).
Proof. unfold get_Float. apply _. Qed.
#[export] Instance defined_TableNumber L t i : Defined (TableNumber L t i).
Proof. unfold TableNumber. apply _. Qed.
#[export] Instance defined_TableInteger L t i min max d : Defined (TableInteger L t i min max d).
Proof. unfold TableInteger. apply _. Qed.
#[export] Instance defined_get_Vec3 L i : Defined (get_Vec3 L i).
Proof. unfold get_Vec3. apply _. Qed.
#[export] Instance defined_Int T r i : Defined (ar_Int T r i).
Proof. unfold ar_Int. apply _. Qed.
#[export] Instance defined_IntOr T r i d : Defined (ar_IntOr T r i d).
Proof. unfold ar_IntOr. apply _. Qed.
#[export] Instance defined_Number r i : Defined (ar_Number r i).
Proof. unfold ar_Number. apply _. Qed.
#[export] Instance defined_Bool r i : Defined (ar_Bool r i).
Proof. unfold ar_Bool. apply _. Qed.
#[export] Instance defined_BoolOr r i d : Defined (ar_BoolOr r i d).
Proof. unfold ar_BoolOr. apply _. Qed.
#[export] Instance defined_ColourAt r i : Defined (ar_ColourAt r i).
Proof. unfold ar_ColourAt. apply _. Qed.
#[export] Instance defined_Vector r i : Defined (ar_Vector r i).
Proof. unfold ar_Vector. apply _. Qed.
#[export] Instance defined_Check_error fn e : Defined (Check_error fn e).
Proof. unfold Check_error. apply _. Qed.
#[export] Instance defined_CheckLast fn e : Defined (CheckLast fn e).
Proof. unfold CheckLast. apply _. Qed.
#[export] Instance defined_Require p id gen : Defined (Require p id gen).
Proof. unfold Require. apply _. Qed.
#[export] Instance defined_Tag p id gen : Defined (Tag p id gen).
Proof. unfold Tag. apply _. Qed.
End defined_args.

(** ** Programs and readers *)

Section good.
Context {S : Type} {env : Env S} {server : ServerFns S} {lib : LuaLib} `{!ServerRespects server}.
Abbreviation program A := (prog (World S) A).
Abbreviation reader := (reader (S := S)).

(** [ub] says whether undefined behaviour is allowed. *)
Class Good (ub : bool) {A} (m : program A) : Prop := good : forall w,
  (ub = false -> is_UB (fst (m w)) = false) /\ script_rel w (snd (m w)).
Class RGood (ub : bool) {A} (m : reader A) : Prop := rgood : forall L i, Good ub (m L i).

#[export] Instance good_pret ub {A} (a : A) : Good ub (pret a).
Proof. intros w. by split. Qed.
#[export] Instance good_pthrow ub {A} e : Good ub (pthrow (A := A) e).
Proof. intros w. by split. Qed.
#[export] Instance good_plift ub {A} (o : outcome A) : Defined o -> Good ub (plift o).
Proof. intros Ho w. by split. Qed.
#[export] Instance good_pbind ub {A B} (m : program A) (k : A -> program B) :
  Good ub m -> (forall a, Good ub (k a)) -> Good ub (pbind m k).
Proof.
  intros Hm Hk w. unfold pbind. destruct (Hm w) as [Hub Hs].
  destruct (m w) as [[a|e|] w1]; cbn [fst snd] in *; [|by split|by split].
  destruct (Hk a w1) as [Hub' Hs']. split; [done|by etransitivity].
Qed.
(** A program that only looks at the state. *)
Lemma good_look ub {A} (f : World S -> outcome A) :
  (forall w, Defined (f w)) -> Good ub (fun w => (f w, w)).
Proof. intros Hf w. by split; [intros _; apply Hf|]. Qed.
Lemma good_step ub {A} (a : World S -> A) (f : World S -> World S) :
  (forall w, script_rel w (f w)) -> Good ub (fun w => (Ret (a w), f w)).
Proof. intros Hf w. by split. Qed.

#[export] Instance good_Require ub : Good ub Require_runtime.
Proof. intros w. unfold Require_runtime. by destruct (Usable w). Qed.

Lemma PluginFuncs_field_ok name : field_ok (PluginFuncs_field name).
Proof.
  assert (PluginFuncs_index name <= 294)%nat as Hi.
  { unfold PluginFuncs_index. destruct (list_find _ _) as [[i x]|] eqn:E; [|by vm_compute].
    apply list_find_Some in E as [E _]. apply lookup_lt_Some in E.
    change (length PluginFuncs_names) with 294%nat in E. lia. }
  unfold PluginFuncs_field. split; cbn [field_offset field_size]; lia.
Qed.

(** What a lookup finds is a function of the server's table. *)
Lemma find_server name :
  VCMP_LUA_FIND server_api (PluginFuncs_field name) = Ret None \/
  exists t f, funcs server_api = Some t /\
    pointer_at t (field_offset (PluginFuncs_field name)) = Some f /\
    VCMP_LUA_FIND server_api (PluginFuncs_field name) = Ret (Some f).
Proof.
  unfold VCMP_LUA_FIND. destruct (funcs server_api) as [t|] eqn:E; [|by left].
  unfold VCMP_LUA_HAS_FIELD, read_field.
  destruct (FieldFits _ _ _) eqn:Hf; [|by left].
  destruct (PluginFuncs_field_ok name) as [[Ho _] _].
  apply FieldFits_spec in Hf as [Hfit _]; [|by eapply server_size|done].
  rewrite decide_True by done.
  destruct (pointer_at t _) as [f|] eqn:Hp; [right; by exists t, f|by left].
Qed.

(** The functions a lookup gives, called. *)
Definition server_program (f : list cval -> program answer) : Prop :=
  exists t o g, funcs server_api = Some t /\ pointer_at t o = Some g /\ f = as_program g.

Existing Class server_program.

Lemma server_program_good ub f args : server_program f -> Good ub (f args).
Proof.
  intros (t & o & g & Ht & Hp & ->) w. unfold as_program.
  pose proof (server_script t o g args w Ht Hp) as Hs. by destruct (g args w).
Qed.

Lemma VCMP_FN_bind ub {B} name (k : (list cval -> program answer) -> program B) :
  (forall f, server_program f -> Good ub (k f)) -> Good ub (pbind (VCMP_FN name) k).
Proof.
  intros Hk w. unfold VCMP_FN, VCMP_LUA_API, pbind, plift.
  destruct (find_server name) as [->|(t & f & Ht & Hp & ->)]; simpl; [by split|].
  apply Hk. by exists t, (field_offset (PluginFuncs_field name)), f.
Qed.

#[export] Instance good_call ub name args : Good ub (call name args).
Proof. apply VCMP_FN_bind. intros f Hf. by apply server_program_good. Qed.

#[export] Instance good_Check ub L e : Good ub (Check L e).
Proof. unfold Check. apply _. Qed.
#[export] Instance good_checked ub L name args : Good ub (checked L name args).
Proof. unfold checked. apply _. Qed.
#[export] Instance good_last_error ub : Good ub last_error.
Proof.
  intros w. unfold last_error, find_fn, pbind, plift.
  destruct (find_server "GetLastError") as [->|(t & f & Ht & Hp & ->)]; simpl; [by split|].
  unfold as_program. pose proof (server_script t _ f [] w Ht Hp) as Hs.
  destruct (f [] w) as [a w1]. by split.
Qed.
#[export] Instance good_CheckLastError ub L : Good ub (CheckLastError L).
Proof. unfold CheckLastError. apply _. Qed.
Hint Extern 1 (Good _ (match ?x with _ => _ end)) => destruct x : typeclass_instances.
Hint Extern 1 (Good _ (let _ := _ in _)) => cbv zeta : typeclass_instances.
#[export] Instance good_ReadText ub L n name args : Good ub (ReadText L n name args).
Proof. unfold ReadText. apply _. Qed.
#[export] Instance good_RefOf ub k id : Good ub (RefOf k id).
Proof. by apply (good_look ub (fun w => Ret (Ref (pool_of k w) id))). Qed.
#[export] Instance good_PushEntity ub k r : Good ub (PushEntity k r).
Proof.
  intros w. split; [|apply PushEntity_script]; unfold PushEntity; destruct (_ <? 0); try done;
    by destruct (Push _ _ _ _).
Qed.
Lemma kind_MarkCreatedByUs p id : kind (MarkCreatedByUs p id) = kind p.
Proof. unfold MarkCreatedByUs. by destruct (Alive p id). Qed.

#[export] Instance good_Created ub k L id : Good ub (Created k L id).
Proof.
  unfold Created. destruct (id <? 0); [apply _|]. intros w. split; [done|].
  etransitivity; [apply adopt_id_script|]. apply upd_pool_script.
  intros p Hp. split; [by apply (run_op_wf p (OMark id))|apply kind_MarkCreatedByUs].
Qed.
#[export] Instance good_RequireBindExists ub id : Good ub (RequireBindExists id).
Proof.
  intros w. unfold RequireBindExists. destruct (KeyBindExists _ _); [by split|].
  split; [done|apply release_id_script].
Qed.
#[export] Instance good_CheckLive ub k L i : Good ub (CheckLive k L i).
Proof.
  unfold CheckLive. apply good_pbind; [apply _|]. intros _. destruct (ToHandle k L i); [|apply _].
  apply good_pbind; [|apply _]. by apply good_look; apply _.
Qed.
End good.
#[export] Hint Extern 1 (Good _ (match ?x with _ => _ end)) => destruct x : typeclass_instances.
#[export] Hint Extern 1 (Good _ (let _ := _ in _)) => cbv zeta : typeclass_instances.

#[export] Hint Extern 1 (Good _ (?f _)) => is_var f; apply server_program_good : typeclass_instances.
#[export] Typeclasses Opaque rret rbind run slot checked_arg Vec3_arg Opt both Live_arg Handle_arg
  variadic Any Table_arg Ctx new_table server_fn check_call Int Float Double Boolean String_arg Colour
  r_nil r_none r_bool r_int r_num r_text r_ref r_table r_vec server_call server_checked check_last
  server_vec checked_answer discard get_int get_flag get_num get_vec get_ref get_text done_checked
  do_checked int_or_last_error flag_or_last_error num_or_last_error int_method destroy
  streamed_for_player set_with pret pthrow plift pbind call checked Check last_error CheckLastError
  ReadText RefOf Created CheckLive PushEntity Require_runtime RequireBindExists.

Section readers.
Context {S : Type} {env : Env S} {server : ServerFns S} {lib : LuaLib} `{!ServerRespects server}.
Abbreviation program A := (prog (World S) A).
Abbreviation reader := (reader (S := S)).

#[export] Instance rgood_rret ub {A} (a : A) : RGood (S := S) ub (rret a).
Proof. intros L i. unfold rret. apply _. Qed.
#[export] Instance rgood_rbind ub {A B} (m : reader A) (k : A -> reader B) :
  RGood ub m -> (forall a, RGood ub (k a)) -> RGood ub (rbind m k).
Proof. intros Hm Hk L i. unfold rbind. apply good_pbind; [apply Hm|]. intros [a j]. apply Hk. Qed.
#[export] Instance rgood_run ub {A} (m : lua_State -> program A) :
  (forall L, Good ub (m L)) -> RGood ub (run m).
Proof. intros Hm L i. unfold run. apply _. Qed.
#[export] Instance rgood_slot ub {A} (get : lua_State -> Z -> outcome A) :
  (forall L i, Defined (get L i)) -> RGood (S := S) ub (slot get).
Proof. intros Hg L i. unfold slot. apply _. Qed.
#[export] Instance rgood_checked_arg ub {A} (o : outcome A) :
  Defined o -> RGood (S := S) ub (checked_arg o).
Proof. intros Ho. unfold checked_arg. apply _. Qed.
#[export] Instance rgood_Vec3 ub : RGood (S := S) ub Vec3_arg.
Proof. intros L i. unfold Vec3_arg. apply _. Qed.
#[export] Instance rgood_Opt ub {A} (m : reader A) : RGood ub m -> RGood ub (Opt m).
Proof.
  intros Hm L i. unfold Opt. destruct (isnoneornil L i); [apply _|].
  apply good_pbind; [apply Hm|]. intros [a j]. apply _.
Qed.
#[export] Instance rgood_both ub {A B} (m : reader A) (m' : reader B) :
  RGood ub m -> RGood ub m' -> RGood ub (both m m').
Proof. intros Hm Hm'. unfold both. destruct last_argument_first; apply _. Qed.
#[export] Instance rgood_Live ub k : RGood (S := S) ub (Live_arg k).
Proof. intros L i. unfold Live_arg. apply _. Qed.
#[export] Instance rgood_Handle ub k : RGood (S := S) ub (Handle_arg k).
Proof. intros L i. unfold Handle_arg. apply _. Qed.
#[export] Instance rgood_variadic ub : RGood (S := S) ub variadic.
Proof. intros L i. unfold variadic. apply _. Qed.
#[export] Instance rgood_Any ub : RGood (S := S) ub Any.
Proof. intros L i. unfold Any. apply _. Qed.
#[export] Instance rgood_Table_arg ub : RGood (S := S) ub Table_arg.
Proof. intros L i. unfold Table_arg. apply _. Qed.
#[export] Instance rgood_Ctx ub : RGood (S := S) ub Ctx.
Proof. unfold Ctx. apply _. Qed.

(** Results and new tables only look at the state. *)
#[export] Instance rgood_new_table ub n es : RGood (S := S) ub (new_table n es).
Proof.
  unfold new_table. apply rgood_run. intros _.
  by apply (good_look ub (fun w => Ret (LTable (env_new_obj n w) es))).
Qed.
#[export] Instance rgood_r_vec ub v : RGood (S := S) ub (r_vec v).
Proof.
  unfold r_vec. apply rgood_run. intros _.
  by apply (good_look ub (fun w => Ret [push_Vec3 (env_new_obj 0 w) v])).
Qed.
#[export] Instance rgood_VCMP_FN ub {B} name (k : (list cval -> program answer) -> reader B) :
  (forall f, server_program f -> RGood ub (k f)) -> RGood ub (rbind (server_fn name) k).
Proof.
  intros Hk L i. unfold rbind, server_fn, run.
  assert (Good ub (pbind (VCMP_FN name) (fun f => k f L i))) as H.
  { apply VCMP_FN_bind. intros f Hf. by apply Hk. }
  intros w. specialize (H w). unfold pbind in *. by destruct (VCMP_FN name w) as [[f|e|] w1].
Qed.
Lemma rgood_assoc ub {A B C} (m : reader A) (f : A -> reader B) (g : B -> reader C) :
  RGood ub (rbind m (fun a => rbind (f a) g)) -> RGood ub (rbind (rbind m f) g).
Proof.
  intros H L i w. specialize (H L i w). unfold rbind, pbind in *.
  by destruct (m L i w) as [[[a j]|e|] w1].
Qed.
#[export] Instance rgood_both_fns ub {B} name name'
    (k : (list cval -> program answer) * (list cval -> program answer) -> reader B) :
  (forall f g, server_program f -> server_program g -> RGood ub (k (f, g))) ->
  RGood ub (rbind (both (server_fn name) (server_fn name')) k).
Proof.
  intros Hk. unfold both. destruct last_argument_first; apply rgood_assoc, rgood_VCMP_FN; intros f Hf;
    apply rgood_assoc, rgood_VCMP_FN; intros g Hg;
    [exact (Hk g f Hg Hf)|exact (Hk f g Hf Hg)].
Qed.
Lemma rgood_check_call ub fn args : server_program fn -> RGood ub (check_call fn args).
Proof.
  intros Hf. unfold check_call. apply rgood_run. intros L. apply good_pbind; [|apply _].
  by apply server_program_good.
Qed.
End readers.
#[export] Hint Extern 1 (RGood _ (match ?x with _ => _ end)) => destruct x : typeclass_instances.
#[export] Hint Extern 1 (RGood _ (let _ := _ in _)) => cbv zeta : typeclass_instances.
#[export] Hint Extern 1 (RGood _ (check_call _ _)) => apply rgood_check_call; assumption : typeclass_instances.

(** ** The shapes of EntityType.v *)

(** A definition made of these combinators: unfolded once, then by instances. *)
Ltac solve_good := intros; apply _.

Section shapes.
Context {S : Type} {env : Env S} {server : ServerFns S} {lib : LuaLib} `{!ServerRespects server}.
Abbreviation program A := (prog (World S) A).
Abbreviation reader := (reader (S := S)).
Implicit Types (self : Live).

#[export] Instance rgood_Int ub T : RGood (S := S) ub (Int T).
Proof. unfold Int. solve_good. Qed.
#[export] Instance rgood_Float ub : RGood (S := S) ub Float.
Proof. unfold Float. solve_good. Qed.
#[export] Instance rgood_Double ub : RGood (S := S) ub Double.
Proof. unfold Double. solve_good. Qed.
#[export] Instance rgood_Boolean ub : RGood (S := S) ub Boolean.
Proof. unfold Boolean. solve_good. Qed.
#[export] Instance rgood_String ub : RGood (S := S) ub String_arg.
Proof. unfold String_arg. solve_good. Qed.
#[export] Instance rgood_Colour ub : RGood (S := S) ub Colour.
Proof. unfold Colour. solve_good. Qed.
#[export] Instance rgood_r_nil ub : RGood (S := S) ub r_nil.
Proof. unfold r_nil. solve_good. Qed.
#[export] Instance rgood_r_none ub : RGood (S := S) ub r_none.
Proof. unfold r_none. solve_good. Qed.
#[export] Instance rgood_r_bool ub b : RGood (S := S) ub (r_bool b).
Proof. unfold r_bool. solve_good. Qed.
#[export] Instance rgood_r_int ub z : RGood (S := S) ub (r_int z).
Proof. unfold r_int. solve_good. Qed.
#[export] Instance rgood_r_num ub f : RGood (S := S) ub (r_num f).
Proof. unfold r_num. solve_good. Qed.
#[export] Instance rgood_r_text ub s : RGood (S := S) ub (r_text s).
Proof. unfold r_text. solve_good. Qed.
#[export] Instance rgood_r_ref ub k r : RGood (S := S) ub (r_ref k r).
Proof. unfold r_ref. solve_good. Qed.
#[export] Instance rgood_r_table ub es : RGood (S := S) ub (r_table es).
Proof. unfold r_table. solve_good. Qed.
#[export] Instance rgood_server_call ub name args : RGood (S := S) ub (server_call name args).
Proof. unfold server_call. solve_good. Qed.
#[export] Instance rgood_server_checked ub name args : RGood (S := S) ub (server_checked name args).
Proof. unfold server_checked. solve_good. Qed.
#[export] Instance rgood_check_last ub : RGood (S := S) ub check_last.
Proof. unfold check_last. solve_good. Qed.
#[export] Instance rgood_server_vec ub name args : RGood (S := S) ub (server_vec name args).
Proof. unfold server_vec. solve_good. Qed.
#[export] Instance rgood_checked_answer ub name args : RGood (S := S) ub (checked_answer name args).
Proof. unfold checked_answer. solve_good. Qed.
#[export] Instance rgood_discard ub {A} (m : reader A) : RGood ub m -> RGood ub (discard m).
Proof. unfold discard. solve_good. Qed.
#[export] Instance rgood_get_int ub name self : RGood (S := S) ub (get_int name self).
Proof. unfold get_int. solve_good. Qed.
#[export] Instance rgood_get_flag ub name self : RGood (S := S) ub (get_flag name self).
Proof. unfold get_flag. solve_good. Qed.
#[export] Instance rgood_get_num ub name self : RGood (S := S) ub (get_num name self).
Proof. unfold get_num. solve_good. Qed.
#[export] Instance rgood_get_vec ub name self : RGood (S := S) ub (get_vec name self).
Proof. unfold get_vec. solve_good. Qed.
#[export] Instance rgood_get_ref ub k name self : RGood (S := S) ub (get_ref k name self).
Proof. unfold get_ref. solve_good. Qed.
#[export] Instance rgood_get_text ub name self : RGood (S := S) ub (get_text name self).
Proof. unfold get_text. solve_good. Qed.
#[export] Instance rgood_done_checked ub name args : RGood (S := S) ub (done_checked name args).
Proof. unfold done_checked. solve_good. Qed.
#[export] Instance rgood_do_checked ub name self : RGood (S := S) ub (do_checked name self).
Proof. unfold do_checked. solve_good. Qed.
#[export] Instance rgood_int_or ub name args : RGood (S := S) ub (int_or_last_error name args).
Proof. unfold int_or_last_error. solve_good. Qed.
#[export] Instance rgood_flag_or ub name args : RGood (S := S) ub (flag_or_last_error name args).
Proof. unfold flag_or_last_error. solve_good. Qed.
#[export] Instance rgood_num_or ub name args : RGood (S := S) ub (num_or_last_error name args).
Proof. unfold num_or_last_error. solve_good. Qed.
#[export] Instance rgood_int_method ub T f self :
  (forall z, RGood ub (f self z)) -> RGood (S := S) ub (int_method T f self).
Proof. unfold int_method. solve_good. Qed.
#[export] Instance rgood_destroy ub k name self : RGood (S := S) ub (destroy k name self).
Proof.
  unfold destroy. apply rgood_rbind; [apply _|]. intros []; [|solve_good].
  apply rgood_rbind; [|solve_good]. apply rgood_run. intros _.
  apply (good_step ub (fun _ => tt) (release_id k (l_id self))). intros w. apply release_id_script.
Qed.
#[export] Instance rgood_streamed ub name self : RGood (S := S) ub (streamed_for_player name self).
Proof. unfold streamed_for_player. solve_good. Qed.
End shapes.

(** ** Members *)

Section members.
Context {S : Type} {env : Env S} {server : ServerFns S} {lib : LuaLib} `{!ServerRespects server}.
Abbreviation program A := (prog (World S) A).
Abbreviation reader := (reader (S := S)).

(** A reader that leaves the state alone, is defined, and whose results
    satisfy [P]: the value of an assignment is read by one. *)
Class Yields {A} (P : A -> Prop) (m : reader A) : Prop := yields : forall L i w,
  snd (m L i w) = w /\ is_UB (fst (m L i w)) = false /\
  forall a j, fst (m L i w) = Ret (a, j) -> P a.

#[export] Instance yields_rret {A} (P : A -> Prop) (a : A) : P a -> Yields P (rret a).
Proof. intros Ha L i w. split_and!; [done..|]. by intros ? ? [= <- <-]. Qed.
#[export] Instance yields_rbind {A B} (P : B -> Prop) (m : reader A) (k : A -> reader B) :
  Yields (fun _ => True) m -> (forall a, Yields P (k a)) -> Yields P (rbind m k).
Proof.
  intros Hm Hk L i w. unfold rbind, pbind. destruct (Hm L i w) as (E & Hub & _).
  destruct (m L i w) as [[[a j]|e|] w1]; cbn [fst snd] in *; subst; [apply Hk| |done].
  by split_and!.
Qed.
#[export] Instance yields_slot {A} (get : lua_State -> Z -> outcome A) :
  (forall L i, Defined (get L i)) -> Yields (fun _ => True) (slot get).
Proof.
  intros Hg L i w. split_and!; [done| |done]. unfold slot, plift. simpl.
  assert (Defined (a ← get L i; Ret (a, i + 1))) as H by apply _. exact H.
Qed.
#[export] Instance yields_Vec3 : Yields (fun _ => True) Vec3_arg.
Proof.
  intros L i w. split_and!; [done| |done]. unfold Vec3_arg, plift. simpl.
  assert (Defined ('(v, used) ← get_Vec3 L i; Ret (v, i + used))) as H by apply _. exact H.
Qed.
#[export] Instance yields_Any : Yields (fun _ => True) Any.
Proof. by intros L i w. Qed.
#[export] Instance yields_Table_arg : Yields (fun _ => True) Table_arg.
Proof. intros L i w. unfold Table_arg. by destruct (at_index L i) as [[]|]. Qed.
#[export] Instance yields_Opt {A} (m : reader A) :
  Yields (fun _ => True) m -> Yields (fun _ => True) (Opt m).
Proof.
  intros Hm L i w. unfold Opt, pbind. destruct (isnoneornil L i); [done|].
  destruct (Hm L i w) as (E & Hub & _).
  by destruct (m L i w) as [[[a j]|e|] w1]; cbn [fst snd] in *; subst.
Qed.
Lemma yields_Live k : k <> Bind -> Yields (fun _ => True) (Live_arg k).
Proof.
  intros Hk L i w. unfold Live_arg, CheckLive, Require_runtime, pbind.
  destruct (Usable w); [|done]. destruct (ToHandle k L i) as [h|]; [|done].
  pose proof (defined_Require (pool_of k w) (h_id h) (h_generation h)) as Hd. unfold Defined in Hd.
  destruct (Require _ _ _); [by destruct k|done|done].
Qed.
#[export] Instance yields_Int T : Yields (fun _ => True) (Int T).
Proof. unfold Int. apply _. Qed.
#[export] Instance yields_Float : Yields (fun _ => True) Float.
Proof. unfold Float. apply _. Qed.
#[export] Instance yields_Boolean : Yields (fun _ => True) Boolean.
Proof. unfold Boolean. apply _. Qed.
#[export] Instance yields_String : Yields (fun _ => True) String_arg.
Proof. unfold String_arg. apply _. Qed.
#[export] Instance yields_Colour : Yields (fun _ => True) Colour.
Proof. unfold Colour. apply _. Qed.

(** What is shown of a member; [ub]: whether it may be undefined. *)
Class MemberGood (ub : bool) (m : member (S := S)) : Prop := member_good :
  match m with
  | Static body => RGood ub body
  | Method body => forall self, RGood ub (body self)
  | Property get => forall self, RGood ub (get self)
  | PropertyRW get set =>
      (forall self, RGood ub (get self)) /\ Yields (fun f => forall self, RGood ub (f self)) set
  | OnHandle body => forall h, RGood ub (body h)
  | HandleProperty get set =>
      (forall h, RGood ub (get h)) /\
      match set with
      | Some set => Yields (fun f => forall h, RGood ub (f h)) set
      | None => True
      end
  end.

#[export] Instance member_Static ub body : RGood ub body -> MemberGood ub (Static body).
Proof. done. Qed.
#[export] Instance member_Method ub body :
  (forall self, RGood ub (body self)) -> MemberGood ub (Method body).
Proof. done. Qed.
#[export] Instance member_Property ub get :
  (forall self, RGood ub (get self)) -> MemberGood ub (Property get).
Proof. done. Qed.
#[export] Instance member_PropertyRW ub get set :
  (forall self, RGood ub (get self)) -> Yields (fun f => forall self, RGood ub (f self)) set ->
  MemberGood ub (PropertyRW get set).
Proof. by split. Qed.
#[export] Instance member_OnHandle ub body :
  (forall h, RGood ub (body h)) -> MemberGood ub (OnHandle body).
Proof. done. Qed.

#[export] Instance member_HandleProperty ub get :
  (forall h, RGood ub (get h)) -> MemberGood ub (HandleProperty get None).
Proof. by split. Qed.
#[export] Instance member_HandlePropertyRW ub get set :
  (forall h, RGood ub (get h)) -> Yields (fun f => forall h, RGood ub (f h)) set ->
  MemberGood ub (HandleProperty get (Some set)).
Proof. by split. Qed.
#[export] Instance yields_setter ub {A B} (f : A -> reader B) :
  (forall x, RGood ub (f x)) -> Yields (fun f => forall x, RGood ub (f x)) (rret f).
Proof. intros Hf. by apply yields_rret. Qed.

#[export] Instance yields_set_with ub {A} (value : reader A) f name :
  Yields (fun _ => True) value ->
  Yields (fun f => forall self, RGood ub (f self)) (set_with value f name).
Proof. intros Hv. unfold set_with. apply yields_rbind; [done|]. intros a. apply yields_rret. solve_good. Qed.

(** Using a member. *)
Lemma use_member_good ub k m a L p :
  MemberGood ub m -> use_member k m a L = Some p -> Good ub p.
Proof.
  assert (forall r : reader results, RGood ub r -> Good ub (pbind (r L 1) (fun '(vs, _) => pret vs)))
    as Hon.
  { intros r Hr. apply good_pbind; [apply Hr|]. intros [vs j]. apply _. }
  assert (forall A (P : A -> Prop) (set : reader A) (g : A -> reader results), Yields P set ->
    (forall x, P x -> RGood ub (g x)) -> RGood ub (rbind (fun L _ => set L 3) g)) as Hset.
  { intros A P set g Hset Hg L' i w. unfold rbind, pbind. destruct (Hset L' 3 w) as (E & Hub & HP).
    destruct (set L' 3 w) as [[[x j]|e|] w1]; cbn [fst snd] in *; subst; [|by split|done].
    apply Hg. by eapply HP. }
  intros Hm. destruct m as [body|body|get|get set|body|get [set|]], a; cbn [use_member];
    try done; intros [= <-]; apply Hon; unfold MemberGood in Hm.
  - exact Hm.
  - apply _.
  - apply rgood_rbind; [apply _|]. intros _ L' i. by apply (rgood_rbind ub (Live_arg k) get); [apply _|].
  - apply rgood_rbind; [apply _|]. intros _ L' i. destruct Hm as [Hg _].
    by apply (rgood_rbind ub (Live_arg k) get); [apply _|].
  - apply rgood_rbind; [apply _|]. intros _. destruct Hm as [_ Hs]. eapply Hset; [exact Hs|].
    intros f Hf L' i. apply (rgood_rbind ub (Live_arg k)); [apply _|]. intros self.
    apply rgood_discard, Hf.
  - apply _.
  - apply rgood_rbind; [apply _|]. apply Hm.
  - apply rgood_rbind; [apply _|]. intros h. destruct Hm as [_ Hs]. eapply Hset; [exact Hs|].
    intros f Hf. apply rgood_discard, Hf.
  - apply rgood_rbind; [apply _|]. apply Hm.
Qed.
End members.
#[export] Hint Extern 1 (Yields _ (Live_arg _)) => apply yields_Live; discriminate : typeclass_instances.

(** ** The classes *)

(** The members that take a rotation table. *)
Definition rotation_members : list string := ["setRotation"; "rotation"; "angle"; "spawnRotation"].
Definition takes_rotation (name : string) : bool := existsb (String.eqb name) rotation_members.

(** Solves [Forall] over an explicit list of members. *)
Ltac each_member := repeat first [apply Forall_nil_2 | apply Forall_cons_2; [cbn beta iota; apply _|]].

Section classes.
Context {S : Type} {env : Env S} {server : ServerFns S} {lib : LuaLib} `{!ServerRespects server}.
Abbreviation class := (class (S := S)).
Abbreviation reader := (reader (S := S)).
Implicit Types (self : Live) (w : World S).

(** [ub]: the names of the members that may be undefined. *)
Definition class_good (ub : string -> bool) (c : class) : Prop :=
  Forall (fun '(n, m) => MemberGood (ub n) m) c.

(** A pool operation whose result is stored. *)
Lemma run_op_script k op w p' :
  run_op (pool_of k w) op = p' -> script_rel w (upd_pool k (fun _ => p') w).
Proof.
  intros <-. apply (upd_pool_script k (fun p => run_op p op)).
  intros p Hp. split; [by apply run_op_wf|apply run_op_shape].
Qed.

(** A pool operation that may raise an error. *)
Lemma good_pool ub {A B} k (f : World S -> outcome (B * EntityPool)) (g : B -> A)
    (op : World S -> pool_op) :
  (forall w, Defined (f w)) ->
  (forall w b p, f w = Ret (b, p) -> run_op (pool_of k w) (op w) = p) ->
  Good ub (fun w => match f w with
    | Ret (b, p) => (Ret (g b), upd_pool k (fun _ => p) w)
    | Throw e => (Throw e, w) | UB => (UB, w) end).
Proof.
  intros Hd Hop w. pose proof (Hd w) as Hub. unfold Defined in Hub.
  destruct (f w) as [[b p]|e|] eqn:E; [|by split|done].
  split; [done|]. by eapply run_op_script, Hop.
Qed.

#[export] Instance defined_Data p obj id gen : Defined (Data p obj id gen).
Proof. unfold Data. apply _. Qed.
#[export] Instance defined_SetData p id gen d : Defined (SetData p id gen d).
Proof. unfold SetData. apply _. Qed.
#[export] Instance defined_SetTag p id gen t : Defined (SetTag p id gen t).
Proof. unfold SetTag. apply _. Qed.

#[export] Instance good_get_data ub k h : Good (S := S) ub (get_data k h).
Proof.
  unfold get_data. apply good_pbind; [apply _|]. intros _.
  apply (good_pool ub k (fun w => Data (pool_of k w) (env_new_obj 0 w) (h_id h) (h_generation h))
    (fun d => LTable d []) (fun w => OData (env_new_obj 0 w) (h_id h) (h_generation h))); [apply _|].
  intros w d p E. simpl. by rewrite E.
Qed.
#[export] Instance good_set_data ub k h d : Good (S := S) ub (EntityType.set_data k h d).
Proof.
  unfold EntityType.set_data. apply good_pbind; [apply _|]. intros _ w.
  pose proof (defined_SetData (pool_of k w) (h_id h) (h_generation h) d) as Hub. unfold Defined in Hub.
  destruct (SetData _ _ _ _) as [p|e|] eqn:E; [|by split|done].
  split; [done|]. eapply (run_op_script k (OSetData (h_id h) (h_generation h) d)). simpl. by rewrite E.
Qed.
#[export] Instance good_alive_ids ub k : Good (S := S) ub (alive_ids k).
Proof. by apply (good_look ub (fun w => Ret (AliveIds (pool_of k w)))). Qed.
#[export] Instance good_push_refs ub k ids : Good (S := S) ub (push_refs k ids).
Proof. induction ids as [|id ids IH]; cbn [push_refs]; apply _. Qed.
Lemma rgood_alive ub k h : RGood (S := S) ub (run (fun _ w => (Ret (IsAlive k h w), w))).
Proof. apply rgood_run. intros _. by apply (good_look ub (fun w => Ret (IsAlive k h w))). Qed.
Hint Extern 1 (RGood _ (run (fun _ w => (Ret (IsAlive _ _ w), w)))) => apply rgood_alive : typeclass_instances.

Lemma RegisterKind_good ub k : class_good ub (RegisterKind k).
Proof.
  unfold class_good, RegisterKind. each_member.
Qed.

(** Player. *)
#[export] Instance rgood_Position ub self : RGood (S := S) ub (Position self).
Proof. unfold Position. solve_good. Qed.
#[export] Instance rgood_Message ub self c t : RGood (S := S) ub (Message self c t).
Proof. unfold Message. solve_good. Qed.
#[export] Instance rgood_Announce ub self c t : RGood (S := S) ub (Announce self c t).
Proof. unfold Announce. solve_good. Qed.
#[export] Instance rgood_PlaySoundAt ub self c t : RGood (S := S) ub (PlaySoundAt self c t).
Proof. unfold PlaySoundAt. solve_good. Qed.
#[export] Instance rgood_each_player ub ids fn :
  (forall p, RGood ub (fn p)) -> RGood (S := S) ub (each_player ids fn).
Proof. intros Hf. induction ids as [|id ids IH]; cbn [each_player]; solve_good. Qed.
#[export] Instance rgood_ForEachPlayer ub fn :
  (forall p, RGood ub (fn p)) -> RGood (S := S) ub (ForEachPlayer fn).
Proof. unfold ForEachPlayer. solve_good. Qed.
#[export] Instance rgood_active_players ub b ids : RGood (S := S) ub (active_players b ids).
Proof. induction ids as [|id ids IH]; cbn [active_players]; solve_good. Qed.

Lemma RegisterPlayer_good ub : class_good ub RegisterPlayer.
Proof.
  unfold class_good, RegisterPlayer. rewrite !Forall_app. split_and!.
  - unfold player_statics. each_member.
  - unfold player_methods_1. each_member.
  - unfold player_methods_2. each_member.
  - unfold player_getter_members, player_getters, drunk_handling, drunk_visuals.
    cbn [fmap list_fmap app]. each_member.
  - unfold player_readonly. each_member.
  - unfold player_writable, drunk_handling, drunk_visuals. each_member.
  - unfold player_entities. each_member.
Qed.

(** Object, Pickup and Checkpoint. *)
#[export] Instance defined_ReadColour L t a : Defined (ReadColour L t a).
Proof. unfold ReadColour, Channel. apply _. Qed.

Lemma RegisterObject_good ub : class_good ub RegisterObject.
Proof. unfold class_good, RegisterObject. each_member. Qed.
Lemma RegisterPickup_good ub : class_good ub RegisterPickup.
Proof. unfold class_good, RegisterPickup. each_member. Qed.
Lemma RegisterCheckpoint_good ub : class_good ub RegisterCheckpoint.
Proof. unfold class_good, RegisterCheckpoint. each_member. Qed.

(** Vehicle. *)
#[export] Instance defined_table_angle args : Defined (table_angle args).
Proof. unfold table_angle. apply _. Qed.
#[export] Instance rgood_speed_from ub f self r :
  server_program f -> RGood (S := S) ub (speed_from f self r).
Proof.
  intros Hf. unfold speed_from. apply rgood_run. intros L. apply good_pbind; [|apply _].
  by apply server_program_good.
Qed.
#[export] Instance rgood_GetSpeed ub self which : RGood (S := S) ub (GetSpeed self which).
Proof. unfold GetSpeed. solve_good. Qed.
#[export] Instance rgood_reset_rules ub self t l all : RGood (S := S) ub (reset_rules self t l all).
Proof. revert all. induction l as [|i l IH]; intros all; cbn [reset_rules]; solve_good. Qed.

Lemma SetRotationFromTable_good slots self L i spawn :
  Good (S := S) true (SetRotationFromTable slots self L i spawn).
Proof.
  revert L i. induction slots as [|slots IH]; intros L i w; [by split|].
  cbn [SetRotationFromTable].
  assert (Good (S := S) true (set_flat_rotation self L i spawn)) as Hflat
    by (unfold set_flat_rotation; apply _).
  destruct (RawField L i "quaternion"), (RawField L i "euler"); first [apply IH|apply Hflat].
Qed.
#[export] Instance rgood_setRotation self : RGood (S := S) true (setRotation self).
Proof.
  unfold setRotation. apply rgood_rbind; [apply _|]. intros args. destruct (decide _); [|apply _].
  apply rgood_rbind; [|solve_good]. apply rgood_run. intros L. apply SetRotationFromTable_good.
Qed.
#[export] Instance yields_SetRotation spawn :
  Yields (fun f => forall self, RGood (S := S) true (f self)) (SetRotation spawn).
Proof.
  unfold SetRotation. apply yields_rbind; [apply _|]. intros v. apply yields_setter. intros self.
  apply rgood_run. intros L. destruct v; try apply _. apply SetRotationFromTable_good.
Qed.
#[export] Instance rgood_GetRotation ub self : RGood (S := S) ub (GetRotation self).
Proof. unfold GetRotation. solve_good. Qed.

Lemma RegisterVehicle_good : class_good takes_rotation RegisterVehicle.
Proof.
  unfold class_good, RegisterVehicle. rewrite !Forall_app. split_and!.
  - unfold vehicle_statics. each_member.
  - unfold vehicle_methods_1. each_member.
  - unfold vehicle_methods_2. each_member.
  - unfold vehicle_properties_1. each_member.
  - unfold vehicle_properties_2. each_member.
Qed.

(** Bind and Blip. *)
#[export] Instance rgood_failed ub {A} what : RGood (S := S) ub (failed (A := A) what).
Proof. unfold failed. solve_good. Qed.
#[export] Instance rgood_release ub {A} (a : A) k id :
  RGood (S := S) ub (run (fun _ w => (Ret a, release_id k id w))).
Proof.
  apply rgood_run. intros _. apply (good_step ub (fun _ => a) (release_id k id)).
  intros w. apply release_id_script.
Qed.
#[export] Instance rgood_Remove ub self : RGood (S := S) ub (Remove self).
Proof. unfold Remove. solve_good. Qed.
#[export] Instance rgood_remove_all ub ids : RGood (S := S) ub (remove_all ids).
Proof. induction ids as [|id ids IH]; cbn [remove_all]; solve_good. Qed.
#[export] Instance good_find_by_tag ub tag ids : Good (S := S) ub (find_by_tag tag ids).
Proof.
  induction ids as [|id ids IH]; intros w; cbn [find_by_tag]; [by split|].
  pose proof (defined_Tag (pool_of Bind w) (ref_id (Ref (pool_of Bind w) id))
    (ref_generation (Ref (pool_of Bind w) id))) as Hub. unfold Defined in Hub.
  destruct (Tag _ _ _); [|by split|done]. destruct (String.eqb _ _); [by split|apply IH].
Qed.
#[export] Instance rgood_look ub {A} (f : World S -> outcome A) :
  (forall w, Defined (f w)) -> RGood (S := S) ub (run (fun _ w => (f w, w))).
Proof. intros Hf. apply rgood_run. intros _. by apply good_look. Qed.
#[export] Instance rgood_get_tag ub self : RGood (S := S) ub (get_tag self).
Proof. unfold get_tag. solve_good. Qed.
#[export] Instance yields_set_tag ub :
  Yields (fun f => forall self, RGood (S := S) ub (f self)) set_tag.
Proof.
  unfold set_tag. apply yields_rbind; [apply _|]. intros tag. apply yields_setter. intros self.
  apply rgood_run. intros _ w.
  pose proof (defined_SetTag (pool_of Bind w) (l_id self) (l_generation self) tag) as Hub.
  unfold Defined in Hub. destruct (SetTag _ _ _ _) as [p|e|] eqn:E; [|by split|done].
  split; [done|]. eapply (run_op_script Bind (OSetTag (l_id self) (l_generation self) tag)).
  simpl. by rewrite E.
Qed.

Lemma RegisterBind_good ub : class_good ub RegisterBind.
Proof. unfold class_good, RegisterBind. each_member. Qed.

#[export] Instance rgood_BlipId ub : RGood (S := S) ub BlipId.
Proof. intros L i. unfold BlipId. apply _. Qed.
Lemma RegisterBlip_good ub : class_good ub RegisterBlip.
Proof. unfold class_good, RegisterBlip. each_member. Qed.
End classes.

(** ** Server and the tables *)

Section server_members.
Context {S : Type} {env : Env S} {server : ServerFns S} {lib : LuaLib} `{!ServerRespects server}.
Abbreviation reader := (reader (S := S)).

Class ServerMemberGood (ub : bool) (m : server_member (S := S)) : Prop := server_member_good :
  match m with
  | Function body => RGood ub body
  | ServerProperty get set => RGood ub get /\ Yields (fun f => RGood ub f) set
  end.

#[export] Instance smember_Function ub body : RGood ub body -> ServerMemberGood ub (Function body).
Proof. done. Qed.
#[export] Instance smember_property ub get set :
  RGood ub get -> Yields (fun f => RGood ub f) set -> ServerMemberGood ub (server_property get set).
Proof.
  intros Hg Hs. split; [solve_good|]. intros L i w. unfold rbind, pbind.
  destruct (Hs L i w) as (E & Hub & HP). destruct (set L i w) as [[[f j]|e|] w1];
    cbn [fst snd] in *; subst; [|by split_and!|done].
  split_and!; [done..|]. intros ? ? [= <- <-]. apply rgood_rbind; [apply _|]. intros _. by eapply HP.
Qed.
#[export] Instance yields_set_from ub {A} (value : reader A) (f : A -> reader unit) :
  Yields (fun _ => True) value -> (forall a, RGood ub (f a)) ->
  Yields (fun f => RGood ub f) (set_from value f).
Proof. intros Hv Hf. unfold set_from. apply yields_rbind; [done|]. intros a. by apply yields_rret. Qed.

#[export] Instance rgood_Server_self ub : RGood (S := S) ub Server_self.
Proof. intros L i. unfold Server_self. apply _. Qed.

(** Using a member of Server. *)
Lemma use_server_member_good ub m a L p :
  ServerMemberGood ub m -> use_server_member m a L = Some p -> Good ub p.
Proof.
  assert (forall r : reader results, RGood ub r -> Good ub (pbind (r L 1) (fun '(vs, _) => pret vs)))
    as Hon.
  { intros r Hr. apply good_pbind; [apply Hr|]. intros [vs j]. apply _. }
  intros Hm. destruct m as [body|get set], a; cbn [use_server_member]; try done;
    intros [= <-]; apply Hon; unfold ServerMemberGood in Hm.
  - exact Hm.
  - destruct Hm. apply _.
  - apply rgood_rbind; [apply _|]. intros _ L' i w. destruct Hm as [_ Hs].
    unfold rbind, pbind. destruct (Hs L' 3 w) as (E & Hub & HP).
    destruct (set L' 3 w) as [[[f j]|e|] w1]; cbn [fst snd] in *; subst; [|by split|done].
    apply (rgood_discard ub f). by eapply HP.
Qed.

#[export] Instance rgood_set_checked ub name args : RGood (S := S) ub (set_checked name args).
Proof. unfold set_checked. solve_good. Qed.
#[export] Instance rgood_set_called ub name args : RGood (S := S) ub (set_called name args).
Proof. unfold set_called. solve_good. Qed.
#[export] Instance rgood_ReadServerText ub name : RGood (S := S) ub (ReadServerText name).
Proof. unfold ReadServerText. solve_good. Qed.
#[export] Instance defined_weapon_args args i n : Defined (weapon_args args i n).
Proof. revert i. induction n as [|n IH]; intros i; cbn [weapon_args]; apply _. Qed.
#[export] Instance rgood_AddClass ub : RGood (S := S) ub AddClass.
Proof. unfold AddClass. solve_good. Qed.
#[export] Instance rgood_getSettings ub : RGood (S := S) ub getSettings.
Proof. unfold getSettings. solve_good. Qed.
#[export] Instance rgood_get_max ub : RGood (S := S) ub get_max_players.
Proof. unfold get_max_players. solve_good. Qed.
#[export] Instance rgood_banIP ub ip : RGood (S := S) ub (banIP ip).
Proof. unfold banIP. solve_good. Qed.
#[export] Instance rgood_reload ub :
  RGood (S := S) ub (run (fun _ w => (Ret tt, RequestReload w))).
Proof.
  apply rgood_run. intros _. apply (good_step ub (fun _ => tt) RequestReload).
  intros w. by apply script_rel_same.
Qed.
#[export] Instance defined_wasted {A} (check : lua_State -> Z -> outcome A) L key old :
  (forall L i, Defined (check L i)) -> Defined (wasted_field check L key old).
Proof. intros Hc. unfold wasted_field. apply _. Qed.
#[export] Instance defined_wasted_fields L old : Defined (wasted_fields L old).
Proof. unfold wasted_fields, wasted_integer, wasted_number, wasted_colour. apply _. Qed.
#[export] Instance rgood_GetWasted ub : RGood (S := S) ub GetWastedSettings.
Proof. unfold GetWastedSettings. solve_good. Qed.
#[export] Instance rgood_set_wasted ub v : RGood (S := S) ub (set_wasted v).
Proof. unfold set_wasted. solve_good. Qed.
#[export] Instance defined_Tenths L v i : Defined (Tenths L v i).
Proof. unfold Tenths. apply _. Qed.
#[export] Instance rgood_tenths ub v : RGood (S := S) ub (tenths_of v).
Proof. unfold tenths_of. solve_good. Qed.
#[export] Instance rgood_map_object ub name : RGood (S := S) ub (map_object name).
Proof. unfold map_object. solve_good. Qed.
#[export] Instance rgood_district ub : RGood (S := S) ub getDistrictName.
Proof. unfold getDistrictName. solve_good. Qed.

Lemma RegisterServerTable_good ub :
  Forall (fun '(_, m) => ServerMemberGood ub m) RegisterServerTable.
Proof.
  unfold RegisterServerTable, server_functions, server_settings, server_text, int_setting, num_setting,
    set_vector, ip_flag. rewrite !Forall_app. split_and!; each_member.
Qed.

Lemma tables_good ub :
  Forall (fun '(_, f) => RGood (S := S) ub f)
    (RegisterMap ++ RegisterRadio ++ RegisterWeapon ++ RegisterSound).
Proof.
  unfold RegisterMap, RegisterRadio, RegisterWeapon, RegisterSound. rewrite !Forall_app.
  split_and!; each_member.
Qed.
End server_members.
