(* ===== verification/Members.v ===== *)
(** The entity classes as scripts see them (src/bindings/entities.cpp), and the
    theorems about all their members: a dead handle raises, no member but the
    ones that take a rotation table is ever undefined, what Kind.create and
    destroy() do to the handle. *)
From stdpp Require Import base tactics list gmap strings.
From Stdlib Require Import ZArith Lia Floats.SpecFloat.
From S2P Require Import Prelude.
From S2P Require Import ApiGuard.
From S2P Require Import EntityPool.
From S2P Require Import LuaValue.
From S2P Require Import Args.
From S2P Require Import EntityPools.
From S2P Require Import World.
From S2P Require Import Runtime.
From S2P Require Import ServerCalls.
From S2P Require Import EntityType.
From S2P Require Import PlayerMembers.
From S2P Require Import VehicleMembers.
From S2P Require Import ObjectMembers.
From S2P Require Import BindMembers.
From S2P Require Import ServerMembers.
From S2P Require Import Callbacks.
From S2P Require Import ScriptRel.
From S2P Require Import MemberRel.
Open Scope Z_scope.
Open Scope reader_scope.

Section classes.
Context {S : Type} {env : Env S} {server : ServerFns S} {lib : LuaLib}.
Implicit Types (w : World S).
Abbreviation class := (class (S := S)).
Abbreviation program A := (prog (World S) A).

(** What each kind's own Register function adds. *)
Definition own_members (k : EntityKind) : class :=
  match k with
  | Player => RegisterPlayer | Vehicle => RegisterVehicle | Object => RegisterObject
  | Pickup => RegisterPickup | Checkpoint => RegisterCheckpoint | Blip => RegisterBlip
  | Bind => RegisterBind
  end.

(** [RegisterEntities]. *)
Definition class_of (k : EntityKind) : class := RegisterKind k ++ own_members k.

(** A script uses member [name] of class [k]; [None]: there is no such member,
    or it cannot be used so. *)
Definition use_entity (k : EntityKind) (name : string) (a : access) (L : lua_State)
    : option (program results) :=
  m ← find_member (class_of k) name; use_member k m a L.
Definition use_server (name : string) (a : access) (L : lua_State) : option (program results) :=
  match list_find (fun p => fst p = name) (reverse RegisterServerTable) with
  | Some (_, (_, m)) => use_server_member m a L
  | None => None
  end.

(** The tables of functions, and a call of one. *)
Definition tables : list (string * functions) :=
  [ ("Map", RegisterMap); ("Radio", RegisterRadio); ("Weapon", RegisterWeapon);
    ("Sound", RegisterSound) ].
Definition use_table (table name : string) (L : lua_State) : option (program results) :=
  match list_find (fun t => fst t = table) tables with
  | Some (_, (_, fs)) =>
      match list_find (fun f => fst f = name) fs with
      | Some (_, (_, body)) => Some (pbind (body L 1) (fun '(vs, _) => pret vs))
      | None => None
      end
  | None => None
  end.

(** ** Dead handles *)

(** The members that take the bare handle. *)
Definition takes_handle (m : member (S := S)) : bool :=
  match m with OnHandle _ | HandleProperty _ _ => true | _ => false end.
(** The values of assignments are read without touching the state. *)
Definition ValuePure (m : member (S := S)) : Prop :=
  match m with PropertyRW _ set => Yields (fun _ => True) set | _ => True end.

Lemma own_members_live k : Forall (fun '(_, m) => takes_handle m = false) (own_members k).
Proof.
  destruct k; cbn [own_members]; repeat first [apply Forall_nil_2 | apply Forall_cons_2; [reflexivity|]].
Qed.

#[export] Instance yields_rret_any {A} (a : A) : Yields (S := S) (fun _ => True) (rret a).
Proof. by intros L i w. Qed.

#[export] Instance yields_set_with_any {A} (value : EntityType.reader (S := S) A) f name :
  Yields (fun _ => True) value -> Yields (fun _ => True) (set_with value f name).
Proof. intros Hv. unfold set_with. apply _. Qed.

Lemma own_members_pure k : Forall (fun '(_, m) => ValuePure m) (own_members k).
Proof.
  destruct k; cbn [own_members];
    repeat first [apply Forall_nil_2 | apply Forall_cons_2; [cbn [ValuePure]; first [exact I|apply _]|]].
Qed.

(** The error of a handle whose entity is gone. *)
Definition no_longer_exists (k : EntityKind) : exn :=
  RuntimeError (name (Traits k) +:+ " no longer exists").

(** A thread whose first argument is a handle that is not valid. *)
Record dead_handle (k : EntityKind) (L : lua_State) w (h : EntityHandle) : Prop := mkDead
  { dh_at : at_index L 1 = Some (LHandle h); dh_kind : h_kind h = k;
    dh_usable : Usable w = true; dh_open : closed (pool_of k w) = false;
    dh_pools : kind (pool_of k w) = k;
    dh_invalid : Valid (pool_of k w) (h_id h) (h_generation h) = false }.

Lemma Require_dead k L w h :
  dead_handle k L w h ->
  Require (pool_of k w) (h_id h) (h_generation h) = Throw (no_longer_exists k).
Proof.
  intros [_ _ _ Ho Hk Hv]. unfold Require. rewrite Ho, Hv. simpl. unfold pool_traits. by rewrite Hk.
Qed.

Lemma ToHandle_dead k L w h : dead_handle k L w h -> ToHandle k L 1 = Some h.
Proof. intros [Ha Hk _ _ _ _]. unfold ToHandle. rewrite Ha. by rewrite decide_True. Qed.

Lemma Live_arg_dead k L w h :
  dead_handle k L w h -> Live_arg k L 1 w = (Throw (no_longer_exists k), w).
Proof.
  intros Hd. unfold Live_arg, CheckLive, Require_runtime, pbind. rewrite (dh_usable _ _ _ _ Hd).
  rewrite (ToHandle_dead _ _ _ _ Hd). by rewrite (Require_dead _ _ _ _ Hd).
Qed.

Lemma Handle_arg_dead k L w h :
  dead_handle k L w h -> Handle_arg k L 1 w = (Ret (h, 2), w).
Proof. intros Hd. unfold Handle_arg. by rewrite (ToHandle_dead _ _ _ _ Hd). Qed.

(** The value of an assignment is read first, and then the handle checked. *)
Lemma at_value_throws {A} (set : EntityType.reader (S := S) A) (g : A -> EntityType.reader (S := S) results) L w w' e :
  Yields (fun _ => True) set -> (forall x i, g x L i w = (Throw e, w')) ->
  exists e' w1, rbind (fun L _ => set L 3) g L 2 w = (Throw e', w1) /\ (w1 = w \/ w1 = w').
Proof.
  intros Hs Hg. unfold rbind, pbind. destruct (Hs L 3 w) as (E & Hub & _).
  destruct (set L 3 w) as [[[x j]|e'|] w1]; cbn [fst snd] in *; subst; [|by eauto|done].
  rewrite Hg. by eauto.
Qed.

(** A member that checks its handle raises what the check raises. *)
Lemma live_member_throws k m a L w w' h e p :
  ToHandle k L 1 = Some h -> Live_arg k L 1 w = (Throw e, w') ->
  takes_handle m = false -> ValuePure m -> use_member k m a L = Some p ->
  (exists body, m = Static body) \/
  exists e' w1, p w = (Throw e', w1) /\ (a <> ASet -> e' = e /\ w1 = w') /\ (w1 = w \/ w1 = w').
Proof.
  intros Hh Ht Hm Hp.
  assert (forall get : Live -> EntityType.reader (S := S) results,
    rbind (Live_arg k) get L 1 w = (Throw e, w')) as Hlive.
  { intros get. unfold rbind, pbind. by rewrite Ht. }
  assert (forall r : EntityType.reader (S := S) results,
    rbind (Handle_arg k) (fun _ => r) L 1 w = r L 2 w) as Hhandle.
  { intros r. unfold rbind, pbind, Handle_arg. by rewrite Hh. }
  destruct m as [body|body|get|get set| |], a; try done; cbn [use_member]; intros [= <-];
    [left; by eexists|right..].
  - exists e, w'. unfold pbind. rewrite Hlive. auto.
  - exists e, w'. unfold pbind. rewrite Hhandle, Hlive. auto.
  - exists e, w'. unfold pbind. rewrite Hhandle, Hlive. auto.
  - unfold pbind. rewrite Hhandle. destruct (at_value_throws set (fun f => (fun L _ =>
      rbind (Live_arg k) (fun self => discard (f self)) L 1)) L w w' e) as (e' & w1 & -> & Hw);
      [done| |by exists e', w1]. intros f i. exact (Hlive _).
Qed.

Lemma dead_live_member k m a L w h p :
  dead_handle k L w h -> takes_handle m = false -> ValuePure m -> use_member k m a L = Some p ->
  (exists body, m = Static body) \/
  exists e, p w = (Throw e, w) /\ (a <> ASet -> e = no_longer_exists k).
Proof.
  intros Hd Hm Hp Hu. destruct (live_member_throws k m a L w w h (no_longer_exists k) p) as [Hs|H];
    [by eapply ToHandle_dead|by eapply Live_arg_dead|done..|by left|right].
  destruct H as (e & w1 & -> & He & [-> | ->]); exists e; (split; [done|]); intros Ha; by apply He.
Qed.

Lemma get_data_dead k L w h :
  dead_handle k L w h -> get_data k h w = (Throw (no_longer_exists k), w).
Proof.
  intros Hd. unfold get_data, Require_runtime, pbind. rewrite (dh_usable _ _ _ _ Hd).
  unfold Data. by rewrite (Require_dead _ _ _ _ Hd).
Qed.
Lemma set_data_dead k L w h d :
  dead_handle k L w h -> EntityType.set_data k h d w = (Throw (no_longer_exists k), w).
Proof.
  intros Hd. unfold EntityType.set_data, Require_runtime, pbind. rewrite (dh_usable _ _ _ _ Hd).
  unfold SetData. by rewrite (Require_dead _ _ _ _ Hd).
Qed.

Lemma dead_data k a L w h p :
  dead_handle k L w h ->
  use_member k (HandleProperty (fun h => t <~ run (fun _ => get_data k h);; rret [t])
    (Some (d <~ Table_arg;; rret (fun h => run (fun _ => EntityType.set_data k h d))))) a L = Some p ->
  exists e, p w = (Throw e, w) /\ (a <> ASet -> e = no_longer_exists k).
Proof.
  intros Hd. destruct a; [done|..]; cbn [use_member]; intros [= <-].
  - exists (no_longer_exists k). unfold pbind at 1, rbind at 1. unfold pbind at 1.
    rewrite (Handle_arg_dead _ _ _ _ Hd). unfold rbind, run, pbind.
    by rewrite (get_data_dead _ _ _ _ Hd).
  - unfold pbind at 1, rbind at 1. unfold pbind at 1. rewrite (Handle_arg_dead _ _ _ _ Hd).
    unfold rbind, Table_arg. destruct (at_index L 3) as [[]|]; try by eexists.
    exists (no_longer_exists k). unfold discard, rbind, run, pbind. simpl.
    by rewrite (set_data_dead _ _ _ _ _ Hd).
Qed.


(** ** Key binds that another plugin removed *)

(** A thread whose first argument is a bind the pool still has and the server
    has no more. *)
Record removed_bind (L : lua_State) w (h : EntityHandle) : Prop := mkRemovedBind
  { rb_at : at_index L 1 = Some (LHandle h); rb_kind : h_kind h = Bind;
    rb_usable : Usable w = true; rb_pools : pools_wf (get_pools w);
    rb_open : closed (pool_of Bind w) = false;
    rb_valid : Valid (pool_of Bind w) (h_id h) (h_generation h) = true;
    rb_gone : KeyBindExists (env_queries w) (h_id h) = false }.

Lemma Live_arg_removed L w h :
  removed_bind L w h ->
  Live_arg Bind L 1 w = (Throw (no_longer_exists Bind), release_id Bind (h_id h) w).
Proof.
  intros [Ha Hk Hu _ Ho Hv Hg]. unfold Live_arg, CheckLive, Require_runtime, pbind. rewrite Hu.
  unfold ToHandle. rewrite Ha, decide_True by done. unfold Require. rewrite Ho, Hv.
  unfold RequireBindExists. by rewrite Hg.
Qed.

(** C17: Using a key bind that another plugin removed asks the server, raises
    [bind no longer exists] and releases the bind, so that no handle to it is
    valid any more; this holds for its every member but [valid], [getType],
    [tostring] and [data], which do not ask the server (an assignment may
    complain about its value instead, and then leaves the bind alone). *)
Theorem removed_binds_are_released n m a L w h p :
  removed_bind L w h -> (n, m) ∈ class_of Bind -> use_member Bind m a L = Some p ->
  (exists body, m = Static body) \/ n ∈ ["valid"; "getType"; "__tostring"; "data"] \/
  exists e w', p w = (Throw e, w') /\
    (a <> ASet -> e = no_longer_exists Bind /\ w' = release_id Bind (h_id h) w) /\
    (w' = w \/ w' = release_id Bind (h_id h) w) /\
    forall gen, Valid (pool_of Bind (release_id Bind (h_id h) w)) (h_id h) gen = false.
Proof.
  intros Hr Hin Hp.
  assert (ToHandle Bind L 1 = Some h) as Hh.
  { unfold ToHandle. rewrite (rb_at _ _ _ Hr). by rewrite decide_True by apply Hr. }
  assert (forall gen, Valid (pool_of Bind (release_id Bind (h_id h) w)) (h_id h) gen = false) as Hv.
  { intros gen. unfold Valid. by rewrite (Alive_release_id Bind (h_id h) w (rb_pools _ _ _ Hr)). }
  assert (takes_handle m = false -> ValuePure m -> (exists body, m = Static body) \/
    exists e w', p w = (Throw e, w') /\
      (a <> ASet -> e = no_longer_exists Bind /\ w' = release_id Bind (h_id h) w) /\
      (w' = w \/ w' = release_id Bind (h_id h) w) /\
      forall gen, Valid (pool_of Bind (release_id Bind (h_id h) w)) (h_id h) gen = false) as Hlive.
  { intros Hm Hpure. destruct (live_member_throws Bind m a L w _ h _ p Hh (Live_arg_removed _ _ _ Hr) Hm Hpure Hp)
      as [?|(e & w' & ? & ? & ?)]; [by left|right]. by exists e, w'. }
  unfold class_of in Hin. apply elem_of_app in Hin as [Hin|Hin].
  - unfold RegisterKind in Hin.
    repeat (apply elem_of_cons in Hin as [[= -> ->]|Hin];
      [first [solve [right; left; repeat constructor] | solve [destruct (Hlive eq_refl I); auto]]|]).
    by apply not_elem_of_nil in Hin.
  - pose proof (own_members_live Bind) as Hl. pose proof (own_members_pure Bind) as Hpu.
    rewrite Forall_forall in Hl, Hpu. specialize (Hl _ Hin). specialize (Hpu _ Hin). simpl in *.
    destruct (Hlive Hl Hpu); auto.
Qed.

(** ** Every binding is defined *)

(** The members that may be undefined: those that take a rotation table. *)
Definition may_be_undefined (k : EntityKind) (n : string) : bool :=
  bool_decide (k = Vehicle) && takes_rotation n.

Lemma class_of_good `{!ServerRespects server} k : class_good (may_be_undefined k) (class_of k).
Proof.
  unfold class_of. apply Forall_app_2; [apply RegisterKind_good|].
  destruct k; cbn [own_members]; [apply RegisterPlayer_good|apply RegisterVehicle_good
    |apply RegisterObject_good|apply RegisterPickup_good|apply RegisterCheckpoint_good
    |apply RegisterBlip_good|apply RegisterBind_good].
Qed.

(** A member that is found is one of the class. *)
Lemma first_member_in (c : class) name m : first_member c name = Some m -> (name, m) ∈ c.
Proof.
  induction c as [|[n m'] c IH]; [done|]. cbn [first_member]. case_bool_decide as Hn.
  - intros [= ->]. rewrite Hn. constructor.
  - intros H. constructor. by apply IH.
Qed.

Lemma use_entity_script `{!ServerRespects server} k name a L p w :
  use_entity k name a L = Some p -> script_rel w (snd (p w)).
Proof.
  unfold use_entity, find_member. intros Hp. apply bind_Some in Hp as (m & Hm & Hp).
  apply first_member_in in Hm. rewrite elem_of_reverse in Hm.
  pose proof (class_of_good k) as Hg. unfold class_good in Hg. rewrite Forall_forall in Hg.
  apply (use_member_good _ _ _ _ _ _ (Hg _ Hm) Hp w).
Qed.
Lemma use_server_script `{!ServerRespects server} name a L p w :
  use_server name a L = Some p -> script_rel w (snd (p w)).
Proof.
  unfold use_server. destruct (list_find _ _) as [[i [n m]]|] eqn:E; [|done]. intros Hp.
  apply list_find_Some in E as (E & _). apply list_elem_of_lookup_2 in E. rewrite elem_of_reverse in E.
  pose proof (RegisterServerTable_good false) as Hg. rewrite Forall_forall in Hg.
  apply (use_server_member_good _ _ _ _ _ (Hg _ E) Hp w).
Qed.
Lemma table_function_good `{!ServerRespects server} t fs n body :
  (t, fs) ∈ tables -> (n, body) ∈ fs -> RGood false body.
Proof.
  intros Ht Hin. pose proof (tables_good false) as Hg. rewrite Forall_forall in Hg.
  apply (Hg (n, body)). unfold tables in Ht. rewrite !elem_of_app.
  repeat (apply elem_of_cons in Ht as [[= -> ->]|Ht]; [tauto|]). by apply not_elem_of_nil in Ht.
Qed.
Lemma use_table_script `{!ServerRespects server} table name L p w :
  use_table table name L = Some p -> script_rel w (snd (p w)).
Proof.
  unfold use_table. destruct (list_find _ tables) as [[i [t fs]]|] eqn:E; [|done].
  destruct (list_find _ fs) as [[j [n body]]|] eqn:E'; [|done]. intros [= <-].
  apply list_find_Some in E as (E & _). apply list_elem_of_lookup_2 in E.
  apply list_find_Some in E' as (E' & _). apply list_elem_of_lookup_2 in E'.
  pose proof (table_function_good _ _ _ _ E E') as Hb.
  assert (Good false (pbind (body L 1) (fun '(vs, _) => pret vs))) as Hp.
  { apply good_pbind; [apply Hb|]. intros [vs k]. apply _. }
  apply Hp.
Qed.

(** C11: Whatever a script passes, no binding of the entity classes, of Server,
    Map, Radio, Weapon or Sound runs into undefined behaviour, except the
    Vehicle members that take a rotation table; all of them leave the plugin as
    a script may (handlers, timers, requests and pools stay well formed, the
    call depth is balanced, the runtime stays). *)
Theorem bindings_are_defined `{!ServerRespects server} w :
  (forall k n m a L p, (n, m) ∈ class_of k -> use_member k m a L = Some p ->
     script_rel w (snd (p w)) /\
     (may_be_undefined k n = false -> is_UB (fst (p w)) = false)) /\
  (forall n m a L p, (n, m) ∈ RegisterServerTable -> use_server_member m a L = Some p ->
     script_rel w (snd (p w)) /\ is_UB (fst (p w)) = false) /\
  (forall t fs n body L i, (t, fs) ∈ tables -> (n, body) ∈ fs ->
     script_rel w (snd (body L i w)) /\ is_UB (fst (body L i w)) = false).
Proof.
  split_and!.
  - intros k n m a L p Hin Hp. pose proof (class_of_good k) as Hg. unfold class_good in Hg.
    rewrite Forall_forall in Hg. specialize (Hg _ Hin). simpl in Hg.
    destruct (use_member_good _ _ _ _ _ _ Hg Hp w). done.
  - intros n m a L p Hin Hp. pose proof (RegisterServerTable_good false) as Hg.
    rewrite Forall_forall in Hg. specialize (Hg _ Hin). simpl in Hg.
    destruct (use_server_member_good _ _ _ _ _ Hg Hp w). auto.
  - intros t fs n body L i Ht Hin.
    destruct (table_function_good _ _ _ _ Ht Hin L i w) as [Hub Hs]. auto.
Qed.

(** ** Creating and destroying *)

Lemma adopt_mark p id :
  pool_wf p -> InRange p id = true ->
  let p' := MarkCreatedByUs (fst (Adopt p id)) id in
  pool_wf p' /\ kind p' = kind p /\ closed p' = closed p /\ id ∈ CreatedByUs p' /\
  Valid p' id (ref_generation (Ref (fst (Adopt p id)) id)) = true /\
  ref_id (Ref (fst (Adopt p id)) id) = id.
Proof.
  intros Hwf Hr. pose proof (Alive_Adopt p id id Hwf Hr) as Ha. rewrite Z.eqb_refl in Ha.
  pose proof (Adopt_wf p id Hwf) as Hwf1. pose proof (kind_Adopt p id) as Hk1.
  assert (closed (fst (Adopt p id)) = closed p) as Hc1.
  { unfold Adopt. rewrite Hr. simpl. by destruct (alive _). }
  revert Ha Hwf1 Hk1 Hc1. generalize (fst (Adopt p id)). intros p1 Ha Hwf1 Hk1 Hc1.
  assert (InRange p1 id = true) as Hr1 by by apply Alive_InRange.
  pose proof (run_op_wf p1 (OMark id) Hwf1) as Hwf2. simpl in Hwf2.
  unfold Ref, MarkCreatedByUs in *. rewrite Ha in *. simpl.
  assert (Alive (set_slot p1 id (mkSlot (alive (Slot p1 id)) true (generation (Slot p1 id))
    (handle (Slot p1 id)) (data (Slot p1 id)) (tag (Slot p1 id)))) id = true) as Ha2.
  { unfold Alive. rewrite InRange_set_slot, Hr1, Slot_set_slot_eq by done. simpl. by apply Alive_slot. }
  split_and!; [done..| | |done].
  - apply CreatedByUs_spec. split; [done|]. by rewrite Slot_set_slot_eq.
  - unfold Valid. rewrite Ha2, Slot_set_slot_eq by done. simpl. apply Z.eqb_refl.
Qed.

Lemma Push_Valid p obj id g :
  pool_wf p -> closed p = false -> Valid p id g = true ->
  exists h p', Push p obj id g = (Some h, p') /\ h_kind h = kind p /\ h_id h = id /\
    h_generation h = g /\ Valid p' id g = true /\ (id ∈ CreatedByUs p -> id ∈ CreatedByUs p').
Proof.
  intros Hwf Hc Hv. pose proof (Alive_InRange _ _ (Valid_Alive _ _ _ Hv)) as Hr.
  pose proof (Valid_generation _ _ _ Hv) as Hg. unfold Push. rewrite Hc, Hv. simpl.
  destruct (handle (Slot p id)) as [h|] eqn:Hh.
  - destruct (swf_handle _ _ _ (Slot_wf _ _ Hwf Hr) h Hh) as (? & ? & ?).
    exists h, p. split_and!; try done; congruence.
  - eexists _, _. split; [reflexivity|]. simpl. split_and!; [done..| |].
    + unfold Valid, Alive in *. rewrite InRange_set_slot, Hr, Slot_set_slot_eq by done. simpl.
      apply andb_true_iff in Hv as [Ha ?]. rewrite Hr in Ha. simpl in Ha. by rewrite Ha.
    + rewrite !CreatedByUs_spec. unfold Alive. rewrite InRange_set_slot, Slot_set_slot_eq by done. done.
Qed.

(** What every [create] does with the id the server gave. *)
Definition created_ref (k : EntityKind) (id : Z) : EntityType.reader (S := S) results :=
  r <~ run (fun L => Created k L id);; r_ref k r.

(** C12: [create] gives a handle to the entity the server created: it is valid,
    of the class, has the server's id, and is marked as created by the scripts,
    so that a reload deletes it. An id below zero is a refusal and always
    raises; only an id outside the pool, which a warning reports, gives nil. *)
Theorem create_gives_a_live_handle k L i id w :
  pools_wf (get_pools w) -> closed (pool_of k w) = false ->
  (id < 0 -> forall r, fst (created_ref k id L i w) <> Ret r) /\
  (0 <= id -> InRange (pool_of k w) id = false ->
     fst (created_ref k id L i w) = Ret ([LNil], i)) /\
  (InRange (pool_of k w) id = true -> exists h w',
     created_ref k id L i w = (Ret ([LHandle h], i), w') /\ h_kind h = k /\ h_id h = id /\
     Valid (pool_of k w') id (h_generation h) = true /\ id ∈ CreatedByUs (pool_of k w')).
Proof.
  intros Hwf Hc. unfold created_ref, rbind, run, r_ref, Created. split_and!.
  - intros Hid r. apply Z.ltb_lt in Hid. rewrite Hid. unfold pbind, Check, plift.
    destruct (last_error w) as [[e|e|] w1]; simpl; [|done|done].
    destruct (negb _); simpl; [|done]. by destruct (Check_error _ _).
  - intros Hid Hr. replace (id <? 0) with false by (symmetry; apply Z.ltb_ge; lia).
    unfold pbind, rbind, run, pret. cbv beta iota.
    replace (Ref (pool_of k (adopt_id k id w)) id) with no_ref; [done|].
    unfold pool_of. rewrite adopt_id_pools, (Get_put_eq _ _ _ (pswf_length _ Hwf)).
    unfold Ref, Alive. by rewrite InRange_Adopt, Hr.
  - intros Hr. assert (0 <= id) as Hid.
    { apply InRange_true in Hr. unfold pool_traits in Hr. destruct (kind (pool_of k w)); simpl in Hr; lia. }
    replace (id <? 0) with false by (symmetry; apply Z.ltb_ge; lia).
    destruct (adopt_mark (pool_of k w) id (pswf_pool _ Hwf k) Hr) as (Hwf' & Hk & Hc' & Hin & Hv & Hrid).
    set (w1 := upd_pool k (fun p => MarkCreatedByUs p id) (adopt_id k id w)).
    assert (pool_of k (adopt_id k id w) = fst (Adopt (pool_of k w) id)) as Hp1.
    { unfold pool_of. by rewrite adopt_id_pools, (Get_put_eq _ _ _ (pswf_length _ Hwf)). }
    assert (pool_of k w1 = MarkCreatedByUs (fst (Adopt (pool_of k w) id)) id) as Hp.
    { unfold w1. rewrite pool_of_upd by by apply adopt_id_wf. by rewrite Hp1. }
    assert (pools_wf (get_pools w1)) as Hwf1.
    { unfold w1. apply pools_wf_upd; [by apply adopt_id_wf|]. intros p Hpw.
      split; [by apply (run_op_wf p (OMark id))|apply kind_MarkCreatedByUs]. }
    unfold pbind, run, pret. cbv beta iota. fold w1. rewrite Hp1.
    unfold PushEntity. rewrite Hrid.
    replace (id <? 0) with false by (symmetry; apply Z.ltb_ge; lia). rewrite <- Hp in *.
    unfold pbind. cbv beta.
    destruct (Push_Valid (pool_of k w1) (env_new_obj 0 w1) id _ Hwf' ltac:(congruence) Hv)
      as (h & p' & -> & Hhk & Hhi & Hhg & Hv' & Hin').
    exists h. eexists. split; [reflexivity|]. rewrite Hhk, Hhg. rewrite pool_of_upd by done.
    split_and!; [|done..|by auto]. rewrite Hk. apply (pswf_kind _ Hwf).
Qed.

End classes.

(** ** Argument forms *)

(** The arguments [vs] of a function, above what lies below them ([pre]: the
    self of a method). *)
Definition args_of (fr : option lua_Debug) (pre vs : list lua_value) : ArgReader :=
  mkReader (mkState fr (pre ++ vs)) (Z.of_nat (length pre) + 1).

Lemma ar_type_args fr pre vs (i : nat) :
  ar_type (args_of fr pre vs) (Z.of_nat i + 1) =
    match vs !! i with Some v => type_of v | None => TNone end.
Proof.
  unfold ar_type, ltype, at_index, ar_index, args_of. simpl.
  rewrite (proj2 (Z.leb_gt _ _)) by lia.
  rewrite lookup_app_r by lia. by replace (Z.to_nat _ - length pre)%nat with i by lia.
Qed.
Lemma ar_count_args fr pre vs : ar_count (args_of fr pre vs) = Z.of_nat (length vs).
Proof. unfold ar_count, args_of, lua_gettop. simpl. rewrite length_app. lia. Qed.

(** A position: a table, or three numbers. *)
Inductive vector_args : list lua_value -> Prop :=
  | vector_table t : type_of t = TTable -> vector_args [t]
  | vector_numbers x y z : type_of x = TNumber -> type_of y = TNumber -> type_of z = TNumber ->
      vector_args [x; y; z].

(** The documented forms of the arguments are told apart: setSpeed with and
    without the speed's type, Blip.create with and without an index, Sound.play
    with and without a world, whether the vector is a table or three numbers
    and whether the optional arguments are there. *)
Theorem argument_forms_are_told_apart fr pre v n m s c p :
  vector_args v -> Forall (fun x => type_of x = TNumber) [n; m; s; c; p] ->
  (forall add, Forall (fun b => type_of b = TBoolean) add -> (length add <= 1)%nat ->
     typed_speed (args_of fr pre (n :: v ++ add)) = true /\
     typed_speed (args_of fr pre (v ++ add)) = false) /\
  (indexed_form (args_of fr pre (n :: m :: v ++ [s; c; p])) = true /\
   indexed_form (args_of fr pre (m :: v ++ [s; c; p])) = false) /\
  (forall at_, at_ = [] \/ at_ = v ->
     has_world (args_of fr pre (m :: n :: at_)) = true /\
     has_world (args_of fr pre (n :: at_)) = false).
Proof.
  intros Hv Hn. repeat (apply Forall_cons in Hn as [? Hn]).
  assert (forall vs, ar_type (args_of fr pre vs) 1 = match vs !! 0%nat with Some v => type_of v | None => TNone end)
    as T1 by exact (fun vs => ar_type_args fr pre vs 0).
  assert (forall vs, ar_type (args_of fr pre vs) 2 = match vs !! 1%nat with Some v => type_of v | None => TNone end)
    as T2 by exact (fun vs => ar_type_args fr pre vs 1).
  assert (forall vs, ar_type (args_of fr pre vs) 3 = match vs !! 2%nat with Some v => type_of v | None => TNone end)
    as T3 by exact (fun vs => ar_type_args fr pre vs 2).
  assert (forall vs, ar_type (args_of fr pre vs) 4 = match vs !! 3%nat with Some v => type_of v | None => TNone end)
    as T4 by exact (fun vs => ar_type_args fr pre vs 3).
  split_and!.
  - intros add Hadd Hl.
    assert (add = [] \/ exists b, add = [b] /\ type_of b = TBoolean) as [->|(b & -> & Hb)].
    { destruct add as [|b [|]]; [by left|right|simpl in Hl; lia]. exists b. by apply Forall_cons in Hadd as []. }
    + destruct Hv; unfold typed_speed; rewrite ?T1, ?T2, ?T3, ?T4; simpl; split;
        repeat match goal with H : type_of _ = _ |- _ => rewrite H end; done.
    + destruct Hv; unfold typed_speed; rewrite ?T1, ?T2, ?T3, ?T4; simpl; split;
        repeat match goal with H : type_of _ = _ |- _ => rewrite H end; done.
  - destruct Hv; unfold indexed_form; rewrite ?T1, ?T2, ?T3, ?T4, !ar_count_args; simpl;
      repeat match goal with H : type_of _ = _ |- _ => rewrite H end; done.
  - destruct Hv; unfold indexed_form; rewrite ?T1, ?T2, ?T3, ?T4, !ar_count_args; simpl;
      repeat match goal with H : type_of _ = _ |- _ => rewrite H end; done.
  - intros at_ [->| ->]; [|destruct Hv]; unfold has_world; rewrite ?T1, ?T2, ?T3, ?T4, !ar_count_args; simpl;
      repeat match goal with H : type_of _ = _ |- _ => rewrite H end; done.
Qed.
