(* ===== verification/Creates.v ===== *)
(** What the constructors of the classes send to the server
    (src/bindings/vehicle.cpp, object.cpp, pickup.cpp, checkpoint.cpp,
    server.cpp): every form of the arguments that docs/api/ lists leads to the
    one call of the server it describes, with its defaults. *)
From stdpp Require Import base tactics list strings.
From Stdlib Require Import ZArith Lia Floats.SpecFloat.
From S2P Require Import Prelude.
From S2P Require Import ApiGuard.
From S2P Require Import EntityPool.
From S2P Require Import LuaValue.
From S2P Require Import Args.
From S2P Require Import EntityPools.
From S2P Require Import World.
From S2P Require Import Runtime.
From S2P Require Import ServerCalls.
From S2P Require Import EntityType.
From S2P Require Import VehicleMembers.
From S2P Require Import ObjectMembers.
From S2P Require Import BindMembers.
From S2P Require Import ServerMembers.
From S2P Require Import Members.
Open Scope Z_scope.
Open Scope reader_scope.

(** ** Values and the arguments they give *)

Definition int_value (T : IntType) (v : lua_value) (z : Z) : Prop :=
  integer_of v = Some z /\ int_min T <= z <= int_max T.
(** An optional argument: missing or nil, or a value. *)
Definition optional {A} (takes : lua_value -> A -> Prop) (d : A) (v : option lua_value) (a : A) : Prop :=
  (default LNil v = LNil /\ a = d) \/ (default LNil v <> LNil /\ takes (default LNil v) a).

(** A vector: a table, or three numbers. *)
Definition table_vector (es : list (lua_value * lua_value)) (p : Vec3) : Prop :=
  float_value (rawgeti es 1) (vx p) /\ float_value (rawgeti es 2) (vy p) /\
  float_value (rawgeti es 3) (vz p).
Inductive vector_form (p : Vec3) : list lua_value -> Prop :=
  | vector_of_table o es : table_vector es p -> vector_form p [LTable o es]
  | vector_of_numbers x y z :
      float_value x (vx p) -> float_value y (vy p) -> float_value z (vz p) ->
      vector_form p [x; y; z].

Section at_position.
Context {lib : LuaLib}.
Implicit Types (r : ArgReader).

Definition arg_at r (i : Z) : option lua_value := at_index (ar_L r) (ar_index r i).

Lemma CheckInteger_at L i v z min max :
  at_index L i = Some v -> integer_of v = Some z -> min <= z <= max -> CheckInteger L i min max = Ret z.
Proof. intros Hv Hz Hr. apply CheckInteger_Ret. split; [by exists v|done]. Qed.

Lemma ar_Int_at T r i v z : arg_at r i = Some v -> int_value T v z -> ar_Int T r i = Ret z.
Proof.
  intros Hv [Hz Hr]. unfold ar_Int, get_Int. rewrite (CheckInteger_at _ _ v z) by done. simpl.
  by rewrite cast_id.
Qed.
Lemma ar_IntOr_at T r i d z : optional (int_value T) d (arg_at r i) z -> ar_IntOr T r i d = Ret z.
Proof.
  unfold ar_IntOr, ar_missing, isnoneornil. intros Ho. fold (arg_at r i).
  destruct (arg_at r i) as [v|] eqn:E; destruct Ho as [[Hn ->]|[Hn Hz]]; simpl in *; subst; try done.
  destruct v; try done; by eapply ar_Int_at.
Qed.
Lemma CheckNumber_at L i v f : at_index L i = Some v -> float_value v f ->
  exists d, CheckNumber L i = Ret d /\ f = to_float32 d /\ ltype L i = TNumber.
Proof.
  intros Hv (d & Hd & ->). exists d. unfold CheckNumber, ltype. rewrite Hv. by destruct v; simplify_eq/=.
Qed.
Lemma ar_Number_at r i v f : arg_at r i = Some v -> float_value v f -> ar_Number r i = Ret f.
Proof.
  intros Hv Hf. destruct (CheckNumber_at _ _ _ _ Hv Hf) as (d & Hd & -> & _).
  unfold ar_Number, get_Float. by rewrite Hd.
Qed.
Lemma ar_Bool_at r i b : arg_at r i = Some (LBool b) -> ar_Bool r i = Ret b.
Proof. intros Hv. unfold ar_Bool, CheckBoolean. unfold arg_at in Hv. by rewrite Hv. Qed.
Lemma ar_BoolOr_at r i d b :
  optional (fun v b => v = LBool b) d (arg_at r i) b -> ar_BoolOr r i d = Ret b.
Proof.
  unfold ar_BoolOr, ar_missing, isnoneornil. intros Ho. fold (arg_at r i).
  destruct (arg_at r i) as [v|] eqn:E; destruct Ho as [[Hn ->]|[Hn Hz]]; simpl in *; subst; try done.
  by apply ar_Bool_at.
Qed.
Lemma ar_ColourAt_at r i v c : arg_at r i = Some v -> colour_value v c -> ar_ColourAt r i = Ret c.
Proof.
  intros Hv (z & Hz & Hr & ->). unfold ar_ColourAt, CheckColour.
  by rewrite (CheckInteger_at _ _ v z).
Qed.

(** Elements of a table argument. *)
Lemma TableNumber_at L i o es n f :
  at_index L i = Some (LTable o es) -> float_value (rawgeti es n) f -> TableNumber L i n = Ret f.
Proof. intros Hv (d & Hd & ->). unfold TableNumber, entries_at. by rewrite Hv, Hd. Qed.
Lemma TableInteger_at L i o es n min max d z :
  at_index L i = Some (LTable o es) ->
  optional (fun v z => integer_of v = Some z /\ min <= z <= max) d (Some (rawgeti es n)) z ->
  TableInteger L i n min max (Some d) = Ret z.
Proof.
  intros Hv Ho. unfold TableInteger, entries_at. rewrite Hv. destruct Ho as [[Hn ->]|[Hn [Hz Hr]]]; simpl in *.
  - by rewrite Hn.
  - assert ((z <? min) || (max <? z) = false) as Hb.
    { apply orb_false_iff. split; apply Z.ltb_ge; lia. }
    destruct (rawgeti es n); simplify_eq/=; [by rewrite Hb|]. rewrite Hz. by rewrite Hb.
Qed.

Lemma table_vector_at r i o es p :
  arg_at r i = Some (LTable o es) -> table_vector es p -> ar_Vector r i = Ret (p, i + 1).
Proof.
  intros Hv (Hx & Hy & Hz). unfold arg_at in Hv. unfold ar_Vector, get_Vec3, ltype. rewrite Hv. simpl.
  rewrite (TableNumber_at _ _ o es 1 (vx p)), (TableNumber_at _ _ o es 2 (vy p)),
    (TableNumber_at _ _ o es 3 (vz p)) by done. by destruct p.
Qed.
Lemma number_vector_at r i x y z p :
  arg_at r i = Some x -> arg_at r (i + 1) = Some y -> arg_at r (i + 2) = Some z ->
  float_value x (vx p) -> float_value y (vy p) -> float_value z (vz p) ->
  ar_Vector r i = Ret (p, i + 3) /\ ar_type r i = TNumber.
Proof.
  unfold arg_at, ar_index. intros Hx Hy Hz Fx Fy Fz.
  replace (ar_first r + (i + 1) - 1) with (ar_first r + i - 1 + 1) in Hy by lia.
  replace (ar_first r + (i + 2) - 1) with (ar_first r + i - 1 + 2) in Hz by lia.
  destruct (CheckNumber_at _ _ _ _ Hx Fx) as (dx & Ex & Hfx & Ht).
  destruct (CheckNumber_at _ _ _ _ Hy Fy) as (dy & Ey & Hfy & _).
  destruct (CheckNumber_at _ _ _ _ Hz Fz) as (dz & Ez & Hfz & _).
  unfold ar_type, ar_Vector, get_Vec3, ar_index. rewrite Ht, Ex, Ey, Ez. destruct p. simpl in *. by subst.
Qed.
End at_position.

(** ** Reading arguments in turn *)

Section sends.
Context {S : Type} {env : Env S} {server : ServerFns S} {lib : LuaLib}.
Implicit Types (w : World S).
Abbreviation program A := (prog (World S) A).
Abbreviation reader := (EntityType.reader (S := S)).

Lemma rbind_arg {A B} (o : outcome A) a (k : A -> reader B) L i w :
  o = Ret a -> rbind (checked_arg o) k L i w = k a L i w.
Proof. by intros ->. Qed.
Lemma rbind_usable {B} (k : unit -> reader B) L i w :
  Usable w = true -> rbind (run (fun _ => Require_runtime)) k L i w = k tt L i w.
Proof. intros Hu. unfold rbind, run, pbind, Require_runtime. by rewrite Hu. Qed.
Lemma rbind_rret {A B} (a : A) (k : A -> reader B) L i w : rbind (rret a) k L i w = k a L i w.
Proof. done. Qed.
Lemma rbind_variadic {B} (k : ArgReader -> reader B) L i w :
  rbind variadic k L i w = k (mkReader L i) L i w.
Proof. done. Qed.
Lemma rbind_assoc {A B C} (m : reader A) (f : A -> reader B) (g : B -> reader C) L i w :
  rbind (rbind m f) g L i w = rbind m (fun a => rbind (f a) g) L i w.
Proof. unfold rbind, pbind. by destruct (m L i w) as [[[a j]|e|] w1]. Qed.

(** What every constructor ends with: the call, and the handle of the new
    entity. *)
Definition create_by (k : EntityKind) (name : string) (args : list cval) : reader results :=
  rbind (server_call name args) (fun a => created_ref k (a_int a)).

(** ** The forms of the arguments *)

(** The angle of a new vehicle: the fourth element of the table, which may be
    missing, or the number after the position. *)
Inductive vehicle_place (p : Vec3) (angle : spec_float) : list lua_value -> Prop :=
  | place_table o es :
      table_vector es p -> optional float_value (S754_zero false) (Some (rawgeti es 4)) angle ->
      vehicle_place p angle [LTable o es]
  | place_numbers x y z a :
      float_value x (vx p) -> float_value y (vy p) -> float_value z (vz p) -> float_value a angle ->
      vehicle_place p angle [x; y; z; a].

(** The alpha of a new object, likewise; after it nothing is read. *)
Inductive object_place (p : Vec3) (alpha : Z) : list lua_value -> Prop :=
  | object_table o es :
      table_vector es p -> optional (int_value UInt8) 255 (Some (rawgeti es 4)) alpha ->
      object_place p alpha [LTable o es]
  | object_numbers x y z post :
      float_value x (vx p) -> float_value y (vy p) -> float_value z (vz p) ->
      optional (int_value UInt8) 255 (post !! 0%nat) alpha ->
      object_place p alpha (x :: y :: z :: post).

(** The colour of a new checkpoint: [{r, g, b[, a]}]. *)
Definition colour_table (es : list (lua_value * lua_value)) (c : Rgba) : Prop :=
  int_value UInt8 (rawgeti es 1) (c_r c) /\ int_value UInt8 (rawgeti es 2) (c_g c) /\
  int_value UInt8 (rawgeti es 3) (c_b c) /\
  (if 4 <=? swrap 32 (rawlen es) then int_value UInt8 (rawgeti es 4) (c_a c) else c_a c = 255).

(** The player a new checkpoint is for: nobody, or a live player. *)
Definition owner_value w (v : lua_value) (id : Z) : Prop :=
  (v = LNil /\ id = -1) \/
  exists h, v = LHandle h /\ h_kind h = Player /\ h_id h = id /\
    closed (pool_of Player w) = false /\
    Valid (pool_of Player w) (h_id h) (h_generation h) = true.

(** The documented calls of [create]: the arguments of the script, and the
    function of the server and its arguments they stand for. *)
Inductive create_form w : EntityKind -> list lua_value -> string -> list cval -> Prop :=
  | create_vehicle m model wd world vs p angle post c1 c2 :
      int_value Int32 m model -> int_value Int32 wd world -> vehicle_place p angle vs ->
      optional (int_value Int32) (-1) (post !! 0%nat) c1 ->
      optional (int_value Int32) (-1) (post !! 1%nat) c2 ->
      create_form w Vehicle (m :: wd :: vs ++ post) "CreateVehicle"
        (CInt model :: CInt world :: vec_args p ++ [CNum angle; CInt c1; CInt c2])
  | create_object m model wd world vs p alpha :
      int_value Int32 m model -> int_value Int32 wd world -> object_place p alpha vs ->
      create_form w Object (m :: wd :: vs) "CreateObject"
        (CInt model :: CInt world :: vec_args p ++ [CInt alpha])
  | create_pickup m model wd world q quantity vs p post alpha automatic :
      int_value Int32 m model -> int_value Int32 wd world -> int_value Int32 q quantity ->
      vector_form p vs -> optional (int_value UInt8) 255 (post !! 0%nat) alpha ->
      optional (fun v b => v = LBool b) true (post !! 1%nat) automatic ->
      create_form w Pickup (m :: wd :: q :: vs ++ post) "CreatePickup"
        (CInt model :: CInt world :: CInt quantity :: vec_args p ++ [CInt alpha; flag automatic])
  | create_checkpoint v owner wd world sphere vs p o es c radius f :
      owner_value w v owner -> int_value Int32 wd world -> vector_form p vs ->
      colour_table es c -> float_value radius f ->
      create_form w Checkpoint (v :: wd :: LBool sphere :: vs ++ [LTable o es; radius]) "CreateCheckPoint"
        (CInt owner :: CInt world :: flag sphere :: vec_args p ++ rgba_args c ++ [CNum f])
  | create_blip pre index wd world vs p sc scale c colour sp sprite :
      (pre = [] /\ index = -1 \/ exists n, pre = [n] /\ int_value Int32 n index) ->
      int_value Int32 wd world -> vector_form p vs -> int_value Int32 sc scale ->
      colour_value c colour -> int_value Int32 sp sprite ->
      create_form w Blip (pre ++ wd :: vs ++ [sc; c; sp]) "CreateCoordBlip"
        (CInt index :: CInt world :: vec_args p ++ [CInt scale; CInt colour; CInt sprite]).

(** Reads the argument whose value is [a]; [t] proves it. *)
Tactic Notation "reads" uconstr(a) "by" tactic3(t) :=
  rewrite ?rbind_assoc; rewrite (rbind_arg _ a) by t; cbv beta iota; rewrite ?rbind_rret.

Lemma table_angle_at r o es angle :
  arg_at r 3 = Some (LTable o es) ->
  optional float_value (S754_zero false) (Some (rawgeti es 4)) angle -> table_angle r = Ret angle.
Proof.
  unfold arg_at, table_angle, entries_at. intros -> [[Hn ->]|[Hn (d & Hd & ->)]]; simpl in *.
  - by rewrite Hn.
  - by rewrite Hd.
Qed.

Lemma Vehicle_create_sends fr w m wd vs post model world p angle c1 c2 :
  Usable w = true -> int_value Int32 m model -> int_value Int32 wd world -> vehicle_place p angle vs ->
  optional (int_value Int32) (-1) (post !! 0%nat) c1 ->
  optional (int_value Int32) (-1) (post !! 1%nat) c2 ->
  let L := mkState fr (m :: wd :: vs ++ post) in
  Vehicle_create L 1 w =
  create_by Vehicle "CreateVehicle"
    (CInt model :: CInt world :: vec_args p ++ [CNum angle; CInt c1; CInt c2]) L 1 w.
Proof.
  intros Hu Hm Hwd Hp H1 H2 L. unfold Vehicle_create.
  rewrite rbind_usable by done. rewrite rbind_variadic. set (r := mkReader L 1).
  reads model by by eapply (ar_Int_at Int32 r 1).
  reads world by by eapply (ar_Int_at Int32 r 2).
  destruct Hp as [o es Ht Ha|x y z a Hx Hy Hz Ha].
  - rewrite decide_True by reflexivity.
    reads (p, 4) by by apply (table_vector_at r 3 o es).
    reads angle by by eapply table_angle_at.
    reads c1 by by apply (ar_IntOr_at Int32 r 4).
    reads c2 by by apply (ar_IntOr_at Int32 r 5). reflexivity.
  - destruct (number_vector_at r 3 x y z p) as [Hv Htype]; [done..|].
    rewrite decide_False by (rewrite Htype; done).
    reads (p, 6) by done.
    reads angle by by eapply (ar_Number_at r 6).
    reads c1 by by apply (ar_IntOr_at Int32 r 7).
    reads c2 by by apply (ar_IntOr_at Int32 r 8). reflexivity.
Qed.

Lemma byte_value T v z : T = UInt8 -> int_value T v z -> integer_of v = Some z /\ 0 <= z <= 255.
Proof. by intros -> [Hz Hr]. Qed.

(** The alpha in the fourth element of an object's position. *)
Lemma table_alpha_at r i o es alpha :
  arg_at r i = Some (LTable o es) ->
  optional (int_value UInt8) 255 (Some (rawgeti es 4)) alpha ->
  (z ← TableInteger (ar_L r) (ar_index r i) 4 0 255 (Some 255); Ret (swrap 32 z)) = Ret alpha.
Proof.
  intros Hv Ho. assert (0 <= alpha <= 255).
  { destruct Ho as [[_ ->]|[_ Ha]]; [lia|by apply byte_value in Ha as [_ ?]]. }
  rewrite (TableInteger_at _ _ o es 4 0 255 255 alpha); [|done|exact Ho].
  simpl. by rewrite swrap_small by lia.
Qed.

Lemma Channel_at L i o es n z :
  at_index L i = Some (LTable o es) -> int_value UInt8 (rawgeti es n) z -> Channel L i n = Ret z.
Proof.
  intros Hv [Hz Hr]. simpl in Hr. unfold Channel, TableInteger, entries_at. rewrite Hv.
  assert ((z <? 0) || (255 <? z) = false) as Hb.
  { apply orb_false_iff. split; apply Z.ltb_ge; lia. }
  destruct (rawgeti es n) eqn:E; simplify_eq/=; rewrite ?Hz, ?Hb; simpl; by rewrite swrap_small by lia.
Qed.
Lemma ReadColour_at r i o es c :
  arg_at r i = Some (LTable o es) -> colour_table es c ->
  ReadColour (ar_L r) (ar_index r i) 255 = Ret c.
Proof.
  unfold arg_at. intros Hv (Hr & Hg & Hb & Ha). unfold ReadColour, ltype. rewrite Hv. simpl.
  rewrite (Channel_at _ _ o es 1 (c_r c)), (Channel_at _ _ o es 2 (c_g c)),
    (Channel_at _ _ o es 3 (c_b c)) by done. simpl.
  unfold TableLength, entries_at. rewrite Hv. destruct (4 <=? _).
  - rewrite (Channel_at _ _ o es 4 (c_a c)) by done. by destruct c.
  - simpl. rewrite <- Ha. by destruct c.
Qed.

Lemma Object_create_sends fr w m wd vs model world p alpha :
  Usable w = true -> int_value Int32 m model -> int_value Int32 wd world -> object_place p alpha vs ->
  let L := mkState fr (m :: wd :: vs) in
  Object_create L 1 w =
  create_by Object "CreateObject" (CInt model :: CInt world :: vec_args p ++ [CInt alpha]) L 1 w.
Proof.
  intros Hu Hm Hwd Hp L. unfold Object_create.
  rewrite rbind_usable by done. rewrite rbind_variadic. set (r := mkReader L 1).
  reads model by by eapply (ar_Int_at Int32 r 1).
  reads world by by eapply (ar_Int_at Int32 r 2).
  destruct Hp as [o es Ht Ha|x y z post Hx Hy Hz Ha].
  - reads (p, 4) by by apply (table_vector_at r 3 o es).
    rewrite decide_True by reflexivity.
    reads alpha by by apply (table_alpha_at r 3 o es). reflexivity.
  - destruct (number_vector_at r 3 x y z p) as [Hv Htype]; [done..|].
    reads (p, 6) by done. rewrite decide_False by (rewrite Htype; done).
    reads alpha by by apply (ar_IntOr_at UInt8 r 6). reflexivity.
Qed.

Lemma Pickup_create_sends fr w m wd q vs post model world quantity p alpha automatic :
  Usable w = true -> int_value Int32 m model -> int_value Int32 wd world ->
  int_value Int32 q quantity -> vector_form p vs ->
  optional (int_value UInt8) 255 (post !! 0%nat) alpha ->
  optional (fun v b => v = LBool b) true (post !! 1%nat) automatic ->
  let L := mkState fr (m :: wd :: q :: vs ++ post) in
  Pickup_create L 1 w =
  create_by Pickup "CreatePickup" (CInt model :: CInt world :: CInt quantity :: vec_args p ++
    [CInt alpha; flag automatic]) L 1 w.
Proof.
  intros Hu Hm Hwd Hq Hp Ha Hb L. unfold Pickup_create.
  rewrite rbind_usable by done. rewrite rbind_variadic. set (r := mkReader L 1).
  reads model by by eapply (ar_Int_at Int32 r 1).
  reads world by by eapply (ar_Int_at Int32 r 2).
  reads quantity by by eapply (ar_Int_at Int32 r 3).
  destruct Hp as [o es Ht|x y z Hx Hy Hz].
  - reads (p, 5) by by apply (table_vector_at r 4 o es).
    reads alpha by by apply (ar_IntOr_at UInt8 r 5).
    reads automatic by by apply (ar_BoolOr_at r 6). reflexivity.
  - destruct (number_vector_at r 4 x y z p) as [Hv _]; [done..|].
    reads (p, 7) by done.
    reads alpha by by apply (ar_IntOr_at UInt8 r 7).
    reads automatic by by apply (ar_BoolOr_at r 8). reflexivity.
Qed.

(** The owner's argument, read from the stack as Checkpoint.create reads it. *)
Lemma owner_at {B} v owner fr vs w (k : Z -> reader B) :
  Usable w = true -> owner_value w v owner ->
  let L := mkState fr (v :: vs) in
  rbind (if ar_missing (mkReader L 1) 1 then rret (-1)
         else run (fun L' => pbind (CheckLive Player L' (ar_index (mkReader L 1) 1))
                (fun p => pret (l_id p)))) k L 1 w = k owner L 1 w.
Proof.
  intros Hu Ho L. destruct Ho as [[-> ->]|(h & -> & Hk & <- & Hc & Hv)]; [reflexivity|].
  assert (ToHandle Player L 1 = Some h) as Hh.
  { unfold ToHandle. assert (at_index L 1 = Some (LHandle h)) as -> by done. by rewrite decide_True. }
  change (ar_missing (mkReader L 1) 1) with false. change (ar_index (mkReader L 1) 1) with 1.
  cbv iota. unfold rbind, run, CheckLive, pbind, Require_runtime. rewrite Hu, Hh.
  unfold Require. by rewrite Hc, Hv.
Qed.

Lemma Checkpoint_create_sends fr w v owner wd world sphere vs p o es c radius f :
  Usable w = true -> owner_value w v owner -> int_value Int32 wd world -> vector_form p vs ->
  colour_table es c -> float_value radius f ->
  let L := mkState fr (v :: wd :: LBool sphere :: vs ++ [LTable o es; radius]) in
  Checkpoint_create L 1 w =
  create_by Checkpoint "CreateCheckPoint" (CInt owner :: CInt world :: flag sphere :: vec_args p ++
    rgba_args c ++ [CNum f]) L 1 w.
Proof.
  intros Hu Ho Hwd Hp Hc Hf L. unfold Checkpoint_create.
  rewrite rbind_usable by done. rewrite rbind_variadic.
  etransitivity; [exact (owner_at _ _ _ _ _ _ Hu Ho)|]. set (r := mkReader L 1). cbv beta.
  reads world by by eapply (ar_Int_at Int32 r 2).
  reads sphere by by apply (ar_Bool_at r 3).
  destruct Hp as [o' es' Ht|x y z Hx Hy Hz].
  - reads (p, 5) by by apply (table_vector_at r 4 o' es').
    reads c by by apply (ReadColour_at r 5 o es).
    reads f by by eapply (ar_Number_at r 6). reflexivity.
  - destruct (number_vector_at r 4 x y z p) as [Hv _]; [done..|].
    reads (p, 7) by done.
    reads c by by apply (ReadColour_at r 7 o es).
    reads f by by eapply (ar_Number_at r 8). reflexivity.
Qed.

Lemma float_value_type v f : float_value v f -> type_of v = TNumber.
Proof. intros (d & Hd & _). by destruct v. Qed.
Lemma int_value_type T v z : int_value T v z -> type_of v = TNumber.
Proof. intros [Hz _]. by destruct v. Qed.

(** Which of the two forms of Blip.create it is. *)
Lemma blip_form fr p pre wd vs sc c sp :
  vector_form p vs -> type_of wd = TNumber -> type_of sc = TNumber ->
  pre = [] \/ (exists n, pre = [n]) ->
  indexed_form (mkReader (mkState fr (pre ++ wd :: vs ++ [sc; c; sp])) 1) =
  bool_decide (pre <> []).
Proof.
  intros Hp Hwd Hsc Hpre. unfold indexed_form, ar_type, ar_count, ar_index, ltype, lua_gettop.
  destruct Hpre as [->|[n ->]], Hp as [o es Ht|x y z Hx%float_value_type Hy%float_value_type Hz]; simpl;
    rewrite ?Hwd, ?Hsc, ?Hx, ?Hy; reflexivity.
Qed.

Lemma CreateBlip_sends fr w pre index wd world vs p sc scale c colour sp sprite :
  Usable w = true -> (pre = [] /\ index = -1 \/ exists n, pre = [n] /\ int_value Int32 n index) ->
  int_value Int32 wd world -> vector_form p vs -> int_value Int32 sc scale ->
  colour_value c colour -> int_value Int32 sp sprite ->
  let L := mkState fr (pre ++ wd :: vs ++ [sc; c; sp]) in
  CreateBlip L 1 w =
  create_by Blip "CreateCoordBlip" (CInt index :: CInt world :: vec_args p ++
    [CInt scale; CInt colour; CInt sprite]) L 1 w.
Proof.
  intros Hu Hpre Hwd Hp Hsc Hc Hsp L. unfold CreateBlip, Ctx.
  rewrite rbind_usable by done. rewrite rbind_variadic. set (r := mkReader L 1).
  assert (indexed_form r = bool_decide (pre <> [])) as Hform.
  { apply blip_form with p; [done|by eapply int_value_type..|].
    destruct Hpre as [[-> _]|(n & -> & _)]; eauto. }
  rewrite Hform. clear Hform. destruct Hpre as [[-> ->]|(n & -> & Hn)].
  - rewrite bool_decide_eq_false_2 by naive_solver. cbv iota zeta. rewrite rbind_rret.
    reads world by by eapply (ar_Int_at Int32 r 1).
    destruct Hp as [o es Ht|x y z Hx Hy Hz].
    + reads (p, 3) by by apply (table_vector_at r 2 o es).
      reads scale by by eapply (ar_Int_at Int32 r 3).
      reads colour by by eapply (ar_ColourAt_at r 4).
      reads sprite by by eapply (ar_Int_at Int32 r 5). reflexivity.
    + destruct (number_vector_at r 2 x y z p) as [Hv _]; [done..|].
      reads (p, 5) by done.
      reads scale by by eapply (ar_Int_at Int32 r 5).
      reads colour by by eapply (ar_ColourAt_at r 6).
      reads sprite by by eapply (ar_Int_at Int32 r 7). reflexivity.
  - rewrite bool_decide_eq_true_2 by done. cbv iota zeta.
    reads index by by eapply (ar_Int_at Int32 r 1).
    reads world by by eapply (ar_Int_at Int32 r 2).
    destruct Hp as [o es Ht|x y z Hx Hy Hz].
    + reads (p, 4) by by apply (table_vector_at r 3 o es).
      reads scale by by eapply (ar_Int_at Int32 r 4).
      reads colour by by eapply (ar_ColourAt_at r 5).
      reads sprite by by eapply (ar_Int_at Int32 r 6). reflexivity.
    + destruct (number_vector_at r 3 x y z p) as [Hv _]; [done..|].
      reads (p, 6) by done.
      reads scale by by eapply (ar_Int_at Int32 r 6).
      reads colour by by eapply (ar_ColourAt_at r 7).
      reads sprite by by eapply (ar_Int_at Int32 r 8). reflexivity.
Qed.

(** C13: Every documented form of the arguments of Vehicle.create,
    Object.create, Pickup.create, Checkpoint.create and Blip.create (positions
    as tables or numbers, with and without the optional arguments) leads to
    the one call of the server that it describes, with its defaults, followed
    by the handle of the new entity. *)
Theorem create_sends_the_documented_call fr k vs name args w :
  Usable w = true -> create_form w k vs name args ->
  exists body, find_member (class_of k) "create" = Some (Static body) /\
    body (mkState fr vs) 1 w = create_by k name args (mkState fr vs) 1 w.
Proof.
  intros Hu Hf. destruct Hf; eexists; (split; [reflexivity|]).
  - by apply Vehicle_create_sends.
  - by apply Object_create_sends.
  - by apply Pickup_create_sends.
  - by apply Checkpoint_create_sends.
  - by apply CreateBlip_sends.
Qed.
End sends.
