(* ===== verification/Documented.v ===== *)
(** What docs/api/ promises to scripts: for every class, for Server and for the
    tables Map, Radio, Weapon and Sound, their members, whether each is called
    or read, what it gives, and whether it can be assigned. Conforms.v shows that
    the code keeps these promises. *)
From stdpp Require Import base tactics list strings.
From Stdlib Require Import ZArith Floats.SpecFloat.
From S2P Require Import Prelude.
From S2P Require Import EntityPool.
From S2P Require Import LuaValue.
Open Scope Z_scope.

(** ** The types of the documentation *)

(** A vector [{x, y, z}] and the like are [Fields]: exactly these keys. [ById k]
    is [{[id] = handle}], [ArrayOf s] an array, [Object_] a userdata. *)
Inductive shape :=
  | Integer | Number | Truth | Str | Nil | AnyTable | Object_
  | Handle (k : EntityKind)
  | ById (k : EntityKind)
  | Either (s t : shape)
  | ArrayOf (s : shape)
  | Fields (fs : list (lua_value * shape)).

Definition is_handle_of (k : EntityKind) (v : lua_value) : Prop :=
  exists h, v = LHandle h /\ h_kind h = k.

(** An entry of [{[id] = handle}]. *)
Definition own_id (k : EntityKind) (entry : lua_value * lua_value) : Prop :=
  exists h, entry = (LInt (h_id h), LHandle h) /\ h_kind h = k.

(** The entries of an array: the keys are 1, 2, ... *)
Definition array_entries (vs : list lua_value) : list (lua_value * lua_value) :=
  imap (fun i v => (LInt (Z.of_nat i + 1), v)) vs.

Fixpoint fits (s : shape) (v : lua_value) : Prop :=
  match s with
  | Integer => exists z, v = LInt z
  | Number => exists f, v = LFloat f
  | Truth => exists b, v = LBool b
  | Str => exists t, v = LString t
  | Nil => v = LNil
  | AnyTable => exists o es, v = LTable o es
  | Handle k => is_handle_of k v
  | ById k => exists o es, v = LTable o es /\ Forall (own_id k) es
  | Object_ => exists o, v = LUserdata o
  | Either s t => fits s v \/ fits t v
  | ArrayOf s => exists o vs, v = LTable o (array_entries vs) /\ Forall (fits s) vs
  | Fields fs =>
      exists o es, v = LTable o es /\
      (fix each (fs : list (lua_value * shape)) (es : list (lua_value * lua_value)) : Prop :=
         match fs, es with
         | [], [] => True
         | (key, s) :: fs, (key', x) :: es => key = key' /\ fits s x /\ each fs es
         | _, _ => False
         end) fs es
  end.

(** The results of a call. *)
Definition results_fit (ts : list shape) (vs : list lua_value) : Prop := Forall2 fits ts vs.

(** How a script uses a member: a call, and what it returns; or a property, what
    it reads as and whether it can be assigned. *)
Inductive usage := Returns (ts : list shape) | Has (s : shape) (writable : bool).

Definition documentation : Type := list (string * usage).

(** ** Abbreviations of the tables below *)

Definition maybe (k : EntityKind) : shape := Either (Handle k) Nil.
Definition array (ss : list shape) : shape :=
  Fields (imap (fun i s => (LInt (Z.of_nat i + 1), s)) ss).
Definition record_of (fs : list (string * shape)) : shape :=
  Fields ((fun '(n, s) => (LString n, s)) <$> fs).
Definition vector : shape := array [Number; Number; Number].

Definition calls (ts : list shape) (names : list string) : documentation :=
  (fun n => (n, Returns ts)) <$> names.
Definition reads (s : shape) (names : list string) : documentation :=
  (fun n => (n, Has s false)) <$> names.
Definition reads_writes (s : shape) (names : list string) : documentation :=
  (fun n => (n, Has s true)) <$> names.

(** ** Entities (entities.md) *)

Definition doc_entity (k : EntityKind) : documentation :=
  calls [maybe k] ["findByID"] ++ calls [ById k] ["getActive"] ++ calls [Integer] ["count"; "getID"] ++
  calls [Str] ["type"; "getType"; "__tostring"] ++
  reads Integer ["id"] ++ reads Truth ["valid"] ++ reads_writes AnyTable ["data"].

(** The three spellings of a constructor. The server's id is that of a handle,
    or outside the pool, which gives nil. *)
Definition doc_create (k : EntityKind) : documentation := calls [maybe k] ["create"; "new"; "__call"].

(** ** Player (player.md) *)

Definition doc_player : documentation :=
  calls [maybe Player] ["findByName"] ++ calls [] ["msgAll"; "announceAll"; "kick"; "ban"] ++
  calls [Truth] ["msg"; "announce"; "setWeapon"; "giveWeapon"; "removeWeapon"; "disarm"; "giveMoney";
    "setVehicle"; "eject"; "setCamera"; "restoreCamera"; "interpolateCamLookAt"; "forceSpawn";
    "selectClass"; "kill"; "addSpeed"; "setAnimation"; "setAlpha"; "setDrunkHandling";
    "setDrunkVisuals"; "getOption"; "setOption"; "isPlayerStreamed"; "set3DArrowToPlayer";
    "get3DArrowToPlayer"; "playSound"; "playSound3D"; "redirect"; "getModules"] ++
  calls [Integer] ["getWeaponAtSlot"; "getAmmoAtSlot"; "getAlpha"] ++
  calls [Number] ["getNetworkStatistics"] ++
  calls [Str] ["getIP"; "getUID"; "getUID2"] ++
  calls [Integer] ["getKey"; "getState"; "getUniqueWorld"; "getClass"; "getPing"; "getDrunkHandling";
    "getDrunkVisuals"] ++
  calls [Truth] ["isOnline"; "isSpawned"; "isTyping"; "isCrouching"; "isAway"] ++
  calls [Number] ["getFPS"] ++
  reads Str ["ip"; "uid"; "uid2"] ++
  reads Integer ["key"; "state"; "uniqueWorld"; "class"; "ping"; "action"; "gameKeys"; "weapon"; "ammo";
    "vehicleSlot"; "vehicleStatus"] ++
  reads Truth ["online"; "spawned"; "typing"; "crouching"; "away"; "onFire"; "cameraLocked"] ++
  reads Number ["fps"] ++ reads vector ["aimPosition"; "aimDirection"] ++
  reads (maybe Vehicle) ["standingOnVehicle"] ++ reads (maybe Object) ["standingOnObject"] ++
  reads_writes Str ["name"] ++ reads_writes Truth ["admin"] ++
  reads_writes Number ["health"; "armour"; "angle"] ++ reads_writes vector ["position"; "speed"] ++
  reads_writes Integer ["world"; "secondaryWorld"; "team"; "skin"; "color"; "cash"; "score";
    "wantedLevel"; "immunity"; "weaponSlot"; "drunkHandling"; "drunkVisuals"] ++
  reads_writes (maybe Vehicle) ["vehicle"] ++ reads_writes (maybe Player) ["spectateTarget"].

(** ** Vehicle (vehicle.md) *)

Definition rotation : shape :=
  record_of [("euler", vector); ("quaternion", array [Number; Number; Number; Number])].

Definition doc_vehicle : documentation :=
  doc_create Vehicle ++
  calls [Number] ["getModelHandlingRule"; "getHandlingRule"] ++
  calls [Truth] ["setModelHandlingRule"; "modelHandlingRuleExists"; "resetModelHandlingRule";
    "resetModelHandlingRules"; "destroy"; "respawn"; "explode"; "repair"; "fix"; "streamedForPlayer";
    "set3DArrowToPlayer"; "get3DArrowToPlayer"; "getOption"; "setOption"; "setPartStatus";
    "setTyreStatus"; "setSpeed"; "setHandlingRule"; "hasHandlingRule"; "resetHandlingRule";
    "resetHandling"] ++
  calls [] ["resetAllHandlings"; "setRotation"] ++
  calls [Integer] ["getModel"; "getPartStatus"; "getTyreStatus"] ++
  calls [maybe Player] ["getOccupant"] ++ calls [vector] ["getSpeed"] ++ calls [rotation] ["getRotation"] ++
  calls [Number; Number] ["getTurretRotation"] ++
  reads Integer ["model"] ++ reads Truth ["wrecked"] ++
  reads_writes Integer ["world"; "idleRespawnTime"; "radio"; "damage"; "lightsData"; "immunity"] ++
  reads_writes Number ["health"] ++ reads_writes vector ["position"; "spawnPosition"; "spawnRotation"] ++
  reads_writes rotation ["rotation"; "angle"] ++ reads_writes (array [Integer; Integer]) ["color"] ++
  reads_writes Truth ["taxiLight"].

(** ** Object, Pickup and Checkpoint *)

Definition doc_object : documentation :=
  doc_create Object ++
  calls [Truth] ["destroy"; "moveTo"; "moveBy"; "rotateTo"; "rotateBy"; "setAlpha"; "streamedForPlayer"] ++
  calls [Integer] ["getAlpha"; "getModel"] ++
  reads Integer ["model"] ++ reads_writes Integer ["world"; "alpha"] ++
  reads_writes vector ["position"; "angle"] ++ reads_writes Truth ["trackShots"; "trackTouch"].

Definition doc_pickup : documentation :=
  doc_create Pickup ++
  calls [Truth] ["destroy"; "respawn"; "getOption"; "setOption"; "streamedForPlayer"] ++
  calls [Integer] ["getModel"] ++
  reads Integer ["model"; "quantity"] ++ reads_writes Integer ["world"; "alpha"; "autoTimer"] ++
  reads_writes Truth ["auto"] ++ reads_writes vector ["position"].

Definition doc_checkpoint : documentation :=
  doc_create Checkpoint ++
  calls [Truth] ["destroy"; "isSphere"; "streamedForPlayer"] ++ calls [maybe Player] ["getOwner"] ++
  reads (maybe Player) ["owner"] ++ reads Truth ["sphere"] ++ reads_writes Integer ["world"; "alpha"] ++
  reads_writes Number ["radius"] ++
  reads_writes (array [Integer; Integer; Integer; Integer]) ["color"] ++ reads_writes vector ["position"].

(** ** Bind and Blip (bind.md, server.md) *)

Definition doc_bind : documentation :=
  doc_create Bind ++ calls [maybe Bind] ["findByTag"] ++ calls [] ["clearAllBinds"] ++
  calls [Truth] ["destroy"] ++
  calls [record_of [("keyOne", Integer); ("keyTwo", Integer); ("keyThree", Integer);
                 ("signalsOnRelease", Truth)]] ["getData"] ++
  reads_writes Str ["tag"].

Definition doc_blip : documentation :=
  calls [maybe Blip] ["create"] ++ calls [Truth] ["destroy"] ++
  calls [Either (record_of [("world", Integer); ("position", vector); ("scale", Integer);
                         ("color", Integer); ("sprite", Integer)]) Nil] ["getInfo"].

Definition doc_class (k : EntityKind) : documentation :=
  doc_entity k ++
  match k with
  | Player => doc_player | Vehicle => doc_vehicle | Object => doc_object | Pickup => doc_pickup
  | Checkpoint => doc_checkpoint | Bind => doc_bind | Blip => doc_blip
  end.

(** ** Server, Map, Radio, Weapon and Sound (server.md) *)

Definition settings : shape :=
  record_of [("maxPlayers", Integer); ("port", Integer); ("serverName", Str); ("serverPassword", Str);
          ("flags", Integer)].
Definition wasted_settings : shape :=
  record_of [("deathTimer", Integer); ("fadeTimer", Integer); ("fadeInSpeed", Number);
          ("fadeOutSpeed", Number); ("fadeColour", Integer); ("corpseFadeStart", Integer);
          ("corpseFadeTime", Integer)].

Definition doc_server : documentation :=
  calls [Str] ["type"; "getName"; "getGame"; "getPassword"] ++
  calls [] ["reload"; "shutdown"; "setName"; "setMaxPlayers"; "setGame"; "setPassword";
    "setClassPosition"; "setClassCameraPosition"; "setClassCameraLook"] ++
  calls [Truth] ["getOption"; "setOption"; "banIP"; "unbanIP"; "isIPBanned"; "createExplosion"] ++
  calls [settings] ["getSettings"] ++ calls [Integer] ["getMaxPlayers"; "addClass"; "getSkinID"] ++
  calls [Either Str Nil] ["getSkinName"] ++
  reads_writes Str ["name"; "gamemode"; "password"] ++
  reads_writes Integer ["maxPlayers"; "hour"; "minute"; "timeRate"; "weather"; "killDelay"; "fallTimer"] ++
  reads_writes Number ["gravity"; "waterLevel"; "gameSpeed"; "flightAltitude"; "vehicleRespawnHeight"] ++
  reads_writes wasted_settings ["wastedSettings"].

Definition doc_map : documentation :=
  calls [] ["setBounds"; "hideObject"; "hideObjectRaw"; "showMapObject"; "showObject"; "showAllObjects"] ++
  calls [record_of [("max_x", Number); ("min_x", Number); ("max_y", Number); ("min_y", Number)]]
    ["getBounds"] ++
  calls [Str] ["getDistrictName"].
Definition doc_radio : documentation := calls [Truth] ["createStream"; "destroyStream"].
Definition doc_weapon : documentation :=
  calls [Either Number Nil] ["data"] ++ calls [Truth] ["isFieldModified"; "resetField"; "reset"] ++
  calls [] ["resetAll"] ++ calls [Str] ["getName"] ++ calls [Integer] ["getID"].
Definition doc_sound : documentation := calls [Truth] ["play"].

Definition doc_tables : list (string * documentation) :=
  [("Map", doc_map); ("Radio", doc_radio); ("Weapon", doc_weapon); ("Sound", doc_sound)].
