(* ===== verification/Conforms.v ===== *)
(** The bindings do what docs/api/ says: every member of every class, of Server
    and of the tables is documented, and what is documented is there, is used as
    documented and gives values of the documented type. *)
From stdpp Require Import base tactics list strings.
From Stdlib Require Import ZArith Lia Floats.SpecFloat.
From S2P Require Import Prelude.
From S2P Require Import ApiGuard.
From S2P Require Import EntityPool.
From S2P Require Import LuaValue.
From S2P Require Import Args.
From S2P Require Import EntityPools.
From S2P Require Import World.
From S2P Require Import Runtime.
From S2P Require Import ServerCalls.
From S2P Require Import EntityType.
From S2P Require Import PlayerMembers.
From S2P Require Import VehicleMembers.
From S2P Require Import ObjectMembers.
From S2P Require Import BindMembers.
From S2P Require Import ServerMembers.
From S2P Require Import Callbacks.
From S2P Require Import ScriptRel.
From S2P Require Import MemberRel.
From S2P Require Import Members.
From S2P Require Import Documented.
Open Scope Z_scope.
Open Scope reader_scope.

Section gives.
Context {S : Type} {env : Env S} {server : ServerFns S} {lib : LuaLib} `{!ServerRespects server}.
Implicit Types (w : World S).
Abbreviation program A := (prog (World S) A).
Abbreviation reader := (EntityType.reader (S := S)).

(** ** What a reader gives *)

(** Whenever the reader returns, its result satisfies [P]; the pools are well
    formed when it starts. *)
Class Gives {A} (P : A -> Prop) (m : reader A) : Prop := gives : forall L i w a j,
  pools_wf (get_pools w) -> fst (m L i w) = Ret (a, j) -> P a.

Lemma gives_mono {A} (P Q : A -> Prop) (m : reader A) : (forall a, P a -> Q a) -> Gives P m -> Gives Q m.
Proof. intros H Hm L i w a j Hwf Hr. by eapply H, Hm. Qed.

Lemma gives_bind {A B} (P : A -> Prop) (Q : B -> Prop) (m : reader A) (k : A -> reader B) :
  RGood true m -> Gives P m -> (forall a, P a -> Gives Q (k a)) -> Gives Q (rbind m k).
Proof.
  intros Hg Hm Hk L i w b j Hwf. unfold rbind, pbind. destruct (Hg L i w) as [_ Hs].
  specialize (Hm L i w). destruct (m L i w) as [[[a i']|e|] w1]; cbn [fst snd] in *; [|done|done].
  apply Hk; [by eapply Hm|]. by apply (sr_pools _ _ Hs).
Qed.
Lemma gives_rbind {A B} (Q : B -> Prop) (m : reader A) (k : A -> reader B) :
  RGood true m -> (forall a, Gives Q (k a)) -> Gives Q (rbind m k).
Proof. intros Hg Hk. by apply (gives_bind (fun _ => True)). Qed.
(** A lookup gives a function of the server. *)
Lemma gives_VCMP_FN {B} (Q : B -> Prop) name (k : (list cval -> program answer) -> reader B) :
  (forall f, server_program f -> Gives Q (k f)) -> Gives Q (rbind (server_fn name) k).
Proof.
  intros Hk L i w b j Hwf. unfold rbind, server_fn, run, VCMP_FN, VCMP_LUA_API, pbind, plift.
  destruct (find_server name) as [->|(t & f & Ht & Hp & ->)]; simpl; [done|].
  apply Hk; [|done]. by exists t, (field_offset (PluginFuncs_field name)), f.
Qed.
Lemma gives_assoc {A B C} (Q : C -> Prop) (m : reader A) (f : A -> reader B) (g : B -> reader C) :
  Gives Q (rbind m (fun a => rbind (f a) g)) -> Gives Q (rbind (rbind m f) g).
Proof.
  intros H L i w b j Hwf Hr. apply (H L i w b j Hwf). rewrite <- Hr. unfold rbind, pbind.
  by destruct (m L i w) as [[[a i']|e|] w1].
Qed.
Lemma gives_both_fns {B} (Q : B -> Prop) name name'
    (k : (list cval -> program answer) * (list cval -> program answer) -> reader B) :
  (forall f g, server_program f -> server_program g -> Gives Q (k (f, g))) ->
  Gives Q (rbind (both (server_fn name) (server_fn name')) k).
Proof.
  intros Hk. unfold both. destruct last_argument_first; apply gives_assoc, gives_VCMP_FN; intros f Hf;
    apply gives_assoc, gives_VCMP_FN; intros g Hg; [exact (Hk g f Hg Hf)|exact (Hk f g Hf Hg)].
Qed.
Lemma gives_run {A} (P : A -> Prop) (m : lua_State -> program A) :
  (forall L w a, pools_wf (get_pools w) -> fst (m L w) = Ret a -> P a) -> Gives P (run m).
Proof.
  intros Hm L i w a j Hwf. unfold run, pbind. specialize (Hm L w).
  destruct (m L w) as [[x|e|] w1]; [|done|done]. intros [= -> ->]. by apply Hm.
Qed.

(** A reader whose result has a property whatever the state. *)
Class Always {A} (P : A -> Prop) (m : reader A) : Prop := always : forall L i w a j,
  fst (m L i w) = Ret (a, j) -> P a.
Lemma gives_always {A} (P : A -> Prop) (m : reader A) : Always P m -> Gives P m.
Proof. intros H L i w a j _. apply H. Qed.
Lemma always_rbind {A B} (P : B -> Prop) (m : reader A) (k : A -> reader B) :
  (forall a, Always P (k a)) -> Always P (rbind m k).
Proof.
  intros Hk L i w b j. unfold rbind, pbind. destruct (m L i w) as [[[a i']|e|] w1]; [|done|done].
  apply Hk.
Qed.
Lemma always_rret {A} (P : A -> Prop) (a : A) : P a -> Always P (rret a).
Proof. intros Ha L i w b j [= <- <-]. done. Qed.
(** A new table is a value with these entries. *)
Lemma always_new_table {B} (Q : B -> Prop) n es (k : lua_value -> reader B) :
  (forall o, Always Q (k (LTable o es))) -> Always Q (rbind (new_table n es) k).
Proof. intros Hk L i w b j. unfold rbind, new_table, run, pbind, pret. apply Hk. Qed.
Lemma always_run {A} (P : A -> Prop) (m : lua_State -> program A) :
  (forall L w a, fst (m L w) = Ret a -> P a) -> Always P (run m).
Proof.
  intros Hm L i w a j. unfold run, pbind. specialize (Hm L w).
  destruct (m L w) as [[x|e|] w1]; [|done|done]. intros [= -> ->]. by apply Hm.
Qed.

(** ** Results *)

Lemma results_one s v : fits s v -> results_fit [s] [v].
Proof. intros H. by repeat constructor. Qed.
Lemma results_left s t vs : results_fit [s] vs -> results_fit [Either s t] vs.
Proof.
  unfold results_fit. intros H. inversion H as [|? v ? vs' Hv Hn]; subst. inversion Hn; subst.
  apply results_one. by left.
Qed.

Abbreviation Results ts m := (Always (results_fit ts) m).

Lemma results_int z : Results [Integer] (r_int z).
Proof. unfold r_int. apply always_rret, results_one. by exists z. Qed.
Lemma results_num f : Results [Number] (r_num f).
Proof. unfold r_num. apply always_rret, results_one. by exists f. Qed.
Lemma results_bool b : Results [Truth] (r_bool b).
Proof. unfold r_bool. apply always_rret, results_one. by exists b. Qed.
Lemma results_text t : Results [Str] (r_text t).
Proof. unfold r_text. apply always_rret, results_one. by exists t. Qed.
Lemma results_none : Results [] r_none.
Proof. unfold r_none. apply always_rret. constructor. Qed.
Lemma results_nil s : Results [Either s Nil] r_nil.
Proof. unfold r_nil. apply always_rret, results_one. by right. Qed.
Lemma results_either s t m : Results [s] m -> Results [Either s t] m.
Proof. intros Hm L i w vs j Hr. apply results_left. by eapply Hm. Qed.
Lemma results_vec v : Results [vector] (r_vec v).
Proof.
  unfold r_vec. apply always_run. intros L w vs [= <-]. apply results_one.
  eexists _, _. split; [reflexivity|]. by repeat (split; [by eexists..|]).
Qed.
Lemma results_table s es : (forall o, fits s (LTable o es)) -> Results [s] (r_table es).
Proof.
  intros H. unfold r_table. apply always_new_table. intros o. by apply always_rret, results_one.
Qed.

(** ** Handles *)

(** The handle of a reference: the slot's own, or a new one of the slot. *)
Lemma PushEntity_gives k r w v :
  pools_wf (get_pools w) -> fst (PushEntity k r w) = Ret v ->
  v = LNil \/ exists h, v = LHandle h /\ h_kind h = k /\ h_id h = ref_id r.
Proof.
  intros Hwf. unfold PushEntity. destruct (ref_id r <? 0); [intros [= <-]; by left|].
  pose proof (pswf_kind _ Hwf k) as Hk. pose proof (pswf_pool _ Hwf k) as Hp. fold (pool_of k w) in Hk, Hp.
  unfold Push. destruct (closed (pool_of k w) || negb _) eqn:E; [intros [= <-]; by left|].
  apply orb_false_iff in E as [_ E]. apply negb_false_iff in E. unfold Valid in E.
  apply andb_true_iff in E as [Ha _]. apply Alive_InRange in Ha.
  destruct (handle (Slot (pool_of k w) (ref_id r))) as [h|] eqn:Hh; intros [= <-]; right; eexists;
    (split; [reflexivity|]).
  - destruct (swf_handle _ _ _ (Slot_wf _ _ Hp Ha) _ Hh) as (? & ? & _). by rewrite Hk in *.
  - simpl. by rewrite Hk.
Qed.
Lemma results_ref k r : Gives (results_fit [maybe k]) (r_ref k r).
Proof.
  unfold r_ref. apply gives_run. intros L w vs Hwf. unfold pbind.
  destruct (PushEntity k r w) as [[v|e|] w1] eqn:E; [|done|done]. intros [= <-]. apply results_one.
  destruct (PushEntity_gives k r w v Hwf ltac:(by rewrite E)) as [->|(h & -> & ? & _)]; [by right|left].
  by exists h.
Qed.

(** The entries of [{[id] = handle}]. *)
Lemma RefOf_id k id w r w' : RefOf k id w = (Ret r, w') -> w' = w /\ (ref_id r = id \/ r = no_ref).
Proof. intros [= <- <-]. split; [done|]. unfold Ref. destruct (Alive _ _); simpl; auto. Qed.
Lemma own_id_entry k r w v id :
  pools_wf (get_pools w) -> fst (PushEntity k r w) = Ret v -> ref_id r = id \/ r = no_ref ->
  v = LNil \/ own_id k (LInt id, v).
Proof.
  intros Hwf Hv [Hid| ->]; [|left; simpl in Hv; congruence].
  destruct (PushEntity_gives k r w v Hwf Hv) as [->|(h & -> & Hk & Hi)]; [by left|right].
  exists h. by rewrite Hi, Hid.
Qed.
End gives.

(** ** Solving for the members *)

Ltac head_of t := lazymatch t with ?f _ => head_of f | _ => t end.

(** A value of concrete constructors fits its shape. *)
Ltac fits_value :=
  intros; simpl; unfold push_Vec3; simpl;
  repeat first [exact I | reflexivity | lazymatch goal with
    | |- _ /\ _ => split
    | |- exists _, _ => eexists
    end | progress cbn].
Ltac results_leaf :=
  first [apply results_int | apply results_num | apply results_bool | apply results_text
    | apply results_none | apply results_nil | apply results_vec | apply results_either; results_leaf].
Ltac results_step :=
  lazymatch goal with
  | |- Always _ (let _ := _ in _) => cbv zeta
  | |- Always _ (rbind (new_table _ _) _) => apply always_new_table; intros ?
  | |- Always _ (rbind _ _) => apply always_rbind; intros ?
  | |- Always _ (match ?x with _ => _ end) => destruct x
  | |- Always _ (run (fun _ => pthrow _)) => apply always_run; intros ? ? ? [=]
  | |- Always _ (r_table _) => first [apply results_table | apply results_either, results_table]; fits_value
  | |- Always _ (rret _) => apply always_rret; repeat constructor; fits_value
  | |- Always _ ?m => first [results_leaf | let h := head_of m in unfold h]
  end.
Ltac solve_results := intros; apply gives_always; repeat results_step.
(** The same for members that give a handle. *)
Ltac gives_step :=
  lazymatch goal with
  | |- Gives _ (let _ := _ in _) => cbv zeta
  | |- Gives _ (rbind (server_fn _) _) => apply gives_VCMP_FN; intros
  | |- Gives _ (rbind (both (server_fn _) (server_fn _)) _) => apply gives_both_fns; intros
  | |- Gives _ (rbind _ _) => apply gives_rbind; [apply _|intros ?]
  | |- Gives _ (match ?x with _ => _ end) => destruct x
  | |- Gives _ (run (fun _ => pthrow _)) => apply gives_always; results_step
  | |- Gives _ (r_ref _ _) => apply results_ref
  | |- Gives _ ?m => let h := head_of m in unfold h
  end.
Ltac solve_gives := first [solve [solve_results] | solve [intros; repeat gives_step]].

Section members.
Context {S : Type} {env : Env S} {server : ServerFns S} {lib : LuaLib} `{!ServerRespects server}.
Implicit Types (w : World S).
Abbreviation program A := (prog (World S) A).
Abbreviation reader := (EntityType.reader (S := S)).
Abbreviation member := (EntityType.member (S := S)).

(** ** The members that need more *)

Lemma gives_RefOf k id : Gives (fun r => ref_id r = id \/ r = no_ref) (run (S := S) (fun _ => RefOf k id)).
Proof.
  apply gives_run. intros _ w r _ Hr. destruct (RefOf k id w) as [o w'] eqn:E. simpl in Hr. subst.
  by apply RefOf_id in E as [_ ?].
Qed.
Lemma gives_entry k id r :
  ref_id r = id \/ r = no_ref ->
  Gives (fun v => v = LNil \/ own_id k (LInt id, v)) (run (fun _ => PushEntity k r)).
Proof. intros Hr. apply gives_run. intros _ w v Hwf Hv. by eapply own_id_entry. Qed.
Lemma gives_by_id k es : Forall (own_id k) es -> Gives (results_fit [ById k]) (r_table es).
Proof. intros H. apply gives_always, results_table. intros o. by eexists _, _. Qed.

(** Player.getActive: the loop's entries. *)
Lemma gives_active_players only ids : Gives (Forall (own_id Player)) (active_players only ids).
Proof.
  induction ids as [|id ids IH]; cbn [active_players]; [by apply gives_always, always_rret|].
  apply gives_rbind; [apply _|]. intros spawned.
  apply (gives_bind (Forall (own_id Player))); [apply _| |].
  - destruct spawned; [|by apply gives_always, always_rret].
    eapply gives_bind; [apply _|apply gives_RefOf|]. intros r Hr.
    eapply gives_bind; [apply _|exact (gives_entry _ _ _ Hr)|]. intros v Hv.
    apply gives_always, always_rret. destruct Hv as [->|Ho]; [done|].
    destruct v; first [done | by repeat constructor].
  - intros es Hes. apply (gives_bind (Forall (own_id Player))); [apply _|done|]. intros rest Hrest.
    by apply gives_always, always_rret, Forall_app.
Qed.

(** Kind.getActive: the same loop in a program. *)
Lemma push_refs_gives k ids w es :
  pools_wf (get_pools w) -> fst (push_refs k ids w) = Ret es -> Forall (own_id k) es.
Proof.
  revert w es. induction ids as [|id ids IH]; intros w es Hwf; cbn [push_refs]; [by intros [= <-]|].
  unfold pbind at 1. destruct (RefOf k id w) as [[r|e|] w0] eqn:E; [|done|done].
  apply RefOf_id in E as [-> Hr]. unfold pbind at 1.
  pose proof (own_id_entry k r w) as He. destruct (good_PushEntity true k r w) as [_ Hs].
  destruct (PushEntity k r w) as [[v|e|] w1]; [|done|done]. cbn [fst snd] in *.
  apply sr_pools in Hs; [|done]. unfold pbind. specialize (IH w1).
  destruct (push_refs k ids w1) as [[es'|e|] w2]; [|done|done]. intros [= <-].
  specialize (IH es' Hs eq_refl). destruct (He v id Hwf eq_refl Hr) as [->|Ho]; [done|].
  destruct v; first [done | by constructor].
Qed.
Lemma gives_getActive k :
  Gives (results_fit [ById k])
    (rbind Ctx (fun _ => rbind (run (fun _ => pbind (alive_ids k) (push_refs k))) r_table)).
Proof.
  apply gives_rbind; [apply _|]. intros _.
  apply (gives_bind (Forall (own_id k))); [apply _|..].
  - apply gives_run. intros L w es Hwf. unfold pbind, alive_ids. by apply push_refs_gives.
  - apply gives_by_id.
Qed.

Lemma results_data k h :
  Gives (results_fit [AnyTable]) (rbind (run (fun _ => get_data k h)) (fun t => rret [t])).
Proof.
  intros L i w vs j _. unfold rbind, run, get_data, pbind, pret.
  destruct (Require_runtime w) as [[[]|e|] w1]; [|done|done].
  destruct (Data _ _ _ _) as [[d p]|e|]; [|done|done]. intros [= <- <-]. apply results_one.
  by eexists _, _.
Qed.

(** The position of Blip.getInfo is a new vector. *)
Lemma results_BlipInfo id :
  Always (results_fit [Either (record_of [("world", Integer); ("position", vector); ("scale", Integer);
                              ("color", Integer); ("sprite", Integer)]) Nil]) (BlipInfo id).
Proof.
  unfold BlipInfo. apply always_rbind. intros a. destruct (negb _); [apply results_nil|].
  intros L i w vs j. unfold rbind, run, r_table, rbind, new_table, run, pbind, pret, rret.
  intros [= <- <-]. apply results_one. left. fits_value.
Qed.

(** ** Members *)

(** What is shown of a member with the usage [u]. *)
Definition member_typed (u : usage) (m : member) : Prop :=
  match u, m with
  | Returns ts, Static body => Gives (results_fit ts) body
  | Returns ts, Method body => forall self, Gives (results_fit ts) (body self)
  | Returns ts, OnHandle body => forall h, Gives (results_fit ts) (body h)
  | Has s false, Property get | Has s true, PropertyRW get _ =>
      forall self, Gives (results_fit [s]) (get self)
  | Has s false, HandleProperty get None | Has s true, HandleProperty get (Some _) =>
      forall h, Gives (results_fit [s]) (get h)
  | _, _ => False
  end.

Definition server_typed (u : usage) (m : server_member (S := S)) : Prop :=
  match u, m with
  | Returns ts, Function body => Gives (results_fit ts) body
  | Has s true, ServerProperty get _ => Gives (results_fit [s]) get
  | _, _ => False
  end.
Definition function_typed (u : usage) (body : reader results) : Prop :=
  match u with Returns ts => Gives (results_fit ts) body | Has _ _ => False end.

Definition lookup_doc (d : documentation) (name : string) : option usage :=
  snd <$> (snd <$> list_find (fun p => fst p = name) d).

(** The documentation has the member, with a usage it keeps. *)
Definition documented_in {B} (typed : usage -> B -> Prop) (d : documentation) (p : string * B) : Prop :=
  match lookup_doc d p.1 with Some u => typed u p.2 | None => False end.

Definition names_of {B} (l : list (string * B)) : list string := map fst l.
(** Whether a list names every string, and none twice. *)
Definition all_names (ns l : list string) : bool := forallb (fun n => existsb (String.eqb n) l) ns.

(** One member: what the documentation says is computed, then shown. *)
Ltac documented_one :=
  unfold documented_in; cbn [fst snd];
  lazymatch goal with |- match ?o with _ => _ end =>
    let o' := eval vm_compute in o in change o with o' end;
  cbn beta iota; cbn [member_typed server_typed function_typed]; first [solve_gives | idtac].
Ltac documented := repeat first [apply Forall_nil_2 | apply Forall_cons_2; [documented_one|]].

Lemma class_documented k : Forall (documented_in member_typed (doc_class k)) (class_of k).
Proof.
  unfold class_of. apply Forall_app. split.
  - destruct k; unfold RegisterKind; documented; first [apply gives_getActive | apply results_data].
  - destruct k; cbn [own_members];
      unfold RegisterPlayer, player_statics, player_methods_1, player_methods_2,
        player_getter_members, player_getters, player_readonly, player_writable, player_entities,
        RegisterVehicle, vehicle_statics, vehicle_methods_1, vehicle_methods_2, vehicle_properties_1,
        vehicle_properties_2, RegisterObject, RegisterPickup, RegisterCheckpoint, RegisterBind,
        RegisterBlip;
      cbn [app fmap list_fmap]; documented.
    + do 3 (apply gives_rbind; [apply _|intros ?]).
      eapply gives_bind; [apply _|apply gives_active_players|]. intros es Hes. by apply gives_by_id.
    + apply gives_always, always_rbind. intros _. apply always_rbind. intros id. apply results_BlipInfo.
Qed.

(** ** Server and the tables *)

Lemma server_documented : Forall (documented_in server_typed doc_server) RegisterServerTable.
Proof.
  unfold RegisterServerTable, server_functions, server_settings, server_text.
  cbn [app]. documented.
Qed.

Lemma tables_documented t d fs :
  (t, d) ∈ doc_tables -> (t, fs) ∈ tables ->
  Forall (documented_in function_typed d) fs /\ NoDup (names_of d) /\
  all_names (names_of d) (names_of fs) = true.
Proof.
  rewrite !list_elem_of_In. intros Hd Hf. simpl in Hd, Hf.
  destruct Hd as [[= <- <-]|[[= <- <-]|[[= <- <-]|[[= <- <-]|[]]]]];
    destruct Hf as [[= <-]|[[= <-]|[[= <-]|[[= <-]|[]]]]];
    (split_and!; [unfold RegisterMap, RegisterRadio, RegisterWeapon, RegisterSound; documented
      |apply (bool_decide_eq_true_1 _); vm_compute; reflexivity|vm_compute; reflexivity]).
Qed.

(** ** What the documentation promises *)

Definition typed (ts : list shape) (p : program results) : Prop := forall w vs,
  pools_wf (get_pools w) -> fst (p w) = Ret vs -> results_fit ts vs.

(** A member is used as documented, and only so, and what it gives has the
    documented type; an assignment gives nothing. *)
Definition conforms (use : access -> lua_State -> option (program results)) (u : usage) : Prop :=
  forall L,
  match u with
  | Returns ts =>
      use AGet L = None /\ use ASet L = None /\ exists p, use ACall L = Some p /\ typed ts p
  | Has s writable =>
      use ACall L = None /\ (exists p, use AGet L = Some p /\ typed [s] p) /\
      if writable then exists p, use ASet L = Some p /\ typed [] p else use ASet L = None
  end.

Lemma typed_on ts (m : reader results) L i :
  Gives (results_fit ts) m -> typed ts (pbind (m L i) (fun '(vs, _) => pret vs)).
Proof.
  intros Hm w vs Hwf. unfold pbind. specialize (Hm L i w).
  destruct (m L i w) as [[[x j]|e|] w1]; [|done|done]. intros [= ->]. by eapply Hm.
Qed.
Lemma gives_at {A} (P : A -> Prop) (m : reader A) i0 : Gives P m -> Gives P (fun L _ => m L i0).
Proof. intros Hm L _ w a j Hwf. by apply Hm. Qed.
Lemma always_at {A} (P : A -> Prop) (m : reader A) i0 : Always P m -> Always P (fun L _ => m L i0).
Proof. intros Hm L _ w. apply Hm. Qed.

Lemma gives_live {k} (P : results -> Prop) (get : Live -> reader results) :
  (forall self, Gives P (get self)) ->
  Gives P (rbind (Handle_arg k) (fun _ => fun L _ => rbind (Live_arg k) get L 1)).
Proof.
  intros Hg. apply gives_rbind; [apply _|]. intros _.
  apply (gives_at _ (rbind (Live_arg k) get) 1), gives_rbind; [apply _|apply Hg].
Qed.

Lemma member_conforms k m u : member_typed u m -> conforms (use_member k m) u.
Proof.
  intros Hm L. destruct u as [ts|s writable], m as [body|body|get|get set|body|get [set|]];
    try destruct writable; try done; cbn [member_typed use_member] in *; split_and!; try done;
    try (eexists; split; [reflexivity|]; apply typed_on);
    first [apply gives_live, Hm | apply gives_rbind; [apply _|apply Hm] | apply Hm | idtac].
  - apply gives_always. do 2 (apply always_rbind; intros ?).
    apply (always_at _ (rbind (Live_arg k) (fun self => discard (_ self)))). repeat results_step.
  - apply gives_always. do 2 (apply always_rbind; intros ?). repeat results_step.
Qed.

Lemma server_conforms m u : server_typed u m -> conforms (use_server_member m) u.
Proof.
  intros Hm L. destruct u as [ts|s [|]], m as [body|get set]; try done;
    cbn [server_typed use_server_member] in *; split_and!; try done; eexists; (split; [reflexivity|]);
    apply typed_on; [done|by apply gives_rbind; [apply _|]|].
  apply gives_always. repeat results_step.
Qed.

(** ** Looking members up *)

Lemma all_names_spec ns l n : all_names ns l = true -> n ∈ ns -> n ∈ l.
Proof.
  unfold all_names. rewrite forallb_forall. intros H Hn. rewrite list_elem_of_In in Hn.
  apply H, existsb_exists in Hn as (x & Hx & ->%String.eqb_eq). by apply list_elem_of_In.
Qed.

Lemma lookup_doc_elem (d : documentation) n u :
  NoDup (names_of d) -> (n, u) ∈ d -> lookup_doc d n = Some u.
Proof.
  unfold lookup_doc. induction d as [|[n' u'] d IH]; intros Hd Hin; [by apply not_elem_of_nil in Hin|].
  apply NoDup_cons in Hd as [Hn Hd]. simpl. apply elem_of_cons in Hin as [[= -> ->]|Hin].
  - by rewrite decide_True.
  - rewrite decide_False.
    + specialize (IH Hd Hin). destruct (list_find _ d) as [[i p]|]; [exact IH|done].
    + intros ->. apply Hn. simpl. unfold names_of. rewrite list_elem_of_In.
      apply (in_map fst d (n, u)). by apply list_elem_of_In.
Qed.

Lemma lookup_doc_Some (d : documentation) n u : lookup_doc d n = Some u -> n ∈ names_of d.
Proof.
  unfold lookup_doc. destruct (list_find _ d) as [[i [n' u']]|] eqn:E; [|done]. intros _.
  apply list_find_Some in E as (E & H & _). simpl in H. subst. apply list_elem_of_In.
  apply (in_map fst d (n, u')), list_elem_of_In. by eapply list_elem_of_lookup_2.
Qed.

(** A documented name leads to a member that keeps its usage, and every member
    has a documented name. *)
Lemma documented_use {B} (keeps : usage -> B -> Prop) d (ms : list (string * B)) n u :
  NoDup (names_of d) -> Forall (documented_in keeps d) ms -> (n, u) ∈ d ->
  forall m, (n, m) ∈ ms -> keeps u m.
Proof.
  intros Hd Hms Hin m Hm. rewrite Forall_forall in Hms. specialize (Hms _ Hm).
  unfold documented_in in Hms. simpl in Hms. by rewrite (lookup_doc_elem _ _ _ Hd Hin) in Hms.
Qed.
Lemma documented_names {B} (keeps : usage -> B -> Prop) d (ms : list (string * B)) n :
  Forall (documented_in keeps d) ms -> n ∈ names_of ms -> n ∈ names_of d.
Proof.
  intros Hms Hn. unfold names_of in Hn. apply list_elem_of_In, in_map_iff in Hn as ([n' m] & <- & Hm).
  apply list_elem_of_In in Hm. rewrite Forall_forall in Hms. specialize (Hms _ Hm).
  unfold documented_in in Hms. simpl in *. destruct (lookup_doc d n') eqn:E; [|done].
  by eapply lookup_doc_Some.
Qed.

Lemma first_member_elem (c : class (S := S)) n :
  n ∈ names_of c -> exists m, first_member c n = Some m /\ (n, m) ∈ c.
Proof.
  induction c as [|[n' m] c IH]; simpl; intros Hn; [by apply not_elem_of_nil in Hn|].
  case_bool_decide as E; [exists m; split; [done|subst; by left]|].
  apply elem_of_cons in Hn as [->|Hn]; [done|]. destruct (IH Hn) as (m' & ? & ?).
  exists m'. split; [done|by right].
Qed.
Lemma found_name {B} (l : list (string * B)) n :
  n ∈ names_of l -> exists i m, list_find (fun p => fst p = n) l = Some (i, (n, m)) /\ (n, m) ∈ l.
Proof.
  unfold names_of. rewrite list_elem_of_In, in_map_iff. intros ([n' m] & <- & Hm).
  apply list_elem_of_In in Hm.
  destruct (list_find_elem_of (fun p : string * B => fst p = n') l (n', m) Hm eq_refl) as [[i [x y]] Hf].
  pose proof (list_find_Some (fun p : string * B => fst p = n') l i (x, y)) as H.
  apply H in Hf as E. destruct E as (E & Hx & _). simpl in Hx. subst. exists i, y. split; [done|].
  by eapply list_elem_of_lookup_2.
Qed.
Lemma names_of_reverse {B} (l : list (string * B)) n : n ∈ names_of l -> n ∈ names_of (reverse l).
Proof.
  unfold names_of. rewrite !list_elem_of_In, !in_map_iff. intros (p & <- & Hp). exists p.
  split; [done|]. rewrite <- list_elem_of_In in *. by apply elem_of_reverse.
Qed.

Lemma doc_class_NoDup k : NoDup (names_of (doc_class k)).
Proof. apply (bool_decide_eq_true_1 _). destruct k; vm_compute; reflexivity. Qed.

Lemma use_entity_conforms k n u : (n, u) ∈ doc_class k -> conforms (use_entity k n) u.
Proof.
  intros Hin.
  assert (n ∈ names_of (class_of k)) as Hn.
  { apply (all_names_spec (names_of (doc_class k))); [destruct k; vm_compute; reflexivity|].
    eapply lookup_doc_Some, lookup_doc_elem; [apply doc_class_NoDup|exact Hin]. }
  destruct (first_member_elem (reverse (class_of k)) n) as (m & Hf & Hm); [by apply names_of_reverse|].
  rewrite elem_of_reverse in Hm.
  pose proof (documented_use _ _ _ _ _ (doc_class_NoDup k) (class_documented k) Hin m Hm) as Ht.
  intros L. pose proof (member_conforms k m u Ht L) as Hc. unfold use_entity, find_member.
  rewrite Hf. exact Hc.
Qed.

Lemma use_server_conforms n u : (n, u) ∈ doc_server -> conforms (use_server n) u.
Proof.
  intros Hin.
  assert (NoDup (names_of doc_server)) as Hd by (apply (bool_decide_eq_true_1 _); vm_compute; reflexivity).
  assert (n ∈ names_of (reverse RegisterServerTable)) as Hn.
  { apply (all_names_spec (names_of doc_server)); [vm_compute; reflexivity|].
    by eapply lookup_doc_Some, lookup_doc_elem. }
  destruct (found_name _ _ Hn) as (i & m & Hf & Hm). rewrite elem_of_reverse in Hm.
  pose proof (documented_use _ _ _ _ _ Hd server_documented Hin m Hm) as Ht.
  intros L. pose proof (server_conforms m u Ht L) as Hc. unfold use_server. rewrite Hf. exact Hc.
Qed.
Definition call_table (table name : string) (a : access) (L : lua_State) : option (program results) :=
  match a with ACall => use_table table name L | _ => None end.

Lemma use_table_conforms t d n u :
  (t, d) ∈ doc_tables -> (n, u) ∈ d -> conforms (call_table t n) u.
Proof.
  intros Ht Hin.
  assert (t ∈ names_of tables) as Hn.
  { apply (all_names_spec (names_of doc_tables)); [vm_compute; reflexivity|].
    unfold names_of. apply list_elem_of_In. apply (in_map fst _ (t, d)). by apply list_elem_of_In. }
  destruct (found_name _ _ Hn) as (i & fs & Hf & Hfs).
  assert (Forall (documented_in function_typed d) fs /\ NoDup (names_of d) /\
          all_names (names_of d) (names_of fs) = true) as (Hdoc & Hd & Hall).
  { by apply (tables_documented t). }
  assert (n ∈ names_of fs) as Hnf.
  { eapply all_names_spec; [exact Hall|]. by eapply lookup_doc_Some, lookup_doc_elem. }
  destruct (found_name _ _ Hnf) as (j & body & Hb & Hbody).
  pose proof (documented_use _ _ _ _ _ Hd Hdoc Hin body Hbody) as Hu.
  destruct u as [ts|s writable]; [|done]. intros L. split_and!; [done..|].
  unfold call_table, use_table. rewrite Hf, Hb. eexists. split; [reflexivity|]. by apply typed_on.
Qed.

End members.
