(* ===== verification/ArgDocs.v ===== *)
(** The arguments docs/api/ promises: for the functions, methods and writable
    properties of the classes, of Server and of the tables Map, Radio, Weapon
    and Sound, the types of their arguments in order, and what a list of
    arguments that does not fit them is refused for. ArgConforms.v shows that the code
    refuses exactly that. *)
From stdpp Require Import base tactics list strings.
From Stdlib Require Import ZArith Lia.
From S2P Require Import Prelude.
From S2P Require Import EntityPool.
From S2P Require Import LuaValue.
From S2P Require Import Args.
From S2P Require Import EntityPools.
From S2P Require Import World.
From S2P Require Import Runtime.
From S2P Require Import Documented.
Open Scope Z_scope.

(** ** The types of arguments (player.md, entities.md) *)

Inductive argtype :=
  | TInt (T : IntType)      (* an integer, or a float with an integral value, in the type's range *)
  | TNum | TBool | TStr     (* a number; true or false; a string or a number *)
  | TColour                 (* an integer from -2147483648 to 4294967295 *)
  | TVec                    (* {x, y, z}, or three numbers *)
  | TEntity (k : EntityKind) (* a live handle of the class *)
  | TOpt (t : argtype).     (* may be missing or nil *)

(** Whether arguments fit: the position after the last one; or the position of
    the argument that is refused; or the kind of a handle whose entity is gone. *)
Inductive fit := Fits (next : Z) | BadAt (position : Z) | Dead (k : EntityKind).

Definition is_number (v : lua_value) : bool := match v with LInt _ | LFloat _ => true | _ => false end.
Definition number_at (L : lua_State) (i : Z) : bool :=
  match at_index L i with Some v => is_number v | None => false end.
Definition integer_at (L : lua_State) (i min max : Z) : bool :=
  match at_index L i with
  | Some v => match integer_of v with Some z => (min <=? z) && (z <=? max) | None => false end
  | None => false
  end.

Section check.
Context {S : Type}.
Implicit Types (w : World S).

(** The argument at position [i]. *)
Fixpoint check_arg (t : argtype) (L : lua_State) (i : Z) w : fit :=
  let when (b : bool) := if b then Fits (i + 1) else BadAt i in
  match t with
  | TInt T => when (integer_at L i (int_min T) (int_max T))
  | TNum => when (number_at L i)
  | TBool => when match at_index L i with Some (LBool _) => true | _ => false end
  | TStr => when match at_index L i with Some (LString _) => true | _ => number_at L i end
  | TColour => when (integer_at L i INT32_MIN UINT32_MAX)
  | TVec =>
      match at_index L i with
      | Some (LTable _ es) =>
          when (is_number (rawgeti es 1) && is_number (rawgeti es 2) && is_number (rawgeti es 3))
      | _ =>
          if negb (number_at L i) then BadAt i
          else if negb (number_at L (i + 1)) then BadAt (i + 1)
          else if negb (number_at L (i + 2)) then BadAt (i + 2) else Fits (i + 3)
      end
  | TEntity k =>
      match at_index L i with
      | Some (LHandle h) =>
          if bool_decide (h_kind h = k)
          then if Valid (pool_of k w) (h_id h) (h_generation h) then Fits (i + 1) else Dead k
          else BadAt i
      | _ => BadAt i
      end
  | TOpt t =>
      match at_index L i with
      | None | Some LNil => Fits (i + 1)
      | _ => check_arg t L i w
      end
  end.

(** A list of arguments from position [i] on: the first that does not fit. *)
Fixpoint check_args (ts : list argtype) (L : lua_State) (i : Z) w : fit :=
  match ts with
  | [] => Fits i
  | t :: ts => match check_arg t L i w with Fits j => check_args ts L j w | bad => bad end
  end.
End check.

(** ** The tables of docs/api/ *)

(** How the member is used: [Kind.f(...)], [handle:method(...)], or an
    assignment, whose value is at position 3. *)
Inductive doc_use := FunctionUse | MethodUse | SetUse.
Definition first_position (u : doc_use) : Z :=
  match u with FunctionUse => 1 | MethodUse => 2 | SetUse => 3 end.

Definition signatures : Type := list (string * doc_use * list argtype).
Definition functions_of (ts : list argtype) (names : list string) : signatures :=
  (fun n => (n, FunctionUse, ts)) <$> names.
Definition methods_of (ts : list argtype) (names : list string) : signatures :=
  (fun n => (n, MethodUse, ts)) <$> names.
Definition assigns (t : argtype) (names : list string) : signatures :=
  (fun n => (n, SetUse, [t])) <$> names.

Definition integer : argtype := TInt Int32.
Definition unsigned : argtype := TInt UInt32.

(** Every class (entities.md). *)
Definition args_entity : signatures :=
  functions_of [integer] ["findByID"] ++ functions_of [] ["count"; "type"] ++ methods_of [] ["getID"].

Definition args_player : signatures :=
  functions_of [TOpt TBool] ["getActive"] ++ functions_of [TStr] ["findByName"] ++
  functions_of [TStr; TOpt TColour] ["msgAll"] ++ functions_of [TStr; TOpt integer] ["announceAll"] ++
  methods_of [TStr; TOpt TColour] ["msg"] ++ methods_of [TStr; TOpt integer] ["announce"] ++
  methods_of [integer; integer] ["setWeapon"; "giveWeapon"] ++
  methods_of [integer] ["removeWeapon"; "getWeaponAtSlot"; "getAmmoAtSlot"; "giveMoney"; "getOption";
    "playSound"; "getNetworkStatistics"] ++
  methods_of [TEntity Vehicle; TOpt integer] ["setVehicle"] ++
  methods_of [] ["disarm"; "eject"; "restoreCamera"; "forceSpawn"; "selectClass"; "kill"; "getAlpha";
    "kick"; "ban"; "getModules"; "getIP"; "getUID"; "getUID2"; "getKey"; "getState"; "getUniqueWorld";
    "getClass"; "isOnline"; "isSpawned"; "isTyping"; "isCrouching"; "isAway"; "getPing"; "getFPS";
    "getDrunkHandling"; "getDrunkVisuals"] ++
  methods_of [TVec; TVec] ["setCamera"] ++ methods_of [TVec; unsigned] ["interpolateCamLookAt"] ++
  methods_of [TVec] ["addSpeed"] ++ methods_of [integer; TOpt integer] ["setAnimation"] ++
  methods_of [integer; TOpt unsigned] ["setAlpha"] ++ methods_of [unsigned] ["setDrunkHandling"] ++
  methods_of [TInt UInt8] ["setDrunkVisuals"] ++ methods_of [integer; TBool] ["setOption"] ++
  methods_of [TEntity Player] ["isPlayerStreamed"; "get3DArrowToPlayer"] ++
  methods_of [TEntity Player; TBool] ["set3DArrowToPlayer"] ++
  methods_of [integer; TOpt TVec] ["playSound3D"] ++
  methods_of [TStr; unsigned; TOpt TStr; TOpt TStr] ["redirect"] ++
  assigns TStr ["name"] ++ assigns TBool ["admin"] ++ assigns TNum ["health"; "armour"; "angle"] ++
  assigns TVec ["position"; "speed"] ++
  assigns integer ["world"; "secondaryWorld"; "team"; "skin"; "cash"; "score"; "wantedLevel"; "weaponSlot"] ++
  assigns TColour ["color"] ++ assigns unsigned ["immunity"; "drunkHandling"] ++
  assigns (TInt UInt8) ["drunkVisuals"] ++ assigns (TOpt (TEntity Vehicle)) ["vehicle"] ++
  assigns (TOpt (TEntity Player)) ["spectateTarget"].

Definition args_vehicle : signatures :=
  functions_of [integer; integer] ["getModelHandlingRule"; "modelHandlingRuleExists";
    "resetModelHandlingRule"] ++
  functions_of [integer; integer; TNum] ["setModelHandlingRule"] ++
  functions_of [integer] ["resetModelHandlingRules"] ++ functions_of [] ["resetAllHandlings"] ++
  methods_of [] ["destroy"; "respawn"; "explode"; "repair"; "fix"; "getModel"; "getRotation";
    "getTurretRotation"; "resetHandling"] ++
  methods_of [integer] ["getOccupant"; "getOption"; "getPartStatus"; "getTyreStatus"; "getHandlingRule";
    "hasHandlingRule"] ++
  methods_of [TEntity Player] ["streamedForPlayer"; "get3DArrowToPlayer"] ++
  methods_of [TEntity Player; TBool] ["set3DArrowToPlayer"] ++
  methods_of [integer; TBool] ["setOption"] ++
  methods_of [integer; integer] ["setPartStatus"; "setTyreStatus"] ++
  methods_of [integer; TNum] ["setHandlingRule"] ++
  assigns integer ["world"; "radio"] ++ assigns TNum ["health"] ++ assigns TVec ["position"; "spawnPosition"] ++
  assigns unsigned ["idleRespawnTime"; "damage"; "lightsData"; "immunity"] ++ assigns TBool ["taxiLight"].

Definition args_object : signatures :=
  methods_of [] ["destroy"; "getAlpha"; "getModel"] ++ methods_of [TEntity Player] ["streamedForPlayer"] ++
  methods_of [integer; TOpt unsigned] ["setAlpha"] ++ assigns integer ["world"; "alpha"] ++
  assigns TVec ["position"; "angle"] ++ assigns TBool ["trackShots"; "trackTouch"].
Definition args_pickup : signatures :=
  methods_of [] ["destroy"; "respawn"; "getModel"] ++ methods_of [TEntity Player] ["streamedForPlayer"] ++
  methods_of [integer] ["getOption"] ++ methods_of [integer; TBool] ["setOption"] ++
  assigns integer ["world"; "alpha"] ++ assigns unsigned ["autoTimer"] ++ assigns TBool ["auto"] ++
  assigns TVec ["position"].
Definition args_checkpoint : signatures :=
  methods_of [] ["destroy"; "getOwner"; "isSphere"] ++ methods_of [TEntity Player] ["streamedForPlayer"] ++
  assigns integer ["world"; "alpha"] ++ assigns TNum ["radius"] ++ assigns TVec ["position"].
Definition args_bind : signatures :=
  functions_of [TBool; integer; TOpt integer; TOpt integer] ["create"; "new"; "__call"] ++
  functions_of [TStr] ["findByTag"] ++ functions_of [] ["clearAllBinds"] ++
  methods_of [] ["destroy"; "getData"] ++ assigns TStr ["tag"].

(** What every kind has and what its own class adds. *)
Definition args_kind (k : EntityKind) : signatures :=
  args_entity ++ (if decide (k = Player) then [] else functions_of [] ["getActive"]).
Definition args_own (k : EntityKind) : signatures :=
  match k with
  | Player => args_player | Vehicle => args_vehicle | Object => args_object | Pickup => args_pickup
  | Checkpoint => args_checkpoint | Bind => args_bind | Blip => []
  end.
Definition args_class (k : EntityKind) : signatures := args_kind k ++ args_own k.

(** Server and the tables (server.md). *)
Definition args_server : signatures :=
  functions_of [] ["type"; "reload"; "shutdown"; "getSettings"; "getName"; "getMaxPlayers"; "getGame";
    "getPassword"] ++
  functions_of [integer] ["getOption"; "getSkinName"] ++ functions_of [integer; TBool] ["setOption"] ++
  functions_of [TStr] ["setName"; "setGame"; "setPassword"; "banIP"; "unbanIP"; "isIPBanned"; "getSkinID"] ++
  functions_of [unsigned] ["setMaxPlayers"] ++
  functions_of [TVec] ["setClassPosition"; "setClassCameraPosition"; "setClassCameraLook"] ++
  functions_of [integer; integer; TVec; TOpt (TEntity Player); TOpt TBool] ["createExplosion"] ++
  assigns TStr ["name"; "gamemode"; "password"] ++ assigns unsigned ["maxPlayers"] ++
  assigns integer ["hour"; "minute"; "timeRate"; "weather"; "killDelay"] ++
  assigns (TInt UInt16) ["fallTimer"] ++
  assigns TNum ["gravity"; "waterLevel"; "gameSpeed"; "flightAltitude"; "vehicleRespawnHeight"].

Definition args_tables : list (string * signatures) :=
  [ ("Map", functions_of [TNum; TNum; TNum; TNum] ["setBounds"] ++ functions_of [] ["getBounds"; "showAllObjects"] ++
       functions_of [integer; TInt Int16; TInt Int16; TInt Int16] ["hideObjectRaw"]);
    ("Radio", functions_of [integer] ["destroyStream"]); ("Sound", []);
    ("Weapon", functions_of [integer; integer; TOpt TNum] ["data"] ++
       functions_of [integer; integer] ["isFieldModified"; "resetField"] ++
       functions_of [integer] ["reset"; "getName"] ++ functions_of [] ["resetAll"] ++
       functions_of [TStr] ["getID"]) ].

(** The members whose forms are told apart by what they are given ([create] of
    the other classes: Creates.v), take a table of their own, or take a value
    that is checked further; and those that look at a handle without using its
    entity. *)
Definition own_forms (k : EntityKind) : list string :=
  ["getType"; "__tostring"; "data"] ++
  match k with
  | Player | Bind => []
  | Vehicle => ["create"; "new"; "__call"; "getSpeed"; "setSpeed"; "setRotation"; "rotation";
                "angle"; "spawnRotation"; "color"; "resetHandlingRule"]
  | Object => ["create"; "new"; "__call"; "moveTo"; "moveBy"; "rotateTo"; "rotateBy"]
  | Pickup => ["create"; "new"; "__call"]
  | Checkpoint => ["create"; "new"; "__call"; "color"]
  | Blip => ["create"; "destroy"; "getInfo"]
  end.
Definition own_server : list string := ["addClass"; "wastedSettings"].
Definition own_tables : list string :=
  ["hideObject"; "showMapObject"; "showObject"; "getDistrictName"; "createStream"; "play"].

(** Whether a documented member has its argument types above; a property that
    is only read has none. *)
Definition use_eqb (u v : doc_use) : bool :=
  match u, v with
  | FunctionUse, FunctionUse | MethodUse, MethodUse | SetUse, SetUse => true
  | _, _ => false
  end.
Definition has_signature (d : signatures) (n : string) (us : list doc_use) : bool :=
  existsb (fun '(n', u, _) => String.eqb n n' && existsb (use_eqb u) us) d.
Definition typed_member (d : signatures) (own : list string) (m : string * usage) : bool :=
  let '(n, u) := m in
  existsb (String.eqb n) own ||
  match u with
  | Returns _ => has_signature d n [FunctionUse; MethodUse]
  | Has _ writable => negb writable || has_signature d n [SetUse]
  end.

(** Every member of Documented.v is covered. *)
Lemma every_member_has_its_types :
  (forall k, forallb (typed_member (args_class k) (own_forms k)) (doc_class k) = true) /\
  forallb (typed_member args_server own_server) doc_server = true /\
  Forall (fun '(t, d) => exists ts, (t, ts) ∈ args_tables /\ forallb (typed_member ts own_tables) d = true)
    doc_tables.
Proof.
  split_and!; [intros []; reflexivity|reflexivity|].
  repeat first [apply Forall_nil_2 | apply Forall_cons_2;
    [eexists; split; [repeat first [apply list_elem_of_here | apply list_elem_of_further]|reflexivity]|]].
Qed.
