(* ===== verification/ArgConforms.v ===== *)
(** The bindings refuse the arguments docs/api/ refuses, with the error that
    names the argument, before anything is sent to the server; and accept the
    others. The proofs follow the definitions of the members by two type
    classes: [ArgOf] relates a reader of an argument to its documented type,
    [Checks] a member's body to the types of its arguments. *)
From stdpp Require Import base tactics list gmap strings.
From Stdlib Require Import ZArith Lia Floats.SpecFloat.
From S2P Require Import Prelude.
From S2P Require Import ApiGuard.
From S2P Require Import EntityPool.
From S2P Require Import LuaValue.
From S2P Require Import Args.
From S2P Require Import EntityPools.
From S2P Require Import World.
From S2P Require Import Runtime.
From S2P Require Import ServerCalls.
From S2P Require Import EntityType.
From S2P Require Import PlayerMembers.
From S2P Require Import VehicleMembers.
From S2P Require Import ObjectMembers.
From S2P Require Import BindMembers.
From S2P Require Import ServerMembers.
From S2P Require Import MemberRel.
From S2P Require Import Members.
From S2P Require Import Documented.
From S2P Require Import Conforms.
From S2P Require Import ArgDocs.
Open Scope Z_scope.
Open Scope reader_scope.

(** ** No argument error *)

Class NoArgOut {A} (o : outcome A) : Prop := no_arg_out : forall e, o <> Throw (InvalidArgument e).

#[export] Instance no_arg_ret {A} (a : A) : NoArgOut (Ret a).
Proof. done. Qed.
#[export] Instance no_arg_runtime {A} s : NoArgOut (Throw (A := A) (RuntimeError s)).
Proof. done. Qed.
#[export] Instance no_arg_bind {A B} (m : outcome A) (k : A -> outcome B) :
  NoArgOut m -> (forall a, NoArgOut (k a)) -> NoArgOut (m ≫= k).
Proof.
  intros Hm Hk e. destruct m as [a|e'|]; [apply Hk| |done].
  intros [= ->]. by apply (Hm e).
Qed.
#[export] Hint Extern 1 (NoArgOut (match ?x with _ => _ end)) => destruct x : typeclass_instances.
#[export] Instance no_arg_Check_error fn e : NoArgOut (Check_error fn e).
Proof. unfold Check_error. apply _. Qed.
#[export] Instance no_arg_CheckLast fn e : NoArgOut (CheckLast fn e).
Proof. unfold CheckLast. apply _. Qed.
#[export] Instance no_arg_Require p id gen : NoArgOut (Require p id gen).
Proof. unfold Require. apply _. Qed.
#[export] Instance no_arg_Tag p id gen : NoArgOut (Tag p id gen).
Proof. unfold Tag. apply _. Qed.
#[export] Instance no_arg_SetTag p id gen t : NoArgOut (SetTag p id gen t).
Proof. unfold SetTag. apply _. Qed.

Section conform.
Context {S : Type} {env : Env S} {server : ServerFns S} {lib : LuaLib}.
Implicit Types (w : World S).
Abbreviation program A := (prog (World S) A).
Abbreviation reader := (EntityType.reader (S := S)).

(** A program, or a reader, that raises no argument error. *)
Class NoArg {A} (m : program A) : Prop := no_arg : forall w, NoArgOut (fst (m w)).
Class RNoArg {A} (m : reader A) : Prop := rno_arg : forall L i, NoArg (m L i).

#[export] Instance no_arg_pret {A} (a : A) : NoArg (pret a).
Proof. by intros w. Qed.
#[export] Instance no_arg_pthrow {A} s : NoArg (pthrow (A := A) (RuntimeError s)).
Proof. by intros w. Qed.
#[export] Instance no_arg_plift {A} (o : outcome A) : NoArgOut o -> NoArg (plift o).
Proof. intros Ho w. exact Ho. Qed.
#[export] Instance no_arg_pbind {A B} (m : program A) (k : A -> program B) :
  NoArg m -> (forall a, NoArg (k a)) -> NoArg (pbind m k).
Proof.
  intros Hm Hk w e. unfold pbind. pose proof (Hm w) as H.
  destruct (m w) as [[a|e'|] w1]; cbn [fst] in *; [by apply Hk| |done].
  intros [= ->]. by apply (H e).
Qed.
#[export] Instance no_arg_look {A} (f : World S -> outcome A) (g : World S -> World S) :
  (forall w, NoArgOut (f w)) -> NoArg (fun w => (f w, g w)).
Proof. intros Hf w. apply Hf. Qed.
(** What a lookup finds is called, and does not raise. *)
#[export] Instance no_arg_call name args : NoArg (call name args).
Proof.
  intros w e. unfold call, VCMP_FN, VCMP_LUA_API, VCMP_LUA_FIND, Require_fn, read_field, pbind, plift, as_program.
  destruct (funcs server_api) as [t|]; simpl; [|done].
  destruct (VCMP_LUA_HAS_FIELD _ _); simpl; [|done]. case_decide; simpl; [|done].
  destruct (pointer_at t _) as [g|]; simpl; [|done]. by destruct (g args w).
Qed.
#[export] Instance no_arg_last_error : NoArg last_error.
Proof.
  intros w e. unfold last_error, find_fn, VCMP_LUA_FIND, read_field, pbind, plift, as_program.
  destruct (funcs server_api) as [t|]; simpl; [|done].
  destruct (VCMP_LUA_HAS_FIELD _ _); simpl; [|done]. case_decide; simpl; [|done].
  destruct (pointer_at t _) as [g|]; simpl; [|done]. by destruct (g [] w).
Qed.
#[export] Instance no_arg_Check L e : NoArg (Check L e).
Proof. unfold Check. apply _. Qed.
#[export] Instance no_arg_checked L name args : NoArg (checked L name args).
Proof. unfold checked. apply _. Qed.
#[export] Instance no_arg_CheckLastError L : NoArg (CheckLastError L).
Proof. unfold CheckLastError. apply _. Qed.
Hint Extern 1 (NoArg (match ?x with _ => _ end)) => destruct x : typeclass_instances.
#[export] Instance no_arg_ReadText L n name args : NoArg (ReadText L n name args).
Proof. unfold ReadText. apply _. Qed.
#[export] Instance no_arg_RefOf k id : NoArg (RefOf k id).
Proof. by intros w. Qed.
#[export] Instance no_arg_PushEntity k r : NoArg (PushEntity k r).
Proof. intros w. unfold PushEntity. destruct (_ <? 0); [done|]. by destruct (Push _ _ _ _). Qed.
#[export] Instance no_arg_Created k L id : NoArg (Created k L id).
Proof. unfold Created. destruct (id <? 0); [apply _|]. by intros w e. Qed.
#[export] Instance no_arg_alive_ids k : NoArg (alive_ids k).
Proof. by intros w. Qed.
#[export] Instance no_arg_push_refs k ids : NoArg (push_refs k ids).
Proof. induction ids; cbn [push_refs]; apply _. Qed.
#[export] Instance no_arg_find_by_tag tag ids : NoArg (find_by_tag tag ids).
Proof.
  induction ids as [|id ids IH]; intros w e; cbn [find_by_tag]; [done|].
  pose proof (no_arg_Tag (pool_of Bind w) (ref_id (Ref (pool_of Bind w) id))
    (ref_generation (Ref (pool_of Bind w) id))) as H.
  destruct (Tag _ _ _) as [t|e'|]; [|intros [= ->]; by apply (H e)|done].
  destruct (String.eqb t tag); [done|apply IH].
Qed.
End conform.
#[export] Hint Extern 1 (NoArg (match ?x with _ => _ end)) => destruct x : typeclass_instances.

Section readers.
Context {S : Type} {env : Env S} {server : ServerFns S} {lib : LuaLib}.
Abbreviation program A := (prog (World S) A).
Abbreviation reader := (EntityType.reader (S := S)).
Implicit Types (self : Live).

#[export] Instance rno_arg_rret {A} (a : A) : RNoArg (S := S) (rret a).
Proof. intros L i. unfold rret. apply _. Qed.
#[export] Instance rno_arg_rbind {A B} (m : reader A) (k : A -> reader B) :
  RNoArg (S := S) m -> (forall a, RNoArg (S := S) (k a)) -> RNoArg (S := S) (rbind m k).
Proof. intros Hm Hk L i. unfold rbind. apply no_arg_pbind; [apply Hm|]. intros [a j]. apply Hk. Qed.
#[export] Instance rno_arg_run {A} (m : lua_State -> program A) :
  (forall L, NoArg (m L)) -> RNoArg (S := S) (run m).
Proof. intros Hm L i. unfold run. apply _. Qed.
#[export] Instance rno_arg_r_nil : RNoArg (S := S) r_nil.
Proof. unfold r_nil. apply _. Qed.
#[export] Instance rno_arg_r_none : RNoArg (S := S) r_none.
Proof. unfold r_none. apply _. Qed.
#[export] Instance rno_arg_r_bool b : RNoArg (S := S) (r_bool b).
Proof. unfold r_bool. apply _. Qed.
#[export] Instance rno_arg_r_int z : RNoArg (S := S) (r_int z).
Proof. unfold r_int. apply _. Qed.
#[export] Instance rno_arg_r_num f : RNoArg (S := S) (r_num f).
Proof. unfold r_num. apply _. Qed.
#[export] Instance rno_arg_r_text s : RNoArg (S := S) (r_text s).
Proof. unfold r_text. apply _. Qed.
#[export] Instance rno_arg_r_ref k r : RNoArg (S := S) (r_ref k r).
Proof. unfold r_ref. apply _. Qed.
#[export] Instance rno_arg_new_table n es : RNoArg (S := S) (new_table n es).
Proof. by intros L i w. Qed.
#[export] Instance rno_arg_r_table es : RNoArg (S := S) (r_table es).
Proof. unfold r_table. apply _. Qed.
#[export] Instance rno_arg_r_vec v : RNoArg (S := S) (r_vec v).
Proof. by intros L i w. Qed.
#[export] Instance rno_arg_server_call name args : RNoArg (S := S) (server_call name args).
Proof. unfold server_call. apply _. Qed.
#[export] Instance rno_arg_server_checked name args : RNoArg (S := S) (server_checked name args).
Proof. unfold server_checked. apply _. Qed.
#[export] Instance rno_arg_check_last : RNoArg (S := S) check_last.
Proof. unfold check_last. apply _. Qed.
#[export] Instance rno_arg_server_vec name args : RNoArg (S := S) (server_vec name args).
Proof. unfold server_vec. apply _. Qed.
#[export] Instance rno_arg_checked_answer name args : RNoArg (S := S) (checked_answer name args).
Proof. unfold checked_answer. apply _. Qed.
#[export] Instance rno_arg_discard {A} (m : reader A) : RNoArg (S := S) m -> RNoArg (S := S) (discard m).
Proof. unfold discard. apply _. Qed.
#[export] Instance rno_arg_get_int name self : RNoArg (S := S) (get_int name self).
Proof. unfold get_int. apply _. Qed.
#[export] Instance rno_arg_get_flag name self : RNoArg (S := S) (get_flag name self).
Proof. unfold get_flag. apply _. Qed.
#[export] Instance rno_arg_get_num name self : RNoArg (S := S) (get_num name self).
Proof. unfold get_num. apply _. Qed.
#[export] Instance rno_arg_get_ref k name self : RNoArg (S := S) (get_ref k name self).
Proof. unfold get_ref. apply _. Qed.
#[export] Instance rno_arg_get_text name self : RNoArg (S := S) (get_text name self).
Proof. unfold get_text. apply _. Qed.
#[export] Instance rno_arg_done_checked name args : RNoArg (S := S) (done_checked name args).
Proof. unfold done_checked. apply _. Qed.
#[export] Instance rno_arg_do_checked name self : RNoArg (S := S) (do_checked name self).
Proof. unfold do_checked. apply _. Qed.
#[export] Instance rno_arg_int_or name args : RNoArg (S := S) (int_or_last_error name args).
Proof. unfold int_or_last_error. apply _. Qed.
#[export] Instance rno_arg_flag_or name args : RNoArg (S := S) (flag_or_last_error name args).
Proof. unfold flag_or_last_error. apply _. Qed.
#[export] Instance rno_arg_num_or name args : RNoArg (S := S) (num_or_last_error name args).
Proof. unfold num_or_last_error. apply _. Qed.
Hint Extern 1 (RNoArg (match ?x with _ => _ end)) => destruct x : typeclass_instances.
#[export] Instance rno_arg_destroy k name self : RNoArg (S := S) (destroy k name self).
Proof. unfold destroy. apply _. Qed.

#[export] Instance rno_arg_Ctx : RNoArg (S := S) Ctx.
Proof. intros L i w e. unfold Ctx, run, Require_runtime, pbind. by destruct (Usable w). Qed.

(** The loops over the online players and over the plugin's binds. *)
#[export] Instance rno_arg_ForEachPlayer (fn : Live -> reader unit) :
  (forall p, RNoArg (fn p)) -> RNoArg (ForEachPlayer fn).
Proof.
  intros Hf. unfold ForEachPlayer. apply rno_arg_rbind; [apply _|]. intros ids.
  induction ids; cbn [each_player]; apply _.
Qed.
#[export] Instance rno_arg_active_players only ids : RNoArg (S := S) (active_players only ids).
Proof. induction ids; cbn [active_players]; apply _. Qed.
#[export] Instance rno_arg_Remove self : RNoArg (S := S) (Remove self).
Proof. unfold Remove. apply _. Qed.
#[export] Instance rno_arg_remove_all ids : RNoArg (S := S) (remove_all ids).
Proof. induction ids; cbn [remove_all]; apply _. Qed.
End readers.
#[export] Hint Extern 1 (RNoArg (match ?x with _ => _ end)) => destruct x : typeclass_instances.


(** ** Reading one argument *)

Section arguments.
Context {S : Type} {env : Env S} {server : ServerFns S} {lib : LuaLib}.
Implicit Types (w : World S) (self : Live).
Abbreviation program A := (prog (World S) A).
Abbreviation reader := (EntityType.reader (S := S)).

(** The runtime runs scripts, and its pools are those of their kinds. *)
Record ready w : Prop := mkReady
  { rd_usable : Usable w = true;
    rd_open k : closed (pool_of k w) = false;
    rd_kind k : kind (pool_of k w) = k }.

(** What a program makes of arguments that fit, or do not. *)
Definition argument_checked {A} (f : fit) (L : lua_State) w (p : program A) : Prop :=
  match f with
  | Fits _ => NoArgOut (fst (p w))
  | BadAt j => exists message, p w = (Throw (ArgError L j message), w)
  | Dead k => p w = (Throw (no_longer_exists k), w)
  end.

(** Reading one argument leaves the state alone. *)
Definition reads_as {A} (f : fit) (L : lua_State) w (r : outcome (A * Z) * World S) : Prop :=
  match f with
  | Fits j => exists a, r = (Ret (a, j), w)
  | BadAt j => exists message, r = (Throw (ArgError L j message), w)
  | Dead k => r = (Throw (no_longer_exists k), w)
  end.

Class ArgOf {A} (t : argtype) (m : reader A) : Prop := arg_of : forall L i w, ready w ->
  reads_as (check_arg t L i w) L w (m L i w).

(** A checked value of the stack: what it gives, or the argument it names. *)
Lemma arg_of_slot {A} t (get : lua_State -> Z -> outcome A) (ok : lua_State -> Z -> bool) :
  (forall L i w, check_arg t L i w = if ok L i then Fits (i + 1) else BadAt i) ->
  (forall L i, if ok L i then exists a, get L i = Ret a
               else exists message, get L i = Throw (ArgError L i message)) ->
  ArgOf t (slot get).
Proof.
  intros Hc Hg L i w _. rewrite Hc. specialize (Hg L i). unfold slot, plift.
  destruct (ok L i); destruct Hg as [x ->]; by exists x.
Qed.

Lemma integer_arg_at L i min max :
  if integer_at L i min max then exists z, CheckInteger L i min max = Ret z
  else exists message, CheckInteger L i min max = Throw (ArgError L i message).
Proof.
  unfold integer_at, CheckInteger, TypeError.
  assert (forall z, if (min <=? z) && (z <=? max) then exists z', check_range L i z min max = Ret z'
    else exists message, check_range L i z min max = Throw (ArgError L i message)) as Hr.
  { intros z. unfold check_range. destruct (Z.leb_spec min z), (Z.leb_spec z max); simpl.
    - exists z. by rewrite (proj2 (Z.ltb_ge z min)), (proj2 (Z.ltb_ge max z)) by lia.
    - rewrite (proj2 (Z.ltb_lt max z)), orb_true_r by lia. by eexists.
    - rewrite (proj2 (Z.ltb_lt z min)) by lia. by eexists.
    - rewrite (proj2 (Z.ltb_lt z min)) by lia. by eexists. }
  destruct (at_index L i) as [[| |z|f| | | | | | |]|]; simpl; try by eexists.
  - apply Hr.
  - destruct (float_to_int64 f) as [z|]; [apply Hr|by eexists].
Qed.

#[export] Instance arg_Int T : ArgOf (TInt T) (Int T).
Proof.
  apply (arg_of_slot _ _ (fun L i => integer_at L i (int_min T) (int_max T))); [done|].
  intros L i. unfold get_Int. pose proof (integer_arg_at L i (int_min T) (int_max T)) as H.
  destruct (integer_at _ _ _ _); destruct H as [x ->]; by eexists.
Qed.
#[export] Instance arg_Colour : ArgOf TColour Colour.
Proof.
  apply (arg_of_slot _ _ (fun L i => integer_at L i INT32_MIN UINT32_MAX)); [done|].
  intros L i. unfold CheckColour. pose proof (integer_arg_at L i INT32_MIN UINT32_MAX) as H.
  destruct (integer_at _ _ _ _); destruct H as [x ->]; by eexists.
Qed.
Lemma number_arg_at L i :
  if number_at L i then exists f, CheckNumber L i = Ret f
  else exists message, CheckNumber L i = Throw (ArgError L i message).
Proof.
  unfold number_at, CheckNumber, TypeError.
  destruct (at_index L i) as [[| | | | | | | | | |]|]; simpl; by eexists.
Qed.
#[export] Instance arg_Double : ArgOf TNum Double.
Proof. by apply (arg_of_slot _ _ number_at), number_arg_at. Qed.
#[export] Instance arg_Float : ArgOf TNum Float.
Proof.
  apply (arg_of_slot _ _ number_at); [done|]. intros L i. unfold get_Float.
  pose proof (number_arg_at L i) as H. destruct (number_at L i); destruct H as [x ->]; by eexists.
Qed.
#[export] Instance arg_Boolean : ArgOf TBool Boolean.
Proof.
  apply (arg_of_slot _ _ (fun L i => match at_index L i with Some (LBool _) => true | _ => false end)); [done|].
  intros L i. unfold CheckBoolean, TypeError. destruct (at_index L i) as [[]|]; by eexists.
Qed.
#[export] Instance arg_String : ArgOf TStr String_arg.
Proof.
  apply (arg_of_slot _ _ (fun L i => match at_index L i with Some (LString _) => true | _ => number_at L i end)); [done|].
  intros L i. unfold CheckString, TypeError, number_at. destruct (at_index L i) as [[]|]; by eexists.
Qed.
#[export] Instance arg_Opt {A} t (m : reader A) : ArgOf t m -> ArgOf (TOpt t) (Opt m).
Proof.
  intros Hm L i w Hw. specialize (Hm L i w Hw). cbn [check_arg]. unfold Opt, isnoneornil.
  assert (reads_as (check_arg t L i w) L w (pbind (m L i) (fun '(a, j) => pret (Some a, j)) w)) as H.
  { unfold pbind. destruct (check_arg t L i w); simpl in *; [destruct Hm as [a ->]..|by rewrite Hm]; by eexists. }
  destruct (at_index L i) as [[]|]; try exact H; by eexists.
Qed.

Lemma table_number_arg L i n :
  if is_number (rawgeti (entries_at L i) n) then exists f, TableNumber L i n = Ret f
  else exists message, TableNumber L i n = Throw (ArgError L i message).
Proof. unfold TableNumber, to_number. destruct (rawgeti _ _); simpl; by eexists. Qed.

#[export] Instance arg_Vec3 : ArgOf TVec Vec3_arg.
Proof.
  intros L i w _. unfold Vec3_arg, plift, get_Vec3. cbn [check_arg].
  pose proof (number_arg_at L i) as H1. pose proof (number_arg_at L (i + 1)) as H2.
  pose proof (number_arg_at L (i + 2)) as H3. pose proof (table_number_arg L i 1) as T1.
  pose proof (table_number_arg L i 2) as T2. pose proof (table_number_arg L i 3) as T3.
  unfold TypeError, ltype, entries_at in *.
  change (number_at L i) with (match at_index L i with Some v => is_number v | None => false end) in *.
  destruct (at_index L i) as [[]|]; simpl in *; try by eexists.
  - destruct H1 as [a ->]. simpl. destruct (number_at L (i + 1)); destruct H2 as [b ->]; simpl; [|by eexists].
    destruct (number_at L (i + 2)); destruct H3 as [c ->]; simpl; by eexists.
  - destruct H1 as [a ->]. simpl. destruct (number_at L (i + 1)); destruct H2 as [b ->]; simpl; [|by eexists].
    destruct (number_at L (i + 2)); destruct H3 as [c ->]; simpl; by eexists.
  - destruct (is_number (rawgeti _ 1)); destruct T1 as [x ->]; simpl; [|by eexists].
    destruct (is_number (rawgeti _ 2)); destruct T2 as [y ->]; simpl; [|by eexists].
    destruct (is_number (rawgeti _ 3)); destruct T3 as [z ->]; simpl; by eexists.
Qed.

(** A handle, whose entity must be there. *)
Lemma Live_arg_ready k L i w h :
  ready w -> at_index L i = Some (LHandle h) -> h_kind h = k ->
  (k = Bind -> KeyBindExists (env_queries w) (h_id h) = true) ->
  Live_arg k L i w =
    if Valid (pool_of k w) (h_id h) (h_generation h)
    then (Ret (mkLive (h_id h) (h_generation h), i + 1), w) else (Throw (no_longer_exists k), w).
Proof.
  intros [Hu Ho Hk] Hh Hkind Hb. unfold Live_arg, CheckLive, Require_runtime, pbind. rewrite Hu.
  unfold ToHandle. rewrite Hh, decide_True by done. unfold Require. rewrite Ho. simpl.
  destruct (Valid _ _ _); simpl; [|unfold pool_traits; by rewrite Hk].
  destruct k; try done. unfold RequireBindExists. by rewrite Hb.
Qed.
Lemma arg_Live k : k <> Bind -> ArgOf (TEntity k) (Live_arg k).
Proof.
  intros Hb L i w Hw. cbn [check_arg].
  destruct (at_index L i) as [v|] eqn:E; [destruct v as [| | | | | | | |h| |]|];
    try (unfold Live_arg, CheckLive, Require_runtime, pbind, ToHandle; rewrite (rd_usable _ Hw), E; by eexists).
  case_bool_decide as Hk.
  - rewrite (Live_arg_ready k L i w h) by done. destruct (Valid _ _ _); by eexists.
  - unfold Live_arg, CheckLive, Require_runtime, pbind, ToHandle. rewrite (rd_usable _ Hw), E.
    rewrite decide_False by done. by eexists.
Qed.

(** ** The bodies of members *)

(** A body that reads arguments of types [ts] before anything else. *)
Class Checks {A} (ts : list argtype) (r : reader A) : Prop := checks : forall L i w, ready w ->
  argument_checked (check_args ts L i w) L w (r L i).

Lemma checks_done {A} (r : reader A) : RNoArg r -> Checks [] r.
Proof. intros Hr L i w _. apply (Hr L i w). Qed.
#[export] Instance checks_arg {A B} t ts (m : reader A) (k : A -> reader B) :
  ArgOf t m -> (forall a, Checks ts (k a)) -> Checks (t :: ts) (rbind m k).
Proof.
  intros Hm Hk L i w Hw. specialize (Hm L i w Hw). cbn [check_args]. unfold rbind.
  destruct (check_arg t L i w) as [j|j|k'].
  - destruct Hm as [a Ha]. specialize (Hk a L j w Hw).
    unfold argument_checked, pbind in *. rewrite Ha. exact Hk.
  - destruct Hm as [e He]. exists e. unfold pbind. by rewrite He.
  - simpl in *. unfold pbind. by rewrite Hm.
Qed.
#[export] Instance checks_Ctx {A} ts (r : reader A) : Checks ts r -> Checks ts (rbind Ctx (fun _ => r)).
Proof.
  intros Hr L i w Hw. specialize (Hr L i w Hw).
  unfold argument_checked, Ctx, rbind, run, Require_runtime, pbind, pret in *.
  by rewrite (rd_usable _ Hw).
Qed.
#[export] Instance checks_int_method T ts (f : Live -> Z -> reader results) self :
  (forall z, Checks ts (f self z)) -> Checks (TInt T :: ts) (int_method T f self).
Proof. intros Hf. unfold int_method. apply _. Qed.
#[export] Instance checks_streamed name self : Checks [TEntity Player] (streamed_for_player name self).
Proof.
  unfold streamed_for_player. apply checks_arg; [by apply arg_Live|]. intros p.
  apply checks_done. apply _.
Qed.

(** The value of an assignment is an argument; what is then done with it has the
    property [P]. *)
Class ValueOf {X} (P : X -> Prop) (t : argtype) (set : reader X) : Prop :=
  value_of : forall L i w, ready w ->
  reads_as (check_arg t L i w) L w (set L i w) /\
  forall x j, fst (set L i w) = Ret (x, j) -> P x.
Abbreviation SetChecks := (ValueOf (fun set => forall self : Live, RNoArg (S := S) (A := unit) (set self))).
Abbreviation ServerSetChecks := (ValueOf (RNoArg (S := S) (A := unit))).

Lemma value_of_arg {A X} (P : X -> Prop) t (value : reader A) (f : A -> X) :
  ArgOf t value -> (forall a, P (f a)) -> ValueOf P t (rbind value (fun a => rret (f a))).
Proof.
  intros Hv Hf L i w Hw. specialize (Hv L i w Hw). unfold rbind, rret, pbind, pret.
  destruct (check_arg t L i w) as [j|j|k]; simpl in Hv |- *.
  - destruct Hv as [a ->]. split; [by eexists|]. intros x j' [= <- <-]. apply Hf.
  - destruct Hv as [e ->]. split; [by eexists|done].
  - rewrite Hv. by split.
Qed.
#[export] Instance set_checks_with {A} t (value : reader A) args name :
  ArgOf t value -> SetChecks t (set_with value args name).
Proof. intros Hv. unfold set_with. apply value_of_arg; [done|]. apply _. Qed.
Lemma value_of_then {X Y} (P : X -> Prop) (Q : Y -> Prop) t (set : reader X) (f : X -> Y) :
  ValueOf P t set -> (forall x, P x -> Q (f x)) -> ValueOf Q t (rbind set (fun x => rret (f x))).
Proof.
  intros Hv Hf L i w Hw. destruct (Hv L i w Hw) as [Hr Hp]. unfold rbind, rret, pbind, pret.
  destruct (check_arg t L i w) as [j|j|k]; simpl in Hr |- *; [destruct Hr as [x Hr]|destruct Hr as [m Hr]|];
    rewrite Hr in *; split; try done; [by eexists| |by eexists].
  intros y j' [= <- <-]. by eapply Hf, Hp.
Qed.
End arguments.
#[export] Hint Extern 1 (ArgOf (TEntity _) (Live_arg _)) => apply arg_Live; discriminate : typeclass_instances.
#[export] Hint Extern 0 (Checks [] _) => apply checks_done : typeclass_instances.
#[export] Hint Extern 1 (ValueOf _ _ (rbind _ _)) => apply value_of_arg : typeclass_instances.

(** ** The classes *)

Section members.
Context {S : Type} {env : Env S} {server : ServerFns S} {lib : LuaLib}.
Implicit Types (w : World S) (self : Live).
Abbreviation program A := (prog (World S) A).
Abbreviation reader := (EntityType.reader (S := S)).

(** The signatures of a name. *)
Definition signatures_for (d : signatures) (n : string) : list (doc_use * list argtype) :=
  omap (fun '(n', u, ts) => if String.eqb n n' then Some (u, ts) else None) d.

Definition use_args (m : member (S := S)) (sig : doc_use * list argtype) : Prop :=
  match sig, m with
  | (FunctionUse, ts), Static body => Checks ts body
  | (MethodUse, ts), Method body => forall self, Checks ts (body self)
  | (SetUse, [t]), PropertyRW _ set => ValueOf (fun f => forall self, RNoArg (f self)) t set
  | _, _ => False
  end.
Definition server_use_args (m : server_member (S := S)) (sig : doc_use * list argtype) : Prop :=
  match sig, m with
  | (FunctionUse, ts), Function body => Checks ts body
  | (SetUse, [t]), ServerProperty _ set => ValueOf RNoArg t set
  | _, _ => False
  end.
Definition table_use_args (m : reader results) (sig : doc_use * list argtype) : Prop :=
  match sig with (FunctionUse, ts) => Checks ts m | _ => False end.

(** The named things of a list keep the signatures of [d]. *)
Definition with_args {B} (keeps : B -> doc_use * list argtype -> Prop) (d : signatures)
    (ms : list (string * B)) : Prop :=
  Forall (fun '(n, m) => Forall (keeps m) (signatures_for d n)) ms.

Definition sig_name (x : string * doc_use * list argtype) : string := let '(n, _, _) := x in n.

Lemma sig_name_in (d : signatures) n u ts : (n, u, ts) ∈ d -> n ∈ sig_name <$> d.
Proof. intros H. apply list_elem_of_fmap. by exists (n, u, ts). Qed.

Lemma with_args_elem {B} keeps d (ms : list (string * B)) n m u ts :
  with_args keeps d ms -> (n, m) ∈ ms -> (n, u, ts) ∈ d -> keeps m (u, ts).
Proof.
  intros Hms Hm Hd. unfold with_args in Hms. rewrite Forall_forall in Hms. specialize (Hms _ Hm). simpl in Hms.
  rewrite Forall_forall in Hms. apply Hms. unfold signatures_for. apply list_elem_of_omap.
  exists (n, u, ts). split; [done|]. by rewrite String.eqb_refl.
Qed.
(** A property of Server reads its value, and then checks the runtime. *)
Lemma value_of_server_property {A} t (value : EntityType.reader (S := S) A) get f :
  ArgOf t value -> (forall a, RNoArg (f a)) ->
  server_use_args (server_property get (set_from value f)) (SetUse, [t]).
Proof.
  intros Hv Hf. cbn [server_use_args server_property]. unfold set_from.
  apply (value_of_then RNoArg); [|intros x Hx; apply _]. by apply value_of_arg.
Qed.
End members.

(** One member: its signatures are computed, then its body is followed. *)
Ltac one_member :=
  match goal with |- Forall _ (signatures_for ?d ?n) =>
    let l := eval vm_compute in (signatures_for d n) in change (signatures_for d n) with l
  end;
  repeat first [apply Forall_nil_2 | apply Forall_cons_2;
    [first [apply value_of_server_property; apply _
           | cbn [use_args server_use_args table_use_args]; apply _]|]].
Ltac each_signature :=
  unfold with_args;
  repeat first [apply Forall_nil_2 | apply Forall_cons_2; [one_member|]].

Section classes.
Context {S : Type} {env : Env S} {server : ServerFns S} {lib : LuaLib}.
Implicit Types (self : Live).

(** The bodies that have a name of their own. *)
#[export] Instance rno_arg_getData self : RNoArg (S := S) (getData self).
Proof. unfold getData. cbv zeta. apply _. Qed.
#[export] Instance set_checks_tag : ValueOf (X := Live -> _) (fun f => forall self, RNoArg (S := S) (f self)) TStr set_tag.
Proof.
  unfold set_tag. apply value_of_arg; [apply _|]. intros tag self L i w e.
  pose proof (no_arg_SetTag (pool_of Bind w) (l_id self) (l_generation self) tag) as H.
  unfold run, pbind. destruct (SetTag _ _ _ _) as [p|e'|]; [done| |done].
  intros [= ->]. by apply (H e).
Qed.
#[export] Instance rno_arg_Message self colour text : RNoArg (S := S) (Message self colour text).
Proof. unfold Message. apply _. Qed.
#[export] Instance rno_arg_Announce self type text : RNoArg (S := S) (Announce self type text).
Proof. unfold Announce. apply _. Qed.
#[export] Instance rno_arg_Position self : RNoArg (S := S) (Position self).
Proof. unfold Position. apply _. Qed.
#[export] Instance rno_arg_PlaySoundAt self sound v : RNoArg (S := S) (PlaySoundAt self sound v).
Proof. unfold PlaySoundAt. apply _. Qed.
#[export] Instance set_checks_player_vehicle : ValueOf (X := Live -> _) (fun f => forall self, RNoArg (S := S) (f self)) (TOpt (TEntity Vehicle)) set_player_vehicle.
Proof. unfold set_player_vehicle. apply _. Qed.
#[export] Instance rno_arg_repair self : RNoArg (S := S) (repair self).
Proof. unfold repair. apply _. Qed.
#[export] Instance rno_arg_GetRotation self : RNoArg (S := S) (GetRotation self).
Proof. unfold GetRotation. apply _. Qed.
#[export] Instance rno_arg_getOccupant self slot : RNoArg (S := S) (getOccupant self slot).
Proof. unfold getOccupant. cbv zeta. apply _. Qed.
#[export] Instance set_checks_taxi_light : ValueOf (X := Live -> _) (fun f => forall self, RNoArg (S := S) (f self)) TBool set_taxi_light.
Proof. unfold set_taxi_light. apply _. Qed.
#[export] Instance rno_arg_GetColour self : RNoArg (S := S) (GetColour self).
Proof. unfold GetColour. apply _. Qed.
#[export] Instance set_checks_checkpoint_alpha : ValueOf (X := Live -> _) (fun f => forall self, RNoArg (S := S) (f self)) integer set_checkpoint_alpha.
Proof. unfold set_checkpoint_alpha. apply _. Qed.

(** The members every kind has, and those of each class. *)
Lemma RegisterKind_args k : with_args use_args (args_kind k) (RegisterKind (S := S) k).
Proof. destruct k; unfold RegisterKind; each_signature. Qed.
Lemma RegisterBind_args : with_args use_args args_bind (RegisterBind (S := S)).
Proof. unfold RegisterBind, args_bind. each_signature. Qed.
Lemma RegisterPickup_args : with_args use_args args_pickup (RegisterPickup (S := S)).
Proof. unfold RegisterPickup. each_signature. Qed.
Lemma RegisterCheckpoint_args : with_args use_args args_checkpoint (RegisterCheckpoint (S := S)).
Proof. unfold RegisterCheckpoint. each_signature. Qed.
Lemma RegisterObject_args : with_args use_args args_object (RegisterObject (S := S)).
Proof. unfold RegisterObject. each_signature. Qed.
Lemma RegisterVehicle_args : with_args use_args args_vehicle (RegisterVehicle (S := S)).
Proof.
  unfold RegisterVehicle, vehicle_statics, vehicle_methods_1, vehicle_methods_2, vehicle_properties_1,
    vehicle_properties_2. cbn [app]. each_signature.
Qed.
Lemma RegisterPlayer_args : with_args use_args args_player (RegisterPlayer (S := S)).
Proof.
  unfold RegisterPlayer, player_statics, player_methods_1, player_methods_2, player_getter_members,
    player_getters, player_readonly, player_writable, player_entities. cbn [app fmap list_fmap]. each_signature.
Qed.
#[export] Instance rno_arg_ReadServerText name : RNoArg (S := S) (ReadServerText name).
Proof. unfold ReadServerText. apply _. Qed.
#[export] Instance rno_arg_getSettings : RNoArg (S := S) getSettings.
Proof. unfold getSettings. apply _. Qed.
#[export] Instance rno_arg_get_max_players : RNoArg (S := S) get_max_players.
Proof. unfold get_max_players. apply _. Qed.
#[export] Instance rno_arg_set_checked name args : RNoArg (S := S) (set_checked name args).
Proof. unfold set_checked. apply _. Qed.
#[export] Instance rno_arg_set_called name args : RNoArg (S := S) (set_called name args).
Proof. unfold set_called. apply _. Qed.
#[export] Instance rno_arg_set_max_players n : RNoArg (S := S) (set_max_players n).
Proof. unfold set_max_players. apply _. Qed.
#[export] Instance rno_arg_banIP ip : RNoArg (S := S) (banIP ip).
Proof. unfold banIP. apply _. Qed.
#[export] Instance checks_weapon_data : Checks (S := S) [integer; integer; TOpt TNum] weapon_data.
Proof. unfold weapon_data. apply _. Qed.

Lemma RegisterServer_args : with_args server_use_args args_server (RegisterServerTable (S := S)).
Proof.
  unfold RegisterServerTable, server_functions, server_settings, server_text, set_vector, ip_flag,
    int_setting, num_setting. cbn [app].
  each_signature.
Qed.
Lemma tables_args t fs ds :
  (t, ds) ∈ args_tables -> (t, fs) ∈ tables (S := S) ->
  with_args table_use_args ds fs /\ all_names (sig_name <$> ds) (names_of fs) = true.
Proof.
  rewrite !list_elem_of_In. intros Hd Hf. simpl in Hd, Hf.
  destruct Hd as [[= <- <-]|[[= <- <-]|[[= <- <-]|[[= <- <-]|[]]]]];
    destruct Hf as [[= <-]|[[= <-]|[[= <-]|[[= <-]|[]]]]];
    (split; [unfold RegisterMap, RegisterRadio, RegisterWeapon, RegisterSound; each_signature
      |vm_compute; reflexivity]).
Qed.
End classes.

(** ** Using a member *)

Section conformance.
Context {S : Type} {env : Env S} {server : ServerFns S} {lib : LuaLib}.
Implicit Types (w : World S).
Abbreviation program A := (prog (World S) A).
Abbreviation reader := (EntityType.reader (S := S)).

Definition access_of (u : doc_use) : access :=
  match u with FunctionUse | MethodUse => ACall | SetUse => ASet end.

(** The first argument of a method or an assignment is a handle whose entity
    exists; a bind the server has, too. *)
Definition on_live_self (k : EntityKind) (u : doc_use) (L : lua_State) w : Prop :=
  match u with
  | FunctionUse => True
  | _ => exists h, at_index L 1 = Some (LHandle h) /\ h_kind h = k /\
           Valid (pool_of k w) (h_id h) (h_generation h) = true /\
           (k = Bind -> KeyBindExists (env_queries w) (h_id h) = true)
  end.
Definition on_Server (u : doc_use) (L : lua_State) : Prop :=
  u = SetUse -> exists obj, at_index L 1 = Some (LUserdata obj) /\ is_ServerTag obj = true.

Lemma checked_on {A} f L w (p : program A) {B} (k : A -> program B) :
  (forall a, NoArg (k a)) -> argument_checked f L w p -> argument_checked f L w (pbind p k).
Proof.
  intros Hk. unfold argument_checked, pbind. destruct f.
  - intros Hp e. destruct (p w) as [[a|e'|] w1]; cbn [fst] in *; [apply Hk| |done].
    intros [= ->]. by apply (Hp e).
  - intros [m ->]. by exists m.
  - by intros ->.
Qed.

Lemma use_member_args k m u ts L w :
  use_args m (u, ts) -> ready w -> on_live_self k u L w ->
  exists p, use_member k m (access_of u) L = Some p /\
    argument_checked (check_args ts L (first_position u) w) L w p.
Proof.
  intros Hm Hw Hself. destruct u, m as [body|body|get|get set| |]; try done; try (by destruct ts as [|? [|]]).
  - eexists. split; [reflexivity|]. apply checked_on; [intros [vs j]; apply _|]. exact (Hm L 1 w Hw).
  - destruct Hself as (h & Hh & Hk & Hv & Hb). eexists. split; [reflexivity|].
    apply checked_on; [intros [vs j]; apply _|]. specialize (Hm (mkLive (h_id h) (h_generation h)) L 2 w Hw).
    unfold argument_checked, rbind, pbind in *. by rewrite (Live_arg_ready k L 1 w h), Hv by done.
  - destruct ts as [|t [|]]; try done. destruct Hself as (h & Hh & Hk & Hv & Hb).
    eexists. split; [reflexivity|]. apply checked_on; [intros [vs j]; apply _|].
    destruct (Hm L 3 w Hw) as [Hr Hp]. cbn [check_args first_position].
    unfold argument_checked, rbind, pbind, Handle_arg, ToHandle. rewrite Hh, decide_True by done.
    unfold pret. cbv beta iota.
    destruct (check_arg t L 3 w) as [j|j|k']; simpl in Hr; [destruct Hr as [f Hr]|destruct Hr as [e Hr]|].
    + rewrite Hr. rewrite (Live_arg_ready k L 1 w h), Hv by done.
      rewrite Hr in Hp. specialize (Hp f j eq_refl (mkLive (h_id h) (h_generation h))).
      exact (rno_arg_discard _ Hp L (1 + 1) w).
    + rewrite Hr. by exists e.
    + by rewrite Hr.
Qed.
Lemma use_server_args m u ts L w :
  server_use_args m (u, ts) -> ready w -> on_Server u L ->
  exists p, use_server_member m (access_of u) L = Some p /\
    argument_checked (check_args ts L (first_position u) w) L w p.
Proof.
  intros Hm Hw Hself. destruct u, m as [body|get set]; try done; try (by destruct ts as [|? [|]]).
  - eexists. split; [reflexivity|]. apply checked_on; [intros [vs j]; apply _|]. exact (Hm L 1 w Hw).
  - destruct ts as [|t [|]]; try done. destruct (Hself eq_refl) as (obj & Hobj & Htag).
    eexists. split; [reflexivity|]. apply checked_on; [intros [vs j]; apply _|].
    destruct (Hm L 3 w Hw) as [Hr Hp]. cbn [check_args first_position].
    unfold argument_checked, rbind, pbind, Server_self. rewrite Hobj, Htag. unfold pret. cbv beta iota.
    destruct (check_arg t L 3 w) as [j|j|k']; simpl in Hr; [destruct Hr as [f Hr]|destruct Hr as [e Hr]|].
    + rewrite Hr. rewrite Hr in Hp. exact (rno_arg_discard _ (Hp f j eq_refl) L j w).
    + rewrite Hr. by exists e.
    + by rewrite Hr.
Qed.

(** ** Looking members up *)

Lemma first_member_app (c d : class (S := S)) n :
  (forall m, first_member c n = Some m -> first_member (c ++ d) n = Some m) /\
  (n ∉ names_of c -> first_member (c ++ d) n = first_member d n).
Proof.
  induction c as [|[n' m'] c [IH1 IH2]]; [done|]. cbn [app first_member names_of map fst]. split.
  - case_bool_decide; [done|apply IH1].
  - intros Hn. rewrite bool_decide_false by (intros ->; apply Hn; by left). apply IH2.
    intros H. apply Hn. by right.
Qed.

Lemma own_member k n :
  n ∈ names_of (own_members (S := S) k) ->
  exists m, find_member (class_of k) n = Some m /\ (n, m) ∈ own_members k.
Proof.
  intros Hn. apply names_of_reverse in Hn.
  destruct (first_member_elem (reverse (own_members k)) n Hn) as (m & Hf & Hm).
  exists m. split; [|by rewrite elem_of_reverse in Hm]. unfold find_member, class_of. rewrite reverse_app.
  by apply first_member_app.
Qed.
Lemma kind_member k n :
  n ∉ names_of (own_members (S := S) k) -> n ∈ names_of (RegisterKind (S := S) k) ->
  exists m, find_member (class_of k) n = Some m /\ (n, m) ∈ RegisterKind k.
Proof.
  intros Ho Hn. apply names_of_reverse in Hn.
  destruct (first_member_elem (reverse (RegisterKind k)) n Hn) as (m & Hf & Hm).
  exists m. split; [|by rewrite elem_of_reverse in Hm]. unfold find_member, class_of. rewrite reverse_app.
  rewrite (proj2 (first_member_app _ _ _)); [done|].
  intros H. apply Ho. apply names_of_reverse in H. by rewrite reverse_involutive in H.
Qed.

(** No name is in both lists, or each name of one is in the other. *)
Definition no_names (ns l : list string) : bool := forallb (fun n => negb (existsb (String.eqb n) l)) ns.
Lemma no_names_spec ns l n : no_names ns l = true -> n ∈ ns -> n ∉ l.
Proof.
  unfold no_names. rewrite forallb_forall. intros H Hn Hl. apply list_elem_of_In in Hn.
  specialize (H _ Hn). apply negb_true_iff in H. apply not_true_iff_false in H. apply H.
  apply existsb_exists. exists n. split; [by apply list_elem_of_In|apply String.eqb_refl].
Qed.

Lemma own_members_args k : with_args use_args (args_own k) (own_members (S := S) k).
Proof.
  destruct k; cbn [own_members args_own]; [apply RegisterPlayer_args|apply RegisterVehicle_args
    |apply RegisterObject_args|apply RegisterPickup_args|apply RegisterCheckpoint_args
    | |apply RegisterBind_args].
  apply Forall_forall. intros [n m] _. constructor.
Qed.

Lemma find_with_args k n u ts :
  (n, u, ts) ∈ args_class k -> exists m, find_member (class_of (S := S) k) n = Some m /\ use_args m (u, ts).
Proof.
  unfold args_class. intros [Hin|Hin]%elem_of_app; pose proof (sig_name_in _ _ _ _ Hin) as Hn.
  - destruct (kind_member k n) as (m & Hf & Hm).
    + apply (no_names_spec (sig_name <$> args_kind k)); [destruct k; vm_compute; reflexivity|done].
    + apply (all_names_spec (sig_name <$> args_kind k)); [destruct k; vm_compute; reflexivity|done].
    + exists m. split; [done|]. by eapply with_args_elem; [apply RegisterKind_args| |].
  - destruct (own_member k n) as (m & Hf & Hm).
    + apply (all_names_spec (sig_name <$> args_own k)); [destruct k; vm_compute; reflexivity|done].
    + exists m. split; [done|]. by eapply with_args_elem; [apply own_members_args| |].
Qed.

(** C6: The bindings refuse exactly the arguments docs/api/ says they refuse.
    For every function, method and writable property whose argument types
    ArgDocs.v lists (all of the documentation's but those with forms of their
    own), in every state in which scripts run: when the arguments do not fit, the
    call raises the error of the first that does not (an argument error at its
    position, or [<Kind> no longer exists] for a handle whose entity is gone),
    and nothing has changed, so nothing was sent to the server; when they fit,
    no argument error is raised. *)
Theorem arguments_conform_to_the_documentation L w :
  ready w ->
  (forall k n u ts, (n, u, ts) ∈ args_class k -> on_live_self k u L w ->
     exists p, use_entity k n (access_of u) L = Some p /\
       argument_checked (check_args ts L (first_position u) w) L w p) /\
  (forall n u ts, (n, u, ts) ∈ args_server -> on_Server u L ->
     exists p, use_server n (access_of u) L = Some p /\
       argument_checked (check_args ts L (first_position u) w) L w p) /\
  (forall t d n u ts, (t, d) ∈ args_tables -> (n, u, ts) ∈ d ->
     exists p, use_table t n L = Some p /\ argument_checked (check_args ts L 1 w) L w p).
Proof.
  intros Hw. split_and!.
  - intros k n u ts Hin Hself. destruct (find_with_args k n u ts Hin) as (m & Hf & Hm).
    unfold use_entity. rewrite Hf. by apply use_member_args.
  - intros n u ts Hin Hself. pose proof (sig_name_in _ _ _ _ Hin) as Hn.
    assert (n ∈ names_of (RegisterServerTable (S := S))) as Hs.
    { apply (all_names_spec (sig_name <$> args_server)); [vm_compute; reflexivity|done]. }
    destruct (found_name _ _ (names_of_reverse _ _ Hs)) as (i & m & Hf & Hm). rewrite elem_of_reverse in Hm.
    unfold use_server. rewrite Hf. apply use_server_args; [|done..].
    by eapply with_args_elem; [apply RegisterServer_args| |].
  - intros t d n u ts Ht Hin. pose proof (sig_name_in _ _ _ _ Hin) as Hn.
    assert (t ∈ names_of (tables (S := S))) as Htn.
    { apply (all_names_spec (map fst args_tables)); [vm_compute; reflexivity|].
      apply list_elem_of_In, (in_map fst _ (t, d)). by apply list_elem_of_In. }
    destruct (found_name _ _ Htn) as (i & fs & Hf & Hfs). unfold use_table. rewrite Hf.
    assert (n ∈ names_of fs) as Hnf.
    { eapply all_names_spec; [apply (tables_args t fs d Ht Hfs)|exact Hn]. }
    destruct (found_name _ _ Hnf) as (j & body & Hb & Hbody). rewrite Hb. eexists. split; [reflexivity|].
    pose proof (with_args_elem _ _ _ _ _ _ _ (proj1 (tables_args t fs d Ht Hfs)) Hbody Hin) as Hu.
    apply checked_on; [intros [vs j']; apply _|]. destruct u; [|done..]. exact (Hu L 1 w Hw).
Qed.
End conformance.
