(* ===== verification/Interp.v ===== *)
(** Running scripts. A script is a tree of binding calls; [interp] is the
    environment in which calling a Lua function runs its script with the real
    bindings, so that handlers, timers and requests re-enter the plugin. Lua
    nests C calls to a bounded depth ([LUAI_MAXCCALLS], 200): the fuel of
    [interp], past which a call raises an error. Every assumption the
    components make about Lua code ([LuaRespects]) holds in it. The identity of
    an object that a binding makes is taken from the heap's counter and not
    claimed to be new. *)
From stdpp Require Import base tactics list gmap strings.
From Stdlib Require Import ZArith Lia.
From S2P Require Import Prelude.
From S2P Require Import EntityPool.
From S2P Require Import LuaValue.
From S2P Require Import Args.
From S2P Require Import Invoker.
From S2P Require Import EventBus.
From S2P Require Import Dispatch.
From S2P Require Import EntityPools.
From S2P Require Import Scheduler.
From S2P Require Import Config.
From S2P Require Import Http.
From S2P Require Import World.
From S2P Require Import Runtime.
From S2P Require Import ApiGuard.
From S2P Require Import ServerCalls.
From S2P Require Import EntityType.
From S2P Require Import Plugin.
From S2P Require Import Callbacks.
From S2P Require Import Bindings.
From S2P Require Import ScriptRel.
From S2P Require Import MemberRel.
From S2P Require Import Members.
Open Scope Z_scope.

(** ** Scripts *)

(** What a script can ask for: a binding, a protected call of a function, an
    assignment to the global [thisTimer], a member of an entity class, of Server
    or of one of the tables (it sees the first result), or something the server
    does while it runs (kicking a player, creating or deleting an entity, a
    shutdown), which calls the plugin back before it returns. *)
Inductive operation :=
  | OpBind (name : string) (fn : lua_value) | OpUnbind (name : string) (fn : lua_value)
  | OpCancel | OpCreate (name : string) | OpTrigger (name : string) (args : list lua_value)
  | OpTimer (fn interval repeats : lua_value) (extra : list lua_value)
  | OpDestroy (id : Z) | OpActive (id : Z) | OpThisTimer (v : lua_value)
  | OpRequest (L : lua_State) | OpReload
  | OpCall (fn : Z) (args : list lua_value)
  | OpMember (k : EntityKind) (name : string) (a : access) (L : lua_State)
  | OpServer (name : string) (a : access) (L : lua_State)
  | OpTable (table name : string) (L : lua_State)
  | OpKick (id reason : Z) | OpConnect (id : Z) | OpPool (type id deleted : Z) | OpShutdown
  | OpPanic.

(** A Lua function's body: it ends, raises an error, performs an operation and
    goes on with its result or error value, or creates a closure. *)
Inductive script :=
  | SReturn
  | SRaise (e : lua_value)
  | SOp (op : operation) (k : lua_value + lua_value -> script)
  | SFunction (body : list lua_value -> script) (k : Z -> script).

(** The rest of the world: the functions of the Lua state by identity, the
    script files, the identity of the next object, the number of server calls
    made, the server's answers, and the config that luaconfig.lua holds now. *)
Record Heap := mkHeap
  { h_functions : gmap Z (list lua_value -> script); h_files : gmap string Z; h_next : Z;
    h_calls : Z; h_queries : ServerQueries; h_config : exn + Config }.

Definition add_function (body : list lua_value -> script) (h : Heap) : Heap :=
  mkHeap (<[h_next h := body]> (h_functions h)) (h_files h) (h_next h + 1) (h_calls h)
    (h_queries h) (h_config h).
Definition count_call (h : Heap) : Heap :=
  mkHeap (h_functions h) (h_files h) (h_next h) (h_calls h + 1) (h_queries h) (h_config h).

(** A callback the server makes from inside one of its functions. *)
Inductive server_event :=
  | EKick (id reason : Z) | EConnect (id : Z) | EPool (type id deleted : Z) | EShutdown.

(** A server as data: the size it reports for its table (a [uint32_t]) and, by
    offset, its functions: given the arguments and the number of calls made
    before, the callbacks it makes and then its answer. *)
Record ServerData := mkServer
  { sd_size : Z; sd_functions : Z -> option (list cval -> Z -> list server_event * answer);
    sd_bad_self : string; sd_tag : Z -> bool; sd_last_first : bool }.

Section exec.
Context {lib : LuaLib} {env : Env Heap} (sd : ServerData).
Implicit Types (w : World Heap).

(** What a binding gives its script. [Dispatch_refines], [bindings_are_defined]
    and the other theorems rule the undefined behaviour out, but for rotation
    tables that are nested too deeply. *)
Definition from_binding (m : prog (World Heap) lua_value) (w : World Heap)
    : (lua_value + lua_value) * World Heap :=
  match m w with
  | (Ret v, w) => (inl v, w)
  | (Throw e, w) => (inr (LString (exn_text e)), w)
  | (UB, _) => (inr (LString "undefined behaviour"), w)
  end.

(** A callback of the server; it can only come while Lua runs. *)
Definition from_server {A} (m : prog (World Heap) A) (w : World Heap)
    : (lua_value + lua_value) * World Heap :=
  if InLuaCall w then
    match m w with
    | (UB, _) => (inr (LString "undefined behaviour"), w)
    | (_, w) => (inl LNil, w)
    end
  else (inl LNil, w).

Definition run_event (e : server_event) : World Heap -> (lua_value + lua_value) * World Heap :=
  match e with
  | EKick id reason => from_server (OnPlayerDisconnect id reason)
  | EConnect id => from_server (OnPlayerConnect id)
  | EPool type id deleted => from_server (OnEntityPoolChange type id deleted)
  | EShutdown => from_server OnServerShutdown
  end.

(** The functions of the server, run with its callbacks. *)
#[local] Instance data_server : ServerFns Heap :=
  {| server_api := mkApi (Some (mkFuncs (wrap 32 (sd_size sd)) (fun o =>
       f ← sd_functions sd o;
       Some (fun args w =>
         let '(events, a) := f args (h_calls (rest w)) in
         (a, fold_left (fun w e => snd (run_event e w)) events (set_rest (count_call (rest w)) w))))));
     sol_bad_self := sd_bad_self sd; is_ServerTag := sd_tag sd;
     last_argument_first := sd_last_first sd |}.

(** The use of a member: its first result. *)
Definition from_member (m : option (prog (World Heap) results)) (w : World Heap)
    : (lua_value + lua_value) * World Heap :=
  match m with
  | None => (inr (LString "no such member"), w)
  | Some m => from_binding (pbind m (fun vs => pret (default LNil (head vs)))) w
  end.

Definition run_operation (op : operation) : World Heap -> (lua_value + lua_value) * World Heap :=
  match op with
  | OpBind name fn => from_binding (Event_bind name fn)
  | OpUnbind name fn => from_binding (Event_unbind name fn)
  | OpCancel => from_binding Event_cancel
  | OpCreate name => from_binding (Event_create name)
  | OpTrigger name args => from_binding (Event_trigger name args)
  | OpTimer fn i r extra => from_binding (Timer_create fn i r extra)
  | OpDestroy id => from_binding (Timer_destroy id)
  | OpActive id => from_binding (Timer_active id)
  | OpThisTimer v => fun w => (inl LNil, set_this_timer v w)
  | OpRequest L => from_binding (http_request (fun v => default "?" (tostring v)) L None)
  | OpReload => from_binding Server_reload
  | OpCall fn args => fun w =>
      match env_pcall fn args w with
      | (None, w) => (inl LNil, w)
      | (Some e, w) => (inr e, w)
      end
  | OpMember k name a L => from_member (use_entity k name a L)
  | OpServer name a L => from_member (use_server name a L)
  | OpTable table name L => from_member (use_table table name L)
  | OpKick id reason => run_event (EKick id reason)
  | OpConnect id => run_event (EConnect id)
  | OpPool type id deleted => run_event (EPool type id deleted)
  | OpShutdown => run_event EShutdown
  | OpPanic => fun w => (inl LNil, MarkDead w)
  end.

Fixpoint exec (s : script) (w : World Heap) : option lua_value * World Heap :=
  match s with
  | SReturn => (None, w)
  | SRaise e => (Some e, w)
  | SOp op k => let '(r, w) := run_operation op w in exec (k r) w
  | SFunction body k => exec (k (h_next (rest w))) (set_rest (add_function body (rest w)) w)
  end.

Definition call_function (fn : Z) (args : list lua_value) (w : World Heap)
    : option lua_value * World Heap :=
  match h_functions (rest w) !! fn with
  | None => (Some (LString "attempt to call a nil value"), w)
  | Some body => exec (body args) w
  end.
End exec.

Section interp.
Context {lib : LuaLib} (sd : ServerData).

(** The environment in which Lua may nest [n] more C calls. Its server deletes
    without reporting back, libcurl reports nothing, and no finalizer does
    anything. *)
Fixpoint interp (n : nat) : Env Heap :=
  {| env_pcall fn args w :=
       match n with
       | O => (Some (LString "C stack overflow"), w)
       | S m => call_function (env := interp m) sd fn args w
       end;
     env_load path w := (
       match h_files (rest w) !! path with
       | Some fn => inr fn
       | None => inl (LString ("cannot open " +:+ path))
       end, w);
     env_close w := w;
     env_copas_step := 0;
     env_queries w := h_queries (rest w);
     env_delete k := match k with Player => None | _ => Some (fun _ w => w) end;
     env_curl w := mkReport None [] [];
     env_reload w := match h_config (rest w) with inl e => Throw e | inr c => Ret c end;
     env_new_obj i w := h_next (rest w) + Z.of_nat i |}.

Lemma from_binding_script {env : Env Heap} m w :
  respects script_rel m -> script_rel w (snd (from_binding m w)).
Proof.
  intros Hm. specialize (Hm w). unfold from_binding.
  destruct (m w) as [[v|e|] w1]; simpl in *; [by apply Hm|by apply Hm|reflexivity].
Qed.

Lemma from_server_script {env : Env Heap} {A} (m : prog (World Heap) A) w :
  (InLuaCall w = true -> is_UB (fst (m w)) = false -> script_rel w (snd (m w))) ->
  script_rel w (snd (from_server m w)).
Proof.
  intros Hm. unfold from_server. destruct (InLuaCall w); [|reflexivity]. specialize (Hm eq_refl).
  destruct (m w) as [[v|e|] w1]; simpl in *; [by apply Hm|by apply Hm|reflexivity].
Qed.

Section operations.
Context {env : Env Heap} `{!LuaRespects (@script_rel Heap)}.

Lemma run_event_script e w : script_rel w (snd (run_event e w)).
Proof.
  destruct e; apply from_server_script; [apply OnPlayerDisconnect_in_lua|apply OnPlayerConnect_in_lua
    |apply OnEntityPoolChange_in_lua|]. intros Hc _. by apply OnServerShutdown_in_lua.
Qed.

#[local] Existing Instance data_server.
#[export] Instance data_server_respects : ServerRespects (data_server sd).
Proof.
  split.
  - intros t [= <-]. unfold size_ok. simpl. unfold UINT32_MAX.
    pose proof (wrap_range 32 (sd_size sd)). lia.
  - intros t o f args w [= <-]. simpl. destruct (sd_functions sd o) as [g|]; [|done].
    intros [= <-]. destruct (g args (h_calls (rest w))) as [events a]. simpl.
    assert (script_rel w (set_rest (count_call (rest w)) w)) as Hs by by apply script_rel_same.
    revert Hs. generalize (set_rest (count_call (rest w)) w).
    induction events as [|e events IH]; intros w' Hs; [done|]. simpl. apply IH.
    etransitivity; [exact Hs|apply run_event_script].
Qed.

Lemma from_member_script (m : option (prog (World Heap) results)) w :
  (forall p, m = Some p -> respects script_rel p) -> script_rel w (snd (from_member m w)).
Proof.
  intros Hm. unfold from_member. destruct m as [p|]; [|reflexivity].
  apply from_binding_script, respects_pbind; [apply _|by apply Hm|]. intros vs.
  apply respects_pret. apply _.
Qed.

Lemma run_operation_script op w : script_rel w (snd (run_operation sd op w)).
Proof.
  destruct op; cbn [run_operation]; try (apply from_binding_script; auto with vcmp; fail);
    try apply run_event_script.
  - by apply script_rel_same.
  - pose proof (lua_respects (R := @script_rel Heap) fn args w) as H. simpl in H.
    destruct (env_pcall fn args w) as [[e|] w1]; exact H.
  - apply from_member_script. intros p Hp w' _. exact (use_entity_script _ _ _ _ _ w' Hp).
  - apply from_member_script. intros p Hp w' _. exact (use_server_script _ _ _ _ w' Hp).
  - apply from_member_script. intros p Hp w' _. exact (use_table_script _ _ _ _ w' Hp).
  - split; try done; reflexivity.
Qed.
End operations.

Lemma exec_script {env : Env Heap} `{!LuaRespects (@script_rel Heap)} s w :
  script_rel w (snd (exec sd s w)).
Proof.
  revert w. induction s as [|e|op k IH|body _ k IH]; intros w; cbn [exec]; [reflexivity..| |].
  - pose proof (run_operation_script op w) as Hop. destruct (run_operation sd op w) as [r w1].
    etransitivity; [exact Hop|apply IH].
  - etransitivity; [|apply IH]. by apply script_rel_same.
Qed.

#[export] Instance interp_respects n :
  LuaRespects (H := world_host (env := interp n)) (@script_rel Heap).
Proof.
  induction n as [|n IH]; intros fn args w; [reflexivity|].
  change (pcall fn args w) with (call_function (env := interp n) sd fn args w).
  unfold call_function. destruct (_ !! _) as [body|]; [|reflexivity].
  apply (exec_script (env := interp n)).
Qed.
End interp.
