(* ===== verification/Safety.v ===== *)
(** The plugin as a whole: whatever the scripts do, and whatever sequence of
    callbacks the server makes, no callback lets an exception out or runs into
    undefined behaviour, and every component's invariant holds between them. *)
From stdpp Require Import base tactics list gmap strings.
From Stdlib Require Import ZArith Lia Floats.SpecFloat.
From S2P Require Import Prelude.
From S2P Require Import EntityPool.
From S2P Require Import LuaValue.
From S2P Require Import Invoker.
From S2P Require Import EventBus.
From S2P Require Import Dispatch.
From S2P Require Import EntityPools.
From S2P Require Import Scheduler.
From S2P Require Import Config.
From S2P Require Import Http.
From S2P Require Import World.
From S2P Require Import Runtime.
From S2P Require Import Plugin.
From S2P Require Import Callbacks.
From S2P Require Import Bindings.
From S2P Require Import ScriptRel.
From S2P Require Import Interp.
Open Scope Z_scope.

(** What is assumed of the world around the plugin: all Lua code goes through
    the bindings, also while a file loads and while the state closes; the
    server's delete functions find no runtime to call back during a teardown;
    libcurl reports each finished transfer once, and only transfers it was
    given; reading the config again is defined. *)
Class GoodEnv {S : Type} (env : Env S) := {
  good_lua :: LuaRespects (@script_rel S);
  good_load path w : script_rel w (snd (env_load path w));
  good_close w : script_rel w (env_close w);
  good_delete k f id w : env_delete k = Some f ->
    rt (f id w) = rt w /\ present (f id w) = present w /\
    shutdown_deferred (f id w) = shutdown_deferred w;
  good_curl w : NoDup (m_id <$> messages (env_curl w)) /\
    forall m, m ∈ messages (env_curl w) -> m_id m ∈ dom (transfers (r_http (rt w)));
  good_reload w : is_UB (env_reload w) = false
}.

Section safety.
Context {S : Type} {env : Env S} {lib : LuaLib} `{!GoodEnv env}.
Implicit Types (w : World S).

(** ** The invariant *)

(** The components' invariants. *)
Record ok w : Prop := mkOk
  { ok_bus : bus_wf (r_events (rt w)); ok_timers : sched_wf (r_timers (rt w));
    ok_http : http_wf (r_http (rt w)); ok_pools : pools_wf (r_entities (rt w)) }.

(** Between two callbacks: no Lua runs, no dispatch is active, no timer is
    marked as running. *)
Record quiet w : Prop := mkQuiet
  { q_ok : ok w; q_frames : cancelled (r_events (rt w)) = [];
    q_idle : idle (r_timers (rt w)); q_depth : depth (r_invoker (rt w)) = 0 }.

Lemma script_ok w w' : script_rel w w' -> ok w -> ok w'.
Proof.
  intros Hs [Hb Ht Hh Hp]. split; [by apply (step_wf _ _ (sr_bus _ _ Hs))| |
    by apply (hst_wf _ _ (sr_http _ _ Hs))|by apply (sr_pools _ _ Hs)].
  by apply (ev_wf _ _ _ _ _ (sr_timers _ _ Hs Ht)).
Qed.

Lemma script_quiet w w' : script_rel w w' -> quiet w -> quiet w'.
Proof.
  intros Hs [Hok Hf Hi Hd]. split; [by eapply script_ok| | |by rewrite (sr_depth _ _ Hs)].
  - apply length_zero_iff_nil. by rewrite (step_frames _ _ (sr_bus _ _ Hs)), Hf.
  - eapply evolve_idle; [apply Hok|done|]. apply (sr_timers _ _ Hs), Hok.
Qed.

(** A computation that may run while Lua does. *)
Definition safe {A} (m : prog (World S) A) : Prop := forall w,
  ok w -> is_UB (fst (m w)) = false /\ script_rel w (snd (m w)).

(** One that runs between two callbacks. *)
Definition keeps {A} (m : prog (World S) A) : Prop := forall w,
  quiet w -> is_UB (fst (m w)) = false /\ quiet (snd (m w)).

(** A callback: it returns, and the invariant holds again. *)
Definition returns {A} (m : prog (World S) A) : Prop := forall w,
  quiet w -> (exists a, fst (m w) = Ret a) /\ quiet (snd (m w)).

Lemma safe_ret {A} (a : A) : safe (pret a).
Proof. intros w _. by split. Qed.

Lemma safe_bind {A B} (m : prog (World S) A) (k : A -> prog (World S) B) :
  safe m -> (forall a, safe (k a)) -> safe (pbind m k).
Proof.
  intros Hm Hk w Hok. unfold pbind. destruct (Hm w Hok) as [Hub Hs].
  destruct (m w) as [[a|e|] w1]; cbn [fst snd] in *; [|by split|done].
  destruct (Hk a w1 (script_ok _ _ Hs Hok)) as [Hub' Hs']. split; [done|etransitivity; eassumption].
Qed.

Lemma safe_step {A} (a : A) (f : World S -> World S) :
  (forall w, script_rel w (f w)) -> safe (fun w => (Ret a, f w)).
Proof. intros Hf w _. by split. Qed.

Lemma safe_after {A} (f : World S -> World S) (m : prog (World S) A) :
  (forall w, script_rel w (f w)) -> safe m -> safe (fun w => m (f w)).
Proof.
  intros Hf Hm w Hok. destruct (Hm (f w)) as [Hub Hs]; [exact (script_ok _ _ (Hf w) Hok)|].
  split; [done|]. etransitivity; [apply Hf|exact Hs].
Qed.

Lemma safe_keeps {A} (m : prog (World S) A) : safe m -> keeps m.
Proof.
  intros Hm w Hq. destruct (Hm w (q_ok _ Hq)) as [Hub Hs]. split; [done|by eapply script_quiet].
Qed.

Lemma keeps_bind {A B} (m : prog (World S) A) (k : A -> prog (World S) B) :
  keeps m -> (forall a, keeps (k a)) -> keeps (pbind m k).
Proof.
  intros Hm Hk w Hq. unfold pbind. destruct (Hm w Hq) as [Hub Hq1].
  destruct (m w) as [[a|e|] w1]; cbn [fst snd] in *; [by apply Hk|by split|done].
Qed.

Lemma returns_bind {A B} (m : prog (World S) A) (k : A -> prog (World S) B) :
  returns m -> (forall a, returns (k a)) -> returns (pbind m k).
Proof.
  intros Hm Hk w Hq. unfold pbind. destruct (Hm w Hq) as [[a Ha] Hq1].
  destruct (m w) as [o w1]. cbn [fst snd] in *. subst o. by apply Hk.
Qed.

Lemma returns_ret {A} (a : A) : returns (pret a).
Proof. intros w Hq. split; [by exists a|done]. Qed.

(** ** Events *)

Lemma Dispatch_safe event push :
  respects script_rel push -> (forall w, is_UB (fst (push w)) = false) -> safe (Dispatch event push).
Proof.
  intros Hpush HnoUB w Hok.
  assert (is_UB (fst (Dispatch event push w)) = false) as Hub.
  { apply Dispatch_is_spec; [apply Hok| |done]. eapply respects_mono, Hpush. apply script_bus. }
  split; [done|]. by apply Dispatch_script.
Qed.

Lemma push_list_script args : respects script_rel (push_list args).
Proof. apply push_list_respects; [apply _|]. intros k r. apply PushEntity_script. Qed.

Lemma Emit_safe e args : safe (Emit e args).
Proof. apply Dispatch_safe; [apply push_list_script|apply push_list_UB]. Qed.

Lemma SeenRef_safe k id : safe (SeenRef k id).
Proof.
  intros w _. unfold SeenRef. destruct (negb _); [by split|].
  split; [done|]. apply adopt_id_script.
Qed.

Lemma raise_event_safe e args : safe (raise_event e args).
Proof.
  intros w Hok. unfold raise_event. destruct (Usable w); [|by split].
  apply safe_bind; [apply Emit_safe| |done]. intros _. apply safe_ret.
Qed.

Lemma EmitPlayer_safe e id args : safe (EmitPlayer e id args).
Proof. apply safe_bind; [apply SeenRef_safe|]. intros r. apply Emit_safe. Qed.

Lemma EmitEntity_safe e k id args : safe (EmitEntity e k id args).
Proof. apply safe_bind; [apply SeenRef_safe|]. intros r. apply Emit_safe. Qed.

Lemma EmitPlayerAnd_safe e p k id args : safe (EmitPlayerAnd e p k id args).
Proof.
  apply safe_bind; [apply SeenRef_safe|]. intros r.
  apply safe_bind; [apply SeenRef_safe|]. intros r'. apply Emit_safe.
Qed.

Lemma EmitAndPlayer_safe e k id p args : safe (EmitAndPlayer e k id p args).
Proof.
  apply safe_bind; [apply SeenRef_safe|]. intros r.
  apply safe_bind; [apply SeenRef_safe|]. intros r'. apply Emit_safe.
Qed.

Lemma unless_unheard_safe e body : safe body -> safe (unless_unheard e body).
Proof.
  intros Hb w Hok. unfold unless_unheard. destruct (negb _); [by split|by apply Hb].
Qed.

(** ** Shutting down *)

Lemma notify_players_safe ids : safe (notify_players ids).
Proof.
  induction ids as [|id ids IH]; [apply safe_ret|]. intros w. cbn [notify_players].
  destruct (negb (Usable w)); [by intros _; split|].
  destruct (negb (Alive _ _)); [apply IH|].
  apply safe_bind; [apply Emit_safe|]. intros _.
  apply safe_bind; [|by intros _]. apply safe_step. intros w'. apply release_id_script.
Qed.

Lemma NotifyServerShutdown_safe : safe NotifyServerShutdown.
Proof.
  intros w. unfold NotifyServerShutdown. destruct (negb (Usable w)); [by intros _; split|].
  apply safe_bind; [apply Emit_safe|]. intros _ w'. apply notify_players_safe.
Qed.

Lemma pools_map_wf (f : EntityPool -> EntityPool) ps :
  (forall p, pool_wf p -> pool_wf (f p) /\ kind (f p) = kind p) ->
  pools_wf ps -> pools_wf (f <$> ps).
Proof.
  intros Hf Hwf.
  assert (forall k, Get (f <$> ps) k = f (Get ps k)) as Hget.
  { intros k. unfold Get. rewrite list_lookup_fmap.
    destruct (lookup_lt_is_Some_2 ps (kind_index k)) as [p ->]; [|done].
    rewrite (pswf_length _ Hwf). apply kind_index_lt. }
  split; [by rewrite length_fmap, (pswf_length _ Hwf)|..]; intros k; rewrite Hget;
    destruct (Hf (Get ps k) (pswf_pool _ Hwf k)) as [Hp Hk]; [|done].
  rewrite Hk. apply (pswf_kind _ Hwf).
Qed.

Lemma Close_wf p : pool_wf p -> pool_wf (Close p) /\ kind (Close p) = kind p.
Proof. intros Hp. split; [by apply (run_op_wf p OClose)|done]. Qed.
Lemma ReleaseRefs_wf p : pool_wf p -> pool_wf (ReleaseRefs p) /\ kind (ReleaseRefs p) = kind p.
Proof. intros Hp. split; [by apply (run_op_wf p OReleaseRefs)|done]. Qed.

(** A step that leaves the runtime's components alone. *)
Lemma quiet_same w w' :
  r_events (rt w') = r_events (rt w) -> r_timers (rt w') = r_timers (rt w) ->
  r_http (rt w') = r_http (rt w) -> pools_wf (r_entities (rt w')) ->
  r_invoker (rt w') = r_invoker (rt w) -> quiet w -> quiet w'.
Proof.
  intros E1 E2 E3 Hp E4 [[? ? ? ?] ? ? ?]. split; [split|..]; rewrite ?E1, ?E2, ?E3, ?E4; done.
Qed.

Lemma quiet_pools ps w : pools_wf ps -> quiet w -> quiet (set_pools ps w).
Proof. intros Hp. by apply quiet_same. Qed.

Lemma Bus_Clear_wf b : bus_wf b -> bus_wf (Bus_Clear b).
Proof.
  intros [Hl Hi Hd Hn]. split; simpl; [by rewrite length_fmap|done| |].
  - intros l h (x & -> & _)%list_elem_of_fmap Hh. by apply not_elem_of_nil in Hh.
  - intros l (x & -> & _)%list_elem_of_fmap. constructor.
Qed.

Lemma Sched_Clear_wf s : sched_wf s -> sched_wf (Sched_Clear s).
Proof. intros Hs. split; [by intros id t ?|by intros id t ?|apply (swf_next _ Hs)]. Qed.

Lemma Http_Clear_wf h : http_wf (Http_Clear h).
Proof. split; [by intros id t ?|]. unfold Pending. by vm_compute. Qed.

Lemma release_lua_refs_quiet w : quiet w -> quiet (release_lua_refs w).
Proof.
  intros [[Hb Ht Hh Hp] Hf Hi Hd]. split; [|done|by intros id t ?|done]. split.
  - by apply Bus_Clear_wf.
  - by apply Sched_Clear_wf.
  - apply Http_Clear_wf.
  - by apply pools_map_wf; [apply ReleaseRefs_wf|].
Qed.

Lemma DeleteCreated_quiet w : quiet w -> quiet (DeleteCreated w).
Proof.
  apply DeleteCreated_keeps.
  - intros k f id w' Hf Hq. destruct (good_delete k f id w' Hf) as (E & _).
    apply (quiet_same w'); rewrite ?E; try done. apply Hq.
  - intros k id w' Hq. apply quiet_pools; [|done]. apply (pools_wf_upd k (fun p => Release p id) w').
    + apply Hq.
    + intros p Hp. split; [by apply Release_wf|apply kind_Release].
Qed.

Lemma Shutdown_quiet reason w : quiet w -> quiet (Shutdown reason w).
Proof.
  intros Hq. unfold Shutdown. destruct (negb _); [done|]. destruct (InLuaCall w).
  { by apply (quiet_same w); try apply Hq. }
  assert (quiet (upd_rt (set_closing true) w)) as Hq1 by (by apply (quiet_same w); try apply Hq).
  destruct (dead_ _); [by eapply quiet_same, Hq1; try apply Hq1|].
  set (w2 := set_pools _ _).
  assert (quiet w2) as Hq2.
  { apply quiet_pools; [|done]. apply pools_map_wf; [apply Close_wf|apply Hq1]. }
  assert (forall w3, quiet w3 -> quiet (upd_rt (set_r_lua false) (env_close (release_lua_refs w3)))) as Hend.
  { intros w3 Hq3. assert (quiet (env_close (release_lua_refs w3))) as Hq4.
    { eapply script_quiet; [apply good_close|by apply release_lua_refs_quiet]. }
    by eapply quiet_same, Hq4; try apply Hq4. }
  destruct reason; apply Hend; [done|by apply DeleteCreated_quiet].
Qed.

Lemma Guarded_keeps where_ body : keeps body -> returns (Guarded where_ body).
Proof.
  intros Hb w Hq. unfold Guarded. destruct (Hb w Hq) as [Hub Hq1].
  destruct (body w) as [[[]|e|] w1]; cbn [fst snd] in *; [|split; [by exists tt|]|done].
  - split; [by exists tt|done].
  - by apply (quiet_same w1); try apply Hq1.
Qed.

Lemma FinishShutdown_returns : returns FinishShutdown.
Proof.
  intros w Hq. unfold FinishShutdown.
  assert (quiet (set_deferred false w)) as Hq0 by (by apply (quiet_same w); try apply Hq).
  destruct (negb _); [split; [by exists tt|done]|].
  destruct (Guarded_keeps "OnServerShutdown" _ (safe_keeps _ NotifyServerShutdown_safe) _ Hq0)
    as [[[] Hr] Hq1].
  destruct (Guarded _ _ _) as [o w1]. cbn [fst snd] in *. subst o. split; [by exists tt|].
  assert (quiet (Shutdown Server (Shutdown Server (set_present false w1)))) as Hq2.
  { do 2 apply Shutdown_quiet. by apply (quiet_same w1); try apply Hq1. }
  by eapply quiet_same, Hq2; try apply Hq2.
Qed.

Lemma AfterCallback_returns : returns AfterCallback.
Proof.
  intros w Hq. unfold AfterCallback. destruct (_ && _ && _); [by apply FinishShutdown_returns|].
  split; [by exists tt|done].
Qed.

Lemma OnEvent_returns where_ body : safe body -> returns (OnEvent where_ body).
Proof.
  intros Hb w Hq. unfold OnEvent.
  assert (forall (c : bool) w1, quiet w1 -> let r := match AfterCallback w1 with
      | (Ret _, w) => (Ret (if c then 0 else 1), w)
      | (Throw e, w) => (Throw e, w) | (UB, w) => (UB, w) end in
    (exists a, fst r = Ret a) /\ quiet (snd r)) as Hend.
  { intros c w1 Hq1. destruct (AfterCallback_returns w1 Hq1) as [[[] Hr] Hq2].
    destruct (AfterCallback w1) as [o w2]. cbn [fst snd] in *. subst o. split; [by eexists|done]. }
  destruct (Dispatchable w); [|by apply (Hend false)].
  destruct (safe_keeps _ Hb w Hq) as [Hub Hq1].
  destruct (body w) as [[c|e|] w1]; cbn [fst snd] in *; [by apply Hend| |done].
  apply (Hend false). by apply (quiet_same w1); try apply Hq1.
Qed.

(** ** The frame *)

(** What the tick keeps of everything but the timers. *)
Definition off_timers w w' : Prop := bus_rel w w' /\ http_rel w w' /\ pools_rel w w' /\ inv_rel w w'.

#[export] Instance off_timers_preorder : PreOrder off_timers.
Proof.
  split; unfold off_timers; [intros w; split_and!; reflexivity|].
  intros w1 w2 w3 (?&?&?&?) (?&?&?&?). split_and!; by etransitivity.
Qed.

#[export] Instance off_timers_stable : CallStable off_timers.
Proof.
  split; [apply _| |]; unfold off_timers.
  - intros l s w. split_and!; apply stable_log.
  - intros w w' (?&?&?&?). split_and!; by apply stable_bracket.
Qed.

#[export] Instance lua_off_timers : LuaRespects off_timers.
Proof.
  intros fn args w. pose proof (lua_respects (R := @script_rel S) fn args w) as Hs.
  split_and!; [by apply script_bus|by apply script_http|by apply script_pools|by apply script_inv].
Qed.

#[export] Instance off_timers_blind : SchedBlind off_timers.
Proof.
  split; intros x w; unfold off_timers, bus_rel, http_rel;
    (split; [reflexivity|split; [reflexivity|split; [intros H; exact H|by split]]]).
Qed.

(** What the request pump keeps of everything but the requests. *)
Definition off_http w w' : Prop := bus_rel w w' /\ sched_rel w w' /\ pools_rel w w' /\ inv_rel w w'.

#[export] Instance off_http_preorder : PreOrder off_http.
Proof.
  split; unfold off_http; [intros w; split_and!; reflexivity|].
  intros w1 w2 w3 (?&?&?&?) (?&?&?&?). split_and!; by etransitivity.
Qed.

#[export] Instance off_http_stable : CallStable off_http.
Proof.
  split; [apply _| |]; unfold off_http.
  - intros l s w. split_and!; apply stable_log.
  - intros w w' (?&?&?&?). split_and!; by apply stable_bracket.
Qed.

#[export] Instance lua_off_http : LuaRespects off_http.
Proof.
  intros fn args w. pose proof (lua_respects (R := @script_rel S) fn args w) as Hs.
  split_and!; [by apply script_bus|by apply script_sched|by apply script_pools|by apply script_inv].
Qed.

#[export] Instance off_http_blind : HttpBlind off_http.
Proof.
  intros h w. unfold off_http, bus_rel, sched_rel.
  split; [reflexivity|split; [reflexivity|split; [intros H; exact H|by split]]].
Qed.

Lemma bus_frames w w' :
  bus_rel w w' -> cancelled (r_events (rt w)) = [] -> cancelled (r_events (rt w')) = [].
Proof.
  intros Hb Hf. apply length_zero_iff_nil. etransitivity; [exact (step_frames _ _ Hb)|].
  exact (f_equal length Hf).
Qed.

Lemma Tick_keeps : keeps Tick.
Proof.
  intros w Hq. pose proof (Tick_evolve (W := World S) w) as Htick.
  destruct (Htick (ok_timers _ (q_ok _ Hq)) (q_idle _ Hq)) as (Hub & _ & ran & _ & Hev).
  split; [done|]. destruct (Tick_respects_blind off_timers w Hub) as (Hb & Hh & Hp & Hd & _).
  destruct Hq as [[Hbw Htw Hhw Hpw] Hf Hi Hdw]. split; [split| | |].
  - by apply (step_wf _ _ Hb).
  - apply (ev_wf _ _ _ _ _ Hev).
  - by apply (hst_wf _ _ Hh).
  - by apply Hp.
  - by eapply bus_frames.
  - eapply evolve_idle; [exact Htw|exact Hi|exact Hev].
  - by rewrite <- Hdw.
Qed.

Lemma Pump_keeps : keeps (fun w => Pump (env_curl w) w).
Proof.
  intros w Hq. destruct (good_curl w) as [Hnd Hin].
  pose proof (Pump_spec (W := World S) (env_curl w) w) as Hpump.
  destruct (Hpump (ok_http _ (q_ok _ Hq)) Hnd Hin) as (done & w1 & _ & _ & _ & Hub & Hhw' & _).
  split; [done|]. destruct (Pump_respects_blind off_http (env_curl w) w Hub) as (Hb & Ht & Hp & Hd & _).
  destruct Hq as [[Hbw Htw Hhw Hpw] Hf Hi Hdw]. split; [split| | |].
  - by apply (step_wf _ _ Hb).
  - apply (ev_wf _ _ _ _ _ (Ht Htw)).
  - exact Hhw'.
  - by apply Hp.
  - by eapply bus_frames.
  - eapply evolve_idle; [exact Htw|exact Hi|exact (Ht Htw)].
  - by rewrite <- Hdw.
Qed.

Lemma Call_safe fn what push :
  respects script_rel push -> (forall w, is_UB (fst (push w)) = false) -> safe (Call fn what push).
Proof.
  intros Hpush HnoUB w _. pose proof (Call_UB fn what push w HnoUB) as Hub.
  split; [done|]. by apply Call_respects; [apply _|apply _| |].
Qed.

Lemma run_step_keeps s : keeps (run_step s).
Proof.
  destruct s; cbn [run_step]; [apply Tick_keeps|apply Pump_keeps|].
  apply safe_keeps, safe_bind; [|intros _; apply safe_ret].
  apply Call_safe; [by apply respects_pret; apply _|done].
Qed.

Lemma run_pump_keeps fuel i : keeps (run_pump run_step fuel i).
Proof.
  revert i. induction fuel as [|fuel IH]; intros i; [by apply safe_keeps, safe_ret|]. intros w.
  cbn [run_pump]. destruct (r_pump (rt w) !! i) as [s|]; [|by split].
  apply keeps_bind; [apply run_step_keeps|]. intros _. apply IH.
Qed.

Lemma emit_if_usable_safe e args :
  safe (fun w => if Usable w then pbind (Emit e args) (fun _ => pret tt) w else (Ret tt, w)).
Proof. apply raise_event_safe. Qed.

Lemma Frame_keeps elapsed : keeps (Frame elapsed).
Proof.
  intros w. unfold Frame. destruct (negb _); [by split|].
  apply keeps_bind; [apply run_pump_keeps|]. intros _. apply safe_keeps, raise_event_safe.
Qed.

(** ** Loading *)

Lemma enumerate_script w : script_rel w (enumerate w).
Proof.
  unfold enumerate. destruct (Enumerate _ _) as [ps ws] eqn:E.
  etransitivity; [|apply log_lines_script]. split; try done; try reflexivity.
  intros Hwf. pose proof (Enumerate_spec (env_queries w) (r_entities (rt w)) Hwf) as (Hps & _).
  change (Enumerate (env_queries w) (r_entities (rt w)) = (ps, ws)) in E. by rewrite E in Hps.
Qed.

Lemma load_script_script path w : script_rel w (load_script path w).
Proof.
  unfold load_script. apply (stable_bracket (R := @script_rel S)).
  set (w1 := log_line _ _ (enter w)).
  etransitivity; [apply (stable_log (R := @script_rel S) Linfo ("Loading " +:+ path))|]. fold w1.
  pose proof (good_load path w1) as Hl. destruct (env_load path w1) as [[e|chunk] w2]; cbn [snd] in Hl.
  - etransitivity; [exact Hl|apply stable_log].
  - pose proof (lua_respects (R := @script_rel S) chunk [] w2) as Hc. simpl in Hc.
    destruct (env_pcall chunk [] w2) as [[e|] w3]; cbn [snd] in Hc;
      (etransitivity; [exact Hl|]); [|exact Hc]. etransitivity; [exact Hc|apply stable_log].
Qed.

Lemma load_scripts_script paths w : script_rel w (snd (load_scripts paths w)).
Proof.
  revert w. induction paths as [|path paths IH]; intros w; cbn [load_scripts]; [reflexivity|].
  destruct (negb _); [reflexivity|]. etransitivity; [apply load_script_script|apply IH].
Qed.

Lemma LoadScripts_safe : safe LoadScripts.
Proof.
  intros w Hok. unfold LoadScripts. destruct (negb _); [by split|].
  pose proof (load_scripts_script (scripts (r_config (rt w))) (enumerate w)) as Hl.
  destruct (load_scripts _ _) as [[] w1]; cbn [snd] in Hl.
  - assert (script_rel w w1) as Hs by (etransitivity; [apply enumerate_script|exact Hl]).
    destruct (raise_event_safe ServerInit [] w1 (script_ok _ _ Hs Hok)) as [Hub Hs2].
    split; [exact Hub|]. etransitivity; [exact Hs|exact Hs2].
  - split; [done|]. etransitivity; [apply enumerate_script|exact Hl].
Qed.

Lemma new_runtime_quiet config w : quiet (upd_rt (fun _ => new_runtime config) w).
Proof.
  assert (cancelled new_bus = []) as Hf by (by vm_compute).
  assert (idle new_scheduler) as Hi by (by intros id t ?).
  exact (mkQuiet (upd_rt (fun _ => new_runtime config) w)
    (mkOk (upd_rt (fun _ => new_runtime config) w) new_bus_wf new_scheduler_wf
      (new_http_wf (cafile (http_cfg config))) new_pools_wf) Hf Hi eq_refl).
Qed.

Lemma Reload_keeps : keeps Reload_runtime.
Proof.
  intros w Hq. unfold Reload_runtime. pose proof (good_reload w) as Hr.
  destruct (env_reload w) as [config|e|]; [|split; [done|by apply (quiet_same w); try apply Hq]|done].
  set (w1 := Shutdown _ _). apply (safe_keeps _ LoadScripts_safe).
  pose proof (new_runtime_quiet config w1) as Hq1. by eapply quiet_same, Hq1; try apply Hq1.
Qed.

(** ** The callbacks *)

(** Every callback [Init] installs, with the arguments the server passes. *)
Inductive server_call :=
  | CServerInitialise | CServerFrame (elapsed : spec_float) | CServerShutdown
  | CPlayerConnect (id : Z) | CPlayerDisconnect (id reason : Z)
  | CEntityPoolChange (type id deleted : Z)
  | CIncomingConnection (nm : option string) (size : Z) (password ip : option string)
  | CPlayerModuleList (id : Z) (l : option string) | CPlayerRequestClass (id offset : Z)
  | CPlayerRequestSpawn (id : Z) | CPlayerSpawn (id : Z)
  | CPlayerDeath (id killer reason part : Z) | CPlayerUpdate (id update : Z)
  | CPlayerRequestEnterVehicle (id vehicle slot : Z) | CPlayerEnterVehicle (id vehicle slot : Z)
  | CPlayerExitVehicle (id vehicle : Z) | CPlayerNameChange (id : Z) (old new : option string)
  | CPlayerStateChange (id old new : Z) | CPlayerActionChange (id old new : Z)
  | CPlayerOnFireChange (id on_fire : Z) | CPlayerCrouchChange (id crouching : Z)
  | CPlayerGameKeysChange (id old new : Z) | CPlayerBeginTyping (id : Z) | CPlayerEndTyping (id : Z)
  | CPlayerAwayChange (id away : Z) | CPlayerMessage (id : Z) (m : option string)
  | CPlayerCommand (id : Z) (m : option string) | CPlayerPrivateMessage (id target : Z) (m : option string)
  | CPlayerSpectate (id target : Z) | CPlayerCrashReport (id : Z) (r : option string)
  | CVehicleUpdate (id update : Z) | CVehicleExplode (id : Z) | CVehicleRespawn (id : Z)
  | CObjectShot (id player weapon : Z) | CObjectTouched (id player : Z)
  | CPickupPickAttempt (id player : Z) | CPickupPicked (id player : Z) | CPickupRespawn (id : Z)
  | CCheckpointEntered (id player : Z) | CCheckpointExited (id player : Z)
  | CPlayerKeyBindDown (id bind : Z) | CPlayerKeyBindUp (id bind : Z)
  | CClientScriptData (id : Z) (data : option (list Z)) (size : Z)
  | CPluginCommand (command : Z) (m : option string)
  | CServerPerformanceReport (count : Z) (entries : option (list (option string * Z)))
  | CEntityStreamingChange (id entity type deleted : Z).

(** A Stream userdata, by its identity; its bytes are in the Lua heap. *)
Definition new_stream (bytes : list Z) (w : World S) : lua_value * World S :=
  (LUserdata (env_new_obj 0 w), w).

Definition void {A} (m : prog (World S) A) : prog (World S) Z := pbind m (fun _ => pret 0).

Definition run_call (c : server_call) : prog (World S) Z :=
  match c with
  | CServerInitialise => OnServerInitialise
  | CServerFrame elapsed => void (OnServerFrame elapsed)
  | CServerShutdown => void OnServerShutdown
  | CPlayerConnect id => void (OnPlayerConnect id)
  | CPlayerDisconnect id reason => void (OnPlayerDisconnect id reason)
  | CEntityPoolChange type id deleted => void (OnEntityPoolChange type id deleted)
  | CIncomingConnection nm size password ip => OnIncomingConnection nm size password ip
  | CPlayerModuleList id l => void (OnPlayerModuleList id l)
  | CPlayerRequestClass id offset => OnPlayerRequestClass id offset
  | CPlayerRequestSpawn id => OnPlayerRequestSpawn id
  | CPlayerSpawn id => void (OnPlayerSpawn id)
  | CPlayerDeath id killer reason part => void (OnPlayerDeath id killer reason part)
  | CPlayerUpdate id update => void (OnPlayerUpdate id update)
  | CPlayerRequestEnterVehicle id vehicle slot => OnPlayerRequestEnterVehicle id vehicle slot
  | CPlayerEnterVehicle id vehicle slot => void (OnPlayerEnterVehicle id vehicle slot)
  | CPlayerExitVehicle id vehicle => void (OnPlayerExitVehicle id vehicle)
  | CPlayerNameChange id old new => void (OnPlayerNameChange id old new)
  | CPlayerStateChange id old new => void (OnPlayerStateChange id old new)
  | CPlayerActionChange id old new => void (OnPlayerActionChange id old new)
  | CPlayerOnFireChange id on_fire => void (OnPlayerOnFireChange id on_fire)
  | CPlayerCrouchChange id crouching => void (OnPlayerCrouchChange id crouching)
  | CPlayerGameKeysChange id old new => void (OnPlayerGameKeysChange id old new)
  | CPlayerBeginTyping id => void (OnPlayerBeginTyping id)
  | CPlayerEndTyping id => void (OnPlayerEndTyping id)
  | CPlayerAwayChange id away => void (OnPlayerAwayChange id away)
  | CPlayerMessage id m => OnPlayerMessage id m
  | CPlayerCommand id m => OnPlayerCommand id m
  | CPlayerPrivateMessage id target m => OnPlayerPrivateMessage id target m
  | CPlayerSpectate id target => void (OnPlayerSpectate id target)
  | CPlayerCrashReport id r => void (OnPlayerCrashReport id r)
  | CVehicleUpdate id update => void (OnVehicleUpdate id update)
  | CVehicleExplode id => void (OnVehicleExplode id)
  | CVehicleRespawn id => void (OnVehicleRespawn id)
  | CObjectShot id player weapon => void (OnObjectShot id player weapon)
  | CObjectTouched id player => void (OnObjectTouched id player)
  | CPickupPickAttempt id player => OnPickupPickAttempt id player
  | CPickupPicked id player => void (OnPickupPicked id player)
  | CPickupRespawn id => void (OnPickupRespawn id)
  | CCheckpointEntered id player => void (OnCheckpointEntered id player)
  | CCheckpointExited id player => void (OnCheckpointExited id player)
  | CPlayerKeyBindDown id bind => void (OnPlayerKeyBindDown id bind)
  | CPlayerKeyBindUp id bind => void (OnPlayerKeyBindUp id bind)
  | CClientScriptData id data size => void (OnClientScriptData new_stream id data size)
  | CPluginCommand command m => OnPluginCommand command m
  | CServerPerformanceReport count entries => void (OnServerPerformanceReport count entries)
  | CEntityStreamingChange id entity type deleted => void (OnEntityStreamingChange id entity type deleted)
  end.

(** A session: the callbacks the server makes, in order, none of them inside
    another (those are the scripts' doing, see [Interp]). *)
Fixpoint run_calls (cs : list server_call) (w : World S) : list (outcome Z) * World S :=
  match cs with
  | [] => ([], w)
  | c :: cs =>
      let '(r, w) := run_call c w in
      let '(rs, w) := run_calls cs w in (r :: rs, w)
  end.

Lemma void_returns {A} (m : prog (World S) A) : returns m -> returns (void m).
Proof. intros Hm. apply returns_bind; [done|]. intros _. apply returns_ret. Qed.

Lemma ignored_event_returns where_ body : safe body -> returns (void (ignore (OnEvent where_ body))).
Proof.
  intros Hb. apply void_returns, returns_bind; [by apply OnEvent_returns|]. intros _. apply returns_ret.
Qed.

Lemma guarded_callback_returns where_ body :
  keeps body -> returns (pbind (Guarded where_ body) (fun _ => AfterCallback)).
Proof.
  intros Hb. apply returns_bind; [by apply Guarded_keeps|]. intros _. apply AfterCallback_returns.
Qed.

Lemma if_live_keeps (m : prog (World S) unit) :
  keeps m -> keeps (fun w => if Live w then m w else (Ret tt, w)).
Proof. intros Hm w Hq. destruct (Live w); [by apply Hm|by split]. Qed.

Lemma OnServerInitialise_returns : returns OnServerInitialise.
Proof.
  apply returns_bind; [apply Guarded_keeps, if_live_keeps, safe_keeps, LoadScripts_safe|].
  intros _. apply returns_bind; [apply AfterCallback_returns|]. intros _. apply returns_ret.
Qed.

Lemma OnServerFrame_returns elapsed : returns (OnServerFrame elapsed).
Proof.
  apply returns_bind; [apply Guarded_keeps, if_live_keeps, Frame_keeps|]. intros _.
  apply returns_bind; [apply AfterCallback_returns|]. intros _.
  apply returns_bind; [|intros _; apply AfterCallback_returns].
  apply Guarded_keeps. intros w Hq. destruct (_ && _ && _ && _); [by apply Reload_keeps|by split].
Qed.

Lemma OnServerShutdown_returns : returns OnServerShutdown.
Proof.
  intros w Hq. unfold OnServerShutdown. destruct (negb (present w)); [by split; [exists tt|]|].
  destruct (InLuaCall w); [|by apply FinishShutdown_returns].
  split; [by exists tt|]. by apply (quiet_same w); try apply Hq.
Qed.

Lemma OnPlayerConnect_returns id : returns (OnPlayerConnect id).
Proof.
  apply guarded_callback_returns, safe_keeps. intros w. destruct (negb (Live w)); [by intros _; split|].
  refine (safe_after (adopt_id Player id) (fun w => raise_event PlayerConnect
    [ARef Player (Ref (pool_of Player w) id)] w) (adopt_id_script Player id) _ w).
  intros w'. apply raise_event_safe.
Qed.

Lemma OnPlayerDisconnect_returns id reason : returns (OnPlayerDisconnect id reason).
Proof.
  apply guarded_callback_returns, safe_keeps. intros w. destruct (negb (Live w)); [by intros _; split|].
  refine (safe_after (adopt_id Player id) (fun w => pbind (raise_event PlayerDisconnect
    [ARef Player (Ref (pool_of Player w) id); AInt reason])
    (fun _ w => (Ret tt, if Live w then release_id Player id w else w)) w)
    (adopt_id_script Player id) _ w).
  intros w'. apply safe_bind; [apply raise_event_safe|]. intros _. apply safe_step.
  intros w1. destruct (Live w1); [apply release_id_script|reflexivity].
Qed.

Lemma OnEntityPoolChange_returns type id deleted : returns (OnEntityPoolChange type id deleted).
Proof.
  apply guarded_callback_returns, safe_keeps. intros w. destruct (negb (Live w)); [by intros _; split|].
  refine (safe_after (fun w => match FromServerPool type with
      | Some k => if negb (negb (deleted =? 0)) then adopt_id k id w else w
      | None => w end)
    (pbind (raise_event EntityPoolChange [AInt type; AInt id; ABool (negb (deleted =? 0))])
      (fun _ w => (Ret tt, if Live w && negb (deleted =? 0) then match FromServerPool type with
         | Some k => release_id k id w | None => w end else w))) _ _ w).
  - intros w'. destruct (FromServerPool type) as [k|]; [|reflexivity].
    destruct (negb _); [apply adopt_id_script|reflexivity].
  - apply safe_bind; [apply raise_event_safe|]. intros _. apply safe_step. intros w1.
    destruct (Live w1 && _); [|reflexivity].
    destruct (FromServerPool type); [apply release_id_script|reflexivity].
Qed.

Lemma OnPlayerDeath_returns id killer reason part : returns (void (OnPlayerDeath id killer reason part)).
Proof.
  apply ignored_event_returns, safe_bind; [apply SeenRef_safe|]. intros r w. cbv zeta. destruct (_ && _).
  - apply safe_bind; [apply SeenRef_safe|]. intros r'. apply Emit_safe.
  - apply Emit_safe.
Qed.

Lemma OnPlayerCommand_returns id m : returns (OnPlayerCommand id m).
Proof.
  apply OnEvent_returns, safe_bind; [apply SeenRef_safe|]. intros r w. apply Emit_safe.
Qed.

Lemma OnClientScriptData_returns id data size : returns (void (OnClientScriptData new_stream id data size)).
Proof. apply ignored_event_returns, unless_unheard_safe. intros w. apply EmitPlayer_safe. Qed.

Lemma OnServerPerformanceReport_returns n es : returns (void (OnServerPerformanceReport n es)).
Proof. apply ignored_event_returns, unless_unheard_safe. intros w. apply Emit_safe. Qed.

Lemma run_call_returns c : returns (run_call c).
Proof.
  destruct c; cbn [run_call];
    first
    [ apply OnServerInitialise_returns
    | apply void_returns, OnServerFrame_returns | apply void_returns, OnServerShutdown_returns
    | apply void_returns, OnPlayerConnect_returns | apply void_returns, OnPlayerDisconnect_returns
    | apply void_returns, OnEntityPoolChange_returns
    | apply OnPlayerDeath_returns | apply OnPlayerCommand_returns
    | apply OnClientScriptData_returns | apply OnServerPerformanceReport_returns
    | first [apply ignored_event_returns | apply OnEvent_returns];
      first [ apply EmitPlayer_safe | apply EmitPlayerAnd_safe | apply EmitAndPlayer_safe
            | apply EmitEntity_safe | apply Emit_safe
            | apply unless_unheard_safe; first [apply EmitPlayer_safe | apply EmitEntity_safe] ] ].
Qed.

(** C1: for every sequence of callbacks the server makes, whatever the scripts
    do in their handlers, timers and requests (which includes re-entering the
    plugin), as long as what they call is defined (it is for every binding, but
    for the ones that are given a rotation table nested too deeply): no callback lets an exception out, none runs into undefined
    behaviour, all return, and between them no Lua code is running and the
    invariants of the event bus, the timers, the requests and the entity pools
    hold, also across reloads and shutdowns. *)
Theorem every_session_is_safe cs w :
  quiet w ->
  Forall (fun r => exists z, r = Ret z) (fst (run_calls cs w)) /\
  length (fst (run_calls cs w)) = length cs /\ quiet (snd (run_calls cs w)).
Proof.
  revert w. induction cs as [|c cs IH]; intros w Hq; cbn [run_calls]; [by split_and!|].
  destruct (run_call_returns c w Hq) as [Hr Hq1]. destruct (run_call c w) as [r w1].
  destruct (IH w1 Hq1) as (Hrs & Hl & Hq2). destruct (run_calls cs w1) as [rs w2].
  cbn [fst snd length] in *. split_and!; [by constructor|by f_equal|done].
Qed.
End safety.
