(* ===== verification/EventDocs.v ===== *)
(** The server events of docs/api/events.md, as data: their arguments, which of
    them can be cancelled, and what each callback of the server stands for; and
    the proof that the callbacks of src/plugin/callbacks.cpp raise them so. *)
From stdpp Require Import base tactics list gmap strings.
From Stdlib Require Import ZArith Lia Floats.SpecFloat.
From S2P Require Import Prelude.
From S2P Require Import EntityPool.
From S2P Require Import LuaValue.
From S2P Require Import Invoker.
From S2P Require Import EventBus.
From S2P Require Import Dispatch.
From S2P Require Import EntityPools.
From S2P Require Import World.
From S2P Require Import Runtime.
From S2P Require Import Plugin.
From S2P Require Import Callbacks.
From S2P Require Import Safety.
From S2P Require Import Documented.
Open Scope Z_scope.

(** ** The tables of events.md *)

(** The arguments of each event. *)
Definition doc_events : list (string * list shape) :=
  let player := maybe Player in
  (* Server *)
  [ ("onServerInit", []); ("onServerFrame", [Number]); ("onServerShutdown", []);
    ("onPluginCommand", [Integer; Str]);
    ("onServerPerformanceReport", [Integer; ArrayOf Str; ArrayOf Integer]);
    ("onEntityPoolChange", [Integer; Integer; Truth]);
    ("onEntityStreamingChange", [player; Integer; Integer; Truth]);
  (* Players *)
    ("onPlayerConnection", [Str; Integer; Str; Str]); ("onPlayerConnect", [player]);
    ("onPlayerDisconnect", [player; Integer]); ("onPlayerModuleList", [player; Str]);
    ("onPlayerRequestClass", [player; Integer]); ("onPlayerRequestSpawn", [player]);
    ("onPlayerSpawn", [player]); ("onPlayerKill", [player; player; Integer; Integer]);
    ("onPlayerWasted", [player; Integer]); ("onPlayerUpdate", [player; Integer]);
    ("onPlayerRequestEnterVehicle", [player; maybe Vehicle; Integer]);
    ("onPlayerEnterVehicle", [player; maybe Vehicle; Integer]);
    ("onPlayerExitVehicle", [player; maybe Vehicle]);
    ("onPlayerNameChange", [player; Str; Str]);
    ("onPlayerStateChange", [player; Integer; Integer]);
    ("onPlayerActionChange", [player; Integer; Integer]); ("onPlayerFireChange", [player; Truth]);
    ("onPlayerCrouchChange", [player; Truth]);
    ("onPlayerGameKeysChange", [player; Integer; Integer]); ("onPlayerBeginTyping", [player]);
    ("onPlayerFinishTyping", [player]); ("onPlayerAwayChange", [player; Truth]);
    ("onPlayerMessage", [player; Str]);
    ("onPlayerCommand", [player; Either Str Nil; Either (ArrayOf Str) Nil; Str]);
    ("onPlayerPM", [player; player; Str]); ("onPlayerKeyDown", [player; maybe Bind]);
    ("onPlayerKeyUp", [player; maybe Bind]); ("onPlayerSpectate", [player; player]);
    ("onPlayerCrashReport", [player; Str]); ("onClientData", [player; Object_; Integer]);
  (* Vehicles, objects, pickups, checkpoints *)
    ("onVehicleUpdate", [maybe Vehicle; Integer]); ("onVehicleExplode", [maybe Vehicle]);
    ("onVehicleRespawn", [maybe Vehicle]); ("onObjectShot", [maybe Object; player; Integer]);
    ("onObjectTouch", [maybe Object; player]); ("onPickupPickAttempt", [maybe Pickup; player]);
    ("onPickupPicked", [maybe Pickup; player]); ("onPickupRespawn", [maybe Pickup]);
    ("onCheckpointEnter", [maybe Checkpoint; player]);
    ("onCheckpointExit", [maybe Checkpoint; player]) ].

(** The cancellable ones. *)
Definition doc_cancellable : list string :=
  [ "onPlayerConnection"; "onPlayerRequestClass"; "onPlayerRequestSpawn";
    "onPlayerRequestEnterVehicle"; "onPlayerMessage"; "onPlayerCommand"; "onPlayerPM";
    "onPickupPickAttempt"; "onPluginCommand" ].

Definition cancellable (e : Event) : bool := bool_decide (Name e ∈ doc_cancellable).
Definition doc_arguments (e : Event) : option (list shape) :=
  snd <$> (snd <$> list_find (fun p => fst p = Name e) doc_events).

(** The table of death reasons. *)
Definition doc_death_reason (reason part : Z) : Z :=
  if decide (reason ∈ [43; 50]) then 43
  else if decide (reason = 39 /\ part = vcmpBodyPartInVehicle) then 39
  else if decide (reason ∈ [39; 40; 44]) then 44
  else reason.

(** What a handler is given: an entity by its id, or a value. *)
Inductive doc_value :=
  | DEntity (k : EntityKind) (id : Z)
  | DInt (z : Z) | DTruth (b : bool) | DText (t : option string) | DNil
  | DArray (vs : list lua_value) | DStream.

(** The rows of the tables, by callback. [DNil] of onPlayerCommand: no command,
    or no arguments. The three callbacks that start, run and end the plugin
    raise their events themselves. *)
Definition documented (q : ServerQueries) (c : server_call) : option (Event * list doc_value) :=
  let player := DEntity Player in
  let truth z := DTruth (negb (z =? 0)) in
  match c with
  | CServerInitialise | CServerFrame _ | CServerShutdown => None
  | CPluginCommand command m => Some (PluginCommand, [DInt command; DText m])
  | CServerPerformanceReport count entries =>
      let es := default [] entries in
      Some (ServerPerformanceReport,
        [DInt count; DArray ((fun e => LString (default "" (fst e))) <$> es);
         DArray ((fun e => LInt (swrap 64 (snd e))) <$> es)])
  | CEntityPoolChange type id deleted => Some (EntityPoolChange, [DInt type; DInt id; truth deleted])
  | CEntityStreamingChange id entity type deleted =>
      Some (EntityStreamingChange, [player id; DInt type; DInt entity; truth deleted])
  | CIncomingConnection nm size password ip =>
      Some (PlayerConnection, [DText nm; DInt size; DText password; DText ip])
  | CPlayerConnect id => Some (PlayerConnect, [player id])
  | CPlayerDisconnect id reason => Some (PlayerDisconnect, [player id; DInt reason])
  | CPlayerModuleList id l => Some (PlayerModuleList, [player id; DText l])
  | CPlayerRequestClass id offset => Some (PlayerRequestClass, [player id; DInt offset])
  | CPlayerRequestSpawn id => Some (PlayerRequestSpawn, [player id])
  | CPlayerSpawn id => Some (PlayerSpawn, [player id])
  | CPlayerDeath id killer reason part =>
      Some (if (0 <=? killer) && match IsPlayerConnected q with
                                 | Some f => negb (f killer =? 0) | None => false end
            then (PlayerKill, [player killer; player id; DInt reason; DInt part])
            else (PlayerWasted, [player id; DInt (doc_death_reason reason part)]))
  | CPlayerUpdate id update => Some (PlayerUpdate, [player id; DInt update])
  | CPlayerRequestEnterVehicle id vehicle slot =>
      Some (PlayerRequestEnterVehicle, [player id; DEntity Vehicle vehicle; DInt slot])
  | CPlayerEnterVehicle id vehicle slot =>
      Some (PlayerEnterVehicle, [player id; DEntity Vehicle vehicle; DInt slot])
  | CPlayerExitVehicle id vehicle => Some (PlayerExitVehicle, [player id; DEntity Vehicle vehicle])
  | CPlayerNameChange id old new => Some (PlayerNameChange, [player id; DText old; DText new])
  | CPlayerStateChange id old new => Some (PlayerStateChange, [player id; DInt old; DInt new])
  | CPlayerActionChange id old new => Some (PlayerActionChange, [player id; DInt old; DInt new])
  | CPlayerOnFireChange id on_fire => Some (PlayerFireChange, [player id; truth on_fire])
  | CPlayerCrouchChange id crouching => Some (PlayerCrouchChange, [player id; truth crouching])
  | CPlayerGameKeysChange id old new => Some (PlayerGameKeysChange, [player id; DInt old; DInt new])
  | CPlayerBeginTyping id => Some (PlayerBeginTyping, [player id])
  | CPlayerEndTyping id => Some (PlayerFinishTyping, [player id])
  | CPlayerAwayChange id away => Some (PlayerAwayChange, [player id; truth away])
  | CPlayerMessage id m => Some (PlayerMessage, [player id; DText m])
  | CPlayerCommand id m =>
      let '(words, text) := command_words (default "" m) in
      Some (PlayerCommand,
        [player id; match words with [] => DNil | word :: _ => DText (Some word) end;
         match tail words with [] => DNil | args => DArray (LString <$> args) end;
         DText (Some match words with [] => "" | _ => text end)])
  | CPlayerPrivateMessage id target m => Some (PlayerPM, [player id; player target; DText m])
  | CPlayerSpectate id target => Some (PlayerSpectate, [player id; player target])
  | CPlayerCrashReport id r => Some (PlayerCrashReport, [player id; DText r])
  | CVehicleUpdate id update => Some (VehicleUpdate, [DEntity Vehicle id; DInt update])
  | CVehicleExplode id => Some (VehicleExplode, [DEntity Vehicle id])
  | CVehicleRespawn id => Some (VehicleRespawn, [DEntity Vehicle id])
  | CObjectShot id by_ weapon => Some (ObjectShot, [DEntity Object id; player by_; DInt weapon])
  | CObjectTouched id by_ => Some (ObjectTouch, [DEntity Object id; player by_])
  | CPickupPickAttempt id by_ => Some (PickupPickAttempt, [DEntity Pickup id; player by_])
  | CPickupPicked id by_ => Some (PickupPicked, [DEntity Pickup id; player by_])
  | CPickupRespawn id => Some (PickupRespawn, [DEntity Pickup id])
  | CCheckpointEntered id by_ => Some (CheckpointEnter, [DEntity Checkpoint id; player by_])
  | CCheckpointExited id by_ => Some (CheckpointExit, [DEntity Checkpoint id; player by_])
  | CPlayerKeyBindDown id bind => Some (PlayerKeyDown, [player id; DEntity Bind bind])
  | CPlayerKeyBindUp id bind => Some (PlayerKeyUp, [player id; DEntity Bind bind])
  | CClientScriptData id _ size => Some (ClientData, [player id; DStream; DInt size])
  end.

(** No text the server passes is a null pointer (a handler would get nil). *)
Definition texts_given (ds : list doc_value) : Prop :=
  Forall (fun d => match d with DText None => False | _ => True end) ds.

(** ** What a callback does to the pools before its event is raised *)

Section callbacks.
Context {S : Type} {env : Env S} {lib : LuaLib}.
Implicit Types (w : World S).

(** Handles stay valid, and the pools well formed and open. *)
Record pools_kept w w' : Prop := mkKept
  { pk_wf : pools_wf (get_pools w) -> pools_wf (get_pools w');
    pk_range k id : pools_wf (get_pools w) -> InRange (pool_of k w') id = InRange (pool_of k w) id;
    pk_closed k : pools_wf (get_pools w) -> closed (pool_of k w') = closed (pool_of k w);
    pk_valid k id g : pools_wf (get_pools w) ->
      Valid (pool_of k w) id g = true -> Valid (pool_of k w') id g = true }.

#[export] Instance pools_kept_preorder : PreOrder pools_kept.
Proof.
  split; [by intros w|]. intros w1 w2 w3 [H1 H2 H3 H4] [H1' H2' H3' H4']. split.
  - auto.
  - intros k id Hwf. rewrite H2' by auto. auto.
  - intros k Hwf. rewrite H3' by auto. auto.
  - auto.
Qed.

(** The two operations that happen: adopting, and pushing a handle. *)
Definition additive (op : pool_op) : bool :=
  match op with OAdopt _ | OPush _ _ _ => true | _ => false end.

Lemma additive_valid p op id g :
  pool_wf p -> additive op = true -> Valid p id g = true -> Valid (run_op p op) id g = true.
Proof.
  intros Hwf Hop Hv. pose proof (Valid_Alive _ _ _ Hv) as Ha. pose proof (Alive_InRange _ _ Ha) as Hr.
  pose proof (Valid_generation _ _ _ Hv) as Hg. apply Alive_slot in Ha.
  assert (forall s, (alive s = true /\ generation s = g) -> Slot (run_op p op) id = s ->
    Valid (run_op p op) id g = true) as Hend.
  { intros s [Hs Hs'] E. unfold Valid, Alive. rewrite InRange_run_op, Hr, E, Hs, Hs'.
    by rewrite Z.eqb_refl. }
  destruct op as [id'| | |obj id' g'| | | | |]; try done; simpl in *.
  - unfold Adopt in *. destruct (InRange p id') eqn:Hr'; [|done]. simpl in *.
    destruct (alive (Slot p id')) eqn:Ha'; [done|]. destruct (decide (id' = id)) as [->|Hne]; [congruence|].
    eapply Hend; [|by apply Slot_set_slot_ne]. done.
  - unfold Push in *. destruct (_ || _) eqn:E; [done|]. destruct (handle (Slot p id')) eqn:Eh; [done|].
    apply orb_false_iff in E as [_ E%negb_false_iff]. pose proof (Alive_InRange _ _ (Valid_Alive _ _ _ E)).
    destruct (decide (id' = id)) as [->|Hne];
      (eapply Hend; [|first [by apply Slot_set_slot_eq|by apply Slot_set_slot_ne]]); done.
Qed.

Lemma additive_closed p op : additive op = true -> closed (run_op p op) = closed p.
Proof. destruct op; try done; intros _; simpl; unfold Adopt, Push; by repeat case_match. Qed.

Lemma pool_of_put k k' p ps w : (* the pools of a state with pool [k] replaced *)
  pools_wf (get_pools w) -> ps = put_pool k p (get_pools w) ->
  Get ps k' = if decide (k = k') then p else pool_of k' w.
Proof.
  intros Hwf ->. destruct (decide (k = k')) as [<-|Hne].
  - apply Get_put_eq, Hwf.
  - by apply Get_put_ne.
Qed.

Lemma additive_kept k op w w' :
  additive op = true -> get_pools w' = put_pool k (run_op (pool_of k w) op) (get_pools w) ->
  pools_kept w w'.
Proof.
  intros Hop Hps.
  assert (pools_wf (get_pools w) -> forall k', pool_of k' w' =
    if decide (k = k') then run_op (pool_of k w) op else pool_of k' w) as Hget.
  { intros Hwf k'. by apply (pool_of_put k k' _ (get_pools w') w). }
  split.
  - intros Hwf. rewrite Hps. apply put_pool_wf; [done|apply run_op_wf, Hwf|].
    rewrite (proj1 (run_op_shape _ _)). apply (pswf_kind _ Hwf).
  - intros k' id Hwf. rewrite Hget by done. destruct (decide _) as [<-|]; [|done]. apply InRange_run_op.
  - intros k' Hwf. rewrite Hget by done. destruct (decide _) as [<-|]; [|done]. by apply additive_closed.
  - intros k' id g Hwf Hv. rewrite Hget by done. destruct (decide _) as [<-|]; [|done].
    apply additive_valid; [apply Hwf|done|done].
Qed.

Lemma adopt_id_kept k id w : pools_kept w (adopt_id k id w).
Proof. apply (additive_kept k (OAdopt id)); [done|]. exact (adopt_id_pools k id w). Qed.

Lemma PushEntity_kept k r w : pools_kept w (snd (PushEntity k r w)).
Proof.
  unfold PushEntity. destruct (ref_id r <? 0); [reflexivity|].
  destruct (Push _ _ _ _) as [h p] eqn:E.
  apply (additive_kept k (OPush (env_new_obj 0 w) (ref_id r) (ref_generation r))); [done|].
  simpl. by rewrite E.
Qed.

(** ** What the arguments stand for *)

(** A reference to the entity of the pool with this id, as [Seen] gives it. *)
Definition ref_of w (k : EntityKind) (id : Z) (r : EntityRef) : Prop :=
  if InRange (pool_of k w) id
  then ref_id r = id /\ Valid (pool_of k w) id (ref_generation r) = true else r = no_ref.

Definition stands_for w (d : doc_value) (a : arg) : Prop :=
  match d with
  | DEntity k id => exists r, a = ARef k r /\ ref_of w k id r
  | DInt z => a = AInt z
  | DTruth b => a = ABool b
  | DText t => a = AText t
  | DNil => a = AValue LNil
  | DArray vs => exists o, a = AValue (LTable o (array_entries vs))
  | DStream => exists o, a = AValue (LUserdata o)
  end.

(** What the handler gets: the valid handle of the entity, or nil for an id
    outside its pool; or the value. *)
Definition given w (d : doc_value) (v : lua_value) : Prop :=
  match d with
  | DEntity k id =>
      if InRange (pool_of k w) id
      then exists h, v = LHandle h /\ h_kind h = k /\ h_id h = id /\
             Valid (pool_of k w) id (h_generation h) = true
      else v = LNil
  | DInt z => v = LInt z
  | DTruth b => v = LBool b
  | DText t => v = match t with Some s => LString s | None => LNil end
  | DNil => v = LNil
  | DArray vs => exists o, v = LTable o (array_entries vs)
  | DStream => exists o, v = LUserdata o
  end.

Lemma ref_of_kept w w' k id r :
  pools_wf (get_pools w) -> pools_kept w w' -> ref_of w k id r -> ref_of w' k id r.
Proof.
  intros Hwf Hk. unfold ref_of. rewrite (pk_range _ _ Hk) by done.
  destruct (InRange _ _); [|done]. intros [? Hv]. split; [done|]. by apply (pk_valid _ _ Hk).
Qed.

Lemma stands_for_kept w w' d a :
  pools_wf (get_pools w) -> pools_kept w w' -> stands_for w d a -> stands_for w' d a.
Proof.
  intros Hwf Hk. destruct d; simpl; try done. intros (r & -> & Hr). exists r. split; [done|].
  by eapply ref_of_kept.
Qed.

Lemma InRange_nonneg p id : InRange p id = true -> 0 <= id.
Proof. intros [? _]%InRange_true. unfold pool_traits in *. destruct (kind p); simpl in *; lia. Qed.

Lemma Ref_of w k id :
  (InRange (pool_of k w) id = true -> Alive (pool_of k w) id = true) ->
  ref_of w k id (Ref (pool_of k w) id).
Proof.
  intros Ha. unfold ref_of, Ref. destruct (InRange (pool_of k w) id) eqn:Er.
  - rewrite (Ha eq_refl). simpl. split; [done|]. unfold Valid. by rewrite (Ha eq_refl), Z.eqb_refl.
  - destruct (Alive (pool_of k w) id) eqn:Ea; [|done]. apply Alive_InRange in Ea. congruence.
Qed.

(** Pushing a reference gives the handle. *)
Lemma PushEntity_given w k id r :
  pools_wf (get_pools w) -> closed (pool_of k w) = false -> ref_of w k id r ->
  exists v, fst (PushEntity k r w) = Ret v /\ given w (DEntity k id) v.
Proof.
  intros Hwf Ho. unfold ref_of, PushEntity. simpl. destruct (InRange (pool_of k w) id) eqn:Er.
  - intros [<- Hv]. pose proof (InRange_nonneg _ _ Er). destruct (Z.ltb_spec (ref_id r) 0); [lia|].
    unfold Push. rewrite Ho, Hv. simpl.
    destruct (handle (Slot (pool_of k w) (ref_id r))) as [h|] eqn:Eh; simpl.
    + exists (LHandle h). split; [done|]. exists h.
      destruct (swf_handle _ _ _ (Slot_wf _ _ (pswf_pool _ Hwf k) Er) h Eh) as (Hk & Hid & Hg).
      rewrite (pswf_kind _ Hwf k) in Hk. split_and!; [done..|].
      rewrite Hg. fold (pool_of k w). by rewrite (Valid_generation _ _ _ Hv).
    + eexists. split; [done|]. eexists. split; [done|]. simpl. split_and!; [apply (pswf_kind _ Hwf)|done..].
  - intros ->. simpl. by exists LNil.
Qed.

Lemma push_list_given w w1 ds args :
  pools_wf (get_pools w) -> (forall k, closed (pool_of k w) = false) -> pools_kept w w1 ->
  Forall2 (stands_for w) ds args ->
  exists vs w2, push_list args w1 = (Ret vs, w2) /\ Forall2 (given w) ds vs.
Proof.
  intros Hwf Ho Hk HF. revert w1 Hk. induction HF as [|d a ds args Hd _ IH]; intros w1 Hk.
  { by exists [], w1. }
  assert (exists v, fst (push_arg a w1) = Ret v /\ given w d v /\ pools_kept w1 (snd (push_arg a w1)))
    as (v & Hv & Hg & Hk1).
  { destruct d; cbn [stands_for given] in *;
      try (subst a; eexists; split_and!; [reflexivity|reflexivity|reflexivity]);
      try (destruct Hd as [o ->]; eexists; split_and!; [reflexivity|by exists o|reflexivity]).
    destruct Hd as (r & -> & Hr). cbn [push_arg].
    destruct (PushEntity_given w1 k id r) as (v & Hv & Hg).
    { by apply (pk_wf _ _ Hk). } { by rewrite (pk_closed _ _ Hk). } { by eapply ref_of_kept. }
    exists v. split_and!; [done| |apply PushEntity_kept].
    revert Hv Hg. cbn [given]. rewrite (pk_range _ _ Hk) by done. unfold ref_of in Hr.
    destruct (InRange (pool_of k w) id) eqn:Er; [|done].
    destruct Hr as [<- Hvalid]. unfold PushEntity. pose proof (InRange_nonneg _ _ Er).
    destruct (Z.ltb_spec (ref_id r) 0); [lia|]. intros _ (h & -> & Hkind & Hid & Hval).
    exists h. split_and!; [done..|]. apply Valid_generation in Hval.
    apply (pk_valid _ _ Hk) in Hvalid as Hvalid1; [|done]. apply Valid_generation in Hvalid1. congruence. }
  destruct (IH (snd (push_arg a w1))) as (vs & w2 & Hvs & Hgs); [by etransitivity|].
  cbn [push_list]. unfold pbind at 1. destruct (push_arg a w1) as [o w1']. cbn [fst snd] in *. subst o.
  unfold pbind. rewrite Hvs. exists (v :: vs), w2. split; [done|]. by constructor.
Qed.

(** ** What the callbacks raise *)

(** The body of a callback raises [e] with arguments that stand for [ds], after
    adopting the entities it mentions. *)
Definition emits (body : prog (World S) bool) w (e : Event) (ds : list doc_value) : Prop :=
  exists args w1, body w = Emit e args w1 /\ pools_kept w w1 /\ get_bus w1 = get_bus w /\
    Forall2 (stands_for w1) ds args.

Lemma emits_Emit e args ds w : Forall2 (stands_for w) ds args -> emits (Emit e args) w e ds.
Proof. intros H. by exists args, w. Qed.

Lemma log_lines_rt (l : level) ws w : rt (fold_left (fun w s => log_line l s w) ws w) = rt w.
Proof. revert w. induction ws as [|s ws IH]; intros w; [done|]. exact (IH (log_line l s w)). Qed.

Lemma adopt_id_rt k id w : exists ps, rt (adopt_id k id w) = set_r_entities ps (rt w).
Proof.
  unfold adopt_id. destruct (Adopt _ _) as [p ws]. rewrite log_lines_rt. by eexists.
Qed.

Lemma get_bus_adopt_id k id w : get_bus (adopt_id k id w) = get_bus w.
Proof. simpl. by destruct (adopt_id_rt k id w) as [ps ->]. Qed.

Lemma adopt_id_ref k id w :
  pools_wf (get_pools w) ->
  ref_of (adopt_id k id w) k id (Ref (pool_of k (adopt_id k id w)) id).
Proof.
  intros Hwf. apply Ref_of. rewrite (pk_range _ _ (adopt_id_kept k id w)) by done.
  intros Hr. by apply Alive_adopt_id.
Qed.

(** [Seen<K>(runtime, id)]: a reference to the entity, whatever is done next. *)
Lemma SeenRef_ref k id w :
  pools_wf (get_pools w) ->
  exists r w1, SeenRef k id w = (Ret r, w1) /\ pools_kept w w1 /\ get_bus w1 = get_bus w /\ ref_of w1 k id r.
Proof.
  intros Hwf. unfold SeenRef. destruct (InRange _ _) eqn:Er; simpl.
  - exists (Ref (pool_of k (adopt_id k id w)) id), (adopt_id k id w).
    split_and!; [done|apply adopt_id_kept|apply get_bus_adopt_id|by apply adopt_id_ref].
  - exists no_ref, w. split_and!; [done..|]. unfold ref_of. by rewrite Er.
Qed.

(** An entity is looked up, then the rest of the arguments. *)
Lemma emits_Seen k id (body : EntityRef -> prog (World S) bool) w e ds :
  pools_wf (get_pools w) ->
  (forall r w1, pools_kept w w1 -> get_bus w1 = get_bus w -> ref_of w1 k id r -> emits (body r) w1 e ds) ->
  emits (pbind (SeenRef k id) body) w e ds.
Proof.
  intros Hwf Hbody. destruct (SeenRef_ref k id w Hwf) as (r & w1 & Hs & Hk & Hb & Hr).
  destruct (Hbody r w1 Hk Hb Hr) as (args & w2 & Heq & Hk2 & Hb2 & Hst).
  exists args, w2. split_and!; [|by etransitivity|congruence|done].
  unfold pbind. by rewrite Hs.
Qed.

Lemma emits_EmitEntity e k id args ds w :
  pools_wf (get_pools w) -> (forall w', Forall2 (stands_for w') ds args) ->
  emits (EmitEntity e k id args) w e (DEntity k id :: ds).
Proof.
  intros Hwf Hst. apply emits_Seen; [done|]. intros r w1 _ _ Hr. apply emits_Emit.
  constructor; [by exists r|done].
Qed.
Lemma emits_two e k id k' id' args ds w :
  pools_wf (get_pools w) -> (forall w', Forall2 (stands_for w') ds args) ->
  emits (pbind (SeenRef k id) (fun r => pbind (SeenRef k' id') (fun r' =>
    Emit e (ARef k r :: ARef k' r' :: args)))) w e (DEntity k id :: DEntity k' id' :: ds).
Proof.
  intros Hwf Hst. apply emits_Seen; [done|]. intros r w1 Hk _ Hr.
  assert (pools_wf (get_pools w1)) as Hwf1 by (by apply (pk_wf _ _ Hk)).
  apply emits_Seen; [done|]. intros r' w2 Hk2 _ Hr'. apply emits_Emit.
  constructor; [exists r; split; [done|by eapply ref_of_kept]|]. constructor; [by exists r'|done].
Qed.

Lemma emits_unless_unheard e body w ds :
  HasHandlers (get_bus w) (Index e) = true -> emits body w e ds -> emits (unless_unheard e body) w e ds.
Proof.
  intros Hh (args & w1 & Heq & H). exists args, w1. unfold unless_unheard. rewrite Hh. by split.
Qed.

(** How a callback raises its event: a cancellable one answers the server with
    what [OnEvent] gives, 0 when a handler cancelled and 1 otherwise; the
    others give nothing. The callbacks that report a player or an entity release
    it afterwards, if it is gone. *)
Inductive raised (c : server_call) w (e : Event) (args : list arg) w1 : Prop :=
  | raised_answer where_ : cancellable e = true ->
      run_call c w = OnEvent where_ (fun _ => Emit e args w1) w -> raised c w e args w1
  | raised_void where_ : cancellable e = false ->
      run_call c w = void (ignore (OnEvent where_ (fun _ => Emit e args w1))) w -> raised c w e args w1
  | raised_report where_ after : cancellable e = false ->
      (forall w', after w' = w' \/ exists k id, after w' = release_id k id w') ->
      run_call c w = void (pbind (Guarded where_ (fun _ =>
        pbind (Emit e args) (fun _ w => (Ret tt, after w)) w1)) (fun _ => AfterCallback)) w ->
      raised c w e args w1.

(** A callback that raises [e], given [ds]. *)
Definition raises (c : server_call) w (e : Event) (ds : list doc_value) : Prop :=
  exists args w1, raised c w e args w1 /\ pools_kept w w1 /\ get_bus w1 = get_bus w /\
    Forall2 (stands_for w1) ds args.

Lemma OnEvent_body where_ body body' w : body w = body' w -> OnEvent where_ body w = OnEvent where_ body' w.
Proof. intros H. unfold OnEvent. by rewrite H. Qed.

Lemma raises_answer c w e ds where_ body :
  cancellable e = true -> run_call c = OnEvent where_ body -> emits body w e ds -> raises c w e ds.
Proof.
  intros Hc Hrun (args & w1 & Heq & H). exists args, w1. split; [|done].
  eapply raised_answer; [done|]. rewrite Hrun. by apply OnEvent_body.
Qed.
Lemma raises_void c w e ds where_ body :
  cancellable e = false -> run_call c = void (ignore (OnEvent where_ body)) -> emits body w e ds ->
  raises c w e ds.
Proof.
  intros Hc Hrun (args & w1 & Heq & H). exists args, w1. split; [|done].
  eapply raised_void; [done|]. rewrite Hrun. unfold void, ignore, pbind.
  by rewrite (OnEvent_body where_ body (fun _ => Emit e args w1) w Heq).
Qed.

Lemma Usable_adopt_id k id w : Usable (adopt_id k id w) = Usable w.
Proof. unfold Usable. by destruct (adopt_id_rt k id w) as [ps ->]. Qed.

(** A report: the body looks at the state first. *)
Lemma raises_report c w e ds args w1 where_ body after :
  cancellable e = false -> run_call c = void (pbind (Guarded where_ body) (fun _ => AfterCallback)) ->
  body w = pbind (Emit e args) (fun _ w => (Ret tt, after w)) w1 ->
  (forall w', after w' = w' \/ exists k id, after w' = release_id k id w') ->
  pools_kept w w1 -> get_bus w1 = get_bus w -> Forall2 (stands_for w1) ds args -> raises c w e ds.
Proof.
  intros Hc Hrun Hb Ha Hk Hbus Hst. exists args, w1. split; [|done].
  apply (raised_report _ _ _ _ _ where_ after); [done|done|]. rewrite Hrun.
  unfold void, pbind at 1 3. f_equal.
  unfold pbind, Guarded. by rewrite Hb.
Qed.

(** Arguments that are values. *)
Ltac values :=
  repeat first [apply Forall2_nil_2 | apply Forall2_cons; split];
  cbn [stands_for]; first [reflexivity | eexists; reflexivity].
Ltac emits_args :=
  first
  [ apply emits_EmitEntity; [done|intros; values]
  | apply emits_two; [done|intros; values]
  | apply emits_Emit; values
  | apply emits_unless_unheard; [done|]; emits_args ].

Lemma death_reason_doc reason part : wasted_reason reason part = doc_death_reason reason part.
Proof.
  assert (reason ∈ [43; 50] <-> reason = 43 \/ reason = 50) as H1
    by (rewrite !elem_of_cons, elem_of_nil; tauto).
  assert (reason ∈ [39; 40; 44] <-> reason = 39 \/ reason = 40 \/ reason = 44) as H2
    by (rewrite !elem_of_cons, elem_of_nil; tauto).
  unfold wasted_reason, doc_death_reason.
  destruct (Z.eqb_spec reason 43), (Z.eqb_spec reason 50), (Z.eqb_spec reason 39),
    (Z.eqb_spec reason 40), (Z.eqb_spec reason 44), (Z.eqb_spec part vcmpBodyPartInVehicle); simpl;
    repeat case_decide; intuition congruence.
Qed.

Lemma command_stands w' obj m :
  let '(words, text) := command_words (default "" m) in
  Forall2 (stands_for w')
    [match words with [] => DNil | word :: _ => DText (Some word) end;
     match tail words with [] => DNil | args => DArray (LString <$> args) end;
     DText (Some match words with [] => "" | _ => text end)] (command_args obj m).
Proof.
  unfold command_args. destruct (command_words _) as [[|word [|arg args]] text]; simpl; [values|values|].
  repeat first [apply Forall2_nil_2 | apply Forall2_cons; split]; [done| |done].
  exists obj. do 2 f_equal. unfold array_entries. by rewrite <- fmap_cons, imap_fmap.
Qed.

Lemma row_inv {A B} (a a' : A) (b b' : B) : Some (a, b) = Some (a', b') -> a' = a /\ b' = b.
Proof. by intros [= -> ->]. Qed.

Lemma numbered_entries {A} (f : A -> lua_value) (l : list A) :
  imap (fun i a => (LInt (Z.of_nat i + 1), f a)) l = array_entries (f <$> l).
Proof. unfold array_entries. by rewrite imap_fmap. Qed.

Lemma OnPlayerDeath_raises id killer reason part w e ds :
  pools_wf (get_pools w) -> (forall k id, env_queries (adopt_id k id w) = env_queries w) ->
  documented (env_queries w) (CPlayerDeath id killer reason part) = Some (e, ds) ->
  raises (CPlayerDeath id killer reason part) w e ds.
Proof.
  intros Hwf Hq Hdoc.
  assert (forall r w1, SeenPlayer id w = (Ret r, w1) -> env_queries w1 = env_queries w) as Hq1.
  { intros r w1. unfold SeenPlayer, SeenRef. destruct (negb _); intros [= _ <-]; [done|apply Hq]. }
  eapply raises_void; [|reflexivity|].
  { cbn [documented] in Hdoc. by destruct (_ && _); injection Hdoc as <- _. }
  destruct (SeenRef_ref Player id w Hwf) as (r & w1 & Hs & Hk & Hb & Hr).
  assert (pools_wf (get_pools w1)) as Hwf1 by (by apply (pk_wf _ _ Hk)).
  specialize (Hq1 r w1 Hs).
  assert (emits (fun w => let connected := match IsPlayerConnected (env_queries w) with
        | Some f => negb (f killer =? 0) | None => false end in
      if (0 <=? killer) && connected then
        pbind (SeenPlayer killer) (fun killer =>
          Emit PlayerKill [ARef Player killer; ARef Player r; AInt reason; AInt part]) w
      else Emit PlayerWasted [ARef Player r; AInt (wasted_reason reason part)] w) w1 e ds)
    as (args & w2 & Heq & Hk2 & Hb2 & Hst).
  { unfold emits. cbv zeta. rewrite Hq1. cbn [documented] in Hdoc.
    destruct ((0 <=? killer) && _); apply row_inv in Hdoc as [-> ->].
    - apply emits_Seen; [done|]. intros r' w2 Hk2 _ Hr'. apply emits_Emit.
      apply Forall2_cons; split; [by exists r'|]. apply Forall2_cons; split; [|values].
      exists r. split; [done|by eapply ref_of_kept].
    - rewrite death_reason_doc. apply emits_Emit. apply Forall2_cons; split; [by exists r|values]. }
  exists args, w2. split_and!; [|by etransitivity|congruence|done].
  unfold pbind at 1. unfold SeenPlayer at 1. rewrite Hs. exact Heq.
Qed.

Lemma call_raises c w e ds :
  pools_wf (get_pools w) -> (forall k id, env_queries (adopt_id k id w) = env_queries w) ->
  Dispatchable w = true -> documented (env_queries w) c = Some (e, ds) ->
  HasHandlers (get_bus w) (Index e) = true -> raises c w e ds.
Proof.
  intros Hwf Hq Hd Hdoc Hh. apply andb_true_iff in Hd as [HL HU].
  destruct c; try (by apply OnPlayerDeath_raises); cbn [documented] in Hdoc; try discriminate Hdoc;
    try (apply row_inv in Hdoc as [-> ->];
         first [ eapply raises_answer; [reflexivity|reflexivity|emits_args]
               | eapply raises_void; [reflexivity|reflexivity|emits_args] ]).
  - apply row_inv in Hdoc as [-> ->].
    eapply (raises_report _ _ _ _ [ARef Player (Ref (pool_of Player (adopt_id Player id w)) id)]
      (adopt_id Player id w) "OnPlayerConnect" _ (fun w => w));
      [reflexivity|reflexivity| |by left|apply adopt_id_kept|apply get_bus_adopt_id|].
    + cbv beta. rewrite HL. cbn [negb]. cbv zeta. by rewrite Usable_adopt_id, HU.
    + apply Forall2_cons; split; [|values]. eexists. split; [done|by apply adopt_id_ref].
  - apply row_inv in Hdoc as [-> ->].
    eapply (raises_report _ _ _ _ [ARef Player (Ref (pool_of Player (adopt_id Player id w)) id); AInt reason]
      (adopt_id Player id w) "OnPlayerDisconnect" _
      (fun w => if Live w then release_id Player id w else w));
      [reflexivity|reflexivity| | |apply adopt_id_kept|apply get_bus_adopt_id|].
    + cbv beta. rewrite HL. cbn [negb]. cbv zeta. unfold pbind. rewrite Usable_adopt_id, HU.
      by destruct (Emit _ _ _) as [[?|?|] ?].
    + intros w'. destruct (Live w'); [right; by exists Player, id|by left].
    + apply Forall2_cons; split; [|values]. eexists. split; [done|by apply adopt_id_ref].
  - apply row_inv in Hdoc as [-> ->]. set (gone := negb (deleted =? 0)).
    set (w1 := match FromServerPool type with
               | Some k => if negb gone then adopt_id k id w else w | None => w end).
    assert (pools_kept w w1 /\ get_bus w1 = get_bus w /\ Usable w1 = true) as (Hk & Hb & HU1).
    { unfold w1. destruct (FromServerPool type) as [k|]; [|done]. destruct (negb gone); [|done].
      split_and!; [apply adopt_id_kept|apply get_bus_adopt_id|by rewrite Usable_adopt_id]. }
    eapply (raises_report _ _ _ _ [AInt type; AInt id; ABool gone] w1 "OnEntityPoolChange" _
      (fun w => if Live w && gone then match FromServerPool type with
         | Some k => release_id k id w | None => w end else w));
      [reflexivity|reflexivity| | |done|done|values].
    + cbv beta. rewrite HL. cbn [negb]. cbv zeta. fold gone. fold w1. unfold pbind. rewrite HU1.
      by destruct (Emit _ _ _) as [[?|?|] ?].
    + intros w'. destruct (_ && _); [|by left].
      destruct (FromServerPool type) as [k|]; [right; by exists k, id|by left].
  - destruct (command_words (default "" m)) as [words text] eqn:Ew.
    apply row_inv in Hdoc as [-> ->]. eapply raises_answer; [reflexivity|reflexivity|].
    apply emits_Seen; [done|]. intros r w1 _ _ Hr. apply emits_Emit.
    apply Forall2_cons; split; [by exists r|].
    pose proof (command_stands w1 (env_new_obj 1 w1) m) as Hst. by rewrite Ew in Hst.
  - apply row_inv in Hdoc as [-> ->]. eapply raises_void; [reflexivity|reflexivity|].
    apply emits_unless_unheard; [done|]. apply emits_Emit. rewrite !numbered_entries. values.
Qed.

(** ** The types of the arguments *)

(** Every value that stands for [d] fits the shape [s]. *)
Definition fits_shape (d : doc_value) (s : shape) : Prop := forall w v, given w d v -> fits s v.

Lemma entity_fits k id : fits_shape (DEntity k id) (maybe k).
Proof.
  intros w v. cbn [given]. destruct (InRange _ _); [|by intros ->; right].
  intros (h & -> & Hk & _). left. by exists h.
Qed.

Lemma array_fits s vs : Forall (fits s) vs -> fits_shape (DArray vs) (ArrayOf s).
Proof. intros Hvs w v (o & ->). exists o, vs. by split. Qed.

Definition given_text (d : doc_value) : Prop := match d with DText None => False | _ => True end.
Lemma text_fits t : given_text (DText t) -> fits_shape (DText t) Str.
Proof. intros Ht w v ->. destruct t as [t|]; [by exists t|done]. Qed.

Lemma command_text_fits words :
  fits_shape (match words with [] => DNil | word :: _ => DText (Some word) end) (Either Str Nil).
Proof. intros w v. destruct words; intros ->; [by right|left; by eexists]. Qed.
Lemma command_args_fit words :
  fits_shape (match tail words with [] => DNil | args => DArray (LString <$> args) end)
    (Either (ArrayOf Str) Nil).
Proof.
  intros w v. destruct (tail words) as [|word args]; [intros ->; by right|]. intros (o & ->). left.
  exists o, (LString <$> word :: args). split; [done|]. apply Forall_fmap, Forall_true. intros x.
  by exists x.
Qed.

Ltac fits_row :=
  repeat first [apply Forall2_nil_2 | apply Forall2_cons; split];
  first
  [ apply entity_fits
  | by apply text_fits
  | by intros ? ? ->; eexists
  | apply command_text_fits | apply command_args_fit
  | by intros ? ? [? ->]; eexists
  | apply array_fits, Forall_fmap, Forall_true; intros; by eexists ].

Lemma documented_fits q c e ds :
  documented q c = Some (e, ds) -> texts_given ds ->
  exists ss, doc_arguments e = Some ss /\ Forall2 fits_shape ds ss.
Proof.
  intros Hdoc Ht. change (Forall given_text ds) in Ht.
  destruct c; cbn [documented] in Hdoc; try discriminate Hdoc;
    try (destruct ((0 <=? killer) && _)); try (destruct (command_words _) as [words text]);
    apply row_inv in Hdoc as [-> ->]; (eexists; split; [reflexivity|]);
    repeat (apply Forall_cons in Ht as [? Ht]); fits_row.
Qed.

(** The documented events are the built-in ones. *)
Lemma event_names :
  Forall (fun n => n ∈ kNames) (fst <$> doc_events) /\ Forall (fun n => n ∈ fst <$> doc_events) kNames.
Proof. split; apply (bool_decide_unpack _); vm_compute; exact I. Qed.

(** ** Properties *)

End callbacks.
