(* ===== verification/Demos.v ===== *)
(** Concrete plugins: worlds with scripts, on which the theorems that take
    assumptions about Lua code, the server or libcurl are applied. *)
From stdpp Require Import base tactics list gmap strings.
From Stdlib Require Import ZArith Lia Floats.SpecFloat.
From S2P Require Import Prelude.
From S2P Require Import EntityPool.
From S2P Require Import LuaValue.
From S2P Require Import Invoker.
From S2P Require Import EventBus.
From S2P Require Import Dispatch.
From S2P Require Import EntityPools.
From S2P Require Import Scheduler.
From S2P Require Import Config.
From S2P Require Import Http.
From S2P Require Import World.
From S2P Require Import Runtime.
From S2P Require Import ApiGuard.
From S2P Require Import Args.
From S2P Require Import ServerCalls.
From S2P Require Import EntityType.
From S2P Require Import VehicleMembers.
From S2P Require Import BindMembers.
From S2P Require Import ServerMembers.
From S2P Require Import Plugin.
From S2P Require Import Callbacks.
From S2P Require Import Bindings.
From S2P Require Import ScriptRel.
From S2P Require Import MemberRel.
From S2P Require Import Members.
From S2P Require Import Creates.
From S2P Require Import Documented.
From S2P Require Import Conforms.
From S2P Require Import Interp.
From S2P Require Import Safety.
From S2P Require Import EventDocs.
From S2P Require Import ArgDocs.
From S2P Require Import ArgConforms.
Open Scope Z_scope.

#[local] Existing Instance plain_lib.

(** The assumptions on the world hold where Lua runs scripts. *)
#[export] Instance interp_good sd n : GoodEnv (interp sd n).
Proof.
  split.
  - apply interp_respects.
  - intros path w. destruct n; reflexivity.
  - intros w. destruct n; reflexivity.
  - intros k f id w. destruct n, k; simpl; by intros [= <-].
  - intros w. destruct n; simpl; (split; [constructor|by intros m ?%not_elem_of_nil]).
  - intros w. destruct n; simpl; by destruct (h_config (rest w)).
Qed.

#[export] Instance interp_quiet sd n : QuietTeardown (interp sd n).
Proof.
  split.
  - intros k f id w. destruct n, k; simpl; intros [= <-]; by split_and!.
  - intros w. by destruct n.
Qed.

(** ** A plugin with an event, a timer and a script file *)

(** Function 0 is the prelude's Copas step. 1 unbinds itself, 2 cancels the
    event, 3 and 9 do nothing, 4 is a timer's callback that creates another
    timer and destroys its own, 5 kicks player 3, 6 asks the server to shut
    down, 7 is the chunk of main.lua: it binds 3 to onServerFrame, 8 triggers
    the event that calls it. *)
Definition op (o : operation) (s : script) : script := SOp o (fun _ => s).

Definition demo_functions : gmap Z (list lua_value -> script) :=
  list_to_map
    [ (0, fun _ => SReturn);
      (1, fun _ => op (OpUnbind "hello" (LFunction 1)) SReturn);
      (2, fun _ => op OpCancel SReturn);
      (3, fun _ => SReturn);
      (4, fun _ => op (OpTimer (LFunction 3) (LInt 0) (LInt 1) [])
                     (op (OpDestroy 1) (op (OpThisTimer (LInt 5)) SReturn)));
      (5, fun _ => op (OpKick 3 1) SReturn);
      (6, fun _ => op OpShutdown SReturn);
      (7, fun _ => op (OpBind "onServerFrame" (LFunction 3)) SReturn);
      (8, fun _ => op (OpTrigger "onPlayerSpawn" []) (SRaise (LString "done"))) ].

(** A server with some functions: it creates vehicle 5, reporting it, deletes
    what it is told to, reporting that too, and answers some questions. *)
Definition ok_answer : answer := mkAnswer 0 (S754_zero false) [] [] "".
Definition demo_float (z : Z) : spec_float := int_to_float32 z.
Definition demo_function (name : string) : option (list cval -> Z -> list server_event * answer) :=
  if String.eqb name "CreateVehicle" then
    Some (fun _ _ => ([EPool vcmpEntityPoolVehicle 5 0], mkAnswer 5 (S754_zero false) [] [] ""))
  else if String.eqb name "DeleteVehicle" then
    Some (fun args _ => (match args with CInt id :: _ => [EPool vcmpEntityPoolVehicle id 1] | _ => [] end,
                         ok_answer))
  else if String.eqb name "GetVehicleRotation" then
    Some (fun _ _ => ([], mkAnswer 0 (S754_zero false) [] (map demo_float [1; 2; 3; 4]) ""))
  else if String.eqb name "GetWastedSettings" then
    Some (fun _ _ => ([], mkAnswer 0 (S754_zero false) [10; 20; 30; 40; 50] (map demo_float [1; 2]) ""))
  else if existsb (String.eqb name)
    ["GetVehicleRotationEuler"; "SetVehicleRotation"; "SetWastedSettings"; "GetLastError"] then
    Some (fun _ _ => ([], ok_answer))
  else None.
Definition demo_server : ServerData :=
  mkServer 2360 (fun o => name ← PluginFuncs_names !! Z.to_nat ((o - 8) / 8); demo_function name)
    "bad self" (fun _ => false) true.

Definition demo_heap : Heap :=
  mkHeap demo_functions {[ "main.lua" := 7 ]} 100 0 (mkQueries None None None) (inr default_config).

Definition demo_config : Config :=
  mkConfig ["main.lua"] "lua/?.lua" (log_cfg default_config) (http_cfg default_config).

Definition demo_world : World Heap :=
  mkWorld (new_runtime demo_config) true false [] 1000 8000 demo_heap.

Definition demo_env : Env Heap := interp demo_server 200.
#[local] Existing Instance demo_env.
#[export] Instance demo_good : GoodEnv demo_env := interp_good demo_server 200.
#[export] Instance demo_teardown : QuietTeardown demo_env := interp_quiet demo_server 200.

(** The bus with handlers bound to [event], as [Event.bind] binds them. *)
Fixpoint bind_all (event : nat) (fs : list Z) (b : EventBus) : EventBus :=
  match fs with
  | [] => b
  | f :: fs => bind_all event fs
      (match BindHandler true b event f with Ret (_, b) => b | _ => b end)
  end.

Lemma bind_all_wf event fs b : bus_wf b -> bus_wf (bind_all event fs b).
Proof.
  revert b. induction fs as [|f fs IH]; intros b Hb; simpl; [done|]. apply IH.
  destruct (BindHandler true b event f) as [[r b']|e|] eqn:E; [|done..].
  by apply (step_wf _ _ (BindHandler_step _ _ _ _ _ _ E)).
Qed.

Definition demo_bus : EventBus := bind_all 47 [1; 3; 2; 9] (snd (Create new_bus "hello")).

Lemma demo_bus_wf : bus_wf demo_bus.
Proof. apply bind_all_wf. apply (step_wf _ _ (Create_step new_bus "hello")), new_bus_wf. Qed.

Definition with_bus (b : EventBus) (w : World Heap) : World Heap := upd_rt (set_r_events b) w.

Lemma push_nothing_respects (R : World Heap -> World Heap -> Prop) `{!PreOrder R} :
  respects R (pret ([] : list lua_value)).
Proof. by apply respects_pret. Qed.

(** The first handler unbinds itself, the third cancels, so the fourth is not called. *)
Lemma Dispatch_refines_witness :
  fst (Dispatch 47 (pret []) (with_bus demo_bus demo_world)) = Ret true.
Proof.
  destruct (Dispatch_refines 47 (pret []) (with_bus demo_bus demo_world)) as (Heq & _).
  - exact demo_bus_wf.
  - by apply push_nothing_respects, _.
  - done.
  - rewrite Heq. vm_compute. reflexivity.
Defined.

(** The handler raises an error, and the depth is what it was. *)
Lemma Call_balances_depth_witness :
  fst (Call 8 "test" (pret []) demo_world) = Ret false /\
  depth (get_invoker (snd (Call 8 "test" (pret []) demo_world))) = 0.
Proof.
  split; [by vm_compute|].
  refine (eq_trans (Call_balances_depth 8 "test" (pret []) demo_world
    (push_nothing_respects inv_rel) _) _); vm_compute; reflexivity.
Defined.

(** The handler that unbound itself is gone from the list. *)
Lemma outermost_dispatch_compacts_witness :
  lists (get_bus (snd (Dispatch 47 (pret []) (with_bus demo_bus demo_world)))) !! 47%nat =
    Some [mkHandler 3 true; mkHandler 2 true; mkHandler 9 true] /\
  forall h, h ∈ [mkHandler 3 true; mkHandler 2 true; mkHandler 9 true] -> h_alive h = true.
Proof.
  assert (lists (get_bus (snd (Dispatch 47 (pret []) (with_bus demo_bus demo_world)))) !! 47%nat =
    Some [mkHandler 3 true; mkHandler 2 true; mkHandler 9 true]) as Hl by (by vm_compute).
  split; [exact Hl|]. intros h Hh.
  eapply (outermost_dispatch_compacts 47 (pret []) (with_bus demo_bus demo_world) true);
    [exact demo_bus_wf|apply push_nothing_respects; apply _|by vm_compute|by vm_compute|by vm_compute
    |by eapply list_elem_of_lookup_2, Hl|exact Hh].
Defined.

(** ** Timers *)

Definition with_timers (s : Scheduler) (w : World Heap) : World Heap := upd_rt (set_r_timers s) w.

(** Timer 1 was due at 1000 and runs function 4 for the last of 2 times or
    before; timer 2 is due later. *)
Definition due_sched : Scheduler :=
  mkSched {[ 1 := mkTimer 4 [] (Some (TimerHandle 1)) 50 2 1000 false false;
             2 := mkTimer 3 [LInt 7] (Some (TimerHandle 2)) 100 (-1) 1500 false false ]} 3 [].

Lemma due_sched_wf : sched_wf due_sched /\ idle due_sched.
Proof.
  assert (forall id t, timers due_sched !! id = Some t ->
    (id = 1 \/ id = 2) /\ timer_wf t /\ running t = false) as H.
  { intros id t. simpl. intros [[<- <-]|[_ [<- <-]%lookup_singleton_Some]]%lookup_insert_Some;
      (split_and!; [auto|split; simpl; unfold kMaxInterval, kForever; try done; lia|done]). }
  split; [split|].
  - intros id t (Hid & _)%H. simpl. lia.
  - by intros id t (_ & Hw & _)%H.
  - done.
  - by intros id t (_ & _ & Hr)%H.
Qed.


(** The callback assigns to [thisTimer]; it is nil again afterwards. *)
Lemma Run_restores_thisTimer_witness :
  this_timer (snd (Run 1 1000 (with_timers due_sched demo_world))) = LNil.
Proof.
  refine (eq_trans (Run_restores_thisTimer 1 1000 (with_timers due_sched demo_world)
    (mkTimer 4 [] (Some (TimerHandle 1)) 50 2 1000 false false) (proj1 due_sched_wf) _ _ _ _) _);
    vm_compute; reflexivity.
Defined.

(** ** Requests *)

Definition with_http (h : Http) (w : World Heap) : World Heap := upd_rt (set_r_http h) w.

Definition pending_http : Http := snd (Start None (snd (Start None (new_http "") 3)) 8).

Lemma pending_http_wf : http_wf pending_http.
Proof. do 2 apply (hst_wf _ _ (Start_step _ _ _)). apply new_http_wf. Qed.

(** Request 1 finishes, request 2 stays pending. *)
Definition demo_report : curl_report :=
  mkReport None [(1, EData "ok")] [mkMessage 1 0 "" "" 200 (Some "http://a/")].


(** ** The plugin *)

(** A reload: the bindings raise errors and nothing is held from the first step on. *)
Lemma Shutdown_releases_before_close_witness :
  exists w1, Shutdown Reload (with_bus demo_bus demo_world) =
      upd_rt (set_r_lua false) (env_close w1) /\ released w1 /\ Usable w1 = false.
Proof.
  destruct (Shutdown_releases_before_close Reload (with_bus demo_bus demo_world))
    as (w1 & H1 & H2 & H3 & _); [vm_compute; reflexivity..| |exists w1; exact (conj H1 (conj H2 H3))].
  intros k f id w Hf. exact (proj2 (quiet_delete k f id w Hf)).
Defined.

(** The handler of the event asks the server to shut down. *)
Definition shutdown_bus : EventBus := bind_all 47 [6] (snd (Create new_bus "hello")).

Lemma emit_hello_respects : respects plugin_rel (Dispatch 47 (pret [])).
Proof. apply Dispatch_respects_blind; try apply _. by apply push_nothing_respects, _. Qed.



Lemma callbacks_tolerate_no_runtime_witness :
  OnEvent "test" (Dispatch 47 (pret [])) (set_present false demo_world) =
    (Ret 1, set_present false demo_world).
Proof.
  exact (proj1 (callbacks_tolerate_no_runtime "test" (Dispatch 47 (pret []))
    (S754_zero false) (set_present false demo_world) eq_refl)).
Defined.

Lemma demo_world_quiet : quiet demo_world.
Proof. exact (new_runtime_quiet demo_config demo_world). Qed.

Lemma demo_pools_wf : pools_wf (get_pools demo_world).
Proof. exact (ok_pools _ (q_ok _ demo_world_quiet)). Qed.



(** A session: the scripts load, a frame runs the handler main.lua bound, a
    player connects and is kicked by the other player's message, the server
    shuts down, and calls once more. *)
Definition demo_session : list server_call :=
  [CServerInitialise; CServerFrame (S754_zero false); CPlayerConnect 3;
   CPlayerMessage 4 (Some "kick"); CServerShutdown; CPlayerSpawn 4].

Lemma every_session_is_safe_witness :
  length (fst (run_calls demo_session demo_world)) = 6%nat /\
  Forall (fun r => exists z, r = Ret z) (fst (run_calls demo_session demo_world)).
Proof.
  destruct (every_session_is_safe demo_session demo_world demo_world_quiet) as (Hr & Hl & _).
  split; [exact Hl|exact Hr].
Defined.

(** ** Entity bindings *)

#[local] Instance demo_fns : ServerFns Heap := data_server demo_server.
#[local] Instance demo_fns_respect : ServerRespects demo_fns := data_server_respects demo_server.

(** Lua calls a method: the handle, then the arguments. *)
Definition method_state (name : string) (h : EntityHandle) (args : list lua_value) : lua_State :=
  mkState (Some (mkDebug (Some name) "method")) (LHandle h :: args).
(** Lua assigns to a property. *)
Definition property_state (h : EntityHandle) (key : string) (v : lua_value) : lua_State :=
  mkState (Some (mkDebug (Some "newindex") "metamethod")) [LHandle h; LString key; v].

Definition dead_vehicle : EntityHandle := mkHandle 90 Vehicle 5 1.

Lemma demo_dead : dead_handle Vehicle (method_state "respawn" dead_vehicle []) demo_world dead_vehicle.
Proof. split; vm_compute; reflexivity. Qed.


(** The vehicle 5 of the demo server. *)
Definition with_vehicle : World Heap :=
  upd_pool Vehicle (fun p => fst (Adopt p 5)) demo_world.
Definition live_vehicle : EntityHandle := mkHandle 90 Vehicle 5 1.
Definition the_vehicle : EntityType.Live := mkLive 5 1.

Lemma with_vehicle_wf : pools_wf (get_pools with_vehicle).
Proof.
  apply (pools_wf_upd Vehicle (fun p => fst (Adopt p 5)) demo_world demo_pools_wf).
  intros p Hp. split; [by apply Adopt_wf|apply kind_Adopt].
Qed.

(** A bind the pool still has; the server has none. *)
Definition with_bind : World Heap := upd_pool Bind (fun p => fst (Adopt p 3)) demo_world.
Definition old_bind : EntityHandle := mkHandle 90 Bind 3 1.

Lemma demo_removed : removed_bind (method_state "getData" old_bind []) with_bind old_bind.
Proof.
  split; try (vm_compute; reflexivity).
  apply (pools_wf_upd Bind (fun p => fst (Adopt p 3)) demo_world demo_pools_wf).
  intros p Hp. split; [by apply Adopt_wf|apply kind_Adopt].
Qed.

(** bind:getData() of a bind that another plugin removed. *)
Lemma removed_binds_are_released_witness :
  exists p, use_member Bind (Method getData) ACall (method_state "getData" old_bind []) = Some p /\
    p with_bind = (Throw (RuntimeError "bind no longer exists"), release_id Bind 3 with_bind).
Proof.
  destruct (removed_binds_are_released "getData" (Method getData) ACall
    (method_state "getData" old_bind []) with_bind old_bind _ demo_removed
    ltac:(unfold class_of; rewrite elem_of_app; right; cbn [own_members]; unfold RegisterBind;
          repeat constructor)
    eq_refl) as [[body [=]]|[Hn|(e & w' & He & Hk & _)]].
  - exfalso. repeat (apply elem_of_cons in Hn as [[=]|Hn]). by apply not_elem_of_nil in Hn.
  - eexists. split; [reflexivity|]. destruct Hk as [-> ->]; [done|]. exact He.
Defined.

(** Sound.play, on a server that lacks the function. *)
Definition play_state : lua_State :=
  mkState (Some (mkDebug (Some "play") "method")) [LInt 7; LString "x"].

Lemma bindings_are_defined_witness :
  is_UB (fst (play play_state 1 demo_world)) = false /\
  (forall p, use_member Vehicle (Method repair) ACall (method_state "repair" live_vehicle []) = Some p ->
     is_UB (fst (p with_vehicle)) = false).
Proof.
  destruct (bindings_are_defined demo_world) as (_ & _ & Ht).
  destruct (bindings_are_defined with_vehicle) as (Hm & _ & _). split.
  - refine (proj2 (Ht "Sound" RegisterSound "play" play play_state 1 _ _)); repeat constructor.
  - intros p Hp. refine (proj2 (Hm Vehicle "repair" (Method repair) _ _ p _ Hp) _); [|reflexivity].
    unfold class_of. rewrite elem_of_app. right. cbn [own_members]. unfold RegisterVehicle.
    rewrite !elem_of_app. right. left. unfold vehicle_methods_1. repeat constructor.
Defined.


Lemma create_gives_a_live_handle_witness :
  exists h w', created_ref Vehicle 5 (method_state "create" live_vehicle []) 1 demo_world =
      (Ret ([LHandle h], 1), w') /\ h_id h = 5 /\ 5 ∈ CreatedByUs (pool_of Vehicle w').
Proof.
  destruct (create_gives_a_live_handle Vehicle (method_state "create" live_vehicle []) 1 5 demo_world
    demo_pools_wf) as (_ & _ & H); [vm_compute; reflexivity|].
  destruct H as (h & w' & H1 & _ & H2 & _ & H3); [vm_compute; reflexivity|].
  by exists h, w'.
Defined.


(** ** Rotations and settings *)

Definition rotation_state (v : lua_value) : lua_State := property_state live_vehicle "rotation" v.
Definition flat_rotation : lua_value := LTable 70 (numbered (map demo_float [1; 2; 3])).
(** {quaternion = {quaternion = {1, 2, 3}}} *)
Definition deep_rotation : lua_value :=
  LTable 72 [(LString "quaternion", LTable 71 [(LString "quaternion", flat_rotation)])].

(** Three tables: two free slots are too few. *)
Lemma rotation_table_ends_with_enough_slots_witness :
  SetRotationFromTable 2 the_vehicle (rotation_state deep_rotation) 3 false demo_world = (UB, demo_world).
Proof.
  destruct (rotation_table_ends_with_enough_slots the_vehicle (rotation_state deep_rotation) 3 false
    deep_rotation eq_refl) as (n & t & Hn & _ & Hub). apply Hub.
  inversion Hn as [? E|? ? m ? E Hm]; [discriminate E|]. injection E as <-.
  inversion Hm as [? E'|? ? m' ? E' Hm']; [discriminate E'|]. injection E' as <-.
  inversion Hm'; lia.
Defined.

Lemma rotation_round_trip_witness :
  exists t, fst (GetRotation the_vehicle (rotation_state LNil) 3 demo_world) = Ret ([t], 3).
Proof.
  destruct (rotation_round_trip the_vehicle the_vehicle false (rotation_state LNil) (rotation_state LNil) 3 3
    demo_world
    (snd (call "GetVehicleRotationEuler" [self_id the_vehicle] demo_world))
    (snd (call "GetVehicleRotation" [self_id the_vehicle]
       (snd (call "GetVehicleRotationEuler" [self_id the_vehicle] demo_world))))
    demo_world ok_answer (mkAnswer 0 (S754_zero false) [] (map demo_float [1; 2; 3; 4]) "")
    (demo_float 1) (demo_float 2) (demo_float 3) (demo_float 4)) as (t & Ht & _).
  - rewrite (surjective_pairing (call "GetVehicleRotationEuler" _ _)) at 1. f_equal; vm_compute; reflexivity.
  - reflexivity.
  - rewrite (surjective_pairing (call "GetVehicleRotation" _ _)) at 1. f_equal; vm_compute; reflexivity.
  - reflexivity.
  - reflexivity.
  - repeat (apply Forall_cons_2; [vm_compute; reflexivity|]). apply Forall_nil_2.
  - exists t. by rewrite Ht.
Defined.


(** Four-number forms: a type, a vector and a flag. *)
Lemma argument_forms_are_told_apart_witness :
  typed_speed (args_of None [LNil] [LInt 3; LInt 1; LFloat (demo_float 2); LInt 0; LBool true]) = true.
Proof.
  refine (proj1 (proj1 (argument_forms_are_told_apart None [LNil] [LInt 1; LFloat (demo_float 2); LInt 0]
    (LInt 3) (LInt 0) (LInt 0) (LInt 0) (LInt 0) _ _) [LBool true] _ _));
    [by apply vector_numbers|repeat constructor..].
Defined.

(** Vehicle.create(130, 1, {1, 2, 3}): no angle and no colours. *)
Lemma create_sends_the_documented_call_witness :
  let vs := [LInt 130; LInt 1; LTable 61 (numbered (map demo_float [1; 2; 3]))] in
  Vehicle_create (mkState None vs) 1 demo_world =
  create_by Vehicle "CreateVehicle"
    (map CInt [130; 1] ++ map CNum (map demo_float [1; 2; 3] ++ [S754_zero false]) ++
     map CInt [-1; -1]) (mkState None vs) 1 demo_world.
Proof.
  intros vs. destruct (create_sends_the_documented_call None Vehicle vs "CreateVehicle"
    (CInt 130 :: CInt 1 :: vec_args (mkVec3 (demo_float 1) (demo_float 2) (demo_float 3)) ++
     [CNum (S754_zero false); CInt (-1); CInt (-1)]) demo_world) as (body & Hb & Hs).
  - reflexivity.
  - apply (create_vehicle demo_world (LInt 130) 130 (LInt 1) 1
      [LTable 61 (numbered (map demo_float [1; 2; 3]))] _ _ []);
      try first [split; [reflexivity|vm_compute; split; discriminate]|by left].
    apply place_table; [|left; split; reflexivity].
    split_and!; eexists; (split; [reflexivity|vm_compute; reflexivity]).
  - injection Hb as <-. exact Hs.
Defined.

(** ** Events and arguments *)

Lemma adopt_id_rest {S : Type} {env : Env S} k id (w : World S) : rest (adopt_id k id w) = rest w.
Proof.
  unfold adopt_id. destruct (Adopt (pool_of k w) id) as [p warnings].
  generalize (upd_pool k (fun _ => p) w) as w1, (eq_refl : rest (upd_pool k (fun _ => p) w) = rest w).
  induction warnings as [|m ms IH]; intros w1 H1; [exact H1|]. apply IH. exact H1.
Qed.
Lemma demo_queries (w : World Heap) : env_queries (Env := demo_env) w = h_queries (rest w).
Proof. reflexivity. Qed.

(** Player 3 types a command; one handler is bound to it. *)
Definition command_bus : EventBus := bind_all (Index PlayerCommand) [3] new_bus.
Definition command_world : World Heap := with_bus command_bus demo_world.

Lemma with_bus_pools b (w : World Heap) k :
  get_pools (with_bus b w) = get_pools w /\ pool_of k (with_bus b w) = pool_of k w.
Proof. split; reflexivity. Qed.
Lemma demo_open k : closed (pool_of k demo_world) = false.
Proof. destruct k; vm_compute; reflexivity. Qed.

Lemma command_pools_wf : pools_wf (get_pools command_world).
Proof. unfold command_world. rewrite (proj1 (with_bus_pools _ _ Player)). exact demo_pools_wf. Qed.


(** vehicle:setPartStatus(1, true), and with two integers. *)
Lemma ready_with_vehicle : ready with_vehicle.
Proof. split; [vm_compute; reflexivity|intros []; vm_compute; reflexivity..]. Qed.

Lemma arguments_conform_to_the_documentation_witness :
  exists p message, use_entity Vehicle "setPartStatus" ACall
      (method_state "setPartStatus" live_vehicle [LInt 1; LBool true]) = Some p /\
    p with_vehicle = (Throw (ArgError
      (method_state "setPartStatus" live_vehicle [LInt 1; LBool true]) 3 message), with_vehicle).
Proof.
  destruct (arguments_conform_to_the_documentation
    (method_state "setPartStatus" live_vehicle [LInt 1; LBool true]) with_vehicle ready_with_vehicle)
    as (Hc & _).
  destruct (Hc Vehicle "setPartStatus" MethodUse [integer; integer]) as (p & Hp & message & Ha).
  - apply list_elem_of_In. vm_compute. repeat first [left; reflexivity | right].
  - exists live_vehicle. split_and!; [reflexivity..|vm_compute; reflexivity|discriminate].
  - exists p, message. split; [exact Hp|exact Ha].
Defined.
